(* ===== verification/_CoqProject ===== *)
-Q . S2P
Prelude.v
Env.v
Utils.v
Timer.v
Rtc.v
Interrupts.v
I8042.v
Keyboard.v
Mouse.v
Video.v
Cards.v
Game.v
Flip.v
MainLoop.v
Pointer.v
Invariants.v
Play.v
Win.v
Opening.v
Rules.v
Ending.v
Lab2.v
Lab3.v
Lab4.v
Lab4Idle.v
Lab5.v
Lab5Move.v
Lab5Pattern.v
Pixmaps.v
Screens.v
Frames.v
Lifecycle.v
Mains.v
