(* ===== verification/Prelude.v ===== *)
(** * LCOM Memory: a verification of a memory-card game on MINIX

    The repository holds a game for MINIX 3 on a PC (proj/src) and the
    laboratory exercises its drivers grew out of (lab0, lab2 to lab5). The game is one
    process: it deals eight pairs of cards, shows them face up, turns them over,
    and lets the player uncover pairs with the mouse; two different cards cost a
    life. It drives the timer, the real-time clock, the keyboard controller, the
    mouse and the graphics card itself, and takes interrupts as messages.

    ** Files

    - [Prelude]: what the models share. Code is a function of type [M S A], from
      a state to an [outcome]: a result with a state ([Done]), undefined behaviour
      of C ([Undef]), a stop by [panic] ([Panic]), or a [while] loop that used up
      its iterations ([NoFuel]). Loops of C are [for_range], [for_range_acc],
      [for_range_brk] (with [break]) and [loop] ([while (true)], with fuel).
      [zoom] runs the code of a component inside a larger state. [wp] is total
      correctness, [wlp] partial correctness, [bounded] says that code contains no
      unbounded loop and no [panic], and [keeps_rel R] that it takes a state only to
      states related to it by [R] (rules and hints, tactics [rel_step], [rel_all]).
    - [Env]: the code that is not in the repository, as typeclasses over an
      abstract world ([PortIO], [Irq], [Lcf], [Display], [Libc], [Messages]), the
      laws that state its documented behaviour, and concrete worlds ([script],
      [quiet]) in which the examples run.
    - [Utils] (proj/src/utils.c), [Timer] (timer.c), [Rtc] (rtc.c), [Keyboard]
      (keyboard.c), [Mouse] (mouse.c), [Video] (video.c): the drivers. Each has its
      globals as a record ([timer_st], [rtc_st], [kbd_st], [mouse_st],
      [video_st]) and one definition per function, over [globals * W]. [I8042]
      has what the two drivers of the keyboard controller share: the constants of
      i8042.h and the reasoning about polling its status.
    - [Cards] (structs.h and the deal of game.c), [Game] (the cursor and the
      screens of game.c), [Flip] (the turning of cards, the drawing of the board and
      the clicks of game.c): the game, over [game_st * (video_st * W)].
    - [MainLoop] (proj.c): [proj_main_loop] over [main_st], which has the globals of
      all parts and the local variables of the loop. The next files reason about
      it without modelling more code: [Pointer] (the mouse's interrupts and the
      cursor), [Invariants] (what every message keeps), [Play] (a player's try,
      over as many messages as it takes), [Win] (tries until all pairs are found),
      [Opening] (the menu and the start of a game), [Rules] (the memory game as an
      abstract machine, and moves of the program), [Ending] (the end of a game
      and the next deal) and [Lifecycle] (what a whole run takes from the kernel, its
      [account] of interrupt lines and of the graphics mode, and gives back).
    - [Pixmaps] (pixmap.h): the strings of the pixmaps and a reader of their
      format. [Screens] and [Frames] put them together with the drawing functions
      and with the ticks: pictures as stacks of [layer]s, with their equivalence.
    - [Lab2] (lab2/lab2.c, timer.c, utils.c), [Lab3] (lab3/lab3.c, keyboard.c, utils.c),
      [Lab4] (lab4/lab4.c, mouse.c; [Lab4Idle] proves its test of the idle time), and of lab5 [Lab5] (lab5.c, video_gr.c,
      timer.c), [Lab5Move] (video_test_move) and [Lab5Pattern]
      (video_test_pattern). The loop over interrupts that their tests share is
      [interrupt_loop] of [Interrupts]; a lab uses the model of an earlier
      lab or of the game for the functions that are the same. [Mains] has the
      functions [main], which hand over to the LCF.

    ** How state and operations correspond to the code

    A definition has the name of the function or variable it models where Rocq
    allows it, and the comment before it gives the file and the lines. Pointers
    to the result of a function are returned values ([None] when nothing was
    stored). Integers are [Z]; wrap-around of unsigned types is written out with
    [u8], [u16], [u32], and signed arithmetic that may overflow goes through
    [int_], which is undefined outside [int]. The frame buffer and the video memory
    are blocks with a size and a finite map of the bytes written: an access outside
    a block is [Undef]. A sprite is an image with its address and size: reading
    behind it is [Undef]. An array is a list, and an access outside it [Undef];
    a local variable that may be uninitialised is an [option]. Allocation and
    mapping may fail as in the code, which tests the second but not the first.

    ** What the theorems show

    - The deal ([Cards]): [deal_makes_a_board] (rejection sampling and shuffle give
      eight different pairs, each twice), [shuffle_index_exact],
      [match_iff_same_picture].
    - Turning cards ([Flip]): [flip_step] is the animation without its pictures;
      the code refines it, touching nothing but pixels ([flip_call_steps]). From
      it: [turn_down_in_frames], [turn_up_in_frames] (exact number of frames and
      final state), [mixed_turn_never_ends] (three cards that turn in both directions
      never stop, unless the odd one is behind the others), and for clicks [click_on_card] and [click_outside_undefined].
      The whole board is drawn as its specification [board_frames] says
      ([board_refines]).
    - The main loop ([MainLoop]): [state_transitions] (the state machine
      [next], for a message and for runs), [game_starts], [match_decides] (pairs, mistakes, lives),
      [third_click_mixes] (how the mixed turn comes about) and [menus_return] (a
      tick returns).
    - Whole runs: [messages_keep_wf] (any number of messages keeps all globals in
      their ranges; [program_ends_wf]: the set-up establishes this),
      [found_stay_found] (a found pair stays face up), [cursor_follows_motions]
      (where a sequence of packets leads the cursor: each displacement is applied
      three times), and [try_uncovers_and_compares] (holding the button over a
      card uncovers and compares it after an exact number of ticks).
    - Whole games: [perfect_game_wins] (from the menu, a player who knows the pairs
      wins, at an exact count of ticks), [program_refines_memory_game] (whatever
      cards the player picks, the program plays the machine [plays]: the same pairs
      found, the same lives, the same end) and [end_deals_again] (behind victory and
      defeat a new board is dealt and the menu is back).
    - Resources ([Lifecycle]): [returns_0_iff_clean] (a run that returns 0 has given
      back its three interrupt lines and the graphics mode, and any other run keeps
      one of them) and [setup_failure_leaves] (a set-up that fails returns 1 and
      keeps exactly the lines granted before).
    - What the player sees: [ticks_show_scenes] (after a tick of a state that is not about to
      change the monitor shows its picture, pixel by pixel as the pixmaps have it;
      [load_images_depict]: the set-up loads them) and [exit_leaves_the_loop] (the
      program ends with an empty screen behind the cursor).
    - The screen ([Video], [Game]): pixels ([my_draw_pixel_on_screen],
      [my_draw_pixel_edge]), cards ([vg_draw_card_shows_card]), fills and frames
      ([greenPartOfScreen_clips], [greenPartOfScreen_whole]: over the whole screen
      it is [greenScreen]; [frame_is_shown]), start-up ([vg_start_result]),
      all screens of the game ([screens_fit]), and the cursor
      ([mouse_position_bounds], [draw_mouse_defined]).
    - The drivers: the mouse's packets as a round trip, its errors and its
      commands ([Mouse]); scan codes as a round trip and the keyboard controller's
      loops ([Keyboard]); programming, refusal and bounds of the timer ([Timer]);
      the clock's date, against the two decimal digits of each register ([Rtc]).
    - The labs: [timer_test_int_counts], [kbd_test_scan_until_escape],
      [mouse_test_async_idles] and [video_test_move_arrives] (the tests end, after so
      many interrupts),
      [mouse_test_packet_prints], [mouse_test_gesture_ends] (the recogniser
      ends exactly when the motions [draw] the gesture, a figure that is defined apart from the code) and [gesture_overshoot],
      [vg_draw_rectangle_shows], [draw_sprite_shows] and [pattern_shows_colors]
      (what is on the screen), [lab5_control_word_selects_timer_0].

    ** Bounds and fuel

    [loop] takes the number of iterations it may use. Every theorem about a
    [while (true)] loop says how many are enough (one more than the polls the
    controller takes until it is ready; one more than the draws until eight pairs
    are different), or that no number is enough ([writeCommand_diverges]).
    [main_loop] takes one fuel for its messages and for the loops inside a
    message. [interrupt_loop] of the labs takes the number of messages it may
    receive, and the theorems about the tests count the messages that are enough;
    [try_takes] of [Play] is the exact number of messages of a try; a move of
    [Rules] takes 84 to 96 ticks, the game of [Opening] 960 in all, and the end of a
    game lasts until the next multiple of 240. Theorems over a new deal assume that
    the random numbers hold eight different cards within the fuel ([enough_draws]),
    which the world [counting] of [Ending] satisfies. [for] loops need none.

    ** What is not modelled, and why

    Text printed with [printf] (no effect on the program); lab0 (a greeting); [kbd_test_timed_scan] of
    lab3, which calls functions lab3 does not have; the pixels of the five large
    pixmaps (deck, victory, game_over, instructions, background: data; their
    sizes are in [Game]); what the code does after a failed read of the keyboard's status,
    when it tests an unspecified byte; the LCF, MINIX and the C library
    (parameters). Pointer arithmetic that leaves an object without an access is
    not counted as undefined, and [xpm_load]'s memory is never freed by the code,
    which the model does not track. [float] and [double] variables of the code
    only hold integers (the result of [driver_receive], [bestTime]) and are [Z]. *)
From stdpp Require Export base decidable numbers list option gmap strings.
From Stdlib Require Export ZArith Lia Bool.

#[global] Open Scope Z_scope.
#[global] Set Default Goal Selector "!".
#[global] Arguments Z.testbit : simpl never.
#[global] Arguments Z.land : simpl never.
#[global] Arguments Z.lor : simpl never.

(** ** Outcomes of C code

    [Done a s]: the code returned [a] in state [s].
    [Undef]: the code has undefined behaviour (an access outside a block, a
    read of an uninitialised index, a division by zero, a signed overflow).
    [Panic]: the process was stopped by the MINIX [panic] routine.
    [NoFuel]: a [while(true)] loop used up the iterations it was given. *)
Inductive outcome (S A : Type) : Type :=
  | Done (a : A) (s : S)
  | Undef
  | Panic
  | NoFuel.
Arguments Done {S A} a s.
Arguments Undef {S A}.
Arguments Panic {S A}.
Arguments NoFuel {S A}.

(** Stateful code over the state type [S]. *)
Definition M (S A : Type) : Type := S -> outcome S A.

Definition ret {S A} (a : A) : M S A := fun s => Done a s.

Definition bind {S A B} (m : M S A) (k : A -> M S B) : M S B := fun s =>
  match m s with
  | Done a s' => k a s'
  | Undef => Undef
  | Panic => Panic
  | NoFuel => NoFuel
  end.

Definition undef {S A} : M S A := fun _ => Undef.
Definition panic {S A} : M S A := fun _ => Panic.
Definition nofuel {S A} : M S A := fun _ => NoFuel.
Definition get {S} : M S S := fun s => Done s s.
Definition gets {S A} (f : S -> A) : M S A := fun s => Done (f s) s.
Definition put {S} (s : S) : M S unit := fun _ => Done tt s.
Definition modify {S} (f : S -> S) : M S unit := fun s => Done tt (f s).
Definition skip {S} : M S unit := ret tt.

(** A value that C computes from a pointer or an index that may be invalid. *)
Definition of_option {S A} (o : option A) : M S A :=
  match o with Some a => ret a | None => undef end.

Declare Scope c_scope.
Delimit Scope c_scope with c.
Notation "'let*' x ':=' m 'in' k" := (bind m (fun x => k))
  (at level 10, x name, m at level 100, k at level 200) : c_scope.
Notation "'let*' ' p ':=' m 'in' k" := (bind m (fun x => match x with p => k end))
  (at level 10, p pattern, m at level 100, k at level 200) : c_scope.
Notation "m ;; k" := (bind m (fun _ => k)) (at level 100, k at level 200, right associativity) : c_scope.
Notation "'when' b 'do' m" := (if b then m else skip)
  (at level 60, b at level 99, m at level 60) : c_scope.
#[global] Open Scope c_scope.

(** ** Loops

    [for_acc n i a body] runs [body] at [i], [i+1], ..., [n] times, threading a
    local variable [a]; a [for] loop of C whose body may [break] is
    [for_brk]. [loop] is [while (true)] with a bound on the iterations. *)
Inductive ctl (A : Type) : Type := Next (a : A) | Break (a : A).
Arguments Next {A} a.
Arguments Break {A} a.

Fixpoint for_brk {S A} (n : nat) (i : Z) (a : A) (body : Z -> A -> M S (ctl A)) : M S A :=
  match n with
  | O => ret a
  | Datatypes.S n' =>
      let* c := body i a in
      match c with
      | Next a' => for_brk n' (i + 1) a' body
      | Break a' => ret a'
      end
  end.

Fixpoint for_acc {S A} (n : nat) (i : Z) (a : A) (body : Z -> A -> M S A) : M S A :=
  match n with
  | O => ret a
  | Datatypes.S n' => let* a' := body i a in for_acc n' (i + 1) a' body
  end.

(** [for (i = lo; i < hi; i++) body] *)
Definition for_range {S} (lo hi : Z) (body : Z -> M S unit) : M S unit :=
  for_acc (Z.to_nat (hi - lo)) lo tt (fun i _ => body i).

Definition for_range_acc {S A} (lo hi : Z) (a : A) (body : Z -> A -> M S A) : M S A :=
  for_acc (Z.to_nat (hi - lo)) lo a body.

Definition for_range_brk {S A} (lo hi : Z) (a : A) (body : Z -> A -> M S (ctl A)) : M S A :=
  for_brk (Z.to_nat (hi - lo)) lo a body.

(** [while (true) body], where [body] returns [Some r] to leave the loop with [r]. *)
Fixpoint loop {S A} (fuel : nat) (body : M S (option A)) : M S A :=
  match fuel with
  | O => nofuel
  | Datatypes.S n =>
      let* r := body in
      match r with Some a => ret a | None => loop n body end
  end.

(** ** Components inside a larger state *)
Record lens (S C : Type) : Type := Lens { lget : S -> C; lset : C -> S -> S }.
Arguments Lens {S C} lget lset.
Arguments lget {S C} l s.
Arguments lset {S C} l c s.

(** The laws that make [lset] change the component and nothing else. *)
Class LensLaws {S C} (l : lens S C) : Prop := {
  lget_lset : forall c s, lget l (lset l c s) = c;
  lset_lget : forall s, lset l (lget l s) s = s;
  lset_lset : forall c c' s, lset l c (lset l c' s) = lset l c s
}.

Definition zoom {S C A} (l : lens S C) (m : M C A) : M S A := fun s =>
  match m (lget l s) with
  | Done a c => Done a (lset l c s)
  | Undef => Undef
  | Panic => Panic
  | NoFuel => NoFuel
  end.

Definition fst_lens {A B} : lens (A * B) A := Lens fst (fun a p => (a, p.2)).
Definition snd_lens {A B} : lens (A * B) B := Lens snd (fun b p => (p.1, b)).

Definition comp_lens {A B C} (l1 : lens A B) (l2 : lens B C) : lens A C :=
  Lens (fun a => lget l2 (lget l1 a)) (fun c a => lset l1 (lset l2 c (lget l1 a)) a).

(** ** Integers of C at their width *)
Definition u8 (z : Z) : Z := z mod 256.
Definition u16 (z : Z) : Z := z mod 65536.
Definition u32 (z : Z) : Z := z mod 4294967296.
Definition INT_MAX : Z := 2147483647.
Definition INT_MIN : Z := -2147483648.
Definition is_int (z : Z) : bool := (INT_MIN <=? z) && (z <=? INT_MAX).

(** The result of signed arithmetic: defined only when it is an [int]. *)
Definition int_ {S} (z : Z) : M S Z := if is_int z then ret z else undef.

Definition BIT (n : Z) : Z := Z.shiftl 1 n.
(** C's test [(x & m) != 0]. *)
Definition has (x m : Z) : bool := negb (Z.land x m =? 0).
Definition b2z (b : bool) : Z := if b then 1 else 0.

(** ** Arrays of C: an access outside the array is undefined. *)
Definition arr_get {S A} (l : list A) (i : Z) : M S A :=
  if i <? 0 then undef else of_option (l !! Z.to_nat i).
Definition arr_set {S A} (l : list A) (i : Z) (a : A) : M S (list A) :=
  if (0 <=? i) && (i <? Z.of_nat (length l)) then ret (<[Z.to_nat i := a]> l) else undef.

(** ** Total correctness

    [wp m Q s]: from [s], [m] returns (it is defined, does not panic and has
    enough fuel) and its result and final state satisfy [Q]. *)
Definition wp {S A} (m : M S A) (Q : A -> S -> Prop) (s : S) : Prop :=
  match m s with Done a s' => Q a s' | _ => False end.

(** Partial correctness: if [m] returns, its result and final state satisfy [Q]. *)
Definition wlp {S A} (m : M S A) (Q : A -> S -> Prop) (s : S) : Prop :=
  match m s with Done a s' => Q a s' | _ => True end.

(** [m] contains no [panic] and no unbounded loop. *)
Definition bounded {S A} (m : M S A) : Prop :=
  forall s, match m s with Panic | NoFuel => False | _ => True end.

(** [o] has no more information than [o']: they agree, or [o] ran out of fuel. *)
Definition out_le {S A} (o o' : outcome S A) : Prop := o = NoFuel \/ o = o'.

(** * Lemmas *)

(** ** The rules of [wp] *)
Section WpRules.
Context {S : Type}.

Lemma wp_Done {A} (m : M S A) Q s a s' : m s = Done a s' -> Q a s' -> wp m Q s.
Proof. intros E HQ. unfold wp. by rewrite E. Qed.

Lemma wp_inv {A} (m : M S A) Q s : wp m Q s <-> exists a s', m s = Done a s' /\ Q a s'.
Proof.
  unfold wp. split.
  - destruct (m s) as [a s'| | |] eqn:E; try done. intros HQ. by exists a, s'.
  - intros (a & s' & -> & HQ). done.
Qed.

Lemma wp_unit (m : M S unit) (P : S -> Prop) s : wp m (fun _ => P) s -> exists s', m s = Done tt s' /\ P s'.
Proof. intros ([] & s' & E & HP)%wp_inv. eauto. Qed.

Lemma wp_mono {A} (m : M S A) (Q Q' : A -> S -> Prop) s :
  wp m Q s -> (forall a s', Q a s' -> Q' a s') -> wp m Q' s.
Proof. unfold wp. destruct (m s); eauto. Qed.

Lemma wp_conj {A} (m : M S A) (Q Q' : A -> S -> Prop) s :
  wp m Q s -> wp m Q' s -> wp m (fun a s' => Q a s' /\ Q' a s') s.
Proof. unfold wp. destruct (m s); eauto. Qed.

Lemma wp_bind {A B} (m : M S A) (k : A -> M S B) Q s :
  wp (bind m k) Q s <-> wp m (fun a s' => wp (k a) Q s') s.
Proof. unfold wp, bind. destruct (m s); done. Qed.

Lemma wp_ret {A} (a : A) Q (s : S) : wp (ret a) Q s <-> Q a s.
Proof. done. Qed.

Lemma wp_skip Q (s : S) : wp skip Q s <-> Q tt s.
Proof. done. Qed.

Lemma wp_get Q (s : S) : wp get Q s <-> Q s s.
Proof. done. Qed.

Lemma wp_gets {A} (f : S -> A) Q s : wp (gets f) Q s <-> Q (f s) s.
Proof. done. Qed.

Lemma wp_put Q (s s' : S) : wp (put s') Q s <-> Q tt s'.
Proof. done. Qed.

Lemma wp_modify (f : S -> S) Q s : wp (modify f) Q s <-> Q tt (f s).
Proof. done. Qed.

Lemma wp_of_option {A} (o : option A) Q (s : S) :
  wp (of_option o) Q s <-> exists a, o = Some a /\ Q a s.
Proof.
  unfold wp. destruct o as [a|]; simpl; split; [by exists a|by intros (b & [= ->] & H)|done|].
  by intros (b & ? & _).
Qed.

Lemma wp_int z Q (s : S) : is_int z = true -> Q z s -> wp (int_ z) Q s.
Proof. intros E HQ. unfold int_. by rewrite E. Qed.

Lemma bind_Done {A B} (m : M S A) (k : A -> M S B) s a s' :
  m s = Done a s' -> bind m k s = k a s'.
Proof. unfold bind. by intros ->. Qed.

Lemma modify_eq (f : S -> S) s : modify f s = Done tt (f s).
Proof. done. Qed.

Lemma gets_eq {A} (f : S -> A) s : gets f s = Done (f s) s.
Proof. done. Qed.

Lemma int_eq z (s : S) : is_int z = true -> int_ z s = Done z s.
Proof. unfold int_. by intros ->. Qed.

Lemma bind_ret {A B} (a : A) (k : A -> M S B) s : bind (ret a) k s = k a s.
Proof. done. Qed.

Lemma bind_assoc {A B C} (m : M S A) (k : A -> M S B) (l : B -> M S C) s :
  bind (bind m k) l s = bind m (fun a => bind (k a) l) s.
Proof. unfold bind. destruct (m s); done. Qed.

Lemma wp_assoc {A B C} (m : M S A) (k : A -> M S B) (l : B -> M S C) Q s :
  wp (bind (bind m k) l) Q s -> wp (bind m (fun a => bind (k a) l)) Q s.
Proof. unfold wp. by rewrite bind_assoc. Qed.

Lemma wp_arr_get {A} (l : list A) i a Q (s : S) :
  0 <= i -> l !! Z.to_nat i = Some a -> Q a s -> wp (arr_get l i) Q s.
Proof. intros Hi E HQ. unfold arr_get. replace (i <? 0) with false by lia. by rewrite E. Qed.

Lemma wp_arr_set {A} (l : list A) i a Q (s : S) :
  0 <= i < Z.of_nat (length l) -> Q (<[Z.to_nat i := a]> l) s -> wp (arr_set l i a) Q s.
Proof. intros Hi HQ. unfold arr_set. by replace (_ && _) with true by lia. Qed.

(** A loop invariant for [for_acc]. *)
Lemma wp_for_acc {A} (I : Z -> A -> S -> Prop) n i a body (Q : A -> S -> Prop) s :
  I i a s ->
  (forall j a s, i <= j < i + Z.of_nat n -> I j a s -> wp (body j a) (I (j + 1)) s) ->
  (forall a s, I (i + Z.of_nat n) a s -> Q a s) ->
  wp (for_acc n i a body) Q s.
Proof.
  revert i a s. induction n as [|n IH]; intros i a s HI Hb HQ; simpl.
  - apply HQ. by rewrite Z.add_0_r.
  - apply wp_bind. eapply wp_mono; [apply Hb; [lia|done]|].
    intros a' s' HI'. apply IH; [done| |].
    + intros j b t Hj. apply Hb. lia.
    + intros b t Hbt. apply HQ. by replace (i + Z.of_nat (Datatypes.S n)) with (i + 1 + Z.of_nat n) by lia.
Qed.

Lemma wp_for_range_acc {A} (I : Z -> A -> S -> Prop) lo hi a body (Q : A -> S -> Prop) s :
  I lo a s ->
  (forall j a s, lo <= j < hi -> I j a s -> wp (body j a) (I (j + 1)) s) ->
  (forall a s, I (Z.max lo hi) a s -> Q a s) ->
  wp (for_range_acc lo hi a body) Q s.
Proof.
  intros HI Hb HQ. unfold for_range_acc. apply (wp_for_acc I); [done| |].
  - intros j b t Hj. apply Hb. lia.
  - intros b t Hbt. apply HQ. by replace (Z.max lo hi) with (lo + Z.of_nat (Z.to_nat (hi - lo))) by lia.
Qed.

Lemma wp_for_range (I : Z -> S -> Prop) lo hi body (Q : unit -> S -> Prop) s :
  I lo s ->
  (forall j s, lo <= j < hi -> I j s -> wp (body j) (fun _ => I (j + 1)) s) ->
  (forall s, I (Z.max lo hi) s -> Q tt s) ->
  wp (for_range lo hi body) Q s.
Proof.
  intros HI Hb HQ. unfold for_range.
  apply (wp_for_range_acc (fun j _ => I j)); [done| |].
  - intros j [] t Hj. by apply Hb.
  - intros []. apply HQ.
Qed.

(** The same for a loop whose body may [break]. *)
Lemma wp_for_brk {A} (I : Z -> A -> S -> Prop) n i a body (Q : A -> S -> Prop) s :
  I i a s ->
  (forall j a s, i <= j < i + Z.of_nat n -> I j a s ->
     wp (body j a) (fun c s' => match c with Next a' => I (j + 1) a' s' | Break a' => Q a' s' end) s) ->
  (forall a s, I (i + Z.of_nat n) a s -> Q a s) ->
  wp (for_brk n i a body) Q s.
Proof.
  revert i a s. induction n as [|n IH]; intros i a s HI Hb HQ; simpl.
  - apply HQ. by rewrite Z.add_0_r.
  - apply wp_bind. eapply wp_mono; [apply Hb; [lia|done]|].
    intros [a'|a'] s' HI'; [|done]. apply IH; [done| |].
    + intros j b t Hj. apply Hb. lia.
    + intros b t Hbt. apply HQ. by replace (i + Z.of_nat (Datatypes.S n)) with (i + 1 + Z.of_nat n) by lia.
Qed.

Lemma wp_for_range_brk {A} (I : Z -> A -> S -> Prop) lo hi a body (Q : A -> S -> Prop) s :
  I lo a s ->
  (forall j a s, lo <= j < hi -> I j a s ->
     wp (body j a) (fun c s' => match c with Next a' => I (j + 1) a' s' | Break a' => Q a' s' end) s) ->
  (forall a s, I (Z.max lo hi) a s -> Q a s) ->
  wp (for_range_brk lo hi a body) Q s.
Proof.
  intros HI Hb HQ. unfold for_range_brk. apply (wp_for_brk I); [done| |].
  - intros j b t Hj. apply Hb. lia.
  - intros b t Hbt. apply HQ. by replace (Z.max lo hi) with (lo + Z.of_nat (Z.to_nat (hi - lo))) by lia.
Qed.

(** Two nested loops over a rectangle, with an invariant at each of its cells. *)
Lemma wp_grid {A} (J : Z -> Z -> A -> S -> Prop) x0 x1 y0 y1 a body after (Q : A -> S -> Prop) s :
  J y0 x0 a s ->
  (forall y x a s, y0 <= y < y1 -> x0 <= x < x1 -> J y x a s -> wp (body y x a) (J y (x + 1)) s) ->
  (forall y a s, y0 <= y < y1 -> J y (Z.max x0 x1) a s -> J (y + 1) x0 (after a) s) ->
  (forall a s, J (Z.max y0 y1) x0 a s -> Q a s) ->
  wp (for_range_acc y0 y1 a (fun y a =>
        let* a := for_range_acc x0 x1 a (fun x a => body y x a) in ret (after a))) Q s.
Proof.
  intros H0 Hbody Hrow HQ. apply (wp_for_range_acc (fun y a s => J y x0 a s)); [done| |done].
  intros y b t Hy HJ. apply wp_bind.
  apply (wp_for_range_acc (fun x a s => J y x a s)); [done| |].
  - intros x c u Hx. by apply Hbody.
  - intros c u HJ'. apply wp_ret. by apply Hrow.
Qed.

Lemma for_range_step lo hi body (s : S) :
  lo < hi -> for_range lo hi body s = (body lo ;; for_range (lo + 1) hi body) s.
Proof.
  intros Hlt. unfold for_range.
  replace (Z.to_nat (hi - lo)) with (Datatypes.S (Z.to_nat (hi - (lo + 1)))) by lia.
  simpl. unfold bind. by destruct (body lo s) as [[]| | |].
Qed.

Lemma for_range_done lo hi body (s : S) : hi <= lo -> for_range lo hi body s = Done tt s.
Proof. intros Hle. unfold for_range. by replace (Z.to_nat (hi - lo)) with O by lia. Qed.

(** [loop]: a variant that bounds the iterations gives the result. *)
Lemma wp_loop {A} (I : nat -> S -> Prop) fuel n (body : M S (option A)) Q s :
  I n s -> (n < fuel)%nat ->
  (forall k s, I k s ->
     wp body (fun r s' => match r with Some a => Q a s' | None => exists k', (k' < k)%nat /\ I k' s' end) s) ->
  wp (loop fuel body) Q s.
Proof.
  revert n s. induction fuel as [|fuel IH]; intros n s HI Hn Hb; [lia|].
  simpl. apply wp_bind. eapply wp_mono; [by apply Hb|].
  intros [a|] s'; [done|]. intros (k' & Hk & HI'). apply (IH k'); [done|lia|done].
Qed.

(** More fuel never changes a result. *)
Lemma loop_mono {A} f f' (body : M S (option A)) s :
  (f <= f')%nat -> out_le (loop f body s) (loop f' body s).
Proof.
  revert f' s. induction f as [|f IH]; intros [|f'] s Hle; try lia; try by left.
  simpl. unfold bind. destruct (body s) as [[a|] s'| | |]; [by right| |by right..].
  apply IH. lia.
Qed.

(** An invariant under which the body never leaves keeps the loop running. *)
Lemma loop_diverges {A} (I : S -> Prop) (body : M S (option A)) :
  (forall s, I s -> wp body (fun r s' => r = None /\ I s') s) ->
  forall fuel s, I s -> loop fuel body s = NoFuel.
Proof.
  intros Hb fuel. induction fuel as [|fuel IH]; intros s HI; [done|].
  simpl. apply Hb, wp_inv in HI as (a & s' & E & -> & HI').
  rewrite (bind_Done _ _ _ _ _ E). by apply IH.
Qed.
End WpRules.

(** ** The rules of [wlp] *)
Section WlpRules.
Context {S : Type}.

Lemma wlp_inv {A} (m : M S A) Q s : wlp m Q s <-> forall a s', m s = Done a s' -> Q a s'.
Proof. unfold wlp. destruct (m s); split; intros; simplify_eq; eauto. Qed.

Lemma wlp_mono {A} (m : M S A) (Q Q' : A -> S -> Prop) s :
  wlp m Q s -> (forall a s', Q a s' -> Q' a s') -> wlp m Q' s.
Proof. unfold wlp. destruct (m s); eauto. Qed.

Lemma wlp_conj {A} (m : M S A) (Q Q' : A -> S -> Prop) s :
  wlp m Q s -> wlp m Q' s -> wlp m (fun a s' => Q a s' /\ Q' a s') s.
Proof. unfold wlp. destruct (m s); eauto. Qed.

Lemma wlp_bind {A B} (m : M S A) (k : A -> M S B) Q s :
  wlp (bind m k) Q s <-> wlp m (fun a s' => wlp (k a) Q s') s.
Proof. unfold wlp, bind. destruct (m s); done. Qed.

Lemma wlp_ret {A} (a : A) Q (s : S) : wlp (ret a) Q s <-> Q a s.
Proof. done. Qed.

Lemma wlp_gets {A} (f : S -> A) Q s : wlp (gets f) Q s <-> Q (f s) s.
Proof. done. Qed.

Lemma wlp_get Q (s : S) : wlp get Q s <-> Q s s.
Proof. done. Qed.

Lemma wlp_modify (f : S -> S) Q s : wlp (modify f) Q s <-> Q tt (f s).
Proof. done. Qed.

Lemma wlp_undef {A} (Q : A -> S -> Prop) s : wlp undef Q s.
Proof. done. Qed.

Lemma wlp_int z Q (s : S) : (is_int z = true -> Q z s) -> wlp (int_ z) Q s.
Proof. unfold wlp, int_. destruct (is_int z); simpl; auto. Qed.

Lemma wp_wlp {A} (m : M S A) Q s : wp m Q s -> wlp m Q s.
Proof. unfold wp, wlp. by destruct (m s). Qed.

(** What returns does what it does when it returns. *)
Lemma wp_wlp_conj {A} (m : M S A) (Q Q' : A -> S -> Prop) s :
  wp m Q s -> wlp m Q' s -> wp m (fun a s' => Q a s' /\ Q' a s') s.
Proof. unfold wp, wlp. by destruct (m s). Qed.

Lemma wlp_for_acc {A} (I : Z -> A -> S -> Prop) n i a body (Q : A -> S -> Prop) s :
  I i a s ->
  (forall j a s, i <= j < i + Z.of_nat n -> I j a s -> wlp (body j a) (I (j + 1)) s) ->
  (forall a s, I (i + Z.of_nat n) a s -> Q a s) ->
  wlp (for_acc n i a body) Q s.
Proof.
  revert i a s. induction n as [|n IH]; intros i a s HI Hb HQ; simpl.
  - apply HQ. by rewrite Z.add_0_r.
  - apply wlp_bind. eapply wlp_mono; [apply Hb; [lia|done]|].
    intros a' s' HI'. apply IH; [done| |].
    + intros j b t Hj. apply Hb. lia.
    + intros b t Hbt. apply HQ. by replace (i + Z.of_nat (Datatypes.S n)) with (i + 1 + Z.of_nat n) by lia.
Qed.

Lemma wlp_for_range_acc {A} (I : Z -> A -> S -> Prop) lo hi a body (Q : A -> S -> Prop) s :
  I lo a s ->
  (forall j a s, lo <= j < hi -> I j a s -> wlp (body j a) (I (j + 1)) s) ->
  (forall a s, I (Z.max lo hi) a s -> Q a s) ->
  wlp (for_range_acc lo hi a body) Q s.
Proof.
  intros HI Hb HQ. unfold for_range_acc. apply (wlp_for_acc I); [done| |].
  - intros j b t Hj. apply Hb. lia.
  - intros b t Hbt. apply HQ. by replace (Z.max lo hi) with (lo + Z.of_nat (Z.to_nat (hi - lo))) by lia.
Qed.

Lemma wlp_for_range (I : Z -> S -> Prop) lo hi body (Q : unit -> S -> Prop) s :
  I lo s ->
  (forall j s, lo <= j < hi -> I j s -> wlp (body j) (fun _ => I (j + 1)) s) ->
  (forall s, I (Z.max lo hi) s -> Q tt s) ->
  wlp (for_range lo hi body) Q s.
Proof.
  intros HI Hb HQ. unfold for_range.
  apply (wlp_for_range_acc (fun j _ => I j)); [done| |].
  - intros j [] t Hj. by apply Hb.
  - intros []. apply HQ.
Qed.
End WlpRules.

(** ** Code without [panic] and unbounded loops *)
Section BoundedRules.
Context {S : Type}.

Lemma bounded_bind {A B} (m : M S A) (k : A -> M S B) :
  bounded m -> (forall a, bounded (k a)) -> bounded (bind m k).
Proof. intros Hm Hk s. unfold bind. specialize (Hm s). destruct (m s); [apply Hk|done..]. Qed.

Lemma bounded_ret {A} (a : A) : bounded (S := S) (ret a).
Proof. done. Qed.

Lemma bounded_gets {A} (f : S -> A) : bounded (gets f).
Proof. done. Qed.

Lemma bounded_modify (f : S -> S) : bounded (modify f).
Proof. done. Qed.

Lemma bounded_undef {A} : bounded (S := S) (A := A) undef.
Proof. done. Qed.

Lemma bounded_of_option {A} (o : option A) : bounded (S := S) (of_option o).
Proof. by destruct o. Qed.

Lemma bounded_for_acc {A} n i (a : A) (body : Z -> A -> M S A) :
  (forall j a, bounded (body j a)) -> bounded (for_acc n i a body).
Proof.
  intros Hb. revert i a. induction n as [|n IH]; intros i a; simpl; [done|].
  apply bounded_bind; [done|]. intros a'. apply IH.
Qed.

(** Bounded code that cannot return has undefined behaviour. *)
Lemma bounded_undef_iff {A} (m : M S A) s :
  bounded m -> (m s = Undef <-> forall a s', m s <> Done a s').
Proof.
  intros Hb. specialize (Hb s). split; [by intros ->|]. intros Hd.
  destruct (m s); [by edestruct Hd|done..].
Qed.
End BoundedRules.

Create HintDb c_bounded.
#[export] Hint Resolve bounded_bind bounded_ret bounded_gets bounded_modify bounded_undef
  bounded_of_option bounded_for_acc : c_bounded.

Lemma wlp_zoom {S C A} (l : lens S C) (m : M C A) Q s :
  wlp (zoom l m) Q s <-> wlp m (fun a c => Q a (lset l c s)) (lget l s).
Proof. unfold wlp, zoom. destruct (m (lget l s)); done. Qed.

(** ** Zooming *)
Lemma wp_zoom {S C A} (l : lens S C) (m : M C A) Q s :
  wp (zoom l m) Q s <-> wp m (fun a c => Q a (lset l c s)) (lget l s).
Proof. unfold wp, zoom. destruct (m (lget l s)); done. Qed.

Lemma zoom_Done {S C A} (l : lens S C) (m : M C A) s a c :
  m (lget l s) = Done a c -> zoom l m s = Done a (lset l c s).
Proof. unfold zoom. by intros ->. Qed.

Lemma zoom_bind {S C A B} (l : lens S C) `{!LensLaws l} (m : M C A) (k : A -> M C B) s :
  zoom l (bind m k) s = bind (zoom l m) (fun a => zoom l (k a)) s.
Proof.
  unfold zoom, bind. destruct (m (lget l s)) as [a c| | |]; [|done..]. rewrite lget_lset.
  destruct (k a c); [|done..]. by rewrite lset_lset.
Qed.

#[export] Instance fst_lens_laws {A B} : LensLaws (@fst_lens A B).
Proof. split; by repeat intros []. Qed.

#[export] Instance snd_lens_laws {A B} : LensLaws (@snd_lens A B).
Proof. split; by repeat intros []. Qed.

#[export] Instance comp_lens_laws {A B C} (l1 : lens A B) (l2 : lens B C) :
  LensLaws l1 -> LensLaws l2 -> LensLaws (comp_lens l1 l2).
Proof.
  intros H1 H2. split; simpl; intros.
  - by rewrite lget_lset, lget_lset.
  - by rewrite lset_lget, lset_lget.
  - by rewrite lget_lset, lset_lset, lset_lset.
Qed.

(** ** Automation *)

(** One step of a [wp] goal through the monad's constructors. *)
Ltac wp_step :=
  lazymatch goal with
  | |- wp (bind _ _) _ _ => apply wp_bind
  | |- wp (ret _) _ _ => apply wp_ret
  | |- wp skip _ _ => apply wp_skip
  | |- wp get _ _ => apply wp_get
  | |- wp (gets _) _ _ => apply wp_gets
  | |- wp (put _) _ _ => apply wp_put
  | |- wp (modify _) _ _ => apply wp_modify
  | |- wp (zoom _ _) _ _ => apply wp_zoom
  | |- wp (if ?b then _ else _) _ _ => destruct b eqn:?
  | |- wp (match ?o with Some _ => _ | None => _ end) _ _ => destruct o eqn:?
  end; cbv beta.
Ltac wp_steps := repeat (wp_step; cbn beta iota).

(** A conjunction of goals that are each trivial, arithmetic or equational. *)
Ltac solve_and := split_and?; first [done | lia | congruence].

(** ** Code that stays in a relation

    [keeps_rel R m]: when [m] returns, its final state is in the relation [R] with
    the state it began in. With a reflexive and transitive [R] this composes,
    so code is checked step by step; [R] may say that a part of the state does
    not change, that it only grows, or that an invariant is kept. *)
Definition keeps_rel {S A} (R : S -> S -> Prop) (m : M S A) : Prop := forall s, wlp m (fun _ => R s) s.

Section KeepsRel.
Context {S : Type} (R : S -> S -> Prop) `{!PreOrder R}.

Lemma keeps_rel_bind {A B} (m : M S A) (k : A -> M S B) :
  keeps_rel R m -> (forall a, keeps_rel R (k a)) -> keeps_rel R (bind m k).
Proof.
  intros Hm Hk s. apply wlp_bind. eapply wlp_mono; [apply Hm|]. intros a s' HR.
  eapply wlp_mono; [apply Hk|]. intros b s'' HR'. by transitivity s'.
Qed.

Lemma keeps_rel_ret {A} (a : A) : keeps_rel R (ret a).
Proof. intros s. apply wlp_ret. reflexivity. Qed.

Lemma keeps_rel_skip : keeps_rel R skip.
Proof. apply keeps_rel_ret. Qed.

Lemma keeps_rel_get : keeps_rel R get.
Proof. intros s. apply wlp_get. reflexivity. Qed.

Lemma keeps_rel_gets {A} (f : S -> A) : keeps_rel R (gets f).
Proof. intros s. apply wlp_gets. reflexivity. Qed.

Lemma keeps_rel_undef {A} : keeps_rel R (A := A) undef.
Proof. by intros s. Qed.

Lemma keeps_rel_panic {A} : keeps_rel R (A := A) panic.
Proof. by intros s. Qed.

Lemma keeps_rel_of_option {A} (o : option A) : keeps_rel R (of_option o).
Proof. destruct o; [apply keeps_rel_ret|apply keeps_rel_undef]. Qed.

Lemma keeps_rel_int z : keeps_rel R (int_ z).
Proof. unfold int_. case_match; [apply keeps_rel_ret|apply keeps_rel_undef]. Qed.

Lemma keeps_rel_arr_get {A} (l : list A) i : keeps_rel R (arr_get l i).
Proof. unfold arr_get. case_match; [apply keeps_rel_undef|apply keeps_rel_of_option]. Qed.

Lemma keeps_rel_arr_set {A} (l : list A) i a : keeps_rel R (arr_set l i a).
Proof. unfold arr_set. case_match; [apply keeps_rel_ret|apply keeps_rel_undef]. Qed.

Lemma keeps_rel_modify (f : S -> S) : (forall s, R s (f s)) -> keeps_rel R (modify f).
Proof. intros Hf s. apply wlp_modify, Hf. Qed.

Lemma keeps_rel_for_acc {A} n i (a : A) (body : Z -> A -> M S A) :
  (forall j a, keeps_rel R (body j a)) -> keeps_rel R (for_acc n i a body).
Proof.
  intros Hb. revert i a. induction n as [|n IH]; intros i a; simpl; [apply keeps_rel_ret|].
  apply keeps_rel_bind; [done|]. intros a'. apply IH.
Qed.

Lemma keeps_rel_for_brk {A} n i (a : A) (body : Z -> A -> M S (ctl A)) :
  (forall j a, keeps_rel R (body j a)) -> keeps_rel R (for_brk n i a body).
Proof.
  intros Hb. revert i a. induction n as [|n IH]; intros i a; simpl; [apply keeps_rel_ret|].
  apply keeps_rel_bind; [done|]. intros [a'|a']; [apply IH|apply keeps_rel_ret].
Qed.

Lemma keeps_rel_loop {A} fuel (body : M S (option A)) : keeps_rel R body -> keeps_rel R (loop fuel body).
Proof.
  intros Hb. induction fuel as [|fuel IH]; simpl; [by intros s|].
  apply keeps_rel_bind; [done|]. intros [a|]; [apply keeps_rel_ret|apply IH].
Qed.

(** Code on a component, whose own relation is known. *)
Lemma keeps_rel_zoom {C A} (l : lens S C) (R' : C -> C -> Prop) (m : M C A) :
  keeps_rel R' m -> (forall s c, R' (lget l s) c -> R s (lset l c s)) -> keeps_rel R (zoom l m).
Proof. intros Hm Hl s. apply wlp_zoom. eapply wlp_mono; [apply Hm|]. intros a c. apply Hl. Qed.

Lemma keeps_rel_ext {A} (m m' : M S A) : (forall s, m s = m' s) -> keeps_rel R m' -> keeps_rel R m.
Proof. intros E Hm s. unfold wlp. rewrite E. apply Hm. Qed.

Lemma keeps_rel_weaken {A} (R' : S -> S -> Prop) (m : M S A) :
  keeps_rel R' m -> (forall s s', R' s s' -> R s s') -> keeps_rel R m.
Proof. intros Hm HR s. eapply wlp_mono; [apply Hm|]. intros a. apply HR. Qed.
End KeepsRel.

Create HintDb c_rel discriminated.
#[export] Hint Constants Opaque : c_rel.
#[export] Hint Resolve keeps_rel_ret keeps_rel_skip keeps_rel_get keeps_rel_gets keeps_rel_undef keeps_rel_panic
  keeps_rel_of_option keeps_rel_int keeps_rel_arr_get keeps_rel_arr_set : c_rel.
#[export] Hint Extern 3 (PreOrder _) => typeclasses eauto : c_rel.

(** Splits code into its steps and solves those that are in the hints. *)
Ltac rel_step :=
  lazymatch goal with
  | |- keeps_rel _ (bind _ _) => apply keeps_rel_bind; [typeclasses eauto| |intros ?]
  | |- keeps_rel _ (for_range _ _ _) => apply keeps_rel_for_acc; [typeclasses eauto|intros ? ?]
  | |- keeps_rel _ (for_range_acc _ _ _ _) => apply keeps_rel_for_acc; [typeclasses eauto|intros ? ?]
  | |- keeps_rel _ (for_range_brk _ _ _ _) => apply keeps_rel_for_brk; [typeclasses eauto|intros ? ?]
  | |- keeps_rel _ (loop _ _) => apply keeps_rel_loop; [typeclasses eauto|]
  | |- keeps_rel _ (if ?b then _ else _) => destruct b
  | |- keeps_rel _ (match ?b with _ => _ end) => destruct b
  | |- keeps_rel _ _ => solve [auto with c_rel]
  end; cbv beta zeta.
Ltac rel_all := cbv beta zeta; repeat rel_step.

(** ** A loop that breaks at a bound is the loop up to the bound *)
Lemma for_brk_until {S A} (n m : nat) (i : Z) (a : A) (body : Z -> A -> M S A) (body' : Z -> A -> M S (ctl A)) s :
  (m <= n)%nat ->
  (forall j a s, i <= j < i + Z.of_nat m -> body' j a s = bind (body j a) (fun a => ret (Next a)) s) ->
  (forall a s, body' (i + Z.of_nat m) a s = ret (Break a) s) ->
  for_brk n i a body' s = for_acc m i a body s.
Proof.
  revert n i a s. induction m as [|m IH]; intros n i a s Hn Hb He.
  - destruct n as [|n]; [done|]. simpl. unfold bind. by rewrite <- (Z.add_0_r i) at 1; rewrite He.
  - destruct n as [|n]; [lia|]. simpl. unfold bind at 1. rewrite Hb by lia. unfold bind.
    destruct (body i a s) as [a' s'| | |]; [|done..]. simpl. apply IH; [lia| |].
    + intros j b t Hj. apply Hb. lia.
    + intros b t. replace (i + 1 + Z.of_nat m) with (i + Z.of_nat (Datatypes.S m)) by lia. apply He.
Qed.

(** ** Bit tests and widths *)
Lemma u8_range z : 0 <= u8 z < 256.
Proof. unfold u8. apply Z.mod_pos_bound. lia. Qed.

Lemma u16_range z : 0 <= u16 z < 65536.
Proof. unfold u16. apply Z.mod_pos_bound. lia. Qed.

Lemma u32_range z : 0 <= u32 z < 4294967296.
Proof. unfold u32. apply Z.mod_pos_bound. lia. Qed.

Lemma u8_small z : 0 <= z < 256 -> u8 z = z.
Proof. apply Z.mod_small. Qed.

Lemma u16_small z : 0 <= z < 65536 -> u16 z = z.
Proof. apply Z.mod_small. Qed.

Lemma u32_small z : 0 <= z < 4294967296 -> u32 z = z.
Proof. apply Z.mod_small. Qed.

Lemma is_int_spec z : is_int z = true <-> INT_MIN <= z <= INT_MAX.
Proof. unfold is_int. rewrite andb_true_iff, !Z.leb_le. done. Qed.

Lemma has_BIT x n : 0 <= n -> has x (BIT n) = Z.testbit x n.
Proof.
  intros Hn. unfold has, BIT.
  destruct (Z.testbit x n) eqn:E.
  - apply negb_true_iff, Z.eqb_neq. intros H0.
    assert (Z.testbit (Z.land x (Z.shiftl 1 n)) n = false) as Hb by (rewrite H0; apply Z.bits_0).
    rewrite Z.land_spec, E, Z.shiftl_spec, Z.sub_diag in Hb by lia. done.
  - apply negb_false_iff, Z.eqb_eq. apply Z.bits_inj'. intros m Hm.
    rewrite Z.bits_0, Z.land_spec, Z.shiftl_spec by lia.
    destruct (Z.eq_dec m n) as [->|Hne]; [by rewrite E|].
    destruct (Z.lt_ge_cases m n).
    + rewrite (Z.testbit_neg_r 1) by lia. apply andb_false_r.
    + rewrite (Z.bits_above_log2 1 (m - n)) by (simpl; lia). apply andb_false_r.
Qed.

Create HintDb c_ints.
#[export] Hint Resolve u8_range u16_range u32_range : c_ints.

(** All values of a byte, to decide a statement about bytes by computation. *)
Definition all_bytes : list Z := seqZ 0 256.

Lemma byte_decide (P : Z -> Prop) `{forall z, Decision (P z)} :
  forallb (fun z => bool_decide (P z)) all_bytes = true -> forall z, 0 <= z < 256 -> P z.
Proof.
  intros Hall z Hz. rewrite forallb_forall in Hall.
  apply (bool_decide_eq_true_1 _), Hall, list_elem_of_In, elem_of_seqZ. lia.
Qed.

(** Proves a decidable statement about the byte [b], bounded by [Hb], on all bytes. *)
Ltac decide_byte b Hb := pattern b; revert b Hb; apply (byte_decide _); vm_compute; reflexivity.

(** ** Loops that update an array element by element

    [upto F l j]: the array [l] after [l[i] = F i l[i]] for [i < j]. *)
Definition upto {A} (F : nat -> A -> A) (l : list A) (j : nat) : list A :=
  imap (fun i a => if (i <? j)%nat then F i a else a) l.

Lemma upto_lookup {A} (F : nat -> A -> A) l j : upto F l j !! j = l !! j.
Proof. unfold upto. rewrite list_lookup_imap, Nat.ltb_irrefl. by destruct (l !! j). Qed.

Lemma upto_length {A} (F : nat -> A -> A) l j : length (upto F l j) = length l.
Proof. apply length_imap. Qed.

Lemma upto_0 {A} (F : nat -> A -> A) l : upto F l 0 = l.
Proof. apply list_eq. intros i. unfold upto. rewrite list_lookup_imap. by destruct (l !! i). Qed.

Lemma upto_all {A} (F : nat -> A -> A) l j : (length l <= j)%nat -> upto F l j = imap F l.
Proof.
  intros Hj. apply list_eq. intros i. unfold upto. rewrite !list_lookup_imap.
  destruct (l !! i) eqn:E; [|done]. apply lookup_lt_Some in E. simpl.
  by rewrite (proj2 (Nat.ltb_lt i j)) by lia.
Qed.

Lemma upto_S {A} (F : nat -> A -> A) l j a :
  l !! j = Some a -> <[j := F j a]> (upto F l j) = upto F l (S j).
Proof.
  intros Hj. pose proof (lookup_lt_Some _ _ _ Hj). apply list_eq. intros i.
  destruct (decide (i = j)) as [->|Hne].
  - rewrite list_lookup_insert_eq by (by rewrite upto_length). unfold upto.
    by rewrite list_lookup_imap, Hj, (proj2 (Nat.ltb_lt j (S j))) by lia.
  - rewrite list_lookup_insert_ne by done. unfold upto. rewrite !list_lookup_imap.
    destruct (l !! i); [|done]. simpl.
    by replace (i <? S j)%nat with (i <? j)%nat by (destruct (Nat.ltb_spec i j), (Nat.ltb_spec i (S j)); lia).
Qed.

(** An element that stays. *)
Lemma upto_same {A} (F : nat -> A -> A) l j a :
  l !! j = Some a -> F j a = a -> upto F l j = upto F l (S j).
Proof.
  intros Hj HF. rewrite <- (upto_S F l j a) by done. rewrite HF. symmetry.
  apply list_insert_id. by rewrite upto_lookup.
Qed.
