(* ===== verification/Env.v ===== *)
(** The environment of the programs: the code that is not part of the
    repository (MINIX system calls, the C library, the LCF), as typeclasses
    over an abstract world [W], the types it shares with the code, and one
    concrete instance, [script], on which examples and witnesses run.

    A component's definitions take only the classes they use, so that each of
    them says what it needs from outside. *)
From S2P Require Import Prelude.

(** A call of an outside routine: it changes the world and returns a value. *)
Definition call {W A} (f : W -> A * W) : M W A := fun w => let '(a, w') := f w in Done a w'.

(** ** Types shared with the environment *)

(** .minix-src/include/lcom/timer.h:16-21 [enum timer_init] *)
Inductive timer_init : Type := INVAL_val | LSB_only | MSB_only | MSB_after_LSB.

(** .minix-src/include/lcom/timer.h:26-31 [enum timer_status_field] *)
Inductive timer_status_field : Type := tsf_all | tsf_initial | tsf_mode | tsf_base.

(** .minix-src/include/lcom/timer.h:36-41 [union timer_status_field_val]: the member last
    written; [in_mode] is an enum, so any [int] can be stored in it. *)
Inductive timer_status_field_val : Type :=
  | val_byte (b : Z)
  | val_in_mode (m : Z)
  | val_count_mode (m : Z)
  | val_bcd (b : bool).

(** .minix-src/include/lcom/lab4.h:5-11 [struct packet] *)
Record packet : Type := Packet {
  bytes0 : Z; bytes1 : Z; bytes2 : Z;
  rb : bool; mb : bool; lb : bool;
  delta_x : Z; delta_y : Z;
  x_ov : bool; y_ov : bool
}.

(** .minix-src/include/lcom/vbe.h:22-74 [vbe_mode_info_t]: the fields the programs read. *)
Record vbe_mode_info_t : Type := ModeInfo {
  XResolution : Z;
  YResolution : Z;
  BitsPerPixel : Z;
  PhysBasePtr : Z;
  RedMaskSize : Z; RedFieldPosition : Z;
  GreenMaskSize : Z; GreenFieldPosition : Z;
  BlueMaskSize : Z; BlueFieldPosition : Z
}.

(** .minix-src/include/lcom/xpm.h:32-43 [enum xpm_image_type]: the formats the programs ask for. *)
Inductive xpm_image_type : Type := XPM_INDEXED | XPM_8_8_8.

(** .minix-src/include/lcom/xpm.h:54-60 [xpm_image_t]: [bytes] is the address of the pixel
    data, [None] for NULL; the block has [size] bytes. *)
Record xpm_image_t : Type := Image {
  width : Z;
  height : Z;
  size : Z;
  bytes_of : option (Z -> Z)
}.

(** .minix-src/include/lcom/xpm.h:10-13 [xpm_map_t]: a pixmap of the sources, by the name of its
    array and the values of the array's first row (columns, rows, colors,
    characters per pixel). *)
Record xpm_map_t : Type := XpmMap {
  xpm_name : string; columns : Z; rows : Z; colors : Z; chars_per_pixel : Z
}.

(** ** The environment's routines *)

(** Port input and output, and waiting. [sys_inb port] returns a status and
    the 32-bit value read; [tickdelay_us] is [tickdelay(micros_to_ticks(us))]. *)
Class PortIO (W : Type) : Type := {
  sys_inb : Z -> W -> (Z * Z) * W;
  sys_outb : Z -> Z -> W -> Z * W;
  tickdelay_us : Z -> W -> W
}.

(** Interrupt subscriptions: line, policy and the hook id in memory, which the
    kernel may overwrite; the result is the status and the hook id afterwards. *)
Class Irq (W : Type) : Type := {
  sys_irqsetpolicy : Z -> Z -> Z -> W -> (Z * Z) * W;
  sys_irqrmpolicy : Z -> W -> (Z * Z) * W
}.

(** The printing routines and the mouse command the LCF provides. *)
Class Lcf (W : Type) : Type := {
  kbd_print_scancode : bool -> Z -> list Z -> W -> Z * W;
  kbd_print_no_sysinb : Z -> W -> Z * W;
  timer_print_config : Z -> timer_status_field -> timer_status_field_val -> W -> Z * W;
  timer_print_elapsed_time : W -> Z * W;
  mouse_print_packet : packet -> W -> W;
  mouse_enable_data_reporting : W -> Z * W;
  minix_get_dflt_kbc_cmd_byte : W -> Z * W
}.

(** The graphics calls: mode information, memory permissions and mapping,
    allocation ([true] for a block, [false] for NULL), BIOS interrupts. *)
Class Display (W : Type) : Type := {
  vbe_get_mode_info : Z -> W -> (Z * vbe_mode_info_t) * W;
  sys_privctl_add_mem : Z -> Z -> W -> Z * W;
  malloc : Z -> W -> bool * W;
  free : W -> W;
  vm_map_phys : Z -> Z -> W -> bool * W;
  sys_int86 : Z -> Z -> Z -> W -> Z * W;
  vg_exit : W -> Z * W;
  xpm_load : xpm_map_t -> xpm_image_type -> W -> xpm_image_t * W
}.

(** The C library's pseudo-random numbers and [sleep]. *)
Class Libc (W : Type) : Type := {
  srand_time : W -> W;
  rand : W -> Z * W;
  sleep : Z -> W -> W
}.

(** A message from [driver_receive]: its status, whether it is a notification
    from [HARDWARE], and the mask of pending interrupts. *)
Record receive : Type := Receive {
  rcv_status : Z;
  rcv_notify : bool;
  rcv_hardware : bool;
  rcv_interrupts : Z
}.

Class Messages (W : Type) : Type := { driver_receive : W -> receive * W }.

(** [0 <= rand() <= RAND_MAX], .minix-src/include/stdlib.h:90. *)
Definition RAND_MAX : Z := 2147483647.

(** ** Laws of the documented behaviour *)
Class RandLaws (W : Type) `{Libc W} : Prop := {
  rand_range : forall w : W, 0 <= (rand w).1 <= RAND_MAX
}.

(** Writes to ports do not fail. *)
Class OutbOk (W : Type) `{PortIO W} : Prop := {
  outb_ok : forall p v (w : W), (sys_outb p v w).1 = 0
}.

(** [xpm_load] fills the image with the pixmap's size and, when it returns an
    address, allocates the bytes of every pixel. *)
Definition pixel_size (t : xpm_image_type) : Z :=
  match t with XPM_INDEXED => 1 | XPM_8_8_8 => 3 end.

Class XpmLaws (W : Type) `{Display W} : Prop := {
  xpm_width : forall m t (w : W), width (xpm_load m t w).1 = columns m;
  xpm_height : forall m t (w : W), height (xpm_load m t w).1 = rows m;
  xpm_size : forall m t (w : W), size (xpm_load m t w).1 = columns m * rows m * pixel_size t
}.

(** There is memory for the pixels of every pixmap. *)
Class XpmLoads (W : Type) `{Display W} : Prop := {
  xpm_loads : forall m t (w : W), is_Some (bytes_of (xpm_load m t w).1)
}.

(** ** A scripted environment *)

(** What the scripted environment records of the calls. *)
Inductive event : Type :=
  | EInb (port : Z)
  | EOutb (port value : Z)
  | EDelay (us : Z)
  | ESleep (s : Z)
  | EIrqSet (line policy hook : Z)
  | EIrqRm (hook : Z)
  | EScancode (make : bool) (n : Z) (bytes : list Z)
  | ENoSysinb (n : Z)
  | ETimerConfig (t : Z) (f : timer_status_field) (v : timer_status_field_val)
  | EElapsed
  | EPacket (p : packet)
  | EMouseOn
  | EInt86 (intno ax bx : Z)
  | EMalloc (n : Z)
  | EFree
  | EMap (base n : Z)
  | EPriv (base limit : Z)
  | EVgExit.

(** [s_in]: the answers of the next reads of a port, one after the other (a
    read with no answer left fails); [s_rand]: the next random numbers, then 0;
    [s_msgs]: the next messages, then ones that are not notifications;
    [s_log]: the calls, latest first; [s_mode]: the only video mode. *)
Record script : Type := Script {
  s_in : list (Z * Z);
  s_rand : list Z;
  s_msgs : list receive;
  s_mode : vbe_mode_info_t;
  s_log : list event
}.

Definition log (e : event) (w : script) : script :=
  Script (s_in w) (s_rand w) (s_msgs w) (s_mode w) (e :: s_log w).

(** The 800x600 mode with 3 bytes per pixel, and a one-pixel mode. *)
Definition mode_0x115 : vbe_mode_info_t := ModeInfo 800 600 24 3758096384 8 16 8 8 8 0.
Definition mode_tiny : vbe_mode_info_t := ModeInfo 1 1 24 3758096384 8 16 8 8 8 0.

Definition script0 : script := Script [] [] [] mode_0x115 [].
Definition with_in (l : list (Z * Z)) (w : script) : script :=
  Script l (s_rand w) (s_msgs w) (s_mode w) (s_log w).
Definition with_rand (l : list Z) (w : script) : script :=
  Script (s_in w) l (s_msgs w) (s_mode w) (s_log w).
Definition with_msgs (l : list receive) (w : script) : script :=
  Script (s_in w) (s_rand w) l (s_mode w) (s_log w).
Definition with_mode (m : vbe_mode_info_t) (w : script) : script :=
  Script (s_in w) (s_rand w) (s_msgs w) m (s_log w).

#[export] Instance script_io : PortIO script := {|
  sys_inb p w :=
    match s_in w with
    | [] => ((1, 0), log (EInb p) w)
    | a :: l => (a, log (EInb p) (with_in l w))
    end;
  sys_outb p v w := (0, log (EOutb p v) w);
  tickdelay_us us w := log (EDelay us) w
|}.

#[export] Instance script_irq : Irq script := {|
  sys_irqsetpolicy line policy hook w := ((0, hook), log (EIrqSet line policy hook) w);
  sys_irqrmpolicy hook w := ((0, hook), log (EIrqRm hook) w)
|}.

#[export] Instance script_lcf : Lcf script := {|
  kbd_print_scancode mk n bs w := (0, log (EScancode mk n bs) w);
  kbd_print_no_sysinb n w := (0, log (ENoSysinb n) w);
  timer_print_config t f v w := (0, log (ETimerConfig t f v) w);
  timer_print_elapsed_time w := (0, log EElapsed w);
  mouse_print_packet p w := log (EPacket p) w;
  mouse_enable_data_reporting w := (0, log EMouseOn w);
  minix_get_dflt_kbc_cmd_byte w := (0x47, w)
|}.

#[export] Instance script_display : Display script := {|
  vbe_get_mode_info _ w := ((0, s_mode w), w);
  sys_privctl_add_mem b l w := (0, log (EPriv b l) w);
  malloc n w := (true, log (EMalloc n) w);
  free w := log EFree w;
  vm_map_phys b n w := (true, log (EMap b n) w);
  sys_int86 i ax bx w := (0, log (EInt86 i ax bx) w);
  vg_exit w := (0, log EVgExit w);
  xpm_load m t w :=
    (Image (columns m) (rows m) (columns m * rows m * pixel_size t) (Some (fun _ => 0)), w)
|}.

#[export] Instance script_libc : Libc script := {|
  srand_time w := w;
  rand w :=
    match s_rand w with
    | [] => (0, w)
    | r :: l => (r mod (RAND_MAX + 1), with_rand l w)
    end;
  sleep s w := log (ESleep s) w
|}.

#[export] Instance script_messages : Messages script := {|
  driver_receive w :=
    match s_msgs w with
    | [] => (Receive 0 false false 0, w)
    | m :: l => (m, with_msgs l w)
    end
|}.

(** ** An environment where every port reads 0, every call succeeds, and every
    message announces the first interrupt line *)
Inductive quiet : Type := Quiet.

#[export] Instance quiet_io : PortIO quiet := {|
  sys_inb _ w := ((0, 0), w);
  sys_outb _ _ w := (0, w);
  tickdelay_us _ w := w
|}.

#[export] Instance quiet_irq : Irq quiet := {|
  sys_irqsetpolicy _ _ hook w := ((0, hook), w);
  sys_irqrmpolicy hook w := ((0, hook), w)
|}.

#[export] Instance quiet_lcf : Lcf quiet := {|
  kbd_print_scancode _ _ _ w := (0, w);
  kbd_print_no_sysinb _ w := (0, w);
  timer_print_config _ _ _ w := (0, w);
  timer_print_elapsed_time w := (0, w);
  mouse_print_packet _ w := w;
  mouse_enable_data_reporting w := (0, w);
  minix_get_dflt_kbc_cmd_byte w := (0x47, w)
|}.

#[export] Instance quiet_display : Display quiet := {|
  vbe_get_mode_info _ w := ((0, mode_0x115), w);
  sys_privctl_add_mem _ _ w := (0, w);
  malloc _ w := (true, w);
  free w := w;
  vm_map_phys _ _ w := (true, w);
  sys_int86 _ _ _ w := (0, w);
  vg_exit w := (0, w);
  xpm_load m t w :=
    (Image (columns m) (rows m) (columns m * rows m * pixel_size t) (Some (fun _ => 0)), w)
|}.

#[export] Instance quiet_libc : Libc quiet := {|
  srand_time w := w;
  rand w := (0, w);
  sleep _ w := w
|}.

#[export] Instance quiet_messages : Messages quiet := {|
  driver_receive w := (Receive 0 true true 1, w)
|}.

(** * Lemmas *)

Lemma wp_call {W A} (f : W -> A * W) Q w : wp (call f) Q w <-> Q (f w).1 (f w).2.
Proof. unfold wp, call. by destruct (f w). Qed.

Lemma call_eq {W A} (f : W -> A * W) w : call f w = Done (f w).1 (f w).2.
Proof. unfold call. by destruct (f w). Qed.

Lemma zoom_call_snd {C W A} (f : W -> A * W) (c : C) (w : W) a w' :
  f w = (a, w') -> zoom snd_lens (call f) (c, w) = Done a (c, w').
Proof. intros E. unfold zoom, call. simpl. by rewrite E. Qed.

#[export] Instance script_outb_ok : OutbOk script.
Proof. by split. Qed.

#[export] Instance quiet_outb_ok : OutbOk quiet.
Proof. by split. Qed.

#[export] Instance script_rand_laws : RandLaws script.
Proof.
  split. intros w. simpl. destruct (s_rand w) as [|r l]; simpl; [unfold RAND_MAX; lia|].
  pose proof (Z.mod_pos_bound r (RAND_MAX + 1)). unfold RAND_MAX in *. lia.
Qed.

#[export] Instance script_xpm_laws : XpmLaws script.
Proof. by split. Qed.

#[export] Instance script_xpm_loads : XpmLoads script.
Proof. split. intros. by eexists. Qed.

#[export] Instance quiet_xpm_laws : XpmLaws quiet.
Proof. by split. Qed.

#[export] Instance quiet_xpm_loads : XpmLoads quiet.
Proof. split. intros. by eexists. Qed.
