(* ===== verification/Utils.v ===== *)
(** proj/src/utils.c: splitting a 16-bit value into bytes, and reading a port
    into an 8-bit variable. *)
From S2P Require Import Prelude Env.

(** An out-parameter [uint8_t *p]: [None] is NULL, [Some v] an address that
    holds [v]. The routines return their status and the memory afterwards. *)

(** proj/src/utils.c:7-16 [util_get_LSB] *)
Definition util_get_LSB (val : Z) (lsb : option Z) : Z * option Z :=
  match lsb with
  | None => (1, None)
  | Some _ => (0, Some (u8 val))
  end.

(** proj/src/utils.c:18-27 [util_get_MSB] *)
Definition util_get_MSB (val : Z) (msb : option Z) : Z * option Z :=
  match msb with
  | None => (1, None)
  | Some _ => let val := Z.shiftr val 8 in (0, Some (u8 val))
  end.

(** proj/src/utils.c:29-44 [util_sys_inb]: [Some v] when it returns 0 and has
    stored [v] in its argument, [None] when it returns 1 and has stored nothing. *)
Definition util_sys_inb {W} `{PortIO W} (port : Z) : M W (option Z) :=
  let* ' (aux, byt32) := call (sys_inb port) in
  if negb (aux =? 0) then ret None else ret (Some (u8 byt32)).

(** * Lemmas *)

Lemma lsb_msb_split val a b :
  0 <= val < 65536 ->
  exists l m, util_get_LSB val (Some a) = (0, Some l) /\ util_get_MSB val (Some b) = (0, Some m) /\
    0 <= l < 256 /\ 0 <= m < 256 /\ val = m * 256 + l.
Proof.
  intros Hv. exists (u8 val), (u8 (Z.shiftr val 8)).
  split_and!; try done; try apply u8_range.
  unfold u8. rewrite Z.shiftr_div_pow2 by lia. change (2 ^ 8) with 256.
  rewrite (Z.mod_small (val / 256)).
  - pose proof (Z.div_mod val 256). lia.
  - split; [apply Z.div_pos; lia|]. apply Z.div_lt_upper_bound; lia.
Qed.

(** For a 16-bit value the two bytes that [util_get_LSB] and
    [util_get_MSB] store are bytes, and put together they give the value back;
    a NULL address is refused with status 1. *)
Theorem lsb_msb_roundtrip (val a b : Z) :
  0 <= val < 65536 ->
  (exists l m, util_get_LSB val (Some a) = (0, Some l) /\ util_get_MSB val (Some b) = (0, Some m) /\
    0 <= l < 256 /\ 0 <= m < 256 /\ val = m * 256 + l) /\
  util_get_LSB val None = (1, None) /\ util_get_MSB val None = (1, None).
Proof. intros Hv. split; [by apply lsb_msb_split|done]. Qed.

Lemma lsb_msb_roundtrip_witness :
  (exists l m, util_get_LSB 19886 (Some 0) = (0, Some l) /\ util_get_MSB 19886 (Some 0) = (0, Some m) /\
    0 <= l < 256 /\ 0 <= m < 256 /\ 19886 = m * 256 + l) /\
  util_get_LSB 19886 None = (1, None) /\ util_get_MSB 19886 None = (1, None).
Proof. apply (lsb_msb_roundtrip 19886 0 0). lia. Defined.

(** The result of [util_sys_inb] as a function of the call it makes. *)
Definition inb_result {W} `{PortIO W} (port : Z) (w : W) : option Z :=
  if (sys_inb port w).1.1 =? 0 then Some (u8 (sys_inb port w).1.2) else None.

Lemma util_sys_inb_eq {W} `{PortIO W} port (w : W) :
  util_sys_inb port w = Done (inb_result port w) (sys_inb port w).2.
Proof.
  unfold util_sys_inb, inb_result, bind, call.
  destruct (sys_inb port w) as [[aux v] w']. simpl. by destruct (aux =? 0).
Qed.

Lemma wp_util_sys_inb {W} `{PortIO W} port Q (w : W) :
  wp (util_sys_inb port) Q w <-> Q (inb_result port w) (sys_inb port w).2.
Proof. unfold wp. by rewrite util_sys_inb_eq. Qed.

Lemma inb_result_range {W} `{PortIO W} port (w : W) v :
  inb_result port w = Some v -> 0 <= v < 256.
Proof. unfold inb_result. case_match; intros [= <-]. apply u8_range. Qed.
