(* ===== verification/Timer.v ===== *)
(** proj/src/timer.c and proj/src/i8254.h: the driver of the i8254 timer.

    Operations that only use ports run over the world [W]; those that use the
    driver's globals run over [timer_st * W]. *)
From S2P Require Import Prelude Env Utils.

(** ** Constants *)

(** proj/src/i8254.h:12-13 [TIMER_FREQ] *)
Definition TIMER_FREQ : Z := 1193182.
(** proj/src/i8254.h:13-13 [TIMER0_IRQ] *)
Definition TIMER0_IRQ : Z := 0.
(** proj/src/i8254.h:17-17 [TIMER_0] *)
Definition TIMER_0 : Z := 0x40.
(** proj/src/i8254.h:18-18 [TIMER_1] *)
Definition TIMER_1 : Z := 0x41.
(** proj/src/i8254.h:19-19 [TIMER_2] *)
Definition TIMER_2 : Z := 0x42.
(** proj/src/i8254.h:20-20 [TIMER_CTRL] *)
Definition TIMER_CTRL : Z := 0x43.
(** proj/src/i8254.h:29-29 [TIMER_SEL1] *)
Definition TIMER_SEL1 : Z := BIT 6.
(** proj/src/i8254.h:30-30 [TIMER_SEL2] *)
Definition TIMER_SEL2 : Z := BIT 7.
(** proj/src/i8254.h:31-31 [TIMER_RB_CMD] *)
Definition TIMER_RB_CMD : Z := Z.lor (BIT 7) (BIT 6).
(** proj/src/i8254.h:35-37 [TIMER_LSB_MSB] *)
Definition TIMER_LSB_MSB : Z := Z.lor (BIT 4) (BIT 5).
(** proj/src/i8254.h:51-51 [TIMER_RB_COUNT_] *)
Definition TIMER_RB_COUNT_ : Z := BIT 5.
(** proj/src/i8254.h:53-53 [TIMER_RB_SEL] *)
Definition TIMER_RB_SEL (n : Z) : Z := BIT (n + 1).
(** .minix-src/include/minix/com.h:308-308 [IRQ_REENABLE] *)
Definition IRQ_REENABLE : Z := 0x001.

(** proj/src/timer.c:9-10 [tmr_tck_counter, hook_id2] *)
Record timer_st : Type := TimerSt { tmr_tck_counter : Z; hook_id2 : Z }.

(** proj/src/timer.c:9-10 [initial values] *)
Definition timer_init_st : timer_st := TimerSt 0 0.

#[export] Instance field_val_eq_dec : EqDecision timer_status_field_val.
Proof. solve_decision. Defined.

Section Timer.
Context {W : Type} `{PortIO W, Irq W, Lcf W}.

(** proj/src/timer.c:87-118 [timer_get_conf]: [None] when it returns 1, and [Some st] when it
    returns 0 with the status [st] stored in its argument. *)
Definition timer_get_conf (timer : Z) : M W (option Z) :=
  if (timer >? 2) || (timer <? 0) then ret None else
  let rbc := u8 (Z.lor (Z.lor TIMER_RB_CMD TIMER_RB_COUNT_) (TIMER_RB_SEL timer)) in
  let* _ := call (sys_outb TIMER_CTRL rbc) in
  let port :=
    if timer =? 0 then TIMER_0 else
    if timer =? 1 then TIMER_1 else
    if timer =? 2 then TIMER_2 else 0 in
  util_sys_inb port.

(** proj/src/timer.c:13-61 [timer_set_frequency] *)
Definition timer_set_frequency (timer freq : Z) : M W Z :=
  let* conf := timer_get_conf timer in
  match conf with
  | None => ret 1
  | Some status =>
      let last_bits := Z.land status 0x0F in
      if (freq <? 19) || (freq >? TIMER_FREQ) then ret 1 else
      let sel :=
        if timer =? 0 then Some (TIMER_0, u8 (Z.lor (Z.lor 0 TIMER_LSB_MSB) last_bits)) else
        if timer =? 1 then Some (TIMER_1, u8 (Z.lor (Z.lor TIMER_SEL1 TIMER_LSB_MSB) last_bits)) else
        if timer =? 2 then Some (TIMER_2, u8 (Z.lor (Z.lor TIMER_SEL2 TIMER_LSB_MSB) last_bits)) else
        None in
      match sel with
      | None => ret 1
      | Some (timeraddr, control_word) =>
          let div := u16 (TIMER_FREQ / freq) in
          let* lsb := of_option (util_get_LSB div (Some 0)).2 in
          let* msb := of_option (util_get_MSB div (Some 0)).2 in
          let* r := call (sys_outb TIMER_CTRL control_word) in
          if negb (r =? 0) then ret 1 else
          let* r := call (sys_outb timeraddr lsb) in
          if negb (r =? 0) then ret 1 else
          let* r := call (sys_outb timeraddr msb) in
          if negb (r =? 0) then ret 1 else
          ret 0
      end
  end.

(** proj/src/timer.c:63-72 [timer_subscribe_int]: the status and the value stored in [*bit_no]. *)
Definition timer_subscribe_int : M (timer_st * W) (Z * Z) :=
  modify (fun s => (TimerSt (tmr_tck_counter s.1) TIMER0_IRQ, s.2)) ;;
  let* hook := gets (fun s => hook_id2 s.1) in
  let bit_no := u8 hook in
  let* ' (r, hook') := zoom snd_lens (call (sys_irqsetpolicy TIMER0_IRQ IRQ_REENABLE hook)) in
  modify (fun s => (TimerSt (tmr_tck_counter s.1) hook', s.2)) ;;
  if negb (r =? 0) then ret (1, bit_no) else ret (0, bit_no).

(** proj/src/timer.c:74-80 [timer_unsubscribe_int] *)
Definition timer_unsubscribe_int : M (timer_st * W) Z :=
  let* hook := gets (fun s => hook_id2 s.1) in
  let* ' (r, hook') := zoom snd_lens (call (sys_irqrmpolicy hook)) in
  modify (fun s => (TimerSt (tmr_tck_counter s.1) hook', s.2)) ;;
  if negb (r =? 0) then ret 1 else ret 0.

(** proj/src/timer.c:82-85 [timer_int_handler] *)
Definition timer_int_handler : M (timer_st * W) unit :=
  let* t := gets (fun s => tmr_tck_counter s.1) in
  let* t' := int_ (t + 1) in
  modify (fun s => (TimerSt t' (hook_id2 s.1), s.2)).

(** proj/src/timer.c:133-156 [timer_display_conf, the value it displays] *)
Definition timer_field_val (st : Z) (field : timer_status_field) : timer_status_field_val :=
  match field with
  | tsf_all => val_byte st
  | tsf_initial =>
      val_in_mode (Z.lor (Z.land st (BIT 5)) (Z.shiftr (Z.land st (BIT 4)) 4))
  | tsf_mode =>
      val_count_mode (u8 (Z.lor (Z.lor (Z.land st (BIT 3)) (Z.land st (BIT 2)))
                                (Z.shiftr (Z.land st (BIT 1)) 1)))
  | tsf_base =>
      let aux := Z.land st (BIT 0) in
      if aux =? 1 then val_bcd true else val_bcd false
  end.

(** proj/src/timer.c:120-166 [timer_display_conf] *)
Definition timer_display_conf (timer st : Z) (field : timer_status_field) : M W Z :=
  let* r := call (timer_print_config timer field (timer_field_val st field)) in
  if negb (r =? 0) then ret 1 else ret 0.
End Timer.

(** ** The i8254 as its data sheet describes it

    The bytes a driver writes, as the chip understands them: a control word
    selects a timer, an access mode and a counting mode; with access mode
    "LSB then MSB" the next two bytes of that timer's port are its new divisor. *)
Record control : Type := Control { c_timer : Z; c_access : Z; c_mode : Z; c_bcd : bool }.

Definition decode_control (w : Z) : control :=
  Control (Z.shiftr w 6) (Z.land (Z.shiftr w 4) 3) (Z.land (Z.shiftr w 1) 7) (has w 1).

(** The fields of a status byte, as the read-back command reports them: the
    access mode in bits 5-4, the counting mode in bits 3-1 (where 6 and 7 stand
    for 2 and 3), BCD in bit 0. *)
Definition status_init (st : Z) : Z := Z.land (Z.shiftr st 4) 3.
Definition status_mode (st : Z) : Z :=
  let m := Z.land (Z.shiftr st 1) 7 in if m >=? 6 then m - 4 else m.

(** * Lemmas *)
Section TimerSpec.
Context {W : Type} `{PortIO W, Irq W, Lcf W}.

(** The port of a timer, the read-back command and the world after them. *)
Definition conf_cmd (timer : Z) : Z := 0xE0 + BIT (timer + 1).
Definition after_conf (timer : Z) (w : W) : W := (sys_outb TIMER_CTRL (conf_cmd timer) w).2.

Lemma timer_cases timer : 0 <= timer <= 2 -> timer = 0 \/ timer = 1 \/ timer = 2.
Proof. lia. Qed.

Lemma timer_get_conf_eq timer (w : W) :
  0 <= timer <= 2 ->
  timer_get_conf timer w =
    Done (inb_result (TIMER_0 + timer) (after_conf timer w))
         (sys_inb (TIMER_0 + timer) (after_conf timer w)).2.
Proof.
  intros Ht. unfold timer_get_conf, after_conf.
  destruct (timer_cases _ Ht) as [->|[->| ->]];
    unfold bind, call; simpl; destruct (sys_outb _ _ _); by rewrite util_sys_inb_eq.
Qed.

Lemma timer_get_conf_bad timer (w : W) :
  ~ 0 <= timer <= 2 -> timer_get_conf timer w = Done None w.
Proof.
  intros Ht. unfold timer_get_conf.
  destruct ((timer >? 2) || (timer <? 0)) eqn:E; [done|]. lia.
Qed.

(** Writes to ports, in order. *)
Definition outs (l : list (Z * Z)) (w : W) : W :=
  fold_left (fun w pv => (sys_outb pv.1 pv.2 w).2) l w.

Lemma call_outb_ok `{!OutbOk W} p v (w : W) : call (sys_outb p v) w = Done 0 (outs [(p, v)] w).
Proof.
  unfold call, outs. simpl. pose proof (outb_ok p v w) as E.
  destruct (sys_outb p v w); simpl in *; by subst.
Qed.
End TimerSpec.

(** The control word [timer_set_frequency] builds for [timer] when the status is [st]. *)
Definition control_word_of (timer st : Z) : Z :=
  u8 (Z.lor (Z.lor (if timer =? 0 then 0 else if timer =? 1 then TIMER_SEL1 else TIMER_SEL2)
                   TIMER_LSB_MSB) (Z.land st 0x0F)).

#[export] Instance control_eq_dec : EqDecision control.
Proof. solve_decision. Defined.

Lemma decode_control_word timer st :
  0 <= timer <= 2 -> 0 <= st < 256 ->
  decode_control (control_word_of timer st) =
    Control timer 3 (Z.land (Z.shiftr st 1) 7) (has st 1).
Proof.
  intros Ht Hst.
  destruct (timer_cases _ Ht) as [->|[->| ->]]; decide_byte st Hst.
Qed.

Lemma freq_div_range freq : 19 <= freq <= TIMER_FREQ -> 1 <= TIMER_FREQ / freq <= 62799.
Proof.
  unfold TIMER_FREQ. intros Hf. split.
  - apply Z.div_le_lower_bound; lia.
  - transitivity (1193182 / 19); [apply Z.div_le_compat_l; lia|by vm_compute].
Qed.

Section TimerTheorems.
Context {W : Type} `{PortIO W, Irq W, Lcf W}.

(** (C17) On a valid timer and a frequency in range, when the status can be
    read and port writes succeed, [timer_set_frequency] returns 0 after
    exactly these writes: the read-back command, then a control word that
    selects this timer, the LSB-then-MSB access mode and keeps the counting
    mode and base read from the chip, then the low and high bytes of
    [TIMER_FREQ / freq] on the timer's own port. *)
Theorem timer_set_frequency_programs `{!OutbOk W} timer freq st (w : W) :
  0 <= timer <= 2 -> 19 <= freq <= TIMER_FREQ ->
  inb_result (TIMER_0 + timer) (after_conf timer w) = Some st ->
  exists cw lsb msb,
    timer_set_frequency timer freq w =
      Done 0 (outs [(TIMER_CTRL, cw); (TIMER_0 + timer, lsb); (TIMER_0 + timer, msb)]
                   (sys_inb (TIMER_0 + timer) (outs [(TIMER_CTRL, conf_cmd timer)] w)).2) /\
    decode_control cw = Control timer 3 (Z.land (Z.shiftr st 1) 7) (has st 1) /\
    0 <= lsb < 256 /\ 0 <= msb < 256 /\ msb * 256 + lsb = TIMER_FREQ / freq.
Proof.
  intros Ht Hf Hst. pose proof (freq_div_range freq Hf) as Hd.
  destruct (lsb_msb_split (TIMER_FREQ / freq) 0 0 ltac:(lia))
    as (l & m & El & Em & Hl & Hm & Hsum).
  exists (control_word_of timer st), l, m. split_and!; try lia.
  - unfold timer_set_frequency.
    rewrite (bind_Done _ _ _ _ _ (timer_get_conf_eq timer w Ht)), Hst.
    replace ((freq <? 19) || (freq >? TIMER_FREQ)) with false by lia.
    rewrite (u16_small (TIMER_FREQ / freq)) by lia.
    unfold control_word_of.
    destruct (timer_cases _ Ht) as [->|[->| ->]]; rewrite El, Em;
      cbn [Z.eqb of_option snd negb Pos.eqb]; rewrite !bind_ret;
      by do 3 (erewrite bind_Done; [|apply call_outb_ok]; cbn [Z.eqb negb]).
  - apply decode_control_word; [done|]. by eapply inb_result_range.
Qed.

(** [timer_set_frequency] refuses, with status 1 and without programming
    anything: a timer other than 0, 1, 2 (no port is touched), a status that
    cannot be read, and a frequency below 19 or above the clock's (only the
    read-back command was written). *)
Theorem timer_set_frequency_rejects timer freq (w : W) :
  (~ 0 <= timer <= 2 -> timer_set_frequency timer freq w = Done 1 w) /\
  (0 <= timer <= 2 ->
   inb_result (TIMER_0 + timer) (after_conf timer w) = None \/ freq < 19 \/ freq > TIMER_FREQ ->
   timer_set_frequency timer freq w =
     Done 1 (sys_inb (TIMER_0 + timer) (outs [(TIMER_CTRL, conf_cmd timer)] w)).2).
Proof.
  split.
  - intros Ht. unfold timer_set_frequency.
    by rewrite (bind_Done _ _ _ _ _ (timer_get_conf_bad timer w Ht)).
  - intros Ht Hbad. unfold timer_set_frequency.
    rewrite (bind_Done _ _ _ _ _ (timer_get_conf_eq timer w Ht)).
    destruct Hbad as [->|Hbad]; [done|].
    destruct (inb_result _ _); [|done].
    by replace ((freq <? 19) || (freq >? TIMER_FREQ)) with true by lia.
Qed.
End TimerTheorems.

(** The accepted frequencies are exactly those whose divisor is a positive
    16-bit number, so the conversion to [uint16_t] loses nothing; the timer's
    real frequency [TIMER_FREQ / div] is never below the one asked for. *)
Theorem timer_div_fits (freq : Z) :
  0 < freq ->
  (19 <= freq <= TIMER_FREQ <-> 0 < TIMER_FREQ / freq < 65536) /\
  (19 <= freq <= TIMER_FREQ ->
     u16 (TIMER_FREQ / freq) = TIMER_FREQ / freq /\ freq <= TIMER_FREQ / u16 (TIMER_FREQ / freq)).
Proof.
  intros Hf. split; [split|].
  - intros Hr. pose proof (freq_div_range freq Hr). lia.
  - intros [Hlo Hhi]. unfold TIMER_FREQ in *. split.
    + destruct (Z.le_gt_cases 19 freq) as [|Hlt]; [done|].
      assert (1193182 / 18 <= 1193182 / freq) as Hle by (apply Z.div_le_compat_l; lia).
      change (1193182 / 18) with 66287 in Hle. lia.
    + destruct (Z.le_gt_cases freq 1193182) as [|Hlt]; [done|].
      rewrite Z.div_small in Hlo; lia.
  - intros Hr. pose proof (freq_div_range freq Hr). rewrite u16_small by lia. split; [done|].
    apply Z.div_le_lower_bound; [lia|]. rewrite Z.mul_comm. apply Z.mul_div_le. lia.
Qed.

Lemma timer_div_fits_witness :
  (19 <= 60 <= TIMER_FREQ <-> 0 < TIMER_FREQ / 60 < 65536) /\
  (19 <= 60 <= TIMER_FREQ ->
     u16 (TIMER_FREQ / 60) = TIMER_FREQ / 60 /\ 60 <= TIMER_FREQ / u16 (TIMER_FREQ / 60)).
Proof. apply (timer_div_fits 60). lia. Defined.

(** What [timer_display_conf] shows of a status byte: the whole byte and
    the base are right; the initialisation mode is right exactly when bit 5 is
    clear, and the counting mode exactly when it is mode 0 or 1, because the
    fields are masked without being shifted down to bit 0. *)
Theorem timer_display_conf_fields (st : Z) :
  0 <= st < 256 ->
  timer_field_val st tsf_all = val_byte st /\
  timer_field_val st tsf_base = val_bcd (Z.testbit st 0) /\
  (timer_field_val st tsf_initial = val_in_mode (status_init st) <-> Z.testbit st 5 = false) /\
  (timer_field_val st tsf_mode = val_count_mode (status_mode st) <-> status_mode st <= 1).
Proof.
  intros Hst. split; [done|]. decide_byte st Hst.
Qed.

Lemma timer_set_frequency_programs_witness :
  let w := with_in [(0, 0x36)] script0 in
  exists cw lsb msb,
    timer_set_frequency 0 60 w =
      Done 0 (outs [(TIMER_CTRL, cw); (TIMER_0 + 0, lsb); (TIMER_0 + 0, msb)]
                   (sys_inb (TIMER_0 + 0) (outs [(TIMER_CTRL, conf_cmd 0)] w)).2) /\
    decode_control cw = Control 0 3 (Z.land (Z.shiftr 0x36 1) 7) (has 0x36 1) /\
    0 <= lsb < 256 /\ 0 <= msb < 256 /\ msb * 256 + lsb = TIMER_FREQ / 60.
Proof.
  apply (timer_set_frequency_programs 0 60 0x36 (with_in [(0, 0x36)] script0));
    [lia|unfold TIMER_FREQ; lia|reflexivity].
Defined.

Lemma timer_set_frequency_rejects_witness :
  let w := with_in [(0, 0x36)] script0 in
  timer_set_frequency 3 60 w = Done 1 w /\
  timer_set_frequency 0 18 w =
    Done 1 (sys_inb (TIMER_0 + 0) (outs [(TIMER_CTRL, conf_cmd 0)] w)).2.
Proof.
  split.
  - apply (timer_set_frequency_rejects 3 60). lia.
  - apply (timer_set_frequency_rejects 0 18); [lia|]. right. lia.
Defined.

Lemma timer_display_conf_fields_witness :
  timer_field_val 0x36 tsf_all = val_byte 0x36 /\
  timer_field_val 0x36 tsf_base = val_bcd (Z.testbit 0x36 0) /\
  (timer_field_val 0x36 tsf_initial = val_in_mode (status_init 0x36) <-> Z.testbit 0x36 5 = false) /\
  (timer_field_val 0x36 tsf_mode = val_count_mode (status_mode 0x36) <-> status_mode 0x36 <= 1).
Proof. apply (timer_display_conf_fields 0x36). lia. Defined.

(** [n] interrupts add [n] to the tick counter as long as the result is an
    [int], and leave the hook id alone; the interrupt at [INT_MAX] overflows. *)
Theorem timer_ticks {W : Type} (n : nat) (t h : Z) (w : W) :
  0 <= t -> t + Z.of_nat n <= INT_MAX ->
  for_range 0 (Z.of_nat n) (fun _ => timer_int_handler) (TimerSt t h, w) =
    Done tt (TimerSt (t + Z.of_nat n) h, w) /\
  timer_int_handler (TimerSt INT_MAX h, w) = Undef.
Proof.
  intros Ht Hn. split; [|done].
  enough (forall lo t, 0 <= t -> t + Z.of_nat n <= INT_MAX ->
    for_acc n lo tt (fun _ _ => timer_int_handler) (TimerSt t h, w) =
      Done tt (TimerSt (t + Z.of_nat n) h, w)) as Hall.
  { unfold for_range. rewrite Z.sub_0_r, Nat2Z.id. by apply Hall. }
  clear t Ht Hn. induction n as [|n IH]; intros lo t Ht Hn.
  - simpl. by rewrite Z.add_0_r.
  - cbn [for_acc]. unfold bind at 1, timer_int_handler at 1, int_, bind, gets. simpl.
    replace (is_int (t + 1)) with true by (symmetry; apply is_int_spec; unfold INT_MIN; lia).
    simpl. rewrite IH by lia. do 3 f_equal. lia.
Qed.

Lemma timer_ticks_witness :
  for_range 0 (Z.of_nat 5) (fun _ => timer_int_handler) (TimerSt 7 0, script0) =
    Done tt (TimerSt (7 + Z.of_nat 5) 0, script0) /\
  timer_int_handler (TimerSt INT_MAX 0, script0) = Undef.
Proof. apply (timer_ticks 5 7 0 script0); [lia|unfold INT_MAX; lia]. Defined.
