(* ===== verification/Rtc.v ===== *)
(** proj/src/rtc.c and proj/src/rtc.h: the real-time clock. [get_date] reads
    six registers through the address and data ports and stores them as binary
    numbers. [CmosLaws] is what it relies on of the clock chip. *)
From S2P Require Import Prelude Env Utils Timer.

(** ** Constants *)

(** proj/src/rtc.h:4-4 [IRQ8] *)
Definition IRQ8 : Z := 8.
(** proj/src/rtc.h:5-5 [RTC_ADDR_REG] *)
Definition RTC_ADDR_REG : Z := 0x70.
(** proj/src/rtc.h:6-6 [RTC_DATA_REG] *)
Definition RTC_DATA_REG : Z := 0x71.
(** proj/src/rtc.h:10-10 [REG_YEAR] *)
Definition REG_YEAR : Z := 0x09.
(** proj/src/rtc.h:11-11 [REG_MONTH] *)
Definition REG_MONTH : Z := 0x08.
(** proj/src/rtc.h:12-12 [REG_DAY] *)
Definition REG_DAY : Z := 0x07.
(** proj/src/rtc.h:13-13 [REG_HOUR] *)
Definition REG_HOUR : Z := 0x04.
(** proj/src/rtc.h:14-14 [REG_MINUTE] *)
Definition REG_MINUTE : Z := 0x02.
(** proj/src/rtc.h:15-15 [REG_SECOND] *)
Definition REG_SECOND : Z := 0x00.

(** proj/src/structs.h:40-43 [Date] *)
Record Date : Type := MkDate {
  day : Z; month : Z; year : Z;
  hour : Z; minute : Z; second : Z
}.

(** proj/src/rtc.c:5-7 [date, rtc_hook_id] *)
Record rtc_st : Type := RtcSt { date : Date; rtc_hook_id : Z }.

(** proj/src/rtc.c:5-7 [initial values] *)
Definition rtc_init_st : rtc_st := RtcSt (MkDate 0 0 0 0 0 0) 3.

(** proj/src/rtc.c:26-28 [convert_bcd_to_dec] *)
Definition convert_bcd_to_dec (bcd : Z) : Z :=
  u32 (Z.shiftr (Z.land bcd 0xF0) 4 * 10 + Z.land bcd 0x0F).

Section Rtc.
Context {W : Type} `{PortIO W, Irq W}.

(** proj/src/rtc.c:11-16 [rtc_subscribe] *)
Definition rtc_subscribe : M (rtc_st * W) Z :=
  let* hook := gets (fun s => rtc_hook_id s.1) in
  let* ' (r, hook') := zoom snd_lens (call (sys_irqsetpolicy IRQ8 IRQ_REENABLE hook)) in
  modify (fun s => (RtcSt (date s.1) hook', s.2)) ;;
  if negb (r =? 0) then ret 1 else ret 0.

(** proj/src/rtc.c:18-23 [rtc_unsubscribe] *)
Definition rtc_unsubscribe : M (rtc_st * W) Z :=
  let* hook := gets (fun s => rtc_hook_id s.1) in
  let* ' (r, hook') := zoom snd_lens (call (sys_irqrmpolicy hook)) in
  modify (fun s => (RtcSt (date s.1) hook', s.2)) ;;
  if negb (r =? 0) then ret 1 else ret 0.

(** proj/src/rtc.c:35-36 [get_date, one register]: the variable keeps its
    initial 0 when the read fails. *)
Definition read_reg (reg : Z) : M W Z :=
  let* _ := call (sys_outb RTC_ADDR_REG reg) in
  let* v := util_sys_inb RTC_DATA_REG in
  ret (default 0 v).

(** proj/src/rtc.c:32-61 [get_date] *)
Definition get_date : M (rtc_st * W) Z :=
  let* y := zoom snd_lens (read_reg REG_YEAR) in
  let* mo := zoom snd_lens (read_reg REG_MONTH) in
  let* d := zoom snd_lens (read_reg REG_DAY) in
  let* h := zoom snd_lens (read_reg REG_HOUR) in
  let* mi := zoom snd_lens (read_reg REG_MINUTE) in
  let* s := zoom snd_lens (read_reg REG_SECOND) in
  modify (fun st => (RtcSt (MkDate (convert_bcd_to_dec d) (convert_bcd_to_dec mo)
                                   (convert_bcd_to_dec y) (convert_bcd_to_dec h)
                                   (convert_bcd_to_dec mi) (convert_bcd_to_dec s))
                           (rtc_hook_id st.1), st.2)) ;;
  ret 0.
End Rtc.

(** ** The clock chip

    The registers of the chip in a world: writing a register number to the
    address port selects it, and reading the data port then gives its byte.
    Neither changes the registers. *)
Class CmosLaws (W : Type) `{PortIO W} (cmos : W -> Z -> Z) : Prop := {
  cmos_select : forall r w,
    let w1 := (sys_outb RTC_ADDR_REG r w).2 in
    (sys_inb RTC_DATA_REG w1).1 = (0, cmos w r);
  cmos_keep : forall r w,
    let w1 := (sys_outb RTC_ADDR_REG r w).2 in
    forall r', cmos (sys_inb RTC_DATA_REG w1).2 r' = cmos w r'
}.

(** A chip that obeys the laws: the selected register and the registers. *)
Record cmos_chip : Type := Chip { selected : Z; regs : Z -> Z }.

#[export] Instance chip_io : PortIO cmos_chip := {|
  sys_inb p w := ((0, if p =? RTC_DATA_REG then regs w (selected w) else 0), w);
  sys_outb p v w := (0, if p =? RTC_ADDR_REG then Chip v (regs w) else w);
  tickdelay_us _ w := w
|}.

(** The encoding the chip uses for a number below 100. *)
Definition bcd_of (n : Z) : Z := (n / 10) * 16 + n mod 10.
Definition is_bcd (b : Z) : bool := (0 <=? b) && (b <? 256) && (Z.land b 15 <=? 9) && (Z.shiftr b 4 <=? 9).

(** The registers [r] show the date [d]: two decimal digits of each field, one in
    each half of its register. *)
Definition two_digits (n b : Z) : Prop := exists tens units,
  0 <= tens <= 9 /\ 0 <= units <= 9 /\ n = 10 * tens + units /\ b = 16 * tens + units.
Definition shows_date (r : Z -> Z) (d : Date) : Prop :=
  two_digits (year d) (r REG_YEAR) /\ two_digits (month d) (r REG_MONTH) /\ two_digits (day d) (r REG_DAY) /\
  two_digits (hour d) (r REG_HOUR) /\ two_digits (minute d) (r REG_MINUTE) /\ two_digits (second d) (r REG_SECOND).

(** * Lemmas *)

#[export] Instance chip_laws : CmosLaws cmos_chip regs.
Proof. by split. Qed.

(** [convert_bcd_to_dec] undoes the BCD encoding of every number below
    100, every BCD byte is such an encoding, and on any byte the result fits:
    it is at most 165. *)
Theorem convert_bcd_to_dec_roundtrip :
  (forall n, 0 <= n < 100 -> convert_bcd_to_dec (bcd_of n) = n) /\
  (forall b, 0 <= b < 256 -> is_bcd b = true -> bcd_of (convert_bcd_to_dec b) = b) /\
  (forall b, 0 <= b < 256 -> 0 <= convert_bcd_to_dec b <= 165).
Proof.
  split_and!.
  - intros n Hn. assert (0 <= n < 256) as Hb by lia. revert Hn. decide_byte n Hb.
  - intros b Hb. decide_byte b Hb.
  - intros b Hb. decide_byte b Hb.
Qed.

Lemma two_digits_bcd n b : two_digits n b -> 0 <= b < 256 /\ convert_bcd_to_dec b = n.
Proof.
  intros (t & u & Ht & Hu & -> & ->). split; [lia|]. rewrite <- (proj1 convert_bcd_to_dec_roundtrip (10 * t + u)) by lia.
  f_equal. unfold bcd_of. Z.div_mod_to_equations. lia.
Qed.

Section GetDate.
Context {W : Type} `{PortIO W} (cmos : W -> Z -> Z) `{!CmosLaws W cmos}.

Lemma wp_read_reg r (Q : Z -> W -> Prop) w :
  0 <= cmos w r < 256 ->
  (forall w', (forall r', cmos w' r' = cmos w r') -> Q (cmos w r) w') ->
  wp (read_reg r) Q w.
Proof.
  intros Hr HQ. unfold read_reg. apply wp_bind, wp_call. cbv beta.
  apply wp_bind, wp_util_sys_inb, wp_ret.
  pose proof (cmos_select r w) as Hsel. pose proof (cmos_keep r w) as Hkeep. cbv zeta in *.
  unfold inb_result. rewrite Hsel. simpl. rewrite u8_small by done. by apply HQ.
Qed.

Ltac keep_regs :=
  repeat match goal with E : forall r', cmos _ r' = cmos _ r' |- _ => rewrite E end.

(** (C16) When the registers of a clock chip that obeys its laws show a date, two
    decimal digits of each field in the halves of its register (BCD), [get_date]
    returns 0 and stores exactly this date: year, month, day, hour, minute and
    second, each in its own field. The subscription's hook id and the chip's
    registers do not change. *)
Theorem get_date_reads_clock (s : rtc_st) (w : W) (d : Date) :
  shows_date (cmos w) d ->
  exists w', get_date (s, w) = Done 0 (RtcSt d (rtc_hook_id s), w') /\ forall r, cmos w' r = cmos w r.
Proof.
  intros (Hy & Hmo & Hd & Hh & Hmi & Hs).
  apply two_digits_bcd in Hy as [By Ey], Hmo as [Bmo Emo], Hd as [Bd Ed], Hh as [Bh Eh], Hmi as [Bmi Emi], Hs as [Bs Es].
  assert (wp get_date (fun r s' => r = 0 /\ s'.1 = RtcSt d (rtc_hook_id s) /\
    forall r, cmos s'.2 r = cmos w r) (s, w)) as Hwp.
  { unfold get_date.
    do 6 (apply wp_bind, wp_zoom, wp_read_reg; [simpl; keep_regs; assumption|];
          intros ? ?; cbn [lset snd_lens fst snd lget] in * ).
    cbn. keep_regs. rewrite Ey, Emo, Ed, Eh, Emi, Es. split_and!; [done|by destruct d|]. intros r'. by keep_regs. }
  apply wp_inv in Hwp as (r & [s' w'] & -> & -> & Es' & Hk). simpl in *. subst. by exists w'.
Qed.
End GetDate.

(** The 12th of December 2012, half past nine in the evening. *)
Lemma get_date_reads_clock_witness :
  let w := Chip 0 (fun r => if r =? REG_HOUR then 0x21 else if r =? REG_MINUTE then 0x30 else 0x12) in
  exists w', get_date (rtc_init_st, w) = Done 0 (RtcSt (MkDate 12 12 12 21 30 12) 3, w') /\ forall r, regs w' r = regs w r.
Proof.
  apply (get_date_reads_clock regs rtc_init_st).
  split_and!; [exists 1, 2|exists 1, 2|exists 1, 2|exists 2, 1|exists 3, 0|exists 1, 2]; vm_compute; repeat split; discriminate.
Defined.
