(* ===== verification/Interrupts.v ===== *)
(** The loop with which every laboratory program waits for interrupts, and what it
    means that the next interrupt it is interested in arrives. The messages come
    from [driver_receive], which is a parameter ([Messages]). *)
From S2P Require Import Prelude Env.

(** A message that announces interrupts: received without error, a notification,
    from [HARDWARE]. *)
Definition is_hardware (m : receive) : bool := (rcv_status m =? 0) && rcv_notify m && rcv_hardware m.

Section Loop.
Context {St W : Type} `{Messages W}.

(** lab2/lab2.c:75-101 [timer_test_int, the loop, which the other tests repeat]: [go] is its
    condition, on the globals; [handle] is what a program does with a mask of
    pending interrupts. A [continue] in [handle] is an early return of it. *)
Definition interrupt_loop (fuel : nat) (go : St -> bool) (handle : Z -> M (St * W) unit) : M (St * W) unit :=
  loop fuel (
    let* s := gets fst in
    if negb (go s) then ret (Some tt) else
    let* m := zoom snd_lens (call driver_receive) in
    if negb (rcv_status m =? 0) then ret None else
    if rcv_notify m then
      if rcv_hardware m then handle (rcv_interrupts m) ;; ret None
      else ret None
    else ret None).
End Loop.

(** [hears relevant n w i w']: from [w], [n] messages that do not matter (an error, no
    notification, not from the hardware, or with no relevant interrupt) are
    received before one that does, with the pending interrupts [i]. *)
Inductive hears {W} `{Messages W} (relevant : Z -> bool) : nat -> W -> Z -> W -> Prop :=
  | hears_now w m w' :
      driver_receive w = (m, w') -> is_hardware m = true -> relevant (rcv_interrupts m) = true ->
      hears relevant 0 w (rcv_interrupts m) w'
  | hears_later n w m w1 i w' :
      driver_receive w = (m, w1) -> is_hardware m && relevant (rcv_interrupts m) = false ->
      hears relevant n w1 i w' -> hears relevant (S n) w i w'.

(** * Lemmas *)

Lemma hears_relevant {W} `{Messages W} relevant n (w w' : W) i :
  hears relevant n w i w' -> relevant i = true.
Proof. by induction 1. Qed.

Section LoopSpec.
Context {St W : Type} `{Messages W}.
Variable (relevant : Z -> bool) (go : St -> bool) (handle : Z -> M (St * W) unit).
Hypothesis Hidle : forall i s, relevant i = false -> handle i s = Done tt s.

(** The loop ends when its condition is false. *)
Lemma interrupt_loop_done fuel s (w : W) :
  (0 < fuel)%nat -> go s = false -> interrupt_loop fuel go handle (s, w) = Done tt (s, w).
Proof.
  intros Hf Hg. destruct fuel as [|fuel]; [lia|]. unfold interrupt_loop. cbn [loop].
  unfold bind, gets. simpl. by rewrite Hg.
Qed.

(** One round: a message is received and handled. *)
Lemma loop_round fuel s (w w' : W) m :
  go s = true -> driver_receive w = (m, w') ->
  interrupt_loop (S fuel) go handle (s, w) =
    bind (if negb (rcv_status m =? 0) then ret None else
          if rcv_notify m then
            if rcv_hardware m then handle (rcv_interrupts m) ;; ret None else ret None
          else ret None)
      (fun r => match r with Some a => ret a | None => interrupt_loop fuel go handle end) (s, w').
Proof.
  intros Hg E. unfold interrupt_loop at 1. cbn [loop].
  rewrite bind_assoc, (bind_Done _ _ _ _ _ (gets_eq _ _)). cbn [fst]. rewrite Hg. cbn [negb].
  by rewrite bind_assoc, (bind_Done _ _ _ _ _ (zoom_call_snd _ _ _ _ _ E)).
Qed.

(** While it is true, the next relevant interrupt is handled after as many rounds
    as there are messages before it. *)
Lemma interrupt_loop_hears n fuel s (w w' : W) i :
  go s = true -> hears relevant n w i w' ->
  interrupt_loop (fuel + S n) go handle (s, w) =
    bind (handle i) (fun _ => interrupt_loop fuel go handle) (s, w').
Proof using Hidle.
  intros Hg Hh. revert fuel. induction Hh as [w m w' E Hm Hr|n w m w1 i w' E Hm Hh IH]; intros fuel.
  - rewrite Nat.add_1_r, (loop_round _ _ _ _ _ Hg E).
    unfold is_hardware in Hm. apply andb_true_iff in Hm as [[Hs Hn]%andb_true_iff Hw].
    rewrite Hs, Hn, Hw. cbn [negb]. by rewrite bind_assoc.
  - rewrite Nat.add_succ_r, (loop_round _ _ _ _ _ Hg E), <- IH. unfold is_hardware in Hm.
    destruct (rcv_status m =? 0); cbn [negb]; [|done].
    destruct (rcv_notify m); [|done]. destruct (rcv_hardware m); [|done].
    rewrite bind_assoc. by rewrite (bind_Done _ _ _ _ _ (Hidle _ _ Hm)).
Qed.
End LoopSpec.

(** A notification from the hardware, as the scripted world delivers it. *)
Definition irq (mask : Z) : receive := Receive 0 true true mask.

Lemma script_hears relevant (w : script) i l :
  s_msgs w = irq i :: l -> relevant i = true -> hears relevant 0 w i (with_msgs l w).
Proof.
  intros E Hr. change i with (rcv_interrupts (irq i)). constructor; [|done|done].
  simpl. by rewrite E.
Qed.
