(* ===== verification/I8042.v ===== *)
(** proj/src/i8042.h: the keyboard controller that the keyboard and the mouse
    share: its ports, status bits and commands, and what it means that the
    controller becomes ready after some number of polls. *)
From S2P Require Import Prelude Env Utils.

(** proj/src/i8042.h:13-13 [WAIT_KBC] *)
Definition WAIT_KBC : Z := 20000.
(** proj/src/i8042.h:16-16 [IRQ1] *)
Definition IRQ1 : Z := 1.
(** proj/src/i8042.h:17-17 [IRQ0] *)
Definition IRQ0 : Z := 0.
(** proj/src/i8042.h:18-18 [IRQ12] *)
Definition IRQ12 : Z := 12.
(** proj/src/i8042.h:21-21 [P_KEY_BREAKCODE] *)
Definition P_KEY_BREAKCODE : Z := 0x99.
(** proj/src/i8042.h:22-22 [I_KEY_BREAKCODE] *)
Definition I_KEY_BREAKCODE : Z := 0x97.
(** proj/src/i8042.h:23-23 [E_KEY_BREAKCODE] *)
Definition E_KEY_BREAKCODE : Z := 0x92.
(** proj/src/i8042.h:28-28 [STATUS_KBC] *)
Definition STATUS_KBC : Z := 0x64.
(** proj/src/i8042.h:30-30 [STATUS_REGISTER] *)
Definition STATUS_REGISTER : Z := 0x64.
(** proj/src/i8042.h:32-32 [INPUT_BUFFER_COMMANDS] *)
Definition INPUT_BUFFER_COMMANDS : Z := 0x64.
(** proj/src/i8042.h:34-34 [INPUT_BUFFER_ARGUMENTS] *)
Definition INPUT_BUFFER_ARGUMENTS : Z := 0x60.
(** proj/src/i8042.h:36-36 [OUTPUT_BUFFER] *)
Definition OUTPUT_BUFFER : Z := 0x60.
(** proj/src/i8042.h:40-40 [OUT_BUFF] *)
Definition OUT_BUFF : Z := BIT 0.
(** proj/src/i8042.h:42-42 [IN_BUFF] *)
Definition IN_BUFF : Z := BIT 1.
(** proj/src/i8042.h:48-48 [KBC_PAR_ERR] *)
Definition KBC_PAR_ERR : Z := BIT 7.
(** proj/src/i8042.h:50-50 [KBC_TO_ERR] *)
Definition KBC_TO_ERR : Z := BIT 6.
(** proj/src/i8042.h:54-54 [READ_COMMAND] *)
Definition READ_COMMAND : Z := 0x20.
(** proj/src/i8042.h:56-56 [WRITE_COMMAND] *)
Definition WRITE_COMMAND : Z := 0x60.
(** proj/src/i8042.h:58-58 [ISSUE_COMMAND_TO_THE_MOUSE] *)
Definition ISSUE_COMMAND_TO_THE_MOUSE : Z := 0xD4.
(** proj/src/i8042.h:63-63 [ENABLE_MOUSE_DATA] *)
Definition ENABLE_MOUSE_DATA : Z := 0xF4.
(** proj/src/i8042.h:65-65 [DISABLE_MOUSE_DATA] *)
Definition DISABLE_MOUSE_DATA : Z := 0xF5.
(** proj/src/i8042.h:67-67 [SET_STREAM_MODE] *)
Definition SET_STREAM_MODE : Z := 0xEA.
(** proj/src/i8042.h:69-69 [SET_REMOTE_MODE] *)
Definition SET_REMOTE_MODE : Z := 0xF0.
(** proj/src/i8042.h:71-71 [READ_DATA_MOUSE] *)
Definition READ_DATA_MOUSE : Z := 0xEB.
(** proj/src/i8042.h:78-78 [ESCAPE] *)
Definition ESCAPE : Z := 0x81.
(** proj/src/i8042.h:88-88 [IS_OK] *)
Definition IS_OK : Z := 0xFA.
(** proj/src/i8042.h:90-90 [DELAY_US] *)
Definition DELAY_US : Z := 20000.
(** .minix-src/include/minix/com.h:309-309 [IRQ_EXCLUSIVE] *)
Definition IRQ_EXCLUSIVE : Z := 0x002.

(** The two error bits of the status, [KBC_PAR_ERR | KBC_TO_ERR]. *)
Definition KBC_ERRS : Z := Z.lor KBC_PAR_ERR KBC_TO_ERR.

(** ** Polling

    [polls ready wait n w st w']: starting in [w], the status register is read
    successfully [n + 1] times; the first [n] statuses do not satisfy [ready]
    and are each followed by [wait]; the last one is [st], which does, and
    leaves the world [w']. *)
Inductive polls {W} `{PortIO W} (ready : Z -> bool) (wait : W -> W) : nat -> W -> Z -> W -> Prop :=
  | polls_now st w :
      inb_result STATUS_REGISTER w = Some st -> ready st = true ->
      polls ready wait 0 w st (sys_inb STATUS_REGISTER w).2
  | polls_later n w st st' w' :
      inb_result STATUS_REGISTER w = Some st -> ready st = false ->
      polls ready wait n (wait (sys_inb STATUS_REGISTER w).2) st' w' ->
      polls ready wait (S n) w st' w'.

(** Reads of ports do not fail. *)
Class InbOk (W : Type) `{PortIO W} : Prop := {
  inb_ok : forall p (w : W), (sys_inb p w).1.1 = 0
}.

(** * Lemmas *)

Lemma inb_result_ok {W} `{PortIO W} `{!InbOk W} p (w : W) :
  inb_result p w = Some (u8 (sys_inb p w).1.2).
Proof. unfold inb_result. by rewrite inb_ok. Qed.

#[export] Instance quiet_inb_ok : InbOk quiet.
Proof. by split. Qed.

(** A polling loop over a state that contains the world, [embed w]: while the
    status is not ready the body goes round once, after [wait]; when it is
    ready the body is [leave]. The loop then takes as many iterations as the
    device takes polls. *)
Lemma loop_polls_embed {W S A} `{PortIO W} (embed : W -> S) (ready : Z -> bool) (wait : W -> W)
    (body : M S (option A)) (leave : Z -> M S (option A)) n w st w' fuel :
  (forall w st, inb_result STATUS_REGISTER w = Some st ->
     body (embed w) = if ready st then leave st (embed (sys_inb STATUS_REGISTER w).2)
                      else Done None (embed (wait (sys_inb STATUS_REGISTER w).2))) ->
  polls ready wait n w st w' ->
  loop (fuel + Datatypes.S n) body (embed w) =
    bind (leave st) (fun r => match r with Some a => ret a | None => loop fuel (A:=A) body end) (embed w').
Proof.
  intros Hb Hp. revert fuel.
  induction Hp as [st w Hst Hr|n w st st' w' Hst Hr Hp IH]; intros fuel.
  - rewrite Nat.add_1_r. cbn [loop]. unfold bind at 1. rewrite (Hb _ _ Hst), Hr.
    by destruct (leave st _) as [[a|]| | |] eqn:E; unfold bind; rewrite E.
  - rewrite Nat.add_succ_r. cbn [loop]. unfold bind at 1. rewrite (Hb _ _ Hst), Hr.
    apply IH.
Qed.

Lemma loop_polls {W St A} `{PortIO W} (ready : Z -> bool) (wait : W -> W)
    (body : M (St * W) (option A)) (leave : Z -> M (St * W) (option A)) n s w st w' fuel :
  (forall w st, inb_result STATUS_REGISTER w = Some st ->
     body (s, w) = if ready st then leave st (s, (sys_inb STATUS_REGISTER w).2)
                   else Done None (s, wait (sys_inb STATUS_REGISTER w).2)) ->
  polls ready wait n w st w' ->
  loop (fuel + S n) body (s, w) =
    bind (leave st) (fun r => match r with Some a => ret a | None => loop fuel (A:=A) body end) (s, w').
Proof. apply (loop_polls_embed (fun w => (s, w))). Qed.
