(* ===== verification/Keyboard.v ===== *)
(** proj/src/keyboard.c: the keyboard driver. Its globals are [kbd_st]; every
    operation runs over [kbd_st * W]. Loops on the controller's status take a
    number of iterations, [fuel]; the theorems give the number that is enough. *)
From S2P Require Import Prelude Env Utils Timer I8042.

(** proj/src/keyboard.c:7-8 [hook_id_kbd, scancode] and, from 44-46, [bytes], [scancodes] and
    [makecode]. *)
Record kbd_st : Type := KbdSt {
  hook_id_kbd : Z;
  scancode : Z;
  bytes : Z;
  scancodes0 : Z;
  scancodes1 : Z;
  makecode : bool
}.

(** proj/src/keyboard.c:44-46 [initial values] *)
Definition kbd_init_st : kbd_st := KbdSt 0 0x00 1 0 0 false.

Definition set_hook_id_kbd (h : Z) (k : kbd_st) : kbd_st :=
  KbdSt h (scancode k) (bytes k) (scancodes0 k) (scancodes1 k) (makecode k).
Definition set_scancode (c : Z) (k : kbd_st) : kbd_st :=
  KbdSt (hook_id_kbd k) c (bytes k) (scancodes0 k) (scancodes1 k) (makecode k).
Definition set_bytes (n : Z) (k : kbd_st) : kbd_st :=
  KbdSt (hook_id_kbd k) (scancode k) n (scancodes0 k) (scancodes1 k) (makecode k).
Definition set_scancodes0 (c : Z) (k : kbd_st) : kbd_st :=
  KbdSt (hook_id_kbd k) (scancode k) (bytes k) c (scancodes1 k) (makecode k).
Definition set_scancodes1 (c : Z) (k : kbd_st) : kbd_st :=
  KbdSt (hook_id_kbd k) (scancode k) (bytes k) (scancodes0 k) c (makecode k).
Definition set_makecode (b : bool) (k : kbd_st) : kbd_st :=
  KbdSt (hook_id_kbd k) (scancode k) (bytes k) (scancodes0 k) (scancodes1 k) b.

Section Keyboard.
Context {W : Type} `{PortIO W, Irq W, Lcf W}.

(** Changes the driver's globals. *)
Definition kbd_modify (f : kbd_st -> kbd_st) : M (kbd_st * W) unit :=
  modify (fun s => (f s.1, s.2)).

(** [util_sys_inb(port, &scancode)]: [true] when it returned 0. *)
Definition read_scancode (port : Z) : M (kbd_st * W) bool :=
  let* v := zoom snd_lens (util_sys_inb port) in
  match v with
  | Some c => kbd_modify (set_scancode c) ;; ret true
  | None => ret false
  end.

(** proj/src/keyboard.c:10-18 [kbc_subscribe]: the status and the value stored in [*bit_no]. *)
Definition kbc_subscribe : M (kbd_st * W) (Z * Z) :=
  kbd_modify (set_hook_id_kbd 1) ;;
  let* hook := gets (fun s => hook_id_kbd s.1) in
  let bit_no := u8 hook in
  let* ' (r, hook') :=
    zoom snd_lens (call (sys_irqsetpolicy IRQ1 (Z.lor IRQ_REENABLE IRQ_EXCLUSIVE) hook)) in
  kbd_modify (set_hook_id_kbd hook') ;;
  if negb (r =? 0) then ret (1, bit_no) else ret (0, bit_no).

(** proj/src/keyboard.c:21-25 [kbc_unsubscribe] *)
Definition kbc_unsubscribe : M (kbd_st * W) Z :=
  let* hook := gets (fun s => hook_id_kbd s.1) in
  let* ' (r, hook') := zoom snd_lens (call (sys_irqrmpolicy hook)) in
  kbd_modify (set_hook_id_kbd hook') ;;
  if negb (r =? 0) then ret 1 else ret 0.

(** proj/src/keyboard.c:29-42 [kbc_ih]: [st] is not initialised; after a failed read of the
    status the C code tests an unspecified byte, and may read the data port or not.
    Such a run is not followed further: it counts as undefined, so the theorems
    speak of runs in which the status can be read. The two branches on the error bits
    only differ by a message. *)
Definition kbc_ih : M (kbd_st * W) unit :=
  let* st := zoom snd_lens (util_sys_inb 0x64) in
  let* st := of_option st in
  if has st OUT_BUFF then
    let* _ := read_scancode 0x60 in
    if Z.land st (Z.lor KBC_PAR_ERR KBC_TO_ERR) =? 0 then ret tt else ret tt
  else ret tt.

(** proj/src/keyboard.c:48-74 [printSC] *)
Definition printSC : M (kbd_st * W) bool :=
  let* c := gets (fun s => scancode s.1) in
  if c =? 0xE0 then
    kbd_modify (set_scancodes0 c) ;;
    kbd_modify (set_bytes 2) ;;
    ret false
  else
    (if Z.land c 0x80 =? 0 then kbd_modify (set_makecode true) else skip) ;;
    let* n := gets (fun s => bytes s.1) in
    (if n =? 2 then kbd_modify (set_scancodes1 c) else kbd_modify (set_scancodes0 c)) ;;
    let* k := gets fst in
    let* _ := zoom snd_lens
      (call (kbd_print_scancode (makecode k) (u8 (bytes k)) [scancodes0 k; scancodes1 k])) in
    kbd_modify (set_bytes 1) ;;
    kbd_modify (set_scancodes0 0) ;;
    kbd_modify (set_scancodes1 0) ;;
    kbd_modify (set_makecode false) ;;
    ret true.

(** proj/src/keyboard.c:80-88 [writeCommand, the loop body] *)
Definition writeCommand_body (cmd port : Z) : M (kbd_st * W) (option Z) :=
  let* stat := zoom snd_lens (util_sys_inb STATUS_KBC) in
  match stat with
  | None => ret (Some 1)
  | Some stat =>
      let* left :=
        if Z.land stat IN_BUFF =? 0 then
          let* r := zoom snd_lens (call (sys_outb port cmd)) in
          ret (negb (r =? 0))
        else ret false in
      if left : bool then ret (Some 0) else
      zoom snd_lens (modify (tickdelay_us DELAY_US)) ;;
      ret None
  end.

(** proj/src/keyboard.c:76-90 [writeCommand] *)
Definition writeCommand (fuel : nat) (cmd port : Z) : M (kbd_st * W) Z :=
  loop fuel (writeCommand_body cmd port).

(** proj/src/keyboard.c:97-109 [readData, the loop body] *)
Definition readData_body : M (kbd_st * W) (option Z) :=
  let* stat := zoom snd_lens (util_sys_inb STATUS_KBC) in
  match stat with
  | None => ret (Some 0)
  | Some stat =>
      if has stat OUT_BUFF then
        let* ok := read_scancode OUTPUT_BUFFER in
        if negb ok then ret (Some 0) else
        if Z.land stat (Z.lor KBC_PAR_ERR KBC_TO_ERR) =? 0 then ret (Some 1) else ret (Some 0)
      else
        zoom snd_lens (modify (tickdelay_us DELAY_US)) ;;
        ret None
  end.

(** proj/src/keyboard.c:93-111 [readData] *)
Definition readData (fuel : nat) : M (kbd_st * W) Z := loop fuel readData_body.

(** proj/src/keyboard.c:113-128 [kbcEnableInterrutpt] *)
Definition kbcEnableInterrutpt (fuel : nat) : M (kbd_st * W) Z :=
  let* r := zoom snd_lens (call (sys_outb STATUS_KBC READ_COMMAND)) in
  if negb (r =? 0) then ret 1 else
  let* _ := readData fuel in
  let* r := zoom snd_lens (call (sys_outb STATUS_KBC WRITE_COMMAND)) in
  if negb (r =? 0) then ret 1 else
  let* c := gets (fun s => scancode s.1) in
  let* r := zoom snd_lens (call (sys_outb INPUT_BUFFER_ARGUMENTS (Z.lor c (BIT 0)))) in
  if negb (r =? 0) then ret 1 else
  ret 0.
End Keyboard.

(** ** Scancodes as the keyboard sends them

    A key event is one byte, or [0xE0] and a byte; in the last byte bit 7 is set
    when the key is released. *)
Record key : Type := Key { extended : bool; code : Z }.

Definition key_wf (k : key) : bool := negb (code k =? 0xE0) && (0 <=? code k) && (code k <? 256).
Definition encode_key (k : key) : list Z := if extended k then [0xE0; code k] else [code k].
Definition encode (ks : list key) : list Z := flat_map encode_key ks.

(** What should be displayed of an event: make or break, and its bytes. *)
Definition is_make (k : key) : bool := negb (Z.testbit (code k) 7).

Section KeyboardSpec.
Context {W : Type} `{PortIO W, Irq W, Lcf W}.

Definition display_key (w : W) (k : key) : W :=
  (kbd_print_scancode (is_make k) (Z.of_nat (length (encode_key k)))
     (if extended k then [0xE0; code k] else [code k; 0]) w).2.

(** One byte reaches [scancode] and is processed. *)
Definition feed (c : Z) : M (kbd_st * W) unit :=
  kbd_modify (set_scancode c) ;; let* _ := printSC in ret tt.

Fixpoint feed_all (cs : list Z) : M (kbd_st * W) unit :=
  match cs with [] => ret tt | c :: cs => feed c ;; feed_all cs end.

(** The driver between two events. *)
Definition idle (k : kbd_st) : Prop :=
  bytes k = 1 /\ scancodes1 k = 0 /\ makecode k = false.

(** * Lemmas *)

(** What [kbc_ih] leaves in [scancode]. *)
Definition ih_result (k : kbd_st) (w : W) : outcome (kbd_st * W) unit :=
  let w1 := (sys_inb 0x64 w).2 in
  match inb_result 0x64 w with
  | None => Undef
  | Some st =>
      if Z.testbit st 0 then
        Done tt (match inb_result 0x60 w1 with Some c => set_scancode c k | None => k end,
                 (sys_inb 0x60 w1).2)
      else Done tt (k, w1)
  end.

Lemma kbc_ih_eq (k : kbd_st) (w : W) : kbc_ih (k, w) = ih_result k w.
Proof.
  unfold kbc_ih, ih_result, read_scancode, bind, zoom, kbd_modify. simpl.
  rewrite util_sys_inb_eq. destruct (inb_result 0x64 w) as [st|]; simpl; [|done].
  change OUT_BUFF with (BIT 0). rewrite has_BIT by lia.
  destruct (Z.testbit st 0); simpl; [|done].
  rewrite util_sys_inb_eq. destruct (inb_result 0x60 _); simpl; by destruct (Z.land st _ =? 0).
Qed.

(** [kbc_ih] on every branch: a status that cannot be read leaves the
    local variable it tests uninitialised; with the output buffer empty nothing
    changes; with it full the byte read becomes [scancode], whatever the parity
    and timeout bits of the status say, and no other global changes. *)
Theorem kbc_ih_result (k : kbd_st) (w : W) : kbc_ih (k, w) = ih_result k w.
Proof. apply kbc_ih_eq. Qed.

Lemma break_bit c : (Z.land c 0x80 =? 0) = negb (Z.testbit c 7).
Proof.
  rewrite <- has_BIT by lia. unfold has. by rewrite negb_involutive.
Qed.

Lemma feed_key (k : key) s w :
  key_wf k = true -> idle s ->
  feed_all (encode_key k) (s, w) = Done tt (KbdSt (hook_id_kbd s) (code k) 1 0 0 false, display_key w k).
Proof.
  intros Hwf (Hb & Hs & Hm). destruct s as [h c n s0 s1 mk]. simpl in *. subst.
  assert ((code k =? 0xE0) = false) as Hne by (unfold key_wf in Hwf; lia).
  unfold display_key, is_make, encode_key. destruct (extended k); simpl;
    unfold feed, printSC, bind, kbd_modify, modify, gets, zoom, call; simpl;
    rewrite Hne, break_bit; destruct (Z.testbit (code k) 7); simpl;
    by destruct (kbd_print_scancode _ _ _ w).
Qed.

Lemma feed_all_app a b s (w : W) :
  feed_all (a ++ b) (s, w) = bind (feed_all a) (fun _ => feed_all b) (s, w).
Proof.
  revert s w. induction a as [|c a IH]; intros s w; [done|].
  simpl. rewrite bind_assoc. unfold bind at 1 2.
  destruct (feed c (s, w)) as [[] [s' w']| | |]; auto.
Qed.

(** (C34) The driver decodes what the keyboard encodes: when the bytes of any
    sequence of key events arrive one after the other, exactly these events are
    displayed, in order, each as make or break and with its own one or two
    bytes, and the driver is idle again. *)
Theorem printSC_decodes (ks : list key) (s : kbd_st) (w : W) :
  idle s -> forallb key_wf ks = true ->
  exists s', feed_all (encode ks) (s, w) = Done tt (s', fold_left display_key ks w) /\ idle s'.
Proof.
  revert s w. induction ks as [|k ks IH]; intros s w Hi Hwf; simpl in *.
  - by exists s.
  - apply andb_true_iff in Hwf as [Hk Hks].
    rewrite feed_all_app. erewrite bind_Done by by apply feed_key. by apply IH.
Qed.

(** [writeCommand] cannot succeed: it only returns when the status cannot
    be read (1) or the port write fails (0); while the controller answers and
    accepts the writes it goes on writing the command forever. *)
Theorem writeCommand_diverges `{!InbOk W, !OutbOk W} (fuel : nat) (cmd port : Z) (s : kbd_st) (w : W) :
  writeCommand fuel cmd port (s, w) = NoFuel.
Proof.
  apply (loop_diverges (fun _ => True)); [|done].
  intros [k w'] _. unfold writeCommand_body. apply wp_bind, wp_zoom, wp_util_sys_inb.
  rewrite inb_result_ok. apply wp_bind. case_match; wp_steps; try done.
  - rewrite wp_call. wp_steps; [|done]. rewrite outb_ok in *. done.
Qed.

(** [readData] terminates as soon as the controller has data: if that is
    the case at the [n]-th poll after the first, [n + 1] iterations are enough;
    it returns 1 when the data can be read and the status has no error bit, and
    then [scancode] is the byte read; otherwise it returns 0. *)
Theorem readData_terminates (n fuel : nat) (s : kbd_st) (w w' : W) (st : Z) :
  polls (fun st => has st OUT_BUFF) (tickdelay_us DELAY_US) n w st w' -> (n < fuel)%nat ->
  readData fuel (s, w) =
    Done (if bool_decide (inb_result OUTPUT_BUFFER w' <> None) && (Z.land st KBC_ERRS =? 0) then 1 else 0)
         (match inb_result OUTPUT_BUFFER w' with Some c => set_scancode c s | None => s end,
          (sys_inb OUTPUT_BUFFER w').2).
Proof.
  intros Hp Hf. replace fuel with (fuel - S n + S n)%nat by lia. unfold readData.
  erewrite (loop_polls _ _ _ (fun stat =>
    let* ok := read_scancode OUTPUT_BUFFER in
    if negb ok then ret (Some 0) else
    if Z.land stat KBC_ERRS =? 0 then ret (Some 1) else ret (Some 0)) n _ _ _ _ _ _ Hp).
  - unfold read_scancode, bind, kbd_modify, zoom. simpl. rewrite util_sys_inb_eq.
    destruct (inb_result OUTPUT_BUFFER w'); simpl; [|done]. by destruct (Z.land st KBC_ERRS =? 0).
  Unshelve.
  intros w0 st0 Hst. unfold readData_body, bind, zoom at 1. simpl.
  rewrite util_sys_inb_eq. change STATUS_KBC with STATUS_REGISTER. rewrite Hst. simpl.
  by destruct (has st0 OUT_BUFF).
Qed.
End KeyboardSpec.

Lemma printSC_decodes_witness :
  exists s', feed_all (encode [Key false 0x1E; Key true 0x48; Key true 0xC8; Key false 0x9E])
               (kbd_init_st, script0) =
    Done tt (s', fold_left display_key [Key false 0x1E; Key true 0x48; Key true 0xC8; Key false 0x9E] script0)
    /\ idle s'.
Proof. apply printSC_decodes; [by repeat split|reflexivity]. Defined.

Lemma writeCommand_diverges_witness :
  writeCommand 1000 0x20 0x64 (kbd_init_st, Quiet) = NoFuel.
Proof. apply (writeCommand_diverges 1000 0x20 0x64). Defined.

Lemma readData_terminates_witness :
  readData 3 (kbd_init_st, with_in [(0, 0); (0, 1); (0, 0x47)] script0) =
    Done 1 (set_scancode 0x47 kbd_init_st,
            Script [] [] [] mode_0x115
              [EInb OUTPUT_BUFFER; EInb STATUS_REGISTER; EDelay DELAY_US; EInb STATUS_REGISTER]).
Proof.
  rewrite (readData_terminates 1 3 kbd_init_st _
    (Script [(0, 0x47)] [] [] mode_0x115 [EInb STATUS_REGISTER; EDelay DELAY_US; EInb STATUS_REGISTER]) 1).
  - reflexivity.
  - apply (polls_later _ _ _ _ 0); [reflexivity..|].
    exact (polls_now _ _ 1 (Script [(0, 1); (0, 0x47)] [] [] mode_0x115 [EDelay DELAY_US; EInb STATUS_REGISTER])
      eq_refl eq_refl).
  - lia.
Defined.
