(* ===== verification/Mouse.v ===== *)
(** proj/src/mouse.c: the mouse driver, and the use [proj_main_loop] makes of it
    on a mouse interrupt. Its globals are [mouse_st]; every operation runs over
    [mouse_st * W]. *)
From S2P Require Import Prelude Env Utils Timer I8042.

(** proj/src/mouse.c:9-15 [packet1, read_packet, is_sync, counter, hook_id_mouse, total_packets, reading_error] *)
Record mouse_st : Type := MouseSt {
  packet1 : packet;
  read_packet : Z;
  is_sync : bool;
  counter : Z;
  hook_id_mouse : Z;
  total_packets : Z;
  reading_error : bool
}.

(** proj/src/mouse.c:9-15 [initial values] *)
Definition mouse_init_st : mouse_st :=
  MouseSt (Packet 0 0 0 false false false 0 0 false false) 0 false 0 0 0 false.

Definition set_packet1 (p : packet) (m : mouse_st) : mouse_st :=
  MouseSt p (read_packet m) (is_sync m) (counter m) (hook_id_mouse m) (total_packets m) (reading_error m).
Definition set_read_packet (b : Z) (m : mouse_st) : mouse_st :=
  MouseSt (packet1 m) b (is_sync m) (counter m) (hook_id_mouse m) (total_packets m) (reading_error m).
Definition set_is_sync (b : bool) (m : mouse_st) : mouse_st :=
  MouseSt (packet1 m) (read_packet m) b (counter m) (hook_id_mouse m) (total_packets m) (reading_error m).
Definition set_counter (c : Z) (m : mouse_st) : mouse_st :=
  MouseSt (packet1 m) (read_packet m) (is_sync m) c (hook_id_mouse m) (total_packets m) (reading_error m).
Definition set_hook_id_mouse (h : Z) (m : mouse_st) : mouse_st :=
  MouseSt (packet1 m) (read_packet m) (is_sync m) (counter m) h (total_packets m) (reading_error m).
Definition set_total_packets (n : Z) (m : mouse_st) : mouse_st :=
  MouseSt (packet1 m) (read_packet m) (is_sync m) (counter m) (hook_id_mouse m) n (reading_error m).
Definition set_reading_error (b : bool) (m : mouse_st) : mouse_st :=
  MouseSt (packet1 m) (read_packet m) (is_sync m) (counter m) (hook_id_mouse m) (total_packets m) b.

Definition set_bytes0 (b : Z) (p : packet) : packet :=
  Packet b (bytes1 p) (bytes2 p) (rb p) (mb p) (lb p) (delta_x p) (delta_y p) (x_ov p) (y_ov p).
Definition set_bytes1 (b : Z) (p : packet) : packet :=
  Packet (bytes0 p) b (bytes2 p) (rb p) (mb p) (lb p) (delta_x p) (delta_y p) (x_ov p) (y_ov p).

Section Mouse.
Context {W : Type} `{PortIO W, Irq W}.

Definition mouse_modify (f : mouse_st -> mouse_st) : M (mouse_st * W) unit :=
  modify (fun s => (f s.1, s.2)).

(** [counter++] *)
Definition counter_incr : M (mouse_st * W) unit :=
  let* c := gets (fun s => counter s.1) in
  let* c' := int_ (c + 1) in
  mouse_modify (set_counter c').

(** [util_sys_inb(port, &read_packet)]: [true] when it returned 0. *)
Definition read_read_packet (port : Z) : M (mouse_st * W) bool :=
  let* v := zoom snd_lens (util_sys_inb port) in
  match v with
  | Some b => mouse_modify (set_read_packet b) ;; ret true
  | None => ret false
  end.

(** proj/src/mouse.c:20-26 [mouse_subscribe]: the status and the value stored in [*bit_no]. *)
Definition mouse_subscribe : M (mouse_st * W) (Z * Z) :=
  mouse_modify (set_hook_id_mouse 2) ;;
  let* hook := gets (fun s => hook_id_mouse s.1) in
  let bit_no := u8 hook in
  let* ' (r, hook') :=
    zoom snd_lens (call (sys_irqsetpolicy IRQ12 (Z.lor IRQ_REENABLE IRQ_EXCLUSIVE) hook)) in
  mouse_modify (set_hook_id_mouse hook') ;;
  if negb (r =? 0) then ret (1, bit_no) else ret (0, bit_no).

(** proj/src/mouse.c:28-33 [mouse_unsubscribe] *)
Definition mouse_unsubscribe : M (mouse_st * W) Z :=
  let* hook := gets (fun s => hook_id_mouse s.1) in
  let* ' (r, hook') := zoom snd_lens (call (sys_irqrmpolicy hook)) in
  mouse_modify (set_hook_id_mouse hook') ;;
  if negb (r =? 0) then ret 1 else ret 0.

(** proj/src/mouse.c:39-45 [write_argument_to_mouse, the body of the first loop]: [Some 0] is its
    [break]. *)
Definition write_command_body : M W (option Z) :=
  let* status := util_sys_inb STATUS_REGISTER in
  match status with
  | None => ret (Some 1)
  | Some status =>
      if Z.land status (BIT 1) =? 0 then
        let* r := call (sys_outb INPUT_BUFFER_COMMANDS ISSUE_COMMAND_TO_THE_MOUSE) in
        if negb (r =? 0) then ret (Some 1) else ret (Some 0)
      else ret None
  end.

(** proj/src/mouse.c:47-55 [write_argument_to_mouse, the body of the second loop] *)
Definition write_argument_body (argument : Z) : M W (option Z) :=
  let* status := util_sys_inb STATUS_REGISTER in
  match status with
  | None => ret (Some 1)
  | Some status =>
      if Z.land status (BIT 1) =? 0 then
        let* r := call (sys_outb INPUT_BUFFER_ARGUMENTS argument) in
        if negb (r =? 0) then ret (Some 1) else
        let* acknow := util_sys_inb OUTPUT_BUFFER in
        match acknow with
        | None => ret (Some 1)
        | Some acknow => if acknow =? IS_OK then ret (Some 0) else ret None
        end
      else ret None
  end.

(** proj/src/mouse.c:35-57 [write_argument_to_mouse]: [fuel] bounds each of the two loops. *)
Definition write_argument_to_mouse (fuel : nat) (argument : Z) : M W Z :=
  let* r := loop fuel write_command_body in
  if negb (r =? 0) then ret 1 else
  loop fuel (write_argument_body argument).

(** proj/src/mouse.c:59-65 [enable_mouse_data] *)
Definition enable_mouse_data (fuel : nat) : M W Z :=
  let* r := write_argument_to_mouse fuel SET_STREAM_MODE in
  if negb (r =? 0) then ret 1 else
  let* r := write_argument_to_mouse fuel ENABLE_MOUSE_DATA in
  if negb (r =? 0) then ret 1 else
  ret 0.

(** proj/src/mouse.c:67-72 [disable_mouse_data] *)
Definition disable_mouse_data (fuel : nat) : M W Z :=
  let* r := write_argument_to_mouse fuel DISABLE_MOUSE_DATA in
  if negb (r =? 0) then ret 1 else
  let* r := write_argument_to_mouse fuel SET_STREAM_MODE in
  if negb (r =? 0) then ret 1 else
  ret 0.

(** proj/src/mouse.c:77-94 [kbc_read, the loop body] *)
Definition kbc_read_body : M (mouse_st * W) (option Z) :=
  let* stat := zoom snd_lens (util_sys_inb STATUS_REGISTER) in
  match stat with
  | None => ret (Some 1)
  | Some stat =>
      if has stat OUT_BUFF then
        let* ok := read_read_packet OUTPUT_BUFFER in
        if negb ok then ret (Some 1) else
        if Z.land stat (Z.lor KBC_PAR_ERR KBC_TO_ERR) =? 0 then ret (Some 0) else ret (Some 1)
      else ret None
  end.

(** proj/src/mouse.c:74-95 [kbc_read] *)
Definition kbc_read (fuel : nat) : M (mouse_st * W) Z := loop fuel kbc_read_body.

(** proj/src/mouse.c:101-129 [mouse_ih, the loop body]: [Some true] is the [return], [Some false]
    a [break]. *)
Definition mouse_ih_body : M (mouse_st * W) (option bool) :=
  let* stat := zoom snd_lens (util_sys_inb STATUS_REGISTER) in
  match stat with
  | None => ret (Some false)
  | Some stat =>
      if has stat OUT_BUFF then
        let* ok := read_read_packet OUTPUT_BUFFER in
        if negb ok then ret (Some false) else
        if Z.land stat (Z.lor KBC_PAR_ERR KBC_TO_ERR) =? 0 then
          let* re := gets (fun s => reading_error s.1) in
          (if re : bool then counter_incr else skip) ;;
          ret (Some true)
        else ret (Some false)
      else
        zoom snd_lens (modify (tickdelay_us WAIT_KBC)) ;;
        ret None
  end.

(** proj/src/mouse.c:97-132 [mouse_ih] *)
Definition mouse_ih (fuel : nat) : M (mouse_st * W) unit :=
  let* returned := loop fuel mouse_ih_body in
  if returned : bool then ret tt else
  mouse_modify (set_reading_error true) ;;
  counter_incr.

(** proj/src/mouse.c:157-188 [print_mouse_packet, the fields of a complete packet] *)
Definition parse_packet (b0 b1 b2 : Z) : packet :=
  Packet b0 b1 b2
    (negb (Z.land b0 0x02 =? 0))
    (negb (Z.land b0 0x04 =? 0))
    (negb (Z.land b0 0x01 =? 0))
    (if negb (Z.land b0 0x10 =? 0) then b1 - 256 else b1)
    (if negb (Z.land b0 0x20 =? 0) then b2 - 256 else b2)
    (negb (Z.land b0 0x40 =? 0))
    (negb (Z.land b0 0x80 =? 0)).

(** proj/src/mouse.c:134-189 [print_mouse_packet] *)
Definition print_mouse_packet : M (mouse_st * W) unit :=
  let* m := gets fst in
  let* out_of_sync :=
    if negb (is_sync m) then
      if Z.land (read_packet m) 0x08 =? 0 then ret true
      else mouse_modify (set_is_sync true) ;; ret false
    else ret false in
  if out_of_sync : bool then ret tt else
  let* m := gets fst in
  if counter m =? 0 then
    mouse_modify (set_packet1 (set_bytes0 (read_packet m) (packet1 m))) ;;
    counter_incr
  else if counter m =? 1 then
    mouse_modify (set_packet1 (set_bytes1 (read_packet m) (packet1 m))) ;;
    counter_incr
  else if counter m =? 2 then
    mouse_modify (set_counter 0) ;;
    mouse_modify (set_packet1
      (parse_packet (bytes0 (packet1 m)) (bytes1 (packet1 m)) (read_packet m))) ;;
    mouse_modify (set_total_packets (u32 (total_packets m + 1)))
  else ret tt.

(** What the main loop does with a mouse interrupt: it goes back to waiting for
    a message at once ([Dropped]), it clears the error ([Recovered]), or it
    takes the byte into the packet ([Processed]). *)
Inductive mouse_event_result : Type := Dropped | Recovered | Processed.

(** proj/src/proj.c:180-188 [proj_main_loop, a mouse interrupt] *)
Definition mouse_event (fuel : nat) : M (mouse_st * W) mouse_event_result :=
  mouse_ih fuel ;;
  let* m := gets fst in
  if Bool.eqb (reading_error m) true && negb (counter m =? 2) then ret Dropped
  else if Bool.eqb (reading_error m) true && (counter m =? 2) then
    mouse_modify (set_reading_error false) ;; ret Recovered
  else print_mouse_packet ;; ret Processed.
End Mouse.

(** ** Packets as the mouse sends them

    Displacements are 9-bit two's complement numbers whose sign bits are in the
    first byte, with the buttons, the overflow bits and a bit that is always 1. *)
Record motion : Type := Motion {
  dx : Z; dy : Z; b_left : bool; b_right : bool; b_middle : bool; ovx : bool; ovy : bool
}.

Definition motion_wf (p : motion) : Prop := -256 <= dx p <= 255 /\ -256 <= dy p <= 255.

Definition motion_byte0 (p : motion) : Z :=
  b2z (b_left p) + 2 * b2z (b_right p) + 4 * b2z (b_middle p) + 8 +
  16 * b2z (dx p <? 0) + 32 * b2z (dy p <? 0) + 64 * b2z (ovx p) + 128 * b2z (ovy p).

Definition motion_bytes (p : motion) : list Z := [motion_byte0 p; dx p mod 256; dy p mod 256].

(** The packet that reports a motion. *)
Definition motion_packet (p : motion) : packet :=
  Packet (motion_byte0 p) (dx p mod 256) (dy p mod 256)
    (b_right p) (b_middle p) (b_left p) (dx p) (dy p) (ovx p) (ovy p).

Section MouseSpec.
Context {W : Type} `{PortIO W, Irq W}.

(** A byte that arrives without error is taken into the packet. *)
Definition take (b : Z) : M (mouse_st * W) unit :=
  mouse_modify (set_read_packet b) ;; print_mouse_packet.

Fixpoint take_all (bs : list Z) : M (mouse_st * W) unit :=
  match bs with [] => ret tt | b :: bs => take b ;; take_all bs end.

(** The packets completed while the bytes arrive. *)
Fixpoint reports (bs : list Z) : M (mouse_st * W) (list packet) :=
  match bs with
  | [] => ret []
  | b :: bs =>
      take b ;;
      let* m := gets fst in
      let* l := reports bs in
      ret (if (counter m =? 0) && is_sync m then packet1 m :: l else l)
  end.

(** The state after a byte came, good or not. *)
Definition ih_state (good : bool) (b : option Z) (s : mouse_st) : mouse_st :=
  let s1 := match b with Some b => set_read_packet b s | None => s end in
  if good then if reading_error s then set_counter (counter s + 1) s1 else s1
  else set_counter (counter s + 1) (set_reading_error true s1).

Definition byte_good (st : Z) (b : option Z) : bool :=
  bool_decide (b <> None) && (Z.land st KBC_ERRS =? 0).

(** The controller has the byte [b] (or cannot be read, [None]) with status [st]
    for the handler started in [w] with [fuel] iterations; [w'] is the world
    after it is read. *)
Definition arrives (fuel : nat) (w : W) (st : Z) (b : option Z) (w' : W) : Prop :=
  exists n w0, polls (fun st => has st OUT_BUFF) (tickdelay_us WAIT_KBC) n w st w0 /\ (n < fuel)%nat /\
    inb_result OUTPUT_BUFFER w0 = b /\ w' = (sys_inb OUTPUT_BUFFER w0).2.

(** The controller can take a byte. *)
Definition ibf_clear (st : Z) : bool := Z.land st (BIT 1) =? 0.

(** The argument is written, and refused, some number of times; [k] is the
    number of iterations this takes. *)
Inductive refused (argument : Z) : nat -> W -> W -> Prop :=
  | refused_0 w : refused argument 0 w w
  | refused_S k n w st w1 v w' :
      polls ibf_clear (fun w => w) n w st w1 ->
      let w2 := outs [(INPUT_BUFFER_ARGUMENTS, argument)] w1 in
      inb_result OUTPUT_BUFFER w2 = Some v -> v <> IS_OK ->
      refused argument k (sys_inb OUTPUT_BUFFER w2).2 w' ->
      refused argument (S n + k) w w'.

(** [n] mouse interrupts, and what became of each. *)
Fixpoint events (fuel n : nat) : M (mouse_st * W) (list mouse_event_result) :=
  match n with
  | O => ret []
  | S n =>
      let* r := mouse_event fuel in
      let* l := events fuel n in
      ret (r :: l)
  end.

(** * Lemmas *)

Lemma parse_motion p :
  motion_wf p ->
  parse_packet (motion_byte0 p) (dx p mod 256) (dy p mod 256) = motion_packet p.
Proof.
  intros [Hx Hy]. unfold parse_packet, motion_packet.
  assert (forall z, -256 <= z <= 255 ->
    (z <? 0) = true /\ z mod 256 - 256 = z \/ (z <? 0) = false /\ z mod 256 = z) as Hmod.
  { intros z Hz. destruct (z <? 0) eqn:E; [left|right]; (split; [done|]).
    - assert (z mod 256 = z + 256) as ->; [|lia].
      symmetry. apply (Z.mod_unique_pos _ _ (-1)); lia.
    - apply Z.mod_small. lia. }
  unfold motion_byte0. destruct p as [x y l r m ox oy]; simpl in *.
  destruct (Hmod x Hx) as [[-> E1]|[-> E1]], (Hmod y Hy) as [[-> E2]|[-> E2]];
    destruct l, r, m, ox, oy; vm_compute (b2z _); vm_compute (Z.land _ _);
    f_equal; done.
Qed.

Lemma motion_bit3 p : motion_wf p -> (Z.land (motion_byte0 p) 8 =? 0) = false.
Proof.
  unfold motion_byte0. intros _. destruct p as [x y l r m ox oy]; simpl.
  destruct (x <? 0), (y <? 0), l, r, m, ox, oy; reflexivity.
Qed.

Lemma motion_byte0_range p : 0 <= motion_byte0 p < 256.
Proof. unfold motion_byte0, b2z. repeat case_match; lia. Qed.

Lemma motion_bytes_range ps : Forall (fun b => 0 <= b < 256) (flat_map motion_bytes ps).
Proof.
  apply Forall_flat_map, Forall_true. intros p.
  repeat apply Forall_cons_2; [apply motion_byte0_range|by apply Z.mod_pos_bound..|apply Forall_nil_2].
Qed.

(** Bytes without bit 3 are passed over while the driver is not synchronised. *)
Lemma reports_garbage g bs s (w : W) :
  is_sync s = false -> Forall (fun b => Z.land b 8 = 0) g ->
  exists s', is_sync s' = false /\ counter s' = counter s /\ total_packets s' = total_packets s /\
    reports (g ++ bs) (s, w) = reports bs (s', w).
Proof.
  intros Hs Hg. revert s Hs. induction Hg as [|b g Hb _ IH]; intros s Hs; [by exists s|].
  destruct (IH (set_read_packet b s) Hs) as (s' & H1 & H2 & H3 & E).
  exists s'. split_and!; [done..|]. cbn [app reports].
  unfold take, print_mouse_packet, mouse_modify, bind, modify, gets; simpl.
  rewrite Hs; simpl. rewrite Hb; simpl. rewrite E, Hs, andb_false_r.
  by destruct (reports bs (s', w)).
Qed.

(** One byte in each of the three positions. *)
Lemma take_first b s (w : W) :
  counter s = 0 -> is_sync s = true \/ (Z.land b 8 =? 0) = false ->
  take b (s, w) = Done tt (set_counter 1 (set_packet1 (set_bytes0 b (packet1 s))
                             (set_is_sync true (set_read_packet b s))), w).
Proof.
  destruct s as [pk rp sy c h t re]. simpl. intros -> Hb.
  unfold take, print_mouse_packet, counter_incr, mouse_modify, int_, bind, modify, gets. simpl.
  destruct Hb as [->|Hb]; [done|]. destruct sy; simpl; [done|]. by rewrite Hb.
Qed.

Lemma take_second b s (w : W) :
  counter s = 1 -> is_sync s = true ->
  take b (s, w) = Done tt (set_counter 2 (set_packet1 (set_bytes1 b (packet1 s)) (set_read_packet b s)), w).
Proof.
  destruct s as [pk rp sy c h t re]. simpl. intros -> ->.
  unfold take, print_mouse_packet, counter_incr, mouse_modify, int_, bind, modify, gets. done.
Qed.

Lemma take_third b s (w : W) :
  counter s = 2 -> is_sync s = true ->
  take b (s, w) = Done tt (set_total_packets (u32 (total_packets s + 1))
    (set_packet1 (parse_packet (bytes0 (packet1 s)) (bytes1 (packet1 s)) b)
      (set_counter 0 (set_read_packet b s))), w).
Proof.
  destruct s as [pk rp sy c h t re]. simpl. intros -> ->.
  unfold take, print_mouse_packet, mouse_modify, bind, modify, gets. done.
Qed.

Lemma reports_cons b bs s s' (w : W) :
  take b (s, w) = Done tt (s', w) ->
  reports (b :: bs) (s, w) =
    bind (reports bs) (fun l => ret (if (counter s' =? 0) && is_sync s' then packet1 s' :: l else l)) (s', w).
Proof. intros E. cbn [reports]. rewrite (bind_Done _ _ _ _ _ E). done. Qed.

(** The three bytes of a packet, when none of the previous one is pending. *)
Lemma reports_packet p bs s (w : W) :
  counter s = 0 -> motion_wf p ->
  exists s', is_sync s' = true /\ counter s' = 0 /\ total_packets s' = u32 (total_packets s + 1) /\
    reports (motion_bytes p ++ bs) (s, w) =
      bind (reports bs) (fun l => ret (motion_packet p :: l)) (s', w).
Proof.
  intros Hc Hp. pose proof (parse_motion p Hp) as Hparse. pose proof (motion_bit3 p Hp) as Hb3.
  exists (MouseSt (motion_packet p) (dy p mod 256) true 0 (hook_id_mouse s)
            (u32 (total_packets s + 1)) (reading_error s)).
  split_and!; [done..|]. unfold motion_bytes. cbn [app].
  erewrite reports_cons by (apply take_first; [done|by right]).
  unfold bind at 1. erewrite reports_cons by by apply take_second.
  unfold bind at 1. erewrite reports_cons by by apply take_third.
  destruct s as [pk rp sy c h t re].
  cbn [counter is_sync packet1 set_counter set_packet1 set_is_sync set_read_packet set_total_packets
       bytes0 bytes1 set_bytes0 set_bytes1 Z.eqb andb hook_id_mouse total_packets reading_error].
  rewrite Hparse. unfold bind. by destruct (reports bs _).
Qed.

(** (C14) The driver reports exactly the motions the mouse sends: after any bytes
    without bit 3 that arrive before the driver is synchronised, the bytes of a
    sequence of motions with 9-bit displacements complete one packet each, with
    the motion's signed displacements, buttons and overflow bits; no packet is
    pending at the end and the packets are counted modulo 2^32. *)
Theorem mouse_packets_roundtrip (g : list Z) (ps : list motion) (s : mouse_st) (w : W) :
  is_sync s = false \/ g = [] -> counter s = 0 ->
  Forall (fun b => Z.land b 8 = 0) g -> Forall motion_wf ps ->
  exists s', reports (g ++ flat_map motion_bytes ps) (s, w) = Done (map motion_packet ps) (s', w) /\
    counter s' = 0 /\ (ps <> [] -> is_sync s' = true) /\
    u32 (total_packets s') = u32 (total_packets s + Z.of_nat (length ps)).
Proof.
  intros Hg Hc Hgs Hps.
  enough (forall s, counter s = 0 -> exists s',
    reports (flat_map motion_bytes ps) (s, w) = Done (map motion_packet ps) (s', w) /\
    counter s' = 0 /\ (ps <> [] -> is_sync s' = true) /\
    u32 (total_packets s') = u32 (total_packets s + Z.of_nat (length ps))) as Hall.
  { destruct Hg as [Hs| ->]; [|by apply Hall].
    destruct (reports_garbage g (flat_map motion_bytes ps) s w Hs Hgs) as (s0 & _ & Hc0 & Ht0 & ->).
    rewrite <- Ht0. apply Hall. congruence. }
  clear Hg Hgs g s Hc. induction Hps as [|p ps Hp Hps IH]; intros s Hc;
    cbn [flat_map map length].
  - exists s. rewrite Z.add_0_r. by split_and!.
  - destruct (reports_packet p (flat_map motion_bytes ps) s w Hc Hp) as (s1 & Hs1 & Hc1 & Ht1 & E).
    destruct (IH s1 Hc1) as (s' & E' & Hc' & Hs' & Ht').
    exists s'. rewrite E. erewrite bind_Done by done. split_and!; [done|done| |].
    + intros _. destruct ps; [|by apply Hs'].
      simpl in E'. by injection E' as <-.
    + rewrite Ht', Ht1. unfold u32. rewrite Z.add_mod_idemp_l by lia. f_equal. lia.
Qed.

Lemma mouse_ih_polls n fuel s (w w' : W) st :
  polls (fun st => has st OUT_BUFF) (tickdelay_us WAIT_KBC) n w st w' -> (n < fuel)%nat ->
  is_int (counter s + 1) = true ->
  mouse_ih fuel (s, w) =
    Done tt (ih_state (byte_good st (inb_result OUTPUT_BUFFER w')) (inb_result OUTPUT_BUFFER w') s,
             (sys_inb OUTPUT_BUFFER w').2).
Proof.
  intros Hp Hf Hi. replace fuel with (fuel - S n + S n)%nat by lia. unfold mouse_ih.
  unfold bind at 1.
  erewrite (loop_polls _ _ _ (fun stat =>
    let* ok := read_read_packet OUTPUT_BUFFER in
    if negb ok then ret (Some false) else
    if Z.land stat KBC_ERRS =? 0 then
      let* re := gets (fun s => reading_error s.1) in
      (if re : bool then counter_incr else skip) ;; ret (Some true)
    else ret (Some false)) n _ _ _ _ _ _ Hp).
  - unfold counter_incr, read_read_packet, int_, bind, mouse_modify, modify, gets, zoom, ih_state, byte_good. simpl.
    rewrite util_sys_inb_eq. destruct (inb_result OUTPUT_BUFFER w') as [b|]; simpl; [|by rewrite Hi].
    destruct (Z.land st KBC_ERRS =? 0); simpl; [|by rewrite Hi].
    destruct (reading_error s); simpl; [|done]. by rewrite Hi.
  Unshelve.
  intros w0 st0 Hst. unfold mouse_ih_body, bind, zoom at 1. simpl.
  rewrite util_sys_inb_eq, Hst. simpl. by destruct (has st0 OUT_BUFF).
Qed.

(** [mouse_ih] terminates as soon as the controller has data: when that
    happens at the [n]-th poll after the first, [n + 1] iterations are enough.
    A byte that can be read with no parity or timeout bit set is stored, and
    counted when an error is pending; anything else raises the error and is
    counted too. *)
Theorem mouse_ih_terminates (n fuel : nat) (s : mouse_st) (w w' : W) (st : Z) :
  polls (fun st => has st OUT_BUFF) (tickdelay_us WAIT_KBC) n w st w' -> (n < fuel)%nat ->
  is_int (counter s + 1) = true ->
  mouse_ih fuel (s, w) =
    Done tt (ih_state (byte_good st (inb_result OUTPUT_BUFFER w')) (inb_result OUTPUT_BUFFER w') s,
             (sys_inb OUTPUT_BUFFER w').2).
Proof. apply mouse_ih_polls. Qed.

Lemma mouse_ih_arrives fuel s (w w' : W) st b :
  arrives fuel w st b w' -> is_int (counter s + 1) = true ->
  mouse_ih fuel (s, w) = Done tt (ih_state (byte_good st b) b s, w').
Proof. intros (n & w0 & Hp & Hn & <- & ->) Hi. by apply (mouse_ih_polls n). Qed.

(** A mouse interrupt for which a byte arrives. *)
Lemma mouse_event_arrives fuel s (w w' : W) st b :
  arrives fuel w st b w' -> is_int (counter s + 1) = true ->
  mouse_event fuel (s, w) =
    let s1 := ih_state (byte_good st b) b s in
    if reading_error s1 then
      if counter s1 =? 2 then Done Recovered (set_reading_error false s1, w') else Done Dropped (s1, w')
    else bind print_mouse_packet (fun _ => ret Processed) (s1, w').
Proof.
  intros Ha Hi. unfold mouse_event. erewrite bind_Done by by apply mouse_ih_arrives.
  unfold bind at 1, gets, mouse_modify. cbn [fst]. cbv zeta.
  destruct (reading_error _); simpl; [|done]. by destruct (_ =? 2).
Qed.

(** With an error pending and three bytes or more counted, no interrupt is processed. *)
Lemma mouse_event_wedged fuel s (w : W) r s' w' :
  reading_error s = true -> 3 <= counter s ->
  mouse_event fuel (s, w) = Done r (s', w') ->
  r = Dropped /\ reading_error s' = true /\ 3 <= counter s' /\ packet1 s' = packet1 s /\
  total_packets s' = total_packets s.
Proof.
  intros Hre Hc. unfold mouse_event.
  assert (forall a t, mouse_ih fuel (s, w) = Done a t ->
    reading_error t.1 = true /\ 3 <= counter t.1 /\ packet1 t.1 = packet1 s /\
    total_packets t.1 = total_packets s) as Hih.
  { unfold mouse_ih, bind at 1.
    assert (forall n w a t, loop n mouse_ih_body (s, w) = Done a t ->
      reading_error t.1 = true /\ (if a : bool then 4 else 3) <= counter t.1 /\
      packet1 t.1 = packet1 s /\ total_packets t.1 = total_packets s) as Hloop.
    { clear w. induction n as [|n IH]; intros w a t; [done|]. cbn [loop].
      unfold bind at 1, mouse_ih_body, read_read_packet, counter_incr, int_, mouse_modify, bind,
        zoom, modify, gets. simpl.
      rewrite util_sys_inb_eq. destruct (inb_result _ _) as [st|]; simpl; [|intros [= <- <-]; simpl; solve_and].
      destruct (has st OUT_BUFF); simpl; [|apply IH].
      rewrite util_sys_inb_eq. destruct (inb_result _ _) as [b|]; simpl; [|intros [= <- <-]; simpl; solve_and].
      destruct (Z.land st _ =? 0); simpl; [|intros [= <- <-]; simpl; solve_and].
      rewrite Hre. simpl. destruct (is_int _); simpl; [|done]. intros [= <- <-]. simpl. solve_and. }
    destruct (loop fuel mouse_ih_body (s, w)) as [a t| | |] eqn:E; try done.
    apply Hloop in E as (H1 & H2 & H3 & H4). destruct a; simpl in *.
    - intros a0 t' [= <- <-]. solve_and.
    - unfold counter_incr, int_, mouse_modify, bind, modify, gets. simpl.
      destruct (is_int _); simpl; [|done]. intros a0 t' [= <- <-]. simpl. solve_and. }
  unfold bind at 1. destruct (mouse_ih fuel (s, w)) as [[] [s1 w1]| | |]; try done.
  destruct (Hih tt (s1, w1) eq_refl) as (H1 & H2 & H3 & H4). simpl in *.
  unfold bind at 1, gets. simpl. rewrite H1. simpl.
  assert ((counter s1 =? 2) = false) as -> by lia. simpl. intros [= <- <- <-]. by split_and!.
Qed.

(** (C35) A read error on the third byte of a packet stops the mouse for good: the
    interrupt leaves the error pending with three bytes counted, and from such a
    state no later interrupt is processed, whatever arrives, so no packet is
    ever completed again. *)
Theorem mouse_wedges_on_third_byte (fuel : nat) (s : mouse_st) (w w1 : W) (st : Z) (b : option Z) :
  counter s = 2 -> reading_error s = false -> arrives fuel w st b w1 -> byte_good st b = false ->
  exists s1, mouse_event fuel (s, w) = Done Dropped (s1, w1) /\
    reading_error s1 = true /\ counter s1 = 3 /\
    forall n, match events fuel n (s1, w1) with
              | Done rs (s', _) => Forall (eq Dropped) rs /\ packet1 s' = packet1 s1 /\
                                   total_packets s' = total_packets s1
              | _ => True
              end.
Proof.
  intros Hc Hre Ha Hbad. exists (ih_state false b s).
  assert (counter (ih_state false b s) = 3) as Hc3 by (cbn; lia).
  split_and!; [|done|done|].
  - rewrite (mouse_event_arrives _ _ _ _ _ _ Ha) by by rewrite Hc.
    rewrite Hbad. cbv zeta. change (reading_error (ih_state false b s)) with true. by rewrite Hc3.
  - assert (forall n s w, reading_error s = true -> 3 <= counter s ->
      match events fuel n (s, w) with
      | Done rs (s', _) => Forall (eq Dropped) rs /\ packet1 s' = packet1 s /\
                           total_packets s' = total_packets s
      | _ => True end) as Hall; [|intros n; apply Hall; [done|lia]].
    clear. induction n as [|n IH]; intros s w Hre Hc; [done|]. cbn [events]. unfold bind at 1.
    destruct (mouse_event fuel (s, w)) as [r [s1 w1]| | |] eqn:E; try done.
    apply mouse_event_wedged in E as (-> & H1 & H2 & H3 & H4); [|done..].
    specialize (IH s1 w1 H1 H2). unfold bind.
    destruct (events fuel n (s1, w1)) as [rs [s' w']| | |]; try done.
    destruct IH as (H5 & H6 & H7). simpl. split_and!; [by constructor|congruence..].
Qed.

(** A good byte with no error pending is taken into the packet. *)
Lemma mouse_event_good fuel s (w w' : W) st b :
  arrives fuel w st (Some b) w' -> is_int (counter s + 1) = true ->
  byte_good st (Some b) = true -> reading_error s = false ->
  mouse_event fuel (s, w) = bind (take b) (fun _ => ret Processed) (s, w').
Proof.
  intros Ha Hi Hg Hre. rewrite (mouse_event_arrives _ _ _ _ _ _ Ha Hi). rewrite Hg. cbv zeta.
  unfold ih_state. rewrite Hre. cbn [reading_error set_read_packet]. rewrite Hre.
  by unfold take, mouse_modify; rewrite bind_assoc.
Qed.

Lemma events_step fuel n r rs p q (sw : mouse_st * W) :
  mouse_event fuel sw = Done r p -> events fuel n p = Done rs q ->
  events fuel (S n) sw = Done (r :: rs) q.
Proof. intros E1 E2. cbn [events]. unfold bind at 1. rewrite E1. unfold bind at 1. by rewrite E2. Qed.

(** (C36) A read error on the first or the second byte of a packet does not break
    the alignment: when the packet's third byte has been processed no error is
    pending and the next byte is again taken as a first byte; the packet that
    was reported keeps what the driver had in place of the byte that was lost
    and, for the first byte, of the next one too. *)
Theorem mouse_realigns (fuel : nat) (s : mouse_st) (w0 w1 w2 w3 : W) (st0 st1 st2 b2 : Z) (b0 b1 : option Z) :
  counter s = 0 -> is_sync s = true -> reading_error s = false ->
  arrives fuel w0 st0 b0 w1 -> arrives fuel w1 st1 b1 w2 -> arrives fuel w2 st2 (Some b2) w3 ->
  byte_good st0 b0 = negb (byte_good st1 b1) -> byte_good st2 (Some b2) = true ->
  exists rs s', events fuel 3 (s, w0) = Done rs (s', w3) /\
    counter s' = 0 /\ is_sync s' = true /\ reading_error s' = false /\
    packet1 s' =
      parse_packet (if byte_good st0 b0 then default 0 b0 else bytes0 (packet1 s)) (bytes1 (packet1 s)) b2.
Proof.
  intros Hc Hs Hre Ha0 Ha1 Ha2 Hone Hg2. destruct s as [pk rp sy c h t re]. cbn [counter is_sync reading_error packet1] in *. subst.
  destruct (byte_good st1 b1) eqn:Hg1; simpl in Hone; rewrite Hone.
  - destruct b1 as [b1|]; [|done].
    do 2 eexists. split; [|].
    + eapply events_step; [rewrite (mouse_event_arrives _ _ _ _ _ _ Ha0), Hone by done; by destruct b0|].
      eapply events_step; [rewrite (mouse_event_arrives _ _ _ _ _ _ Ha1), Hg1 by done; by destruct b0|].
      eapply events_step; [|done]. rewrite (mouse_event_good _ _ _ _ _ _ Ha2) by (by destruct b0).
      erewrite bind_Done by (apply take_third; by destruct b0). done.
    + by destruct b0.
  - destruct b0 as [b0|]; [|done].
    do 2 eexists. split; [|].
    + eapply events_step; [rewrite (mouse_event_good _ _ _ _ _ _ Ha0) by done;
        erewrite bind_Done by (apply take_first; auto); done|].
      eapply events_step; [rewrite (mouse_event_arrives _ _ _ _ _ _ Ha1), Hg1 by done; by destruct b1|].
      eapply events_step; [|done]. rewrite (mouse_event_good _ _ _ _ _ _ Ha2) by (by destruct b1).
      erewrite bind_Done by (apply take_third; by destruct b1). done.
    + by destruct b1.
Qed.

Lemma write_argument_loop `{!OutbOk W} argument n w st w' fuel :
  polls ibf_clear (fun w => w) n w st w' ->
  let w2 := outs [(INPUT_BUFFER_ARGUMENTS, argument)] w' in
  loop (fuel + S n) (write_argument_body argument) w =
    match inb_result OUTPUT_BUFFER w2 with
    | None => Done 1 (sys_inb OUTPUT_BUFFER w2).2
    | Some v => if v =? IS_OK then Done 0 (sys_inb OUTPUT_BUFFER w2).2
                else loop fuel (write_argument_body argument) (sys_inb OUTPUT_BUFFER w2).2
    end.
Proof.
  intros Hp w2.
  rewrite (loop_polls_embed (fun w => w) ibf_clear (fun w => w) _ (fun _ =>
    let* r := call (sys_outb INPUT_BUFFER_ARGUMENTS argument) in
    if negb (r =? 0) then ret (Some 1) else
    let* acknow := util_sys_inb OUTPUT_BUFFER in
    match acknow with
    | None => ret (Some 1)
    | Some acknow => if acknow =? IS_OK then ret (Some 0) else ret None
    end) n w st w' fuel); [|clear|done].
  - unfold bind. rewrite call_outb_ok. cbn [Z.eqb negb]. fold w2. rewrite util_sys_inb_eq.
    destruct (inb_result OUTPUT_BUFFER w2) as [v|]; [|done]. by destruct (v =? IS_OK).
  - intros w st Hst. unfold write_argument_body, bind. rewrite util_sys_inb_eq, Hst.
    unfold ibf_clear. by destruct (Z.land st (BIT 1) =? 0).
Qed.

Lemma write_argument_refused `{!OutbOk W} argument k w w' fuel :
  refused argument k w w' ->
  loop (fuel + k) (write_argument_body argument) w = loop fuel (write_argument_body argument) w'.
Proof.
  intros Hr. revert fuel. induction Hr as [w|k n w st w1 v w' Hp w2 Hv Hne Hr IH]; intros fuel.
  - by rewrite Nat.add_0_r.
  - replace (fuel + (S n + k))%nat with ((fuel + k) + S n)%nat by lia.
    rewrite (write_argument_loop _ _ _ _ _ _ Hp). fold w2. rewrite Hv.
    assert ((v =? IS_OK) = false) as -> by lia. apply IH.
Qed.

(** (C38) [write_argument_to_mouse] succeeds on a mouse that in the end
    acknowledges: after the controller becomes ready it writes the command 0xD4
    once, then the argument as often as it is refused and once more, and
    returns 0 when it reads the acknowledgement; as many iterations as the
    controller takes polls are enough for each loop. After a refusal the
    argument is written again without the command 0xD4. *)
Theorem write_argument_succeeds `{!OutbOk W} (argument : Z) (n1 k n2 fuel : nat) (w w1 w2 w3 : W) (st1 st3 : Z) :
  polls ibf_clear (fun w => w) n1 w st1 w1 ->
  refused argument k (outs [(INPUT_BUFFER_COMMANDS, ISSUE_COMMAND_TO_THE_MOUSE)] w1) w2 ->
  polls ibf_clear (fun w => w) n2 w2 st3 w3 ->
  inb_result OUTPUT_BUFFER (outs [(INPUT_BUFFER_ARGUMENTS, argument)] w3) = Some IS_OK ->
  (n1 < fuel)%nat -> (k + n2 < fuel)%nat ->
  write_argument_to_mouse fuel argument w =
    Done 0 (sys_inb OUTPUT_BUFFER (outs [(INPUT_BUFFER_ARGUMENTS, argument)] w3)).2.
Proof.
  intros Hp1 Hr Hp2 Hack Hf1 Hf2. unfold write_argument_to_mouse.
  assert (loop fuel write_command_body w =
    Done 0 (outs [(INPUT_BUFFER_COMMANDS, ISSUE_COMMAND_TO_THE_MOUSE)] w1)) as E.
  { replace fuel with (fuel - S n1 + S n1)%nat by lia.
    rewrite (loop_polls_embed (fun w => w) ibf_clear (fun w => w) _ (fun _ =>
      let* r := call (sys_outb INPUT_BUFFER_COMMANDS ISSUE_COMMAND_TO_THE_MOUSE) in
      if negb (r =? 0) then ret (Some 1) else ret (Some 0)) n1 w st1 w1); [|clear|done].
    - unfold bind. by rewrite call_outb_ok.
    - intros w st Hst. unfold write_command_body, bind. rewrite util_sys_inb_eq, Hst.
      unfold ibf_clear. by destruct (Z.land st (BIT 1) =? 0). }
  rewrite (bind_Done _ _ _ _ _ E). cbn [Z.eqb negb].
  replace fuel with ((fuel - S (k + n2)) + S n2 + k)%nat by lia.
  rewrite (write_argument_refused _ _ _ _ _ Hr), (write_argument_loop _ _ _ _ _ _ Hp2), Hack.
  done.
Qed.
End MouseSpec.

(** ** Examples *)

Lemma mouse_packets_roundtrip_witness :
  let ps := [Motion (-3) 17 true false false false false; Motion 200 (-256) false true false true false] in
  exists s', reports ([0x00; 0x37] ++ flat_map motion_bytes ps) (mouse_init_st, Quiet) =
      Done (map motion_packet ps) (s', Quiet) /\
    counter s' = 0 /\ (ps <> [] -> is_sync s' = true) /\
    u32 (total_packets s') = u32 (0 + 2).
Proof.
  apply (mouse_packets_roundtrip [0x00; 0x37]
    [Motion (-3) 17 true false false false false; Motion 200 (-256) false true false true false]
    mouse_init_st Quiet); [by left|done|by repeat constructor|].
  repeat constructor; simpl; lia.
Defined.

(** A status with the output buffer full, and one that also has the parity bit. *)
Definition st_full : Z := 1.
Definition st_parity : Z := 0x81.

Definition byte_script (l : list (Z * Z)) : script := with_in (flat_map (fun '(st, b) => [(0, st); (0, b)]) l) script0.

(** The scripted world after the handler has read one byte. *)
Definition after_byte (w : script) : script :=
  (sys_inb OUTPUT_BUFFER (sys_inb STATUS_REGISTER w).2).2.

Lemma script_arrives fuel (w : script) st b :
  (0 < fuel)%nat -> inb_result STATUS_REGISTER w = Some st -> has st OUT_BUFF = true ->
  inb_result OUTPUT_BUFFER (sys_inb STATUS_REGISTER w).2 = b ->
  arrives fuel w st b (after_byte w).
Proof.
  intros Hf Hst Hr Hb. exists O, (sys_inb STATUS_REGISTER w).2. split_and!; [|done|done|done].
  by apply polls_now.
Qed.

Lemma mouse_ih_terminates_witness :
  mouse_ih 2 (mouse_init_st, byte_script [(st_full, 0x28)]) =
    Done tt (ih_state (byte_good st_full (Some 0x28)) (Some 0x28) mouse_init_st,
             after_byte (byte_script [(st_full, 0x28)])).
Proof.
  rewrite (mouse_ih_terminates 0 2 mouse_init_st (byte_script [(st_full, 0x28)])
           (sys_inb STATUS_REGISTER (byte_script [(st_full, 0x28)])).2 st_full).
  - reflexivity.
  - apply polls_now; reflexivity.
  - lia.
  - reflexivity.
Defined.

Lemma mouse_wedges_on_third_byte_witness :
  let s := set_counter 2 (set_is_sync true mouse_init_st) in
  let w := byte_script [(st_parity, 7); (st_full, 8); (st_full, 9)] in
  exists s1, mouse_event 1 (s, w) = Done Dropped (s1, after_byte w) /\
    reading_error s1 = true /\ counter s1 = 3 /\
    forall n, match events 1 n (s1, after_byte w) with
              | Done rs (s', _) => Forall (eq Dropped) rs /\ packet1 s' = packet1 s1 /\
                                   total_packets s' = total_packets s1
              | _ => True
              end.
Proof.
  apply (mouse_wedges_on_third_byte 1 _ _ _ st_parity (Some 7)); try reflexivity.
  apply script_arrives; [lia|reflexivity..].
Defined.

Lemma mouse_realigns_witness :
  let s := set_is_sync true mouse_init_st in
  let w := byte_script [(st_parity, 7); (st_full, 8); (st_full, 9)] in
  exists rs s', events 1 3 (s, w) = Done rs (s', after_byte (after_byte (after_byte w))) /\
    counter s' = 0 /\ is_sync s' = true /\ reading_error s' = false /\
    packet1 s' = parse_packet 0 0 9.
Proof.
  apply (mouse_realigns 1 (set_is_sync true mouse_init_st)
    (byte_script [(st_parity, 7); (st_full, 8); (st_full, 9)])
    (after_byte (byte_script [(st_parity, 7); (st_full, 8); (st_full, 9)]))
    (after_byte (after_byte (byte_script [(st_parity, 7); (st_full, 8); (st_full, 9)]))) _
    st_parity st_full st_full 9 (Some 7) (Some 8)); try reflexivity;
    apply script_arrives; first [lia|reflexivity].
Defined.

(** One poll with the input buffer full, then a refusal (0xFE), then an acknowledgement. *)
Definition ack_script : script := with_in [(0, 2); (0, 0); (0, 0); (0, 0xFE); (0, 0); (0, IS_OK)] script0.
Definition ack_w1 : script := (sys_inb STATUS_REGISTER (sys_inb STATUS_REGISTER ack_script).2).2.
(** The world after the argument has been written and its answer read. *)
Definition after_argument (w : script) : script :=
  (sys_inb OUTPUT_BUFFER (outs [(INPUT_BUFFER_ARGUMENTS, ENABLE_MOUSE_DATA)]
     (sys_inb STATUS_REGISTER w).2)).2.
Definition ack_w2 : script :=
  after_argument (outs [(INPUT_BUFFER_COMMANDS, ISSUE_COMMAND_TO_THE_MOUSE)] ack_w1).
Definition ack_w3 : script := (sys_inb STATUS_REGISTER ack_w2).2.

Lemma write_argument_succeeds_witness :
  write_argument_to_mouse 2 ENABLE_MOUSE_DATA ack_script =
    Done 0 (sys_inb OUTPUT_BUFFER (outs [(INPUT_BUFFER_ARGUMENTS, ENABLE_MOUSE_DATA)] ack_w3)).2.
Proof.
  apply (write_argument_succeeds ENABLE_MOUSE_DATA 1 1 0 2 ack_script ack_w1 ack_w2 ack_w3 0 0).
  - apply (polls_later _ _ 0 _ 2); [reflexivity..|]. apply polls_now; reflexivity.
  - apply (refused_S _ 0 0 _ 0 (sys_inb STATUS_REGISTER
      (outs [(INPUT_BUFFER_COMMANDS, ISSUE_COMMAND_TO_THE_MOUSE)] ack_w1)).2 0xFE);
      [apply polls_now; reflexivity|reflexivity|discriminate|apply refused_0].
  - apply polls_now; reflexivity.
  - reflexivity.
  - lia.
  - lia.
Defined.
