(* ===== verification/Video.v ===== *)
(** proj/src/video.c: the graphics card driver. The frame buffer and the video
    memory are blocks of bytes in which a missing byte is one that was never
    written (or that was copied from such a byte); an access outside a block, or
    through NULL, is undefined. *)
From S2P Require Import Prelude Env Utils.

(** proj/src/video.h:7-7 [CARD_WIDTH] *)
Definition CARD_WIDTH : Z := 69.
(** proj/src/video.h:8-8 [CARD_HEIGHT] *)
Definition CARD_HEIGHT : Z := 93.
(** proj/src/video.h:9-9 [LETTER_WIDTH] *)
Definition LETTER_WIDTH : Z := 20.

(** ** Blocks of memory *)
Record block : Type := Block { blk_size : Z; blk_data : gmap Z Z }.

Fixpoint store_data (off : Z) (bs : list (option Z)) (m : gmap Z Z) : gmap Z Z :=
  match bs with
  | [] => m
  | b :: bs => store_data (off + 1) bs (partial_alter (fun _ => b) off m)
  end.

(** [memcpy(p + off, bs, length bs)] on the block [p] points to. *)
Definition store (off : Z) (bs : list (option Z)) (b : block) : option block :=
  if (0 <=? off) && (off + Z.of_nat (length bs) <=? blk_size b)
  then Some (Block (blk_size b) (store_data off bs (blk_data b)))
  else None.

(** [memcpy(dst, src, n)] between the starts of two blocks. *)
Definition copy_block (n : Z) (src dst : block) : option block :=
  if (n <=? blk_size src) && (n <=? blk_size dst) then
    Some (Block (blk_size dst)
      (filter (fun kv => 0 <= kv.1 < n) (blk_data src) ∪
       filter (fun kv => ~ 0 <= kv.1 < n) (blk_data dst)))
  else None.

(** A [uint32_t] in memory: its four bytes, lowest first, [None] for one that
    was not initialised. *)
Definition color_t : Type := list (option Z).
Definition color_of (c : Z) : color_t :=
  [Some (u8 c); Some (u8 (Z.shiftr c 8)); Some (u8 (Z.shiftr c 16)); Some (u8 (Z.shiftr c 24))].

(** proj/src/video.c:4-16 [video_mem, buffer, imgDeck, spriteDeck, imgCardBack, spriteCardBack, modeinfo]:
    a sprite is the address in its image; [None] is NULL, or MAP_FAILED. *)
Record video_st : Type := VideoSt {
  video_mem : option block;
  buffer : option block;
  imgDeck : xpm_image_t;
  imgCardBack : xpm_image_t;
  modeinfo : vbe_mode_info_t
}.

Definition no_image : xpm_image_t := Image 0 0 0 None.
(** proj/src/video.c:4-16 [initial values] *)
Definition video_init_st : video_st :=
  VideoSt None None no_image no_image (ModeInfo 0 0 0 0 0 0 0 0 0 0).

Definition set_video_mem (b : option block) (v : video_st) : video_st :=
  VideoSt b (buffer v) (imgDeck v) (imgCardBack v) (modeinfo v).
Definition set_buffer (b : option block) (v : video_st) : video_st :=
  VideoSt (video_mem v) b (imgDeck v) (imgCardBack v) (modeinfo v).
Definition set_modeinfo (m : vbe_mode_info_t) (v : video_st) : video_st :=
  VideoSt (video_mem v) (buffer v) (imgDeck v) (imgCardBack v) m.

(** proj/src/video.c:109-122 [my_draw_pixel]: the coordinates are converted to
    [uint16_t]; [memcpy] reads at most the four bytes of [color]. *)
Definition my_draw_pixel (x y : Z) (color : color_t) : M video_st Z :=
  let x := u16 x in
  let y := u16 y in
  let* m := gets modeinfo in
  if (x >? XResolution m) || (y >? YResolution m) then ret 1 else
  let* b := gets buffer in
  let* b := of_option b in
  let* b' :=
    if BitsPerPixel m =? 15 then
      of_option (store (XResolution m * y * 2 + x * 2) (take 2 color) b)
    else
      let n := BitsPerPixel m / 8 in
      if n >? 4 then undef else
      of_option (store (XResolution m * y * n + x * n) (take (Z.to_nat n) color) b) in
  modify (set_buffer (Some b')) ;;
  ret 0.

(** [memcpy(&color, sprite, 3)] with [sprite] at offset [off] of the image's
    bytes: the fourth byte of [color] stays uninitialised. *)
Definition load_color {S} (img : xpm_image_t) (off : Z) : M S color_t :=
  match bytes_of img with
  | None => undef
  | Some f =>
      if (0 <=? off) && (off + 3 <=? size img)
      then ret [Some (u8 (f off)); Some (u8 (f (off + 1))); Some (u8 (f (off + 2))); None]
      else undef
  end.

(** proj/src/video.c:149-157 [the loop that every drawing function of video.c and game.c is
    written with]: the pixels of a rectangle, line by line, from a sprite pointer at [off]
    that moves on by [step] after each pixel and by [skip] after each line. *)
Definition blit (img : xpm_image_t) (off sx sy w h step skip : Z) : M video_st unit :=
  let* _ := for_range_acc sy (h + sy) off (fun line off =>
    let* off := for_range_acc sx (w + sx) off (fun col off =>
      let* color := load_color img off in
      let* _ := my_draw_pixel col line color in
      ret (off + step)) in
    ret (off + skip)) in
  ret tt.

(** [(modeinfo.BitsPerPixel + 7) / 8] *)
Definition sprite_step (m : vbe_mode_info_t) : Z := (BitsPerPixel m + 7) / 8.

(** proj/src/video.c:126-159 [vg_draw_card] *)
Definition vg_draw_card (screenX screenY positionX positionY : Z) : M video_st unit :=
  let spriteStartX := positionX * 73 in
  let spriteStartY := positionY * 99 in
  let* v := get in
  let n := sprite_step (modeinfo v) in
  if (positionX =? -1) && (positionY =? -1) then
    blit (imgCardBack v) 0 screenX screenY (width (imgCardBack v)) (height (imgCardBack v)) n 0
  else
    blit (imgDeck v) ((spriteStartX + width (imgDeck v) * spriteStartY) * n)
      screenX screenY CARD_WIDTH CARD_HEIGHT n (n * (width (imgDeck v) - CARD_WIDTH)).

Definition GREEN : Z := 0x22B14C.

(** proj/src/video.c:82-91 [greenScreen] *)
Definition greenScreen : M video_st Z :=
  let* m := gets modeinfo in
  for_range 0 (YResolution m) (fun i =>
    for_range 0 (XResolution m) (fun j =>
      let* _ := my_draw_pixel j i (color_of GREEN) in ret tt)) ;;
  ret 0.

(** proj/src/video.c:93-106 [greenPartOfScreen] *)
Definition greenPartOfScreen (x y width height : Z) : M video_st unit :=
  let* m := gets modeinfo in
  for_range_brk y (height + y) tt (fun i _ =>
    if i =? YResolution m then ret (Break tt) else
    for_range_brk x (width + x) tt (fun j _ =>
      if j =? XResolution m then ret (Break tt) else
      let* _ := my_draw_pixel j i (color_of GREEN) in
      ret (Next tt)) ;;
    ret (Next tt)).

(** proj/src/video.c:70-80 [my_updateVideoMem] *)
Definition my_updateVideoMem : M video_st Z :=
  let* v := get in
  let m := modeinfo v in
  let n := if BitsPerPixel m =? 15 then 2 * XResolution m * YResolution m
           else BitsPerPixel m / 8 * XResolution m * YResolution m in
  let* src := of_option (buffer v) in
  let* dst := of_option (video_mem v) in
  let* dst' := of_option (copy_block n src dst) in
  modify (set_video_mem (Some dst')) ;;
  ret 0.

Section VideoStart.
Context {W : Type} `{Display W}.

Definition video_modify (f : video_st -> video_st) : M (video_st * W) unit :=
  modify (fun s => (f s.1, s.2)).

(** A block of [n] bytes whose contents are not known. *)
Definition fresh (ok : bool) (n : Z) : option block := if ok then Some (Block n ∅) else None.

(** proj/src/video.c:18-67 [vg_start] *)
Definition vg_start (mode : Z) : M (video_st * W) Z :=
  let* ' (r, info) := zoom snd_lens (call (vbe_get_mode_info mode)) in
  (if r =? 0 then video_modify (set_modeinfo info) else skip) ;;
  let* m := gets (fun s => modeinfo s.1) in
  let vram_base := PhysBasePtr m in
  let* xy := int_ (XResolution m * YResolution m) in
  let* vram_size :=
    if BitsPerPixel m =? 15 then int_ (xy * 2) else int_ (xy * (BitsPerPixel m / 8)) in
  let mr_base := vram_base in
  let mr_limit := u32 (mr_base + vram_size) in
  let* r := zoom snd_lens (call (sys_privctl_add_mem mr_base mr_limit)) in
  if negb (r =? 0) then panic else
  let* ok := zoom snd_lens (call (malloc vram_size)) in
  video_modify (set_buffer (fresh ok vram_size)) ;;
  let* mapped := zoom snd_lens (call (vm_map_phys mr_base vram_size)) in
  video_modify (set_video_mem (fresh mapped vram_size)) ;;
  let* r := zoom snd_lens (call (sys_int86 0x10 0x4F02 (Z.lor (BIT 14) mode))) in
  if negb (r =? 0) then ret 1 else
  let* vm := gets (fun s => video_mem s.1) in
  match vm with
  | None => panic
  | Some _ => ret 0
  end.

(** proj/src/video.c:162-164 [clear_buffer]: the block is no longer there. *)
Definition clear_buffer : M (video_st * W) unit :=
  zoom snd_lens (modify free) ;;
  video_modify (set_buffer None).
End VideoStart.

(** ** The screen as an array of pixels *)

(** Bytes of a pixel in the frame buffer. *)
Definition bytes_pp (m : vbe_mode_info_t) : Z :=
  if BitsPerPixel m =? 15 then 2 else BitsPerPixel m / 8.

(** A mode whose pixels have one to four bytes and whose frame buffer has a size
    that is an [int]. *)
Definition mode_wf (m : vbe_mode_info_t) : Prop :=
  0 < XResolution m < 65536 /\ 0 < YResolution m < 65536 /\ 1 <= bytes_pp m <= 4 /\
  XResolution m * YResolution m * bytes_pp m <= INT_MAX.

Definition screen_size (m : vbe_mode_info_t) : Z := XResolution m * YResolution m * bytes_pp m.

(** The driver after a successful [vg_start]. *)
Definition vid_wf (v : video_st) : Prop :=
  mode_wf (modeinfo v) /\ exists b, buffer v = Some b /\ blk_size b = screen_size (modeinfo v).

(** Pixel [(x, y)] of the frame buffer. *)
Definition px_off (m : vbe_mode_info_t) (x y : Z) : Z := (XResolution m * y + x) * bytes_pp m.
Definition px (v : video_st) (x y : Z) : list (option Z) :=
  match buffer v with
  | None => []
  | Some b => map (fun i => blk_data b !! (px_off (modeinfo v) x y + i)) (seqZ 0 (bytes_pp (modeinfo v)))
  end.

Definition on_screen (m : vbe_mode_info_t) (x y : Z) : Prop :=
  0 <= x < XResolution m /\ 0 <= y < YResolution m.

(** What a call of [my_draw_pixel] does with its coordinates. *)
Definition rejected (m : vbe_mode_info_t) (x y : Z) : bool :=
  (u16 x >? XResolution m) || (u16 y >? YResolution m).
Definition pixel_safe (m : vbe_mode_info_t) (x y : Z) : Prop :=
  rejected m x y = true \/ XResolution m * u16 y + u16 x < XResolution m * YResolution m.

(** [v'] differs from [v] in the contents of the frame buffer only. *)
Definition same_but_pixels (v v' : video_st) : Prop :=
  exists b b', buffer v = Some b /\ v' = set_buffer (Some b') v /\ blk_size b' = blk_size b.

(** The screen with one pixel replaced. *)
Definition put_px (v : video_st) (x y : Z) (color : color_t) : video_st :=
  match buffer v with
  | None => v
  | Some b =>
      set_buffer (Some (Block (blk_size b)
        (store_data (px_off (modeinfo v) x y) (take (Z.to_nat (bytes_pp (modeinfo v))) color) (blk_data b)))) v
  end.

(** * Lemmas *)

Lemma store_data_lookup off bs m k :
  store_data off bs m !! k =
    if decide (off <= k < off + Z.of_nat (length bs)) then default None (bs !! Z.to_nat (k - off)) else m !! k.
Proof.
  revert off m. induction bs as [|b bs IH]; intros off m; cbn [store_data length].
  - case_decide; [lia|done].
  - rewrite IH. destruct (decide (k = off)) as [->|Hne].
    + rewrite decide_False by lia. rewrite decide_True by lia.
      rewrite Z.sub_diag. simpl. by rewrite lookup_partial_alter_eq.
    + rewrite lookup_partial_alter_ne by done. repeat case_decide; try lia; [|done].
      replace (Z.to_nat (k - off)) with (S (Z.to_nat (k - (off + 1)))) by lia. done.
Qed.

Lemma copy_block_lookup n src dst b k :
  copy_block n src dst = Some b ->
  blk_size b = blk_size dst /\
  blk_data b !! k = if decide (0 <= k < n) then blk_data src !! k else blk_data dst !! k.
Proof.
  unfold copy_block. destruct (_ && _); [|done]. intros [= <-]. simpl. split; [done|].
  case_decide as Hk.
  - destruct (blk_data src !! k) as [z|] eqn:E.
    + apply lookup_union_Some_l, map_lookup_filter_Some. done.
    + apply lookup_union_None. rewrite !map_lookup_filter_None. naive_solver.
  - rewrite lookup_union_r by (apply map_lookup_filter_None; naive_solver).
    destruct (blk_data dst !! k) as [z|] eqn:E.
    + by apply map_lookup_filter_Some.
    + apply map_lookup_filter_None. by left.
Qed.

Section Pixels.
Implicit Types (v : video_st) (c : color_t).

Lemma my_draw_pixel_eq v x y c :
  vid_wf v -> length c = 4%nat ->
  my_draw_pixel x y c v =
    if rejected (modeinfo v) x y then Done 1 v
    else if XResolution (modeinfo v) * u16 y + u16 x <? XResolution (modeinfo v) * YResolution (modeinfo v)
    then Done 0 (put_px v (u16 x) (u16 y) c) else Undef.
Proof.
  intros [(Hx & Hy & Hn & _) (b & Hb & Hsz)] Hc.
  pose proof (u16_range x) as Hux. pose proof (u16_range y) as Huy.
  unfold my_draw_pixel, bind, gets. fold (rejected (modeinfo v) x y).
  destruct (rejected (modeinfo v) x y); [done|].
  rewrite Hb. cbn [of_option ret]. unfold put_px, screen_size in *. rewrite Hb.
  unfold px_off, bytes_pp in *. set (m := modeinfo v) in *.
  destruct (BitsPerPixel m =? 15) eqn:E15; [|replace (BitsPerPixel m / 8 >? 4) with false by lia];
    unfold store; rewrite length_take, Hc, Hsz.
  - replace (XResolution m * u16 y * 2 + u16 x * 2) with ((XResolution m * u16 y + u16 x) * 2) by ring.
    destruct (Z.ltb_spec (XResolution m * u16 y + u16 x) (XResolution m * YResolution m)).
    + replace (_ && _) with true by (symmetry; apply andb_true_iff; split; apply Z.leb_le; simpl; nia).
      done.
    + replace (_ && _) with false; [done|]. symmetry. apply andb_false_iff. right. apply Z.leb_gt. simpl. nia.
  - set (n := BitsPerPixel m / 8) in *.
    replace (XResolution m * u16 y * n + u16 x * n) with ((XResolution m * u16 y + u16 x) * n) by ring.
    replace (Z.of_nat (Z.to_nat n `min` 4)) with n by lia.
    destruct (Z.ltb_spec (XResolution m * u16 y + u16 x) (XResolution m * YResolution m)).
    + replace (_ && _) with true by (symmetry; apply andb_true_iff; split; apply Z.leb_le; nia).
      done.
    + replace (_ && _) with false; [done|]. symmetry. apply andb_false_iff. right. apply Z.leb_gt. nia.
Qed.

Lemma put_px_geometry v x y c : vid_wf v -> same_but_pixels v (put_px v x y c).
Proof. intros [_ (b & Hb & _)]. exists b. eexists. unfold put_px. by rewrite Hb. Qed.

Lemma same_but_pixels_refl v : vid_wf v -> same_but_pixels v v.
Proof. intros [_ (b & Hb & _)]. exists b, b. destruct v; simpl in *; subst. done. Qed.

Lemma same_but_pixels_trans v1 v2 v3 :
  same_but_pixels v1 v2 -> same_but_pixels v2 v3 -> same_but_pixels v1 v3.
Proof.
  intros (b1 & b2 & H1 & -> & Hs) (b2' & b3 & H2 & -> & Hs'). simpl in *. injection H2 as <-.
  exists b1, b3. split_and!; [done|done|congruence].
Qed.

Lemma same_but_pixels_wf v v' : same_but_pixels v v' -> vid_wf v -> vid_wf v'.
Proof.
  intros (b & b' & Hb & -> & Hs) [Hm (b0 & Hb0 & Hsz)]. split; [done|].
  exists b'. simpl in *. split; [done|]. congruence.
Qed.

Lemma same_but_pixels_mode v v' : same_but_pixels v v' -> modeinfo v' = modeinfo v.
Proof. by intros (b & b' & _ & -> & _). Qed.

Lemma px_put_same v x y c :
  vid_wf v -> length c = 4%nat -> px (put_px v x y c) x y = take (Z.to_nat (bytes_pp (modeinfo v))) c.
Proof.
  intros [(_ & _ & Hn & _) (b & Hb & _)] Hc. unfold px, put_px. rewrite Hb. simpl.
  apply list_eq. intros i. rewrite list_lookup_fmap.
  destruct (decide (i < Z.to_nat (bytes_pp (modeinfo v)))%nat) as [Hi|Hi].
  - rewrite lookup_seqZ_lt by lia. simpl.
    rewrite store_data_lookup, length_take, Hc, decide_True by lia.
    replace (Z.to_nat _) with i by lia.
    assert (is_Some (take (Z.to_nat (bytes_pp (modeinfo v))) c !! i)) as [o ->]; [|done].
    apply lookup_lt_is_Some. rewrite length_take. lia.
  - rewrite lookup_seqZ_ge by lia. simpl. symmetry. apply lookup_ge_None. rewrite length_take. lia.
Qed.

Lemma px_put_other v x y c x' y' :
  vid_wf v -> length c = 4%nat ->
  XResolution (modeinfo v) * y + x <> XResolution (modeinfo v) * y' + x' ->
  px (put_px v x y c) x' y' = px v x' y'.
Proof.
  intros [(_ & _ & Hn & _) (b & Hb & _)] Hc Hne. unfold px, put_px. rewrite Hb. simpl.
  apply map_ext_in. intros i Hi. apply list_elem_of_In, elem_of_seqZ in Hi.
  rewrite store_data_lookup, decide_False; [done|]. rewrite length_take, Hc.
  unfold px_off. set (n := bytes_pp _) in *. set (p := _ + x) in *. set (q := _ + x') in *.
  intros Hk. assert (p < q \/ q < p) as [|] by lia; nia.
Qed.

Lemma on_screen_index m x y x' y' :
  on_screen m x y -> on_screen m x' y' ->
  XResolution m * y + x = XResolution m * y' + x' -> x = x' /\ y = y'.
Proof. unfold on_screen. intros. assert (y = y') by nia. nia. Qed.

Lemma on_screen_safe m x y : mode_wf m -> on_screen m x y -> u16 x = x /\ u16 y = y /\ rejected m x y = false.
Proof.
  intros (? & ? & _) [? ?]. unfold rejected. rewrite !u16_small by lia. split_and!; [done..|]. lia.
Qed.

(** A pixel that is not fatal leaves a screen of the same size and mode. *)
Lemma wp_draw_pixel v x y c (Q : Z -> video_st -> Prop) :
  vid_wf v -> length c = 4%nat -> pixel_safe (modeinfo v) x y ->
  (forall r v', same_but_pixels v v' -> Q r v') ->
  wp (my_draw_pixel x y c) Q v.
Proof.
  intros Hv Hc Hs HQ. unfold wp. rewrite my_draw_pixel_eq by done.
  destruct (rejected _ _ _) eqn:Hr.
  - apply HQ. by apply same_but_pixels_refl.
  - destruct Hs as [Hs|Hs]; [congruence|]. apply Z.ltb_lt in Hs. rewrite Hs.
    apply HQ. by apply put_px_geometry.
Qed.
End Pixels.

(** ** Painting *)

(** [v'] is [v] with the pixels of the region [R] replaced by the first bytes of
    [col], and nothing else changed. *)
Definition painted (R : Z -> Z -> bool) (col : Z -> Z -> color_t) (v v' : video_st) : Prop :=
  same_but_pixels v v' /\
  forall x y, on_screen (modeinfo v) x y ->
    px v' x y = if R x y then take (Z.to_nat (bytes_pp (modeinfo v))) (col x y) else px v x y.

Lemma painted_nothing R col v :
  vid_wf v -> (forall x y, on_screen (modeinfo v) x y -> R x y = false) -> painted R col v v.
Proof.
  intros Hv HR. split; [by apply same_but_pixels_refl|]. intros x y Hxy. by rewrite HR.
Qed.

Lemma painted_weaken R R' col v v' :
  (forall x y, on_screen (modeinfo v) x y -> R x y = R' x y) -> painted R col v v' -> painted R' col v v'.
Proof. intros HR [Hs Hp]. split; [done|]. intros x y Hxy. by rewrite Hp, HR. Qed.

Lemma painted_wf R col v v' : painted R col v v' -> vid_wf v -> vid_wf v'.
Proof. intros [Hs _]. by apply same_but_pixels_wf. Qed.

Lemma painted_mode R col v v' : painted R col v v' -> modeinfo v' = modeinfo v.
Proof. intros [Hs _]. by apply same_but_pixels_mode. Qed.

(** One more pixel. *)
Lemma painted_next R R' col v v' xc yc :
  vid_wf v -> on_screen (modeinfo v) xc yc -> length (col xc yc) = 4%nat ->
  (forall x y, R' x y = R x y || (x =? xc) && (y =? yc)) ->
  painted R col v v' -> painted R' col v (put_px v' xc yc (col xc yc)).
Proof.
  intros Hv Hon Hlen HR Hpt. pose proof Hpt as [Hsame Hpx].
  pose proof (painted_wf _ _ _ _ Hpt Hv) as Hv'. pose proof (painted_mode _ _ _ _ Hpt) as Hm.
  split; [by eapply same_but_pixels_trans, put_px_geometry|].
  intros x y Hxy. rewrite HR. destruct (decide (x = xc /\ y = yc)) as [[-> ->]|Hne].
  - by rewrite px_put_same, Hm, !Z.eqb_refl, orb_true_r by done.
  - rewrite px_put_other; [|done..|rewrite Hm; intros E; apply Hne; symmetry in E;
      by apply (on_screen_index (modeinfo v)) in E as [-> ->]].
    rewrite Hpx by done. replace ((x =? xc) && (y =? yc)) with false by lia. by rewrite orb_false_r.
Qed.

(** [my_draw_pixel] on the screen is one more pixel. *)
Lemma wp_paint_next R R' col v v' x y (Q : Z -> video_st -> Prop) :
  vid_wf v -> on_screen (modeinfo v) x y -> length (col x y) = 4%nat ->
  (forall x' y', R' x' y' = R x' y' || (x' =? x) && (y' =? y)) ->
  painted R col v v' ->
  (forall v'', painted R' col v v'' -> Q 0 v'') ->
  wp (my_draw_pixel x y (col x y)) Q v'.
Proof.
  intros Hv Hon Hlen HR Hpt HQ. pose proof (painted_wf _ _ _ _ Hpt Hv) as Hv'.
  pose proof (painted_mode _ _ _ _ Hpt) as Hm. pose proof Hv as [Hmode _].
  destruct (on_screen_safe _ _ _ Hmode Hon) as (Eux & Euy & Hrej).
  unfold wp. rewrite my_draw_pixel_eq, Hm, Hrej, Eux, Euy by done.
  destruct Hon as [??]. replace (_ <? _) with true by nia.
  apply HQ. by eapply painted_next.
Qed.

(** ** The sprite loop *)

(** The three bytes at [off] in the image exist. *)
Definition sprite_ok (img : xpm_image_t) (off : Z) : Prop :=
  is_Some (bytes_of img) /\ 0 <= off /\ off + 3 <= size img.

Definition sprite_color (img : xpm_image_t) (off : Z) : color_t :=
  match bytes_of img with
  | None => []
  | Some f => [Some (u8 (f off)); Some (u8 (f (off + 1))); Some (u8 (f (off + 2))); None]
  end.

(** Where [blit] reads the colour of pixel [(x, y)]. *)
Definition blit_off (off sx sy w step skip x y : Z) : Z :=
  off + (y - sy) * (Z.max 0 w * step + skip) + (x - sx) * step.

Definition in_rect (sx sy w h x y : Z) : bool :=
  (sx <=? x) && (x <? sx + w) && (sy <=? y) && (y <? sy + h).

Section Blit.
Context (img : xpm_image_t) (off sx sy w h step skip : Z).

Abbreviation off_of x y := (blit_off off sx sy w step skip x y).

Lemma sprite_color_length o : sprite_ok img o -> length (sprite_color img o) = 4%nat.
Proof. intros [[f Hf] _]. unfold sprite_color. by rewrite Hf. Qed.

Lemma load_color_eq {S} o (s : S) : sprite_ok img o -> load_color img o s = Done (sprite_color img o) s.
Proof.
  intros ([f Hf] & H1 & H2). unfold load_color, sprite_color. rewrite Hf.
  by replace ((0 <=? o) && (o + 3 <=? size img)) with true by lia.
Qed.

Lemma wp_blit (J : Z -> Z -> video_st -> Prop) (Q : unit -> video_st -> Prop) v :
  J sy sx v ->
  (forall y x v', sy <= y < sy + h -> sx <= x < sx + w -> J y x v' ->
     sprite_ok img (off_of x y) /\
     wp (my_draw_pixel x y (sprite_color img (off_of x y))) (fun _ => J y (x + 1)) v') ->
  (forall y v', sy <= y < sy + h -> J y (Z.max sx (sx + w)) v' -> J (y + 1) sx v') ->
  (forall v', J (Z.max sy (sy + h)) sx v' -> Q tt v') ->
  wp (blit img off sx sy w h step skip) Q v.
Proof.
  intros H0 Hpix Hrow HQ. unfold blit. apply wp_bind.
  rewrite (Z.add_comm h), (Z.add_comm w).
  eapply (wp_grid (fun y x o v' => o = off_of x y /\ J y x v')
    sx (sx + w) sy (sy + h) off _ (fun o => o + skip)).
  - split; [|done]. unfold blit_off. lia.
  - intros y x o v' Hy Hx [-> HJ]. destruct (Hpix y x v' Hy Hx HJ) as [Hok Hwp].
    unfold wp at 1, bind. rewrite load_color_eq by done. fold (@wp video_st Z).
    apply wp_inv in Hwp as (r & v'' & -> & HJ'). split; [|done]. unfold blit_off. lia.
  - intros y o v' Hy [-> HJ]. split; [|by apply Hrow]. unfold blit_off. lia.
  - intros o v' [_ HJ]. apply wp_ret. by apply HQ.
Qed.

(** The loop is defined, and touches nothing but pixels, as long as no pixel of
    the rectangle is fatal and the sprite has the bytes it reads. *)
Lemma wp_blit_safe (Q : unit -> video_st -> Prop) v :
  vid_wf v ->
  (forall x y, sx <= x < sx + w -> sy <= y < sy + h ->
     pixel_safe (modeinfo v) x y /\ sprite_ok img (off_of x y)) ->
  (forall v', same_but_pixels v v' -> Q tt v') ->
  wp (blit img off sx sy w h step skip) Q v.
Proof.
  intros Hv Hok HQ. apply (wp_blit (fun _ _ => same_but_pixels v)); [by apply same_but_pixels_refl| |done|done].
  intros y x v' Hy Hx Hsame. destruct (Hok x y Hx Hy) as [Hsafe Hspr]. split; [done|].
  apply wp_draw_pixel.
  - by eapply same_but_pixels_wf.
  - by apply sprite_color_length.
  - by rewrite (same_but_pixels_mode _ _ Hsame).
  - intros _ v''. by apply same_but_pixels_trans.
Qed.

End Blit.

(** A sprite that lies on the screen is drawn exactly: each pixel of the
    rectangle gets the bytes of its own place in the image, the rest is kept. *)
Lemma wp_blit_draws img off sx sy w h step skip v (Q : unit -> video_st -> Prop) :
  vid_wf v ->
  (forall x y, sx <= x < sx + w -> sy <= y < sy + h ->
     on_screen (modeinfo v) x y /\ sprite_ok img (blit_off off sx sy w step skip x y)) ->
  (forall v', painted (in_rect sx sy w h)
     (fun x y => sprite_color img (blit_off off sx sy w step skip x y)) v v' -> Q tt v') ->
  wp (blit img off sx sy w h step skip) Q v.
Proof.
  intros Hv Hok HQ. set (col x y := sprite_color img (blit_off off sx sy w step skip x y)).
  set (R yc xc x y := in_rect sx sy w h x y && ((y <? yc) || (y =? yc) && (x <? xc))).
  apply (wp_blit img off sx sy w h step skip (fun yc xc => painted (R yc xc) col v)).
  - apply painted_nothing; [done|]. unfold R, in_rect. lia.
  - intros y x v' Hy Hx HD. destruct (Hok x y Hx Hy) as [Hon Hspr]. split; [done|].
    apply (wp_paint_next (R y x) (R y (x + 1)) col v); [done|done|by apply sprite_color_length| |done|done].
    unfold R, in_rect. lia.
  - intros y v' Hy. apply painted_weaken. unfold R, in_rect. lia.
  - intros v' HD. apply HQ. revert HD. apply painted_weaken. unfold R, in_rect. lia.
Qed.

(** A rectangle of one colour, cut at the edges of the screen. *)
Lemma wp_greenScreen v (Q : Z -> video_st -> Prop) :
  vid_wf v ->
  (forall v', painted (fun _ _ => true) (fun _ _ => color_of GREEN) v v' -> Q 0 v') ->
  wp greenScreen Q v.
Proof.
  intros Hv HQ. set (R yc xc x y := (y <? yc) || (y =? yc) && (x <? xc)).
  set (P yc xc := painted (R yc xc) (fun _ _ => color_of GREEN) v).
  pose proof Hv as [(Hx & Hy & _) _].
  unfold greenScreen. apply wp_bind, wp_gets, wp_bind.
  apply (wp_for_range (fun y => P y 0)).
  - apply painted_nothing; [done|]. unfold R, on_screen. lia.
  - intros y v1 Hyy H1. apply (wp_for_range (P y)); [done| |].
    + intros x v2 Hxx H2. apply wp_bind.
      apply (wp_paint_next (R y x) (R y (x + 1)) (fun _ _ => color_of GREEN) v); [done|done|done| |done|done].
      unfold R. lia.
    + intros v2. apply painted_weaken. unfold R, on_screen. lia.
  - intros v1 H1. apply wp_ret, HQ. revert H1. apply painted_weaken. unfold R, on_screen. lia.
Qed.

Lemma rejected_beyond m x y :
  0 <= x < 65536 -> 0 <= y < 65536 -> (XResolution m < x \/ YResolution m < y) -> rejected m x y = true.
Proof. intros ???. unfold rejected. rewrite !u16_small by lia. lia. Qed.

Lemma wp_greenPartOfScreen x0 y0 w h v (Q : unit -> video_st -> Prop) :
  vid_wf v -> 0 <= x0 -> 0 <= y0 -> x0 + w <= 65536 -> y0 + h <= 65536 ->
  (forall v', painted (in_rect x0 y0 w h) (fun _ _ => color_of GREEN) v v' -> Q tt v') ->
  wp (greenPartOfScreen x0 y0 w h) Q v.
Proof.
  intros Hv Hx0 Hy0 Hw Hh HQ.
  set (R yc xc x y := in_rect x0 y0 w h x y && ((y <? yc) || (y =? yc) && (x <? xc))).
  set (P yc xc := painted (R yc xc) (fun _ _ => color_of GREEN) v).
  pose proof Hv as [(Hx & Hy & _) _].
  unfold greenPartOfScreen. apply wp_bind, wp_gets.
  rewrite (Z.add_comm h), (Z.add_comm w).
  apply (wp_for_range_brk (fun y _ => P y x0)).
  - apply painted_nothing; [done|]. unfold R, in_rect. lia.
  - intros y [] v1 Hyy H1. destruct (Z.eqb_spec y (YResolution (modeinfo v))).
    { apply wp_ret, HQ. revert H1. apply painted_weaken. unfold R, on_screen, in_rect. lia. }
    apply wp_bind, (wp_for_range_brk (fun x _ => P y x)); [done| |].
    + intros x [] v2 Hxx H2. destruct (Z.eqb_spec x (XResolution (modeinfo v))).
      { apply wp_ret, wp_ret. revert H2. apply painted_weaken. unfold R, on_screen, in_rect. lia. }
      apply wp_bind. destruct (decide (x < XResolution (modeinfo v) /\ y < YResolution (modeinfo v))) as [[??]|?].
      * apply (wp_paint_next (R y x) (R y (x + 1)) (fun _ _ => color_of GREEN) v);
          [done|unfold on_screen; lia|done| |done|done].
        unfold R, in_rect. lia.
      * unfold wp. rewrite my_draw_pixel_eq, (painted_mode _ _ _ _ H2), rejected_beyond;
          [|lia..|by eapply painted_wf|done].
        simpl. revert H2. apply painted_weaken. unfold R, on_screen, in_rect. lia.
    + intros [] v2. apply painted_weaken. unfold R, on_screen, in_rect. lia.
  - intros [] v1 H1. apply HQ. revert H1. apply painted_weaken. unfold R, on_screen, in_rect. lia.
Qed.

(** A pixmap of [w] times [h] pixels, loaded with three bytes per pixel. *)
Definition img_ok (img : xpm_image_t) (w h : Z) : Prop :=
  is_Some (bytes_of img) /\ width img = w /\ height img = h /\ size img = w * h * 3.

(** The three bytes of pixel [(i, j)] of an image of width [w]. *)
Definition img_px (img : xpm_image_t) (w i j : Z) : color_t := take 3 (sprite_color img ((i + w * j) * 3)).

(** A mode of 24 bits per pixel, as mode 0x115 of the game. *)
Definition mode_24 (m : vbe_mode_info_t) : Prop := mode_wf m /\ BitsPerPixel m = 24.

Lemma mode_24_bytes m : mode_24 m -> bytes_pp m = 3 /\ sprite_step m = 3.
Proof. intros [_ E]. unfold bytes_pp, sprite_step. by rewrite E. Qed.

(** An image drawn whole, from its first byte, on the screen. *)
Lemma wp_blit_image img w h sx sy v (Q : unit -> video_st -> Prop) :
  vid_wf v -> mode_24 (modeinfo v) -> img_ok img w h -> 0 <= w -> 0 <= h ->
  0 <= sx -> sx + w <= XResolution (modeinfo v) -> 0 <= sy -> sy + h <= YResolution (modeinfo v) ->
  (forall v', painted (in_rect sx sy w h) (fun x y => img_px img w (x - sx) (y - sy)) v v' -> Q tt v') ->
  wp (blit img 0 sx sy (width img) (height img) (sprite_step (modeinfo v)) 0) Q v.
Proof.
  intros Hv H24 (Hb & -> & -> & Hs) ?????? HQ. destruct (mode_24_bytes _ H24) as [En ->].
  apply wp_blit_draws; [done| |].
  - intros x y Hx Hy. split; [unfold on_screen; lia|]. split; [done|]. unfold blit_off. nia.
  - intros v' [Hsame Hpx]. apply HQ. split; [done|]. intros x y Hxy. rewrite Hpx, En by done.
    case_match eqn:Ein; [|done]. unfold img_px, blit_off in *. rewrite take_take. simpl.
    do 2 f_equal. rewrite Z.max_r by lia. ring.
Qed.

Lemma vg_draw_card_at v sx sy px0 py0 (Q : unit -> video_st -> Prop) :
  vid_wf v -> mode_24 (modeinfo v) -> img_ok (imgDeck v) 950 392 ->
  0 <= px0 < 13 -> 0 <= py0 < 4 ->
  0 <= sx -> sx + CARD_WIDTH <= XResolution (modeinfo v) ->
  0 <= sy -> sy + CARD_HEIGHT <= YResolution (modeinfo v) ->
  (forall v', painted (in_rect sx sy CARD_WIDTH CARD_HEIGHT)
     (fun x y => img_px (imgDeck v) 950 (px0 * 73 + (x - sx)) (py0 * 99 + (y - sy))) v v' -> Q tt v') ->
  wp (vg_draw_card sx sy px0 py0) Q v.
Proof.
  unfold CARD_WIDTH, CARD_HEIGHT.
  intros Hv H24 (Hb & Ew & Eh & Hs) ?????? HQ. destruct (mode_24_bytes _ H24) as [En Es].
  unfold vg_draw_card. apply wp_bind, wp_get. cbv zeta. rewrite Ew, Es.
  replace ((px0 =? -1) && (py0 =? -1)) with false by lia.
  apply wp_blit_draws; [done| |].
  - unfold CARD_WIDTH, CARD_HEIGHT. intros x y Hx Hy. split; [unfold on_screen; lia|].
    split; [done|]. unfold blit_off. nia.
  - unfold CARD_WIDTH, CARD_HEIGHT. intros v' [Hsame Hpx]. apply HQ. split; [done|].
    intros x y Hxy. rewrite Hpx, En by done. case_match eqn:Ein; [|done].
    unfold img_px, blit_off in *. rewrite take_take. simpl. do 2 f_equal. lia.
Qed.

(** ** Properties *)

(** On the screen [my_draw_pixel] returns 0, and afterwards the pixel holds
    the first bytes of the colour and every other pixel is what it was. *)
Theorem my_draw_pixel_on_screen (v : video_st) (x y : Z) (c : color_t) :
  vid_wf v -> length c = 4%nat -> on_screen (modeinfo v) x y ->
  exists v', my_draw_pixel x y c v = Done 0 v' /\ vid_wf v' /\
    painted (fun x' y' => (x' =? x) && (y' =? y)) (fun _ _ => c) v v'.
Proof.
  intros Hv Hc Hon.
  assert (wp (my_draw_pixel x y c) (fun r v' => r = 0 /\
    painted (fun x' y' => (x' =? x) && (y' =? y)) (fun _ _ => c) v v') v) as Hwp.
  { apply (wp_paint_next (fun _ _ => false) (fun x' y' => (x' =? x) && (y' =? y)) (fun _ _ => c) v);
      [done..|by apply painted_nothing|done]. }
  apply wp_inv in Hwp as (r & v' & E & -> & Hp). exists v'. eauto using painted_wf.
Qed.

(** The frame buffer of mode 0x115, and of a screen of one pixel. *)
Definition screen_of (m : vbe_mode_info_t) (deck : xpm_image_t) : video_st :=
  VideoSt (Some (Block (screen_size m) ∅)) (Some (Block (screen_size m) ∅)) deck no_image m.

Lemma my_draw_pixel_on_screen_witness :
  vid_wf (screen_of mode_0x115 no_image) /\
  exists v', my_draw_pixel 799 599 (color_of GREEN) (screen_of mode_0x115 no_image) = Done 0 v' /\ vid_wf v' /\
    painted (fun x' y' => (x' =? 799) && (y' =? 599)) (fun _ _ => color_of GREEN)
      (screen_of mode_0x115 no_image) v'.
Proof.
  assert (vid_wf (screen_of mode_0x115 no_image)) as Hv.
  { split; [vm_compute; repeat split; discriminate|by eexists]. }
  split; [done|]. apply my_draw_pixel_on_screen; [done|done|].
  vm_compute. repeat split; discriminate.
Defined.

(** The column behind the last one is column 0 of the next line. *)
Lemma my_draw_pixel_wraps v y c :
  vid_wf v -> length c = 4%nat -> 0 <= y < YResolution (modeinfo v) - 1 ->
  my_draw_pixel (XResolution (modeinfo v)) y c v = my_draw_pixel 0 (y + 1) c v.
Proof.
  intros Hv Hc Hy. pose proof Hv as [(HX & HY & _) _].
  rewrite !my_draw_pixel_eq by done. unfold rejected. rewrite !u16_small by lia.
  replace ((_ >? _) || (y >? _)) with false by lia.
  replace ((_ >? _) || (y + 1 >? _)) with false by lia.
  replace (_ <? _) with true by nia. replace (_ <? _) with true by nia.
  unfold put_px. by replace (px_off _ 0 (y + 1)) with
    (px_off (modeinfo v) (XResolution (modeinfo v)) y) by (unfold px_off; ring).
Qed.

(** (C27) The bounds test of [my_draw_pixel] admits one column and one row too
    many: drawing in row [YResolution], or after the last pixel of the last row,
    writes outside the frame buffer, and nowhere else is a call undefined;
    column [XResolution] of the other rows is drawn as column 0 of the next row. *)
Theorem my_draw_pixel_edge (v : video_st) (x y : Z) (c : color_t) :
  vid_wf v -> length c = 4%nat -> 0 <= x < 65536 -> 0 <= y < 65536 ->
  (my_draw_pixel x y c v = Undef <->
     (y = YResolution (modeinfo v) /\ x <= XResolution (modeinfo v)) \/
     (y = YResolution (modeinfo v) - 1 /\ x = XResolution (modeinfo v))) /\
  (x = XResolution (modeinfo v) -> y < YResolution (modeinfo v) - 1 ->
     my_draw_pixel x y c v = my_draw_pixel 0 (y + 1) c v).
Proof.
  intros Hv Hc Hx Hy. pose proof Hv as [(HX & HY & _) _].
  split.
  - rewrite my_draw_pixel_eq by done. unfold rejected. rewrite !u16_small by done. repeat case_match; split; intros; try done; nia.
  - intros -> Hlt. apply my_draw_pixel_wraps; [done|done|lia].
Qed.

Lemma my_draw_pixel_edge_witness :
  my_draw_pixel 0 1 (color_of GREEN) (screen_of mode_tiny no_image) = Undef /\
  my_draw_pixel 800 0 (color_of GREEN) (screen_of mode_0x115 no_image) =
  my_draw_pixel 0 1 (color_of GREEN) (screen_of mode_0x115 no_image).
Proof.
  assert (forall m, mode_wf m -> vid_wf (screen_of m no_image)) as Hv by (intros m Hm; split; [done|by eexists]).
  split.
  - apply (my_draw_pixel_edge (screen_of mode_tiny no_image)); [apply Hv; vm_compute; repeat split; discriminate|done|lia|lia|].
    left. vm_compute. split; [done|discriminate].
  - apply (my_draw_pixel_edge (screen_of mode_0x115 no_image) 800 0);
      [apply Hv; vm_compute; repeat split; discriminate|done|lia|lia|done|done].
Defined.

(** (C18) [vg_draw_card] with the coordinates of a card of the deck, drawn where it
    fits the screen, shows exactly that card: pixel [(x, y)] of the rectangle of
    69 by 93 gets pixel [(73 * positionX + x - screenX, 99 * positionY + y - screenY)]
    of the deck's image, and no other pixel changes. *)
Theorem vg_draw_card_shows_card (v : video_st) (sx sy posX posY : Z) :
  vid_wf v -> mode_24 (modeinfo v) -> img_ok (imgDeck v) 950 392 ->
  0 <= posX < 13 -> 0 <= posY < 4 ->
  0 <= sx -> sx + CARD_WIDTH <= XResolution (modeinfo v) ->
  0 <= sy -> sy + CARD_HEIGHT <= YResolution (modeinfo v) ->
  exists v', vg_draw_card sx sy posX posY v = Done tt v' /\
    painted (in_rect sx sy CARD_WIDTH CARD_HEIGHT)
      (fun x y => img_px (imgDeck v) 950 (posX * 73 + (x - sx)) (posY * 99 + (y - sy))) v v'.
Proof.
  intros Hv H24 Hd HX HY H1 H2 H3 H4.
  destruct (proj1 (wp_inv _ _ _) (vg_draw_card_at v sx sy posX posY
    (fun _ v' => painted (in_rect sx sy CARD_WIDTH CARD_HEIGHT)
      (fun x y => img_px (imgDeck v) 950 (posX * 73 + (x - sx)) (posY * 99 + (y - sy))) v v')
    Hv H24 Hd HX HY H1 H2 H3 H4 (fun _ H => H))) as ([] & v' & E & Hp).
  eauto.
Qed.

(** A deck whose bytes are their own addresses. *)
Definition test_deck : xpm_image_t := Image 950 392 (950 * 392 * 3) (Some (fun o => o)).

Lemma screen_0x115_wf deck : vid_wf (screen_of mode_0x115 deck) /\ mode_24 mode_0x115.
Proof. split; [split; [|by eexists]|split; [|done]]; vm_compute; repeat split; discriminate. Qed.

Lemma vg_draw_card_shows_card_witness :
  exists v', vg_draw_card 202 74 12 3 (screen_of mode_0x115 test_deck) = Done tt v' /\
    painted (in_rect 202 74 CARD_WIDTH CARD_HEIGHT)
      (fun x y => img_px test_deck 950 (12 * 73 + (x - 202)) (3 * 99 + (y - 74)))
      (screen_of mode_0x115 test_deck) v'.
Proof.
  destruct (screen_0x115_wf test_deck) as [Hv H24].
  apply (vg_draw_card_shows_card (screen_of mode_0x115 test_deck) 202 74 12 3);
    [done|done|by split_and!; [eexists|..]|lia|lia|lia|unfold CARD_WIDTH; simpl; lia|lia|
     unfold CARD_HEIGHT; simpl; lia].
Defined.

(** [greenPartOfScreen] fills the part of its rectangle that is on the screen
    with the background colour and nothing else, also for a rectangle that
    crosses the right or the lower edge. *)
Theorem greenPartOfScreen_clips (v : video_st) (x y w h : Z) :
  vid_wf v -> 0 <= x -> 0 <= y -> x + w <= 65536 -> y + h <= 65536 ->
  exists v', greenPartOfScreen x y w h v = Done tt v' /\
    painted (in_rect x y w h) (fun _ _ => color_of GREEN) v v'.
Proof.
  intros Hv Hx Hy Hw Hh.
  destruct (proj1 (wp_inv _ _ _) (wp_greenPartOfScreen x y w h v
    (fun _ => painted (in_rect x y w h) (fun _ _ => color_of GREEN) v) Hv Hx Hy Hw Hh (fun _ H => H)))
    as ([] & v' & E & Hp).
  eauto.
Qed.

Lemma greenPartOfScreen_clips_witness :
  exists v', greenPartOfScreen 790 590 69 93 (screen_of mode_0x115 no_image) = Done tt v' /\
    painted (in_rect 790 590 69 93) (fun _ _ => color_of GREEN) (screen_of mode_0x115 no_image) v'.
Proof.
  destruct (screen_0x115_wf no_image) as [Hv _].
  apply (greenPartOfScreen_clips (screen_of mode_0x115 no_image)); [done|lia..].
Defined.

(** The picture on the monitor: the pixels of the video memory. *)
Definition shown (v : video_st) (x y : Z) : list (option Z) := px (set_buffer (video_mem v) v) x y.

Lemma wp_my_updateVideoMem v b (Q : Z -> video_st -> Prop) :
  vid_wf v -> video_mem v = Some b -> blk_size b = screen_size (modeinfo v) ->
  (forall v' b', v' = set_video_mem (Some b') v -> blk_size b' = blk_size b ->
     (forall x y, on_screen (modeinfo v) x y -> shown v' x y = px v x y) -> Q 0 v') ->
  wp my_updateVideoMem Q v.
Proof.
  intros [(HX & HY & Hn & _) (b' & Hb' & Hs')] Hb Hs HQ.
  unfold my_updateVideoMem. apply wp_bind, wp_get. cbv zeta.
  replace (if _ =? 15 then _ else _) with (screen_size (modeinfo v))
    by (unfold screen_size, bytes_pp; case_match; ring).
  rewrite Hb, Hb'. apply wp_bind, wp_ret, wp_bind, wp_ret, wp_bind, wp_of_option.
  destruct (copy_block (screen_size (modeinfo v)) b' b) as [c|] eqn:Ec.
  2: { unfold copy_block in Ec. rewrite Hs, Hs', Z.leb_refl in Ec. done. }
  exists c. split; [done|]. apply wp_bind, wp_modify, wp_ret.
  apply (HQ _ c); [done|by destruct (copy_block_lookup _ _ _ _ 0 Ec)|].
  intros x y [Hx Hy]. unfold shown, px. simpl. rewrite Hb'. apply map_ext_in.
  intros i Hi. apply list_elem_of_In, elem_of_seqZ in Hi.
  destruct (copy_block_lookup _ _ _ _ (px_off (modeinfo v) x y + i) Ec) as [_ ->].
  rewrite decide_True; [done|]. unfold px_off, screen_size in *.
  set (p := XResolution (modeinfo v) * y + x).
  assert (0 <= p /\ p + 1 <= XResolution (modeinfo v) * YResolution (modeinfo v)) as [??] by (unfold p; nia).
  split; nia.
Qed.

(** A frame: clearing the buffer and copying it to the video memory returns
    0 and shows the background colour in every pixel of the monitor; whatever is
    drawn, [my_updateVideoMem] shows the pixels of the buffer and keeps the buffer. *)
Theorem frame_is_shown (v : video_st) (b : block) :
  vid_wf v -> video_mem v = Some b -> blk_size b = screen_size (modeinfo v) ->
  (exists v', my_updateVideoMem v = Done 0 v' /\ buffer v' = buffer v /\
     modeinfo v' = modeinfo v /\ forall x y, on_screen (modeinfo v) x y -> shown v' x y = px v x y) /\
  (exists v', (greenScreen ;; my_updateVideoMem) v = Done 0 v' /\
     forall x y, on_screen (modeinfo v) x y ->
       shown v' x y = take (Z.to_nat (bytes_pp (modeinfo v))) (color_of GREEN)).
Proof.
  intros Hv Hb Hs. split.
  - assert (wp my_updateVideoMem (fun r v' => r = 0 /\ buffer v' = buffer v /\
      modeinfo v' = modeinfo v /\
      forall x y, on_screen (modeinfo v) x y -> shown v' x y = px v x y) v) as H.
    { apply (wp_my_updateVideoMem _ b); [done..|]. by intros v' b' -> _ ?. }
    apply wp_inv in H as (r & v' & E & -> & H). eauto.
  - assert (wp (greenScreen ;; my_updateVideoMem) (fun r v' => r = 0 /\
      forall x y, on_screen (modeinfo v) x y ->
       shown v' x y = take (Z.to_nat (bytes_pp (modeinfo v))) (color_of GREEN)) v) as H.
    { apply wp_bind, wp_greenScreen; [done|]. intros v1 Hp.
      pose proof (painted_wf _ _ _ _ Hp Hv) as Hv1.
      destruct Hp as [(b1 & b2 & _ & -> & _) Hp].
      apply (wp_my_updateVideoMem _ b); [done..|]. intros v2 b3 _ _ H2. split; [done|].
      intros x y Hxy. rewrite H2 by done. by apply Hp. }
    apply wp_inv in H as (r & v' & E & -> & H). eauto.
Qed.

Lemma frame_is_shown_witness :
  exists v', (greenScreen ;; my_updateVideoMem) (screen_of mode_0x115 no_image) = Done 0 v' /\
    forall x y, on_screen mode_0x115 x y -> shown v' x y = [Some 0x4C; Some 0xB1; Some 0x22].
Proof.
  destruct (screen_0x115_wf no_image) as [Hv _].
  exact (proj2 (frame_is_shown (screen_of mode_0x115 no_image) _ Hv eq_refl eq_refl)).
Defined.

(** (C19) [greenPartOfScreen] and [greenScreen] are the same code where they overlap:
    a part that begins at the top left corner and reaches at least as far as the
    screen is cleared with the same sequence of [my_draw_pixel] calls as the whole
    screen, because the loops break at the edges; on any state, well formed or
    not, both give the same result. *)
Theorem greenPartOfScreen_whole (v : video_st) (w h : Z) :
  0 <= XResolution (modeinfo v) <= w -> 0 <= YResolution (modeinfo v) <= h ->
  greenPartOfScreen 0 0 w h v = (let* _ := greenScreen in ret tt) v.
Proof.
  intros Hw Hh. unfold greenPartOfScreen, greenScreen. rewrite bind_assoc, !(bind_Done _ _ _ _ _ (gets_eq _ _)).
  rewrite bind_assoc. set (m := modeinfo v) in *. unfold for_range_brk, for_range. rewrite !Z.add_0_r, !Z.sub_0_r.
  rewrite (for_brk_until _ (Z.to_nat (YResolution m)) 0 tt (fun i _ =>
    for_acc (Z.to_nat (XResolution m)) 0 tt (fun j _ => let* _ := my_draw_pixel j i (color_of GREEN) in ret tt))).
  - unfold bind. by destruct (for_acc _ _ _ _ v) as [[]| | |].
  - lia.
  - intros y [] s Hy. replace (y =? YResolution m) with false by lia. unfold bind at 1.
    rewrite (for_brk_until _ (Z.to_nat (XResolution m)) 0 tt
      (fun j _ => let* _ := my_draw_pixel j y (color_of GREEN) in ret tt)).
    + unfold bind. by destruct (for_acc _ _ _ _ s) as [[]| | |].
    + lia.
    + intros x [] t Hx. replace (x =? XResolution m) with false by lia. by rewrite bind_assoc.
    + intros [] t. by rewrite Z.add_0_l, Z2Nat.id, Z.eqb_refl by lia.
  - intros [] s. by rewrite Z.add_0_l, Z2Nat.id, Z.eqb_refl by lia.
Qed.

Lemma greenPartOfScreen_whole_witness :
  greenPartOfScreen 0 0 1024 768 (screen_of mode_0x115 no_image) =
    (let* _ := greenScreen in ret tt) (screen_of mode_0x115 no_image).
Proof. apply greenPartOfScreen_whole; simpl; lia. Defined.

Section VideoStartTheorems.
Context {W : Type} `{Display W}.

Lemma vg_start_eq (mode : Z) (v : video_st) (w w1 w2 w3 w4 w5 : W)
    (info : vbe_mode_info_t) (rp ri : Z) (allocated mapped : bool) :
  vbe_get_mode_info mode w = ((0, info), w1) -> mode_wf info ->
  sys_privctl_add_mem (PhysBasePtr info) (u32 (PhysBasePtr info + screen_size info)) w1 = (rp, w2) ->
  malloc (screen_size info) w2 = (allocated, w3) ->
  vm_map_phys (PhysBasePtr info) (screen_size info) w3 = (mapped, w4) ->
  sys_int86 0x10 0x4F02 (Z.lor (BIT 14) mode) w4 = (ri, w5) ->
  exists v',
    vg_start mode (v, w) =
      (if negb (rp =? 0) then Panic
       else if negb (ri =? 0) then Done 1 (v', w5)
       else if mapped then Done 0 (v', w5) else Panic) /\
    modeinfo v' = info /\ (allocated = true -> vid_wf v') /\
    (mapped = true -> exists b, video_mem v' = Some b /\ blk_size b = screen_size info).
Proof.
  intros E1 Hm E2 E3 E4 E5. pose proof Hm as (HX & HY & Hn & Hmax).
  assert (INT_MIN <= screen_size info <= INT_MAX) as Hsize by (unfold screen_size, INT_MIN in *; nia).
  assert (INT_MIN <= XResolution info * YResolution info <= INT_MAX) as Hxy by (unfold INT_MIN in *; nia).
  exists (VideoSt (fresh mapped (screen_size info)) (fresh allocated (screen_size info))
    (imgDeck v) (imgCardBack v) info).
  split; [|split_and!; [done| |]; [intros ->; split; [done|]; by eexists|intros ->; by eexists]].
  unfold vg_start, video_modify.
  rewrite (bind_Done _ _ _ _ _ (zoom_call_snd _ _ _ _ _ E1)). cbn [Z.eqb].
  rewrite (bind_Done _ _ _ _ _ (modify_eq _ _)), (bind_Done _ _ _ _ _ (gets_eq _ _)).
  cbn [set_modeinfo modeinfo fst snd]. cbv zeta.
  rewrite (bind_Done _ _ _ _ _ (int_eq _ _ (proj2 (is_int_spec _) Hxy))).
  assert ((if BitsPerPixel info =? 15 then int_ (XResolution info * YResolution info * 2)
           else int_ (XResolution info * YResolution info * (BitsPerPixel info / 8)))
          = @int_ (video_st * W) (screen_size info)) as ->
    by (unfold screen_size, bytes_pp; by case_match).
  rewrite (bind_Done _ _ _ _ _ (int_eq _ _ (proj2 (is_int_spec _) Hsize))).
  rewrite (bind_Done _ _ _ _ _ (zoom_call_snd _ _ _ _ _ E2)).
  destruct (rp =? 0); cbn [negb]; [|done].
  rewrite (bind_Done _ _ _ _ _ (zoom_call_snd _ _ _ _ _ E3)), (bind_Done _ _ _ _ _ (modify_eq _ _)).
  rewrite (bind_Done _ _ _ _ _ (zoom_call_snd _ _ _ _ _ E4)), (bind_Done _ _ _ _ _ (modify_eq _ _)).
  rewrite (bind_Done _ _ _ _ _ (zoom_call_snd _ _ _ _ _ E5)).
  destruct (ri =? 0); cbn [negb]; [|done]. by destruct mapped.
Qed.

(** (C37) When the card reports a well-formed mode, [vg_start] asks for exactly the
    frame buffer's memory, and: stops the process when the memory range is
    refused; returns 1 when the BIOS call fails; stops the process when the
    memory was not mapped; and otherwise returns 0 with a screen of that mode
    ready to draw on, if [malloc], whose result it does not test, gave a block. *)
Theorem vg_start_result (mode : Z) (v : video_st) (w w1 w2 w3 w4 w5 : W)
    (info : vbe_mode_info_t) (rp ri : Z) (allocated mapped : bool) :
  vbe_get_mode_info mode w = ((0, info), w1) -> mode_wf info ->
  sys_privctl_add_mem (PhysBasePtr info) (u32 (PhysBasePtr info + screen_size info)) w1 = (rp, w2) ->
  malloc (screen_size info) w2 = (allocated, w3) ->
  vm_map_phys (PhysBasePtr info) (screen_size info) w3 = (mapped, w4) ->
  sys_int86 0x10 0x4F02 (Z.lor (BIT 14) mode) w4 = (ri, w5) ->
  exists v',
    vg_start mode (v, w) =
      (if negb (rp =? 0) then Panic
       else if negb (ri =? 0) then Done 1 (v', w5)
       else if mapped then Done 0 (v', w5) else Panic) /\
    modeinfo v' = info /\ (allocated = true -> vid_wf v') /\
    (mapped = true -> exists b, video_mem v' = Some b /\ blk_size b = screen_size info).
Proof. apply vg_start_eq. Qed.
End VideoStartTheorems.

Lemma vg_start_result_witness :
  exists v', vg_start 0x115 (video_init_st, script0) =
    Done 0 (v', log (EInt86 0x10 0x4F02 0x4115) (log (EMap 3758096384 1440000)
      (log (EMalloc 1440000) (log (EPriv 3758096384 3759536384) script0)))) /\
    modeinfo v' = mode_0x115 /\ (true = true -> vid_wf v') /\
    (true = true -> exists b, video_mem v' = Some b /\ blk_size b = 1440000).
Proof.
  eapply (vg_start_result 0x115 video_init_st script0 script0 _ _ _ _ mode_0x115 0 0 true true);
    [done|vm_compute; repeat split; discriminate|done..].
Defined.

(** ** When a sprite can be drawn *)

(** If drawing a sprite returns, none of its pixels was fatal. *)
Lemma wlp_blit_safe img off sx sy w h step skip v :
  vid_wf v ->
  (forall x y, sx <= x < sx + w -> sy <= y < sy + h -> sprite_ok img (blit_off off sx sy w step skip x y)) ->
  wlp (blit img off sx sy w h step skip)
    (fun _ _ => forall x y, sx <= x < sx + w -> sy <= y < sy + h -> pixel_safe (modeinfo v) x y) v.
Proof.
  intros Hv Hok. set (safe_upto yc xc := forall x y, sx <= x < sx + w -> sy <= y < sy + h ->
    y < yc \/ y = yc /\ x < xc -> pixel_safe (modeinfo v) x y).
  unfold blit. apply wlp_bind. rewrite (Z.add_comm h), (Z.add_comm w).
  apply (wlp_for_range_acc (fun y o v' => o = blit_off off sx sy w step skip sx y /\
    same_but_pixels v v' /\ safe_upto y sx)).
  - split_and!; [unfold blit_off; lia|by apply same_but_pixels_refl|]. unfold safe_upto. lia.
  - intros y o v1 Hy (-> & Hs1 & Hsafe). apply wlp_bind.
    apply (wlp_for_range_acc (fun x o v' => o = blit_off off sx sy w step skip x y /\
      same_but_pixels v v' /\ safe_upto y x)); [done| |].
    + intros x o' v2 Hx (-> & Hs2 & Hsafe2). unfold wlp, bind.
      rewrite load_color_eq by (by apply Hok). rewrite my_draw_pixel_eq;
        [|by eapply same_but_pixels_wf|by apply sprite_color_length, Hok].
      rewrite (same_but_pixels_mode _ _ Hs2).
      assert (pixel_safe (modeinfo v) x y -> safe_upto y (x + 1)) as Hnext.
      { intros Hp x' y' Hx' Hy' Hle. destruct (decide (x' = x /\ y' = y)) as [[-> ->]|]; [done|].
        apply Hsafe2; lia. }
      destruct (rejected _ _ _) eqn:Hr; [|destruct (Z.ltb_spec (XResolution (modeinfo v) * u16 y + u16 x)
        (XResolution (modeinfo v) * YResolution (modeinfo v))); [|done]]; simpl.
      * split_and!; [unfold blit_off; lia|done|]. apply Hnext. by left.
      * split_and!; [unfold blit_off; lia| |].
        -- eapply same_but_pixels_trans; [done|]. apply put_px_geometry. by eapply same_but_pixels_wf.
        -- apply Hnext. by right.
    + intros o' v2 (-> & Hs2 & Hsafe2). split_and!; [unfold blit_off; lia|done|].
      intros x' y' Hx' Hy' Hle. apply Hsafe2; lia.
  - intros o v1 (_ & _ & Hsafe) x y Hx Hy. apply Hsafe; lia.
Qed.

Lemma bounded_my_draw_pixel x y c : bounded (my_draw_pixel x y c).
Proof.
  unfold my_draw_pixel. cbv zeta. apply bounded_bind; [done|]. intros m. case_match; [done|].
  repeat (apply bounded_bind; [|intros ?]); try done; try apply bounded_of_option.
  repeat case_match; try done; apply bounded_of_option.
Qed.

Lemma bounded_load_color {S} img off : bounded (S := S) (load_color img off).
Proof. intros s. unfold load_color. by repeat case_match. Qed.

Lemma bounded_blit img off sx sy w h step skip : bounded (blit img off sx sy w h step skip).
Proof.
  unfold blit, for_range_acc.
  auto 20 using bounded_my_draw_pixel, bounded_load_color with c_bounded.
Qed.
