(* ===== verification/Cards.v ===== *)
(** proj/src/game.c, proj/src/structs.h: the cards, the player, and the deal that
    starts a game: eight different cards are drawn, each is put on the board
    twice, and the board is shuffled. *)
From S2P Require Import Prelude Env.

(** ** Data *)

(** proj/src/structs.h:14-16 [cardNumber] *)
Inductive cardNumber : Type :=
  Ace | Two | Three | Four | Five | Six | Seven | Eight | Nine | Ten | Jack | Queen | King.

(** proj/src/structs.h:18-20 [cardSuit] *)
Inductive cardSuit : Type := Spades | Clubs | Hearts | Diamonds.

#[export] Instance cardNumber_eq_dec : EqDecision cardNumber.
Proof. solve_decision. Defined.
#[export] Instance cardSuit_eq_dec : EqDecision cardSuit.
Proof. solve_decision. Defined.

(** proj/src/structs.h:26-34 [card] *)
Record card : Type := Card {
  card_x : Z; card_y : Z;
  isFlipped : bool;
  isFlipping : bool;
  flipSuccess : bool;
  num : cardNumber;
  suit : cardSuit
}.

#[export] Instance card_eq_dec : EqDecision card.
Proof. solve_decision. Defined.

(** proj/src/structs.h:7-12 [Player]: [name] is a string constant and [bestTime] is only
    ever 0; [lives] is an [unsigned int]. *)
Record Player : Type := MkPlayer { name : string; lives : Z; isAlive : bool; bestTime : Z }.

(** proj/src/game.c:758-801 [getCardNumber]: the last [return 1] is [Ace]. *)
Definition getCardNumber (x : Z) : cardNumber :=
  match x with
  | 0 => Ace | 1 => Two | 2 => Three | 3 => Four | 4 => Five | 5 => Six | 6 => Seven
  | 7 => Eight | 8 => Nine | 9 => Ten | 10 => Jack | 11 => Queen | 12 => King
  | _ => Ace
  end.

(** proj/src/game.c:803-816 [getCardSuit]: the last [return 1] is [Clubs]. *)
Definition getCardSuit (y : Z) : cardSuit :=
  match y with
  | 0 => Clubs | 1 => Spades | 2 => Hearts | 3 => Diamonds
  | _ => Clubs
  end.

(** proj/src/game.c:94-99 [initializePlayer]: the value it gives [p1]. *)
Definition initializePlayer : Player := MkPlayer "TestNome" 5 true 0.

(** proj/src/game.c:80-80 [compound literal of a new card] *)
Definition new_card (cardposX cardposY : Z) : card :=
  Card cardposX cardposY false false false (getCardNumber cardposX) (getCardSuit cardposY).

(** ** The deal *)
Section Deal.
Context {W : Type} `{Libc W}.

(** An element of an array of [int] that may not have been written yet. *)
Definition int_get {S} (l : list (option Z)) (i : Z) : M S Z :=
  let* o := arr_get l i in of_option o.

(** proj/src/game.c:62-63 [rf, rs] *)
Definition draw_pair : M W (Z * Z) :=
  let* rf := call rand in
  let* rs := call rand in
  ret (Z.rem rf 4, Z.rem rs 13).

(** proj/src/game.c:64-73 [the loop over the pairs drawn before]: the arrays and [i] afterwards. *)
Definition deal_inner (rf rs : Z) (first second : list (option Z)) (i : Z) :
    M W (list (option Z) * list (option Z) * Z) :=
  for_range_brk 0 i (first, second, i) (fun j '(first, second, i) =>
    let* fj := int_get first j in
    let* same := (if rf =? fj then let* sj := int_get second j in ret (rs =? sj) else ret false) in
    if same : bool then ret (Break (first, second, i - 1))
    else
      let* first := arr_set first i (Some rf) in
      let* second := arr_set second i (Some rs) in
      ret (Next (first, second, i))).

(** proj/src/game.c:61-74 [the loop over i] *)
Fixpoint deal_pairs (fuel : nat) (first second : list (option Z)) (i : Z) :
    M W (list (option Z) * list (option Z)) :=
  match fuel with
  | O => nofuel
  | S fuel =>
      if i <? 8 then
        let* ' (rf, rs) := draw_pair in
        let* ' (first, second, i) := deal_inner rf rs first second i in
        deal_pairs fuel first second (i + 1)
      else ret (first, second)
  end.

(** proj/src/game.c:76-82 [the loop that fills the board] *)
Definition fill_board (first second : list (option Z)) (cardArray : list card) : M W (list card) :=
  for_range_acc 0 8 cardArray (fun i cardArray =>
    let* cardposY := int_get first i in
    let* cardposX := int_get second i in
    let secondHalf := 15 - i in
    let* cardArray := arr_set cardArray i (new_card cardposX cardposY) in
    arr_set cardArray secondHalf (new_card cardposX cardposY)).

(** proj/src/game.c:87-87 [j]: in [size_t]. *)
Definition shuffle_index (i r : Z) : Z :=
  u32 (i + u32 r / u32 (RAND_MAX / u32 (16 - i) + 1)).

(** proj/src/game.c:84-91 [the shuffle] *)
Definition shuffle (cardArray : list card) : M W (list card) :=
  for_range_acc 0 15 cardArray (fun i cardArray =>
    let* r := call rand in
    let j := shuffle_index i r in
    let* t := arr_get cardArray j in
    let* ci := arr_get cardArray i in
    let* cardArray := arr_set cardArray j ci in
    arr_set cardArray i t).

(** proj/src/game.c:54-92 [initialize_game_cards] *)
Definition initialize_game_cards (fuel : nat) (cardArray : list card) : M W (list card) :=
  let first := replicate 8 None in
  let second := replicate 8 None in
  let* r := call rand in
  let* first := arr_set first 0 (Some (Z.rem r 4)) in
  let* r := call rand in
  let* second := arr_set second 0 (Some (Z.rem r 13)) in
  let* ' (first, second) := deal_pairs fuel first second 1 in
  let* cardArray := fill_board first second cardArray in
  shuffle cardArray.
End Deal.

(** ** Specification *)

(** The pairs of a list, each at its first occurrence. *)
Definition see (seen : list (Z * Z)) (p : Z * Z) : list (Z * Z) :=
  if decide (p ∈ seen) then seen else seen ++ [p].
Definition distinct (ps : list (Z * Z)) : list (Z * Z) := foldl see [] ps.

(** Two cards that match in the game. *)
Definition same_face (c d : card) : bool := bool_decide (num c = num d) && bool_decide (suit c = suit d).

(** The card of a drawn pair (suit, number). *)
Definition card_of (p : Z * Z) : card := new_card p.2 p.1.

(** A board as the game needs it: eight pairs of matching cards, all face up
    ([isFlipped] is false), none matched yet, at places of the deck's image. *)
Definition board_ok (cards : list card) : Prop :=
  length cards = 16%nat /\
  (forall c, c ∈ cards ->
     isFlipped c = false /\ isFlipping c = false /\ flipSuccess c = false /\
     0 <= card_x c < 13 /\ 0 <= card_y c < 4) /\
  (forall c, c ∈ cards -> length (List.filter (same_face c) cards) = 2%nat).

Section DrawSpec.
Context {W : Type} `{Libc W}.

(** The next [n] pairs of random numbers, and the generator after them. *)
Fixpoint draws (n : nat) (w : W) : list (Z * Z) :=
  match n with
  | O => []
  | S n =>
      let '(a, w1) := rand w in
      let '(b, w2) := rand w1 in
      (Z.rem a 4, Z.rem b 13) :: draws n w2
  end.

(** The arrays hold the pairs [ps]. *)
Definition holds (first second : list (option Z)) (ps : list (Z * Z)) : Prop :=
  length first = 8%nat /\ length second = 8%nat /\
  forall k p, ps !! k = Some p -> first !! k = Some (Some p.1) /\ second !! k = Some (Some p.2).
End DrawSpec.

(** * Lemmas *)

Lemma elem_of_see seen p q : q ∈ see seen p <-> q ∈ seen \/ q = p.
Proof.
  unfold see. case_decide; [|by rewrite elem_of_app, list_elem_of_singleton].
  split; [by left|by intros [?| ->]].
Qed.

Lemma NoDup_see seen p : NoDup seen -> NoDup (see seen p).
Proof.
  unfold see. case_decide; [done|]. intros Hs. apply NoDup_app. split_and!; [done| |apply NoDup_singleton].
  intros q Hq ->%list_elem_of_singleton. done.
Qed.

Lemma foldl_see_grows ps seen : exists l, foldl see seen ps = seen ++ l.
Proof.
  revert seen. induction ps as [|p ps IH]; intros seen; simpl; [exists []; by rewrite app_nil_r|].
  destruct (IH (see seen p)) as [l ->]. unfold see. case_decide; [by exists l|].
  exists (p :: l). by rewrite <- app_assoc.
Qed.

Lemma NoDup_foldl_see ps seen : NoDup seen -> NoDup (foldl see seen ps).
Proof.
  revert seen. induction ps as [|p ps IH]; intros seen Hs; simpl; [done|]. by apply IH, NoDup_see.
Qed.

Lemma Forall_foldl_see (P : Z * Z -> Prop) ps seen :
  Forall P seen -> Forall P ps -> Forall P (foldl see seen ps).
Proof.
  revert seen. induction ps as [|p ps IH]; intros seen Hs Hps; simpl; [done|].
  apply Forall_cons in Hps as [Hp Hps]. apply IH; [|done].
  apply Forall_forall. intros q. rewrite elem_of_see, Forall_forall in *. intros [?| ->]; [auto|done].
Qed.

Section DealLemmas.
Context {W : Type} `{!Libc W}.
Implicit Types (w : W) (ps : list (Z * Z)).

Lemma holds_get first second ps i p :
  holds first second ps -> ps !! Z.to_nat i = Some p -> 0 <= i ->
  forall w (Q : Z -> W -> Prop), (Q p.1 w -> wp (int_get first i) Q w) /\ (Q p.2 w -> wp (int_get second i) Q w).
Proof.
  intros (_ & _ & Hps) Hi H0 w Q. destruct (Hps _ _ Hi) as [H1 H2].
  split; intros HQ; unfold int_get; apply wp_bind.
  - apply (wp_arr_get _ _ (Some p.1)); [done|done|by apply wp_ret].
  - apply (wp_arr_get _ _ (Some p.2)); [done|done|by apply wp_ret].
Qed.

(** Writing beyond the pairs keeps them; writing right behind them adds one. *)
Lemma holds_set first second ps (i : nat) p :
  holds first second ps -> i = length ps ->
  holds (<[i := Some p.1]> first) (<[i := Some p.2]> second) ps.
Proof.
  intros (H1 & H2 & Hps) ->. split_and!; [by rewrite length_insert..|]. intros k q Hk.
  pose proof (lookup_lt_Some _ _ _ Hk). rewrite !list_lookup_insert_ne by lia. by apply Hps.
Qed.

Lemma holds_snoc first second ps p :
  holds first second ps -> first !! length ps = Some (Some p.1) -> second !! length ps = Some (Some p.2) ->
  holds first second (ps ++ [p]).
Proof.
  intros (H1 & H2 & Hps) Hf Hs. split_and!; [done..|]. intros k q Hk.
  apply lookup_app_Some in Hk as [Hk|[Hle Hk]]; [by apply Hps|].
  apply list_lookup_singleton_Some in Hk as [Hk <-].
  by replace k with (length ps) by lia.
Qed.

(** The inner loop rejects a pair that was drawn before and adds a new one. *)
Lemma wp_deal_inner rf rs first second ps w
    (Q : list (option Z) * list (option Z) * Z -> W -> Prop) :
  holds first second ps -> (1 <= length ps < 8)%nat ->
  (forall first second, holds first second (see ps (rf, rs)) ->
     Q (first, second, Z.of_nat (length (see ps (rf, rs))) - 1) w) ->
  wp (deal_inner rf rs first second (Z.of_nat (length ps))) Q w.
Proof.
  intros Hh Hlen HQ. set (n := length ps) in *. unfold deal_inner.
  apply (wp_for_range_brk (fun j '(f, s, i) w' => (w' = w) /\ i = Z.of_nat n /\ holds f s ps /\
    ~ ((rf, rs) ∈ take (Z.to_nat j) ps) /\ (0 < j -> f !! n = Some (Some rf) /\ s !! n = Some (Some rs)))).
  - split_and!; [done..| |lia]. simpl. by intros ?%not_elem_of_nil.
  - intros j [[f s] i] w' Hj (-> & -> & Hfs & Hnew & _).
    destruct (lookup_lt_is_Some_2 ps (Z.to_nat j)) as [[pf pss] Hp]; [unfold n in *; lia|].
    destruct (holds_get f s ps j (pf, pss) Hfs Hp ltac:(lia) w
      (fun fj w' => fj = pf /\ w' = w)) as [Hf _].
    apply wp_bind. eapply wp_mono; [by apply Hf|]. intros ? ? [-> ->].
    apply wp_bind.
    apply (wp_mono _ (fun same w' => (same = bool_decide ((rf, rs) = (pf, pss))) /\ w' = w)).
    { destruct (Z.eqb_spec rf pf) as [->|Hne].
      - apply wp_bind. apply (holds_get f s ps j (pf, pss) Hfs Hp ltac:(lia)). apply wp_ret.
        split; [|done]. simpl. destruct (Z.eqb_spec rs pss); [|]; symmetry;
          [apply bool_decide_true|apply bool_decide_false]; congruence.
      - apply wp_ret. split; [|done]. symmetry. apply bool_decide_false. congruence. }
    intros ? ? [-> ->]. case_bool_decide as Heq.
    + apply wp_ret. simplify_eq. pose proof (list_elem_of_lookup_2 _ _ _ Hp).
      specialize (HQ f s). unfold see in HQ. rewrite decide_True in HQ by done. by apply HQ.
    + destruct Hfs as (H1 & H2 & H3). apply wp_bind, wp_arr_set; [lia|].
      apply wp_bind, wp_arr_set; [lia|]. apply wp_ret. rewrite Nat2Z.id.
      split_and!; [done|done|by apply (holds_set f s ps n (rf, rs))| |].
      * replace (Z.to_nat (j + 1)) with (S (Z.to_nat j)) by lia.
        rewrite (take_S_r _ _ _ Hp), elem_of_app, list_elem_of_singleton. by intros [?|?].
      * intros _. by rewrite !list_lookup_insert_eq by lia.
  - intros [[f s] i] w' (-> & -> & Hfs & Hnew & Hlast).
    rewrite firstn_all2 in Hnew by (unfold n in *; lia).
    specialize (HQ f s). unfold see in HQ. rewrite decide_False in HQ by done.
    rewrite length_app in HQ. simpl in HQ.
    replace (Z.of_nat n) with (Z.of_nat (length ps + 1) - 1) by (unfold n; lia).
    apply HQ. destruct Hlast; [lia|]. by apply holds_snoc.
Qed.

(** The loop ends as soon as the draws contain eight different pairs, which are
    then the pairs of the board. *)
Lemma wp_deal_pairs n first second ps w :
  holds first second ps -> (1 <= length ps <= 8)%nat ->
  (8 <= length (foldl see ps (draws n w)))%nat ->
  wp (deal_pairs (S n) first second (Z.of_nat (length ps)))
    (fun '(f, s) _ => holds f s (take 8 (foldl see ps (draws n w)))) w.
Proof.
  revert first second ps w. induction n as [|n IH]; intros first second ps w Hh Hlen H8;
    cbn [deal_pairs]; destruct (Z.ltb_spec (Z.of_nat (length ps)) 8).
  - simpl in H8. lia.
  - apply wp_ret. simpl. by rewrite firstn_all2 by lia.
  - unfold draw_pair. simpl in H8 |- *. destruct (rand w) as [a w1] eqn:Ea.
    destruct (rand w1) as [b w2] eqn:Eb.
    apply wp_bind, wp_bind, wp_call. rewrite Ea. cbn [fst snd].
    apply wp_bind, wp_call. rewrite Eb. cbn [fst snd]. apply wp_ret.
    apply wp_bind, wp_deal_inner; [done|lia|]. intros f s Hfs.
    rewrite Z.sub_add. apply IH; [done| |done].
    unfold see. case_decide; rewrite ?length_app; simpl; lia.
  - apply wp_ret. destruct (foldl_see_grows (draws (S n) w) ps) as [l ->].
    by rewrite take_app_length' by lia.
Qed.

(** Filling the board: the cards of the pairs, and again in the reverse order. *)
Lemma wp_fill_board first second ps cards w (Q : list card -> W -> Prop) :
  holds first second ps -> length ps = 8%nat -> length cards = 16%nat ->
  Q (map card_of ps ++ reverse (map card_of ps)) w ->
  wp (fill_board first second cards) Q w.
Proof.
  intros Hh Hps Hcards HQ. unfold fill_board.
  apply (wp_for_range_acc (fun j l w' => w' = w /\ length l = 16%nat /\
    forall k p, (k < Z.to_nat j)%nat -> ps !! k = Some p ->
      l !! k = Some (card_of p) /\ l !! (15 - k)%nat = Some (card_of p))).
  - split_and!; [done..|]. intros k p Hk. simpl in Hk. lia.
  - intros j l w' Hj (-> & Hl & Hlk).
    destruct (lookup_lt_is_Some_2 ps (Z.to_nat j)) as [p Hp]; [lia|].
    apply wp_bind. apply (holds_get _ _ _ _ _ Hh Hp ltac:(lia)).
    apply wp_bind. apply (holds_get _ _ _ _ _ Hh Hp ltac:(lia)).
    apply wp_bind, wp_arr_set; [lia|]. apply wp_arr_set; [rewrite length_insert; lia|].
    fold (card_of p). split_and!; [done|by rewrite !length_insert|]. intros k q Hk Hq.
    replace (Z.to_nat (15 - j)) with (15 - Z.to_nat j)%nat by lia.
    destruct (decide (k = Z.to_nat j)) as [->|Hne].
    + rewrite Hp in Hq. injection Hq as <-. split.
      * by rewrite list_lookup_insert_ne, list_lookup_insert_eq by lia.
      * by rewrite list_lookup_insert_eq by (rewrite length_insert; lia).
    + rewrite !list_lookup_insert_ne by lia. apply Hlk; [lia|done].
  - intros l w' (-> & Hl & Hlk).
    replace l with (map card_of ps ++ reverse (map card_of ps)); [done|]. symmetry.
    assert (length (map card_of ps) = 8%nat) as Hm by (by rewrite length_map).
    apply list_eq. intros k. destruct (decide (k < 16)%nat) as [Hk|Hk].
    2: { rewrite !lookup_ge_None_2; [done|rewrite length_app, length_reverse; lia|lia]. }
    destruct (decide (k < 8)%nat).
    + destruct (lookup_lt_is_Some_2 ps k) as [p Hp]; [lia|].
      rewrite lookup_app_l, list_lookup_fmap, Hp by lia. apply Hlk; [simpl; lia|done].
    + destruct (lookup_lt_is_Some_2 ps (15 - k)%nat) as [p Hp]; [lia|].
      rewrite lookup_app_r, reverse_lookup, list_lookup_fmap, Hm by lia.
      replace (8 - S (k - 8))%nat with (15 - k)%nat by lia. rewrite Hp.
      destruct (Hlk (15 - k)%nat p) as [_ Hr]; [simpl; lia|done|].
      by replace (15 - (15 - k))%nat with k in Hr by lia.
Qed.

(** The index of the shuffle stays on the board, and is never before [i]. *)
Lemma shuffle_index_range i r :
  0 <= i < 15 -> 0 <= r <= RAND_MAX -> i <= shuffle_index i r < 16.
Proof.
  unfold shuffle_index, RAND_MAX. intros Hi Hr. rewrite (u32_small (16 - i)), (u32_small r) by lia.
  set (m := 16 - i). assert (2 <= m <= 16) as Hm by lia.
  pose proof (Z.div_mod 2147483647 m ltac:(lia)) as Hdm.
  pose proof (Z.mod_pos_bound 2147483647 m ltac:(lia)).
  assert (0 <= 2147483647 / m <= 1073741823) as Hq by nia.
  rewrite (u32_small (_ + 1)) by lia. set (q := 2147483647 / m) in *.
  assert (0 <= r / (q + 1) < m) as Hb.
  { split; [apply Z.div_pos; lia|]. apply Z.div_lt_upper_bound; nia. }
  rewrite u32_small by lia. unfold m in *. lia.
Qed.

Lemma wp_shuffle `{!RandLaws W} cards w (Q : list card -> W -> Prop) :
  length cards = 16%nat ->
  (forall cards' w', cards' ≡ₚ cards -> Q cards' w') ->
  wp (shuffle cards) Q w.
Proof.
  intros Hlen HQ. unfold shuffle.
  apply (wp_for_range_acc (fun _ l _ => l ≡ₚ cards)); [done| |by intros; apply HQ].
  intros i l w1 Hi Hp. apply wp_bind, wp_call. cbv zeta.
  pose proof (rand_range w1) as Hr.
  pose proof (shuffle_index_range i _ Hi Hr) as Hj.
  set (j := shuffle_index i (rand w1).1) in *.
  assert (length l = 16%nat) as Hl by (by rewrite Hp).
  destruct (lookup_lt_is_Some_2 l (Z.to_nat j)) as [t Ht]; [lia|].
  destruct (lookup_lt_is_Some_2 l (Z.to_nat i)) as [ci Hci]; [lia|].
  apply wp_bind, (wp_arr_get _ _ t); [lia|done|].
  apply wp_bind, (wp_arr_get _ _ ci); [lia|done|].
  apply wp_bind, wp_arr_set; [lia|]. apply wp_arr_set; [rewrite length_insert; lia|].
  rewrite <- Hp. by apply Permutation_insert_swap.
Qed.

Lemma wp_initialize_game_cards `{!RandLaws W} n cards w (Q : list card -> W -> Prop) :
  length cards = 16%nat -> (8 <= length (distinct (draws (S n) w)))%nat ->
  (forall cards' w', cards' ≡ₚ map card_of (take 8 (distinct (draws (S n) w))) ++
      reverse (map card_of (take 8 (distinct (draws (S n) w)))) -> Q cards' w') ->
  wp (initialize_game_cards (S n) cards) Q w.
Proof.
  intros Hlen H8 HQ. unfold initialize_game_cards. cbv zeta. unfold distinct in *.
  simpl in H8, HQ. destruct (rand w) as [a w1] eqn:Ea. destruct (rand w1) as [b w2] eqn:Eb.
  apply wp_bind, wp_call. rewrite Ea. cbn [fst snd]. apply wp_bind, wp_arr_set; [simpl; lia|].
  apply wp_bind, wp_call. rewrite Eb. cbn [fst snd]. apply wp_bind, wp_arr_set; [simpl; lia|].
  simpl in H8, HQ. set (p := (Z.rem a 4, Z.rem b 13)) in *.
  change (see [] p) with [p] in *. apply wp_bind.
  eapply wp_mono; [apply (wp_deal_pairs n _ _ [p]); [|simpl; lia|done]|].
  - split_and!; [done..|]. intros k q Hk. by apply list_lookup_singleton_Some in Hk as [-> <-].
  - intros [f s] w3 Hh. apply wp_bind, (wp_fill_board _ _ _ _ _ _ Hh); [|done|].
    + rewrite length_take. lia.
    + apply wp_shuffle; [|by intros; apply HQ].
      rewrite length_app, length_reverse, length_map, length_take. lia.
Qed.
End DealLemmas.

(** ** Faces *)

Definition in_deck (p : Z * Z) : Prop := 0 <= p.1 < 4 /\ 0 <= p.2 < 13.

(** Injectivity on a range of integers, by computation. *)
Lemma inj_decide {A} `{EqDecision A} (f : Z -> A) (n : Z) :
  forallb (fun a => forallb (fun b => implb (bool_decide (f a = f b)) (a =? b)) (seqZ 0 n)) (seqZ 0 n) = true ->
  forall a b, 0 <= a < n -> 0 <= b < n -> f a = f b -> a = b.
Proof.
  intros Hall a b Ha Hb E. rewrite forallb_forall in Hall.
  specialize (Hall a ltac:(apply list_elem_of_In, elem_of_seqZ; lia)). rewrite forallb_forall in Hall.
  specialize (Hall b ltac:(apply list_elem_of_In, elem_of_seqZ; lia)).
  rewrite bool_decide_true in Hall by done. by apply Z.eqb_eq in Hall.
Qed.

Lemma getCardNumber_inj x x' : 0 <= x < 13 -> 0 <= x' < 13 -> getCardNumber x = getCardNumber x' -> x = x'.
Proof. apply inj_decide. reflexivity. Qed.

Lemma getCardSuit_inj y y' : 0 <= y < 4 -> 0 <= y' < 4 -> getCardSuit y = getCardSuit y' -> y = y'.
Proof. apply inj_decide. reflexivity. Qed.

Lemma same_face_card_of p q : in_deck p -> in_deck q -> same_face (card_of p) (card_of q) = bool_decide (p = q).
Proof.
  intros [Hp1 Hp2] [Hq1 Hq2]. destruct p as [a b], q as [a' b']. simpl in *. unfold same_face. simpl.
  case_bool_decide as Hn; simpl.
  - apply getCardNumber_inj in Hn as ->; [|done..].
    case_bool_decide as Hs; symmetry.
    + apply getCardSuit_inj in Hs as ->; [|done..]. by apply bool_decide_true.
    + apply bool_decide_false. congruence.
  - symmetry. apply bool_decide_false. congruence.
Qed.

Lemma one_card_of_each ps p :
  NoDup ps -> Forall in_deck ps -> p ∈ ps ->
  length (List.filter (same_face (card_of p)) (map card_of ps)) = 1%nat.
Proof.
  intros Hnd Hdeck Hp.
  assert (forall l, Forall in_deck l -> in_deck p -> p ∉ l ->
    List.filter (same_face (card_of p)) (map card_of l) = []) as Hnone.
  { intros l. induction l as [|q l IH]; intros Hl Hdp Hn; [done|].
    apply Forall_cons in Hl as [Hq Hl]. apply not_elem_of_cons in Hn as [Hne Hn].
    simpl. rewrite same_face_card_of, bool_decide_false by done. by apply IH. }
  assert (in_deck p) as Hdp by (by eapply Forall_forall in Hdeck).
  induction Hnd as [|q l Hq Hnd IH]; [by apply not_elem_of_nil in Hp|].
  apply Forall_cons in Hdeck as [Hdq Hdeck]. simpl. rewrite same_face_card_of by done.
  case_bool_decide as Heq; [subst q; simpl; by rewrite Hnone|].
  apply elem_of_cons in Hp as [?|Hp]; [done|]. by apply IH.
Qed.

Lemma filter_length_perm {A} (f : A -> bool) l l' :
  l ≡ₚ l' -> length (List.filter f l) = length (List.filter f l').
Proof. induction 1; simpl; repeat case_match; simpl; congruence. Qed.

Lemma board_ok_perm ps cards :
  NoDup ps -> Forall in_deck ps -> length ps = 8%nat ->
  cards ≡ₚ map card_of ps ++ reverse (map card_of ps) -> board_ok cards.
Proof.
  intros Hnd Hdeck Hlen Hp.
  assert (forall c, c ∈ cards -> exists p, p ∈ ps /\ c = card_of p) as Hin.
  { intros c. rewrite Hp, elem_of_app, elem_of_reverse. intros H.
    assert (c ∈ map card_of ps) as (p & -> & Hps)%list_elem_of_fmap by tauto. eauto. }
  split_and!.
  - rewrite Hp, length_app, length_reverse, length_map. lia.
  - intros c (p & Hpp & ->)%Hin. eapply Forall_forall in Hdeck as [? ?]; [|done]. done.
  - intros c (p & Hpp & ->)%Hin. rewrite (filter_length_perm _ _ _ Hp), List.filter_app, length_app.
    rewrite (filter_length_perm _ (reverse _) (map card_of ps)) by (by rewrite reverse_Permutation).
    by rewrite one_card_of_each.
Qed.

Section DrawsDeck.
Context {W : Type} `{!Libc W, !RandLaws W}.

Lemma draws_in_deck n (w : W) : Forall in_deck (draws n w).
Proof.
  revert w. induction n as [|n IH]; intros w; simpl; [done|].
  pose proof (rand_range w) as Ha. destruct (rand w) as [a w1].
  pose proof (rand_range w1) as Hb. destruct (rand w1) as [b w2]. simpl in *.
  apply Forall_cons. split; [|done]. split; simpl.
  - rewrite Z.rem_mod_nonneg by lia. apply Z.mod_pos_bound. lia.
  - rewrite Z.rem_mod_nonneg by lia. apply Z.mod_pos_bound. lia.
Qed.

(** A board of pairs is dealt. *)
Lemma wp_deal_board n cards (w : W) (Q : list card -> W -> Prop) :
  length cards = 16%nat -> (8 <= length (distinct (draws (S n) w)))%nat ->
  (forall cards' w', board_ok cards' ->
     cards' ≡ₚ map card_of (take 8 (distinct (draws (S n) w))) ++
               reverse (map card_of (take 8 (distinct (draws (S n) w)))) -> Q cards' w') ->
  wp (initialize_game_cards (S n) cards) Q w.
Proof.
  intros Hlen H8 HQ. apply (wp_initialize_game_cards n cards w); [done|done|]. intros cards' w' Hp. apply HQ; [|done].
  eapply board_ok_perm; [| | |done].
  - apply (sublist_NoDup _ (distinct (draws (S n) w))); [apply NoDup_foldl_see, NoDup_nil_2|apply sublist_take].
  - apply Forall_take, Forall_foldl_see; [done|apply draws_in_deck].
  - rewrite length_take. lia.
Qed.

(** ** Properties *)

(** (C3) The deal: as soon as the random numbers contain eight different cards,
    [initialize_game_cards] ends without touching anything outside its arrays,
    and the board it leaves has sixteen places, every card on it is face up and
    not matched, lies in the deck's image, and has exactly one partner; its
    cards are the first eight different ones that were drawn, twice each. *)
Theorem deal_makes_a_board (n : nat) (cards : list card) (w : W) :
  length cards = 16%nat -> (8 <= length (distinct (draws (S n) w)))%nat ->
  exists cards' w', initialize_game_cards (S n) cards w = Done cards' w' /\ board_ok cards' /\
    cards' ≡ₚ map card_of (take 8 (distinct (draws (S n) w))) ++
              reverse (map card_of (take 8 (distinct (draws (S n) w)))).
Proof. intros Hlen H8. by apply wp_inv, wp_deal_board. Qed.
End DrawsDeck.

(** Random numbers of which the fourth pair repeats the second. *)
Definition test_rands : list Z := [0; 0; 1; 1; 2; 2; 1; 1; 3; 3; 0; 4; 1; 5; 2; 6; 3; 7].
Definition test_board : list card := replicate 16 (new_card 0 0).

Lemma deal_makes_a_board_witness :
  exists cards' w', initialize_game_cards 9 test_board (with_rand test_rands script0) = Done cards' w' /\
    board_ok cards' /\
    cards' ≡ₚ map card_of [(0, 0); (1, 1); (2, 2); (3, 3); (0, 4); (1, 5); (2, 6); (3, 7)] ++
              map card_of [(3, 7); (2, 6); (1, 5); (0, 4); (3, 3); (2, 2); (1, 1); (0, 0)].
Proof.
  assert (8 <= length (distinct (draws 9 (with_rand test_rands script0))))%nat as H8 by (vm_compute; lia).
  exact (deal_makes_a_board 8 test_board (with_rand test_rands script0) eq_refl H8).
Defined.

(** Two cards of the deck match in the game exactly when they show the same
    picture: the number and the suit lose nothing of the place in the deck. *)
Theorem match_iff_same_picture (x y x' y' : Z) :
  0 <= x < 13 -> 0 <= y < 4 -> 0 <= x' < 13 -> 0 <= y' < 4 ->
  same_face (new_card x y) (new_card x' y') = true <-> x = x' /\ y = y'.
Proof.
  intros Hx Hy Hx' Hy'. change (new_card x y) with (card_of (y, x)).
  change (new_card x' y') with (card_of (y', x')).
  rewrite same_face_card_of by done. rewrite bool_decide_eq_true.
  split; [by intros [= -> ->]|by intros [-> ->]].
Qed.

Lemma match_iff_same_picture_witness :
  same_face (new_card 12 3) (new_card 12 2) = true <-> 12 = 12 /\ 3 = 2.
Proof. apply match_iff_same_picture; lia. Defined.

(** The shuffle picks, at place [i], exactly the places [i] to 15: every
    random number gives one of them, so no access leaves the board, and each of
    them is given by some random number. *)
Theorem shuffle_index_exact (i j : Z) :
  0 <= i < 15 -> (i <= j < 16 <-> exists r, 0 <= r <= RAND_MAX /\ shuffle_index i r = j).
Proof.
  intros Hi. split; [|intros (r & Hr & <-); by apply shuffle_index_range].
  intros Hj. set (q := RAND_MAX / (16 - i)).
  assert (q * (16 - i) <= RAND_MAX) as Hq by (unfold q; rewrite Z.mul_comm; apply Z.mul_div_le; lia).
  assert (16 <= q <= 1073741824) as Hq'.
  { unfold q. split; [apply Z.div_le_lower_bound|apply Z.div_le_upper_bound]; unfold RAND_MAX; lia. }
  assert ((j - i) * (q + 1) <= (15 - i) * (q + 1)) by (apply Z.mul_le_mono_nonneg_r; lia).
  assert (0 <= (j - i) * (q + 1)) by (apply Z.mul_nonneg_nonneg; lia).
  assert ((j - i) * (q + 1) <= RAND_MAX) as Hr by lia.
  exists ((j - i) * (q + 1)). split; [lia|]. unfold RAND_MAX in Hr.
  unfold shuffle_index. rewrite (u32_small (16 - i)) by lia. fold q.
  rewrite (u32_small (q + 1)) by lia. rewrite (u32_small ((j - i) * (q + 1))) by lia.
  rewrite Z.div_mul by lia. rewrite u32_small by lia. lia.
Qed.

Lemma shuffle_index_exact_witness :
  3 <= 15 < 16 <-> exists r, 0 <= r <= RAND_MAX /\ shuffle_index 3 r = 15.
Proof. apply (shuffle_index_exact 3 15). lia. Defined.
