(* ===== verification/Game.v ===== *)
(** proj/src/game.c: the game's own state, the cursor, and the drawing functions.
    Everything runs over [game_st * (video_st * W)]: the globals of game.c, those
    of video.c, and the environment. *)
From S2P Require Import Prelude Env Video Cards.

(** proj/src/structs.h:36-38 [Mouse] *)
Record Mouse : Type := MkMouse { mouse_x : Z; mouse_y : Z }.

(** proj/src/game.c:13-45 [imgGameName, imgMouse, imgHeart, imgVictory, imgGameOver, imgInstructions, imgMoon, imgSun, imgBackground]:
    the images of game.c; those of the deck and of the card back are in
    [video_st], where video.c defines them. *)
Record sprites : Type := Sprites {
  imgGameName : xpm_image_t;
  imgMouse : xpm_image_t;
  imgHeart : xpm_image_t;
  imgVictory : xpm_image_t;
  imgGameOver : xpm_image_t;
  imgInstructions : xpm_image_t;
  imgMoon : xpm_image_t;
  imgSun : xpm_image_t;
  imgBackground : xpm_image_t
}.

(** proj/src/game.c:12-52 [cardArray, p1, increaseWidth, otherSide, mouse]: [spriteFront] is
    never used. *)
Record game_st : Type := GameSt {
  cardArray : list card;
  p1 : Player;
  increaseWidth : Z;
  otherSide : list Z;
  mouse : Mouse;
  imgs : sprites
}.

Definition card0 : card := Card 0 0 false false false Ace Spades.
Definition no_sprites : sprites :=
  Sprites no_image no_image no_image no_image no_image no_image no_image no_image no_image.
(** proj/src/game.c:12-52 [initial values]: the other globals start as zeros. *)
Definition game_init_st : game_st :=
  GameSt (replicate 16 card0) (MkPlayer "" 0 false 0) 1 (replicate 16 0) (MkMouse 0 0) no_sprites.

Definition set_cardArray (l : list card) (g : game_st) : game_st :=
  GameSt l (p1 g) (increaseWidth g) (otherSide g) (mouse g) (imgs g).
Definition set_p1 (p : Player) (g : game_st) : game_st :=
  GameSt (cardArray g) p (increaseWidth g) (otherSide g) (mouse g) (imgs g).
Definition set_increaseWidth (n : Z) (g : game_st) : game_st :=
  GameSt (cardArray g) (p1 g) n (otherSide g) (mouse g) (imgs g).
Definition set_otherSide (l : list Z) (g : game_st) : game_st :=
  GameSt (cardArray g) (p1 g) (increaseWidth g) l (mouse g) (imgs g).
Definition set_mouse (m : Mouse) (g : game_st) : game_st :=
  GameSt (cardArray g) (p1 g) (increaseWidth g) (otherSide g) m (imgs g).
Definition set_imgs (i : sprites) (g : game_st) : game_st :=
  GameSt (cardArray g) (p1 g) (increaseWidth g) (otherSide g) (mouse g) i.

(** ** The pixmaps *)

(** proj/src/pixmap.h:841-850 [a] ... [z]: the letters the words of the game use *)
Definition letter (c : string) : xpm_map_t := XpmMap c 20 30 2 1.
(** proj/src/pixmap.h:997-1000 [e] *)
Definition letter_e : xpm_map_t := XpmMap "e" 19 30 2 1.
(** proj/src/pixmap.h:1858-1861 [gameName] *)
Definition gameName : xpm_map_t := XpmMap "gameName" 264 200 3 1.
(** proj/src/pixmap.h:378-381 [deck] *)
Definition deck : xpm_map_t := XpmMap "deck" 950 392 63 1.
(** proj/src/pixmap.h:8-11 [cardback] *)
Definition cardback : xpm_map_t := XpmMap "cardback" 75 109 255 2.
(** proj/src/pixmap.h:2068-2071 [mouse_cursor] *)
Definition mouse_cursor : xpm_map_t := XpmMap "mouse_cursor" 50 42 45 1.
(** proj/src/pixmap.h:2162-2165 [heart] *)
Definition heart : xpm_map_t := XpmMap "heart" 30 22 2 1.
(** proj/src/pixmap.h:2193-2196 [victory] *)
Definition victory : xpm_map_t := XpmMap "victory" 700 500 2 1.
(** proj/src/pixmap.h:2704-2707 [game_over] *)
Definition game_over : xpm_map_t := XpmMap "game_over" 422 182 3 1.
(** proj/src/pixmap.h:2896-2899 [instructions] *)
Definition instructions : xpm_map_t := XpmMap "instructions" 799 599 76 1.
(** proj/src/pixmap.h:3580-3583 [moon] *)
Definition moon : xpm_map_t := XpmMap "moon" 200 200 2 1.
(** proj/src/pixmap.h:3790-3793 [sun] *)
Definition sun : xpm_map_t := XpmMap "sun" 200 200 46 1.
(** proj/src/pixmap.h:4043-4046 [background] *)
Definition background : xpm_map_t := XpmMap "background" 799 599 236 2.

(** proj/src/game.c:180-180 [wordPlay] *)
Definition wordPlay : list xpm_map_t := map letter ["p"; "l"; "a"; "y"]%string.
(** proj/src/game.c:188-188 [wordInstructions] *)
Definition wordInstructions : list xpm_map_t :=
  map letter ["i"; "n"; "s"; "t"; "r"; "u"; "c"; "t"; "i"; "o"; "n"; "s"]%string.
(** proj/src/game.c:196-196 [wordExit] *)
Definition wordExit : list xpm_map_t := letter_e :: map letter ["x"; "i"; "t"]%string.
(** proj/src/game.c:220-220 [wordResume] *)
Definition wordResume : list xpm_map_t :=
  [letter "r"; letter_e; letter "s"; letter "u"; letter "m"; letter_e].

(** ** The cursor *)

(** proj/src/game.c:109-112 [create_mouse] *)
Definition create_mouse : Mouse := MkMouse 0 0.

(** proj/src/game.c:143-151 [update_mouse_position, the horizontal part] *)
Definition move_x {S} (xres mx x : Z) : M S Z :=
  let* s := int_ (mx + x) in
  if s <? 0 then ret 0
  else if s >=? xres then ret (xres - 15)
  else int_ (mx + Z.quot x 2).

(** proj/src/game.c:153-161 [update_mouse_position, the vertical part] *)
Definition move_y {S} (yres my y : Z) : M S Z :=
  let* d := int_ (my - y) in
  if d <? 0 then ret 0
  else
    let* s := int_ (my + y) in
    if s >=? yres then ret (yres - 15)
    else int_ (my - Z.quot y 2).

Section Game.
Context {W : Type} `{Display W}.

Definition on_video {A} (m : M video_st A) : M (game_st * (video_st * W)) A :=
  zoom (comp_lens snd_lens fst_lens) m.
Definition on_world {A} (m : M W A) : M (game_st * (video_st * W)) A :=
  zoom (comp_lens snd_lens snd_lens) m.
Definition game_gets {A} (f : game_st -> A) : M (game_st * (video_st * W)) A := gets (fun s => f s.1).
Definition game_modify (f : game_st -> game_st) : M (game_st * (video_st * W)) unit :=
  modify (fun s => (f s.1, s.2)).
Definition get_mode : M (game_st * (video_st * W)) vbe_mode_info_t := gets (fun s => modeinfo s.2.1).

(** proj/src/game.c:141-162 [update_mouse_position] *)
Definition update_mouse_position (x y : Z) : M (game_st * (video_st * W)) unit :=
  let* m := get_mode in
  let* mx := game_gets (fun g => mouse_x (mouse g)) in
  let* mx' := move_x (XResolution m) mx x in
  game_modify (fun g => set_mouse (MkMouse mx' (mouse_y (mouse g))) g) ;;
  let* my := game_gets (fun g => mouse_y (mouse g)) in
  let* my' := move_y (YResolution m) my y in
  game_modify (fun g => set_mouse (MkMouse (mouse_x (mouse g)) my') g).

(** proj/src/game.c:101-107 [getCardsScreenXY]: the values it stores in [*x] and [*y]. *)
Definition getCardsScreenXY (m : vbe_mode_info_t) (x y : Z) : Z * Z :=
  let startX := XResolution m / 2 - 2 * (CARD_WIDTH + 30) in
  let startY := YResolution m / 2 - 2 * (CARD_HEIGHT + 20) in
  (startX + (CARD_WIDTH + 30) * x, startY + (CARD_HEIGHT + 20) * y).

(** ** Drawing *)

(** proj/src/game.c:119-126 [the loop over a whole image, from the start of its sprite] *)
Definition draw_image (img : xpm_image_t) (screenX screenY : Z) : M (game_st * (video_st * W)) unit :=
  let* m := get_mode in
  on_video (blit img 0 screenX screenY (width img) (height img) (sprite_step m) 0).

(** proj/src/game.c:114-127 [draw_letter] *)
Definition draw_letter (screenX screenY : Z) (letter : xpm_map_t) : M (game_st * (video_st * W)) unit :=
  let* img := on_world (call (xpm_load letter XPM_8_8_8)) in
  draw_image img screenX screenY.

(** proj/src/game.c:183-186 [the loop over the letters of a word] *)
Fixpoint draw_word (startX startY : Z) (word : list xpm_map_t) : M (game_st * (video_st * W)) unit :=
  match word with
  | [] => skip
  | l :: word => draw_letter startX startY l ;; draw_word (startX + (LETTER_WIDTH + 5)) startY word
  end.

(** proj/src/game.c:129-139 [draw_mouse] *)
Definition draw_mouse : M (game_st * (video_st * W)) unit :=
  let* g := game_gets id in
  draw_image (imgMouse (imgs g)) (mouse_x (mouse g)) (mouse_y (mouse g)).

(** proj/src/game.c:164-203 [draw_menu] *)
Definition draw_menu : M (game_st * (video_st * W)) unit :=
  let* g := game_gets id in
  let* m := get_mode in
  draw_image (imgGameName (imgs g)) 268 50 ;;
  draw_word (XResolution m / 2 - 2 * (LETTER_WIDTH + 5)) 300 wordPlay ;;
  draw_word (XResolution m / 2 - 6 * (LETTER_WIDTH + 5)) 400 wordInstructions ;;
  draw_word (XResolution m / 2 - 2 * (LETTER_WIDTH + 5)) 500 wordExit.

(** proj/src/game.c:205-243 [draw_pause] *)
Definition draw_pause : M (game_st * (video_st * W)) unit :=
  let* g := game_gets id in
  let* m := get_mode in
  draw_image (imgGameName (imgs g)) 268 50 ;;
  draw_word (XResolution m / 2 - 3 * (LETTER_WIDTH + 5)) 300 wordResume ;;
  draw_word (XResolution m / 2 - 6 * (LETTER_WIDTH + 5)) 400 wordInstructions ;;
  draw_word (XResolution m / 2 - 2 * (LETTER_WIDTH + 5)) 500 wordExit.

(** proj/src/game.c:280-281 [the middle of the screen]: where an image is centred. *)
Definition draw_centred (img : xpm_image_t) : M (game_st * (video_st * W)) unit :=
  let* m := get_mode in
  draw_image img (XResolution m / 2 - width img / 2) (YResolution m / 2 - height img / 2).

(** proj/src/game.c:278-290 [draw_victory] *)
Definition draw_victory : M (game_st * (video_st * W)) unit :=
  let* g := game_gets id in draw_centred (imgVictory (imgs g)).

(** proj/src/game.c:292-304 [draw_game_over] *)
Definition draw_game_over : M (game_st * (video_st * W)) unit :=
  let* g := game_gets id in draw_centred (imgGameOver (imgs g)).

(** proj/src/game.c:543-561 [drawHearts]: the count is an [unsigned int]. *)
Definition drawHearts : M (game_st * (video_st * W)) unit :=
  let* g := game_gets id in
  let img := imgHeart (imgs g) in
  let* _ := for_range_acc 0 (lives (p1 g)) 10 (fun _ screenX =>
    draw_image img screenX 15 ;;
    int_ (screenX + (width img + 5))) in
  ret tt.

(** proj/src/game.c:563-575 [drawMoon] *)
Definition drawMoon : M (game_st * (video_st * W)) unit :=
  let* g := game_gets id in draw_image (imgMoon (imgs g)) 600 10.

(** proj/src/game.c:577-589 [drawSun] *)
Definition drawSun : M (game_st * (video_st * W)) unit :=
  let* g := game_gets id in draw_image (imgSun (imgs g)) 0 10.

(** proj/src/game.c:591-603 [drawBackground] *)
Definition drawBackground : M (game_st * (video_st * W)) unit :=
  let* g := game_gets id in draw_image (imgBackground (imgs g)) 0 0.

(** proj/src/game.c:605-619 [drawInstructions] *)
Definition drawInstructions : M (game_st * (video_st * W)) unit :=
  let* g := game_gets id in draw_image (imgInstructions (imgs g)) 0 0.
End Game.

(** ** Specification *)

(** The images of game.c as they are after [xpm_load]. *)
Definition sprites_ok (i : sprites) : Prop :=
  img_ok (imgGameName i) 264 200 /\ img_ok (imgMouse i) 50 42 /\ img_ok (imgHeart i) 30 22 /\
  img_ok (imgVictory i) 700 500 /\ img_ok (imgGameOver i) 422 182 /\
  img_ok (imgInstructions i) 799 599 /\ img_ok (imgMoon i) 200 200 /\ img_ok (imgSun i) 200 200 /\
  img_ok (imgBackground i) 799 599.

(** The display of the game: mode 0x115 (800 times 600, 24 bits), a frame buffer
    and a video memory of its size, and the two images of the cards. *)
Record frame_ok (v : video_st) : Prop := FrameOk {
  frame_wf : vid_wf v;
  frame_x : XResolution (modeinfo v) = 800;
  frame_y : YResolution (modeinfo v) = 600;
  frame_bpp : BitsPerPixel (modeinfo v) = 24;
  frame_mem : exists b, video_mem v = Some b /\ blk_size b = screen_size (modeinfo v);
  frame_deck : img_ok (imgDeck v) 950 392;
  frame_back : img_ok (imgCardBack v) 75 109
}.

(** The places of the deck's image a board may show. *)
Definition cards_drawable (cards : list card) : Prop :=
  length cards = 16%nat /\ Forall (fun c => 0 <= card_x c < 13 /\ 0 <= card_y c < 4) cards.

(** The places of the cursor where none of its 50 times 42 pixels is fatal. *)
Definition cursor_fits (m : Mouse) : bool :=
  negb ((559 <=? mouse_y m) && (mouse_y m <=? 600) || (mouse_y m =? 558) && (751 <=? mouse_x m)).

(** [m] returns without touching anything but the pixels of the frame buffer. *)
Definition only_draws {W A} (m : M (game_st * (video_st * W)) A) (g : game_st) (v : video_st) (w : W) : Prop :=
  wp m (fun _ s => s.1 = g /\ same_but_pixels v s.2.1) (g, (v, w)).

(** * Lemmas *)

Lemma frame_mode_24 v : frame_ok v -> mode_24 (modeinfo v) /\ sprite_step (modeinfo v) = 3.
Proof.
  intros [Hv _ _ Hb _ _ _]. assert (mode_24 (modeinfo v)) as H by (split; [by destruct Hv|done]).
  split; [done|]. by apply mode_24_bytes.
Qed.

Lemma frame_same v v' : same_but_pixels v v' -> frame_ok v -> frame_ok v'.
Proof.
  intros Hs [Hv Hx Hy Hb Hm Hd Hk]. pose proof (same_but_pixels_wf _ _ Hs Hv).
  destruct Hs as (b & b' & _ & -> & _). by split.
Qed.

Section GameLemmas.
Context {W : Type} `{Display W}.
Implicit Types (g : game_st) (v : video_st) (w : W).

Lemma wp_on_video {A} (m : M video_st A) Q g v w :
  wp (on_video m) Q (g, (v, w)) <-> wp m (fun a v' => Q a (g, (v', w))) v.
Proof. apply wp_zoom. Qed.

Lemma wp_on_world {A} (m : M W A) Q g v w :
  wp (on_world m) Q (g, (v, w)) <-> wp m (fun a w' => Q a (g, (v, w'))) w.
Proof. apply wp_zoom. Qed.

Lemma only_draws_bind {A B} (m : M (game_st * (video_st * W)) A) (k : A -> M (game_st * (video_st * W)) B) g v w :
  only_draws m g v w ->
  (forall a v' w', same_but_pixels v v' -> only_draws (k a) g v' w') ->
  only_draws (bind m k) g v w.
Proof.
  intros Hm Hk. apply wp_bind. eapply wp_mono; [exact Hm|]. intros a [g' [v' w']] [Hg Hs].
  simpl in Hg, Hs. subst g'. eapply wp_mono; [by apply Hk|]. intros b s [Hg Hs']. split; [done|].
  by eapply same_but_pixels_trans.
Qed.

Lemma only_draws_ret {A} (a : A) g v w : vid_wf v -> only_draws (ret a) g v w.
Proof. intros Hv. split; [done|]. by apply same_but_pixels_refl. Qed.

(** An image inside the screen. *)
Lemma draw_image_only img sw sh sx sy g v w :
  frame_ok v -> img_ok img sw sh -> 0 <= sw -> 0 <= sh -> 0 <= sx -> sx + sw <= 800 -> 0 <= sy -> sy + sh <= 600 ->
  only_draws (draw_image img sx sy) g v w.
Proof.
  intros Hf Hi ??????. destruct (frame_mode_24 _ Hf) as [H24 _].
  unfold only_draws, draw_image, get_mode. apply wp_bind, wp_gets, wp_on_video. cbn [fst snd].
  apply (wp_blit_image img sw sh); try done; [apply Hf|rewrite frame_x by done; lia|rewrite frame_y by done; lia|].
  by intros v' [Hs _].
Qed.

Lemma draw_letter_only `{!XpmLaws W, !XpmLoads W} sx sy l g v w :
  frame_ok v -> 0 <= columns l <= 20 -> rows l = 30 -> 0 <= sx -> sx + 20 <= 800 -> 0 <= sy -> sy + 30 <= 600 ->
  only_draws (draw_letter sx sy l) g v w.
Proof.
  intros Hf Hc Hr ????. unfold only_draws, draw_letter. apply wp_bind, wp_on_world, wp_call.
  apply (draw_image_only _ (columns l) (rows l)); try done; try lia.
  split_and!; [apply xpm_loads|apply xpm_width|apply xpm_height|by rewrite xpm_size].
Qed.

Lemma draw_word_only `{!XpmLaws W, !XpmLoads W} sx sy word g v w :
  frame_ok v -> Forall (fun l => 0 <= columns l <= 20 /\ rows l = 30) word ->
  0 <= sx -> sx + 25 * Z.of_nat (length word) <= 800 -> 0 <= sy -> sy + 30 <= 600 ->
  only_draws (draw_word sx sy word) g v w.
Proof.
  revert sx v w. induction word as [|l word IH]; intros sx v w Hf Hw ????; cbn [draw_word length] in *.
  - apply only_draws_ret. by destruct Hf.
  - apply Forall_cons in Hw as [[? ?] Hw]. apply only_draws_bind.
    + apply draw_letter_only; lia || done.
    + intros _ v' w' Hs. unfold LETTER_WIDTH. apply IH; try lia || done. by eapply frame_same.
Qed.

(** ** The cursor *)

(** On the screen of the game a pixel is fatal only in row 600, or behind the last
    pixel of row 599. *)
Lemma frame_pixel_safe v x y :
  frame_ok v -> 0 <= x < 65536 -> 0 <= y < 65536 ->
  pixel_safe (modeinfo v) x y <-> ~ (y = 600 /\ x <= 800 \/ y = 599 /\ x = 800).
Proof.
  intros Hf Hx Hy. unfold pixel_safe, rejected.
  rewrite (frame_x _ Hf), (frame_y _ Hf), !u16_small by lia. lia.
Qed.

Lemma cursor_sprite img sx sy x y :
  img_ok img 50 42 -> sx <= x < sx + 50 -> sy <= y < sy + 42 ->
  sprite_ok img (blit_off 0 sx sy 50 3 0 x y).
Proof. intros (Hb & _ & _ & Hs) Hx Hy. split; [done|]. unfold blit_off. lia. Qed.

Lemma draw_mouse_eq g v w :
  frame_ok v -> sprites_ok (imgs g) ->
  draw_mouse (g, (v, w)) =
  on_video (blit (imgMouse (imgs g)) 0 (mouse_x (mouse g)) (mouse_y (mouse g)) 50 42 3 0) (g, (v, w)).
Proof.
  intros Hf (_ & (_ & Ew & Eh & _) & _). destruct (frame_mode_24 _ Hf) as [_ Es].
  unfold draw_mouse, draw_image, get_mode, game_gets.
  rewrite !(bind_Done _ _ _ _ _ (gets_eq _ _)). cbn [fst snd id]. by rewrite Ew, Eh, Es.
Qed.

Lemma draw_mouse_only g v w :
  frame_ok v -> sprites_ok (imgs g) -> 0 <= mouse_x (mouse g) < 800 -> 0 <= mouse_y (mouse g) < 65000 ->
  cursor_fits (mouse g) = true -> only_draws draw_mouse g v w.
Proof.
  intros Hf Hi Hx Hy Hfit. unfold cursor_fits in Hfit. unfold only_draws, wp.
  rewrite draw_mouse_eq by done. fold (@wp (game_st * (video_st * W)) unit). apply wp_on_video.
  destruct Hi as (_ & Hi & _). apply wp_blit_safe; [apply Hf| |done].
  intros x y Hxx Hyy. split; [|by apply cursor_sprite].
  rewrite frame_pixel_safe by (lia || done). lia.
Qed.

Lemma draw_mouse_fits g v w s' :
  frame_ok v -> sprites_ok (imgs g) -> 0 <= mouse_x (mouse g) < 800 -> 0 <= mouse_y (mouse g) < 65000 ->
  draw_mouse (g, (v, w)) = Done tt s' -> cursor_fits (mouse g) = true.
Proof.
  intros Hf Hi Hx Hy E. rewrite draw_mouse_eq in E by done.
  assert (wlp (on_video (blit (imgMouse (imgs g)) 0 (mouse_x (mouse g)) (mouse_y (mouse g)) 50 42 3 0))
    (fun _ _ => cursor_fits (mouse g) = true) (g, (v, w))) as Hw.
  { apply wlp_zoom. destruct Hi as (_ & Hi & _).
    eapply wlp_mono; [apply wlp_blit_safe; [apply Hf|by intros; apply cursor_sprite]|].
    intros [] v' Hsafe. simpl in Hsafe. set (mx := mouse_x (mouse g)) in *. set (my := mouse_y (mouse g)) in *.
    unfold cursor_fits. fold mx my.
    assert (forall x y, mx <= x < mx + 50 -> my <= y < my + 42 -> ~ (y = 600 /\ x <= 800 \/ y = 599 /\ x = 800)) as Hs.
    { intros x y Hxx Hyy. rewrite <- (frame_pixel_safe v) by (lia || done). by apply Hsafe. }
    pose proof (Hs mx 600). pose proof (Hs 800 599). lia. }
  unfold wlp in Hw. by rewrite E in Hw.
Qed.

Lemma bounded_zoom {S C A} (l : lens S C) (m : M C A) : bounded m -> bounded (zoom l m).
Proof. intros Hm s. unfold zoom. specialize (Hm (lget l s)). by destruct (m (lget l s)). Qed.

Lemma bounded_draw_mouse : bounded (draw_mouse (W := W)).
Proof.
  unfold draw_mouse, draw_image, get_mode, game_gets, on_video.
  auto 20 using bounded_zoom, bounded_blit with c_bounded.
Qed.

(** ** The screens *)
Lemma only_draws_read {A B} (f : game_st * (video_st * W) -> A) (k : A -> M (game_st * (video_st * W)) B) g v w :
  only_draws (k (f (g, (v, w)))) g v w -> only_draws (bind (gets f) k) g v w.
Proof. done. Qed.

Lemma draw_centred_only img sw sh g v w :
  frame_ok v -> img_ok img sw sh -> 0 <= sw <= 800 -> 0 <= sh <= 600 -> only_draws (draw_centred img) g v w.
Proof.
  intros Hf Hi Hw Hh. apply only_draws_read. cbn [fst snd].
  rewrite (frame_x _ Hf), (frame_y _ Hf). pose proof Hi as (_ & -> & -> & _).
  apply (draw_image_only img sw sh); try done; try lia; Z.div_mod_to_equations; lia.
Qed.

Lemma words_drawable :
  Forall (Forall (fun l => 0 <= columns l <= 20 /\ rows l = 30)) [wordPlay; wordInstructions; wordExit; wordResume].
Proof. by repeat (apply Forall_cons; split). Qed.

(** A title and three words, as in both menus. *)
Lemma menu_only `{!XpmLaws W, !XpmLoads W} img (n1 n2 n3 : Z) (m1 m2 m3 : list xpm_map_t) g v w :
  frame_ok v -> img_ok img 264 200 ->
  Forall (Forall (fun l => 0 <= columns l <= 20 /\ rows l = 30)) [m1; m2; m3] ->
  Z.of_nat (length m1) = 2 * n1 -> Z.of_nat (length m2) = 2 * n2 -> Z.of_nat (length m3) = 2 * n3 ->
  0 <= n1 <= 16 -> 0 <= n2 <= 16 -> 0 <= n3 <= 16 ->
  only_draws (draw_image img 268 50 ;;
    draw_word (XResolution (modeinfo v) / 2 - n1 * (LETTER_WIDTH + 5)) 300 m1 ;;
    draw_word (XResolution (modeinfo v) / 2 - n2 * (LETTER_WIDTH + 5)) 400 m2 ;;
    draw_word (XResolution (modeinfo v) / 2 - n3 * (LETTER_WIDTH + 5)) 500 m3) g v w.
Proof.
  intros Hf Hi Hws ??????. rewrite (frame_x _ Hf). unfold LETTER_WIDTH. change (800 / 2) with 400.
  apply Forall_cons in Hws as [? Hws]. apply Forall_cons in Hws as [? Hws]. apply Forall_cons in Hws as [? _].
  apply only_draws_bind; [apply (draw_image_only _ 264 200); done || lia|]. intros _ v1 x1 Hs1.
  pose proof (frame_same _ _ Hs1 Hf) as Hf1.
  apply only_draws_bind; [apply draw_word_only; done || lia|]. intros _ v2 x2 Hs2.
  pose proof (frame_same _ _ Hs2 Hf1) as Hf2.
  apply only_draws_bind; [apply draw_word_only; done || lia|]. intros _ v3 x3 Hs3.
  pose proof (frame_same _ _ Hs3 Hf2) as Hf3. apply draw_word_only; done || lia.
Qed.

Lemma drawHearts_only g v w :
  frame_ok v -> sprites_ok (imgs g) -> 0 <= lives (p1 g) <= 22 -> only_draws drawHearts g v w.
Proof.
  intros Hf (_ & _ & Hi & _) Hl. apply only_draws_read. cbn [fst id]. apply wp_bind.
  apply (wp_for_range_acc (fun i sx s => sx = 10 + 35 * i /\ s.1 = g /\ same_but_pixels v s.2.1)).
  - split_and!; [lia|done|]. apply same_but_pixels_refl, Hf.
  - intros i sx [g' [v' w']] Hir (-> & Hg & Hs). simpl in Hg, Hs. subst g'.
    apply wp_bind. eapply wp_mono.
    { apply (draw_image_only _ 30 22); [by eapply frame_same|done|lia..]. }
    intros _ [g' [v'' w'']] [Hg Hs']. simpl in Hg, Hs'. subst g'.
    pose proof Hi as (_ & -> & _). apply wp_int; [apply is_int_spec; unfold INT_MIN, INT_MAX; lia|].
    split_and!; [lia|done|]. by eapply same_but_pixels_trans.
  - intros sx s (_ & Hg & Hs). by apply wp_ret.
Qed.

(** ** Moving the cursor *)
Lemma is_int_small z : -1000000 <= z <= 1000000 -> is_int z = true.
Proof. intros Hz. apply is_int_spec. unfold INT_MIN, INT_MAX. lia. Qed.

Lemma quot2_bounds x : -256 <= x <= 255 ->
  (0 <= x -> 0 <= Z.quot x 2 <= x) /\ (x <= 0 -> x <= Z.quot x 2 <= 0) /\ -128 <= Z.quot x 2 <= 127.
Proof. intros Hx. Z.quot_rem_to_equations. lia. Qed.

Lemma wp_move_x mx x (s : game_st * (video_st * W)) (Q : Z -> game_st * (video_st * W) -> Prop) :
  0 <= mx < 800 -> -256 <= x <= 255 ->
  (forall mx', 0 <= mx' < 800 -> Q mx' s) -> wp (move_x 800 mx x) Q s.
Proof.
  intros Hm Hx HQ. pose proof (quot2_bounds x Hx). unfold move_x.
  apply wp_bind, wp_int; [apply is_int_small; lia|]. wp_step; [apply HQ; lia|].
  wp_step; [apply HQ; lia|]. apply wp_int; [apply is_int_small; lia|]. apply HQ. lia.
Qed.

Lemma wp_move_y my y (s : game_st * (video_st * W)) (Q : Z -> game_st * (video_st * W) -> Prop) :
  0 <= my <= 983 -> -256 <= y <= 255 ->
  (forall my', 0 <= my' <= 983 -> (my' = 585 \/ my' = 0 \/ my' = my - Z.quot y 2) ->
     (my - y >= 0 -> my + y >= 600 -> my' = 585) ->
     (my - y >= 0 -> my + y < 600 -> my' = my - Z.quot y 2) -> Q my' s) ->
  wp (move_y 600 my y) Q s.
Proof.
  intros Hm Hy HQ. pose proof (quot2_bounds y Hy). unfold move_y.
  apply wp_bind, wp_int; [apply is_int_small; lia|]. wp_step; [apply HQ; lia|].
  apply wp_bind, wp_int; [apply is_int_small; lia|].
  wp_step; [apply HQ; lia|]. apply wp_int; [apply is_int_small; lia|]. apply HQ; lia.
Qed.

(** The cursor's places that can be reached with displacements of a mouse packet. *)
Definition mouse_wf (m : Mouse) : Prop := 0 <= mouse_x m < 800 /\ 0 <= mouse_y m <= 983.

Lemma wp_update_mouse_position x y g v w (Q : unit -> game_st * (video_st * W) -> Prop) :
  frame_ok v -> mouse_wf (mouse g) -> -256 <= x <= 255 -> -256 <= y <= 255 ->
  (forall m, mouse_wf m ->
     (mouse_y (mouse g) - y >= 0 -> mouse_y (mouse g) + y >= 600 -> mouse_y m = 585) ->
     (mouse_y (mouse g) - y >= 0 -> mouse_y (mouse g) + y < 600 ->
        mouse_y m = mouse_y (mouse g) - Z.quot y 2) ->
     Q tt (set_mouse m g, (v, w))) ->
  wp (update_mouse_position x y) Q (g, (v, w)).
Proof.
  intros Hf [Hmx Hmy] Hx Hy HQ. unfold update_mouse_position.
  apply wp_bind, wp_gets. cbn [fst snd]. rewrite (frame_x _ Hf), (frame_y _ Hf).
  apply wp_bind, wp_gets, wp_bind. cbn [fst snd]. apply wp_move_x; [done|done|]. intros mx' Hmx'.
  apply wp_bind, wp_modify, wp_bind, wp_gets, wp_bind. cbn [fst snd set_mouse mouse mouse_y].
  apply wp_move_y; [done|done|]. intros my' Hmy' _ Hsnap Hmove. apply wp_modify.
  by apply (HQ (MkMouse mx' my')).
Qed.
End GameLemmas.

(** ** Properties *)
Section GameTheorems.
Context {W : Type} `{Display W}.

(** (C29) The cursor never leaves the columns of the screen, whatever the mouse
    sends, and its row stays between 0 and 983; the test for the lower edge adds
    the displacement it should subtract, so that a cursor moving down is not
    stopped at the edge (from row 599 one packet can bring it to row 727), and one
    moving up near the edge is sent to row 585. *)
Theorem mouse_position_bounds (x y : Z) (g : game_st) (v : video_st) (w : W) :
  frame_ok v -> mouse_wf (mouse g) -> -256 <= x <= 255 -> -256 <= y <= 255 ->
  exists m, update_mouse_position x y (g, (v, w)) = Done tt (set_mouse m g, (v, w)) /\ mouse_wf m /\
    (mouse_y (mouse g) - y >= 0 -> mouse_y (mouse g) + y >= 600 -> mouse_y m = 585) /\
    (mouse_y (mouse g) - y >= 0 -> mouse_y (mouse g) + y < 600 ->
       mouse_y m = mouse_y (mouse g) - Z.quot y 2).
Proof.
  intros Hf Hm Hx Hy.
  assert (wp (update_mouse_position x y) (fun _ s => exists m, s = (set_mouse m g, (v, w)) /\ mouse_wf m /\
    (mouse_y (mouse g) - y >= 0 -> mouse_y (mouse g) + y >= 600 -> mouse_y m = 585) /\
    (mouse_y (mouse g) - y >= 0 -> mouse_y (mouse g) + y < 600 ->
       mouse_y m = mouse_y (mouse g) - Z.quot y 2)) (g, (v, w))) as Hwp.
  { apply wp_update_mouse_position; [done..|]. eauto 10. }
  apply wp_unit in Hwp as (s & E & m & -> & Hrest). eauto.
Qed.

(** (C28) Where the cursor can be drawn: [draw_mouse] has undefined behaviour (it
    writes behind the frame buffer) exactly when the cursor's image reaches row
    600, or the end of row 599; anywhere else it draws and changes nothing but
    pixels. The row 585 that [update_mouse_position] gives a cursor at the lower
    edge is such a place. *)
Theorem draw_mouse_defined (g : game_st) (v : video_st) (w : W) :
  frame_ok v -> sprites_ok (imgs g) -> 0 <= mouse_x (mouse g) < 800 -> 0 <= mouse_y (mouse g) < 65000 ->
  (cursor_fits (mouse g) = true -> only_draws draw_mouse g v w) /\
  (draw_mouse (g, (v, w)) = Undef <-> cursor_fits (mouse g) = false) /\
  (mouse_y (mouse g) = 585 -> draw_mouse (g, (v, w)) = Undef).
Proof.
  intros Hf Hi Hx Hy.
  assert (draw_mouse (g, (v, w)) = Undef <-> cursor_fits (mouse g) = false) as Hiff.
  { rewrite bounded_undef_iff by apply bounded_draw_mouse. split.
    - intros Hno. destruct (cursor_fits (mouse g)) eqn:E; [|done].
      destruct (proj1 (wp_inv _ _ _) (draw_mouse_only g v w Hf Hi Hx Hy E)) as (a & s' & E' & _).
      by destruct (Hno a s').
    - intros E [] s' E'. rewrite (draw_mouse_fits g v w s') in E by done. done. }
  split_and!; [by apply draw_mouse_only|done|].
  intros E. apply Hiff. unfold cursor_fits. by rewrite E.
Qed.

Lemma screens_fit_all `{!XpmLaws W, !XpmLoads W} (g : game_st) (v : video_st) (w : W) :
  frame_ok v -> sprites_ok (imgs g) ->
  only_draws draw_menu g v w /\ only_draws draw_pause g v w /\ only_draws drawInstructions g v w /\
  only_draws draw_victory g v w /\ only_draws draw_game_over g v w /\ only_draws drawSun g v w /\
  only_draws drawMoon g v w /\ only_draws drawBackground g v w /\
  (0 <= lives (p1 g) <= 22 -> only_draws drawHearts g v w).
Proof.
  intros Hf Hi. pose proof Hi as (H1 & _ & _ & H4 & H5 & H6 & H7 & H8 & H9).
  pose proof words_drawable as Hw. rewrite !Forall_cons in Hw. destruct Hw as (Hp & Hn & Hx & Hr & _).
  split_and!; try (apply only_draws_read; cbn [fst id]).
  - apply only_draws_read. apply (menu_only _ 2 6 2); try done; lia || by repeat (apply Forall_cons; split).
  - apply only_draws_read. apply (menu_only _ 3 6 2); try done; lia || by repeat (apply Forall_cons; split).
  - apply (draw_image_only _ 799 599); done || lia.
  - apply (draw_centred_only _ 700 500); done || lia.
  - apply (draw_centred_only _ 422 182); done || lia.
  - apply (draw_image_only _ 200 200); done || lia.
  - apply (draw_image_only _ 200 200); done || lia.
  - apply (draw_image_only _ 799 599); done || lia.
  - by apply drawHearts_only.
Qed.
(** (C31) Every screen of the game fits the display: the menu, the pause menu, the
    instructions, both ends of the game, the sun, the moon, the background, and
    the hearts of up to 22 lives are drawn without leaving the frame buffer or
    their images, and change nothing but pixels. *)
Theorem screens_fit `{!XpmLaws W, !XpmLoads W} (g : game_st) (v : video_st) (w : W) :
  frame_ok v -> sprites_ok (imgs g) ->
  only_draws draw_menu g v w /\ only_draws draw_pause g v w /\ only_draws drawInstructions g v w /\
  only_draws draw_victory g v w /\ only_draws draw_game_over g v w /\ only_draws drawSun g v w /\
  only_draws drawMoon g v w /\ only_draws drawBackground g v w /\
  (0 <= lives (p1 g) <= 22 -> only_draws drawHearts g v w).
Proof. apply screens_fit_all. Qed.
End GameTheorems.

(** ** A concrete game *)
Definition test_image (w h : Z) : xpm_image_t := Image w h (w * h * 3) (Some (fun o => o)).
Definition test_sprites : sprites :=
  Sprites (test_image 264 200) (test_image 50 42) (test_image 30 22) (test_image 700 500)
    (test_image 422 182) (test_image 799 599) (test_image 200 200) (test_image 200 200) (test_image 799 599).
Definition test_video : video_st :=
  VideoSt (Some (Block 1440000 ∅)) (Some (Block 1440000 ∅)) (test_image 950 392) (test_image 75 109) mode_0x115.
Definition test_game (m : Mouse) : game_st :=
  GameSt (replicate 16 (new_card 0 0)) initializePlayer 1 (replicate 16 0) m test_sprites.

Lemma test_video_ok : frame_ok test_video.
Proof.
  assert (forall w h, img_ok (test_image w h) w h) as Hi by (intros; split_and!; [by eexists|done..]).
  split; try done; [|by eexists].
  split; [vm_compute; repeat split; discriminate|by eexists].
Qed.

Lemma test_sprites_ok : sprites_ok test_sprites.
Proof.
  assert (forall w h, img_ok (test_image w h) w h) as Hi by (intros; split_and!; [by eexists|done..]).
  by split_and!.
Qed.

Lemma mouse_position_bounds_witness :
  exists m, update_mouse_position 0 (-256) (test_game (MkMouse 0 599), (test_video, script0)) =
      Done tt (set_mouse m (test_game (MkMouse 0 599)), (test_video, script0)) /\ mouse_wf m /\
    (599 - -256 >= 0 -> 599 + -256 >= 600 -> mouse_y m = 585) /\
    (599 - -256 >= 0 -> 599 + -256 < 600 -> mouse_y m = 599 - Z.quot (-256) 2).
Proof.
  apply (mouse_position_bounds 0 (-256) (test_game (MkMouse 0 599)));
    [apply test_video_ok|split; simpl; lia|lia|lia].
Defined.

Lemma draw_mouse_defined_witness :
  draw_mouse (test_game (MkMouse 0 585), (test_video, script0)) = Undef /\
  only_draws draw_mouse (test_game (MkMouse 799 557)) test_video script0.
Proof.
  split.
  - destruct (draw_mouse_defined (test_game (MkMouse 0 585)) test_video script0 test_video_ok test_sprites_ok
      ltac:(cbn; lia) ltac:(cbn; lia)) as (_ & _ & Hu).
    by apply Hu.
  - destruct (draw_mouse_defined (test_game (MkMouse 799 557)) test_video script0 test_video_ok test_sprites_ok
      ltac:(cbn; lia) ltac:(cbn; lia)) as (Hd & _ & _).
    by apply Hd.
Defined.

Lemma screens_fit_witness :
  only_draws draw_menu (test_game create_mouse) test_video script0 /\
  only_draws drawHearts (test_game create_mouse) test_video script0.
Proof.
  pose proof (screens_fit (test_game create_mouse) test_video script0 test_video_ok test_sprites_ok)
    as (H1 & _ & _ & _ & _ & _ & _ & _ & H9).
  split; [exact H1|]. apply H9. simpl. lia.
Defined.
