(* ===== verification/Flip.v ===== *)
(** proj/src/game.c: the cards on the board. The animation that turns cards over
    ([flipACardDown], [flipACardUp], [flipAllCardsDown]), the drawing of the board,
    which advances it, and the click that starts it. *)
From S2P Require Import Prelude Env Video Cards Game.

Definition set_isFlipping (b : bool) (c : card) : card :=
  Card (card_x c) (card_y c) (isFlipped c) b (flipSuccess c) (num c) (suit c).
Definition set_isFlipped (b : bool) (c : card) : card :=
  Card (card_x c) (card_y c) b (isFlipping c) (flipSuccess c) (num c) (suit c).
Definition set_flipSuccess (b : bool) (c : card) : card :=
  Card (card_x c) (card_y c) (isFlipped c) (isFlipping c) b (num c) (suit c).

(** C's division: undefined by zero. *)
Definition quot_ {S} (a b : Z) : M S Z := if b =? 0 then undef else ret (Z.quot a b).

Section Flip.
Context {W : Type} `{Display W}.

(** [cardArray[i]], and an assignment to one of its members. *)
Definition get_card (i : Z) : M (game_st * (video_st * W)) card :=
  let* g := game_gets id in arr_get (cardArray g) i.
Definition put_card (i : Z) (c : card) : M (game_st * (video_st * W)) unit :=
  let* g := game_gets id in
  let* l := arr_set (cardArray g) i c in
  game_modify (set_cardArray l).
Definition get_side (i : Z) : M (game_st * (video_st * W)) Z :=
  let* g := game_gets id in arr_get (otherSide g) i.
Definition put_side (i o : Z) : M (game_st * (video_st * W)) unit :=
  let* g := game_gets id in
  let* l := arr_set (otherSide g) i o in
  game_modify (set_otherSide l).
Definition add_width (d : Z) : M (game_st * (video_st * W)) unit :=
  let* g := game_gets id in
  let* n := int_ (increaseWidth g + d) in
  game_modify (set_increaseWidth n).

(** proj/src/game.c:315-336 [flipACardDown, the picture of card i, narrowed]: the same
    code is in [flipACardUp] (396-417) and [flipAllCardsDown] (476-497). *)
Definition flip_front (i : Z) : M (game_st * (video_st * W)) unit :=
  let* m := get_mode in
  let* img := gets (fun s => imgDeck s.2.1) in
  let* g := game_gets id in
  let '(screenX, screenY) := getCardsScreenXY m (i mod 4) (i / 4) in
  on_video (greenPartOfScreen screenX screenY CARD_WIDTH CARD_HEIGHT) ;;
  let* c := get_card i in
  let spriteStartX := card_x c * 73 in
  let spriteStartY := card_y c * 99 in
  let n := sprite_step m in
  let* w := quot_ CARD_WIDTH (increaseWidth g) in
  on_video (blit img ((spriteStartX + width img * spriteStartY) * n) screenX screenY w CARD_HEIGHT
    (n * increaseWidth g) (n * (width img - CARD_WIDTH))).

(** proj/src/game.c:339-354 [flipACardDown, the back of card i, narrowed]: the same code is in
    [flipACardUp] (420-435) and [flipAllCardsDown] (500-515). The loop divides only
    when the image has lines. *)
Definition flip_back (i : Z) : M (game_st * (video_st * W)) unit :=
  let* m := get_mode in
  let* img := gets (fun s => imgCardBack s.2.1) in
  let* g := game_gets id in
  let '(screenX, screenY) := getCardsScreenXY m (i mod 4) (i / 4) in
  on_video (greenPartOfScreen screenX screenY CARD_WIDTH CARD_HEIGHT) ;;
  let* w := (if 0 <? height img then quot_ (width img) (increaseWidth g) else ret 0) in
  on_video (blit img 0 screenX screenY w (height img) (sprite_step m * increaseWidth g) 0).

(** proj/src/game.c:308-357 [flipACardDown, the first loop]: [up] tells it from the loop of
    [flipACardUp] (388-438), which tests [isFlipped == true] and swaps the pictures. *)
Definition flip_cards (up : bool) : M (game_st * (video_st * W)) unit :=
  for_range 0 16 (fun i =>
    let* c := get_card i in
    if isFlipping c then
      let* w := game_gets increaseWidth in
      (if (w >? 10) && Bool.eqb (isFlipped c) up then put_side i 1 else skip) ;;
      let* o := get_side i in
      if xorb up (o =? 0) then flip_front i else flip_back i
    else skip).

(** proj/src/game.c:360-365 [flipACardDown, the width for card i] *)
Definition flip_width (i : Z) : M (game_st * (video_st * W)) unit :=
  let* o := get_side i in
  let* c := get_card i in
  if (o =? 0) && isFlipping c then add_width 1
  else if isFlipping c then add_width (-1) else skip.

(** proj/src/game.c:370-377 [flipACardDown, the end of the turn]: [setw] is false for
    [flipAllCardsDown] (529-535), which leaves [increaseWidth]. *)
Definition flip_finish (flipped setw : bool) : M (game_st * (video_st * W)) unit :=
  for_range 0 16 (fun i =>
    let* c := get_card i in
    if isFlipping c then
      put_card i (set_isFlipped flipped (set_isFlipping false c)) ;;
      put_side i 0 ;;
      (if setw then game_modify (set_increaseWidth 1) else skip)
    else skip).

(** proj/src/game.c:306-383 [flipACardDown] *)
Definition flipACardDown : M (game_st * (video_st * W)) bool :=
  flip_cards false ;;
  for_range 0 16 flip_width ;;
  let* w := game_gets increaseWidth in
  if w =? 1 then flip_finish true true ;; ret true else ret false.

(** proj/src/game.c:385-463 [flipACardUp] *)
Definition flipACardUp : M (game_st * (video_st * W)) bool :=
  flip_cards true ;;
  for_range 0 16 flip_width ;;
  let* w := game_gets increaseWidth in
  if w =? 0 then flip_finish false true ;; ret true else ret false.

(** proj/src/game.c:465-541 [flipAllCardsDown]: nothing calls it. *)
Definition flipAllCardsDown : M (game_st * (video_st * W)) bool :=
  flip_cards false ;;
  flip_width 15 ;;
  let* w := game_gets increaseWidth in
  if w =? 1 then flip_finish true false ;; ret true else ret false.

(** proj/src/game.c:254-265 [draw_game_cards, card i] *)
Definition draw_card_at (i startX startY : Z) : M (game_st * (video_st * W)) unit :=
  let* c := get_card i in
  if isFlipping c && isFlipped c then let* _ := flipACardUp in skip
  else if isFlipping c && negb (isFlipped c) then let* _ := flipACardDown in skip
  else if negb (isFlipped c) then on_video (vg_draw_card startX startY (card_x c) (card_y c))
  else on_video (vg_draw_card startX startY (-1) (-1)).

(** proj/src/game.c:245-276 [draw_game_cards] *)
Definition draw_game_cards : M (game_st * (video_st * W)) unit :=
  drawBackground ;;
  let* m := get_mode in
  let startX0 := XResolution m / 2 - 2 * (CARD_WIDTH + 30) in
  let startY0 := YResolution m / 2 - 2 * (CARD_HEIGHT + 20) in
  let* _ := for_range_brk 0 16 (startX0, startY0, 0) (fun i '(startX, startY, cardsPerLine) =>
    draw_card_at i startX startY ;;
    let cardsPerLine := cardsPerLine + 1 in
    let startX := startX + (CARD_WIDTH + 30) in
    let '(startX, startY) :=
      if cardsPerLine mod 4 =? 0 then (startX0, startY + (CARD_HEIGHT + 20)) else (startX, startY) in
    if (startX + CARD_WIDTH + 20 >? XResolution m) || (startY + CARD_HEIGHT + 10 >? YResolution m)
    then ret (Break (startX, startY, cardsPerLine))
    else ret (Next (startX, startY, cardsPerLine))) in
  skip.

(** proj/src/game.c:627-752 [the places of the cards, in the order of the tests] *)
Definition click_order : list (Z * Z) :=
  [(0, 0); (0, 1); (2, 0); (3, 0); (1, 0); (1, 1); (2, 1); (3, 1);
   (0, 2); (1, 2); (2, 2); (3, 2); (0, 3); (1, 3); (2, 3); (3, 3)].

(** proj/src/game.c:630-630 [the test of one card] *)
Definition cursor_on (m : vbe_mode_info_t) (c : Mouse) (x y : Z) : bool :=
  let '(screenX, screenY) := getCardsScreenXY m x y in
  (mouse_x c >=? screenX) && (mouse_x c <=? screenX + CARD_WIDTH) &&
  (mouse_y c >=? screenY) && (mouse_y c <=? screenY + CARD_HEIGHT).

(** proj/src/game.c:628-752 [the sixteen tests]: [posInArray], [None] while it is not initialised. *)
Fixpoint click_cards (places : list (Z * Z)) (posInArray : option Z) : M (game_st * (video_st * W)) (option Z) :=
  match places with
  | [] => ret posInArray
  | (x, y) :: places =>
      let* m := get_mode in
      let* g := game_gets id in
      if cursor_on m (mouse g) x y then
        let pos := x + y * 4 in
        let* c := get_card pos in
        put_card pos (set_isFlipping true c) ;;
        click_cards places (Some pos)
      else click_cards places posInArray
  end.

(** proj/src/game.c:621-756 [flipCardOnClick] *)
Definition flipCardOnClick : M (game_st * (video_st * W)) unit :=
  let* posInArray := click_cards click_order None in
  let* pos := of_option posInArray in
  let* c := get_card pos in
  if negb (isFlipped c) then put_card pos (set_isFlipping false c) else skip.
End Flip.

(** ** Specification: the animation without the pictures *)

(** Card [i] has turned far enough to show its other side. *)
Definition mark (up : bool) (w : Z) (cards : list card) (i : nat) (o : Z) : Z :=
  match cards !! i with
  | Some c => if isFlipping c && ((w >? 10) && Bool.eqb (isFlipped c) up) then 1 else o
  | None => o
  end.

Definition turn (c : card) (o : Z) : Z := if isFlipping c then if o =? 0 then 1 else -1 else 0.
Definition turn_at (cards : list card) (os : list Z) (i : nat) : Z :=
  match cards !! i, os !! i with Some c, Some o => turn c o | _, _ => 0 end.
Definition turns (cards : list card) (os : list Z) (n : nat) : Z :=
  foldr Z.add 0 (map (turn_at cards os) (seq 0 n)).

Definition finish_card (flipped : bool) (c : card) : card :=
  if isFlipping c then set_isFlipped flipped (set_isFlipping false c) else c.
Definition finish_side (cards : list card) (i : nat) (o : Z) : Z :=
  match cards !! i with Some c => if isFlipping c then 0 else o | None => o end.

Definition finished (flipped : bool) (g : game_st) : game_st :=
  set_increaseWidth (if existsb isFlipping (cardArray g) then 1 else increaseWidth g)
    (set_otherSide (imap (finish_side (cardArray g)) (otherSide g))
      (set_cardArray (map (finish_card flipped) (cardArray g)) g)).

(** One call of [flipACardUp] ([up]) or [flipACardDown]. *)
Definition flip_step (up : bool) (g : game_st) : game_st * bool :=
  let os := imap (mark up (increaseWidth g) (cardArray g)) (otherSide g) in
  let w := increaseWidth g + turns (cardArray g) os 16 in
  let g1 := set_increaseWidth w (set_otherSide os g) in
  if w =? (if up then 0 else 1) then (finished (negb up) g1, true) else (g1, false).

(** [m] takes the game to [g'] and returns [r]; besides, it only changes pixels. *)
Definition steps_to {W A} (m : M (game_st * (video_st * W)) A) (g : game_st) (v : video_st) (w : W)
    (r : A) (g' : game_st) : Prop :=
  exists v', m (g, (v, w)) = Done r (g', (v', w)) /\ same_but_pixels v v'.

(** What the animation needs: sixteen cards of the deck and sixteen flags. *)
Definition board_wf (g : game_st) : Prop :=
  cards_drawable (cardArray g) /\ length (otherSide g) = 16%nat.

(** * Lemmas *)
Section StepsTo.
Context {W : Type} `{Display W}.

Lemma steps_to_bind {A B} (m : M (game_st * (video_st * W)) A) (k : A -> M (game_st * (video_st * W)) B)
    g v w a g1 b g2 :
  steps_to m g v w a g1 ->
  (forall v', same_but_pixels v v' -> steps_to (k a) g1 v' w b g2) ->
  steps_to (bind m k) g v w b g2.
Proof.
  intros (v1 & E1 & Hs1) Hk. destruct (Hk v1 Hs1) as (v2 & E2 & Hs2). exists v2.
  split; [by rewrite (bind_Done _ _ _ _ _ E1)|]. by eapply same_but_pixels_trans.
Qed.

Lemma steps_to_ret {A} (a : A) g v w : vid_wf v -> steps_to (W := W) (ret a) g v w a g.
Proof. intros Hv. exists v. split; [done|]. by apply same_but_pixels_refl. Qed.

Lemma steps_to_read {A B} (f : game_st * (video_st * W) -> A) (k : A -> M (game_st * (video_st * W)) B) g v w b g2 :
  steps_to (k (f (g, (v, w)))) g v w b g2 -> steps_to (bind (gets f) k) g v w b g2.
Proof. done. Qed.

Lemma steps_to_modify f g v w : vid_wf v -> steps_to (W := W) (game_modify f) g v w tt (f g).
Proof. intros Hv. exists v. split; [done|]. by apply same_but_pixels_refl. Qed.

Lemma steps_to_get_card i c g v w :
  vid_wf v -> 0 <= i -> cardArray g !! Z.to_nat i = Some c -> steps_to (W := W) (get_card i) g v w c g.
Proof.
  intros Hv Hi E. exists v. split; [|by apply same_but_pixels_refl].
  unfold get_card, game_gets, arr_get. rewrite (bind_Done _ _ _ _ _ (gets_eq _ _)). cbn [fst id].
  replace (i <? 0) with false by lia. by rewrite E.
Qed.

Lemma steps_to_get_side i o g v w :
  vid_wf v -> 0 <= i -> otherSide g !! Z.to_nat i = Some o -> steps_to (W := W) (get_side i) g v w o g.
Proof.
  intros Hv Hi E. exists v. split; [|by apply same_but_pixels_refl].
  unfold get_side, game_gets, arr_get. rewrite (bind_Done _ _ _ _ _ (gets_eq _ _)). cbn [fst id].
  replace (i <? 0) with false by lia. by rewrite E.
Qed.

Lemma steps_to_put_card i c g v w :
  vid_wf v -> 0 <= i < Z.of_nat (length (cardArray g)) ->
  steps_to (W := W) (put_card i c) g v w tt (set_cardArray (<[Z.to_nat i := c]> (cardArray g)) g).
Proof.
  intros Hv Hi. exists v. split; [|by apply same_but_pixels_refl].
  unfold put_card, game_gets, arr_set. rewrite (bind_Done _ _ _ _ _ (gets_eq _ _)). cbn [fst id].
  by replace (_ && _) with true by lia.
Qed.

Lemma steps_to_put_side i o g v w :
  vid_wf v -> 0 <= i < Z.of_nat (length (otherSide g)) ->
  steps_to (W := W) (put_side i o) g v w tt (set_otherSide (<[Z.to_nat i := o]> (otherSide g)) g).
Proof.
  intros Hv Hi. exists v. split; [|by apply same_but_pixels_refl].
  unfold put_side, game_gets, arr_set. rewrite (bind_Done _ _ _ _ _ (gets_eq _ _)). cbn [fst id].
  by replace (_ && _) with true by lia.
Qed.

Lemma steps_to_add_width d g v w :
  vid_wf v -> is_int (increaseWidth g + d) = true ->
  steps_to (W := W) (add_width d) g v w tt (set_increaseWidth (increaseWidth g + d) g).
Proof.
  intros Hv Hi. exists v. split; [|by apply same_but_pixels_refl].
  unfold add_width, game_gets. rewrite (bind_Done _ _ _ _ _ (gets_eq _ _)). cbn [fst id].
  by rewrite (bind_Done _ _ _ _ _ (int_eq _ _ Hi)).
Qed.

(** A loop whose [j]-th step takes [G j] to [G (j + 1)]. *)
Lemma steps_to_for_range (G : Z -> game_st) lo hi body v w :
  vid_wf v -> lo <= hi ->
  (forall j v', lo <= j < hi -> same_but_pixels v v' -> steps_to (body j) (G j) v' w tt (G (j + 1))) ->
  steps_to (W := W) (for_range lo hi body) (G lo) v w tt (G hi).
Proof.
  intros Hv Hle Hb.
  assert (wp (for_range lo hi body) (fun _ s => exists v', s = (G hi, (v', w)) /\ same_but_pixels v v')
    (G lo, (v, w))) as (s & E & v' & -> & Hs)%wp_unit; [|by exists v'].
  apply (wp_for_range (fun j s => exists v', s = (G j, (v', w)) /\ same_but_pixels v v')).
  - exists v. split; [done|]. by apply same_but_pixels_refl.
  - intros j s Hj (v1 & -> & Hs1). destruct (Hb j v1 Hj Hs1) as (v2 & E & Hs2).
    eapply wp_Done; [exact E|]. exists v2. split; [done|]. by eapply same_but_pixels_trans.
  - intros s. by rewrite Z.max_r by done.
Qed.

Lemma steps_to_draws {A} (m : M (game_st * (video_st * W)) A) g v w :
  wp m (fun _ s => s.1 = g /\ s.2.2 = w /\ same_but_pixels v s.2.1) (g, (v, w)) ->
  exists a, steps_to m g v w a g.
Proof.
  intros (a & [g' [v' w']] & E & Hg & Hw & Hs)%wp_inv. simpl in *. subst. exists a. by exists v'.
Qed.
End StepsTo.

(** ** The pictures *)
Section Pictures.
Context {W : Type} `{Display W}.

Lemma steps_to_video (m : M video_st unit) g v w :
  wp m (fun _ => same_but_pixels v) v -> steps_to (W := W) (on_video m) g v w tt g.
Proof.
  intros (v' & E & Hs)%wp_unit. exists v'. split; [|done].
  exact (zoom_Done (comp_lens snd_lens fst_lens) m (g, (v, w)) tt v' E).
Qed.

(** A card's place on the board, with the room the pictures need. *)
Lemma card_place v i :
  frame_ok v -> 0 <= i < 16 ->
  exists sx sy, getCardsScreenXY (modeinfo v) (i mod 4) (i / 4) = (sx, sy) /\
    202 <= sx <= 499 /\ 74 <= sy <= 413.
Proof.
  intros Hf Hi. unfold getCardsScreenXY. rewrite (frame_x _ Hf), (frame_y _ Hf).
  eexists _, _. split; [done|]. unfold CARD_WIDTH, CARD_HEIGHT. change (800 / 2) with 400.
  change (600 / 2) with 300. Z.div_mod_to_equations. lia.
Qed.

Lemma screen_pixel_safe v x y :
  frame_ok v -> 0 <= x < 800 -> 0 <= y < 600 -> pixel_safe (modeinfo v) x y.
Proof. intros Hf Hx Hy. apply frame_pixel_safe; [done|lia..]. Qed.

Lemma green_steps x y w h g v (wd : W) :
  frame_ok v -> 0 <= x -> 0 <= y -> x + w <= 800 -> y + h <= 600 ->
  steps_to (on_video (greenPartOfScreen x y w h)) g v wd tt g.
Proof.
  intros Hf ????. apply steps_to_video, wp_greenPartOfScreen; [apply Hf|lia..|]. by intros v' [Hs _].
Qed.

Lemma quot_pos a b : 0 <= a -> 0 < b -> 0 <= Z.quot a b /\ Z.quot a b * b <= a.
Proof. intros Ha Hb. Z.quot_rem_to_equations. nia. Qed.

Lemma quot_neg a b : 0 <= a -> b < 0 -> Z.quot a b <= 0.
Proof. intros Ha Hb. Z.quot_rem_to_equations. nia. Qed.

Lemma steps_to_quot a b g v (w : W) :
  vid_wf v -> b <> 0 -> steps_to (quot_ a b) g v w (Z.quot a b) g.
Proof.
  intros Hv Hb. exists v. split; [|by apply same_but_pixels_refl].
  unfold quot_. by rewrite (proj2 (Z.eqb_neq _ _) Hb).
Qed.

(** The narrowed pictures: every [increaseWidth]-th column of the image. *)
Lemma narrow_front_ok img c cx sx sy n x y :
  img_ok img 950 392 -> 0 <= cx < 13 -> 0 <= c < 4 -> 0 < n ->
  sx <= x < sx + Z.quot 69 n -> sy <= y < sy + 93 ->
  sprite_ok img (blit_off ((cx * 73 + 950 * (c * 99)) * 3) sx sy (Z.quot 69 n) (3 * n) (3 * (950 - 69)) x y).
Proof.
  intros (Hb & _ & _ & Hs) Hcx Hc Hn Hx Hy. destruct (quot_pos 69 n ltac:(lia) Hn) as [Hq Hqn].
  split; [done|]. unfold blit_off. rewrite Z.max_r by lia. set (q := Z.quot 69 n) in *.
  assert (0 <= (x - sx) * n <= 69) as H1 by nia.
  assert (0 <= (y - sy) * (q * n) <= 92 * 69) as H2 by nia.
  replace ((y - sy) * (q * (3 * n) + 3 * (950 - 69))) with (3 * ((y - sy) * (q * n)) + (y - sy) * 2643) by ring.
  replace ((x - sx) * (3 * n)) with (3 * ((x - sx) * n)) by ring. lia.
Qed.

Lemma narrow_back_ok img sx sy n x y :
  img_ok img 75 109 -> 0 < n ->
  sx <= x < sx + Z.quot 75 n -> sy <= y < sy + 109 ->
  sprite_ok img (blit_off 0 sx sy (Z.quot 75 n) (3 * n) 0 x y).
Proof.
  intros (Hb & _ & _ & Hs) Hn Hx Hy. destruct (quot_pos 75 n ltac:(lia) Hn) as [Hq Hqn].
  split; [done|]. unfold blit_off. rewrite Z.max_r by lia. set (q := Z.quot 75 n) in *.
  assert (0 <= (x - sx) * n /\ (x - sx) * n + n <= q * n) as [H1 H1'] by nia.
  assert (0 <= (y - sy) * (q * n) <= 108 * (q * n)) as H2 by nia.
  replace ((y - sy) * (q * (3 * n) + 0)) with (3 * ((y - sy) * (q * n))) by ring.
  replace ((x - sx) * (3 * n)) with (3 * ((x - sx) * n)) by ring. lia.
Qed.

Lemma flip_front_steps i g v (w : W) :
  frame_ok v -> board_wf g -> 0 <= i < 16 -> increaseWidth g <> 0 ->
  steps_to (flip_front i) g v w tt g.
Proof.
  intros Hf [[Hlen Hcards] _] Hi Hw. unfold flip_front.
  apply steps_to_read, steps_to_read, steps_to_read. cbn [fst snd id].
  destruct (card_place v i Hf Hi) as (sx & sy & -> & Hsx & Hsy).
  destruct (lookup_lt_is_Some_2 (cardArray g) (Z.to_nat i)) as [c Hc]; [lia|].
  pose proof (proj1 (Forall_lookup _ _) Hcards _ _ Hc) as [Hcx Hcy].
  eapply steps_to_bind; [apply green_steps; unfold CARD_WIDTH, CARD_HEIGHT; done || lia|]. intros v1 Hs1.
  pose proof (frame_same _ _ Hs1 Hf) as Hf1.
  eapply steps_to_bind; [apply steps_to_get_card; [apply Hf1|lia|exact Hc]|]. intros v2 Hs2.
  pose proof (frame_same _ _ Hs2 Hf1) as Hf2. cbv zeta.
  eapply steps_to_bind; [apply steps_to_quot; [apply Hf2|lia]|]. intros v3 Hs3.
  pose proof (frame_same _ _ Hs3 Hf2) as Hf3.
  pose proof (frame_deck _ Hf) as Hd. pose proof Hd as (_ & -> & _).
  rewrite (proj2 (frame_mode_24 _ Hf)). unfold CARD_WIDTH, CARD_HEIGHT.
  apply steps_to_video, wp_blit_safe; [apply Hf3| |done]. intros x y Hx Hy.
  assert (0 < increaseWidth g) as Hpos by (pose proof (quot_neg 69 (increaseWidth g)); lia).
  destruct (quot_pos 69 (increaseWidth g) ltac:(lia) Hpos).
  split; [apply screen_pixel_safe; [done|nia|lia]|]. by apply narrow_front_ok.
Qed.

Lemma flip_back_steps i g v (w : W) :
  frame_ok v -> 0 <= i < 16 -> increaseWidth g <> 0 -> steps_to (flip_back i) g v w tt g.
Proof.
  intros Hf Hi Hw. unfold flip_back.
  apply steps_to_read, steps_to_read, steps_to_read. cbn [fst snd id].
  destruct (card_place v i Hf Hi) as (sx & sy & -> & Hsx & Hsy).
  eapply steps_to_bind; [apply green_steps; unfold CARD_WIDTH, CARD_HEIGHT; done || lia|]. intros v1 Hs1.
  pose proof (frame_same _ _ Hs1 Hf) as Hf1.
  pose proof (frame_back _ Hf) as Hd. pose proof Hd as (_ & -> & -> & _).
  rewrite (proj2 (frame_mode_24 _ Hf)). cbn [Z.ltb Z.compare].
  eapply steps_to_bind; [apply steps_to_quot; [apply Hf1|lia]|]. intros v3 Hs3.
  pose proof (frame_same _ _ Hs3 Hf1) as Hf3.
  apply steps_to_video, wp_blit_safe; [apply Hf3| |done]. intros x y Hx Hy.
  assert (0 < increaseWidth g) as Hpos by (pose proof (quot_neg 75 (increaseWidth g)); lia).
  destruct (quot_pos 75 (increaseWidth g) ltac:(lia) Hpos).
  split; [apply screen_pixel_safe; [done|nia|lia]|]. by apply narrow_back_ok.
Qed.
End Pictures.

(** ** One call of the animation *)
Section FlipCalls.
Context {W : Type} `{Display W}.

Lemma card_at g i : board_wf g -> 0 <= i < 16 -> exists c, cardArray g !! Z.to_nat i = Some c.
Proof. intros [[Hl _] _] Hi. apply lookup_lt_is_Some_2. lia. Qed.

Lemma side_at g i : board_wf g -> 0 <= i < 16 -> exists o, otherSide g !! Z.to_nat i = Some o.
Proof. intros [_ Hl] Hi. apply lookup_lt_is_Some_2. lia. Qed.

Lemma board_wf_set_otherSide os g : board_wf g -> length os = 16%nat -> board_wf (set_otherSide os g).
Proof. by intros [? _] ?. Qed.

Lemma flip_cards_steps up g v (w : W) :
  frame_ok v -> board_wf g -> increaseWidth g <> 0 ->
  steps_to (flip_cards up) g v w tt
    (set_otherSide (imap (mark up (increaseWidth g) (cardArray g)) (otherSide g)) g).
Proof.
  intros Hf Hb Hw. set (F := mark up (increaseWidth g) (cardArray g)).
  set (G := fun j => set_otherSide (upto F (otherSide g) (Z.to_nat j)) g).
  assert (forall j, board_wf (G j)) as HG.
  { intros j. apply board_wf_set_otherSide; [done|]. rewrite upto_length. apply Hb. }
  replace (imap F (otherSide g)) with (upto F (otherSide g) (Z.to_nat 16))
    by (apply upto_all; destruct Hb as [_ ->]; simpl; lia).
  change (set_otherSide _ g) with (G 16).
  replace g with (G 0) at 1 by (unfold G; rewrite upto_0; by destruct g).
  apply steps_to_for_range; [apply Hf|lia|]. intros j v1 Hj Hs1.
  pose proof (frame_same _ _ Hs1 Hf) as Hf1.
  destruct (card_at g j Hb Hj) as [c Hc]. destruct (side_at g j Hb Hj) as [o Ho].
  eapply steps_to_bind; [apply steps_to_get_card; [apply Hf1|lia|exact Hc]|]. intros v2 Hs2.
  pose proof (frame_same _ _ Hs2 Hf1) as Hf2.
  assert (G (j + 1) = set_otherSide (<[Z.to_nat j := F (Z.to_nat j) o]> (otherSide (G j))) (G j)) as HG1.
  { unfold G. simpl. rewrite (upto_S F _ _ o Ho). by replace (Z.to_nat (j + 1)) with (S (Z.to_nat j)) by lia. }
  assert (F (Z.to_nat j) o = if isFlipping c && ((increaseWidth g >? 10) && Bool.eqb (isFlipped c) up) then 1 else o)
    as HF by (unfold F, mark; by rewrite Hc).
  assert (otherSide (G j) !! Z.to_nat j = Some o) as Ho' by (unfold G; simpl; by rewrite upto_lookup).
  destruct (isFlipping c) eqn:Efl; cbn [andb] in HF.
  2: { rewrite HG1, HF, list_insert_id by done. apply steps_to_ret, Hf2. }
  apply steps_to_read. cbn [fst].
  eapply steps_to_bind with (a := tt) (g1 := G (j + 1)).
  { rewrite HG1, HF. change (increaseWidth (G j)) with (increaseWidth g).
    case_match; [|rewrite list_insert_id by done; apply steps_to_ret, Hf2].
    apply steps_to_put_side; [apply Hf2|]. destruct (HG j) as [_ ->]. lia. }
  intros v3 Hs3. pose proof (frame_same _ _ Hs3 Hf2) as Hf3.
  eapply steps_to_bind.
  { apply (steps_to_get_side _ (F (Z.to_nat j) o)); [apply Hf3|lia|]. rewrite HG1. simpl.
    apply list_lookup_insert_eq. rewrite upto_length. destruct Hb as [_ ->]. lia. }
  intros v4 Hs4. pose proof (frame_same _ _ Hs4 Hf3) as Hf4.
  destruct (xorb up _); [apply flip_front_steps|apply flip_back_steps]; done.
Qed.

Lemma turns_S cards os n : turns cards os (S n) = turns cards os n + turn_at cards os n.
Proof.
  unfold turns. rewrite seq_S, map_app, foldr_app. simpl. rewrite Z.add_0_r.
  induction (map (turn_at cards os) (seq 0 n)) as [|a l IH]; simpl; lia.
Qed.

Lemma turns_bound cards os n : - Z.of_nat n <= turns cards os n <= Z.of_nat n.
Proof.
  induction n as [|n IH]; [done|]. rewrite turns_S.
  assert (-1 <= turn_at cards os n <= 1) by (unfold turn_at, turn; repeat case_match; lia). lia.
Qed.

Lemma flip_width_steps i g v (w : W) :
  frame_ok v -> board_wf g -> 0 <= i < 16 -> -2000000900 <= increaseWidth g <= 1000 ->
  steps_to (flip_width i) g v w tt
    (set_increaseWidth (increaseWidth g + turn_at (cardArray g) (otherSide g) (Z.to_nat i)) g).
Proof.
  intros Hf Hb Hi Hw. destruct (card_at g i Hb Hi) as [c Hc]. destruct (side_at g i Hb Hi) as [o Ho].
  unfold turn_at. rewrite Hc, Ho. unfold turn, flip_width.
  eapply steps_to_bind; [apply steps_to_get_side; [apply Hf|lia|exact Ho]|]. intros v1 Hs1.
  pose proof (frame_same _ _ Hs1 Hf) as Hf1.
  eapply steps_to_bind; [apply steps_to_get_card; [apply Hf1|lia|exact Hc]|]. intros v2 Hs2.
  pose proof (frame_same _ _ Hs2 Hf1) as Hf2.
  destruct (isFlipping c), (o =? 0); cbn [andb];
    try (apply steps_to_add_width; [apply Hf2|apply is_int_spec; unfold INT_MIN, INT_MAX; lia]);
    rewrite Z.add_0_r; destruct g; apply steps_to_ret, Hf2.
Qed.

Lemma flip_widths_steps g v (w : W) :
  frame_ok v -> board_wf g -> -2000000000 <= increaseWidth g <= 900 ->
  steps_to (for_range 0 16 flip_width) g v w tt
    (set_increaseWidth (increaseWidth g + turns (cardArray g) (otherSide g) 16) g).
Proof.
  intros Hf Hb Hw.
  set (G := fun j => set_increaseWidth (increaseWidth g + turns (cardArray g) (otherSide g) (Z.to_nat j)) g).
  change (set_increaseWidth _ g) with (G 16).
  replace g with (G 0) at 1 by (unfold G; simpl; rewrite Z.add_0_r; by destruct g).
  apply steps_to_for_range; [apply Hf|lia|]. intros j v1 Hj Hs1.
  pose proof (turns_bound (cardArray g) (otherSide g) (Z.to_nat j)).
  replace (G (j + 1)) with (set_increaseWidth (increaseWidth (G j) +
    turn_at (cardArray (G j)) (otherSide (G j)) (Z.to_nat j)) (G j)).
  - apply flip_width_steps; [by eapply frame_same|done|done|]. simpl. lia.
  - unfold G. simpl. replace (Z.to_nat (j + 1)) with (S (Z.to_nat j)) by lia.
    rewrite turns_S. by rewrite Z.add_assoc.
Qed.

Lemma existsb_take_S (l : list card) n c :
  l !! n = Some c -> existsb isFlipping (take (S n) l) = existsb isFlipping (take n l) || isFlipping c.
Proof. intros Hn. rewrite (take_S_r _ _ _ Hn), existsb_app. simpl. by rewrite orb_false_r. Qed.

Lemma finish_map flipped l : map (finish_card flipped) l = imap (fun _ => finish_card flipped) l.
Proof. apply list_eq. intros i. by rewrite list_lookup_imap, list_lookup_fmap. Qed.

Lemma flip_finish_steps flipped g v (w : W) :
  frame_ok v -> board_wf g -> steps_to (flip_finish flipped true) g v w tt (finished flipped g).
Proof.
  intros Hf Hb. set (FC := fun _ : nat => finish_card flipped). set (FS := finish_side (cardArray g)).
  set (G := fun j => set_increaseWidth
    (if existsb isFlipping (take (Z.to_nat j) (cardArray g)) then 1 else increaseWidth g)
    (set_otherSide (upto FS (otherSide g) (Z.to_nat j))
      (set_cardArray (upto FC (cardArray g) (Z.to_nat j)) g))).
  pose proof Hb as [[Hlc _] Hlo].
  replace (finished flipped g) with (G 16).
  2: { unfold G, finished. rewrite finish_map, !upto_all, firstn_all2 by lia. done. }
  replace g with (G 0) at 1 by (unfold G; rewrite !upto_0; by destruct g).
  apply steps_to_for_range; [apply Hf|lia|]. intros j v1 Hj Hs1.
  pose proof (frame_same _ _ Hs1 Hf) as Hf1.
  destruct (card_at g j Hb Hj) as [c Hc]. destruct (side_at g j Hb Hj) as [o Ho].
  assert (Z.to_nat (j + 1) = S (Z.to_nat j)) as HS by lia.
  eapply steps_to_bind.
  { apply steps_to_get_card; [apply Hf1|lia|]. unfold G. simpl. by rewrite upto_lookup. }
  intros v2 Hs2. pose proof (frame_same _ _ Hs2 Hf1) as Hf2.
  destruct (isFlipping c) eqn:Efl.
  - replace (G (j + 1)) with (set_increaseWidth 1 (set_otherSide (<[Z.to_nat j := 0]> (otherSide (G j)))
      (set_cardArray (<[Z.to_nat j := set_isFlipped flipped (set_isFlipping false c)]> (cardArray (G j))) (G j)))).
    2: { unfold G. rewrite HS, (existsb_take_S _ _ _ Hc), Efl, orb_true_r.
         rewrite <- (upto_S FC _ _ _ Hc), <- (upto_S FS _ _ _ Ho).
         unfold FC, FS, finish_card, finish_side. by rewrite Hc, Efl. }
    eapply steps_to_bind; [apply steps_to_put_card; [apply Hf2|unfold G; simpl; rewrite upto_length; lia]|].
    intros v3 Hs3. pose proof (frame_same _ _ Hs3 Hf2) as Hf3.
    eapply steps_to_bind; [apply steps_to_put_side; [apply Hf3|unfold G; simpl; rewrite upto_length; lia]|].
    intros v4 Hs4. apply steps_to_modify. by apply (frame_same _ _ Hs4 Hf3).
  - replace (G (j + 1)) with (G j); [apply steps_to_ret, Hf2|].
    unfold G. rewrite HS, (existsb_take_S _ _ _ Hc), Efl, orb_false_r.
    rewrite (upto_same FC _ _ _ Hc) by (unfold FC, finish_card; by rewrite Efl).
    by rewrite (upto_same FS _ _ _ Ho) by (unfold FS, finish_side; by rewrite Hc, Efl).
Qed.

Lemma flip_call_steps (up : bool) g v (w : W) :
  frame_ok v -> board_wf g -> -2000000000 <= increaseWidth g <= 900 -> increaseWidth g <> 0 ->
  steps_to (if up then flipACardUp else flipACardDown) g v w (flip_step up g).2 (flip_step up g).1.
Proof.
  intros Hf Hb Hw Hn0. unfold flip_step.
  set (os := imap (mark up (increaseWidth g) (cardArray g)) (otherSide g)).
  set (g0 := set_otherSide os g).
  assert (board_wf g0) as Hb0 by (apply board_wf_set_otherSide; [done|]; unfold os; rewrite length_imap; apply Hb).
  change (increaseWidth g + turns (cardArray g) os 16)
    with (increaseWidth g0 + turns (cardArray g0) (otherSide g0) 16).
  set (g1 := set_increaseWidth (increaseWidth g0 + turns (cardArray g0) (otherSide g0) 16) g0).
  assert (forall v1, same_but_pixels v v1 -> steps_to (for_range 0 16 flip_width) g0 v1 w tt g1) as H2.
  { intros v1 Hs1. apply flip_widths_steps; [by eapply frame_same|done|simpl; lia]. }
  assert (forall (e : Z) (v2 : video_st), same_but_pixels v v2 ->
    steps_to (let* n := game_gets increaseWidth in
              if n =? e then flip_finish (negb up) true ;; ret true else ret false) g1 v2 w
      (if increaseWidth g1 =? e then (finished (negb up) g1, true) else (g1, false)).2
      (if increaseWidth g1 =? e then (finished (negb up) g1, true) else (g1, false)).1) as H3.
  { intros e v2 Hs2. pose proof (frame_same _ _ Hs2 Hf) as Hf2. apply steps_to_read. cbn [fst].
    destruct (increaseWidth g1 =? e); [|apply steps_to_ret, Hf2].
    eapply steps_to_bind; [by apply flip_finish_steps|]. intros v3 Hs3. apply steps_to_ret.
    by apply (frame_same _ _ Hs3 Hf2). }
  destruct up; (eapply steps_to_bind; [apply flip_cards_steps; done || lia|]); intros v1 Hs1;
    (eapply steps_to_bind; [by apply H2|]); intros v2 Hs2;
    apply H3; eauto using same_but_pixels_trans.
Qed.
End FlipCalls.

(** ** The animation as a whole *)

(** In a turn that goes well, the flipping cards show the same side and have the
    same flag: [b] says whether they show the other side already. *)
Definition sides (b : bool) (cards : list card) : list Z :=
  map (fun c => if isFlipping c && b then 1 else 0) cards.
Definition flippers (cards : list card) : Z := Z.of_nat (length (List.filter isFlipping cards)).

Record anim (up b : bool) (g : game_st) : Prop := Anim {
  anim_cards : cards_drawable (cardArray g);
  anim_up : Forall (fun c => isFlipping c = true -> isFlipped c = up) (cardArray g);
  anim_sides : otherSide g = sides b (cardArray g)
}.

(** The board after the turn. *)
Definition turned (up : bool) (g : game_st) : game_st :=
  set_increaseWidth 1 (set_otherSide (replicate 16 0)
    (set_cardArray (map (finish_card (negb up)) (cardArray g)) g)).

(** The width and the flag, for [k] cards: [None] when the turn ends. *)
Definition anim_step (up : bool) (k : Z) (wb : Z * bool) : option (Z * bool) :=
  let '(w, b) := wb in
  let b' := b || (w >? 10) in
  let w' := w + (if b' then - k else k) in
  if w' =? (if up then 0 else 1) then None else Some (w', b').

Definition with_wb (wb : Z * bool) (g : game_st) : game_st :=
  set_increaseWidth wb.1 (set_otherSide (sides wb.2 (cardArray g)) g).

Lemma anim_board up b g : anim up b g -> board_wf g.
Proof. intros [Hc Hu Hs]. split; [done|]. rewrite Hs. unfold sides. rewrite length_map. apply Hc. Qed.

Lemma anim_with_wb up b wb g : anim up b g -> anim up wb.2 (with_wb wb g).
Proof. intros [Hc Hu Hs]. by split. Qed.

Lemma mark_sides up b w cards :
  Forall (fun c => isFlipping c = true -> isFlipped c = up) cards ->
  imap (mark up w cards) (sides b cards) = sides (b || (w >? 10)) cards.
Proof.
  intros Hu. apply list_eq. intros i. unfold sides. rewrite list_lookup_imap, !list_lookup_fmap.
  destruct (cards !! i) as [c|] eqn:E; [|done]. simpl. f_equal. unfold mark. rewrite E.
  rewrite Forall_lookup in Hu. specialize (Hu i c E).
  destruct (isFlipping c) eqn:Ef; [|done]. rewrite Hu, eqb_reflx by done. by destruct b, (w >? 10).
Qed.

Lemma turns_map cards (f : card -> Z) n :
  (n <= length cards)%nat ->
  turns cards (map f cards) n = foldr Z.add 0 (map (fun c => turn c (f c)) (take n cards)).
Proof.
  intros Hn. unfold turns. f_equal. apply list_eq. intros i.
  rewrite !list_lookup_fmap. destruct (decide (i < n)%nat).
  - rewrite lookup_seq_lt, lookup_take_lt by lia. simpl. unfold turn_at. rewrite list_lookup_fmap.
    destruct (lookup_lt_is_Some_2 cards i) as [c ->]; [lia|]. done.
  - rewrite !lookup_ge_None_2; [done|rewrite length_take; lia|rewrite length_seq; lia].
Qed.

Lemma turns_sides b cards :
  length cards = 16%nat -> turns cards (sides b cards) 16 = if b then - flippers cards else flippers cards.
Proof.
  intros Hl. unfold sides. rewrite turns_map, firstn_all2 by lia. unfold flippers. clear Hl.
  induction cards as [|c l IH]; simpl; [by destruct b|]. rewrite IH. unfold turn.
  destruct (isFlipping c), b; simpl; lia.
Qed.

Lemma flippers_exist cards : 0 < flippers cards -> existsb isFlipping cards = true.
Proof.
  unfold flippers. induction cards as [|c l IH]; simpl; [done|]. destruct (isFlipping c); [done|exact IH].
Qed.

Lemma finish_sides cards b :
  length cards = 16%nat -> imap (finish_side cards) (sides b cards) = replicate 16 0.
Proof.
  intros Hl. apply list_eq. intros i. unfold sides. rewrite list_lookup_imap, list_lookup_fmap.
  destruct (decide (i < 16)%nat).
  - destruct (lookup_lt_is_Some_2 cards i) as [c E]; [lia|].
    rewrite lookup_replicate_2 by done. rewrite E. simpl. f_equal. unfold finish_side. rewrite E.
    by destruct (isFlipping c).
  - rewrite !lookup_ge_None_2; [done|rewrite length_replicate; lia|lia].
Qed.

(** One call in a turn that goes well. *)
Lemma flip_step_anim up b g :
  anim up b g -> 0 < flippers (cardArray g) ->
  flip_step up g =
    match anim_step up (flippers (cardArray g)) (increaseWidth g, b) with
    | None => (turned up g, true)
    | Some wb => (with_wb wb g, false)
    end.
Proof.
  intros [[Hl Hc] Hu Hs] Hk. unfold flip_step, anim_step. rewrite Hs, (mark_sides up), turns_sides by done.
  set (b' := b || (increaseWidth g >? 10)). case_match; [|done]. f_equal.
  unfold finished, turned. simpl. rewrite flippers_exist, finish_sides by done. done.
Qed.

Section AnimCalls.
Context {W : Type} `{Display W}.

(** Calls of the animation until the turn ends, or [n] of them. *)
Fixpoint anim_run (up : bool) (k : Z) (n : nat) (wb : Z * bool) : option (Z * bool) :=
  match n with
  | O => Some wb
  | S n =>
      match anim_step up k wb with
      | None => None
      | Some wb' => anim_run up k n wb'
      end
  end.

(** The width is positive and small before each of [n] calls. *)
Fixpoint widths_ok (up : bool) (k : Z) (n : nat) (wb : Z * bool) : bool :=
  match n with
  | O => true
  | S n =>
      (0 <? wb.1) && (wb.1 <=? 900) &&
      match anim_step up k wb with
      | None => true
      | Some wb' => widths_ok up k n wb'
      end
  end.

(** The board in the state [wb] of a turn, or after the turn. *)
Definition anim_state (up : bool) (o : option (Z * bool)) (g : game_st) : game_st :=
  match o with Some wb => with_wb wb g | None => turned up g end.

Lemma anim_call up b g v (w : W) :
  frame_ok v -> anim up b g -> 0 < flippers (cardArray g) -> 0 < increaseWidth g <= 900 ->
  exists r, steps_to (if up then flipACardUp else flipACardDown) g v w r
    (anim_state up (anim_step up (flippers (cardArray g)) (increaseWidth g, b)) g).
Proof.
  intros Hf Ha Hk Hw. pose proof (flip_call_steps up g v w Hf (anim_board _ _ _ Ha) ltac:(lia) ltac:(lia)) as Hc.
  rewrite (flip_step_anim up b g Ha Hk) in Hc. exists (flip_step up g).2.
  rewrite (flip_step_anim up b g Ha Hk). by destruct (anim_step _ _ _).
Qed.
End AnimCalls.

(** ** The drawing of the board advances the animation *)
Section DrawBoard.
Context {W : Type} `{Display W}.

Lemma anim_run_add up k a b wb :
  anim_run up k (a + b) wb =
    match anim_run up k a wb with Some wb' => anim_run up k b wb' | None => None end.
Proof.
  revert wb. induction a as [|a IH]; intros wb; simpl; [done|].
  destruct (anim_step up k wb); [apply IH|done].
Qed.

Lemma widths_ok_add up k a b wb :
  widths_ok up k (a + b) wb = true ->
  widths_ok up k a wb = true /\ (forall wb', anim_run up k a wb = Some wb' -> widths_ok up k b wb' = true).
Proof.
  revert wb. induction a as [|a IH]; intros wb Hw; simpl in *.
  - split; [done|]. by intros wb' [= <-].
  - apply andb_true_iff in Hw as [-> Hw]. simpl. destruct (anim_step up k wb); [by apply IH|done].
Qed.

Lemma draw_image_steps img sw sh sx sy g v (w : W) :
  frame_ok v -> img_ok img sw sh -> 0 <= sw -> 0 <= sh -> 0 <= sx -> sx + sw <= 800 -> 0 <= sy -> sy + sh <= 600 ->
  steps_to (draw_image img sx sy) g v w tt g.
Proof.
  intros Hf Hi ??????. unfold draw_image. apply steps_to_read, steps_to_video. cbn [fst snd].
  apply (wp_blit_image img sw sh); try done; [apply Hf|by apply frame_mode_24|rewrite frame_x by done; lia|
    rewrite frame_y by done; lia|]. by intros v' [Hs _].
Qed.

(** A card that is not being turned over. *)
Lemma still_card_steps i c sx sy g v (w : W) :
  frame_ok v -> 0 <= i -> cardArray g !! Z.to_nat i = Some c -> isFlipping c = false ->
  0 <= card_x c < 13 -> 0 <= card_y c < 4 -> 0 <= sx <= 600 -> 0 <= sy <= 420 ->
  steps_to (draw_card_at i sx sy) g v w tt g.
Proof.
  intros Hf Hi Hc Hfl Hx Hy Hsx Hsy. unfold draw_card_at.
  eapply steps_to_bind; [apply steps_to_get_card; [apply Hf|done|exact Hc]|]. intros v1 Hs1.
  pose proof (frame_same _ _ Hs1 Hf) as Hf1. rewrite Hfl. cbn [andb].
  destruct (frame_mode_24 _ Hf1) as [H24 _].
  destruct (isFlipped c); cbn [negb]; apply steps_to_video.
  - unfold vg_draw_card. apply wp_bind, wp_get. cbn [Z.eqb andb].
    apply (wp_blit_image (imgCardBack v1) 75 109); try done || lia; try apply Hf1;
      [rewrite frame_x by done; lia|rewrite frame_y by done; lia|]. by intros v' [Hs _].
  - apply vg_draw_card_at; try done; try apply Hf1; unfold CARD_WIDTH, CARD_HEIGHT;
      [lia|rewrite frame_x by done; lia|lia|rewrite frame_y by done; lia|]. by intros v' [Hs _].
Qed.

(** The board is drawn on the background, card by card, each in its place. *)
Lemma wp_draw_game_cards (I : Z -> game_st * (video_st * W) -> Prop) (Q : unit -> game_st * (video_st * W) -> Prop) s :
  wp drawBackground (fun _ s => frame_ok s.2.1 /\ I 0 s) s ->
  (forall i s, 0 <= i < 16 -> I i s ->
     wp (draw_card_at i (202 + 99 * (i mod 4)) (74 + 113 * (i / 4))) (fun _ => I (i + 1)) s) ->
  (forall s, I 16 s -> Q tt s) ->
  wp draw_game_cards Q s.
Proof.
  intros Hbg Hcard HQ. unfold draw_game_cards. apply wp_bind. eapply wp_mono; [exact Hbg|].
  intros _ [g [v1 w1]] [Hf1 H0]. cbn [fst snd] in Hf1. apply wp_bind, wp_gets. cbn [fst snd].
  rewrite (frame_x _ Hf1), (frame_y _ Hf1). unfold CARD_WIDTH, CARD_HEIGHT.
  change (800 / 2 - 2 * (69 + 30)) with 202. change (600 / 2 - 2 * (93 + 20)) with 74. cbv zeta.
  apply wp_bind.
  apply (wp_for_range_brk (fun i a s => a = (202 + 99 * (i mod 4), 74 + 113 * (i / 4), i) /\ I i s)); [done| |].
  - intros i a s' Hir (-> & Hi). apply wp_bind. eapply wp_mono; [by apply Hcard|]. intros [] s2 Hi2.
    assert ((if (i + 1) mod 4 =? 0 then (202, 74 + 113 * (i / 4) + (93 + 20))
             else (202 + 99 * (i mod 4) + (69 + 30), 74 + 113 * (i / 4))) =
      (202 + 99 * ((i + 1) mod 4), 74 + 113 * ((i + 1) / 4))) as ->.
    { destruct (Z.eqb_spec ((i + 1) mod 4) 0); f_equal; Z.div_mod_to_equations; lia. }
    destruct (_ || _) eqn:Eb; apply wp_ret; [|by split].
    apply wp_ret, HQ. assert (i = 15) as E by (clear -Eb Hir; Z.div_mod_to_equations; lia). by subst i.
  - intros a s' (_ & Hi). by apply wp_ret, HQ.
Qed.

(** A board that is drawn in steps. *)
Lemma draw_game_cards_steps (G : Z -> game_st) v (w : W) :
  frame_ok v -> sprites_ok (imgs (G 0)) ->
  (forall i v', 0 <= i < 16 -> same_but_pixels v v' ->
     steps_to (draw_card_at i (202 + 99 * (i mod 4)) (74 + 113 * (i / 4))) (G i) v' w tt (G (i + 1))) ->
  steps_to draw_game_cards (G 0) v w tt (G 16).
Proof.
  intros Hf Hi Hcard.
  assert (wp draw_game_cards (fun _ s => exists v', s = (G 16, (v', w)) /\ same_but_pixels v v') (G 0, (v, w))) as Hwp.
  { apply (wp_draw_game_cards (fun i s => exists v', s = (G i, (v', w)) /\ same_but_pixels v v')); [| |done].
    - destruct (draw_image_steps (imgBackground (imgs (G 0))) 799 599 0 0 (G 0) v w) as (v1 & E & Hs1);
        [done|apply Hi|lia..|].
      eapply wp_Done; [exact E|]. cbn [fst snd]. split; [by eapply frame_same|eauto].
    - intros i s Hir (v2 & -> & Hs2). destruct (Hcard i v2 Hir Hs2) as (v3 & E & Hs3).
      eapply wp_Done; [exact E|]. exists v3. split; [done|]. by eapply same_but_pixels_trans. }
  apply wp_unit in Hwp as (s & E & v' & -> & Hs). by exists v'.
Qed.

Definition flipping_before (cards : list card) (i : Z) : nat :=
  length (List.filter isFlipping (take (Z.to_nat i) cards)).

Lemma flipping_before_S cards i c :
  0 <= i -> cards !! Z.to_nat i = Some c ->
  flipping_before cards (i + 1) = (flipping_before cards i + if isFlipping c then 1 else 0)%nat.
Proof.
  intros Hi Hc. unfold flipping_before. replace (Z.to_nat (i + 1)) with (S (Z.to_nat i)) by lia.
  rewrite (take_S_r _ _ _ Hc), List.filter_app, length_app. f_equal. simpl. by destruct (isFlipping c).
Qed.

Lemma flipping_before_all cards : length cards = 16%nat -> Z.of_nat (flipping_before cards 16) = flippers cards.
Proof. intros Hl. unfold flipping_before, flippers. by rewrite firstn_all2 by (simpl; lia). Qed.

Lemma flipping_before_le cards i :
  length cards = 16%nat -> 0 <= i <= 16 -> (flipping_before cards i <= flipping_before cards 16)%nat.
Proof.
  intros Hl Hi. unfold flipping_before. rewrite (firstn_all2 (n := Z.to_nat 16)) by (simpl; lia).
  rewrite <- (take_drop (Z.to_nat i) cards) at 2. rewrite List.filter_app, length_app. lia.
Qed.

(** The card that turns: one step of its animation. *)
Lemma turning_card_steps up b g wb i c sx sy v (w : W) :
  frame_ok v -> anim up b g -> 0 < wb.1 <= 900 -> 0 <= i < 16 ->
  cardArray (with_wb wb g) !! Z.to_nat i = Some c -> isFlipping c = true -> isFlipped c = up ->
  let k := flippers (cardArray g) in 0 < k ->
  steps_to (draw_card_at i sx sy) (with_wb wb g) v w tt (anim_state up (anim_step up k wb) (with_wb wb g)).
Proof.
  intros Hf Ha Hwb Hi Hc Efl Hcu k Hk. unfold draw_card_at. eapply steps_to_bind.
  { apply steps_to_get_card; [apply Hf|lia|exact Hc]. }
  intros v2 Hs2. pose proof (frame_same _ _ Hs2 Hf) as Hf2. rewrite Efl, Hcu.
  destruct (anim_call up wb.2 (with_wb wb g) v2 w Hf2 (anim_with_wb _ _ _ _ Ha) Hk Hwb) as [r Hr].
  change (increaseWidth (with_wb wb g), wb.2) with (wb.1, wb.2) in Hr. rewrite <- surjective_pairing in Hr.
  destruct up; cbn [andb negb];
    (eapply steps_to_bind; [exact Hr|]; intros v3 Hs3; apply steps_to_ret; by apply (frame_same _ _ Hs3 Hf2)).
Qed.

(** The card in the state of a turn. *)
Lemma anim_state_card up o g i c :
  cardArray g !! i = Some c ->
  cardArray (anim_state up o g) !! i = Some (match o with Some _ => c | None => finish_card (negb up) c end).
Proof. intros Hc. destruct o; simpl; [done|]. by rewrite list_lookup_fmap, Hc. Qed.

Lemma anim_state_step up b k wb g :
  anim up b g -> k = flippers (cardArray g) ->
  anim_state up (anim_step up k wb) (with_wb wb g) = anim_state up (anim_step up k wb) g.
Proof. intros Ha ->. by destruct (anim_step _ _ _) as [[w' b']|]. Qed.

Lemma draw_board_anim up b g v (w : W) :
  frame_ok v -> sprites_ok (imgs g) -> anim up b g -> 0 < flippers (cardArray g) ->
  let k := flippers (cardArray g) in
  widths_ok up k (Z.to_nat k) (increaseWidth g, b) = true ->
  steps_to draw_game_cards g v w tt (anim_state up (anim_run up k (Z.to_nat k) (increaseWidth g, b)) g).
Proof.
  intros Hf Hsp Ha Hk k Hw. pose proof Ha as [[Hl Hcards] Hu Hsides].
  set (O := fun i => anim_run up k (flipping_before (cardArray g) i) (increaseWidth g, b)).
  set (G := fun i => anim_state up (O i) g).
  replace (anim_state up (anim_run up k (Z.to_nat k) (increaseWidth g, b)) g) with (G 16).
  2: { unfold G, O. do 2 f_equal. pose proof (flipping_before_all _ Hl). unfold k. lia. }
  assert (G 0 = g) as HG0 by (unfold G, O, flipping_before; simpl; unfold with_wb; simpl;
    rewrite <- Hsides; by destruct g).
  rewrite <- HG0 at 1. apply draw_game_cards_steps; [done|by rewrite HG0|].
  intros i v1 Hi Hs1. pose proof (frame_same _ _ Hs1 Hf) as Hf1.
  destruct (lookup_lt_is_Some_2 (cardArray g) (Z.to_nat i)) as [c Hc]; [lia|].
  pose proof (proj1 (Forall_lookup _ _) Hcards _ _ Hc) as [Hcx Hcy].
  pose proof (flipping_before_S _ i c ltac:(lia) Hc) as HS.
  pose proof (flipping_before_le _ (i + 1) Hl ltac:(lia)) as Hle.
  pose proof (flipping_before_all _ Hl) as Hall. fold k in Hall.
  assert (0 <= i mod 4 < 4 /\ 0 <= i / 4 < 4) as [Hm Hd] by (Z.div_mod_to_equations; lia).
  assert (cardArray (G i) !! Z.to_nat i =
    Some (match O i with Some _ => c | None => finish_card (negb up) c end)) as HGc by (by apply anim_state_card).
  destruct (O i) as [wb|] eqn:EO; [destruct (isFlipping c) eqn:Efl|].
  - assert (O (i + 1) = anim_step up k wb) as HO1.
    { unfold O. rewrite HS, anim_run_add. fold (O i). rewrite EO. simpl. by destruct (anim_step up k wb). }
    assert (0 < wb.1 <= 900) as Hwb.
    { replace (Z.to_nat k) with (flipping_before (cardArray g) i + (Z.to_nat k - flipping_before (cardArray g) i))%nat in Hw by lia.
      destruct (widths_ok_add _ _ _ _ _ Hw) as [_ Hwb]. specialize (Hwb wb EO).
      replace (Z.to_nat k - flipping_before (cardArray g) i)%nat with
        (S (Z.to_nat k - flipping_before (cardArray g) (i + 1))) in Hwb by lia.
      simpl in Hwb. lia. }
    assert (G i = with_wb wb g) as HGi by (unfold G; by rewrite EO).
    assert (G (i + 1) = anim_state up (anim_step up k wb) (with_wb wb g)) as HGi1.
    { unfold G. rewrite HO1. symmetry. by eapply anim_state_step. }
    rewrite HGi1. rewrite HGi in HGc |- *.
    eapply turning_card_steps; [done|done|done|lia|exact HGc|done| |done].
    by apply (proj1 (Forall_lookup _ _) Hu _ _ Hc).
  - assert (G (i + 1) = G i) as ->.
    { unfold G, O. by rewrite HS, Nat.add_0_r. }
    eapply still_card_steps; [done|lia|exact HGc|done|done|done|lia|lia].
  - assert (G (i + 1) = G i) as ->.
    { unfold G, O. rewrite HS, anim_run_add. fold (O i). by rewrite EO. }
    eapply still_card_steps; [done|lia|exact HGc|..|lia|lia];
      unfold finish_card; destruct (isFlipping c) eqn:Efl; done.
Qed.

(** With no card turning, drawing the board only draws. *)
Lemma draw_board_still g v (w : W) :
  frame_ok v -> sprites_ok (imgs g) -> cards_drawable (cardArray g) ->
  Forall (fun c => isFlipping c = false) (cardArray g) ->
  steps_to draw_game_cards g v w tt g.
Proof.
  intros Hf Hsp [Hl Hcards] Hno. apply (draw_game_cards_steps (fun _ => g)); [done|done|].
  intros i v1 Hi Hs1. destruct (lookup_lt_is_Some_2 (cardArray g) (Z.to_nat i)) as [c Hc]; [lia|].
  pose proof (proj1 (Forall_lookup _ _) Hcards _ _ Hc) as [Hcx Hcy].
  pose proof (proj1 (Forall_lookup _ _) Hno _ _ Hc) as Hnc.
  assert (0 <= i mod 4 < 4 /\ 0 <= i / 4 < 4) as [Hm Hd] by (Z.div_mod_to_equations; lia).
  eapply still_card_steps; [by eapply frame_same|lia|done|done|done|done|lia|lia].
Qed.
End DrawBoard.

(** ** Frames *)
Section Frames.
Context {W : Type} `{Display W}.

(** [n] drawings of the board, one after the other. *)
Fixpoint frames (n : nat) : M (game_st * (video_st * W)) unit :=
  match n with O => skip | S n => draw_game_cards ;; frames n end.

Lemma turned_still up g : Forall (fun c => isFlipping c = false) (cardArray (turned up g)).
Proof.
  simpl. apply Forall_map, Forall_forall. intros c _. unfold finish_card. by destruct (isFlipping c) eqn:E.
Qed.

Lemma turned_drawable up g : cards_drawable (cardArray g) -> cards_drawable (cardArray (turned up g)).
Proof.
  intros [Hl Hc]. split; simpl; [by rewrite length_map|]. apply Forall_map. eapply Forall_impl; [done|].
  intros c Hcc. unfold finish_card. by destruct (isFlipping c).
Qed.

Lemma frames_still n g v (w : W) :
  frame_ok v -> sprites_ok (imgs g) -> cards_drawable (cardArray g) ->
  Forall (fun c => isFlipping c = false) (cardArray g) -> steps_to (frames n) g v w tt g.
Proof.
  intros Hf Hsp Hc Hno. revert v Hf. induction n as [|n IH]; intros v Hf; simpl; [apply steps_to_ret, Hf|].
  eapply steps_to_bind; [by apply draw_board_still|]. intros v1 Hs1. apply IH. by eapply frame_same.
Qed.

Lemma frames_anim n up g wb v (w : W) :
  frame_ok v -> sprites_ok (imgs g) -> anim up wb.2 (with_wb wb g) -> 0 < flippers (cardArray g) ->
  widths_ok up (flippers (cardArray g)) (n * Z.to_nat (flippers (cardArray g))) wb = true ->
  steps_to (frames n) (with_wb wb g) v w tt
    (anim_state up (anim_run up (flippers (cardArray g)) (n * Z.to_nat (flippers (cardArray g))) wb) g).
Proof.
  set (k := flippers (cardArray g)). intros Hf Hsp. revert wb v Hf.
  induction n as [|n IH]; intros wb v Hf Ha Hk Hw; simpl; [apply steps_to_ret, Hf|].
  simpl in Hw. destruct (widths_ok_add _ _ _ _ _ Hw) as [Hw1 Hw2].
  eapply steps_to_bind.
  { apply (draw_board_anim up wb.2 (with_wb wb g)); [done|done|done|done|].
    change (increaseWidth (with_wb wb g), wb.2) with (wb.1, wb.2). by rewrite <- surjective_pairing. }
  change (increaseWidth (with_wb wb g), wb.2) with (wb.1, wb.2). rewrite <- surjective_pairing.
  change (flippers (cardArray (with_wb wb g))) with k. intros v1 Hs1.
  pose proof (frame_same _ _ Hs1 Hf) as Hf1. rewrite anim_run_add.
  destruct (anim_run up k (Z.to_nat k) wb) as [wb'|] eqn:E.
  - apply (IH wb'); [done| |done|by apply Hw2]. by apply (anim_with_wb up wb.2 wb' (with_wb wb g)).
  - apply frames_still; [done|done| |apply turned_still]. apply turned_drawable, (anim_cards _ _ _ Ha).
Qed.

(** The frames a turn takes: [k] cards are turned face down in this many. *)
Definition frames_down (k : Z) : Z := (2 * (9 / k + 1) + k - 1) / k.

(** [n] frames end the turn of [k] cards, and fewer do not. *)
Definition turn_takes (up : bool) (k n : Z) : bool :=
  widths_ok up k (Z.to_nat (n * k)) (1, false) &&
  bool_decide (anim_run up k (Z.to_nat (n * k)) (1, false) = None) &&
  forallb (fun m => bool_decide (is_Some (anim_run up k (Z.to_nat (m * k)) (1, false)))) (seqZ 0 n).

(** A board at the start of a turn to or from [up]. *)
Definition turn_start (up : bool) (g : game_st) : Prop :=
  cards_drawable (cardArray g) /\ increaseWidth g = 1 /\ otherSide g = replicate 16 0 /\
  Forall (fun c => isFlipping c = true -> isFlipped c = up) (cardArray g).

Lemma turn_start_anim up g :
  turn_start up g -> anim up false (with_wb (1, false) g) /\ with_wb (1, false) g = g.
Proof.
  intros ([Hl Hc] & Hw & Hs & Hu).
  assert (sides false (cardArray g) = replicate 16 0) as E.
  { unfold sides. rewrite <- Hl. clear. induction (cardArray g) as [|c l IH]; simpl; [done|].
    rewrite IH. by destruct (isFlipping c). }
  split; [by split|]. unfold with_wb. simpl. rewrite E, <- Hw, <- Hs. by destruct g.
Qed.

Lemma turn_frames up n m g v (w : W) :
  frame_ok v -> sprites_ok (imgs g) -> turn_start up g -> 0 < flippers (cardArray g) ->
  turn_takes up (flippers (cardArray g)) n = true -> 0 <= m <= n ->
  exists o, steps_to (frames (Z.to_nat m)) g v w tt (anim_state up o g) /\ (o = None <-> m = n).
Proof.
  intros Hf Hsp Hst Hk Ht Hm. destruct (turn_start_anim _ _ Hst) as [Ha Hg].
  set (k := flippers (cardArray g)) in *. unfold turn_takes in Ht.
  apply andb_true_iff in Ht as [[Hw HN]%andb_true_iff Hall]. apply bool_decide_eq_true in HN.
  exists (anim_run up k (Z.to_nat m * Z.to_nat k) (1, false)). split.
  - rewrite <- Hg at 1. apply frames_anim; [done|done|done|done|]. fold k.
    replace (Z.to_nat (n * k)) with (Z.to_nat m * Z.to_nat k + Z.to_nat ((n - m) * k))%nat in Hw by nia.
    by destruct (widths_ok_add _ _ _ _ _ Hw).
  - replace (Z.to_nat m * Z.to_nat k)%nat with (Z.to_nat (m * k)) by nia. split; [|by intros ->].
    intros Hno. destruct (decide (m = n)); [done|]. rewrite forallb_forall in Hall.
    specialize (Hall m ltac:(apply list_elem_of_In, elem_of_seqZ; lia)).
    apply bool_decide_eq_true in Hall as [? Hs]. congruence.
Qed.

Lemma flippers_max cards : length cards = 16%nat -> 0 <= flippers cards <= 16.
Proof.
  intros Hl. unfold flippers. pose proof (filter_length_le isFlipping cards). lia.
Qed.

(** (C12) However many face-up cards start to turn over, drawing the board turns
    all of them face down and leaves the animation as it was before, ready for the
    next turn; [k] cards need exactly [frames_down k] frames (one when all sixteen
    turn after the deal, five for a pair that does not match), and until then
    every card is where it was. *)
Theorem turn_down_in_frames (g : game_st) (v : video_st) (w : W) (m : Z) :
  frame_ok v -> sprites_ok (imgs g) -> turn_start false g -> 0 < flippers (cardArray g) ->
  0 <= m <= frames_down (flippers (cardArray g)) ->
  exists g', steps_to (frames (Z.to_nat m)) g v w tt g' /\
    (m = frames_down (flippers (cardArray g)) -> g' = turned false g) /\
    (m < frames_down (flippers (cardArray g)) -> cardArray g' = cardArray g).
Proof.
  intros Hf Hsp Hst Hk Hm. pose proof Hst as ((Hl & _) & _). pose proof (flippers_max _ Hl) as Hmax.
  set (k := flippers (cardArray g)) in *.
  assert (turn_takes false k (frames_down k) = true) as Ht.
  { assert (forallb (fun k => turn_takes false k (frames_down k)) (seqZ 1 16) = true) as Hall
      by (vm_compute; reflexivity).
    rewrite forallb_forall in Hall. apply Hall, list_elem_of_In, elem_of_seqZ. lia. }
  destruct (turn_frames false (frames_down k) m g v w Hf Hsp Hst Hk Ht Hm) as (o & Hs & Ho).
  exists (anim_state false o g). split; [done|]. destruct o as [wb|].
  - split; [intros E; by apply Ho in E|done].
  - split; [done|]. rewrite (proj1 Ho eq_refl). lia.
Qed.

(** A single face-down card that is clicked is face up after exactly 21
    frames, and the animation is ready for the next turn. *)
Theorem turn_up_in_frames (g : game_st) (v : video_st) (w : W) (m : Z) :
  frame_ok v -> sprites_ok (imgs g) -> turn_start true g -> flippers (cardArray g) = 1 ->
  0 <= m <= 21 ->
  exists g', steps_to (frames (Z.to_nat m)) g v w tt g' /\
    (m = 21 -> g' = turned true g) /\ (m < 21 -> cardArray g' = cardArray g).
Proof.
  intros Hf Hsp Hst Hk Hm.
  assert (turn_takes true (flippers (cardArray g)) 21 = true) as Ht by (rewrite Hk; vm_compute; reflexivity).
  destruct (turn_frames true 21 m g v w Hf Hsp Hst ltac:(lia) Ht Hm) as (o & Hs & Ho).
  exists (anim_state true o g). split; [done|]. destruct o as [wb|].
  - split; [intros E; by apply Ho in E|done].
  - split; [done|]. rewrite (proj1 Ho eq_refl). lia.
Qed.
End Frames.

(** ** Clicks *)

(** The cursor is on the card in column [a] and row [b] of the board. *)
Definition over_card (m : Mouse) (a b : Z) : Prop :=
  202 + 99 * a <= mouse_x m <= 271 + 99 * a /\ 74 + 113 * b <= mouse_y m <= 167 + 113 * b.

Section Click.
Context {W : Type} `{Display W}.

Lemma cursor_on_spec v c x y :
  frame_ok v -> cursor_on (modeinfo v) c x y = true <-> over_card c x y.
Proof.
  intros Hf. unfold cursor_on, getCardsScreenXY, over_card. rewrite (frame_x _ Hf), (frame_y _ Hf).
  unfold CARD_WIDTH, CARD_HEIGHT. change (800 / 2) with 400. change (600 / 2) with 300. lia.
Qed.

Lemma click_order_all a b : 0 <= a < 4 -> 0 <= b < 4 -> (a, b) ∈ click_order.
Proof.
  intros Ha Hb.
  assert (forallb (fun a => forallb (fun b => bool_decide ((a, b) ∈ click_order)) (seqZ 0 4)) (seqZ 0 4) = true)
    as Hall by (vm_compute; reflexivity).
  rewrite forallb_forall in Hall. specialize (Hall a ltac:(apply list_elem_of_In, elem_of_seqZ; lia)).
  rewrite forallb_forall in Hall. specialize (Hall b ltac:(apply list_elem_of_In, elem_of_seqZ; lia)).
  by apply bool_decide_eq_true in Hall.
Qed.

Lemma click_order_range : Forall (fun p => 0 <= p.1 < 4 /\ 0 <= p.2 < 4) click_order.
Proof. by repeat (apply Forall_cons; split). Qed.

Lemma click_order_nodup : NoDup click_order.
Proof. by apply (bool_decide_unpack _). Qed.

(** Tests that all fail. *)
Lemma click_cards_none places pos g v (w : W) :
  frame_ok v -> Forall (fun p => ~ over_card (mouse g) p.1 p.2) places ->
  click_cards places pos (g, (v, w)) = Done pos (g, (v, w)).
Proof.
  intros Hf. induction places as [|[x y] places IH]; intros Hno; [done|].
  apply Forall_cons in Hno as [Hn Hno]. cbn [click_cards]. unfold get_mode, game_gets.
  rewrite !(bind_Done _ _ _ _ _ (gets_eq _ _)). cbn [fst snd id].
  destruct (cursor_on _ _ x y) eqn:E; [|by apply IH]. by apply cursor_on_spec in E.
Qed.

Lemma over_card_unique m a b a' b' : over_card m a b -> over_card m a' b' -> a = a' /\ b = b'.
Proof. unfold over_card. lia. Qed.

(** Tests of which the one of card [(a, b)] succeeds. *)
Lemma click_cards_hit places pos a b c g v (w : W) :
  frame_ok v -> NoDup places -> (a, b) ∈ places -> over_card (mouse g) a b -> 0 <= a + b * 4 ->
  cardArray g !! Z.to_nat (a + b * 4) = Some c ->
  click_cards places pos (g, (v, w)) =
    Done (Some (a + b * 4))
      (set_cardArray (<[Z.to_nat (a + b * 4) := set_isFlipping true c]> (cardArray g)) g, (v, w)).
Proof.
  intros Hf. induction places as [|[x y] places IH]; intros Hnd Hin Hov Hp Hc; [by apply not_elem_of_nil in Hin|].
  apply NoDup_cons in Hnd as [Hnin Hnd]. cbn [click_cards]. unfold get_mode, game_gets.
  rewrite !(bind_Done _ _ _ _ _ (gets_eq _ _)). cbn [fst snd id].
  destruct (cursor_on _ _ x y) eqn:E.
  - apply cursor_on_spec in E; [|done]. destruct (over_card_unique _ _ _ _ _ Hov E) as [-> ->]. cbv zeta.
    pose proof (lookup_lt_Some _ _ _ Hc).
    unfold get_card, put_card, game_gets, arr_get, arr_set, game_modify.
    rewrite (bind_Done _ _ _ c (g, (v, w))).
    2: { rewrite (bind_Done _ _ _ _ _ (gets_eq _ _)). cbn [fst id].
         replace (_ <? 0) with false by lia. by rewrite Hc. }
    rewrite (bind_Done _ _ _ tt (set_cardArray (<[Z.to_nat (x + y * 4) := set_isFlipping true c]> (cardArray g)) g, (v, w))).
    2: { rewrite (bind_Done _ _ _ _ _ (gets_eq _ _)). cbn [fst id]. by replace (_ && _) with true by lia. }
    apply click_cards_none; [done|]. apply Forall_forall. intros [x' y'] Hin' Hov'. simpl in *.
    destruct (over_card_unique _ _ _ _ _ E Hov') as [-> ->]. done.
  - apply elem_of_cons in Hin as [[= -> ->]|Hin]; [|by apply IH].
    rewrite (proj2 (cursor_on_spec v (mouse g) x y Hf) Hov) in E. done.
Qed.

Lemma flipCardOnClick_hit (g : game_st) (v : video_st) (w : W) (a b : Z) (c : card) :
  frame_ok v -> length (cardArray g) = 16%nat -> 0 <= a < 4 -> 0 <= b < 4 -> over_card (mouse g) a b ->
  cardArray g !! Z.to_nat (a + b * 4) = Some c ->
  flipCardOnClick (g, (v, w)) =
    Done tt (set_cardArray (<[Z.to_nat (a + b * 4) := set_isFlipping (isFlipped c) c]> (cardArray g)) g, (v, w)).
Proof.
  intros Hf Hl Ha Hb Hov Hc. unfold flipCardOnClick.
  rewrite (bind_Done _ _ _ _ _ (click_cards_hit click_order None a b c g v w Hf click_order_nodup
    (click_order_all a b Ha Hb) Hov ltac:(lia) Hc)).
  cbn [of_option]. rewrite bind_ret. set (n := Z.to_nat (a + b * 4)) in *.
  set (g1 := set_cardArray (<[n := set_isFlipping true c]> (cardArray g)) g).
  assert (n < 16)%nat as Hn by (unfold n; lia).
  assert (cardArray g1 !! n = Some (set_isFlipping true c)) as Hc1
    by (unfold g1; simpl; apply list_lookup_insert_eq; lia).
  unfold get_card, put_card, game_gets, arr_get, arr_set, game_modify.
  rewrite (bind_Done _ _ _ (set_isFlipping true c) (g1, (v, w))).
  2: { rewrite (bind_Done _ _ _ _ _ (gets_eq _ _)). cbn [fst id].
       replace (_ <? 0) with false by lia. fold n. by rewrite Hc1. }
  change (isFlipped (set_isFlipping true c)) with (isFlipped c).
  destruct (isFlipped c); cbn [negb]; [reflexivity|].
  rewrite (bind_Done _ _ _ _ _ (gets_eq _ _)). cbn [fst id].
  replace (_ && _) with true by (unfold g1; simpl; rewrite length_insert; lia).
  unfold g1, bind. simpl. fold n. by rewrite list_insert_insert_eq.
Qed.

(** (C13) A click on a card that lies face down starts turning it; on a card that
    is face up it changes nothing but that a turn of it is not started; no other
    card is touched. *)
Theorem click_on_card (g : game_st) (v : video_st) (w : W) (a b : Z) (c : card) :
  frame_ok v -> length (cardArray g) = 16%nat -> 0 <= a < 4 -> 0 <= b < 4 -> over_card (mouse g) a b ->
  cardArray g !! Z.to_nat (a + b * 4) = Some c ->
  flipCardOnClick (g, (v, w)) =
    Done tt (set_cardArray (<[Z.to_nat (a + b * 4) := set_isFlipping (isFlipped c) c]> (cardArray g)) g, (v, w)).
Proof. intros Hf Hl Ha Hb Hov Hc. by apply flipCardOnClick_hit. Qed.

(** (C30) A click beside the cards, which the main loop passes on like any other,
    reads the position of the clicked card where none was stored: the behaviour
    is undefined. *)
Theorem click_outside_undefined (g : game_st) (v : video_st) (w : W) :
  frame_ok v -> (forall a b, 0 <= a < 4 -> 0 <= b < 4 -> ~ over_card (mouse g) a b) ->
  flipCardOnClick (g, (v, w)) = Undef.
Proof.
  intros Hf Hno. unfold flipCardOnClick.
  rewrite (bind_Done _ _ _ None (g, (v, w))); [done|]. apply click_cards_none; [done|].
  eapply Forall_impl; [apply click_order_range|]. intros [a b] [Ha Hb]. by apply Hno.
Qed.
End Click.

(** ** Concrete boards *)
Definition down_card : card := set_isFlipped true (new_card 3 2).

(** Two face-up cards that start to turn, or one face-down card. *)
Definition pair_board : game_st :=
  set_cardArray (replicate 2 (set_isFlipping true (new_card 3 2)) ++ replicate 14 down_card) (test_game create_mouse).
Definition click_board : game_st :=
  set_cardArray (set_isFlipping true down_card :: replicate 15 down_card) (test_game (MkMouse 210 80)).

Ltac prove_turn_start := repeat split; try reflexivity; repeat (constructor; try (simpl; lia)); try done.

Lemma pair_board_start : turn_start false pair_board.
Proof. prove_turn_start. Qed.

Lemma click_board_start : turn_start true click_board.
Proof. prove_turn_start. Qed.

Lemma turn_down_in_frames_witness :
  exists g', steps_to (frames 5) pair_board test_video script0 tt g' /\
    (5 = frames_down 2 -> g' = turned false pair_board) /\ (5 < frames_down 2 -> cardArray g' = cardArray pair_board).
Proof.
  exact (turn_down_in_frames pair_board test_video script0 5 test_video_ok test_sprites_ok pair_board_start
    eq_refl ltac:(vm_compute; split; discriminate)).
Defined.

Lemma turn_up_in_frames_witness :
  exists g', steps_to (frames 21) click_board test_video script0 tt g' /\
    (21 = 21 -> g' = turned true click_board) /\ (21 < 21 -> cardArray g' = cardArray click_board).
Proof.
  exact (turn_up_in_frames click_board test_video script0 21 test_video_ok test_sprites_ok click_board_start
    eq_refl ltac:(lia)).
Defined.

Lemma click_on_card_witness :
  flipCardOnClick (set_cardArray (replicate 16 down_card) click_board, (test_video, script0)) =
    Done tt (click_board, (test_video, script0)).
Proof.
  rewrite (click_on_card (set_cardArray (replicate 16 down_card) click_board) test_video script0 0 0 down_card);
    [reflexivity|apply test_video_ok|reflexivity|lia|lia|unfold over_card; simpl; lia|reflexivity].
Defined.

Lemma click_outside_undefined_witness :
  flipCardOnClick (test_game (MkMouse 0 0), (test_video, script0)) = Undef.
Proof.
  apply click_outside_undefined; [apply test_video_ok|]. intros a b Ha Hb. unfold over_card. simpl. lia.
Defined.

(** ** Cards that turn in both directions

    Nothing in the code keeps a card from being turned up while two others are
    turned down: the width they share then no longer comes back to its start. *)

(** Card [i] in one drawing of the board. *)
Definition card_step (g : game_st) (i : nat) : game_st :=
  match cardArray g !! i with
  | Some c => if isFlipping c then (flip_step (isFlipped c) g).1 else g
  | None => g
  end.

Definition width_ok (g : game_st) : bool :=
  (-2000000000 <=? increaseWidth g) && (increaseWidth g <=? 900) && negb (increaseWidth g =? 0).

(** The cards from [i] on, as long as the width lets them be drawn. *)
Fixpoint draw_cards (n i : nat) (g : game_st) : option game_st :=
  match n with
  | O => Some g
  | S n => if width_ok g then draw_cards n (S i) (card_step g i) else None
  end.

Section Mixed.
Context {W : Type} `{Display W}.

Lemma flip_step_wf up g : board_wf g -> board_wf (flip_step up g).1 /\ imgs (flip_step up g).1 = imgs g.
Proof.
  intros [[Hl Hc] Hs]. unfold flip_step. case_match; simpl; (split; [|done]); split; [split| |split|]; simpl;
    rewrite ?length_map, ?length_imap; try done.
  apply Forall_map. eapply Forall_impl; [done|]. intros c Hcc. unfold finish_card. by destruct (isFlipping c).
Qed.

Lemma card_step_wf g i : board_wf g -> board_wf (card_step g i) /\ imgs (card_step g i) = imgs g.
Proof. intros Hb. unfold card_step. repeat case_match; auto using flip_step_wf. Qed.

Lemma card_step_steps i g v (w : W) :
  frame_ok v -> board_wf g -> width_ok g = true -> 0 <= i < 16 ->
  steps_to (draw_card_at i (202 + 99 * (i mod 4)) (74 + 113 * (i / 4))) g v w tt (card_step g (Z.to_nat i)).
Proof.
  intros Hf Hb Hw Hi. destruct (card_at g i Hb Hi) as [c Hc]. unfold width_ok in Hw.
  pose proof Hb as [[_ Hcards] _]. pose proof (proj1 (Forall_lookup _ _) Hcards _ _ Hc) as [Hcx Hcy].
  assert (0 <= i mod 4 < 4 /\ 0 <= i / 4 < 4) as [Hm Hd] by (Z.div_mod_to_equations; lia).
  unfold card_step. rewrite Hc. destruct (isFlipping c) eqn:Efl.
  2: { eapply still_card_steps; [done|lia|exact Hc|done|done|done|lia|lia]. }
  unfold draw_card_at. eapply steps_to_bind; [apply steps_to_get_card; [apply Hf|lia|exact Hc]|].
  intros v1 Hs1. pose proof (frame_same _ _ Hs1 Hf) as Hf1. rewrite Efl.
  pose proof (flip_call_steps (isFlipped c) g v1 w Hf1 Hb ltac:(lia) ltac:(lia)) as Hs.
  destruct (isFlipped c); cbn [andb negb];
    (eapply steps_to_bind; [exact Hs|]; intros v2 Hs2; apply steps_to_ret; by apply (frame_same _ _ Hs2 Hf1)).
Qed.

Lemma draw_cards_prefix n i g g' k :
  draw_cards n i g = Some g' -> board_wf g -> (k < n)%nat ->
  exists gk, draw_cards k i g = Some gk /\ board_wf gk /\ width_ok gk = true /\
    draw_cards (S k) i g = Some (card_step gk (i + k)).
Proof.
  revert i g k. induction n as [|n IH]; intros i g k Hd Hb Hk; [lia|].
  cbn [draw_cards] in Hd. destruct (width_ok g) eqn:Ew; [|done].
  destruct k as [|k].
  - exists g. split_and!; [done..|]. simpl. by rewrite Ew, Nat.add_0_r.
  - destruct (IH (S i) (card_step g i) k Hd (proj1 (card_step_wf g i Hb)) ltac:(lia)) as (gk & H1 & H2 & H3 & H4).
    exists gk. cbn [draw_cards] in *. rewrite Ew in *. split_and!; [done..|].
    by replace (i + S k)%nat with (S i + k)%nat by lia.
Qed.

Lemma draw_cards_steps g g' v (w : W) :
  frame_ok v -> sprites_ok (imgs g) -> board_wf g -> draw_cards 16 0 g = Some g' ->
  steps_to draw_game_cards g v w tt g'.
Proof.
  intros Hf Hsp Hb Hd. set (G := fun i => default g (draw_cards (Z.to_nat i) 0 g)).
  replace g' with (G 16) by (unfold G; change (Z.to_nat 16) with 16%nat; by rewrite Hd). change g with (G 0) at 1.
  apply draw_game_cards_steps; [done|done|]. intros i v1 Hi Hs1.
  destruct (draw_cards_prefix 16 0 g g' (Z.to_nat i) Hd Hb ltac:(lia)) as (gi & H1 & H2 & H3 & H4).
  unfold G. replace (Z.to_nat (i + 1)) with (S (Z.to_nat i)) by lia. rewrite H1, H4. simpl.
  apply card_step_steps; [by eapply frame_same|done|done|done].
Qed.

(** [n] frames of the board, without the pictures. *)
Fixpoint board_frames (n : nat) (g : game_st) : option game_st :=
  match n with
  | O => Some g
  | S n => match draw_cards 16 0 g with Some g' => board_frames n g' | None => None end
  end.

Lemma draw_cards_wf n i g g' :
  draw_cards n i g = Some g' -> board_wf g -> board_wf g' /\ imgs g' = imgs g.
Proof.
  revert i g. induction n as [|n IH]; intros i g; cbn [draw_cards]; [by intros [= <-]|].
  case_match; [|done]. intros Hd Hb. destruct (card_step_wf g i Hb) as [Hb' Hi].
  destruct (IH _ _ Hd Hb') as [Hg' Hi']. split; [done|]. by rewrite Hi'.
Qed.

Lemma board_frames_steps n g g' v (w : W) :
  frame_ok v -> sprites_ok (imgs g) -> board_wf g -> board_frames n g = Some g' ->
  steps_to (frames n) g v w tt g' /\ board_wf g'.
Proof.
  revert g v. induction n as [|n IH]; intros g v Hf Hi Hb; cbn [board_frames frames].
  - intros [= <-]. split; [|done]. apply steps_to_ret, Hf.
  - destruct (draw_cards 16 0 g) as [g1|] eqn:E; [|done]. intros Hn.
    destruct (draw_cards_wf _ _ _ _ E Hb) as [Hb1 Hi1]. rewrite <- Hi1 in Hi.
    split; [|by eapply IH]. eapply steps_to_bind; [apply draw_cards_steps; try done; by rewrite <- Hi1|].
    intros v1 Hs1. apply IH; try done. by eapply frame_same.
Qed.

(** (C11) The code of the board refines the animation without pictures: one call of
    [flipACardUp] or [flipACardDown] is one [flip_step], and returns whether it
    ended the turn; any number of frames of [draw_game_cards], with cards turning
    in whatever directions, is the same number of [board_frames], as long as the
    width stays where the pictures can be drawn; besides, only pixels change, and
    the board stays well formed. *)
Theorem board_refines (n : nat) (g : game_st) (v : video_st) (w : W) :
  frame_ok v -> sprites_ok (imgs g) -> board_wf g ->
  (width_ok g = true -> forall up : bool,
     steps_to (if up then flipACardUp else flipACardDown) g v w (flip_step up g).2 (flip_step up g).1 /\
     board_wf (flip_step up g).1) /\
  (forall g', board_frames n g = Some g' -> steps_to (frames n) g v w tt g' /\ board_wf g').
Proof.
  intros Hf Hi Hb. split.
  - intros Hw up. unfold width_ok in Hw. split; [apply flip_call_steps; done || lia|by apply flip_step_wf].
  - intros g' Hn. by apply board_frames_steps.
Qed.

(** *** Cards of both directions

    The cards of each direction show the same side: [up] and [down] say whether those
    turning up and those turning down show the other side already. *)
Record both : Type := Both { bw : Z; b_up : bool; b_down : bool }.

(** The directions of the turning cards, in the order of the board ([true]: up). *)
Definition directions (cards : list card) : list bool := map isFlipped (List.filter isFlipping cards).

Definition both_sides (a : both) (cards : list card) : list Z :=
  map (fun c => if isFlipping c && (if isFlipped c then b_up a else b_down a) then 1 else 0) cards.
Definition with_both (a : both) (g : game_st) : game_st :=
  set_increaseWidth (bw a) (set_otherSide (both_sides a (cardArray g)) g).

(** One call for a card that turns [up], when the cards [l] turn. *)
Definition both_mark (up : bool) (a : both) : both :=
  Both (bw a) (b_up a || (up && (bw a >? 10))) (b_down a || (negb up && (bw a >? 10))).
Definition both_turns (l : list bool) (a : both) : Z :=
  foldr (fun up n => (if (if up : bool then b_up a else b_down a) then -1 else 1) + n) 0 l.
Definition both_step (l : list bool) (up : bool) (a : both) : both :=
  let a' := both_mark up a in Both (bw a + both_turns l a') (b_up a') (b_down a').

(** The calls of one drawing of the board; a call that ends the turn must be the last. *)
Definition both_ok (a : both) : bool := (-2000000000 <=? bw a) && (bw a <=? 900) && negb (bw a =? 0).
Fixpoint both_calls (l rest : list bool) (a : both) : option (both * option bool) :=
  if both_ok a then
    match rest with
    | [] => Some (a, None)
    | up :: rest =>
        let a' := both_step l up a in
        if bw a' =? (if up then 0 else 1) then match rest with [] => Some (a', Some up) | _ => None end
        else both_calls l rest a'
    end
  else None.
Definition outcome (r : both * option bool) (g : game_st) : game_st :=
  match r.2 with None => with_both r.1 g | Some up => finished (negb up) (with_both r.1 g) end.

Lemma mark_both up a cards :
  imap (mark up (bw a) cards) (both_sides a cards) = both_sides (both_mark up a) cards.
Proof.
  apply list_eq. intros i. unfold both_sides. rewrite list_lookup_imap, !list_lookup_fmap.
  destruct (cards !! i) as [c|] eqn:E; [|done]. simpl. f_equal. unfold mark. rewrite E.
  by destruct (isFlipping c), (isFlipped c), up, (b_up a), (b_down a), (bw a >? 10).
Qed.

Lemma turns_both a cards :
  length cards = 16%nat -> turns cards (both_sides a cards) 16 = both_turns (directions cards) a.
Proof.
  intros Hl. unfold both_sides. rewrite turns_map, firstn_all2 by lia. unfold directions, both_turns. clear Hl.
  induction cards as [|c l IH]; simpl; [done|]. rewrite IH. unfold turn.
  destruct (isFlipping c), (isFlipped c) eqn:E, (b_up a), (b_down a); simpl; rewrite ?E; lia.
Qed.

Lemma flip_step_both up a g :
  length (cardArray g) = 16%nat ->
  let a' := both_step (directions (cardArray g)) up a in
  flip_step up (with_both a g) =
    if bw a' =? (if up then 0 else 1) then (finished (negb up) (with_both a' g), true) else (with_both a' g, false).
Proof.
  intros Hl. unfold flip_step, with_both. cbn [cardArray otherSide increaseWidth set_increaseWidth set_otherSide].
  by rewrite mark_both, turns_both.
Qed.

(** Drawing cards that are at rest. *)
Lemma draw_cards_still n i g :
  width_ok g = true -> Forall (fun c => isFlipping c = false) (drop i (cardArray g)) -> draw_cards n i g = Some g.
Proof.
  intros Hw. revert i. induction n as [|n IH]; intros i Hr; [done|]. cbn [draw_cards]. rewrite Hw.
  assert (card_step g i = g) as ->.
  { unfold card_step. destruct (cardArray g !! i) as [c|] eqn:E; [|done].
    rewrite (drop_S _ _ _ E) in Hr. by apply Forall_cons in Hr as [-> _]. }
  apply IH. destruct (cardArray g !! i) as [c|] eqn:E.
  - rewrite (drop_S _ _ _ E) in Hr. by apply Forall_cons in Hr as [_ Hr].
  - rewrite drop_ge; [constructor|]. apply lookup_ge_None in E. lia.
Qed.

Lemma finished_rest flipped g : Forall (fun c => isFlipping c = false) (cardArray (finished flipped g)).
Proof.
  simpl. apply Forall_map, Forall_forall. intros c _. simpl. unfold finish_card. by destruct (isFlipping c) eqn:E.
Qed.

Lemma directions_drop i c cards :
  cards !! i = Some c ->
  directions (drop i cards) = if isFlipping c then isFlipped c :: directions (drop (S i) cards)
                              else directions (drop (S i) cards).
Proof. intros E. rewrite (drop_S _ _ _ E). unfold directions. simpl. by destruct (isFlipping c). Qed.

Lemma draw_cards_both n i a r g :
  (i + n = 16)%nat -> length (cardArray g) = 16%nat ->
  both_calls (directions (cardArray g)) (directions (drop i (cardArray g))) a = Some r ->
  draw_cards n i (with_both a g) = Some (outcome r g).
Proof.
  intros Hin Hl. revert i a Hin. induction n as [|n IH]; intros i a Hin Hr.
  { rewrite drop_ge in Hr by lia. cbn [directions List.filter map both_calls] in Hr.
    destruct (both_ok a); [|done]. by injection Hr as <-. }
  destruct (lookup_lt_is_Some_2 (cardArray g) i) as [c Hc]; [lia|].
  assert (both_ok a = true) as Hok by (revert Hr; destruct (directions (drop i _)); cbn [both_calls]; by destruct (both_ok a)).
  cbn [draw_cards]. change (width_ok (with_both a g)) with (both_ok a). rewrite Hok.
  unfold card_step. cbn [cardArray with_both set_increaseWidth set_otherSide]. rewrite Hc.
  rewrite (directions_drop _ _ _ Hc) in Hr. destruct (isFlipping c) eqn:Ef; [|apply IH; [lia|done]].
  rewrite flip_step_both by done. cbn [both_calls] in Hr. rewrite Hok in Hr.
  destruct (bw (both_step _ _ _) =? _) eqn:E; cbn [fst]; [|apply IH; [lia|done]].
  destruct (directions (drop (S i) (cardArray g))); [|done]. injection Hr as <-.
  apply draw_cards_still; [|apply Forall_drop, finished_rest].
  unfold width_ok. simpl. rewrite (proj2 (existsb_exists isFlipping (cardArray g))); [done|].
  exists c. split; [|done]. by apply list_elem_of_In, list_elem_of_lookup_2 with i.
Qed.

(** A card that turns up and is not behind both of the cards that turn down: after three
    frames the width is 2 with all sides shown, and it loses 9 in each frame from then on. *)
Definition never_ends (l : list bool) : Prop := l = [true; false; false] \/ l = [false; true; false].

Lemma never_ends_calls l m :
  never_ends l -> -1000000000 <= m <= 2 -> (3 | m - 2) ->
  both_calls l l (Both m true true) = Some (Both (m - 9) true true, None).
Proof.
  intros Hl Hm [q Hq].
  assert (forall k, -1000000009 <= k <= 2 -> (exists q, k - 2 = q * 3) ->
    both_ok (Both k true true) = true /\ (k - 3 =? 0) = false /\ (k - 3 =? 1) = false) as Hk.
  { intros k Hk [x Hx]. unfold both_ok. cbn [bw]. lia. }
  assert (forall up k, both_step l up (Both k true true) = Both (k - 3) true true) as Hs.
  { intros up k. unfold both_step. destruct Hl as [-> | ->]; simpl; f_equal; lia. }
  destruct (Hk m) as (O1 & Z1 & N1); [lia|by exists q|].
  destruct (Hk (m - 3)) as (O2 & Z2 & N2); [lia|exists (q - 1); lia|].
  destruct (Hk (m - 3 - 3)) as (O3 & Z3 & N3); [lia|exists (q - 2); lia|].
  destruct (Hk (m - 3 - 3 - 3)) as (O4 & _); [lia|exists (q - 3); lia|].
  replace (m - 9) with (m - 3 - 3 - 3) by lia.
  set (l' := l) at 2. assert (never_ends l') as Hl' by exact Hl. clearbody l'.
  destruct Hl' as [-> | ->]; cbn [both_calls]; rewrite ?Hs; cbn [bw];
    by rewrite O1, ?Z1, ?N1, ?Hs, O2; cbn [bw]; rewrite ?Z2, ?N2, ?Hs, O3; cbn [bw]; rewrite ?Z3, ?N3, ?Hs, O4.
Qed.

Lemma board_frames_stuck g n m :
  length (cardArray g) = 16%nat -> never_ends (directions (cardArray g)) ->
  -900000000 + 9 * Z.of_nat n <= m <= 2 -> (3 | m - 2) ->
  board_frames n (with_both (Both m true true) g) = Some (with_both (Both (m - 9 * Z.of_nat n) true true) g).
Proof.
  intros Hl Hd. revert m. induction n as [|n IH]; intros m Hm Hq; cbn [board_frames].
  - do 3 f_equal. lia.
  - rewrite (draw_cards_both 16 0 _ (Both (m - 9) true true, None)) by (done || apply never_ends_calls; done || lia).
    cbn [outcome fst snd]. rewrite IH; [do 3 f_equal; lia|lia|]. destruct Hq as [q Hq]. exists (q - 3). lia.
Qed.

(** The first frames of such a turn. *)
Definition three_frames (l : list bool) (n : nat) : both :=
  Nat.iter n (fun a => match both_calls l l a with Some (a', _) => a' | None => a end) (Both 1 false false).

Lemma board_frames_start g n :
  length (cardArray g) = 16%nat -> never_ends (directions (cardArray g)) -> (n <= 3)%nat ->
  board_frames n (with_both (Both 1 false false) g) = Some (with_both (three_frames (directions (cardArray g)) n) g).
Proof.
  intros Hl Hd Hn.
  assert (forall k a a', both_calls (directions (cardArray g)) (directions (cardArray g)) a = Some (a', None) ->
    board_frames (S k) (with_both a g) = board_frames k (with_both a' g)) as Hstep.
  { intros k a a' E. cbn [board_frames]. by rewrite (draw_cards_both 16 0 a (a', None)). }
  unfold never_ends in Hd. destruct Hd as [Hd|Hd]; rewrite Hd in *;
    (do 4 (destruct n as [|n]; [repeat (erewrite Hstep; [|vm_compute; reflexivity]); reflexivity|]); lia).
Qed.

Lemma board_frames_add n m g g' : board_frames n g = Some g' -> board_frames (n + m) g = board_frames m g'.
Proof.
  revert g. induction n as [|n IH]; intros g; cbn [board_frames Nat.add]; [by intros [= ->]|].
  destruct (draw_cards 16 0 g); [apply IH|done].
Qed.

Lemma with_both_start g :
  increaseWidth g = 1 -> otherSide g = replicate 16 0 -> length (cardArray g) = 16%nat ->
  with_both (Both 1 false false) g = g.
Proof.
  intros Hw Ho Hl. unfold with_both. assert (both_sides (Both 1 false false) (cardArray g) = otherSide g) as ->.
  { rewrite Ho, <- Hl. unfold both_sides. clear. induction (cardArray g) as [|c l IH]; [done|].
    simpl. f_equal; [by destruct (isFlipping c), (isFlipped c)|exact IH]. }
  cbn [bw]. rewrite <- Hw. by destruct g.
Qed.

(** (C25) Three cards that turn in different directions, wherever they lie on the board (the
    state a third click brings about): if the one that turns up is in front of one of the two that turn down,
    the turn never ends: after any number of frames (up to a hundred million) no card has been
    turned, all three are still marked as flipping, so that every click is
    ignored, and the width has become negative. If it is behind both, the turn ends after three frames
    with all three cards face up. *)
Theorem mixed_turn_never_ends (g : game_st) (v : video_st) (w : W) (n : Z) :
  frame_ok v -> sprites_ok (imgs g) -> cards_drawable (cardArray g) ->
  increaseWidth g = 1 -> otherSide g = replicate 16 0 -> 0 <= n <= 100000000 ->
  (directions (cardArray g) = [true; false; false] \/ directions (cardArray g) = [false; true; false] ->
   exists g', steps_to (frames (Z.to_nat n)) g v w tt g' /\
     cardArray g' = cardArray g /\ (3 < n -> increaseWidth g' = 29 - 9 * n)) /\
  (directions (cardArray g) = [false; false; true] ->
   exists g', steps_to (frames 3) g v w tt g' /\
     cardArray g' = map (fun c => if isFlipping c then set_isFlipped false (set_isFlipping false c) else c) (cardArray g)).
Proof.
  intros Hf Hi Hc Hw Ho Hn. pose proof Hc as [Hl _].
  assert (board_wf g) as Hb by (split; [done|by rewrite Ho]).
  pose proof (with_both_start g Hw Ho Hl) as Eg. split; intros Hd.
  - destruct (decide (n <= 3)) as [Hle|Hgt].
    + pose proof (board_frames_start g (Z.to_nat n) Hl Hd ltac:(lia)) as E. rewrite Eg in E.
      eexists. split; [by apply (board_frames_steps _ g _ v w Hf Hi Hb E)|]. split; [done|lia].
    + pose proof (board_frames_start g 3 Hl Hd ltac:(lia)) as E. rewrite Eg in E.
      apply (board_frames_add 3 (Z.to_nat (n - 3))) in E. replace (3 + Z.to_nat (n - 3))%nat with (Z.to_nat n) in E by lia.
      assert (three_frames (directions (cardArray g)) 3 = Both 2 true true) as E3
        by (destruct Hd as [-> | ->]; vm_compute; reflexivity).
      rewrite E3, (board_frames_stuck g _ 2 Hl Hd) in E; [|lia|by exists 0].
      eexists. split; [by apply (board_frames_steps _ g _ v w Hf Hi Hb E)|].
      split; [done|]. simpl increaseWidth. lia.
  - assert (exists a, board_frames 3 (with_both (Both 1 false false) g) = Some (finished false (with_both a g))) as [a E].
    { eexists. cbn [board_frames].
      do 3 (erewrite (draw_cards_both 16 0); [|done|done|rewrite drop_0, Hd; vm_compute; reflexivity];
            cbn [outcome fst snd]). reflexivity. }
    rewrite Eg in E. eexists. split; [by apply (board_frames_steps _ g _ v w Hf Hi Hb E)|done].
Qed.
End Mixed.

(** Two face-up cards, at places 1 and 2, that are turned down while the card at
    place 0 is turned up; and the same board later, when the width is [n]. *)
Definition mixed_board : game_st :=
  set_cardArray (set_isFlipping true down_card :: replicate 2 (set_isFlipping true (new_card 3 2)) ++
    replicate 13 down_card) (test_game create_mouse).
Definition stuck_board (n : Z) : game_st :=
  set_increaseWidth n (set_otherSide (replicate 3 1 ++ replicate 13 0) mixed_board).

Lemma mixed_board_drawable : cards_drawable (cardArray mixed_board).
Proof. split; [reflexivity|]. vm_compute. by repeat (apply Forall_cons; split). Qed.

Lemma mixed_turn_never_ends_witness :
  exists g', steps_to (frames (Z.to_nat 1000)) mixed_board test_video script0 tt g' /\
    cardArray g' = cardArray mixed_board /\ (3 < 1000 -> increaseWidth g' = 29 - 9 * 1000).
Proof.
  exact (proj1 (mixed_turn_never_ends mixed_board test_video script0 1000 test_video_ok test_sprites_ok
    mixed_board_drawable eq_refl eq_refl ltac:(lia)) (or_introl eq_refl)).
Defined.

(** Three frames with cards turning in both directions. *)
Lemma board_refines_witness :
  steps_to (frames 3) mixed_board test_video script0 tt (stuck_board 2) /\ board_wf (stuck_board 2).
Proof.
  apply (proj2 (board_refines 3 mixed_board test_video script0 test_video_ok test_sprites_ok
    (conj mixed_board_drawable eq_refl))). vm_compute. reflexivity.
Defined.
