(* ===== verification/MainLoop.v ===== *)
(** proj/src/proj.c: [proj_main_loop]. The set-up, the loop that handles one message
    after the other, the states of the game on a timer interrupt, and the
    tear-down, over the globals of all the drivers and of the game. *)
From S2P Require Import Prelude Env Utils Timer Rtc I8042 Keyboard Mouse Video Cards Game Flip.

(** proj/src/structs.h:22-24 [gameState] *)
Inductive gameState : Type := Menu | Game | Pause | HighScores | Instructions | Exit | Wait.

#[export] Instance gameState_eq_dec : EqDecision gameState.
Proof. solve_decision. Defined.

(** proj/src/proj.c:114-163 [the local variables of the loop]: with [isAnyCardFlipping]
    (line 66); [initialAllCardsFlip] and [maxNumOfCardsFlipped] are never used. *)
Record loop_st : Type := LoopSt {
  gs : gameState;
  prevState : gameState;
  endGame : bool;
  initGame : bool;
  condition : bool;
  game_over : bool;
  victory : bool;
  isAnyCardFlipping : bool
}.

(** proj/src/proj.c:114-163 [initial values] *)
Definition loop_init_st : loop_st := LoopSt Menu Exit true true true false false false.

Definition set_gs (x : gameState) (l : loop_st) : loop_st :=
  LoopSt x (prevState l) (endGame l) (initGame l) (condition l) (game_over l) (victory l) (isAnyCardFlipping l).
Definition set_prevState (x : gameState) (l : loop_st) : loop_st :=
  LoopSt (gs l) x (endGame l) (initGame l) (condition l) (game_over l) (victory l) (isAnyCardFlipping l).
Definition set_endGame (x : bool) (l : loop_st) : loop_st :=
  LoopSt (gs l) (prevState l) x (initGame l) (condition l) (game_over l) (victory l) (isAnyCardFlipping l).
Definition set_initGame (x : bool) (l : loop_st) : loop_st :=
  LoopSt (gs l) (prevState l) (endGame l) x (condition l) (game_over l) (victory l) (isAnyCardFlipping l).
Definition set_condition (x : bool) (l : loop_st) : loop_st :=
  LoopSt (gs l) (prevState l) (endGame l) (initGame l) x (game_over l) (victory l) (isAnyCardFlipping l).
Definition set_game_over (x : bool) (l : loop_st) : loop_st :=
  LoopSt (gs l) (prevState l) (endGame l) (initGame l) (condition l) x (victory l) (isAnyCardFlipping l).
Definition set_victory (x : bool) (l : loop_st) : loop_st :=
  LoopSt (gs l) (prevState l) (endGame l) (initGame l) (condition l) (game_over l) x (isAnyCardFlipping l).
Definition set_isAnyCardFlipping (x : bool) (l : loop_st) : loop_st :=
  LoopSt (gs l) (prevState l) (endGame l) (initGame l) (condition l) (game_over l) (victory l) x.

(** ** The state of the program *)
Record main_st (W : Type) : Type := MainSt {
  ms_timer : timer_st;
  ms_kbd : kbd_st;
  ms_mouse : mouse_st;
  ms_rtc : rtc_st;
  ms_game : game_st;
  ms_video : video_st;
  ms_loop : loop_st;
  ms_world : W
}.
Arguments MainSt {W}.
Arguments ms_timer {W} m.
Arguments ms_kbd {W} m.
Arguments ms_mouse {W} m.
Arguments ms_rtc {W} m.
Arguments ms_game {W} m.
Arguments ms_video {W} m.
Arguments ms_loop {W} m.
Arguments ms_world {W} m.

Section Lenses.
Context {W : Type}.

Definition l_world : lens (main_st W) W := Lens ms_world (fun w s =>
  MainSt (ms_timer s) (ms_kbd s) (ms_mouse s) (ms_rtc s) (ms_game s) (ms_video s) (ms_loop s) w).
Definition l_timer : lens (main_st W) (timer_st * W) := Lens (fun s => (ms_timer s, ms_world s)) (fun c s =>
  MainSt c.1 (ms_kbd s) (ms_mouse s) (ms_rtc s) (ms_game s) (ms_video s) (ms_loop s) c.2).
Definition l_kbd : lens (main_st W) (kbd_st * W) := Lens (fun s => (ms_kbd s, ms_world s)) (fun c s =>
  MainSt (ms_timer s) c.1 (ms_mouse s) (ms_rtc s) (ms_game s) (ms_video s) (ms_loop s) c.2).
Definition l_mouse : lens (main_st W) (mouse_st * W) := Lens (fun s => (ms_mouse s, ms_world s)) (fun c s =>
  MainSt (ms_timer s) (ms_kbd s) c.1 (ms_rtc s) (ms_game s) (ms_video s) (ms_loop s) c.2).
Definition l_rtc : lens (main_st W) (rtc_st * W) := Lens (fun s => (ms_rtc s, ms_world s)) (fun c s =>
  MainSt (ms_timer s) (ms_kbd s) (ms_mouse s) c.1 (ms_game s) (ms_video s) (ms_loop s) c.2).
Definition l_video : lens (main_st W) (video_st * W) := Lens (fun s => (ms_video s, ms_world s)) (fun c s =>
  MainSt (ms_timer s) (ms_kbd s) (ms_mouse s) (ms_rtc s) (ms_game s) c.1 (ms_loop s) c.2).
Definition l_game : lens (main_st W) (game_st * (video_st * W)) :=
  Lens (fun s => (ms_game s, (ms_video s, ms_world s))) (fun c s =>
  MainSt (ms_timer s) (ms_kbd s) (ms_mouse s) (ms_rtc s) c.1 c.2.1 (ms_loop s) c.2.2).
Definition l_cards : lens (main_st W) (list card * W) := Lens (fun s => (cardArray (ms_game s), ms_world s)) (fun c s =>
  MainSt (ms_timer s) (ms_kbd s) (ms_mouse s) (ms_rtc s) (set_cardArray c.1 (ms_game s)) (ms_video s) (ms_loop s) c.2).

Definition upd_timer (f : timer_st -> timer_st) : M (main_st W) unit := modify (fun s =>
  MainSt (f (ms_timer s)) (ms_kbd s) (ms_mouse s) (ms_rtc s) (ms_game s) (ms_video s) (ms_loop s) (ms_world s)).
Definition upd_kbd (f : kbd_st -> kbd_st) : M (main_st W) unit := modify (fun s =>
  MainSt (ms_timer s) (f (ms_kbd s)) (ms_mouse s) (ms_rtc s) (ms_game s) (ms_video s) (ms_loop s) (ms_world s)).
Definition upd_mouse (f : mouse_st -> mouse_st) : M (main_st W) unit := modify (fun s =>
  MainSt (ms_timer s) (ms_kbd s) (f (ms_mouse s)) (ms_rtc s) (ms_game s) (ms_video s) (ms_loop s) (ms_world s)).
Definition upd_game (f : game_st -> game_st) : M (main_st W) unit := modify (fun s =>
  MainSt (ms_timer s) (ms_kbd s) (ms_mouse s) (ms_rtc s) (f (ms_game s)) (ms_video s) (ms_loop s) (ms_world s)).
Definition upd_video (f : video_st -> video_st) : M (main_st W) unit := modify (fun s =>
  MainSt (ms_timer s) (ms_kbd s) (ms_mouse s) (ms_rtc s) (ms_game s) (f (ms_video s)) (ms_loop s) (ms_world s)).
Definition upd_loop (f : loop_st -> loop_st) : M (main_st W) unit := modify (fun s =>
  MainSt (ms_timer s) (ms_kbd s) (ms_mouse s) (ms_rtc s) (ms_game s) (ms_video s) (f (ms_loop s)) (ms_world s)).

Definition in_world {A} (m : M W A) : M (main_st W) A := zoom l_world m.
Definition in_timer {A} (m : M (timer_st * W) A) : M (main_st W) A := zoom l_timer m.
Definition in_kbd {A} (m : M (kbd_st * W) A) : M (main_st W) A := zoom l_kbd m.
Definition in_mouse {A} (m : M (mouse_st * W) A) : M (main_st W) A := zoom l_mouse m.
Definition in_rtc {A} (m : M (rtc_st * W) A) : M (main_st W) A := zoom l_rtc m.
Definition in_video {A} (m : M (video_st * W) A) : M (main_st W) A := zoom l_video m.
Definition in_game {A} (m : M (game_st * (video_st * W)) A) : M (main_st W) A := zoom l_game m.
Definition draw {A} (m : M video_st A) : M (main_st W) unit :=
  let* _ := in_video (zoom fst_lens m) in skip.
End Lenses.

(** [packet1.lb = false] *)
Definition clear_lb (m : mouse_st) : mouse_st :=
  let p := packet1 m in
  set_packet1 (Packet (bytes0 p) (bytes1 p) (bytes2 p) (rb p) (mb p) false (delta_x p) (delta_y p) (x_ov p) (y_ov p)) m.

Definition set_lives (n : Z) (p : Player) : Player := MkPlayer (name p) n (isAlive p) (bestTime p).
Definition set_isAlive (b : bool) (p : Player) : Player := MkPlayer (name p) (lives p) b (bestTime p).

Section MainLoop.
Context {W : Type} `{PortIO W, Irq W, Lcf W, Display W, Libc W, Messages W}.

(** A break code of the keyboard, or the left button over a part of the screen. *)
Definition chosen (code x1 x2 y1 y2 : Z) (s : main_st W) : bool :=
  (scancode (ms_kbd s) =? code) ||
  lb (packet1 (ms_mouse s)) && (mouse_x (mouse (ms_game s)) >=? x1) && (mouse_x (mouse (ms_game s)) <=? x2) &&
    (mouse_y (mouse (ms_game s)) >=? y1) && (mouse_y (mouse (ms_game s)) <=? y2).

(** [tmr_tck_counter % n == 0] *)
Definition every (n : Z) (s : main_st W) : bool := Z.rem (tmr_tck_counter (ms_timer s)) n =? 0.

(** proj/src/proj.c:197-224 [case Menu] *)
Definition tick_menu : M (main_st W) unit :=
  draw greenScreen ;;
  let* h := gets (fun s => hour (date (ms_rtc s))) in
  (if (h <? 20) && (h >=? 6) then in_game drawSun else in_game drawMoon) ;;
  in_game draw_menu ;;
  draw my_updateVideoMem ;;
  let* play := gets (chosen P_KEY_BREAKCODE 360 445 300 330) in
  (if play : bool then
     upd_kbd (set_scancode 0x00) ;;
     upd_timer (fun t => TimerSt 0 (hook_id2 t)) ;;
     upd_loop (set_gs Game) ;;
     upd_mouse clear_lb
   else skip) ;;
  let* instr := gets (chosen I_KEY_BREAKCODE 280 520 400 430) in
  (if instr : bool then upd_loop (set_gs Instructions) ;; upd_mouse clear_lb else skip) ;;
  let* leave := gets (chosen E_KEY_BREAKCODE 360 440 500 530) in
  if leave : bool then upd_loop (set_gs Exit) else skip.

(** proj/src/proj.c:227-240 [case Game, the first ticks of a game] *)
Definition tick_init_game : M (main_st W) unit :=
  let* start := gets (every 240) in
  (if start : bool then
     in_game (for_range 0 16 (fun i => let* c := get_card i in put_card i (set_isFlipping true c))) ;;
     upd_loop (set_initGame false)
   else skip) ;;
  in_game draw_game_cards ;;
  in_game drawHearts ;;
  draw my_updateVideoMem.

(** proj/src/proj.c:253-262 [case Game, the click] *)
Definition tick_click : M (main_st W) unit :=
  let* pressed := gets (fun s => lb (packet1 (ms_mouse s))) in
  if pressed : bool then
    for_range 0 16 (fun i =>
      let* c := in_game (get_card i) in
      if Bool.eqb (isFlipping c) true then upd_loop (set_isAnyCardFlipping true) else skip) ;;
    let* l := gets ms_loop in
    if negb (isAnyCardFlipping l) then in_game flipCardOnClick else skip
  else skip.

(** proj/src/proj.c:279-287 [case Game, a life less] *)
Definition lose_life : M (main_st W) unit :=
  in_world (modify (sleep 1)) ;;
  upd_game (fun g => set_p1 (set_lives (u32 (lives (p1 g) - 1)) (p1 g)) g) ;;
  let* g := gets ms_game in
  if lives (p1 g) =? 0 then
    upd_game (fun g => set_p1 (set_isAlive false (p1 g)) g) ;;
    upd_loop (set_game_over true) ;;
    upd_loop (set_gs Exit)
  else skip.

(** Changes a member of [cardArray[i]]. *)
Definition change_card (i : Z) (f : card -> card) : M (main_st W) unit :=
  let* c := in_game (get_card i) in in_game (put_card i (f c)).

(** proj/src/proj.c:268-291 [case Game, card i of the comparison]: [flipCount] and
    [cardPosInArray] ([None] while it is not initialised). *)
Definition match_card (i : Z) (a : Z * option Z) : M (main_st W) (Z * option Z) :=
  let '(flipCount, cardPosInArray) := a in
  let* c := in_game (get_card i) in
  if negb (isFlipped c) && (flipCount =? 0) && negb (flipSuccess c) then
    ret (flipCount + 1, Some i)
  else if negb (isFlipped c) && (flipCount =? 1) && negb (flipSuccess c) then
    let* pos := of_option cardPosInArray in
    let* d := in_game (get_card pos) in
    (if same_face c d then
       change_card i (set_flipSuccess true) ;;
       change_card pos (set_flipSuccess true)
     else
       (if negb (isFlipping c) then lose_life else skip) ;;
       change_card i (set_isFlipping true) ;;
       change_card pos (set_isFlipping true)) ;;
    ret a
  else ret a.

(** proj/src/proj.c:264-293 [case Game, the comparison] *)
Definition tick_match : M (main_st W) unit :=
  let* l := gets ms_loop in
  if negb (isAnyCardFlipping l) then
    let* _ := for_range_acc 0 16 (0, None) match_card in skip
  else skip.

(** proj/src/proj.c:295-307 [case Game, the end of the game] *)
Definition tick_end : M (main_st W) unit :=
  upd_loop (set_endGame true) ;;
  for_range 0 16 (fun i =>
    let* c := in_game (get_card i) in
    if Bool.eqb (flipSuccess c) false then upd_loop (set_endGame false) else skip) ;;
  let* now := gets (every 120) in
  if now : bool then
    let* l := gets ms_loop in
    if endGame l then upd_loop (set_gs Exit) ;; upd_loop (set_victory true) else skip
  else skip.

(** proj/src/proj.c:241-308 [case Game, a running game] *)
Definition tick_play : M (main_st W) unit :=
  let* even := gets (every 2) in
  (if even : bool then in_game draw_game_cards else skip) ;;
  in_game drawHearts ;;
  draw my_updateVideoMem ;;
  let* s := get in
  (if scancode (ms_kbd s) =? 0x81 then upd_loop (set_gs Pause) else skip) ;;
  upd_loop (set_isAnyCardFlipping false) ;;
  tick_click ;;
  tick_match ;;
  tick_end.

(** proj/src/proj.c:225-310 [case Game] *)
Definition tick_game : M (main_st W) unit :=
  let* l := gets ms_loop in
  if initGame l then tick_init_game else tick_play.

(** proj/src/proj.c:311-329 [case Pause] *)
Definition tick_pause : M (main_st W) unit :=
  draw greenScreen ;;
  in_game draw_pause ;;
  let* resume := gets (chosen P_KEY_BREAKCODE 360 445 300 330) in
  (if resume : bool then upd_kbd (set_scancode 0x00) ;; upd_loop (set_gs Game) else skip) ;;
  let* instr := gets (chosen I_KEY_BREAKCODE 280 520 400 430) in
  (if instr : bool then
     upd_loop (set_gs Instructions) ;;
     upd_mouse clear_lb ;;
     upd_loop (set_prevState Game) ;;
     upd_kbd (set_scancode 0x00)
   else skip) ;;
  let* leave := gets (chosen E_KEY_BREAKCODE 360 440 500 530) in
  if leave : bool then upd_loop (set_gs Exit) ;; upd_kbd (set_scancode 0x00) else skip.

(** proj/src/proj.c:330-345 [case Instructions]: the second statement after the inner
    [if] of line 341 does not belong to it. *)
Definition tick_instructions : M (main_st W) unit :=
  draw greenScreen ;;
  in_game drawInstructions ;;
  let* s := get in
  if bool_decide (prevState (ms_loop s) = Game) then
    if (scancode (ms_kbd s) =? ESCAPE) || lb (packet1 (ms_mouse s)) then
      upd_loop (set_gs Game) ;;
      upd_loop (set_prevState Instructions) ;;
      upd_mouse clear_lb
    else skip
  else
    (if scancode (ms_kbd s) =? ESCAPE then upd_loop (set_gs Menu) else skip) ;;
    upd_mouse clear_lb.

(** proj/src/proj.c:351-358 [case Exit, a new game] *)
Definition new_game (fuel : nat) : M (main_st W) unit :=
  upd_loop (set_gs Menu) ;;
  upd_loop (set_game_over false) ;;
  upd_loop (set_victory false) ;;
  upd_loop (set_initGame true) ;;
  let* cards := gets (fun s => cardArray (ms_game s)) in
  let* cards := in_world (initialize_game_cards fuel cards) in
  upd_game (set_cardArray cards) ;;
  upd_game (set_p1 initializePlayer).

(** proj/src/proj.c:346-377 [case Exit] *)
Definition tick_exit (fuel : nat) : M (main_st W) unit :=
  draw greenScreen ;;
  let* l := gets ms_loop in
  let* again := gets (every 240) in
  (if game_over l then
     in_game draw_game_over ;;
     (if again : bool then new_game fuel else skip)
   else if victory l then
     in_game draw_victory ;;
     (if again : bool then new_game fuel else skip)
   else upd_loop (set_condition false)) ;;
  draw my_updateVideoMem.

(** proj/src/proj.c:196-382 [the switch of a timer interrupt] *)
Definition timer_tick (fuel : nat) : M (main_st W) unit :=
  let* l := gets ms_loop in
  (match gs l with
   | Menu => tick_menu
   | Game => tick_game
   | Pause => tick_pause
   | Instructions => tick_instructions
   | Exit => tick_exit fuel
   | HighScores | Wait => skip
   end) ;;
  in_game draw_mouse ;;
  draw my_updateVideoMem.

(** proj/src/proj.c:178-191 [a mouse interrupt]: [false] when it goes on with the next message. *)
Definition mouse_interrupt (fuel : nat) : M (main_st W) bool :=
  let* r := in_mouse (mouse_event fuel) in
  match r with
  | Dropped => ret false
  | Recovered => ret true
  | Processed =>
      let* p := gets (fun s => packet1 (ms_mouse s)) in
      in_game (update_mouse_position (delta_x p) (delta_y p)) ;;
      ret true
  end.

(** proj/src/proj.c:165-386 [one iteration of the loop]: [fuel] bounds the waiting loops of
    the mouse and the drawing of cards for a new game; the masks are those of
    the keyboard, the timer and the mouse. *)
Definition handle_message (fuel : nat) (irq_set irq_set2 irq_set3 : Z) : M (main_st W) unit :=
  let* m := in_world (call driver_receive) in
  if negb (rcv_status m =? 0) then skip else
  if rcv_notify m && rcv_hardware m then
    (if has (rcv_interrupts m) irq_set then in_kbd kbc_ih else skip) ;;
    let* go := (if has (rcv_interrupts m) irq_set3 then mouse_interrupt fuel else ret true) in
    if go && has (rcv_interrupts m) irq_set2 then
      in_timer timer_int_handler ;;
      timer_tick fuel
    else skip
  else skip.

(** proj/src/proj.c:165-386 [while (condition)] *)
Definition main_loop (fuel : nat) (irq_set irq_set2 irq_set3 : Z) : M (main_st W) unit :=
  loop fuel (
    let* l := gets ms_loop in
    if condition l then handle_message fuel irq_set irq_set2 irq_set3 ;; ret None
    else ret (Some tt)).

(** proj/src/proj.c:388-414 [the end of proj_main_loop] *)
Definition tear_down (fuel : nat) : M (main_st W) Z :=
  let* r := in_world (disable_mouse_data fuel) in
  if negb (r =? 0) then ret 1 else
  let* r := in_timer timer_unsubscribe_int in
  if negb (r =? 0) then ret 1 else
  let* r := in_kbd kbc_unsubscribe in
  if negb (r =? 0) then ret 1 else
  let* r := in_mouse mouse_unsubscribe in
  if negb (r =? 0) then ret 1 else
  let* r := in_world (call vg_exit) in
  if negb (r =? 0) then ret 1 else
  in_video clear_buffer ;;
  ret 0.

(** proj/src/proj.c:102-112 [the images]: [set_imgDeck] and [set_imgCardBack] go to video.c. *)
Definition set_imgDeck (i : xpm_image_t) (v : video_st) : video_st :=
  VideoSt (video_mem v) (buffer v) i (imgCardBack v) (modeinfo v).
Definition set_imgCardBack (i : xpm_image_t) (v : video_st) : video_st :=
  VideoSt (video_mem v) (buffer v) (imgDeck v) i (modeinfo v).
(** proj/src/proj.c:102-112 [spriteGameName = xpm_load(gameName, XPM_8_8_8, &imgGameName), and so on] *)
Definition load_images : M (main_st W) unit :=
  let ld m := in_world (call (xpm_load m XPM_8_8_8)) in
  let* iName := ld gameName in
  let* iDeck := ld deck in
  upd_video (set_imgDeck iDeck) ;;
  let* iBack := ld cardback in
  upd_video (set_imgCardBack iBack) ;;
  let* iMouse := ld mouse_cursor in
  let* iHeart := ld heart in
  let* iVictory := ld Game.victory in
  let* iOver := ld Game.game_over in
  let* iInstr := ld instructions in
  let* iSun := ld sun in
  let* iMoon := ld moon in
  let* iBackground := ld background in
  upd_game (set_imgs (Sprites iName iMouse iHeart iVictory iOver iInstr iMoon iSun iBackground)).

(** proj/src/proj.c:124-163 [proj_main_loop, from the first subscription on] *)
Definition serve (fuel : nat) : M (main_st W) Z :=
  let* ' (r, hookid) := in_kbd kbc_subscribe in
  if negb (r =? 0) then ret 1 else
  let irq_set := u8 (BIT hookid) in
  let* ' (r, hookid2) := in_timer timer_subscribe_int in
  if negb (r =? 0) then ret 1 else
  let irq_set2 := u8 (BIT hookid2) in
  let* ' (r, hookid3) := in_mouse mouse_subscribe in
  if negb (r =? 0) then ret 1 else
  let irq_set3 := u8 (BIT hookid3) in
  let* r := in_world (call mouse_enable_data_reporting) in
  if negb (r =? 0) then ret 1 else
  let* r := in_video (vg_start 0x115) in
  if negb (r =? 0) then ret 1 else
  upd_loop (fun l => set_victory false (set_game_over false (set_condition true (set_initGame true (set_endGame true l))))) ;;
  main_loop fuel irq_set irq_set2 irq_set3 ;;
  tear_down fuel.

(** proj/src/proj.c:94-123 [proj_main_loop] *)
Definition proj_main_loop (fuel : nat) : M (main_st W) Z :=
  in_world (modify srand_time) ;;
  let* cards := gets (fun s => cardArray (ms_game s)) in
  let* cards := in_world (initialize_game_cards fuel cards) in
  upd_game (set_cardArray cards) ;;
  upd_game (set_p1 initializePlayer) ;;
  upd_game (set_mouse create_mouse) ;;
  load_images ;;
  upd_loop (fun l => set_prevState Exit (set_gs Menu l)) ;;
  let* _ := in_rtc get_date in
  serve fuel.
End MainLoop.

(** ** Specification *)

(** The changes of state the game allows on one message. *)
Definition next (a b : gameState) : Prop :=
  a = b \/
  match a with
  | Menu => b = Game \/ b = Instructions \/ b = Exit
  | Game => b = Pause \/ b = Exit
  | Pause => b = Game \/ b = Instructions \/ b = Exit
  | Instructions => b = Menu \/ b = Game
  | Exit => b = Menu
  | HighScores | Wait => False
  end.

(** A face-up card that has no partner yet. *)
Definition open_card (c : card) : bool := negb (isFlipped c) && negb (flipSuccess c).

Definition with_cards {W} (l : list card) (s : main_st W) : main_st W :=
  MainSt (ms_timer s) (ms_kbd s) (ms_mouse s) (ms_rtc s) (set_cardArray l (ms_game s)) (ms_video s) (ms_loop s) (ms_world s).
Definition with_picture {W} (v : video_st) (w : W) (s : main_st W) : main_st W :=
  MainSt (ms_timer s) (ms_kbd s) (ms_mouse s) (ms_rtc s) (ms_game s) v (ms_loop s) w.
Definition with_loop {W} (l : loop_st) (s : main_st W) : main_st W :=
  MainSt (ms_timer s) (ms_kbd s) (ms_mouse s) (ms_rtc s) (ms_game s) (ms_video s) l (ms_world s).

(** One life less: the last one ends the game. *)
Definition life_lost {W} `{Libc W} (s : main_st W) : main_st W :=
  let p := p1 (ms_game s) in
  let n := u32 (lives p - 1) in
  MainSt (ms_timer s) (ms_kbd s) (ms_mouse s) (ms_rtc s)
    (set_p1 (MkPlayer (name p) n (if n =? 0 then false else isAlive p) (bestTime p)) (ms_game s))
    (ms_video s)
    (if n =? 0 then set_gs Exit (set_game_over true (ms_loop s)) else ms_loop s)
    (sleep 1 (ms_world s)).

(** * Lemmas *)

(** ** Predicates that only depend on the loop's variables *)
Section Keeps.
Context {W : Type}.

(** [m] keeps [Q] true of the loop's variables. *)
Definition keeps {A} (Q : loop_st -> Prop) (m : M (main_st W) A) : Prop :=
  forall s, Q (ms_loop s) -> wlp m (fun _ s' => Q (ms_loop s')) s.

Lemma keeps_bind {A B} Q (m : M (main_st W) A) (k : A -> M (main_st W) B) :
  keeps Q m -> (forall a, keeps Q (k a)) -> keeps Q (bind m k).
Proof.
  intros Hm Hk s HQ. apply wlp_bind. eapply wlp_mono; [by apply Hm|]. intros a s' HQ'. by apply Hk.
Qed.

Lemma keeps_ret {A} Q (a : A) : keeps Q (ret a).
Proof. by intros s HQ. Qed.

Lemma keeps_skip Q : keeps Q skip.
Proof. by intros s HQ. Qed.

Lemma keeps_gets {A} Q (f : main_st W -> A) : keeps Q (gets f).
Proof. by intros s HQ. Qed.

Lemma keeps_get Q : keeps Q get.
Proof. by intros s HQ. Qed.

Lemma keeps_of_option {A} Q (o : option A) : keeps Q (of_option o).
Proof. intros s HQ. by destruct o. Qed.

(** A component other than the loop's variables. *)
Lemma keeps_zoom {C A} Q (l : lens (main_st W) C) (m : M C A) :
  (forall c s, ms_loop (lset l c s) = ms_loop s) -> keeps Q (zoom l m).
Proof.
  intros Hl s HQ. apply wlp_zoom. unfold wlp. destruct (m (lget l s)); [|done..]. by rewrite Hl.
Qed.

Lemma keeps_in_game {A} Q (m : M (game_st * (video_st * W)) A) : keeps Q (in_game m).
Proof. by apply keeps_zoom. Qed.
Lemma keeps_in_world {A} Q (m : M W A) : keeps Q (in_world m).
Proof. by apply keeps_zoom. Qed.
Lemma keeps_in_mouse {A} Q (m : M (mouse_st * W) A) : keeps Q (in_mouse m).
Proof. by apply keeps_zoom. Qed.
Lemma keeps_in_kbd {A} Q (m : M (kbd_st * W) A) : keeps Q (in_kbd m).
Proof. by apply keeps_zoom. Qed.
Lemma keeps_in_timer {A} Q (m : M (timer_st * W) A) : keeps Q (in_timer m).
Proof. by apply keeps_zoom. Qed.
Lemma keeps_draw {A} Q (m : M video_st A) : keeps Q (draw m).
Proof. apply keeps_bind; [by apply keeps_zoom|]. intros _. apply keeps_skip. Qed.

Lemma keeps_modify Q (f : main_st W -> main_st W) :
  (forall s, ms_loop (f s) = ms_loop s) -> keeps Q (modify f).
Proof. intros Hf s HQ. apply wlp_modify. by rewrite Hf. Qed.

Lemma keeps_upd_kbd Q f : keeps Q (upd_kbd (W := W) f).
Proof. by apply keeps_modify. Qed.
Lemma keeps_upd_timer Q f : keeps Q (upd_timer (W := W) f).
Proof. by apply keeps_modify. Qed.
Lemma keeps_upd_mouse Q f : keeps Q (upd_mouse (W := W) f).
Proof. by apply keeps_modify. Qed.
Lemma keeps_upd_game Q f : keeps Q (upd_game (W := W) f).
Proof. by apply keeps_modify. Qed.

(** The loop's variables: their other members, and a new state that satisfies [Q]. *)
Lemma keeps_upd_loop Q f : (forall l, Q l -> Q (f l)) -> keeps Q (upd_loop (W := W) f).
Proof. intros Hf s HQ. by apply Hf. Qed.

Lemma keeps_for_acc {A} Q n i (a : A) (body : Z -> A -> M (main_st W) A) :
  (forall j a, keeps Q (body j a)) -> keeps Q (for_acc n i a body).
Proof.
  intros Hb. revert i a. induction n as [|n IH]; intros i a; simpl; [apply keeps_ret|].
  apply keeps_bind; [done|]. intros a'. apply IH.
Qed.
End Keeps.

Create HintDb c_keeps.
#[export] Hint Resolve keeps_ret keeps_skip keeps_gets keeps_get keeps_of_option keeps_in_game keeps_in_world
  keeps_in_mouse keeps_in_kbd keeps_in_timer keeps_draw keeps_upd_kbd keeps_upd_timer keeps_upd_mouse
  keeps_upd_game keeps_for_acc : c_keeps.

(** Splits code into its steps and solves those that keep the loop's variables. *)
Ltac keeps_step :=
  lazymatch goal with
  | |- keeps _ (bind _ _) => apply keeps_bind; [|intros ?]
  | |- keeps _ (for_range _ _ _) => apply keeps_for_acc; intros ? ?
  | |- keeps _ (for_range_acc _ _ _ _) => apply keeps_for_acc; intros ? ?
  | |- keeps _ (upd_loop _) => apply keeps_upd_loop; intros ?; simpl; tauto
  | |- keeps _ (if ?b then _ else _) => destruct b
  | |- keeps _ (match ?b with _ => _ end) => destruct b
  | |- keeps _ _ => solve [auto with c_keeps]
  end.
Ltac keeps_all := repeat keeps_step.

Section Transitions.
Context {W : Type} `{PortIO W, Irq W, Lcf W, Display W, Libc W, Messages W}.

(** The state moves along [next], and the loop is told to end only in the state [Exit]. *)
Definition along (a : gameState) (b : bool) (l : loop_st) : Prop := next a (gs l) /\ condition l = b.
Definition moves (l l' : loop_st) : Prop :=
  next (gs l) (gs l') /\ (condition l' = condition l \/ gs l' = Exit).

Lemma tick_menu_keeps b : keeps (along Menu b) (tick_menu (W := W)).
Proof. unfold along, next, tick_menu. keeps_all. Qed.

Lemma tick_game_keeps b : keeps (along Game b) (tick_game (W := W)).
Proof.
  unfold along, next, tick_game, tick_init_game, tick_play, tick_click, tick_match, tick_end, match_card, lose_life, change_card.
  keeps_all.
Qed.

Lemma tick_pause_keeps b : keeps (along Pause b) (tick_pause (W := W)).
Proof. unfold along, next, tick_pause. keeps_all. Qed.

Lemma tick_instructions_keeps b : keeps (along Instructions b) (tick_instructions (W := W)).
Proof. unfold along, next, tick_instructions. keeps_all. Qed.

Lemma new_game_keeps fuel b : keeps (along Exit b) (new_game (W := W) fuel).
Proof. unfold along, next, new_game. keeps_all. Qed.

Lemma tick_exit_moves fuel s :
  gs (ms_loop s) = Exit -> wlp (tick_exit fuel) (fun _ s' => moves (ms_loop s) (ms_loop s')) s.
Proof.
  intros Hgs. pose proof (new_game_keeps fuel) as Hn.
  unfold tick_exit. apply wlp_bind. eapply wlp_mono; [by apply (keeps_draw (eq (ms_loop s)))|].
  intros [] s1 E1. apply wlp_bind, wlp_gets, wlp_bind, wlp_gets, wlp_bind.
  eapply wlp_mono with (Q := fun _ s' => moves (ms_loop s) (ms_loop s')).
  2: { intros [] s2 Hm. by apply (keeps_draw (moves (ms_loop s))). }
  assert (along Exit (condition (ms_loop s)) (ms_loop s1)) as Ha by (rewrite <- E1; split; [by left|done]).
  assert (forall d : M (main_st W) unit, keeps (along Exit (condition (ms_loop s))) d ->
    wlp (d ;; (if every 240 s1 then new_game fuel else skip)) (fun _ s' => moves (ms_loop s) (ms_loop s')) s1) as Hend.
  { intros d Hd. eapply wlp_mono; [apply (keeps_bind _ d _ Hd); [|exact Ha]|].
    - intros []. destruct (every 240 s1); [apply Hn|apply keeps_skip].
    - intros [] s2 [Hx Hc]. split; [by rewrite Hgs|by left]. }
  destruct (game_over (ms_loop s1)); [apply Hend, keeps_in_game|].
  destruct (victory (ms_loop s1)); [apply Hend, keeps_in_game|].
  apply wlp_modify. rewrite <- E1. split; [by left|by right].
Qed.

Lemma timer_tick_moves fuel s :
  wlp (timer_tick fuel) (fun _ s' => moves (ms_loop s) (ms_loop s')) s.
Proof.
  unfold timer_tick. apply wlp_bind, wlp_gets, wlp_bind.
  eapply wlp_mono with (Q := fun _ s' => moves (ms_loop s) (ms_loop s')).
  2: { intros [] s' Hn. apply (fun Hd : keeps (moves (ms_loop s)) _ => Hd s' Hn). keeps_all. }
  assert (forall m : M (main_st W) unit, keeps (along (gs (ms_loop s)) (condition (ms_loop s))) m ->
    wlp m (fun _ s' => moves (ms_loop s) (ms_loop s')) s) as Hk.
  { intros m Hm. eapply wlp_mono; [apply Hm; split; [by left|done]|]. intros [] s' [Hx Hc]. split; [done|by left]. }
  destruct (gs (ms_loop s)) eqn:E; [..|by apply tick_exit_moves|];
    apply Hk; auto using tick_menu_keeps, tick_game_keeps, tick_pause_keeps, tick_instructions_keeps, keeps_skip.
Qed.

Lemma handle_message_moves fuel i1 i2 i3 s :
  wlp (handle_message fuel i1 i2 i3) (fun _ s' => moves (ms_loop s) (ms_loop s')) s.
Proof.
  assert (forall l, ms_loop s = l -> moves (ms_loop s) l) as HQ by (intros l <-; split; by left).
  unfold handle_message. apply wlp_bind. eapply wlp_mono; [by apply (keeps_in_world (eq (ms_loop s)))|].
  intros m s1 Hg1. case_match; [by apply HQ|]. case_match; [|by apply HQ].
  apply wlp_bind. eapply wlp_mono.
  { apply (fun Hk : keeps (eq (ms_loop s)) _ => Hk s1 Hg1). keeps_all. }
  intros [] s2 Hg2. apply wlp_bind. eapply wlp_mono.
  { apply (fun Hk : keeps (eq (ms_loop s)) _ => Hk s2 Hg2). unfold mouse_interrupt. keeps_all. }
  intros go s3 Hg3. case_match; [|by apply HQ]. apply wlp_bind. eapply wlp_mono.
  { by apply (keeps_in_timer (eq (ms_loop s))). }
  intros [] s4 Hg4. rewrite Hg4. apply timer_tick_moves.
Qed.

(** One iteration of the loop, and any number of them. *)
Definition message (i1 i2 i3 : Z) (s s' : main_st W) : Prop :=
  condition (ms_loop s) = true /\ exists fuel, handle_message fuel i1 i2 i3 s = Done tt s'.
Definition run (i1 i2 i3 : Z) : main_st W -> main_st W -> Prop := rtc (message i1 i2 i3).

Lemma message_moves i1 i2 i3 s s' : message i1 i2 i3 s s' -> moves (ms_loop s) (ms_loop s').
Proof. intros [_ [fuel E]]. pose proof (handle_message_moves fuel i1 i2 i3 s) as Hm. unfold wlp in Hm. by rewrite E in Hm. Qed.

Lemma loop_runs fuel n i1 i2 i3 s s' :
  loop n (let* l := gets ms_loop in
    if condition l then handle_message fuel i1 i2 i3 ;; ret None else ret (Some tt)) s = Done tt s' ->
  run i1 i2 i3 s s' /\ condition (ms_loop s') = false.
Proof.
  revert s. induction n as [|n IH]; intros s; [done|]. cbn [loop]. unfold bind at 1 2. rewrite gets_eq.
  destruct (condition (ms_loop s)) eqn:Hc; [|intros [= <-]; by split].
  unfold bind at 1. destruct (handle_message fuel i1 i2 i3 s) as [[] s1| | |] eqn:E; try done.
  intros [Hr Hc']%IH. split; [|done]. eapply rtc_l; [|done]. split; [done|]. by exists fuel.
Qed.

(** The states that a run from the menu can be in. *)
Definition playing (a : gameState) : Prop := a <> HighScores /\ a <> Wait.

Lemma run_moves i1 i2 i3 s s' : run i1 i2 i3 s s' ->
  rtc next (gs (ms_loop s)) (gs (ms_loop s')) /\
  (playing (gs (ms_loop s)) -> playing (gs (ms_loop s'))) /\
  (condition (ms_loop s) = true -> condition (ms_loop s') = false -> gs (ms_loop s') = Exit).
Proof.
  induction 1 as [s|s s1 s2 Hm Hr (IH1 & IH2 & IH3)]; [split_and!; [done|done|congruence]|].
  pose proof (message_moves _ _ _ _ _ Hm) as [Hn Hc]. split_and!; [by eapply rtc_l| |].
  - intros [Hh Hw]. apply IH2. destruct Hn as [<-|Hn]; [done|]. unfold playing.
    destruct (gs (ms_loop s)); try done; intuition congruence.
  - intros Hc0 Hc2. destruct (condition (ms_loop s1)) eqn:E1; [by apply IH3|].
    destruct Hr as [s1|s1 s3 s2 [Hc1 _] _]; [|congruence]. destruct Hc; congruence.
Qed.
End Transitions.

(** ** Frames of the loop's code *)
Section Runs.
Context {W : Type} `{PortIO W, Irq W, Lcf W, Display W, Libc W, Messages W}.

(** Code that only draws, run from the program's state. *)
Lemma wp_in_game_draws {A} (m : M (game_st * (video_st * W)) A) (Q : A -> main_st W -> Prop) s :
  only_draws m (ms_game s) (ms_video s) (ms_world s) ->
  (forall a v w, same_but_pixels (ms_video s) v -> Q a (with_picture v w s)) ->
  wp (in_game m) Q s.
Proof.
  intros Hd HQ. apply wp_zoom. eapply wp_mono; [exact Hd|]. intros a [g [v w]] [Hg Hs].
  simpl in Hg, Hs. subst g. by apply (HQ a v w).
Qed.

Lemma wp_draw_green (Q : unit -> main_st W -> Prop) s :
  frame_ok (ms_video s) ->
  (forall v, same_but_pixels (ms_video s) v -> Q tt (with_picture v (ms_world s) s)) ->
  wp (draw greenScreen) Q s.
Proof.
  intros Hf HQ. apply wp_bind, wp_zoom, wp_zoom. apply wp_greenScreen; [apply Hf|].
  intros v [Hs _]. apply wp_skip. by apply HQ.
Qed.

(** [v'] is [v] with other pixels in the frame buffer and in the video memory. *)
Definition same_but_memory (v v' : video_st) : Prop :=
  exists b m, v' = set_video_mem m (set_buffer b v) /\ (frame_ok v -> frame_ok v').

Lemma wp_draw_update (Q : unit -> main_st W -> Prop) s :
  frame_ok (ms_video s) ->
  (forall v, same_but_memory (ms_video s) v -> Q tt (with_picture v (ms_world s) s)) ->
  wp (draw my_updateVideoMem) Q s.
Proof.
  intros Hf HQ. destruct (frame_mem _ Hf) as (b & Hb & Hsz).
  apply wp_bind, wp_zoom, wp_zoom. apply (wp_my_updateVideoMem _ b); [apply Hf|done|done|].
  intros v b' -> Hs _. apply wp_skip, HQ. exists (buffer (ms_video s)), (Some b').
  split; [simpl; by destruct (ms_video s)|]. intros [Hv ?? ? ? ? ?]. split; try done.
  exists b'. split; [done|]. simpl. congruence.
Qed.

Lemma same_memory_pixels v v' : same_but_pixels v v' -> same_but_memory v v'.
Proof.
  intros Hs. pose proof Hs as (b & b' & _ & -> & _).
  exists (Some b'), (video_mem v). split; [by destruct v|]. by apply frame_same.
Qed.

Lemma same_memory_trans v1 v2 v3 : same_but_memory v1 v2 -> same_but_memory v2 v3 -> same_but_memory v1 v3.
Proof.
  intros (b & m & -> & H12) (b' & m' & -> & H23). exists b', m'. split; [done|]. auto.
Qed.

(** The end of every tick: the cursor, and the picture on the monitor. *)
Lemma wp_tick_cursor (Q : unit -> main_st W -> Prop) s :
  frame_ok (ms_video s) -> sprites_ok (imgs (ms_game s)) ->
  0 <= mouse_x (mouse (ms_game s)) < 800 -> 0 <= mouse_y (mouse (ms_game s)) < 65000 ->
  cursor_fits (mouse (ms_game s)) = true ->
  (forall v w, same_but_memory (ms_video s) v -> Q tt (with_picture v w s)) ->
  wp (in_game draw_mouse ;; draw my_updateVideoMem) Q s.
Proof.
  intros Hf Hi Hx Hy Hc HQ. apply wp_bind, wp_in_game_draws; [by apply draw_mouse_only|].
  intros [] v w Hs. apply wp_draw_update; [by eapply frame_same|]. intros v' Hs'.
  apply (HQ v' w). by eapply same_memory_trans; [apply same_memory_pixels|].
Qed.

(** ** The comparison of two cards *)

Lemma in_game_get_card i c (s : main_st W) :
  0 <= i -> cardArray (ms_game s) !! Z.to_nat i = Some c -> in_game (get_card i) s = Done c s.
Proof.
  intros Hi Hc. unfold in_game, zoom, get_card, game_gets, arr_get.
  rewrite (bind_Done _ _ _ _ _ (gets_eq _ _)). cbn [fst id lget l_game].
  replace (i <? 0) with false by lia. rewrite Hc. by destruct s.
Qed.

Lemma change_card_eq i f c (s : main_st W) :
  0 <= i -> cardArray (ms_game s) !! Z.to_nat i = Some c ->
  change_card i f s = Done tt (with_cards (<[Z.to_nat i := f c]> (cardArray (ms_game s))) s).
Proof.
  intros Hi Hc. unfold change_card. rewrite (bind_Done _ _ _ _ _ (in_game_get_card i c s Hi Hc)).
  pose proof (lookup_lt_Some _ _ _ Hc). unfold in_game, zoom, put_card, game_gets, arr_set.
  rewrite (bind_Done _ _ _ _ _ (gets_eq _ _)). cbn [fst id lget l_game].
  by replace (_ && _) with true by lia.
Qed.

Lemma for_acc_app {S A} n m i (a : A) (body : Z -> A -> M S A) s :
  for_acc (n + m) i a body s = bind (for_acc n i a body) (fun a => for_acc m (i + Z.of_nat n) a body) s.
Proof.
  revert i a s. induction n as [|n IH]; intros i a s; simpl.
  - by rewrite Z.add_0_r.
  - unfold bind at 1. destruct (body i a s) as [a' s'| | |] eqn:E; unfold bind at 1; rewrite ?(bind_Done _ _ _ _ _ E);
      unfold bind in *; rewrite ?E; try done.
    rewrite IH. by replace (i + 1 + Z.of_nat n) with (i + Z.pos (Pos.of_succ_nat n)) by lia.
Qed.

(** Cards that are face down or matched are passed over. *)
Lemma match_skip n i a (s : main_st W) :
  0 <= i ->
  (forall j, i <= j < i + Z.of_nat n -> exists c, cardArray (ms_game s) !! Z.to_nat j = Some c /\ open_card c = false) ->
  for_acc n i a match_card s = Done a s.
Proof.
  revert i. induction n as [|n IH]; intros i Hi Hall; [done|]. simpl.
  destruct (Hall i ltac:(lia)) as (c & Hc & Ho).
  rewrite (bind_Done _ _ _ a s); [apply IH; [lia|]; intros j Hj; apply Hall; lia|].
  destruct a as [k pos]. unfold match_card. rewrite (bind_Done _ _ _ _ _ (in_game_get_card i c s Hi Hc)).
  unfold open_card in Ho. by destruct (isFlipped c), (flipSuccess c), (k =? 0), (k =? 1).
Qed.

Lemma match_first i c (s : main_st W) :
  0 <= i -> cardArray (ms_game s) !! Z.to_nat i = Some c -> open_card c = true ->
  match_card i (0, None) s = Done (1, Some i) s.
Proof.
  intros Hi Hc Ho. unfold match_card. rewrite (bind_Done _ _ _ _ _ (in_game_get_card i c s Hi Hc)).
  unfold open_card in Ho. by destruct (isFlipped c), (flipSuccess c).
Qed.

Lemma lose_life_eq (s : main_st W) : lose_life s = Done tt (life_lost s).
Proof.
  unfold lose_life, life_lost, in_world, upd_game, upd_loop.
  rewrite (bind_Done _ _ _ tt (MainSt (ms_timer s) (ms_kbd s) (ms_mouse s) (ms_rtc s) (ms_game s) (ms_video s)
    (ms_loop s) (sleep 1 (ms_world s)))) by done.
  rewrite !(bind_Done _ _ _ _ _ (modify_eq _ _)), (bind_Done _ _ _ _ _ (gets_eq _ _)).
  cbv zeta. cbn [ms_timer ms_kbd ms_mouse ms_rtc ms_game ms_video ms_loop ms_world p1 set_p1 set_lives lives].
  by destruct (u32 (lives (p1 (ms_game s)) - 1) =? 0).
Qed.

(** Both cards change in the same way. *)
Lemma change_two i p f c d (s : main_st W) :
  0 <= i -> 0 <= p -> i <> p ->
  cardArray (ms_game s) !! Z.to_nat i = Some c -> cardArray (ms_game s) !! Z.to_nat p = Some d ->
  (change_card i f ;; change_card p f) s =
    Done tt (with_cards (<[Z.to_nat p := f d]> (<[Z.to_nat i := f c]> (cardArray (ms_game s)))) s).
Proof.
  intros Hi Hp Hne Hc Hd. rewrite (bind_Done _ _ _ _ _ (change_card_eq i f c s Hi Hc)).
  rewrite (change_card_eq p f d); [done|done|]. simpl. rewrite list_lookup_insert_ne by lia. done.
Qed.

Lemma match_second i p c d (s : main_st W) :
  0 <= i -> 0 <= p -> i <> p ->
  cardArray (ms_game s) !! Z.to_nat i = Some c -> cardArray (ms_game s) !! Z.to_nat p = Some d ->
  open_card c = true ->
  match_card i (1, Some p) s = Done (1, Some p)
    (if same_face c d
     then with_cards (<[Z.to_nat p := set_flipSuccess true d]>
            (<[Z.to_nat i := set_flipSuccess true c]> (cardArray (ms_game s)))) s
     else with_cards (<[Z.to_nat p := set_isFlipping true d]>
            (<[Z.to_nat i := set_isFlipping true c]> (cardArray (ms_game s))))
            (if isFlipping c then s else life_lost s)).
Proof.
  intros Hi Hp Hne Hc Hd Ho. unfold match_card. rewrite (bind_Done _ _ _ _ _ (in_game_get_card i c s Hi Hc)).
  unfold open_card in Ho. destruct (isFlipped c) eqn:E1, (flipSuccess c) eqn:E2; try done. cbn [negb andb Z.eqb Pos.eqb].
  cbn [of_option]. rewrite bind_ret, (bind_Done _ _ _ _ _ (in_game_get_card p d s Hp Hd)).
  destruct (same_face c d).
  - by rewrite (bind_Done _ _ _ _ _ (change_two i p (set_flipSuccess true) c d s Hi Hp Hne Hc Hd)).
  - destruct (isFlipping c) eqn:E3; cbn [negb].
    + rewrite (bind_Done _ _ _ tt _ (eq_trans (bind_ret _ _ _)
        (change_two i p (set_isFlipping true) c d s Hi Hp Hne Hc Hd))). done.
    + rewrite (bind_Done _ _ _ tt _ (eq_trans (bind_Done _ _ _ _ _ (lose_life_eq s))
        (change_two i p (set_isFlipping true) c d (life_lost s) Hi Hp Hne Hc Hd))). done.
Qed.

(** The comparison of the only two open cards. *)
Definition matched (p q : nat) (d c : card) (s : main_st W) : main_st W :=
  if same_face c d
  then with_cards (<[p := set_flipSuccess true d]> (<[q := set_flipSuccess true c]> (cardArray (ms_game s)))) s
  else with_cards (<[p := set_isFlipping true d]> (<[q := set_isFlipping true c]> (cardArray (ms_game s))))
         (if isFlipping c then s else life_lost s).

Lemma match_pair_eq p q d c (s : main_st W) :
  isAnyCardFlipping (ms_loop s) = false -> length (cardArray (ms_game s)) = 16%nat -> (p < q)%nat ->
  cardArray (ms_game s) !! p = Some d -> cardArray (ms_game s) !! q = Some c ->
  open_card d = true -> open_card c = true ->
  (forall j e, j <> p -> j <> q -> cardArray (ms_game s) !! j = Some e -> open_card e = false) ->
  tick_match s = Done tt (matched p q d c s).
Proof.
  intros Hany Hl Hpq Hd Hc Hod Hoc Hrest. pose proof (lookup_lt_Some _ _ _ Hc) as Hq. rewrite Hl in Hq.
  assert (forall (s' : main_st W) i j, cardArray (ms_game s') = cardArray (ms_game s) \/ cardArray (ms_game s') = cardArray (ms_game (matched p q d c s)) ->
    0 <= i <= j -> j < 16 -> Z.to_nat j <> p -> Z.to_nat j <> q ->
    exists e, cardArray (ms_game s') !! Z.to_nat j = Some e /\ open_card e = false) as Hskip.
  { intros s' i j Hs' Hij Hj Hjp Hjq. destruct (lookup_lt_is_Some_2 (cardArray (ms_game s)) (Z.to_nat j)) as [e He]; [lia|].
    exists e. split; [|by eapply Hrest]. destruct Hs' as [-> | ->]; [done|].
    unfold matched. destruct (same_face c d); simpl; by rewrite !list_lookup_insert_ne by done. }
  unfold tick_match. rewrite (bind_Done _ _ _ _ _ (gets_eq _ _)), Hany. cbn [negb]. unfold for_range_acc.
  rewrite (bind_Done _ _ _ (1, Some (Z.of_nat p)) (matched p q d c s)); [done|].
  change (Z.to_nat (16 - 0)) with 16%nat.
  replace 16%nat with (p + (1 + ((q - p - 1) + (1 + (15 - q)))))%nat by lia.
  rewrite for_acc_app, (bind_Done _ _ _ (0, None) s).
  2: { apply match_skip; [lia|]. intros j Hj. apply (Hskip s 0); lia || by left. }
  rewrite for_acc_app, (bind_Done _ _ _ (1, Some (Z.of_nat p)) s).
  2: { simpl. rewrite (bind_Done _ _ _ _ _ (match_first (0 + Z.of_nat p) d s ltac:(lia)
         ltac:(by replace (Z.to_nat (0 + Z.of_nat p)) with p by lia) Hod)). done. }
  rewrite for_acc_app, (bind_Done _ _ _ (1, Some (Z.of_nat p)) s).
  2: { apply match_skip; [lia|]. intros j Hj. apply (Hskip s 0); lia || by left. }
  rewrite for_acc_app, (bind_Done _ _ _ (1, Some (Z.of_nat p)) (matched p q d c s)).
  - apply match_skip; [lia|]. intros j Hj. apply (Hskip _ 0); lia || by right.
  - cbn [for_acc]. match goal with |- context [match_card ?k (1, _)] => set (i := k) end.
    assert (Z.to_nat i = q) as Ei by (unfold i; lia).
    rewrite (bind_Done _ _ _ (1, Some (Z.of_nat p)) (matched p q d c s)); [done|].
    rewrite (match_second i (Z.of_nat p) c d s); rewrite ?Nat2Z.id, ?Ei; done || lia.
Qed.

(** Fewer than two open cards are left alone. *)
Lemma match_none_eq (s : main_st W) :
  (forall j e, cardArray (ms_game s) !! j = Some e -> open_card e = false) ->
  length (cardArray (ms_game s)) = 16%nat -> tick_match s = Done tt s.
Proof.
  intros Hrest Hl. unfold tick_match. rewrite (bind_Done _ _ _ _ _ (gets_eq _ _)).
  destruct (isAnyCardFlipping (ms_loop s)); [done|]. cbn [negb]. unfold for_range_acc.
  rewrite (bind_Done _ _ _ (0, None) s); [done|]. apply match_skip; [lia|]. intros j Hj.
  destruct (lookup_lt_is_Some_2 (cardArray (ms_game s)) (Z.to_nat j)) as [e He]; [lia|]. eauto.
Qed.
End Runs.

(** ** Ticks that only draw *)
Section Calm.
Context {W : Type} `{PortIO W, Irq W, Lcf W, Display W, Libc W, Messages W}.

(** [m] returns, and leaves the game as it is and the display usable. *)
Definition calm {A} (m : M (main_st W) A) : Prop :=
  forall s, frame_ok (ms_video s) -> sprites_ok (imgs (ms_game s)) ->
    wp m (fun _ s' => ms_game s' = ms_game s /\ frame_ok (ms_video s')) s.

Lemma calm_bind {A B} (m : M (main_st W) A) (k : A -> M (main_st W) B) :
  calm m -> (forall a, calm (k a)) -> calm (bind m k).
Proof.
  intros Hm Hk s Hf Hi. apply wp_bind. eapply wp_mono; [by apply Hm|]. intros a s' [Hg Hf'].
  eapply wp_mono; [apply Hk; [done|by rewrite Hg]|]. intros b s'' [Hg' Hf'']. split; [by rewrite Hg'|done].
Qed.

Lemma calm_skip : calm skip.
Proof. by intros s Hf Hi. Qed.

Lemma calm_gets {A} (f : main_st W -> A) : calm (gets f).
Proof. by intros s Hf Hi. Qed.

Lemma calm_get : calm get.
Proof. by intros s Hf Hi. Qed.

Lemma calm_modify (f : main_st W -> main_st W) :
  (forall s, ms_game (f s) = ms_game s /\ ms_video (f s) = ms_video s) -> calm (modify f).
Proof. intros Hm s Hf Hi. apply wp_modify. destruct (Hm s) as [-> ->]. done. Qed.

Lemma calm_upd_kbd f : calm (upd_kbd f).
Proof. by apply calm_modify. Qed.
Lemma calm_upd_timer f : calm (upd_timer f).
Proof. by apply calm_modify. Qed.
Lemma calm_upd_mouse f : calm (upd_mouse f).
Proof. by apply calm_modify. Qed.
Lemma calm_upd_loop f : calm (upd_loop f).
Proof. by apply calm_modify. Qed.

Lemma calm_green : calm (draw greenScreen).
Proof. intros s Hf Hi. apply wp_draw_green; [done|]. intros v Hs. split; [done|]. by eapply frame_same. Qed.

Lemma calm_update : calm (draw my_updateVideoMem).
Proof. intros s Hf Hi. apply wp_draw_update; [done|]. intros v (b & m & _ & Hv). split; [done|]. by apply Hv. Qed.

Lemma calm_in_game {A} (m : M (game_st * (video_st * W)) A) :
  (forall g v w, frame_ok v -> sprites_ok (imgs g) -> only_draws m g v w) -> calm (in_game m).
Proof.
  intros Hm s Hf Hi. apply wp_in_game_draws; [by apply Hm|]. intros a v w Hs. split; [done|]. by eapply frame_same.
Qed.
End Calm.

Create HintDb c_calm.
#[export] Hint Resolve calm_skip calm_gets calm_get calm_upd_kbd calm_upd_timer calm_upd_mouse calm_upd_loop
  calm_green calm_update : c_calm.

Ltac calm_step :=
  lazymatch goal with
  | |- calm (bind _ _) => apply calm_bind; [|intros ?]
  | |- calm (if ?b then _ else _) => destruct b
  | |- calm _ => solve [auto with c_calm]
  end.

Section CalmTicks.
Context {W : Type} `{PortIO W, Irq W, Lcf W, Display W, Libc W, Messages W} `{!XpmLaws W, !XpmLoads W}.

(** The pictures of the menus, for any game and display. *)
Lemma calm_pictures :
  calm (W := W) (in_game draw_menu) /\ calm (W := W) (in_game draw_pause) /\
  calm (W := W) (in_game drawInstructions) /\ calm (W := W) (in_game drawSun) /\ calm (W := W) (in_game drawMoon).
Proof.
  split_and!; apply calm_in_game; intros g v w Hf Hi;
    pose proof (screens_fit_all g v w Hf Hi) as (Hm & Hp & Hn & _ & _ & Hs & Ho & _); assumption.
Qed.

Lemma calm_menus :
  calm (W := W) tick_menu /\ calm (W := W) tick_pause /\ calm (W := W) tick_instructions.
Proof.
  destruct calm_pictures as (H1' & H2' & H3' & H4' & H5').
  split_and!; unfold tick_menu, tick_pause, tick_instructions; repeat first [assumption|calm_step].
Qed.
End CalmTicks.

(** ** The images *)
Section Images.
Context {W : Type} `{PortIO W, Irq W, Lcf W, Display W, Libc W, Messages W}.

(** What [xpm_load] promises of the image of each pixmap, for all images of the program. *)
Definition images_loaded (P : xpm_map_t -> xpm_image_t -> Prop) (i : sprites) (v : video_st) : Prop :=
  (P gameName (imgGameName i) /\ P mouse_cursor (imgMouse i) /\ P heart (imgHeart i) /\
   P Game.victory (imgVictory i) /\ P Game.game_over (imgGameOver i) /\ P instructions (imgInstructions i) /\
   P moon (imgMoon i) /\ P sun (imgSun i) /\ P background (imgBackground i)) /\
  P deck (imgDeck v) /\ P cardback (imgCardBack v).

Lemma wp_load {A} P m (k : xpm_image_t -> M (main_st W) A) Q s :
  (forall m (w : W), P m (xpm_load m XPM_8_8_8 w).1) ->
  (forall i s', P m i -> ms_video s' = ms_video s -> wp (k i) Q s') ->
  wp (bind (in_world (call (xpm_load m XPM_8_8_8))) k) Q s.
Proof. intros HP HQ. apply wp_bind, wp_zoom, wp_call. by apply HQ. Qed.

Lemma wp_load_images P s :
  (forall m (w : W), P m (xpm_load m XPM_8_8_8 w).1) ->
  wp load_images (fun _ s' => images_loaded P (imgs (ms_game s')) (ms_video s')) s.
Proof.
  intros HP. unfold load_images. cbv zeta.
  apply (wp_load P); [done|]; intros i1 s1 P1 _. apply (wp_load P); [done|]; intros i2 s2 P2 _. apply wp_bind, wp_modify.
  apply (wp_load P); [done|]; intros i3 s3 P3 E3. apply wp_bind, wp_modify. set (v := set_imgCardBack i3 _).
  assert (imgDeck v = i2 /\ imgCardBack v = i3) as Hv by (unfold v; by rewrite E3). clearbody v.
  set (s4 := MainSt _ _ _ _ _ v _ _). assert (ms_video s4 = v) as E4 by done. clearbody s4.
  do 8 (apply (wp_load P); [done|]; intros ? ? ? ?). apply wp_modify. cbn.
  repeat match goal with E : ms_video _ = _ |- _ => rewrite E in *; clear E end.
  unfold images_loaded. destruct Hv as [-> ->]. by split_and!.
Qed.
End Images.

(** ** Properties *)
Section MainTheorems.
Context {W : Type} `{PortIO W, Irq W, Lcf W, Display W, Libc W, Messages W}.

(** A message that only announces a timer interrupt. *)
Definition timer_only (m : receive) (irq_set irq_set2 irq_set3 : Z) : Prop :=
  rcv_status m = 0 /\ rcv_notify m = true /\ rcv_hardware m = true /\
  has (rcv_interrupts m) irq_set2 = true /\ has (rcv_interrupts m) irq_set = false /\
  has (rcv_interrupts m) irq_set3 = false.

(** The program can take a tick: the display and the images are there, the cursor
    is where it can be drawn, and the counter of ticks has room. *)
Definition tick_ready (s : main_st W) : Prop :=
  frame_ok (ms_video s) /\ sprites_ok (imgs (ms_game s)) /\
  0 <= mouse_x (mouse (ms_game s)) < 800 /\ 0 <= mouse_y (mouse (ms_game s)) < 65000 /\
  cursor_fits (mouse (ms_game s)) = true /\ 0 <= tmr_tck_counter (ms_timer s) < INT_MAX.

(** The state when the switch of a timer interrupt starts. *)
Definition at_tick (w1 : W) (s : main_st W) : main_st W :=
  MainSt (TimerSt (tmr_tck_counter (ms_timer s) + 1) (hook_id2 (ms_timer s))) (ms_kbd s) (ms_mouse s) (ms_rtc s)
    (ms_game s) (ms_video s) (ms_loop s) w1.

Lemma handle_timer_message fuel i1 i2 i3 m w1 s :
  driver_receive (ms_world s) = (m, w1) -> timer_only m i1 i2 i3 -> tick_ready s ->
  handle_message fuel i1 i2 i3 s = timer_tick fuel (at_tick w1 s).
Proof.
  intros Er (Hst & Hn & Hh & Hi2 & Hi1 & Hi3) (_ & _ & _ & _ & _ & Ht). unfold handle_message.
  set (s1 := MainSt (ms_timer s) (ms_kbd s) (ms_mouse s) (ms_rtc s) (ms_game s) (ms_video s) (ms_loop s) w1).
  rewrite (bind_Done _ _ _ m s1) by (unfold in_world, zoom, call; simpl; by rewrite Er).
  rewrite Hst, Hn, Hh, Hi1, Hi2, Hi3. cbn [Z.eqb negb andb].
  rewrite (bind_Done _ _ _ tt s1) by done. rewrite bind_ret. cbn [andb].
  rewrite (bind_Done _ _ _ tt (at_tick w1 s)); [done|].
  unfold in_timer, zoom, timer_int_handler. cbn [lget l_timer s1 ms_timer ms_world].
  rewrite (bind_Done _ _ _ _ _ (gets_eq _ _)). cbn [fst].
  assert (is_int (tmr_tck_counter (ms_timer s) + 1) = true) as Hint
    by (apply is_int_spec; unfold INT_MIN, INT_MAX in *; lia).
  by rewrite (bind_Done _ _ _ _ _ (int_eq _ _ Hint)).
Qed.

(** (C8) The state machine of the game. A message moves it only along the transitions of
    [next] (from the menu into a game, the instructions or the exit; from a game into the
    pause menu or the exit; and so on). After any number of messages ([run]) a program that began
    in the menu is, by a path of such transitions, in one of the five states that are
    used. A loop that ends, ends after a run, and in the state [Exit]. *)
Theorem state_transitions (i1 i2 i3 : Z) (s s' : main_st W) :
  (forall fuel, handle_message fuel i1 i2 i3 s = Done tt s' -> next (gs (ms_loop s)) (gs (ms_loop s'))) /\
  (gs (ms_loop s) = Menu -> run i1 i2 i3 s s' ->
     rtc next Menu (gs (ms_loop s')) /\ gs (ms_loop s') ∈ [Menu; Game; Pause; Instructions; Exit]) /\
  (forall fuel, main_loop fuel i1 i2 i3 s = Done tt s' ->
     run i1 i2 i3 s s' /\ (condition (ms_loop s) = true -> gs (ms_loop s') = Exit)).
Proof.
  split_and!.
  - intros fuel E. pose proof (handle_message_moves fuel i1 i2 i3 s) as Hn. unfold wlp in Hn. rewrite E in Hn. apply Hn.
  - intros Hgs Hr. destruct (run_moves _ _ _ _ _ Hr) as (Hn & Hp & _). rewrite Hgs in *. split; [done|].
    destruct Hp as [Hh Hw]; [done|]. rewrite !elem_of_cons. destruct (gs (ms_loop s')); tauto.
  - intros fuel [Hr Hc]%loop_runs. split; [done|]. intros Hc0. by eapply run_moves.
Qed.

Lemma matched_flags p q d c (s : main_st W) :
  isAnyCardFlipping (ms_loop (matched p q d c s)) = isAnyCardFlipping (ms_loop s).
Proof.
  unfold matched. case_match; [done|]. simpl. destruct (isFlipping c); [done|]. unfold life_lost. simpl. by case_match.
Qed.

(** Comparing twice is comparing once. *)
Lemma match_again (s : main_st W) p q d c :
  isAnyCardFlipping (ms_loop s) = false -> length (cardArray (ms_game s)) = 16%nat -> (p < q)%nat ->
  cardArray (ms_game s) !! p = Some d -> cardArray (ms_game s) !! q = Some c ->
  open_card d = true -> open_card c = true ->
  (forall j e, j <> p -> j <> q -> cardArray (ms_game s) !! j = Some e -> open_card e = false) ->
  tick_match (matched p q d c s) = Done tt (matched p q d c s).
Proof.
  intros Hany Hl Hpq Hd Hc Hod Hoc Hrest.
  pose proof (lookup_lt_Some _ _ _ Hc) as Hq. pose proof (lookup_lt_Some _ _ _ Hd) as Hp.
  pose proof (matched_flags p q d c s) as Hfl. rewrite Hany in Hfl.
  destruct (same_face c d) eqn:E.
  - assert (cardArray (ms_game (matched p q d c s)) = <[p := set_flipSuccess true d]>
      (<[q := set_flipSuccess true c]> (cardArray (ms_game s)))) as Ecards by (unfold matched; by rewrite E).
    apply match_none_eq; rewrite Ecards; [|by rewrite !length_insert]. intros j e.
    destruct (decide (j = p)) as [->|Hjp]; [rewrite list_lookup_insert_eq by (by rewrite length_insert)|].
    { intros [= <-]. unfold open_card. simpl. by destruct (isFlipped d). }
    rewrite list_lookup_insert_ne by done.
    destruct (decide (j = q)) as [->|Hjq]; [rewrite list_lookup_insert_eq by done|].
    { intros [= <-]. unfold open_card. simpl. by destruct (isFlipped c). }
    rewrite list_lookup_insert_ne by done. by apply Hrest.
  - set (l := <[p := set_isFlipping true d]> (<[q := set_isFlipping true c]> (cardArray (ms_game s)))).
    set (s1 := if isFlipping c then s else life_lost s).
    assert (matched p q d c s = with_cards l s1) as Em by (unfold matched; by rewrite E).
    assert (l !! p = Some (set_isFlipping true d)) as Hlp
      by (unfold l; apply list_lookup_insert_eq; by rewrite length_insert).
    assert (l !! q = Some (set_isFlipping true c)) as Hlq
      by (unfold l; rewrite list_lookup_insert_ne by lia; by apply list_lookup_insert_eq).
    rewrite Em in *. rewrite (match_pair_eq p q (set_isFlipping true d) (set_isFlipping true c)); try done.
    + f_equal. unfold matched. change (same_face (set_isFlipping true c) (set_isFlipping true d)) with (same_face c d).
      rewrite E. cbn [isFlipping set_isFlipping]. change (cardArray (ms_game (with_cards l s1))) with l.
      change (set_isFlipping true (set_isFlipping true c)) with (set_isFlipping true c).
      change (set_isFlipping true (set_isFlipping true d)) with (set_isFlipping true d).
      by rewrite (list_insert_id l q), (list_insert_id l p).
    + simpl. unfold l. by rewrite !length_insert.
    + intros j e Hjp Hjq. simpl. unfold l. rewrite !list_lookup_insert_ne by done. by apply Hrest.
Qed.

(** (C9) The comparison: when exactly two cards are face up without a partner,
    and no card was seen turning, equal cards are both marked as found; for
    different cards both are sent to turn back, and, unless they were sent
    already, the program waits a second and takes one life, the last of which
    ends the game ([matched] and [life_lost] give the state). Comparing again on
    the next tick changes nothing, so a mistake costs one life only. *)
Theorem match_decides (s : main_st W) (p q : nat) (d c : card) :
  isAnyCardFlipping (ms_loop s) = false -> length (cardArray (ms_game s)) = 16%nat -> (p < q)%nat ->
  cardArray (ms_game s) !! p = Some d -> cardArray (ms_game s) !! q = Some c ->
  open_card d = true -> open_card c = true ->
  (forall j e, j <> p -> j <> q -> cardArray (ms_game s) !! j = Some e -> open_card e = false) ->
  tick_match s = Done tt (matched p q d c s) /\
  tick_match (matched p q d c s) = Done tt (matched p q d c s) /\
  (same_face c d = false -> isFlipping c = false -> 0 < lives (p1 (ms_game s)) < 4294967296 ->
   let s' := matched p q d c s in
   lives (p1 (ms_game s')) = lives (p1 (ms_game s)) - 1 /\
   (game_over (ms_loop s') = true <-> game_over (ms_loop s) = true \/ lives (p1 (ms_game s)) = 1)).
Proof.
  intros Hany Hl Hpq Hd Hc Hod Hoc Hrest. split_and!; [by apply match_pair_eq|by apply match_again|].
  intros E Ef Hlives. cbv zeta.
  assert (matched p q d c s = with_cards (<[p := set_isFlipping true d]>
    (<[q := set_isFlipping true c]> (cardArray (ms_game s)))) (life_lost s)) as -> by (unfold matched; by rewrite E, Ef).
  unfold with_cards, life_lost. cbn [ms_game ms_loop set_cardArray p1 set_p1 lives].
  rewrite u32_small by lia. split; [done|].
  destruct (Z.eqb_spec (lives (p1 (ms_game s)) - 1) 0); cbn [game_over set_gs set_game_over].
  - split; [intros _; right; lia|done].
  - split; [by left|intros [?|?]; [done|lia]].
Qed.

(** A message that tells the loop to end is the last one. *)
Lemma main_loop_last n i1 i2 i3 (s s' : main_st W) :
  condition (ms_loop s) = true -> handle_message (S (S n)) i1 i2 i3 s = Done tt s' -> condition (ms_loop s') = false ->
  main_loop (S (S n)) i1 i2 i3 s = Done tt s'.
Proof.
  intros Hc E Hc'. unfold main_loop. cbn [loop]. unfold bind at 1 2. rewrite gets_eq, Hc. unfold bind at 1. rewrite E. simpl.
  unfold bind. by rewrite gets_eq, Hc'.
Qed.

(** In the state [Exit] of a game that is neither lost nor won the next tick leaves the loop. *)
Lemma exit_tick_leaves (n : nat) (i1 i2 i3 : Z) (m : receive) (w1 : W) (s : main_st W) :
  driver_receive (ms_world s) = (m, w1) -> timer_only m i1 i2 i3 -> tick_ready s ->
  gs (ms_loop s) = Exit -> game_over (ms_loop s) = false -> victory (ms_loop s) = false ->
  condition (ms_loop s) = true ->
  exists s', main_loop (S (S n)) i1 i2 i3 s = Done tt s' /\
    handle_message (S (S n)) i1 i2 i3 s = Done tt s' /\ condition (ms_loop s') = false /\
    ms_game s' = ms_game s /\ frame_ok (ms_video s').
Proof.
  intros Er Hm Hr Hgs Hover Hvict Hcond.
  assert (wp (handle_message (S (S n)) i1 i2 i3) (fun _ s' => condition (ms_loop s') = false /\
    ms_game s' = ms_game s /\ frame_ok (ms_video s')) s) as (s' & E & Hs')%wp_unit.
  { unfold wp. rewrite (handle_timer_message _ _ _ _ m w1 s Er Hm Hr). fold (@wp (main_st W) unit).
    destruct Hr as (Hf & Hi & Hx & Hy & Hc & _).
    unfold timer_tick. apply wp_bind, wp_gets. cbn [at_tick ms_loop]. rewrite Hgs.
    unfold tick_exit. apply wp_bind, wp_bind. apply wp_draw_green; [exact Hf|]. intros v1 Hs1.
    apply wp_bind, wp_gets, wp_bind, wp_gets. cbn [with_picture at_tick ms_loop]. rewrite Hover, Hvict.
    apply wp_bind, wp_modify. pose proof (frame_same _ _ Hs1 Hf) as Hf1.
    apply wp_draw_update; [exact Hf1|]. intros v2 (b & mm & _ & Hf2).
    apply wp_tick_cursor; [exact (Hf2 Hf1)|exact Hi|exact Hx|exact Hy|exact Hc|].
    intros v3 w3 (b' & m' & _ & Hf3). split_and!; [reflexivity|reflexivity|]. exact (Hf3 (Hf2 Hf1)). }
  exists s'. split_and!; [by apply main_loop_last; [..|apply Hs']|done|apply Hs'..].
Qed.


(** (C32) A tick in the menu, the pause menu or the instructions always returns: no
    pixel is drawn outside the frame buffer, the board, the player and the cursor
    stay as they are, and the display can be used for the next tick. *)
Theorem menus_return `{!XpmLaws W, !XpmLoads W} (fuel : nat) (i1 i2 i3 : Z) (m : receive) (w1 : W) (s : main_st W) :
  driver_receive (ms_world s) = (m, w1) -> timer_only m i1 i2 i3 -> tick_ready s ->
  gs (ms_loop s) = Menu \/ gs (ms_loop s) = Pause \/ gs (ms_loop s) = Instructions ->
  exists s', handle_message fuel i1 i2 i3 s = Done tt s' /\ ms_game s' = ms_game s /\ frame_ok (ms_video s').
Proof.
  intros Er Hm Hr Hgs. apply wp_unit. unfold wp. rewrite (handle_timer_message _ _ _ _ m w1 s Er Hm Hr).
  fold (@wp (main_st W) unit). pose proof Hr as (Hf & Hi & Hx & Hy & Hc & Ht).
  unfold timer_tick. apply wp_bind, wp_gets, wp_bind. cbn [at_tick ms_loop].
  destruct calm_menus as (H1' & H2' & H3').
  assert (calm (W := W) (match gs (ms_loop s) with
    | Menu => tick_menu | Game => tick_game | Pause => tick_pause
    | Instructions => tick_instructions | Exit => tick_exit fuel | HighScores | Wait => skip end)) as Hcalm
    by (by destruct Hgs as [-> |[-> | ->]]).
  eapply wp_mono; [apply (Hcalm (at_tick w1 s)); [exact Hf|exact Hi]|]. intros [] s1 [Hg Hf1].
  assert (ms_game s1 = ms_game s) as Hg1 by exact Hg.
  apply wp_tick_cursor; rewrite ?Hg1; try assumption.
  intros v w (b & mm & _ & Hv). split; [exact Hg1|]. exact (Hv Hf1).
Qed.

Lemma wp_draw_hearts_update (Q : unit -> main_st W -> Prop) s :
  frame_ok (ms_video s) -> sprites_ok (imgs (ms_game s)) -> 0 <= lives (p1 (ms_game s)) <= 22 ->
  (forall v w, frame_ok v -> Q tt (with_picture v w s)) ->
  wp (in_game drawHearts ;; draw my_updateVideoMem) Q s.
Proof.
  intros Hf Hi Hl HQ. apply wp_bind, wp_in_game_draws; [by apply drawHearts_only|]. intros [] v w Hs.
  pose proof (frame_same _ _ Hs Hf) as Hf1.
  apply wp_draw_update; [exact Hf1|]. intros v' (b & m & _ & Hv). apply (HQ v' w). exact (Hv Hf1).
Qed.

(** All cards start to turn. *)
Lemma all_flipping_steps g v (w : W) :
  vid_wf v -> length (cardArray g) = 16%nat ->
  steps_to (for_range 0 16 (fun i => let* c := get_card i in put_card i (set_isFlipping true c))) g v w tt
    (set_cardArray (map (set_isFlipping true) (cardArray g)) g).
Proof.
  intros Hv Hl. set (F := fun _ : nat => set_isFlipping true).
  set (G := fun j => set_cardArray (upto F (cardArray g) (Z.to_nat j)) g).
  replace (map (set_isFlipping true) (cardArray g)) with (upto F (cardArray g) (Z.to_nat 16)).
  2: { rewrite upto_all by (rewrite Hl; simpl; lia). apply list_eq. intros i.
       rewrite list_lookup_imap, list_lookup_fmap. done. }
  change (set_cardArray _ g) with (G 16).
  replace g with (G 0) at 1 by (unfold G; rewrite upto_0; by destruct g).
  apply steps_to_for_range; [done|lia|]. intros j v1 Hj Hs1.
  destruct (lookup_lt_is_Some_2 (cardArray g) (Z.to_nat j)) as [c Hc]; [lia|].
  pose proof (same_but_pixels_wf _ _ Hs1 Hv) as Hv1.
  eapply steps_to_bind; [apply steps_to_get_card; [done|lia|]; unfold G; simpl; by rewrite upto_lookup|].
  intros v2 Hs2. pose proof (same_but_pixels_wf _ _ Hs2 Hv1) as Hv2.
  replace (G (j + 1)) with (set_cardArray (<[Z.to_nat j := set_isFlipping true c]> (cardArray (G j))) (G j)).
  - apply steps_to_put_card; [done|]. unfold G. simpl. rewrite upto_length. lia.
  - unfold G. simpl. replace (Z.to_nat (j + 1)) with (S (Z.to_nat j)) by lia.
    by rewrite <- (upto_S F _ _ c Hc).
Qed.

Lemma wp_in_game_steps {A} (m : M (game_st * (video_st * W)) A) a g' (Q : A -> main_st W -> Prop) s :
  steps_to m (ms_game s) (ms_video s) (ms_world s) a g' ->
  (forall v, same_but_pixels (ms_video s) v ->
     Q a (MainSt (ms_timer s) (ms_kbd s) (ms_mouse s) (ms_rtc s) g' v (ms_loop s) (ms_world s))) ->
  wp (in_game m) Q s.
Proof.
  intros (v & E & Hs) HQ. apply wp_zoom. eapply wp_Done; [exact E|]. by apply HQ.
Qed.

Lemma flippers_all l : flippers (map (set_isFlipping true) l) = Z.of_nat (length l).
Proof. unfold flippers. induction l as [|c l IH]; [done|]. simpl in *. lia. Qed.

(** The board of a game that has just started. *)
Definition face_down (l : list card) : list card := map (fun c => set_isFlipped true (set_isFlipping false c)) l.

(** The tick that starts a game, and the ticks before it. *)
Lemma wp_tick_init_start (Q : unit -> main_st W -> Prop) s :
  frame_ok (ms_video s) -> sprites_ok (imgs (ms_game s)) -> cards_drawable (cardArray (ms_game s)) ->
  Forall (fun c => isFlipped c = false) (cardArray (ms_game s)) -> increaseWidth (ms_game s) = 1 ->
  otherSide (ms_game s) = replicate 16 0 -> 0 <= lives (p1 (ms_game s)) <= 22 -> every 240 s = true ->
  (forall v w, frame_ok v -> Q tt (MainSt (ms_timer s) (ms_kbd s) (ms_mouse s) (ms_rtc s)
     (set_cardArray (face_down (cardArray (ms_game s))) (ms_game s)) v (set_initGame false (ms_loop s)) w)) ->
  wp tick_init_game Q s.
Proof.
  intros Hf Hi Hc Hdown Hw Ho Hlives Hstart HQ. pose proof Hc as [Hl Hcards].
  unfold tick_init_game. apply wp_bind, wp_gets. rewrite Hstart. apply wp_bind, wp_bind.
  set (g1 := set_cardArray (map (set_isFlipping true) (cardArray (ms_game s))) (ms_game s)).
  eapply wp_in_game_steps; [apply all_flipping_steps; [apply Hf|exact Hl]|]. intros v1 Hs1. fold g1.
  pose proof (frame_same _ _ Hs1 Hf) as Hf1. apply wp_modify, wp_bind.
  assert (turn_start false g1) as Hst.
  { split_and!; [|exact Hw|exact Ho|].
    - split; [simpl; by rewrite length_map|]. simpl. apply Forall_map. exact Hcards.
    - simpl. apply Forall_map. eapply Forall_impl; [exact Hdown|]. by intros c Hcc _. }
  destruct (turn_start_anim _ _ Hst) as [Ha Hg]. rewrite Hg in Ha.
  assert (flippers (cardArray g1) = 16) as Hk by (simpl; rewrite flippers_all, Hl; done).
  pose proof (draw_board_anim false false g1 v1 (ms_world s) Hf1 Hi Ha ltac:(lia)) as Hd. cbv zeta in Hd.
  rewrite Hk in Hd. change (increaseWidth g1) with (increaseWidth (ms_game s)) in Hd. rewrite Hw in Hd.
  specialize (Hd eq_refl). change (anim_state false _ g1) with (turned false g1) in Hd.
  assert (turned false g1 = set_cardArray (face_down (cardArray (ms_game s))) (ms_game s)) as E.
  { unfold turned, g1, face_down. destruct (ms_game s) as [l pl iw os mo im]. simpl in *. subst iw os.
    unfold set_cardArray, set_increaseWidth, set_otherSide. simpl. f_equal. rewrite map_map. by apply map_ext. }
  rewrite E in Hd. eapply wp_in_game_steps; [exact Hd|]. intros v2 Hs2. pose proof (frame_same _ _ Hs2 Hf1) as Hf2.
  apply wp_draw_hearts_update; [exact Hf2|exact Hi|exact Hlives|]. intros v3 w3 Hf3. by apply HQ.
Qed.

Lemma wp_tick_init_wait (Q : unit -> main_st W -> Prop) s :
  frame_ok (ms_video s) -> sprites_ok (imgs (ms_game s)) -> cards_drawable (cardArray (ms_game s)) ->
  Forall (fun c => isFlipping c = false) (cardArray (ms_game s)) -> 0 <= lives (p1 (ms_game s)) <= 22 ->
  every 240 s = false -> (forall v w, frame_ok v -> Q tt (with_picture v w s)) -> wp tick_init_game Q s.
Proof.
  intros Hf Hi Hc Hst Hlives Hno HQ. unfold tick_init_game. apply wp_bind, wp_gets. rewrite Hno.
  apply wp_bind, wp_skip, wp_bind. eapply wp_in_game_steps; [by apply draw_board_still|].
  intros v Hs. pose proof (frame_same _ _ Hs Hf) as Hfv.
  apply wp_draw_hearts_update; [exact Hfv|exact Hi|exact Hlives|]. intros v2 w2 Hf2. by apply (HQ v2 w2).
Qed.

(** The start of a game: at the tick that starts it, a freshly dealt board is
    turned face down in one drawing, and the animation is ready for the first
    click; no card is turning, and the game has left its first phase. *)
Theorem game_starts (s : main_st W) :
  frame_ok (ms_video s) -> sprites_ok (imgs (ms_game s)) -> cards_drawable (cardArray (ms_game s)) ->
  Forall (fun c => isFlipped c = false) (cardArray (ms_game s)) -> increaseWidth (ms_game s) = 1 ->
  otherSide (ms_game s) = replicate 16 0 -> 0 <= lives (p1 (ms_game s)) <= 22 -> every 240 s = true ->
  exists s', tick_init_game s = Done tt s' /\
    cardArray (ms_game s') = face_down (cardArray (ms_game s)) /\
    increaseWidth (ms_game s') = 1 /\ otherSide (ms_game s') = replicate 16 0 /\
    p1 (ms_game s') = p1 (ms_game s) /\ initGame (ms_loop s') = false /\ frame_ok (ms_video s').
Proof.
  intros Hf Hi Hc Hdown Hw Ho Hlives Hstart. apply wp_unit. apply wp_tick_init_start; try done.
Qed.

(** The scan for turning cards finds none. *)
Lemma scan_none (s : main_st W) :
  length (cardArray (ms_game s)) = 16%nat -> Forall (fun c => isFlipping c = false) (cardArray (ms_game s)) ->
  for_range 0 16 (fun i => let* c := in_game (get_card i) in
    if Bool.eqb (isFlipping c) true then upd_loop (set_isAnyCardFlipping true) else skip) s = Done tt s.
Proof.
  intros Hl Hno. assert (forall n i, 0 <= i -> i + Z.of_nat n <= 16 ->
    for_acc n i tt (fun i _ => let* c := in_game (get_card i) in
      if Bool.eqb (isFlipping c) true then upd_loop (set_isAnyCardFlipping true) else skip) s = Done tt s) as Hall.
  { intros n. induction n as [|n IH]; intros i Hi Hn; [done|]. cbn [for_acc].
    destruct (lookup_lt_is_Some_2 (cardArray (ms_game s)) (Z.to_nat i)) as [c Hc]; [lia|].
    rewrite (bind_Done _ _ _ tt s); [apply IH; lia|].
    rewrite (bind_Done _ _ _ _ _ (in_game_get_card i c s Hi Hc)).
    by rewrite (proj1 (Forall_lookup _ _) Hno _ _ Hc). }
  by apply (Hall 16%nat).
Qed.

Lemma tick_click_eq (s : main_st W) a b e :
  frame_ok (ms_video s) -> length (cardArray (ms_game s)) = 16%nat ->
  Forall (fun c => isFlipping c = false) (cardArray (ms_game s)) ->
  isAnyCardFlipping (ms_loop s) = false -> lb (packet1 (ms_mouse s)) = true ->
  0 <= a < 4 -> 0 <= b < 4 -> over_card (mouse (ms_game s)) a b ->
  cardArray (ms_game s) !! Z.to_nat (a + b * 4) = Some e ->
  tick_click s = Done tt
    (with_cards (<[Z.to_nat (a + b * 4) := set_isFlipping (isFlipped e) e]> (cardArray (ms_game s))) s).
Proof.
  intros Hf Hl Hno Hany Hlb Ha Hb Hov He. unfold tick_click.
  rewrite (bind_Done _ _ _ _ _ (gets_eq _ _)), Hlb, (bind_Done _ _ _ _ _ (scan_none s Hl Hno)).
  rewrite (bind_Done _ _ _ _ _ (gets_eq _ _)), Hany. cbn [negb].
  unfold in_game, zoom. cbn [lget l_game].
  by rewrite (flipCardOnClick_hit (ms_game s) (ms_video s) (ms_world s) a b e Hf Hl Ha Hb Hov He).
Qed.

(** (C26) A click in the tick in which two different cards come to lie face up: with
    the button held over a third, face-down card, one tick starts turning it up
    and, as the comparison does not see that a card turns, sends the other two
    back, so that cards turn in both directions at once. *)
Theorem third_click_mixes (s : main_st W) (a b : Z) (p q : nat) (c d e : card) :
  frame_ok (ms_video s) -> length (cardArray (ms_game s)) = 16%nat ->
  Forall (fun c => isFlipping c = false) (cardArray (ms_game s)) ->
  isAnyCardFlipping (ms_loop s) = false -> lb (packet1 (ms_mouse s)) = true ->
  0 <= a < 4 -> 0 <= b < 4 -> over_card (mouse (ms_game s)) a b ->
  cardArray (ms_game s) !! Z.to_nat (a + b * 4) = Some e -> isFlipped e = true ->
  (p < q)%nat -> cardArray (ms_game s) !! p = Some d -> cardArray (ms_game s) !! q = Some c ->
  open_card d = true -> open_card c = true -> same_face c d = false ->
  (forall j x, j <> p -> j <> q -> cardArray (ms_game s) !! j = Some x -> open_card x = false) ->
  exists s', (tick_click ;; tick_match) s = Done tt s' /\
    cardArray (ms_game s') = <[p := set_isFlipping true d]> (<[q := set_isFlipping true c]>
      (<[Z.to_nat (a + b * 4) := set_isFlipping true e]> (cardArray (ms_game s)))) /\
    lives (p1 (ms_game s')) = u32 (lives (p1 (ms_game s)) - 1).
Proof.
  intros Hf Hl Hno Hany Hlb Ha Hb Hov He Hfe Hpq Hd Hc Hod Hoc Hsf Hrest.
  rewrite (bind_Done _ _ _ _ _ (tick_click_eq s a b e Hf Hl Hno Hany Hlb Ha Hb Hov He)), Hfe.
  set (r := Z.to_nat (a + b * 4)) in *.
  assert (r <> p /\ r <> q) as [Hrp Hrq].
  { unfold open_card in Hod, Hoc. split; intros ->; simplify_eq; by rewrite Hfe in *. }
  set (s1 := with_cards (<[r := set_isFlipping true e]> (cardArray (ms_game s))) s).
  assert (isFlipping c = false) as Hfc by (by apply (proj1 (Forall_lookup _ _) Hno q)).
  rewrite (match_pair_eq p q d c s1); try done; simpl.
  - eexists. split; [reflexivity|]. unfold matched. rewrite Hsf, Hfc. split; [done|]. unfold life_lost. simpl. done.
  - by rewrite length_insert.
  - by rewrite list_lookup_insert_ne.
  - by rewrite list_lookup_insert_ne.
  - intros j x Hjp Hjq. destruct (decide (j = r)) as [->|Hjr].
    + rewrite list_lookup_insert_eq by (apply lookup_lt_Some in He; done). intros [= <-].
      unfold open_card. simpl. by rewrite Hfe.
    + rewrite list_lookup_insert_ne by done. by apply Hrest.
Qed.
End MainTheorems.

(** ** Concrete states *)
Definition test_state (g : game_st) (l : loop_st) (w : script) : main_st script :=
  MainSt (TimerSt 239 0) kbd_init_st mouse_init_st rtc_init_st g test_video l w.
Definition timer_message : receive := Receive 0 true true 1.
Definition exit_state : main_st script :=
  test_state (test_game create_mouse) (set_gs Exit loop_init_st) (with_msgs [timer_message] script0).
Definition menu_state : main_st script :=
  test_state (test_game create_mouse) loop_init_st (with_msgs [timer_message] script0).

(** The key P is released in the menu: the interrupt handler takes the break code. *)
Definition key_state : main_st script :=
  test_state (test_game create_mouse) loop_init_st
    (with_msgs [Receive 0 true true 2] (with_in [(0, 1); (0, 0x99)] script0)).
Definition key_after : main_st script :=
  match handle_message 1 2 1 4 key_state with Done _ s => s | _ => key_state end.

(** Cards 1 and 2 are face up and differ; the cursor is on card 0. *)
Definition two_open : list card := down_card :: new_card 3 2 :: new_card 4 2 :: replicate 13 down_card.
Definition click_mouse : mouse_st :=
  MouseSt (Packet 9 0 0 false false true 0 0 false false) 0 true 0 2 1 false.
Definition two_open_state : main_st script :=
  MainSt (TimerSt 1 0) kbd_init_st click_mouse rtc_init_st
    (set_cardArray two_open (test_game (MkMouse 210 80))) test_video (set_gs Game (set_initGame false loop_init_st)) script0.

Lemma two_open_rest j e : j <> 1%nat -> j <> 2%nat -> two_open !! j = Some e -> open_card e = false.
Proof. do 16 (destruct j as [|j]; [intros ??; by intros [= <-]|]). done. Qed.

Lemma match_decides_witness :
  exists s', tick_match two_open_state = Done tt s' /\ tick_match s' = Done tt s' /\ lives (p1 (ms_game s')) = 4.
Proof.
  destruct (match_decides two_open_state 1 2 (new_card 3 2) (new_card 4 2) eq_refl eq_refl ltac:(lia)
    eq_refl eq_refl eq_refl eq_refl two_open_rest) as (E1 & E2 & Hl).
  exists (matched 1 2 (new_card 3 2) (new_card 4 2) two_open_state). split_and!; [exact E1|exact E2|].
  apply Hl; [reflexivity|reflexivity|simpl; lia].
Defined.

Lemma tick_ready_test l w : tick_ready (test_state (test_game create_mouse) l w).
Proof.
  split_and!; [apply test_video_ok|apply test_sprites_ok|simpl; lia|simpl; lia|simpl; lia|simpl; lia|reflexivity|
    simpl; lia|reflexivity].
Qed.

Lemma state_transitions_witness :
  scancode (ms_kbd key_after) = 0x99 /\ next Menu (gs (ms_loop key_after)) /\
  gs (ms_loop key_after) ∈ [Menu; Game; Pause; Instructions; Exit] /\
  exists s', main_loop 2 2 1 4 exit_state = Done tt s' /\ run 2 1 4 exit_state s' /\ gs (ms_loop s') = Exit.
Proof.
  assert (handle_message 1 2 1 4 key_state = Done tt key_after) as E by (vm_compute; reflexivity).
  destruct (state_transitions (W := script) 2 1 4 key_state key_after) as (Hn & Hr & _).
  split_and!; [reflexivity|exact (Hn 1%nat E)|apply Hr; [reflexivity|apply rtc_once; split; [reflexivity|by exists 1%nat]]|].
  edestruct (exit_tick_leaves 0 2 1 4 timer_message (with_msgs [] script0) exit_state) as (s' & E' & _);
    [reflexivity|by split_and!|apply tick_ready_test|reflexivity..|].
  exists s'. split; [exact E'|]. destruct (state_transitions 2 1 4 exit_state s') as (_ & _ & He).
  destruct (He 2%nat E') as [Hrun Hend]. split; [exact Hrun|exact (Hend eq_refl)].
Defined.

Lemma menus_return_witness :
  exists s', handle_message 1 2 1 4 menu_state = Done tt s' /\
    ms_game s' = test_game create_mouse /\ frame_ok (ms_video s').
Proof.
  exact (menus_return 1 2 1 4 timer_message (with_msgs [] script0) menu_state eq_refl
    ltac:(by split_and!) (tick_ready_test _ _) (or_introl eq_refl)).
Defined.

Definition start_state : main_st script :=
  MainSt (TimerSt 240 0) kbd_init_st mouse_init_st rtc_init_st (test_game create_mouse) test_video
    (set_gs Game loop_init_st) script0.

Lemma game_starts_witness :
  exists s', tick_init_game start_state = Done tt s' /\
    cardArray (ms_game s') = replicate 16 (set_isFlipped true (set_isFlipping false (new_card 0 0))) /\
    increaseWidth (ms_game s') = 1 /\ otherSide (ms_game s') = replicate 16 0 /\
    p1 (ms_game s') = initializePlayer /\ initGame (ms_loop s') = false /\ frame_ok (ms_video s').
Proof.
  apply (game_starts start_state); [apply test_video_ok|apply test_sprites_ok| | |reflexivity|reflexivity|
    simpl; lia|reflexivity].
  - split; [reflexivity|]. by repeat (apply Forall_cons; split).
  - by repeat (apply Forall_cons; split).
Defined.

Lemma third_click_mixes_witness :
  exists s', (tick_click ;; tick_match) two_open_state = Done tt s' /\
    cardArray (ms_game s') = <[1%nat := set_isFlipping true (new_card 3 2)]>
      (<[2%nat := set_isFlipping true (new_card 4 2)]> (<[0%nat := set_isFlipping true down_card]> two_open)) /\
    lives (p1 (ms_game s')) = 4.
Proof.
  apply (third_click_mixes two_open_state 0 0 1 2 (new_card 4 2) (new_card 3 2) down_card);
    [apply test_video_ok|reflexivity| |reflexivity|reflexivity|lia|lia|unfold over_card; simpl; lia|reflexivity|
     reflexivity|lia|reflexivity|reflexivity|reflexivity|reflexivity|reflexivity|apply two_open_rest].
  by repeat (apply Forall_cons; split).
Defined.
