(* ===== verification/Pointer.v ===== *)
(** How the cursor follows the mouse: the composition of the mouse driver
    (mouse.c), [update_mouse_position] (game.c) and the branch of
    [proj_main_loop] that handles a mouse interrupt (proj.c:178-191). *)
From S2P Require Import Prelude Env Utils Timer Rtc I8042 Keyboard Mouse Video Cards Game Flip MainLoop.

(** ** One displacement

    [moved d m]: where [update_mouse_position] puts a cursor at [m] on the 800 by
    600 screen, for the displacement [d]. *)
Definition moved (d : Z * Z) (m : Mouse) : Mouse :=
  let '(x, y) := d in
  MkMouse
    (if mouse_x m + x <? 0 then 0 else if mouse_x m + x >=? 800 then 785 else mouse_x m + Z.quot x 2)
    (if mouse_y m - y <? 0 then 0 else if mouse_y m + y >=? 600 then 585 else mouse_y m - Z.quot y 2).

(** The displacement a packet stands for. *)
Definition shift (p : packet) : Z * Z := (delta_x p, delta_y p).

Definition shift_wf (d : Z * Z) : Prop := -256 <= d.1 <= 255 /\ -256 <= d.2 <= 255.

(** ** A sequence of motions

    The path of the cursor: [last] is the displacement of the packet that was
    complete before. It is applied again with each of the first two bytes of the
    next packet. *)
Fixpoint follow (last : Z * Z) (ps : list motion) (m : Mouse) : Mouse :=
  match ps with
  | [] => m
  | p :: ps => follow (dx p, dy p) ps (moved (dx p, dy p) (moved last (moved last m)))
  end.

Section Pointer.
Context {W : Type} `{PortIO W, Irq W, Lcf W, Display W, Libc W, Messages W}.

(** The bytes arrive one by one, without errors, in the worlds between [w] and [w']. *)
Inductive bytes_arrive (fuel : nat) : list Z -> W -> W -> Prop :=
  | bytes_arrive_nil w : bytes_arrive fuel [] w w
  | bytes_arrive_cons b bs st w w1 w' :
      arrives fuel w st (Some b) w1 -> byte_good st (Some b) = true ->
      bytes_arrive fuel bs w1 w' -> bytes_arrive fuel (b :: bs) w w'.

(** [n] messages that announce the mouse, the first part of each. *)
Fixpoint mouse_interrupts (fuel n : nat) : M (main_st W) unit :=
  match n with
  | O => skip
  | S n => let* _ := mouse_interrupt fuel in mouse_interrupts fuel n
  end.

Definition with_pointer (k : mouse_st) (m : Mouse) (w : W) (s : main_st W) : main_st W :=
  MainSt (ms_timer s) (ms_kbd s) k (ms_rtc s) (set_mouse m (ms_game s)) (ms_video s) (ms_loop s) w.

(** * Lemmas *)

Lemma moved_wf d m : mouse_wf m -> shift_wf d -> mouse_wf (moved d m).
Proof.
  destruct d as [x y]. intros [Hmx Hmy] [Hx Hy]. cbn [fst snd] in *.
  pose proof (quot2_bounds x Hx). pose proof (quot2_bounds y Hy).
  unfold mouse_wf, moved. cbn [mouse_x mouse_y].
  split; repeat case_match; lia.
Qed.

(** [update_mouse_position] computes [moved]. *)
Lemma update_mouse_moved d g v (w : W) :
  frame_ok v -> mouse_wf (mouse g) -> shift_wf d ->
  update_mouse_position d.1 d.2 (g, (v, w)) = Done tt (set_mouse (moved d (mouse g)) g, (v, w)).
Proof.
  destruct d as [x y]. intros Hf [Hmx Hmy] [Hx Hy]. cbn [fst snd] in *.
  pose proof (quot2_bounds x Hx) as Qx. pose proof (quot2_bounds y Hy) as Qy.
  assert (wp (update_mouse_position x y)
    (fun _ s => s = (set_mouse (moved (x, y) (mouse g)) g, (v, w))) (g, (v, w))) as Hwp;
    [|by apply wp_unit in Hwp as (s & E & ->)].
  unfold update_mouse_position, move_x, move_y.
  apply wp_bind, wp_gets, wp_bind, wp_gets, wp_bind. cbn [fst snd]. rewrite (frame_x _ Hf), (frame_y _ Hf).
  eapply wp_mono with (Q := fun mx s => mx = mouse_x (moved (x, y) (mouse g)) /\ s = (g, (v, w))).
  { apply wp_bind, wp_int; [apply is_int_small; lia|]. unfold moved. cbn [mouse_x].
    repeat case_match; [by apply wp_ret..|]. by apply wp_int; [apply is_int_small; lia|]. }
  intros mx s [-> ->]. apply wp_bind, wp_modify, wp_bind, wp_gets, wp_bind. cbn [fst snd set_mouse mouse mouse_y].
  eapply wp_mono with (Q := fun my s => my = mouse_y (moved (x, y) (mouse g)) /\
    s = (set_mouse (MkMouse (mouse_x (moved (x, y) (mouse g))) (mouse_y (mouse g))) g, (v, w))).
  { apply wp_bind, wp_int; [apply is_int_small; lia|]. unfold moved. cbn [mouse_y].
    case_match; [by apply wp_ret|]. apply wp_bind, wp_int; [apply is_int_small; lia|].
    case_match; [by apply wp_ret|]. by apply wp_int; [apply is_int_small; lia|]. }
  intros my s [-> ->]. apply wp_modify. by destruct g.
Qed.

(** A mouse interrupt with a good byte: the driver takes it, and the cursor moves
    by whatever displacement is then in the packet. *)
Lemma interrupt_byte fuel st b w1 k' (s : main_st W) :
  arrives fuel (ms_world s) st (Some b) w1 -> byte_good st (Some b) = true ->
  is_int (counter (ms_mouse s) + 1) = true -> reading_error (ms_mouse s) = false ->
  take b (ms_mouse s, w1) = Done tt (k', w1) ->
  frame_ok (ms_video s) -> mouse_wf (mouse (ms_game s)) -> shift_wf (shift (packet1 k')) ->
  mouse_interrupt fuel s =
    Done true (with_pointer k' (moved (shift (packet1 k')) (mouse (ms_game s))) w1 s).
Proof.
  intros Ha Hg Hi Hre Et Hf Hm Hd. unfold mouse_interrupt.
  rewrite (bind_Done _ _ _ Processed (l_mouse.(lset) (k', w1) s)).
  2: { unfold in_mouse. apply zoom_Done. cbn [lget l_mouse].
       rewrite (mouse_event_good _ _ _ _ _ _ Ha Hi Hg Hre). by rewrite (bind_Done _ _ _ _ _ Et). }
  cbn [lset l_mouse fst snd]. rewrite (bind_Done _ _ _ _ _ (gets_eq _ _)). cbn [ms_mouse].
  rewrite (bind_Done _ _ _ tt (with_pointer k' (moved (shift (packet1 k')) (mouse (ms_game s))) w1 s)); [done|].
  exact (zoom_Done l_game (update_mouse_position (delta_x (packet1 k')) (delta_y (packet1 k')))
    (l_mouse.(lset) (k', w1) s) tt _ (update_mouse_moved (shift (packet1 k')) _ _ _ Hf Hm Hd)).
Qed.

Lemma interrupts_step fuel n (s s1 : main_st W) :
  mouse_interrupt fuel s = Done true s1 -> mouse_interrupts fuel (S n) s = mouse_interrupts fuel n s1.
Proof. intros E. cbn [mouse_interrupts]. by rewrite (bind_Done _ _ _ _ _ E). Qed.

Lemma motion_shift_wf p : motion_wf p -> shift_wf (dx p, dy p).
Proof. by intros [Hx Hy]. Qed.

(** The driver between two packets. *)
Definition between (k : mouse_st) : Prop :=
  counter k = 0 /\ reading_error k = false /\ shift_wf (shift (packet1 k)).

(** The driver after the first, the second and the third byte of a motion. *)
Definition after_first (p : motion) (k : mouse_st) : mouse_st :=
  set_counter 1 (set_packet1 (set_bytes0 (motion_byte0 p) (packet1 k))
    (set_is_sync true (set_read_packet (motion_byte0 p) k))).
Definition after_second (p : motion) (k : mouse_st) : mouse_st :=
  let k1 := after_first p k in
  set_counter 2 (set_packet1 (set_bytes1 (dx p mod 256) (packet1 k1)) (set_read_packet (dx p mod 256) k1)).
Definition after_third (p : motion) (k : mouse_st) : mouse_st :=
  set_total_packets (u32 (total_packets k + 1)) (set_packet1 (motion_packet p)
    (set_counter 0 (set_read_packet (dy p mod 256) (after_second p k)))).

Lemma take_motion p k (w : W) :
  motion_wf p -> counter k = 0 ->
  take (motion_byte0 p) (k, w) = Done tt (after_first p k, w) /\
  take (dx p mod 256) (after_first p k, w) = Done tt (after_second p k, w) /\
  take (dy p mod 256) (after_second p k, w) = Done tt (after_third p k, w).
Proof.
  intros Hp Hc. split_and!.
  - apply take_first; [done|]. right. by apply motion_bit3.
  - by apply take_second.
  - unfold after_third. rewrite <- (parse_motion p Hp). by apply take_third.
Qed.

(** One packet: three interrupts, three moves. *)
Lemma packet_moves fuel n p bs w' (s : main_st W) :
  motion_wf p -> between (ms_mouse s) -> frame_ok (ms_video s) -> mouse_wf (mouse (ms_game s)) ->
  bytes_arrive fuel (motion_bytes p ++ bs) (ms_world s) w' ->
  let last := shift (packet1 (ms_mouse s)) in
  exists w1, bytes_arrive fuel bs w1 w' /\
    mouse_interrupts fuel (3 + n) s = mouse_interrupts fuel n
      (with_pointer (after_third p (ms_mouse s))
         (moved (dx p, dy p) (moved last (moved last (mouse (ms_game s))))) w1 s).
Proof.
  intros Hp (Hc & Hre & Hl) Hf Hm Hb last.
  inversion Hb as [|? ? st0 ? w1 ? Ha0 Hg0 Hb1]; subst.
  inversion Hb1 as [|? ? st1 ? w2 ? Ha1 Hg1 Hb2]; subst.
  inversion Hb2 as [|? ? st2 ? w3 ? Ha2 Hg2 Hb3]; subst.
  pose proof (moved_wf _ _ Hm Hl) as Hm1. pose proof (moved_wf _ _ Hm1 Hl) as Hm2.
  exists w3. split; [done|]. cbn [Nat.add].
  pose proof (fun w => take_motion p (ms_mouse s) w Hp Hc) as T.
  rewrite (interrupts_step _ _ s (with_pointer (after_first p (ms_mouse s)) (moved last (mouse (ms_game s))) w1 s)).
  2: { apply (interrupt_byte fuel st0 (motion_byte0 p)); [done|done|by rewrite Hc|done| |done..].
       exact (proj1 (T w1)). }
  erewrite interrupts_step.
  2: { apply (interrupt_byte fuel st1 (dx p mod 256) w2 (after_second p (ms_mouse s))); [done..| |done|done|done].
       exact (proj1 (proj2 (T w2))). }
  erewrite interrupts_step.
  2: { apply (interrupt_byte fuel st2 (dy p mod 256) w3 (after_third p (ms_mouse s))); [done..| |done|done|done].
       exact (proj2 (proj2 (T w3))). }
  done.
Qed.

(** (C15) The cursor's path: while the bytes of the motions [ps] arrive without
    errors, one interrupt each, every interrupt returns, and the cursor ends
    where [follow] says. A displacement is applied when its packet is complete
    and again with each of the first two bytes of the next packet, because
    [update_mouse_position] is called after every byte that is processed: three
    times in all. Nothing else of the program changes, and the driver is ready
    for the next packet. *)
Theorem cursor_follows_motions (fuel : nat) (ps : list motion) (w' : W) (s : main_st W) :
  Forall motion_wf ps -> between (ms_mouse s) -> frame_ok (ms_video s) -> mouse_wf (mouse (ms_game s)) ->
  bytes_arrive fuel (flat_map motion_bytes ps) (ms_world s) w' ->
  exists k,
    mouse_interrupts fuel (3 * length ps) s =
      Done tt (with_pointer k (follow (shift (packet1 (ms_mouse s))) ps (mouse (ms_game s))) w' s) /\
    between k /\ packet1 k = default (packet1 (ms_mouse s)) (motion_packet <$> last ps) /\
    mouse_wf (follow (shift (packet1 (ms_mouse s))) ps (mouse (ms_game s))).
Proof.
  intros Hps. revert s. induction Hps as [|p ps Hp Hps IH]; intros s Hk Hf Hm Hb.
  - inversion Hb; subst. exists (ms_mouse s). split_and!; [|done..].
    destruct s as [ti kb k rt g v lo w]. by destruct g.
  - cbn [flat_map] in Hb. cbn [length].
    destruct (packet_moves fuel (3 * length ps) p _ w' s Hp Hk Hf Hm Hb) as (w1 & Hb1 & E).
    replace (3 * S (length ps))%nat with (3 + 3 * length ps)%nat by lia. rewrite E.
    destruct (IH (with_pointer (after_third p (ms_mouse s)) (moved (dx p, dy p)
      (moved (shift (packet1 (ms_mouse s))) (moved (shift (packet1 (ms_mouse s))) (mouse (ms_game s))))) w1 s))
      as (k & E' & Hk' & Hlast & Hwf); [|done| |exact Hb1|].
    + destruct Hk as (_ & Hre & _). split_and!; [done|done|]. by apply motion_shift_wf.
    + destruct Hk as (_ & _ & Hl). exact (moved_wf _ _ (moved_wf _ _ (moved_wf _ _ Hm Hl) Hl) (motion_shift_wf p Hp)).
    + exists k. split_and!; [exact E'|done| |exact Hwf].
      rewrite Hlast, last_cons. by destruct (last ps).
Qed.
End Pointer.

(** ** Examples *)

(** A motion of 40 to the right and then a motion that only presses the button. *)
Definition two_motions : list motion :=
  [Motion 40 0 false false false false false; Motion 0 0 true false false false false].
Definition pointer_state : main_st script :=
  test_state (test_game (MkMouse 100 100)) loop_init_st
    (with_in (flat_map (fun b => [(0, st_full); (0, b)]) (flat_map motion_bytes two_motions)) script0).

Lemma script_bytes_arrive fuel bs (w : script) :
  (0 < fuel)%nat -> Forall (fun b => 0 <= b < 256) bs ->
  s_in w = flat_map (fun b => [(0, st_full); (0, b)]) bs -> exists w', bytes_arrive fuel bs w w'.
Proof.
  intros Hf Hbs. revert w. induction Hbs as [|b bs Hb _ IH]; intros w Hw; [exists w; apply bytes_arrive_nil|].
  destruct (IH (after_byte w)) as [w' Hw']; destruct w as [i ra ms mo lo]; simpl in Hw; subst i; [done|].
  exists w'. eapply (bytes_arrive_cons _ _ _ st_full); [|reflexivity|exact Hw'].
  apply script_arrives; [done|done|done|].
  unfold inb_result. simpl. f_equal. by apply u8_small.
Qed.

(** The cursor moves by 20 three times. *)
Lemma cursor_follows_motions_witness :
  exists s', mouse_interrupts 1 (3 * length two_motions) pointer_state = Done tt s' /\ mouse (ms_game s') = MkMouse 160 100.
Proof.
  destruct (script_bytes_arrive 1 (flat_map motion_bytes two_motions) (ms_world pointer_state))
    as [w' Hw']; [lia|apply motion_bytes_range|reflexivity|].
  destruct (cursor_follows_motions 1 two_motions w' pointer_state) as (k & E & _).
  - by repeat (apply Forall_cons; split; [split; simpl; lia|]).
  - split_and!; [done|done|split; simpl; lia].
  - apply test_video_ok.
  - split; simpl; lia.
  - exact Hw'.
  - eexists. split; [exact E|reflexivity].
Defined.
