(* ===== verification/Invariants.v ===== *)
(** What every message of [proj_main_loop] keeps, wherever it comes from and
    whatever the devices answer: the ranges of the program's variables, the faces
    of the cards, the pairs that were found. The statements are about the code
    of all the components together ([handle_message], [main_loop]); they are
    proved component by component with [keeps_rel]. *)
From S2P Require Import Prelude Env Utils Timer Rtc I8042 Keyboard Mouse Video Cards Game Flip MainLoop.

(** ** Specification *)

(** A card of the deck: its number and suit are those of its place in the image. *)
Record card_wf (c : card) : Prop := CardWf {
  cw_x : 0 <= card_x c < 13;
  cw_y : 0 <= card_y c < 4;
  cw_num : num c = getCardNumber (card_x c);
  cw_suit : suit c = getCardSuit (card_y c)
}.

(** Sixteen cards of the deck, each with exactly one partner. *)
Definition board_of_pairs (l : list card) : Prop :=
  length l = 16%nat /\ Forall card_wf l /\
  forall c, c ∈ l -> length (List.filter (same_face c) l) = 2%nat.

(** The same card later in the same game: it shows what it showed, and if it was
    found it stays found. *)
Definition card_le (c c' : card) : Prop :=
  card_x c' = card_x c /\ card_y c' = card_y c /\ num c' = num c /\ suit c' = suit c /\
  (flipSuccess c = true -> flipSuccess c' = true).

(** The same card, with the same mark. *)
Definition card_same (c c' : card) : Prop := card_le c c' /\ flipSuccess c' = flipSuccess c.

#[export] Instance card_le_preorder : PreOrder card_le.
Proof. split; unfold card_le; [intros c|intros c d e]; intuition congruence. Qed.
#[export] Instance card_same_preorder : PreOrder card_same.
Proof. split; unfold card_same; [by intros c|intros c d e [? ?] [? ?]; split; [by transitivity d|congruence]]. Qed.

(** Cards are found together with their partners. *)
Definition found_pairs (l : list card) : Prop :=
  forall i j c d, l !! i = Some c -> l !! j = Some d -> same_face c d = true -> flipSuccess c = flipSuccess d.

(** The ranges of the game's variables: the flags are 0 or 1, the width is an
    [int], the lives an [unsigned int], and the cursor is where the mouse can
    bring it. *)
Record game_typed (g : game_st) : Prop := GameTyped {
  gt_sides : length (otherSide g) = 16%nat;
  gt_flags : Forall (fun o => o = 0 \/ o = 1) (otherSide g);
  gt_width : is_int (increaseWidth g) = true;
  gt_lives : 0 <= lives (p1 g) < 4294967296;
  gt_mouse : Game.mouse_wf (mouse g)
}.

Definition byte (b : Z) : Prop := 0 <= b < 256.

(** The ranges of the mouse driver's variables. *)
Record mouse_typed (m : mouse_st) : Prop := MouseTyped {
  mt_byte : byte (read_packet m);
  mt_byte0 : byte (bytes0 (packet1 m));
  mt_byte1 : byte (bytes1 (packet1 m));
  mt_byte2 : byte (bytes2 (packet1 m));
  mt_dx : -256 <= delta_x (packet1 m) <= 255;
  mt_dy : -256 <= delta_y (packet1 m) <= 255;
  mt_counter : 0 <= counter m <= INT_MAX;
  mt_total : 0 <= total_packets m < 4294967296
}.

(** The resolution of the game's mode. *)
Definition mode_ok (m : vbe_mode_info_t) : Prop := XResolution m = 800 /\ YResolution m = 600.

Definition main_typed {W} (s : main_st W) : Prop :=
  game_typed (ms_game s) /\ mouse_typed (ms_mouse s) /\ byte (scancode (ms_kbd s)) /\
  0 <= tmr_tck_counter (ms_timer s) <= INT_MAX.

Definition main_wf {W} (s : main_st W) : Prop :=
  mode_ok (modeinfo (ms_video s)) /\ board_of_pairs (cardArray (ms_game s)) /\
  found_pairs (cardArray (ms_game s)) /\ main_typed s.

(** ** Relations between the states before and after

    [same_mode]: the mode stays. [game_later]: besides, no card is replaced and
    none changes its mark, and the ranges are kept. [main_later]: cards may be
    marked as found, in pairs. *)
Definition same_mode (v v' : video_st) : Prop := modeinfo v' = modeinfo v.

Definition game_later {W} (s s' : game_st * (video_st * W)) : Prop :=
  same_mode s.2.1 s'.2.1 /\ Forall2 card_same (cardArray s.1) (cardArray s'.1) /\
  (game_typed s.1 -> game_typed s'.1).

(** The board later in the same game. *)
Definition board_later (l l' : list card) : Prop :=
  Forall2 card_le l l' /\ (board_of_pairs l -> found_pairs l -> found_pairs l').

Definition mouse_later {W} (s s' : mouse_st * W) : Prop := mouse_typed s.1 -> mouse_typed s'.1.
Definition kbd_later {W} (s s' : kbd_st * W) : Prop := byte (scancode s.1) -> byte (scancode s'.1).
Definition timer_later {W} (s s' : timer_st * W) : Prop :=
  0 <= tmr_tck_counter s.1 <= INT_MAX -> 0 <= tmr_tck_counter s'.1 <= INT_MAX.

(** The cards alone. *)
Definition cards_later {W} (s s' : main_st W) : Prop :=
  board_later (cardArray (ms_game s)) (cardArray (ms_game s')).

Definition main_later {W} (s s' : main_st W) : Prop :=
  same_mode (ms_video s) (ms_video s') /\ cards_later s s' /\ (main_typed s -> main_typed s').

(** A new game may be dealt: the invariant is kept. *)
Definition main_stays {W} (s s' : main_st W) : Prop := main_wf s -> main_wf s'.

Lemma same_face_le c c' d d' : card_le c c' -> card_le d d' -> same_face c' d' = same_face c d.
Proof. intros (_ & _ & Hn & Hs & _) (_ & _ & Hn' & Hs' & _). unfold same_face. by rewrite Hn, Hs, Hn', Hs'. Qed.

Lemma filter_face_le c c' l l' :
  card_le c c' -> Forall2 card_le l l' ->
  length (List.filter (same_face c') l') = length (List.filter (same_face c) l).
Proof.
  intros Hc. induction 1 as [|d d' l l' Hd _ IH]; simpl; [done|].
  rewrite (same_face_le c c' d d') by done. case_match; simpl; congruence.
Qed.

Lemma board_of_pairs_le l l' : Forall2 card_le l l' -> board_of_pairs l -> board_of_pairs l'.
Proof.
  intros Hle (Hl & Hwf & Hp). split_and!.
  - by rewrite <- (Forall2_length _ _ _ Hle).
  - apply Forall_lookup. intros i c' Hc'. destruct (Forall2_lookup_r _ _ _ _ _ Hle Hc') as (c & Hc & Hcc).
    destruct (proj1 (Forall_lookup _ _) Hwf _ _ Hc). destruct Hcc as (Ex & Ey & En & Es & _). split; congruence.
  - intros c' (i & Hc')%list_elem_of_lookup. destruct (Forall2_lookup_r _ _ _ _ _ Hle Hc') as (c & Hc & Hcc).
    rewrite (filter_face_le c c' l l') by done. apply Hp. by eapply list_elem_of_lookup_2.
Qed.

#[export] Instance board_later_preorder : PreOrder board_later.
Proof.
  split; unfold board_later.
  - by intros l.
  - intros l1 l2 l3 [Hc Hf] [Hc' Hf']. split; [by transitivity l2|].
    intros Hb Hl. apply Hf'; [by eapply board_of_pairs_le|by apply Hf].
Qed.

Lemma same_board l l' : Forall2 card_same l l' -> board_later l l'.
Proof.
  intros Hs. split; [eapply Forall2_impl; [exact Hs|by intros c c' [? _]]|].
  intros _ Hf i j c' d' Hc' Hd' E. destruct (Forall2_lookup_r _ _ _ _ _ Hs Hc') as (c & Hc & Hcc & Ec).
  destruct (Forall2_lookup_r _ _ _ _ _ Hs Hd') as (d & Hd & Hdd & Ed). rewrite Ec, Ed.
  apply (Hf i j c d Hc Hd). by rewrite <- (same_face_le c c' d d').
Qed.

(** Two cards of the same face are all the cards of that face. *)
Lemma filter_three {A} (f : A -> bool) (l : list A) i j k :
  i <> j -> i <> k -> j <> k ->
  (forall n, n = i \/ n = j \/ n = k -> exists a, l !! n = Some a /\ f a = true) ->
  (3 <= length (List.filter f l))%nat.
Proof.
  intros Hij Hik Hjk Hl. destruct (Hl i) as (a0 & _ & _); [by left|].
  set (at_ n := nth n l a0).
  assert (l = map at_ (seq 0 (length l))) as ->.
  { apply list_eq. intros n. rewrite list_lookup_fmap. destruct (decide (n < length l)%nat) as [Hn|Hn].
    - rewrite lookup_seq_lt by done. simpl. destruct (lookup_lt_is_Some_2 l n Hn) as [b Hb].
      rewrite Hb. unfold at_. by rewrite (nth_lookup_Some l n a0 b).
    - rewrite lookup_ge_None_2, lookup_seq_ge by lia. done. }
  rewrite List.filter_map_swap, length_map.
  apply (NoDup_incl_length (l := [i; j; k])).
  - repeat constructor; simpl; intuition.
  - intros n Hn. apply filter_In. assert (n = i \/ n = j \/ n = k) as Hn' by (simpl in Hn; intuition).
    destruct (Hl n Hn') as (b & Hb & Hfb). split.
    + apply in_seq. pose proof (lookup_lt_Some _ _ _ Hb). lia.
    + unfold at_. by rewrite (nth_lookup_Some l n a0 b).
Qed.

(** The cards [i] and [p] with their marks. *)
Definition marked (i p n : nat) (e : card) : card :=
  if decide (n = i \/ n = p) then set_flipSuccess true e else e.

Lemma marked_lookup (l : list card) i p c d n :
  l !! i = Some c -> l !! p = Some d -> i <> p ->
  <[p := set_flipSuccess true d]> (<[i := set_flipSuccess true c]> l) !! n = marked i p n <$> l !! n.
Proof.
  intros Hc Hd Hne. pose proof (lookup_lt_Some _ _ _ Hc). pose proof (lookup_lt_Some _ _ _ Hd). unfold marked.
  destruct (decide (n = p)) as [->|Hnp].
  { rewrite list_lookup_insert_eq, Hd by (by rewrite length_insert). simpl. by rewrite decide_True by auto. }
  rewrite list_lookup_insert_ne by done. destruct (decide (n = i)) as [->|Hni].
  { rewrite list_lookup_insert_eq, Hc by done. simpl. by rewrite decide_True by auto. }
  rewrite list_lookup_insert_ne by done. destruct (l !! n); [simpl|done]. by rewrite decide_False by intuition.
Qed.

(** Faces that agree. *)
Lemma same_face_spec c d : same_face c d = true <-> num c = num d /\ suit c = suit d.
Proof. unfold same_face. by rewrite andb_true_iff, !bool_decide_eq_true. Qed.

Lemma found_pairs_mark l i p c d :
  board_of_pairs l -> found_pairs l -> i <> p -> l !! i = Some c -> l !! p = Some d -> same_face c d = true ->
  found_pairs (<[p := set_flipSuccess true d]> (<[i := set_flipSuccess true c]> l)).
Proof.
  intros (_ & _ & Hp2) Hf Hne Hc Hd E. rewrite same_face_spec in E.
  assert (forall n e, l !! n = Some e -> num c = num e /\ suit c = suit e -> n = i \/ n = p) as Honly.
  { intros n e He Hce. destruct (decide (n = i)) as [|Hni]; [by left|]. destruct (decide (n = p)) as [|Hnp]; [by right|].
    exfalso. assert (3 <= length (List.filter (same_face c) l))%nat as H3.
    - apply (filter_three _ l i p n); [done..|].
      intros m [->|[->| ->]]; eexists; (split; [eassumption|by apply same_face_spec]).
    - rewrite (Hp2 c) in H3 by (by eapply list_elem_of_lookup_2). lia. }
  assert (forall n e, l !! n = Some e -> n = i \/ n = p -> num c = num e /\ suit c = suit e) as Hface.
  { intros n e He [->| ->]; simplify_eq; done. }
  intros n m x y. rewrite !(marked_lookup l i p c d) by done.
  destruct (l !! n) as [e|] eqn:He; [|done]. destruct (l !! m) as [e'|] eqn:He'; [|done]. intros [= <-] [= <-] Hxy.
  assert (num e = num e' /\ suit e = suit e') as Hee.
  { rewrite same_face_spec in Hxy. unfold marked in Hxy. by repeat case_decide. }
  unfold marked. case_decide as Hn; case_decide as Hm; [done| | |].
  - destruct Hm. apply (Honly m e' He'). destruct (Hface n e He Hn). intuition congruence.
  - destruct Hn. apply (Honly n e He). destruct (Hface m e' He' Hm). intuition congruence.
  - apply (Hf n m e e' He He'). by apply same_face_spec.
Qed.

#[export] Instance same_mode_preorder : PreOrder same_mode.
Proof. split; unfold same_mode; [intros v|intros v v1 v2]; congruence. Qed.
#[export] Instance game_later_preorder {W} : PreOrder (@game_later W).
Proof.
  split; unfold game_later.
  - by intros s.
  - intros s1 s2 s3 (Hv & Hc & Ht) (Hv' & Hc' & Ht'). split_and!; [by etransitivity|by etransitivity|auto].
Qed.
#[export] Instance mouse_later_preorder {W} : PreOrder (@mouse_later W).
Proof. split; unfold mouse_later; [intros s|intros s1 s2 s3]; auto. Qed.
#[export] Instance kbd_later_preorder {W} : PreOrder (@kbd_later W).
Proof. split; unfold kbd_later; [intros s|intros s1 s2 s3]; auto. Qed.
#[export] Instance timer_later_preorder {W} : PreOrder (@timer_later W).
Proof. split; unfold timer_later; [intros s|intros s1 s2 s3]; auto. Qed.
#[export] Instance cards_later_preorder {W} : PreOrder (@cards_later W).
Proof. split; unfold cards_later; [by intros s|intros s1 s2 s3 H1 H2; by etransitivity]. Qed.
#[export] Instance main_later_preorder {W} : PreOrder (@main_later W).
Proof.
  split; unfold main_later.
  - by intros s.
  - intros s1 s2 s3 (Hv & Hc & Ht) (Hv' & Hc' & Ht'). split_and!; [by etransitivity|by etransitivity|auto].
Qed.
#[export] Instance main_stays_preorder {W} : PreOrder (@main_stays W).
Proof. split; unfold main_stays; [intros s|intros s1 s2 s3]; auto. Qed.

(** * Lemmas *)

Lemma wlp_impl {S A} (P : Prop) (m : M S A) (Q : A -> S -> Prop) s :
  (P -> wlp m Q s) -> wlp m (fun a s' => P -> Q a s') s.
Proof. unfold wlp. destruct (m s); auto. Qed.

Lemma wlp_step {S A B} (m : M S A) (k : A -> M S B) (Q : B -> S -> Prop) s a s' :
  m s = Done a s' -> wlp (k a) Q s' -> wlp (bind m k) Q s.
Proof. intros E HQ. apply wlp_bind. unfold wlp at 1. by rewrite E. Qed.

(** ** The display *)
Section VideoMode.

Lemma mode_draw_pixel x y c : keeps_rel same_mode (my_draw_pixel x y c).
Proof. unfold my_draw_pixel. rel_all; by apply keeps_rel_modify. Qed.

Lemma mode_load_color img off : keeps_rel same_mode (load_color img off).
Proof. unfold load_color. rel_all. Qed.

Lemma mode_blit img off sx sy w h step skip : keeps_rel same_mode (blit img off sx sy w h step skip).
Proof. unfold blit. rel_all; auto using mode_draw_pixel, mode_load_color. Qed.

Lemma mode_green : keeps_rel same_mode greenScreen.
Proof. unfold greenScreen. rel_all. apply mode_draw_pixel. Qed.

Lemma mode_green_part x y w h : keeps_rel same_mode (greenPartOfScreen x y w h).
Proof. unfold greenPartOfScreen. rel_all. apply mode_draw_pixel. Qed.

Lemma mode_draw_card sx sy px py : keeps_rel same_mode (vg_draw_card sx sy px py).
Proof. unfold vg_draw_card. rel_all; apply mode_blit. Qed.

Lemma mode_update : keeps_rel same_mode my_updateVideoMem.
Proof. unfold my_updateVideoMem. rel_all. by apply keeps_rel_modify. Qed.
End VideoMode.

#[export] Hint Resolve mode_draw_pixel mode_load_color mode_blit mode_green mode_green_part mode_draw_card
  mode_update : c_rel.

(** ** The deal *)
Section DealInv.
Context {W : Type} `{!Libc W, !RandLaws W}.

Lemma draw_in_deck (w : W) : in_deck (Z.rem (rand w).1 4, Z.rem (rand (rand w).2).1 13).
Proof.
  pose proof (draws_in_deck 1 w) as Hd. simpl in Hd. destruct (rand w) as [a w1].
  cbn [fst snd]. destruct (rand w1) as [b w2]. by apply Forall_cons in Hd as [? _].
Qed.

(** The pair that is drawn, and the generator after it. *)
Definition drawn (w : W) : Z * Z := (Z.rem (rand w).1 4, Z.rem (rand (rand w).2).1 13).
Definition after_draw (w : W) : W := (rand (rand w).2).2.

Lemma draw_pair_eq (w : W) : draw_pair w = Done (drawn w) (after_draw w).
Proof.
  unfold draw_pair, drawn, after_draw, bind, call. destruct (rand w) as [a w1]. cbn [fst snd]. by destruct (rand w1).
Qed.

(** However many numbers are drawn, the pairs kept are different cards of the deck. *)
Lemma wlp_deal_pairs n first second ps (w : W) :
  holds first second ps -> NoDup ps -> Forall in_deck ps -> (1 <= length ps <= 8)%nat ->
  wlp (deal_pairs n first second (Z.of_nat (length ps)))
    (fun '(f, s) _ => exists ps', holds f s ps' /\ NoDup ps' /\ Forall in_deck ps' /\ length ps' = 8%nat) w.
Proof.
  revert first second ps w. induction n as [|n IH]; intros first second ps w Hh Hnd Hd Hlen; cbn [deal_pairs]; [done|].
  destruct (Z.ltb_spec (Z.of_nat (length ps)) 8).
  2: { apply wlp_ret. exists ps. split_and!; [done..|lia]. }
  apply (wlp_step _ _ _ _ _ _ (draw_pair_eq w)). pose proof (draw_in_deck w) as Hp. fold (drawn w) in Hp.
  destruct (drawn w) as [rf rs].
  apply wlp_bind, wp_wlp, (wp_deal_inner _ _ _ _ ps); [done|lia|]. intros f s Hfs. rewrite Z.sub_add.
  apply IH; [done|by apply NoDup_see| |].
  - apply (Forall_foldl_see in_deck [(rf, rs)] ps); [done|by apply Forall_singleton].
  - unfold see. case_decide; rewrite ?length_app; simpl; lia.
Qed.

Lemma card_of_wf p : in_deck p -> card_wf (card_of p).
Proof. intros [Hy Hx]. by split. Qed.

Lemma board_of_pairs_perm ps cards :
  NoDup ps -> Forall in_deck ps -> length ps = 8%nat ->
  cards ≡ₚ map card_of ps ++ reverse (map card_of ps) -> board_of_pairs cards /\ found_pairs cards.
Proof.
  intros Hnd Hd Hl Hp. destruct (board_ok_perm ps cards Hnd Hd Hl Hp) as (Hlen & Hnew & Hpairs). split.
  2: { intros i j c d Hc Hd' _. destruct (Hnew c) as (_ & _ & -> & _); [by eapply list_elem_of_lookup_2|].
       destruct (Hnew d) as (_ & _ & -> & _); [by eapply list_elem_of_lookup_2|done]. }
  split_and!; [done| |done]. rewrite Hp. apply Forall_app_2; [|apply Forall_reverse];
    apply Forall_map; by eapply Forall_impl, card_of_wf.
Qed.

(** The deal, whatever the generator gives: if it ends, the board is one of pairs. *)
Lemma wlp_initialize_game_cards n cards (w : W) :
  length cards = 16%nat ->
  wlp (initialize_game_cards n cards) (fun cards' _ => board_of_pairs cards' /\ found_pairs cards') w.
Proof.
  intros Hlen. unfold initialize_game_cards. cbv zeta. pose proof (draw_in_deck w) as Hp. fold (drawn w) in Hp.
  apply (wlp_step _ _ _ _ _ _ (call_eq _ _)).
  apply (wlp_step _ _ _ _ (<[0%nat := Some (drawn w).1]> (replicate 8 None)) (rand w).2); [done|].
  apply (wlp_step _ _ _ _ _ _ (call_eq _ _)).
  apply (wlp_step _ _ _ _ (<[0%nat := Some (drawn w).2]> (replicate 8 None)) (after_draw w)); [done|].
  apply wlp_bind. eapply wlp_mono; [apply (wlp_deal_pairs n _ _ [drawn w])|].
  - split_and!; [done..|]. intros k q Hk. by apply list_lookup_singleton_Some in Hk as [-> <-].
  - apply NoDup_singleton.
  - by apply Forall_singleton.
  - simpl. lia.
  - intros [f s] w3 (ps & Hps & Hnd & Hdeck & Hl8).
    apply wlp_bind, wp_wlp, (wp_fill_board _ _ ps); [done..|]. apply wp_wlp, wp_shuffle.
    + rewrite length_app, length_reverse, length_map. lia.
    + intros cards' _ Hperm. by eapply board_of_pairs_perm.
Qed.
End DealInv.

(** ** The drivers *)
Section DriversInv.
Context {W : Type} `{PortIO W, Irq W, Lcf W}.

Lemma kbc_ih_later : keeps_rel (kbd_later (W := W)) kbc_ih.
Proof.
  intros [k w]. unfold wlp. rewrite kbc_ih_eq. unfold ih_result, kbd_later, byte.
  destruct (inb_result 0x64 w) as [st|]; [|done]. destruct (Z.testbit st 0); [|done].
  destruct (inb_result 0x60 _) as [c|] eqn:E; [|done]. intros _. simpl. by eapply inb_result_range.
Qed.

Lemma timer_int_handler_later : keeps_rel (timer_later (W := W)) timer_int_handler.
Proof.
  intros [t w]. unfold timer_int_handler. apply wlp_bind, wlp_gets, wlp_bind, wlp_int. intros Hi.
  apply wlp_modify. unfold timer_later. cbn [fst tmr_tck_counter] in *. apply is_int_spec in Hi. lia.
Qed.

Lemma counter_incr_later : keeps_rel (mouse_later (W := W)) counter_incr.
Proof.
  intros [m w]. unfold counter_incr, mouse_modify. apply wlp_bind, wlp_gets, wlp_bind, wlp_int. intros Hi.
  apply wlp_modify. unfold mouse_later. cbn [fst set_counter] in *. apply is_int_spec in Hi.
  intros []. split; cbn [read_packet packet1 total_packets counter]; try done. simpl. lia.
Qed.

Lemma mouse_modify_later f :
  (forall m, mouse_typed m -> mouse_typed (f m)) -> keeps_rel (mouse_later (W := W)) (mouse_modify f).
Proof. intros Hf. apply keeps_rel_modify. intros [m w]. exact (Hf m). Qed.

Lemma in_world_mouse {A} (m : M W A) : keeps_rel (mouse_later (W := W)) (zoom snd_lens m).
Proof. intros [s w]. apply wlp_zoom, wlp_inv. by intros a w' _ Ht. Qed.

Lemma in_world_kbd {A} (m : M W A) : keeps_rel (kbd_later (W := W)) (zoom snd_lens m).
Proof. intros [s w]. apply wlp_zoom, wlp_inv. by intros a w' _ Ht. Qed.

Lemma in_world_timer {A} (m : M W A) : keeps_rel (timer_later (W := W)) (zoom snd_lens m).
Proof. intros [s w]. apply wlp_zoom, wlp_inv. by intros a w' _ Ht. Qed.

Lemma read_read_packet_later port : keeps_rel (mouse_later (W := W)) (read_read_packet port).
Proof.
  intros [m w]. unfold read_read_packet. apply wlp_bind, wlp_zoom. unfold wlp at 1. cbn [lget snd_lens snd].
  rewrite util_sys_inb_eq. destruct (inb_result port w) as [b|] eqn:E; [|by intros ?].
  apply wlp_bind, wlp_modify, wlp_ret. intros []. split; try done. by eapply inb_result_range.
Qed.

Lemma mouse_ih_later fuel : keeps_rel (mouse_later (W := W)) (mouse_ih fuel).
Proof.
  unfold mouse_ih, mouse_ih_body.
  rel_all; auto using in_world_mouse, counter_incr_later, read_read_packet_later.
  apply mouse_modify_later. intros m []. by split.
Qed.

Lemma parse_packet_typed b0 b1 b2 : byte b0 -> byte b1 -> byte b2 ->
  let p := parse_packet b0 b1 b2 in
  -256 <= delta_x p <= 255 /\ -256 <= delta_y p <= 255 /\ byte (bytes0 p) /\ byte (bytes1 p) /\ byte (bytes2 p).
Proof. unfold byte. intros ???. simpl. repeat case_match; lia. Qed.

Lemma print_mouse_packet_later : keeps_rel (mouse_later (W := W)) print_mouse_packet.
Proof.
  intros [m w]. unfold print_mouse_packet. apply wlp_bind, wlp_gets, wlp_bind. cbn [fst].
  apply (wlp_mono _ (fun _ s => mouse_later (m, w) s)).
  { destruct (negb (is_sync m)); [|by intros ?]. destruct (_ =? 0); [by intros ?|].
    apply wlp_bind, wlp_modify, wlp_ret. intros []. by split. }
  intros [] [m1 w1] Hm1; [exact Hm1|]. eapply wlp_mono; [|intros a s' Hs; etransitivity; [exact Hm1|exact Hs]].
  clear m w Hm1. apply wlp_bind, wlp_gets. cbn [fst].
  destruct (counter m1 =? 0); [|destruct (counter m1 =? 1); [|destruct (counter m1 =? 2); [|by intros ?]]].
  - apply wlp_bind, wlp_modify. eapply wlp_mono; [apply counter_incr_later|].
    intros a s' Hs [] . apply Hs. by split.
  - apply wlp_bind, wlp_modify. eapply wlp_mono; [apply counter_incr_later|].
    intros a s' Hs []. apply Hs. by split.
  - apply wlp_bind, wlp_modify, wlp_bind, wlp_modify, wlp_modify. intros [].
    destruct (parse_packet_typed (bytes0 (packet1 m1)) (bytes1 (packet1 m1)) (read_packet m1))
      as (Hx & Hy & H0' & H1' & H2'); [done..|].
    split; cbn [fst set_total_packets set_packet1 set_counter read_packet packet1 counter total_packets]; try done.
    apply u32_range.
Qed.

Lemma mouse_event_later fuel : keeps_rel (mouse_later (W := W)) (mouse_event fuel).
Proof.
  unfold mouse_event. rel_all; auto using mouse_ih_later, print_mouse_packet_later.
  apply mouse_modify_later. intros m' []. by split.
Qed.
End DriversInv.

(** ** The game *)
Section GameInv.
Context {W : Type} `{Display W}.
Implicit Types s : game_st * (video_st * W).

Lemma later_on_video {A} (m : M video_st A) :
  keeps_rel same_mode m -> keeps_rel (game_later (W := W)) (on_video m).
Proof. intros Hm. apply (keeps_rel_zoom _ _ same_mode); [done|]. intros [g [v w]] v' Hv. by split. Qed.

Lemma later_on_world {A} (m : M W A) : keeps_rel (game_later (W := W)) (on_world m).
Proof. apply (keeps_rel_zoom _ _ (fun _ _ => True)); [intros w; apply wlp_inv; done|]. by intros [g [v w]] w' _. Qed.

Lemma later_gets {A} (f : game_st -> A) : keeps_rel (game_later (W := W)) (game_gets f).
Proof. apply keeps_rel_gets, _. Qed.

(** Variables other than the cards. *)
Lemma later_modify f :
  (forall g, cardArray (f g) = cardArray g /\ (game_typed g -> game_typed (f g))) ->
  keeps_rel (game_later (W := W)) (game_modify f).
Proof.
  intros Hf. apply keeps_rel_modify. intros [g vw]. destruct (Hf g) as [E Ht].
  split_and!; [done|simpl; by rewrite E|done].
Qed.

Lemma later_width n : is_int n = true -> keeps_rel (game_later (W := W)) (game_modify (set_increaseWidth n)).
Proof. intros Hn. apply later_modify. intros g. split; [done|]. intros []. by split. Qed.

Lemma later_add_width d : keeps_rel (game_later (W := W)) (add_width d).
Proof.
  intros s. unfold add_width. apply wlp_bind, wlp_gets, wlp_bind, wlp_int. intros Hi. by apply later_width.
Qed.

Lemma later_put_side i o : o = 0 \/ o = 1 -> keeps_rel (game_later (W := W)) (put_side i o).
Proof.
  intros Ho [g vw]. unfold put_side. apply wlp_bind, wlp_gets, wlp_bind. unfold arr_set. cbn [fst id].
  case_match eqn:Ei; [|done]. apply wlp_ret, wlp_modify. split_and!; [done|done|]. intros [].
  split; try done; cbn [fst set_otherSide otherSide]; [by rewrite length_insert|by apply Forall_insert].
Qed.

Lemma later_get_card i : keeps_rel (game_later (W := W)) (get_card i).
Proof. unfold get_card, game_gets. rel_all. Qed.

Lemma later_get_side i : keeps_rel (game_later (W := W)) (get_side i).
Proof. unfold get_side, game_gets. rel_all. Qed.

(** Reading a card, and writing it back changed. *)
Lemma wlp_get_card i (Q : card -> game_st * (video_st * W) -> Prop) s :
  (forall c, cardArray s.1 !! Z.to_nat i = Some c -> Q c s) -> wlp (get_card i) Q s.
Proof.
  intros HQ. unfold get_card. apply wlp_bind, wlp_gets. unfold arr_get. cbn [id].
  case_match; [done|]. destruct (cardArray s.1 !! Z.to_nat i) as [c|]; [by apply HQ|done].
Qed.

Lemma wlp_put_card i c c' s :
  cardArray s.1 !! Z.to_nat i = Some c -> card_same c c' -> wlp (put_card i c') (fun _ => game_later s) s.
Proof.
  intros Hc Hle. unfold put_card. apply wlp_bind, wlp_gets, wlp_bind. unfold arr_set. cbn [id].
  case_match; [|done]. apply wlp_ret, wlp_modify. split_and!; [done| |by intros []; split].
  simpl. rewrite <- (list_insert_id (cardArray s.1) (Z.to_nat i) c) at 1 by done.
  by apply Forall2_insert.
Qed.

Lemma later_change_card i f :
  (forall c, card_same c (f c)) -> keeps_rel (game_later (W := W)) (let* c := get_card i in put_card i (f c)).
Proof. intros Hf s. apply wlp_bind, wlp_get_card. intros c Hc. by eapply wlp_put_card. Qed.

Lemma wlp_put_card_then {A} i c c' (m : M (game_st * (video_st * W)) A) s :
  cardArray s.1 !! Z.to_nat i = Some c -> card_same c c' -> keeps_rel game_later m ->
  wlp (put_card i c' ;; m) (fun _ => game_later s) s.
Proof.
  intros Hc Hle Hm. apply wlp_bind. eapply wlp_mono; [by eapply wlp_put_card|]. intros [] s1 H1.
  eapply wlp_mono; [apply Hm|]. intros a s2 H2. by etransitivity.
Qed.
End GameInv.

#[export] Hint Resolve later_on_video later_on_world later_gets later_width later_add_width later_get_card
  later_get_side : c_rel.
#[export] Hint Extern 2 (keeps_rel game_later (put_side _ _)) => apply later_put_side; lia : c_rel.

Section GameCode.
Context {W : Type} `{Display W}.

Lemma later_draw_image img x y : keeps_rel (game_later (W := W)) (draw_image img x y).
Proof. unfold draw_image, get_mode. rel_all. Qed.

Lemma later_draw_letter x y l : keeps_rel (game_later (W := W)) (draw_letter x y l).
Proof. unfold draw_letter. rel_all. apply later_draw_image. Qed.

Lemma later_draw_word x y l : keeps_rel (game_later (W := W)) (draw_word x y l).
Proof.
  revert x. induction l as [|c l IH]; intros x; cbn [draw_word]; [rel_all|].
  rel_all. apply later_draw_letter.
Qed.

Lemma later_flip_front i : keeps_rel (game_later (W := W)) (flip_front i).
Proof. unfold flip_front, get_mode, quot_. rel_all. Qed.

Lemma later_flip_back i : keeps_rel (game_later (W := W)) (flip_back i).
Proof. unfold flip_back, get_mode, quot_. rel_all. Qed.

Lemma later_flip_cards up : keeps_rel (game_later (W := W)) (flip_cards up).
Proof. unfold flip_cards. rel_all; auto using later_flip_front, later_flip_back. Qed.

Lemma later_flip_width i : keeps_rel (game_later (W := W)) (flip_width i).
Proof. unfold flip_width. rel_all. Qed.

Lemma later_flip_finish flipped setw : keeps_rel (game_later (W := W)) (flip_finish flipped setw).
Proof.
  unfold flip_finish. rel_step. intros s. apply wlp_bind, wlp_get_card. intros c Hc.
  destruct (isFlipping c); [|by apply wlp_ret].
  eapply wlp_put_card_then; [exact Hc|by split_and!|]. rel_all.
Qed.
End GameCode.

#[export] Hint Resolve later_draw_image later_draw_word later_flip_cards later_flip_width later_flip_finish : c_rel.

Section GameHandlers.
Context {W : Type} `{Display W}.

Lemma later_flip_up : keeps_rel (game_later (W := W)) flipACardUp.
Proof. unfold flipACardUp. rel_all. Qed.

Lemma later_flip_down : keeps_rel (game_later (W := W)) flipACardDown.
Proof. unfold flipACardDown. rel_all. Qed.

Lemma later_draw_card_at i x y : keeps_rel (game_later (W := W)) (draw_card_at i x y).
Proof. unfold draw_card_at. rel_all; [apply later_flip_up|apply later_flip_down]. Qed.

Lemma later_draw_game_cards : keeps_rel (game_later (W := W)) draw_game_cards.
Proof. unfold draw_game_cards, drawBackground, get_mode. rel_all. apply later_draw_card_at. Qed.

Lemma later_click_cards places pos : keeps_rel (game_later (W := W)) (click_cards places pos).
Proof.
  revert pos. induction places as [|[x y] places IH]; intros pos; cbn [click_cards]; [rel_all|].
  unfold get_mode. rel_step; [rel_all|]. rel_step; [rel_all|]. case_match; [|apply IH].
  intros s. apply wlp_bind, wlp_get_card. intros c Hc.
  eapply wlp_put_card_then; [exact Hc|by split_and!|apply IH].
Qed.

Lemma later_click : keeps_rel (game_later (W := W)) flipCardOnClick.
Proof.
  unfold flipCardOnClick. rel_step; [apply later_click_cards|]. rel_step; [rel_all|].
  intros s. apply wlp_bind, wlp_get_card. intros c Hc. destruct (negb (isFlipped c)); [|by apply wlp_ret].
  eapply wlp_put_card; [exact Hc|by split_and!].
Qed.

Lemma later_hearts : keeps_rel (game_later (W := W)) drawHearts.
Proof. unfold drawHearts. rel_all. Qed.

Lemma later_pictures :
  keeps_rel (game_later (W := W)) draw_mouse /\ keeps_rel (game_later (W := W)) draw_menu /\
  keeps_rel (game_later (W := W)) draw_pause /\ keeps_rel (game_later (W := W)) draw_victory /\
  keeps_rel (game_later (W := W)) draw_game_over /\ keeps_rel (game_later (W := W)) drawMoon /\
  keeps_rel (game_later (W := W)) drawSun /\ keeps_rel (game_later (W := W)) drawInstructions.
Proof.
  split_and!; unfold draw_mouse, draw_menu, draw_pause, draw_victory, draw_game_over, draw_centred, drawMoon,
    drawSun, drawInstructions, get_mode; rel_all.
Qed.

(** The cursor moves by what the mouse sent. *)
Lemma wlp_update_mouse x y (s : game_st * (video_st * W)) :
  mode_ok (modeinfo s.2.1) -> -256 <= x <= 255 -> -256 <= y <= 255 ->
  wlp (update_mouse_position x y) (fun _ s' => game_typed s.1 -> game_typed s'.1) s.
Proof.
  intros [HX HY] Hx Hy. apply wlp_impl. intros [? ? ? ? [Hmx Hmy]]. apply wp_wlp. destruct s as [g [v w]].
  unfold update_mouse_position. apply wp_bind, wp_gets, wp_bind, wp_gets, wp_bind. cbn [fst snd] in *. rewrite HX, HY.
  apply wp_move_x; [done|done|]. intros mx Hmx'.
  apply wp_bind, wp_modify, wp_bind, wp_gets, wp_bind. cbn [fst snd set_mouse mouse mouse_y].
  apply wp_move_y; [done|done|]. intros my Hmy' _ _ _. apply wp_modify. by split.
Qed.

(** Whatever it moves by, it is only the cursor. *)
Definition cursor_only (s s' : game_st * (video_st * W)) : Prop :=
  modeinfo s'.2.1 = modeinfo s.2.1 /\ cardArray s'.1 = cardArray s.1.

#[export] Instance cursor_only_preorder : PreOrder cursor_only.
Proof. split; unfold cursor_only; [intros s|intros s1 s2 s3]; intuition congruence. Qed.

Lemma update_mouse_cursor x y : keeps_rel cursor_only (update_mouse_position x y).
Proof.
  unfold update_mouse_position, get_mode, game_gets, move_x, move_y. rel_all; by apply keeps_rel_modify.
Qed.
End GameHandlers.

#[export] Hint Resolve later_draw_game_cards later_click later_hearts : c_rel.

(** ** The main loop *)
(** The four parts of [main_typed], of which the unchanged ones are known. *)
Ltac split_main := split; [|split; [|split]]; try assumption.

Section MainInv.
Context {W : Type}.
Implicit Types s : main_st W.

Lemma later_in_game {A} (m : M (game_st * (video_st * W)) A) :
  keeps_rel game_later m -> keeps_rel main_later (in_game m).
Proof.
  intros Hm. apply (keeps_rel_zoom _ _ game_later); [done|]. intros s [g [v w]] (Hv & Hc & Ht).
  split_and!; [done|by apply same_board|]. intros (? & ? & ? & ?). split_main; by apply Ht.
Qed.

Lemma later_in_world {A} (m : M W A) : keeps_rel main_later (in_world m).
Proof. apply (keeps_rel_zoom _ _ (fun _ _ => True)); [intros w; apply wlp_inv; done|]. by intros s w' _. Qed.

Lemma later_in_mouse {A} (m : M (mouse_st * W) A) : keeps_rel mouse_later m -> keeps_rel main_later (in_mouse m).
Proof.
  intros Hm. apply (keeps_rel_zoom _ _ mouse_later); [done|]. intros s [c w] Hc. split_and!; [done|done|].
  intros (? & ? & ? & ?). split_main; by apply Hc.
Qed.

Lemma later_in_kbd {A} (m : M (kbd_st * W) A) : keeps_rel kbd_later m -> keeps_rel main_later (in_kbd m).
Proof.
  intros Hm. apply (keeps_rel_zoom _ _ kbd_later); [done|]. intros s [c w] Hc. split_and!; [done|done|].
  intros (? & ? & ? & ?). split_main; by apply Hc.
Qed.

Lemma later_in_timer {A} (m : M (timer_st * W) A) : keeps_rel timer_later m -> keeps_rel main_later (in_timer m).
Proof.
  intros Hm. apply (keeps_rel_zoom _ _ timer_later); [done|]. intros s [c w] Hc. split_and!; [done|done|].
  intros (? & ? & ? & ?). split_main; by apply Hc.
Qed.

Lemma later_draw {A} (m : M video_st A) : keeps_rel same_mode m -> keeps_rel (main_later (W := W)) (draw m).
Proof.
  intros Hm. unfold draw, in_video. rel_step; [|rel_all].
  apply (keeps_rel_zoom _ _ (fun c c' => same_mode c.1 c'.1)).
  - apply (keeps_rel_zoom _ _ same_mode); [done|]. by intros [v w] v'.
  - intros s [v w] Hv. by split_and!.
Qed.

Lemma later_upd_loop f : keeps_rel (main_later (W := W)) (upd_loop f).
Proof. apply keeps_rel_modify. by intros s. Qed.

Lemma later_upd_timer h : keeps_rel (main_later (W := W)) (upd_timer (fun t => TimerSt 0 (h t))).
Proof.
  apply keeps_rel_modify. intros s. split_and!; [done|done|]. intros (? & ? & ? & ?). by split_main.
Qed.

Lemma later_upd_kbd c : byte c -> keeps_rel (main_later (W := W)) (upd_kbd (set_scancode c)).
Proof.
  intros Hc. apply keeps_rel_modify. intros s. split_and!; [done|done|]. intros (? & ? & ? & ?). by split_main.
Qed.

Lemma later_clear_lb : keeps_rel (main_later (W := W)) (upd_mouse clear_lb).
Proof.
  apply keeps_rel_modify. intros s. split_and!; [done|done|]. intros (? & [] & ? & ?). by split_main.
Qed.

Lemma later_set_p1 f : (forall p, 0 <= lives p < 4294967296 -> 0 <= lives (f p) < 4294967296) ->
  keeps_rel (main_later (W := W)) (upd_game (fun g => set_p1 (f (p1 g)) g)).
Proof.
  intros Hf. apply keeps_rel_modify. intros s. split_and!; [done|done|].
  intros ([] & ? & ? & ?). split_main. split; try done. by apply Hf.
Qed.
End MainInv.

#[export] Hint Resolve later_in_game later_in_world later_in_mouse later_in_kbd later_in_timer later_draw
  later_upd_loop later_upd_timer later_clear_lb : c_rel.
#[export] Hint Extern 2 (keeps_rel main_later (upd_kbd _)) => apply later_upd_kbd; unfold byte; lia : c_rel.

#[export] Instance l_game_laws {W} : LensLaws (l_game (W := W)).
Proof. split; [by intros [g [v w]] s|by intros []|done]. Qed.

Section MainTicks.
Context {W : Type} `{PortIO W, Irq W, Lcf W, Display W, Libc W, Messages W}.

(** A card read and written back through the main loop's state. *)
Lemma later_change i f :
  (forall c, card_same c (f c)) -> keeps_rel (main_later (W := W)) (change_card i f).
Proof.
  intros Hf. apply (keeps_rel_ext _ _ (in_game (let* c := get_card i in put_card i (f c)))).
  - intros s. unfold change_card, in_game. by rewrite zoom_bind by apply l_game_laws.
  - by apply later_in_game, later_change_card.
Qed.

Lemma later_flipping i b : keeps_rel (main_later (W := W)) (change_card i (set_isFlipping b)).
Proof. by apply later_change. Qed.

Lemma later_lose_life : keeps_rel (main_later (W := W)) lose_life.
Proof.
  unfold lose_life. rel_all.
  - apply (later_set_p1 (fun p => set_lives (u32 (lives p - 1)) p)). intros p _. apply u32_range.
  - apply (later_set_p1 (fun p => set_isAlive false p)). by intros p.
Qed.

(** The comparison marks a card and its partner together: card [pos] was seen
    before card [i]. *)
Lemma later_mark i p c d (s : main_st W) :
  0 <= i -> 0 <= p -> i <> p ->
  cardArray (ms_game s) !! Z.to_nat i = Some c -> cardArray (ms_game s) !! Z.to_nat p = Some d ->
  same_face c d = true ->
  main_later s (with_cards (<[Z.to_nat p := set_flipSuccess true d]>
    (<[Z.to_nat i := set_flipSuccess true c]> (cardArray (ms_game s)))) s).
Proof.
  intros Hi Hp Hne Hc Hd E. split_and!; [done| |by intros ([] & ? & ? & ?); split_main; split].
  split; simpl.
  - rewrite <- (list_insert_id (cardArray (ms_game s)) (Z.to_nat i) c) at 1 by done.
    rewrite <- (list_insert_id (<[_ := c]> _) (Z.to_nat p) d) at 1
      by (rewrite list_lookup_insert_ne by lia; done).
    by repeat apply Forall2_insert.
  - intros Hb Hf. apply found_pairs_mark; try done. lia.
Qed.

Lemma later_match_card i a (s : main_st W) :
  0 <= i -> (forall p, a.2 = Some p -> 0 <= p < i) ->
  wlp (match_card i a) (fun a' s' => main_later s s' /\ forall p, a'.2 = Some p -> 0 <= p < i + 1) s.
Proof.
  intros Hi Ha. destruct a as [n pos]. unfold match_card. apply wlp_bind, wlp_zoom, wlp_get_card. intros c Hc.
  replace (lset l_game (lget l_game s) s) with s by (by destruct s).
  case_match; [apply wlp_ret; split; [done|by intros p [= <-]; lia]|].
  assert (forall p, (n, pos).2 = Some p -> 0 <= p < i + 1) as Ha'.
  { intros p Hp. specialize (Ha p Hp). lia. }
  case_match; [|by apply wlp_ret]. destruct pos as [p|]; [|done]. specialize (Ha p eq_refl).
  cbn [of_option]. apply wlp_bind, wlp_ret, wlp_bind, wlp_zoom, wlp_get_card. intros d Hd.
  replace (lset l_game (lget l_game s) s) with s by (by destruct s).
  apply wlp_bind. apply (wlp_mono _ (fun _ => main_later s)); [|by intros [] s' Hs; apply wlp_ret].
  destruct (same_face c d) eqn:E.
  - unfold wlp. rewrite (change_two i p (set_flipSuccess true) c d s) by (done || lia).
    apply later_mark; try done; lia.
  - match goal with |- wlp ?m _ _ => assert (keeps_rel main_later m) as Hk; [|apply Hk] end.
    rel_all; first [apply later_flipping|apply later_lose_life].
Qed.

Lemma later_tick_match : keeps_rel (main_later (W := W)) tick_match.
Proof.
  unfold tick_match. rel_step; [rel_all|]. rel_step; [|rel_all]. apply keeps_rel_bind; [typeclasses eauto| |intros; rel_all]. clear. intros s.
  apply (wlp_for_range_acc (fun j a s' => main_later s s' /\ forall p, a.2 = Some p -> 0 <= p < j)).
  - by split.
  - intros j a s1 Hj [H1' Ha]. eapply wlp_mono; [apply later_match_card; [lia|exact Ha]|].
    intros a' s2 [H2' Ha']. split; [by transitivity s1|done].
  - by intros a s1 [? _].
Qed.

Lemma later_set_flipping : keeps_rel (game_later (W := W))
  (for_range 0 16 (fun i => let* c := get_card i in put_card i (set_isFlipping true c))).
Proof. rel_step. by apply later_change_card. Qed.

Lemma later_main_pictures :
  keeps_rel (main_later (W := W)) (in_game draw_mouse) /\ keeps_rel (main_later (W := W)) (in_game draw_menu) /\
  keeps_rel (main_later (W := W)) (in_game draw_pause) /\ keeps_rel (main_later (W := W)) (in_game draw_victory) /\
  keeps_rel (main_later (W := W)) (in_game draw_game_over) /\ keeps_rel (main_later (W := W)) (in_game drawMoon) /\
  keeps_rel (main_later (W := W)) (in_game drawSun) /\ keeps_rel (main_later (W := W)) (in_game drawInstructions).
Proof. pose proof (later_pictures (W := W)). split_and!; apply later_in_game; tauto. Qed.

(** The states other than [Exit]. *)
Lemma later_ticks :
  keeps_rel (main_later (W := W)) tick_menu /\ keeps_rel (main_later (W := W)) tick_game /\
  keeps_rel (main_later (W := W)) tick_pause /\ keeps_rel (main_later (W := W)) tick_instructions.
Proof.
  destruct later_main_pictures as (P1 & P2 & P3 & P4 & P5 & P6 & P7 & P8).
  pose proof later_set_flipping as Hset.
  split_and!; unfold tick_menu, tick_game, tick_init_game, tick_play, tick_click, tick_end, tick_pause,
    tick_instructions; rel_all; apply later_tick_match.
Qed.
End MainTicks.

(** ** Messages *)

Section Messages.
Context {W : Type} `{PortIO W, Irq W, Lcf W, Display W, Libc W, Messages W}.

Lemma later_stays (s s' : main_st W) : main_later s s' -> main_stays s s'.
Proof.
  intros (Hm & [Hc Hf] & Ht) (Hm' & Hb & Hfp & Ht'). unfold same_mode in Hm.
  split; [by rewrite Hm|]. split; [by eapply board_of_pairs_le|]. split; [by apply Hf|by apply Ht].
Qed.

Lemma stays {A} (m : M (main_st W) A) : keeps_rel main_later m -> keeps_rel main_stays m.
Proof. intros Hm. by apply (keeps_rel_weaken _ main_later), later_stays. Qed.

Lemma cards {A} (m : M (main_st W) A) : keeps_rel main_later m -> keeps_rel cards_later m.
Proof. intros Hm. apply (keeps_rel_weaken _ main_later); [done|]. by intros s s' (_ & Hc & _). Qed.

Lemma stays_new_game `{!RandLaws W} fuel : keeps_rel (main_stays (W := W)) (new_game fuel).
Proof.
  unfold new_game. do 4 (apply keeps_rel_bind; [typeclasses eauto|apply stays, later_upd_loop|intros _]).
  intros s. apply wlp_bind, wlp_gets, wlp_bind, wlp_zoom. apply wlp_inv. intros cards' w' E.
  apply wlp_bind, wlp_modify, wlp_modify. intros (Hm & Hb & _ & ([] & ? & ? & ?)).
  pose proof (wlp_initialize_game_cards fuel _ (ms_world s) (proj1 Hb)) as Hi. unfold wlp in Hi. simpl in E.
  rewrite E in Hi. destruct Hi. split; [done|]. split; [done|]. split; [done|]. split_main. by split.
Qed.

Lemma stays_exit `{!RandLaws W} fuel : keeps_rel (main_stays (W := W)) (tick_exit fuel).
Proof.
  destruct later_main_pictures as (P1 & P2 & P3 & P4 & P5 & P6 & P7 & P8).
  unfold tick_exit. apply keeps_rel_bind; [typeclasses eauto|apply stays; rel_all|intros _].
  do 2 (apply keeps_rel_bind; [typeclasses eauto|apply stays; rel_all|intros ?]).
  apply keeps_rel_bind; [typeclasses eauto| |intros _; apply stays; rel_all].
  repeat case_match; first
    [apply keeps_rel_bind; [typeclasses eauto|by apply stays|intros _; apply stays_new_game]
    |apply stays; rel_all].
Qed.

(** The mouse's part of a message: the packet that moves the cursor is in range. *)
Lemma stays_mouse fuel : keeps_rel (main_stays (W := W)) (mouse_interrupt fuel).
Proof.
  unfold mouse_interrupt. apply keeps_rel_bind; [typeclasses eauto| |].
  { apply stays, later_in_mouse, mouse_event_later. }
  intros r. destruct r; [apply stays; rel_all..|]. intros s. apply wlp_bind, wlp_gets, wlp_bind.
  apply (wlp_mono _ (fun _ s' => main_stays s s')); [|by intros [] s' Hs].
  apply wlp_impl. intros (Hm & Hb & Hf & (Hg & Hmt & ? & ?)). apply wlp_zoom.
  pose proof (update_mouse_cursor (delta_x (packet1 (ms_mouse s))) (delta_y (packet1 (ms_mouse s))) (lget l_game s)) as Hc.
  pose proof (wlp_update_mouse (delta_x (packet1 (ms_mouse s))) (delta_y (packet1 (ms_mouse s))) (lget l_game s)
    Hm (mt_dx _ Hmt) (mt_dy _ Hmt)) as Ht.
  eapply wlp_mono; [exact (wlp_conj _ _ _ _ Hc Ht)|]. intros [] [g [v w]] [[Ev Ec] Hty]. simpl in *.
  split; [simpl; by rewrite Ev|]. split; [simpl; by rewrite Ec|]. split; [simpl; by rewrite Ec|]. split_main. by apply Hty.
Qed.

(** The cursor's move leaves the cards. *)
Lemma cards_update x y : keeps_rel (cards_later (W := W)) (in_game (update_mouse_position x y)).
Proof.
  apply (keeps_rel_zoom _ _ cursor_only); [apply update_mouse_cursor|].
  intros s [g [v w]] [_ Ec]. unfold cards_later. simpl in *. by rewrite Ec.
Qed.

Lemma later_in_drivers :
  keeps_rel (main_later (W := W)) (in_kbd kbc_ih) /\ keeps_rel (main_later (W := W)) (in_timer timer_int_handler).
Proof. split; [apply later_in_kbd, kbc_ih_later|apply later_in_timer, timer_int_handler_later]. Qed.

Lemma stays_tick `{!RandLaws W} fuel : keeps_rel (main_stays (W := W)) (timer_tick fuel).
Proof.
  destruct later_main_pictures as (P1 & _). destruct later_ticks as (T1 & T2 & T3 & T4).
  unfold timer_tick. apply keeps_rel_bind; [typeclasses eauto|apply stays; rel_all|intros l].
  apply keeps_rel_bind; [typeclasses eauto| |intros _; apply stays; rel_all].
  destruct (gs l); first [by apply stays|apply stays_exit|apply stays; rel_all].
Qed.

Lemma stays_message `{!RandLaws W} fuel i1 i2 i3 : keeps_rel (main_stays (W := W)) (handle_message fuel i1 i2 i3).
Proof.
  destruct later_in_drivers as (D1 & D2). unfold handle_message.
  apply keeps_rel_bind; [typeclasses eauto|apply stays; rel_all|intros m].
  case_match; [apply stays; rel_all|]. case_match; [|apply stays; rel_all].
  apply keeps_rel_bind; [typeclasses eauto|apply stays; rel_all|intros _].
  apply keeps_rel_bind; [typeclasses eauto|case_match; [apply stays_mouse|apply stays; rel_all]|intros go].
  case_match; [|apply stays; rel_all].
  apply keeps_rel_bind; [typeclasses eauto|by apply stays|intros _; apply stays_tick].
Qed.

Lemma stays_main_loop `{!RandLaws W} fuel i1 i2 i3 : keeps_rel (main_stays (W := W)) (main_loop fuel i1 i2 i3).
Proof.
  unfold main_loop. apply keeps_rel_loop; [typeclasses eauto|].
  apply keeps_rel_bind; [typeclasses eauto|apply stays; rel_all|intros l].
  case_match; [|apply stays; rel_all].
  apply keeps_rel_bind; [typeclasses eauto|apply stays_message|intros _; apply stays; rel_all].
Qed.

(** In a state other than [Exit] no cards are dealt. *)
Lemma cards_tick fuel (s : main_st W) :
  gs (ms_loop s) <> Exit -> wlp (timer_tick fuel) (fun _ => cards_later s) s.
Proof.
  intros Hne. destruct later_main_pictures as (P1 & _). destruct later_ticks as (T1 & T2 & T3 & T4).
  unfold timer_tick. apply wlp_bind, wlp_gets.
  match goal with |- wlp ?m _ _ => assert (keeps_rel cards_later m) as Hk; [|apply Hk] end.
  apply cards. rel_step; [|rel_all]. destruct (gs (ms_loop s)); done || rel_all.
Qed.

(** What comes before the tick leaves the state of the game. *)
Definition same_loop (s s' : main_st W) : Prop := ms_loop s' = ms_loop s /\ cards_later s s'.

#[export] Instance same_loop_preorder : PreOrder same_loop.
Proof.
  split; unfold same_loop; [by intros s|intros s1 s2 s3 [? ?] [? ?]].
  split; [congruence|by etransitivity].
Qed.

Lemma same_loop_zoom {C A} (l : lens (main_st W) C) (m : M C A) :
  (forall s c, ms_loop (lset l c s) = ms_loop s) -> keeps_rel cards_later (zoom l m) -> keeps_rel same_loop (zoom l m).
Proof.
  intros Hl Hm s. apply wlp_conj; [|apply Hm]. apply wlp_zoom, wlp_inv. intros a c _. apply Hl.
Qed.

Lemma same_loop_mouse fuel : keeps_rel same_loop (mouse_interrupt (W := W) fuel).
Proof.
  unfold mouse_interrupt. apply keeps_rel_bind; [typeclasses eauto| |].
  - apply same_loop_zoom; [done|]. apply cards, later_in_mouse, mouse_event_later.
  - intros r. destruct r; rel_all. apply same_loop_zoom; [done|apply cards_update].
Qed.

Lemma cards_message fuel i1 i2 i3 (s : main_st W) :
  gs (ms_loop s) <> Exit -> wlp (handle_message fuel i1 i2 i3) (fun _ => cards_later s) s.
Proof.
  intros Hne. destruct later_in_drivers as (D1 & D2).
  assert (forall A (m : M W A), keeps_rel same_loop (in_world m)) as S0
    by (intros A m; apply same_loop_zoom; [done|apply cards, later_in_world]).
  assert (keeps_rel same_loop (in_kbd (W := W) kbc_ih)) as S1 by (apply same_loop_zoom; [done|by apply cards]).
  assert (keeps_rel same_loop (in_timer (W := W) timer_int_handler)) as S2
    by (apply same_loop_zoom; [done|by apply cards]).
  assert (forall A (m : M (main_st W) A) k s1, keeps_rel same_loop m -> same_loop s s1 ->
    (forall a s2, same_loop s s2 -> wlp (k a) (fun _ : unit => cards_later s) s2) ->
    wlp (bind m k) (fun _ => cards_later s) s1) as Hbind.
  { intros A m k s1 Hm H1' Hk. apply wlp_bind. eapply wlp_mono; [apply Hm|]. intros a s2 H2'.
    apply Hk. by transitivity s1. }
  assert (forall s1, same_loop s s1 -> wlp skip (fun _ => cards_later s) s1) as Hskip by (intros s1 [_ ?]; by apply wlp_ret).
  unfold handle_message. apply Hbind; [apply S0|done|]. intros m s1 Hs1.
  case_match; [by apply Hskip|]. case_match; [|by apply Hskip].
  apply Hbind; [case_match; rel_all; apply S1|done|]. intros _ s2 Hs2.
  apply Hbind; [case_match; [apply same_loop_mouse|rel_all]|done|]. intros go s3 Hs3.
  case_match; [|by apply Hskip]. apply Hbind; [done|done|]. intros _ s4 [El Hs4].
  eapply wlp_mono; [apply cards_tick; by rewrite El|]. intros [] s5 Hs5. by transitivity s4.
Qed.

(** ** Properties *)

(** (C6) The program stays well formed: from a state in which the mode is the game's,
    the board is sixteen cards of the deck in eight pairs, found cards are found
    with their partners, and every variable is in its range ([game_typed],
    [mouse_typed]; the scancode is a byte, the tick counter an [int]), one message,
    whatever interrupts it reports and whatever the devices answer, and any number
    of them in the main loop lead to such a state, also when a new game is dealt. *)
Theorem messages_keep_wf `{!RandLaws W} (fuel : nat) (i1 i2 i3 : Z) (s s' : main_st W) :
  main_wf s ->
  (handle_message fuel i1 i2 i3 s = Done tt s' -> main_wf s') /\
  (main_loop fuel i1 i2 i3 s = Done tt s' -> main_wf s').
Proof.
  intros Hs. split; intros E.
  - pose proof (stays_message fuel i1 i2 i3 s) as Hk. unfold wlp in Hk. rewrite E in Hk. by apply Hk.
  - pose proof (stays_main_loop fuel i1 i2 i3 s) as Hk. unfold wlp in Hk. rewrite E in Hk. by apply Hk.
Qed.

(** (C7) The board of a game: on a message in any state but [Exit] every place keeps
    its card, a card that was found stays found, and if the cards were found in
    pairs they still are, so that a card is marked exactly when its partner is. *)
Theorem found_stay_found (fuel : nat) (i1 i2 i3 : Z) (s s' : main_st W) :
  gs (ms_loop s) <> Exit -> handle_message fuel i1 i2 i3 s = Done tt s' ->
  Forall2 card_le (cardArray (ms_game s)) (cardArray (ms_game s')) /\
  (board_of_pairs (cardArray (ms_game s)) -> found_pairs (cardArray (ms_game s)) ->
   found_pairs (cardArray (ms_game s'))).
Proof.
  intros Hne E. pose proof (cards_message fuel i1 i2 i3 s Hne) as Hk. unfold wlp in Hk. rewrite E in Hk.
  exact Hk.
Qed.
End Messages.

(** ** The set-up *)
Section SetUp.
Context {W : Type} `{PortIO W, Irq W, Lcf W, Display W, Libc W, Messages W} `{!RandLaws W}.

(** The program's globals before [main], and the world [w]. *)
Definition init_state (w : W) : main_st W :=
  MainSt timer_init_st kbd_init_st mouse_init_st rtc_init_st game_init_st video_init_st loop_init_st w.

(** [main_wf] but for the mode, which is not set yet. *)
Definition ready (s : main_st W) : Prop :=
  board_of_pairs (cardArray (ms_game s)) /\ found_pairs (cardArray (ms_game s)) /\ main_typed s.

Lemma wlp_ready {A B} (m : M (main_st W) A) (k : A -> M (main_st W) B) Q s :
  keeps_rel main_later m -> ready s -> (forall a s', ready s' -> wlp (k a) Q s') -> wlp (bind m k) Q s.
Proof.
  intros Hm (Hb & Hf & Ht) Hk. apply wlp_bind. eapply wlp_mono; [apply Hm|].
  intros a s' (_ & [Hc Hp] & Hty). apply Hk. split; [by eapply board_of_pairs_le|]. split; [by apply Hp|by apply Hty].
Qed.

Lemma later_upd_video f : (forall v, same_mode v (f v)) -> keeps_rel (main_later (W := W)) (upd_video f).
Proof. intros Hf. apply keeps_rel_modify. intros s. split_and!; [apply Hf|done|done]. Qed.

Lemma later_load_images : keeps_rel (main_later (W := W)) load_images.
Proof.
  unfold load_images. rel_all; try (by apply later_upd_video).
  apply keeps_rel_modify. intros s. split_and!; [done|done|]. intros ([] & ? & ? & ?). split_main. by split.
Qed.

Lemma later_subscribe :
  keeps_rel (main_later (W := W)) (in_kbd kbc_subscribe) /\
  keeps_rel (main_later (W := W)) (in_timer timer_subscribe_int) /\
  keeps_rel (main_later (W := W)) (in_mouse mouse_subscribe).
Proof.
  split_and!; [apply later_in_kbd|apply later_in_timer|apply later_in_mouse];
    unfold kbc_subscribe, timer_subscribe_int, mouse_subscribe, kbd_modify; rel_all;
    first [apply in_world_mouse|apply in_world_kbd|apply in_world_timer
          |apply mouse_modify_later; intros ? []; by split|by apply keeps_rel_modify; intros [? ?] ?].
Qed.

Lemma later_unsubscribe :
  keeps_rel (main_later (W := W)) (in_kbd kbc_unsubscribe) /\
  keeps_rel (main_later (W := W)) (in_timer timer_unsubscribe_int) /\
  keeps_rel (main_later (W := W)) (in_mouse mouse_unsubscribe).
Proof.
  split_and!; [apply later_in_kbd|apply later_in_timer|apply later_in_mouse];
    unfold kbc_unsubscribe, timer_unsubscribe_int, mouse_unsubscribe, kbd_modify; rel_all;
    first [apply in_world_mouse|apply in_world_kbd|apply in_world_timer
          |apply mouse_modify_later; intros ? []; by split|by apply keeps_rel_modify; intros [? ?] ?].
Qed.

(** Code of the display's part that leaves the mode. *)
Definition video_later (s s' : video_st * W) : Prop := same_mode s.1 s'.1.

#[export] Instance video_later_preorder : PreOrder video_later.
Proof. split; unfold video_later; [by intros s|intros s1 s2 s3 ??; by etransitivity]. Qed.

Lemma video_later_call {A} (m : M W A) : keeps_rel video_later (zoom snd_lens m).
Proof. intros [v w]. apply wlp_zoom, wlp_inv. by intros a w' _. Qed.

Lemma video_later_modify f : (forall v, same_mode v (f v)) -> keeps_rel video_later (video_modify f).
Proof. intros Hf. apply keeps_rel_modify. intros [v w]. apply Hf. Qed.

Lemma later_tear_down fuel : keeps_rel (main_later (W := W)) (tear_down fuel).
Proof.
  destruct later_unsubscribe as (U1 & U2 & U3). unfold tear_down. rel_all.
  apply (keeps_rel_zoom _ _ video_later); [|intros s [v w] Hv; by split_and!].
  unfold clear_buffer. rel_all; [apply video_later_call|by apply video_later_modify].
Qed.

(** [vg_start] sets the mode the card reports. *)
Lemma wlp_vg_start mode info (v : video_st) (w : W) :
  (vbe_get_mode_info mode w).1 = (0, info) ->
  wlp (vg_start mode) (fun _ s => modeinfo s.1 = info) (v, w).
Proof.
  intros E. unfold vg_start. apply wlp_bind, wlp_zoom. unfold wlp at 1, call. cbn [lget snd_lens snd].
  destruct (vbe_get_mode_info mode w) as [ri w1]. simpl in E. subst ri. cbn [Z.eqb].
  apply wlp_bind, wlp_modify. cbn [fst snd lset snd_lens].
  match goal with |- wlp ?m _ ?s => assert (keeps_rel video_later m) as Hk; [|eapply wlp_mono; [apply Hk|]] end.
  - rel_all; first [apply video_later_call|by apply video_later_modify].
  - by intros a s Hs.
Qed.

(** The set-up: when the graphics card offers mode 0x115 with its 800 times 600
    pixels, [proj_main_loop], run from the initial values of the globals, returns
    0 only in well-formed states, however many messages it handled. *)
Lemma program_ends_wf (fuel : nat) (w : W) (info : vbe_mode_info_t) (s' : main_st W) :
  (forall w', (vbe_get_mode_info 0x115 w').1 = (0, info)) -> mode_ok info ->
  proj_main_loop fuel (init_state w) = Done 0 s' -> main_wf s'.
Proof.
  intros Hv Hm. enough (wlp (proj_main_loop fuel) (fun r s => r = 0 -> main_wf s) (init_state w)) as Hw.
  { intros E. unfold wlp in Hw. rewrite E in Hw. by apply Hw. }
  destruct later_subscribe as (S1 & S2 & S3).
  unfold proj_main_loop, serve. apply wlp_bind, wlp_zoom. apply wlp_inv. intros [] w1 _.
  apply wlp_bind, wlp_gets, wlp_bind, wlp_zoom. cbn [lget lset l_world ms_world ms_game init_state].
  eapply wlp_mono; [by apply wlp_initialize_game_cards|]. intros cards' w2 [Hb Hf].
  apply wlp_bind, wlp_modify, wlp_bind, wlp_modify, wlp_bind, wlp_modify. cbn [ms_game].
  apply wlp_ready; [apply later_load_images| |].
  { split; [done|]. split; [done|]. split_main.
    - split; simpl; try done. by repeat (constructor; [by left|]).
    - split; simpl; unfold byte, INT_MAX; lia.
    - simpl. unfold byte. lia.
    - simpl. unfold INT_MAX. lia. }
  intros _ s1 Hr1. apply wlp_ready; [apply later_upd_loop|done|]. intros _ s2 Hr2.
  apply wlp_ready; [|done|].
  { apply (keeps_rel_zoom _ _ (fun _ _ => True)); [intros s; apply wlp_inv; done|]. by intros s [c w3] _. }
  intros _ s3 Hr3. apply wlp_ready; [done..|]. intros [r1 b1] s4 Hr4. case_match; [by apply wlp_ret|].
  apply wlp_ready; [done..|]. intros [r2 b2] s5 Hr5. case_match; [by apply wlp_ret|].
  apply wlp_ready; [done..|]. intros [r3 b3] s6 Hr6. case_match; [by apply wlp_ret|].
  apply wlp_ready; [rel_all|done|]. intros r4 s7 Hr7. case_match; [by apply wlp_ret|].
  apply wlp_bind, wlp_zoom. eapply wlp_mono; [by apply (wlp_vg_start _ info)|]. intros r5 [v w8] Hi.
  case_match; [by apply wlp_ret|]. simpl in Hi.
  apply wlp_bind, wlp_modify.
  match goal with |- wlp ?m _ ?s => assert (keeps_rel main_stays m) as Hk; [|eapply wlp_mono; [apply Hk|]] end.
  - apply keeps_rel_bind; [typeclasses eauto|apply stays_main_loop|intros _].
    apply stays, later_tear_down.
  - intros r s8 Hs _. apply Hs. split; [simpl; by rewrite Hi|]. destruct Hr7 as (? & ? & ?). by split_and!.
Qed.
End SetUp.

(** ** A concrete message

    A game in which the first card and the last, its partner, were found; a key
    is released and the third byte of a mouse packet arrives. *)
Definition some_pairs : list (Z * Z) := [(0, 0); (1, 1); (2, 2); (3, 3); (0, 4); (1, 5); (2, 6); (3, 7)].
Definition found_board : list card :=
  <[15%nat := set_flipSuccess true (card_of (0, 0))]> (<[0%nat := set_flipSuccess true (card_of (0, 0))]>
    (map card_of some_pairs ++ reverse (map card_of some_pairs))).
Definition moving_mouse : mouse_st :=
  MouseSt (Packet 0x08 20 0 false false false 0 0 false false) 20 true 2 2 0 false.
Definition playing : main_st script :=
  MainSt (TimerSt 239 0) kbd_init_st moving_mouse rtc_init_st
    (set_cardArray found_board (test_game (MkMouse 100 100))) test_video
    (set_gs Game (set_initGame false loop_init_st))
    (with_msgs [Receive 0 true true 6] (with_in [(0, 1); (0, 0x99); (0, 0x21); (0, 30)] script0)).
Definition played : main_st script :=
  match handle_message 1 2 1 4 playing with Done _ s => s | _ => playing end.

Lemma found_board_pairs : board_of_pairs found_board /\ found_pairs found_board.
Proof.
  assert (board_of_pairs (map card_of some_pairs ++ reverse (map card_of some_pairs)) /\
    found_pairs (map card_of some_pairs ++ reverse (map card_of some_pairs))) as [Hb Hf].
  { apply (board_of_pairs_perm some_pairs); [|by repeat constructor|done|done].
    apply (bool_decide_unpack _). vm_compute. exact I. }
  split; [|by apply found_pairs_mark].
  eapply board_of_pairs_le; [|exact Hb]. by repeat constructor.
Qed.

Lemma playing_wf : main_wf playing.
Proof.
  destruct found_board_pairs as [Hb Hf]. split; [done|]. split; [exact Hb|]. split; [exact Hf|]. split_main.
  - split; simpl; try done. by repeat (constructor; [by left|]).
  - split; simpl; unfold byte, INT_MAX; lia.
  - simpl. unfold byte. lia.
  - simpl. unfold INT_MAX. lia.
Qed.

Lemma messages_keep_wf_witness :
  main_wf played /\ mouse (ms_game played) = MkMouse 110 85 /\ scancode (ms_kbd played) = 0x99.
Proof.
  assert (handle_message 1 2 1 4 playing = Done tt played) as E by (vm_compute; reflexivity).
  split; [exact (proj1 (messages_keep_wf 1 2 1 4 playing played playing_wf) E)|]. split; vm_compute; reflexivity.
Defined.

Lemma found_stay_found_witness :
  Forall2 card_le found_board (cardArray (ms_game played)) /\ found_pairs (cardArray (ms_game played)).
Proof.
  assert (handle_message 1 2 1 4 playing = Done tt played) as E by (vm_compute; reflexivity).
  destruct (found_stay_found 1 2 1 4 playing played ltac:(discriminate) E) as [Hle Hf].
  split; [exact Hle|]. destruct found_board_pairs as [Hb Hp]. exact (Hf Hb Hp).
Defined.
