(* ===== verification/Play.v ===== *)
(** The parts of the game at work together: a player holds the mouse button over a
    face-down card while the timer ticks. Messages, the tick of a running game, the
    click, the animation, the comparison and the end of a tick are run from one
    message to the next, until the card lies face up and is compared. *)
From S2P Require Import Prelude Env Timer Keyboard Mouse Video Cards Game Flip MainLoop.

(** ** Specification *)

(** What the drawing needs of the game. *)
Record table (g : game_st) : Prop := Table {
  tb_sprites : sprites_ok (imgs g);
  tb_x : 0 <= mouse_x (mouse g) < 800;
  tb_y : 0 <= mouse_y (mouse g) < 65000;
  tb_cursor : cursor_fits (mouse g) = true;
  tb_lives : 0 <= lives (p1 g) <= 22;
  tb_cards : cards_drawable (cardArray g)
}.

(** A running game with the left button held, at the count [c] of ticks. *)
Record playing {W} (c : Z) (g : game_st) (s : main_st W) : Prop := Playing {
  pl_game : ms_game s = g;
  pl_frame : frame_ok (ms_video s);
  pl_gs : gs (ms_loop s) = Game;
  pl_init : initGame (ms_loop s) = false;
  pl_count : tmr_tck_counter (ms_timer s) = c;
  pl_button : lb (packet1 (ms_mouse s)) = true;
  pl_key : scancode (ms_kbd s) <> 0x81;
  pl_lost : game_over (ms_loop s) = false
}.

(** A running game, whether the button is held or not. *)
Record running {W} (c : Z) (g : game_st) (s : main_st W) : Prop := Running {
  rn_game : ms_game s = g;
  rn_frame : frame_ok (ms_video s);
  rn_gs : gs (ms_loop s) = Game;
  rn_init : initGame (ms_loop s) = false;
  rn_count : tmr_tck_counter (ms_timer s) = c;
  rn_key : scancode (ms_kbd s) <> 0x81;
  rn_lost : game_over (ms_loop s) = false
}.

(** A game that was won, at the count [c] of ticks. *)
Record won {W} (c : Z) (g : game_st) (s : main_st W) : Prop := Won {
  wn_game : ms_game s = g;
  wn_frame : frame_ok (ms_video s);
  wn_gs : gs (ms_loop s) = Exit;
  wn_victory : victory (ms_loop s) = true;
  wn_count : tmr_tck_counter (ms_timer s) = c;
  wn_lost : game_over (ms_loop s) = false
}.

(** A game that was lost. *)
Record lost {W} (c : Z) (g : game_st) (s : main_st W) : Prop := Lost {
  ls_game : ms_game s = g;
  ls_frame : frame_ok (ms_video s);
  ls_gs : gs (ms_loop s) = Exit;
  ls_over : game_over (ms_loop s) = true;
  ls_count : tmr_tck_counter (ms_timer s) = c
}.

(** Some card is not found yet. *)
Definition unfinished (l : list card) : Prop := exists j e, l !! j = Some e /\ flipSuccess e = false.

Definition all_found (l : list card) : Prop := Forall (fun e => flipSuccess e = true) l.

(** What a tick leaves: the game goes on until all cards are found, and is won in
    the next tick whose count is a multiple of 120. *)
Definition after_tick {W} (c : Z) (g : game_st) (s : main_st W) : Prop :=
  (unfinished (cardArray g) -> playing c g s) /\
  (all_found (cardArray g) -> if Z.rem c 120 =? 0 then won c g s else playing c g s).

(** No card is turning, and the animation is at its start. *)
Record at_rest (g : game_st) : Prop := AtRest {
  ar_still : Forall (fun c => isFlipping c = false) (cardArray g);
  ar_width : increaseWidth g = 1;
  ar_sides : otherSide g = replicate 16 0
}.

(** The board with the card at place [p] turning, and with it face up. *)
Definition turning (p : nat) (c : card) (g : game_st) : game_st :=
  set_cardArray (<[p := set_isFlipping true c]> (cardArray g)) g.
Definition uncovered (p : nat) (c : card) (g : game_st) : game_st :=
  set_cardArray (<[p := set_isFlipped false c]> (cardArray g)) g.

(** The comparison of the uncovered card [c] at [p] with the card [d] at [q]: a
    pair is found, or both turn back and a life is lost. *)
Definition compared (p q : nat) (c d : card) (g : game_st) : game_st :=
  let up := set_isFlipped false c in
  if same_face c d
  then set_cardArray (<[p := set_flipSuccess true up]> (<[q := set_flipSuccess true d]> (cardArray g))) g
  else
    let n := u32 (lives (p1 g) - 1) in
    set_p1 (MkPlayer (name (p1 g)) n (if n =? 0 then false else isAlive (p1 g)) (bestTime (p1 g)))
      (set_cardArray (<[p := set_isFlipping true up]> (<[q := set_isFlipping true d]> (cardArray g))) g).

(** The ticks that draw the board among the [m] that follow the count [c]. *)
Definition drawn (c : Z) (m : nat) : nat := Z.to_nat ((c + Z.of_nat m) / 2 - c / 2).

(** * Lemmas *)

Lemma drawn_S n m : 0 <= n -> drawn n (S m) = ((if (Z.rem (n + 1) 2 =? 0)%Z then 1 else 0) + drawn (n + 1) m)%nat.
Proof.
  intros Hn. unfold drawn. rewrite Z.rem_mod_nonneg by lia. destruct (Z.eqb_spec ((n + 1) mod 2) 0); Z.div_mod_to_equations; lia.
Qed.

(** ** The end of a tick *)
Section TickEnd.
Context {W : Type} `{PortIO W, Irq W, Lcf W, Display W, Libc W, Messages W}.

Lemma wp_tick_end (Q : unit -> main_st W -> Prop) s :
  length (cardArray (ms_game s)) = 16%nat ->
  (forall l, initGame l = initGame (ms_loop s) ->
     game_over l = game_over (ms_loop s) ->
     (unfinished (cardArray (ms_game s)) -> gs l = gs (ms_loop s)) ->
     (all_found (cardArray (ms_game s)) ->
        if every 120 s then gs l = Exit /\ victory l = true else gs l = gs (ms_loop s)) ->
     Q tt (with_loop l s)) ->
  wp tick_end Q s.
Proof.
  intros Hl HQ. unfold tick_end. apply wp_bind, wp_modify, wp_bind.
  apply (wp_for_range (fun i s' => exists b, s' = with_loop (set_endGame b (ms_loop s)) s /\
    ((exists j e, (j < Z.to_nat i)%nat /\ cardArray (ms_game s) !! j = Some e /\ flipSuccess e = false) -> b = false) /\
    (all_found (cardArray (ms_game s)) -> b = true))).
  - exists true. split; [done|]. split; [|done]. intros (j & e & Hj & _). simpl in Hj. lia.
  - intros i s' Hi (b & -> & Hb & Hall).
    destruct (lookup_lt_is_Some_2 (cardArray (ms_game s)) (Z.to_nat i)) as [e He]; [lia|].
    apply wp_bind. eapply wp_Done; [apply (in_game_get_card i e); [lia|exact He]|].
    destruct (flipSuccess e) eqn:Ee; cbn [Bool.eqb].
    + apply wp_skip. exists b. split; [done|]. split; [|done]. intros (j & x & Hj & Hx & Hxf). apply Hb. exists j, x.
      split_and!; try done. destruct (decide (j = Z.to_nat i)) as [->|]; [congruence|lia].
    + apply wp_modify. exists false. split; [done|]. split; [done|]. intros Hf.
      pose proof (proj1 (Forall_lookup _ _) Hf _ _ He). simpl in *. congruence.
  - intros s' (b & -> & Hb & Hall). apply wp_bind, wp_gets.
    change (every 120 (with_loop _ s)) with (every 120 s). destruct (every 120 s).
    2: { by apply wp_skip, HQ. }
    apply wp_bind, wp_gets. cbn [with_loop ms_loop set_endGame endGame]. destruct b.
    + apply wp_bind, wp_modify, wp_modify.
      apply (HQ (set_victory true (set_gs Exit (set_endGame true (ms_loop s))))); [done|done| |done].
      intros (j & e & He & Hf). exfalso. enough (true = false) by done. apply Hb. exists j, e. split_and!; try done.
      apply lookup_lt_Some in He. simpl. lia.
    + apply wp_skip, HQ; [done..|]. intros Hf. by apply Hall in Hf.
Qed.
End TickEnd.

(** ** One message of a running game *)
Section Message.
Context {W : Type} `{PortIO W, Irq W, Lcf W, Display W, Libc W, Messages W}.
Variables (i1 i2 i3 : Z).
Hypothesis only_timer : forall w : W, exists m w1, driver_receive w = (m, w1) /\ timer_only m i1 i2 i3.

(** [n] messages, one after the other. *)
Fixpoint messages (fuel n : nat) : M (main_st W) unit :=
  match n with O => skip | S n => handle_message fuel i1 i2 i3 ;; messages fuel n end.

(** The running game is not left and not lost. *)
Definition goes_on (s : main_st W) : Prop := gs (ms_loop s) = Game /\ game_over (ms_loop s) = false.

Lemma running_ready c g (s : main_st W) : running c g s -> table g -> 0 <= c < INT_MAX -> tick_ready s.
Proof. intros [<- ???? _ _] [] Hc. unfold tick_ready. by subst c. Qed.

Lemma playing_running n g (s : main_st W) : playing n g s -> running n g s.
Proof. by intros []. Qed.

(** The state when the click is looked at, behind the drawing. *)
Definition at_click (c : Z) (g : game_st) (s : main_st W) : Prop :=
  playing c g s /\ isAnyCardFlipping (ms_loop s) = false.

(** The click and the comparison take the game to [g] and keep the drivers and the
    display. *)
Definition clicked (g : game_st) (s s' : main_st W) : Prop :=
  (tick_click ;; tick_match) s = Done tt s' /\
  ms_game s' = g /\ ms_video s' = ms_video s /\ ms_timer s' = ms_timer s /\ ms_kbd s' = ms_kbd s /\
  ms_mouse s' = ms_mouse s /\ initGame (ms_loop s') = initGame (ms_loop s).

(** The drawing of the board on even counts. *)
Definition draws_to (c : Z) (g g1 : game_st) : Prop :=
  if Z.rem c 2 =? 0 then forall v (w : W), frame_ok v -> steps_to draw_game_cards g v w tt g1 else g1 = g.

(** Messages that draw a frame on even counts: [R n k] holds at the count [n] with
    [k] frames drawn, until [N] frames are. *)
Lemma frames_messages fuel (R : Z -> nat -> main_st W -> Prop) (N m k : nat) (n : Z) s :
  (forall n k s, R n k s -> 0 <= n < INT_MAX -> (k < N)%nat ->
     let k' := if Z.rem (n + 1) 2 =? 0 then S k else k in (k' < N)%nat ->
     wp (handle_message fuel i1 i2 i3) (fun _ s' => R (n + 1) k' s') s) ->
  R n k s -> 0 <= n -> n + Z.of_nat m <= INT_MAX -> (k + drawn n m < N)%nat ->
  wp (messages fuel m) (fun _ s' => R (n + Z.of_nat m) (k + drawn n m)%nat s') s.
Proof.
  intros Hstep. revert k n s. induction m as [|m IH]; intros k n s HR Hn Hmax Hk; cbn [messages].
  - apply wp_skip. replace (drawn n 0) with 0%nat in * by (unfold drawn; replace (n + Z.of_nat 0) with n by lia; lia).
    by rewrite Z.add_0_r, Nat.add_0_r.
  - rewrite drawn_S in * by done. set (k' := if Z.rem (n + 1) 2 =? 0 then S k else k).
    assert (k + ((if (Z.rem (n + 1) 2 =? 0)%Z then 1 else 0) + drawn (n + 1) m) = k' + drawn (n + 1) m)%nat as E
      by (unfold k'; destruct (_ =? 0); lia).
    rewrite E in *. apply wp_bind. eapply wp_mono; [apply (Hstep n k s HR); [lia| |]; unfold k' in *; destruct (_ =? 0); lia|].
    intros [] s1 Hs1. replace (n + Z.of_nat (S m)) with (n + 1 + Z.of_nat m) by lia. apply (IH k' (n + 1) s1 Hs1); lia.
Qed.

(** The state after a tick: [g] is the game and [l] the loop's variables behind the
    comparison, to which the end of the tick adds the victory. *)
Record ticked (s : main_st W) (c : Z) (g : game_st) (l : loop_st) (s' : main_st W) : Prop := Ticked {
  tk_game : ms_game s' = g;
  tk_frame : frame_ok (ms_video s');
  tk_init : initGame (ms_loop s') = false;
  tk_count : tmr_tck_counter (ms_timer s') = c;
  tk_mouse : ms_mouse s' = ms_mouse s;
  tk_kbd : ms_kbd s' = ms_kbd s;
  tk_over : game_over (ms_loop s') = game_over l;
  tk_on : unfinished (cardArray g) -> gs (ms_loop s') = gs l;
  tk_won : all_found (cardArray g) ->
    if Z.rem c 120 =? 0 then gs (ms_loop s') = Exit /\ victory (ms_loop s') = true else gs (ms_loop s') = gs l
}.

(** A message of the timer: the board is drawn on even counts, then the click and
    the comparison are looked at, and the tick ends. *)
Lemma wp_running_message fuel c g g1 g2 (P : loop_st -> Prop) s :
  running c g s -> table g -> table g1 -> 0 <= c < INT_MAX -> draws_to (c + 1) g g1 ->
  (forall s1, running (c + 1) g1 s1 -> ms_mouse s1 = ms_mouse s -> isAnyCardFlipping (ms_loop s1) = false ->
     exists s2, clicked g2 s1 s2 /\ P (ms_loop s2)) ->
  imgs g2 = imgs g1 -> mouse g2 = mouse g1 -> length (cardArray g2) = 16%nat ->
  wp (handle_message fuel i1 i2 i3) (fun _ s' => exists l, P l /\ ticked s (c + 1) g2 l s') s.
Proof.
  intros Hp Ht Ht1 Hc Hdraw Hclick Hi2 Hm2 Hl2. destruct (only_timer (ms_world s)) as (m & w1 & Er & Hm).
  unfold wp. rewrite (handle_timer_message fuel i1 i2 i3 m w1 s Er Hm (running_ready _ _ _ Hp Ht Hc)).
  fold (@wp (main_st W) unit). destruct Hp as [Hg Hf Hgs Hin Hcount Hkey Hlost].
  set (s0 := at_tick w1 s). assert (gs (ms_loop s0) = Game) as Hgs0 by exact Hgs.
  assert (initGame (ms_loop s0) = false) as Hin0 by exact Hin.
  unfold timer_tick. apply wp_bind, wp_gets, wp_bind. rewrite Hgs0.
  unfold tick_game. apply wp_bind, wp_gets. rewrite Hin0.
  unfold tick_play. apply wp_bind, wp_gets, wp_bind.
  apply (wp_mono _ (fun _ s' => exists v, frame_ok v /\ s' = MainSt (TimerSt (c + 1) (hook_id2 (ms_timer s)))
    (ms_kbd s) (ms_mouse s) (ms_rtc s) g1 v (ms_loop s) w1)).
  { unfold every, draws_to in *. change (tmr_tck_counter (ms_timer s0)) with (tmr_tck_counter (ms_timer s) + 1).
    unfold s0, at_tick. rewrite Hcount. case_match.
    - eapply wp_in_game_steps; [cbn [ms_game]; rewrite Hg; by apply Hdraw|]. intros v Hs. exists v.
      split; [by eapply frame_same|done].
    - apply wp_skip. exists (ms_video s). split; [done|]. by rewrite Hdraw, Hg. }
  intros [] s1 (v & Hv & ->). apply (wp_assoc (in_game drawHearts) (fun _ => draw my_updateVideoMem)), wp_bind.
  apply wp_draw_hearts_update; [done|apply Ht1|apply Ht1|]. intros v2 w2 Hv2.
  apply wp_bind, wp_get, wp_bind. cbn [with_picture ms_kbd].
  replace (scancode (ms_kbd s) =? 0x81) with false by lia. apply wp_skip, wp_bind, wp_modify.
  apply (wp_assoc tick_click (fun _ => tick_match)), wp_bind.
  match goal with |- wp _ _ ?st => set (s3 := st) end.
  destruct (Hclick s3) as (s4 & (E & Hg4 & Hv4 & Ht4 & Hk4 & Hm4 & Hi4) & HP); [by split|done|done|].
  eapply wp_Done; [exact E|]. apply wp_tick_end; [by rewrite Hg4|]. rewrite Hg4. intros l Hl Hol Hgl Hwl.
  destruct Ht1 as [Hsp Hx Hy Hcur _ _]. rewrite <- Hi2 in Hsp. rewrite <- Hm2 in Hx, Hy, Hcur.
  apply wp_tick_cursor; cbn [with_loop ms_video ms_game]; rewrite ?Hg4, ?Hv4; try assumption.
  intros v5 w5 (bb & mm & _ & Hv5). exists (ms_loop s4). split; [exact HP|].
  assert (every 120 s4 = (Z.rem (c + 1) 120 =? 0)) as Ee by (unfold every; by rewrite Ht4). rewrite Ee in Hwl.
  split; cbn [with_picture with_loop ms_game ms_video ms_loop ms_timer ms_kbd ms_mouse];
    [exact Hg4|by apply Hv5|by rewrite Hl, Hi4|by rewrite Ht4|by rewrite Hm4|by rewrite Hk4|done..].
Qed.

Lemma ticked_after c2 g2 s2 c g l s' :
  playing c2 g2 s2 -> ticked s2 c g l s' -> gs l = Game -> game_over l = false -> after_tick c g s'.
Proof.
  intros Hp [Hg Hf Hin Hcount Hm Hk Hov Hon Hwon] Hgs Hlost.
  assert (gs (ms_loop s') = Game -> playing c g s') as Hplay.
  { intros Hgs'. destruct Hp. split; congruence. }
  split; intros Hun; [apply Hplay; by rewrite Hon|]. apply Hwon in Hun. destruct (Z.rem c 120 =? 0).
  - destruct Hun. by split; congruence.
  - apply Hplay. congruence.
Qed.

Lemma ticked_lost s2 c g l s' :
  ticked s2 c g l s' -> gs l = Exit -> game_over l = true -> unfinished (cardArray g) -> lost c g s'.
Proof. intros [] Hgs Hov Hun. split; try done; [by rewrite tk_on0|by rewrite tk_over0]. Qed.

(** A message while the button is held, if the game goes on. *)
Lemma wp_play_message fuel c g g1 g2 (stays : Prop) s :
  playing c g s -> table g -> table g1 -> 0 <= c < INT_MAX -> draws_to (c + 1) g g1 ->
  (forall s1, at_click (c + 1) g1 s1 -> exists s2, clicked g2 s1 s2 /\ (stays -> goes_on s2)) ->
  imgs g2 = imgs g1 -> mouse g2 = mouse g1 -> length (cardArray g2) = 16%nat ->
  wp (handle_message fuel i1 i2 i3)
    (fun _ s' => ms_game s' = g2 /\ (stays -> after_tick (c + 1) g2 s')) s.
Proof.
  intros Hp Ht Ht1 Hc Hdraw Hclick Hi2 Hm2 Hl2.
  eapply wp_mono; [apply (wp_running_message fuel c g g1 g2 (fun l => stays -> gs l = Game /\ game_over l = false) s);
    [by apply playing_running|done..| |done|done|done]|].
  - intros s1 Hr Hm Hany. apply Hclick. split; [|done]. destruct Hp, Hr. split; try done. congruence.
  - intros [] s' (l & HP & Hs'). split; [by apply Hs'|]. intros Hst. by eapply ticked_after; [..|apply HP|apply HP].
Qed.
End Message.

(** ** The click and the comparison while a card turns *)
Section Phases.
Context {W : Type} `{PortIO W, Irq W, Lcf W, Display W, Libc W, Messages W}.
Implicit Types s : main_st W.

(** The scan for turning cards finds one. *)
Lemma scan_some s j c :
  length (cardArray (ms_game s)) = 16%nat -> cardArray (ms_game s) !! j = Some c -> isFlipping c = true ->
  for_range 0 16 (fun i => let* c := in_game (get_card i) in
    if Bool.eqb (isFlipping c) true then upd_loop (set_isAnyCardFlipping true) else skip) s =
  Done tt (with_loop (set_isAnyCardFlipping true (ms_loop s)) s).
Proof.
  intros Hl Hc Hfc. pose proof (lookup_lt_Some _ _ _ Hc) as Hj.
  match goal with |- ?m _ = _ => assert (wp m (fun _ s' => s' = with_loop (set_isAnyCardFlipping true (ms_loop s)) s) s)
    as (s' & E & ->)%wp_unit; [|exact E] end.
  apply (wp_for_range (fun i s' => exists b : bool,
    s' = (if b then with_loop (set_isAnyCardFlipping true (ms_loop s)) s else s) /\ (Z.of_nat j < i -> b = true))).
  - exists false. split; [done|lia].
  - intros i s' Hi (b & -> & Hb).
    destruct (lookup_lt_is_Some_2 (cardArray (ms_game s)) (Z.to_nat i)) as [e He]; [lia|].
    apply wp_bind. eapply wp_Done; [apply (in_game_get_card i e); [lia|by destruct b]|].
    destruct (isFlipping e) eqn:Ee; cbn [Bool.eqb].
    + apply wp_modify. exists true. split; [|done]. destruct b; destruct s; done.
    + apply wp_skip. exists b. split; [done|]. intros Hji. apply Hb.
      assert (Z.to_nat i <> j) by (intros <-; congruence). lia.
  - intros s' (b & -> & Hb). by rewrite Hb by lia.
Qed.

(** While a card turns, a held button does nothing, and no cards are compared. *)
Lemma clicked_turning j c s :
  length (cardArray (ms_game s)) = 16%nat -> cardArray (ms_game s) !! j = Some c -> isFlipping c = true ->
  lb (packet1 (ms_mouse s)) = true -> clicked (ms_game s) s (with_loop (set_isAnyCardFlipping true (ms_loop s)) s).
Proof.
  intros Hl Hc Hfc Hlb. split; [|by split_and!].
  rewrite (bind_Done _ _ _ tt (with_loop (set_isAnyCardFlipping true (ms_loop s)) s)); [done|].
  unfold tick_click. by rewrite (bind_Done _ _ _ _ _ (gets_eq _ _)), Hlb, (bind_Done _ _ _ _ _ (scan_some s j c Hl Hc Hfc)).
Qed.

(** A single open card is not compared. *)
Lemma match_few_eq p s :
  length (cardArray (ms_game s)) = 16%nat ->
  (forall j e, j <> p -> cardArray (ms_game s) !! j = Some e -> open_card e = false) -> tick_match s = Done tt s.
Proof.
  intros Hl Hrest. destruct (cardArray (ms_game s) !! p) as [c|] eqn:Hc.
  2: { apply match_none_eq; [|done]. intros j e He. destruct (decide (j = p)) as [->|Hne]; [congruence|]. by eapply Hrest. }
  destruct (open_card c) eqn:Ho.
  2: { apply match_none_eq; [|done]. intros j e He. destruct (decide (j = p)) as [->|Hne]; [congruence|]. by eapply Hrest. }
  pose proof (lookup_lt_Some _ _ _ Hc) as Hp. rewrite Hl in Hp.
  assert (forall i n a, 0 <= i -> i + Z.of_nat n <= 16 -> (i + Z.of_nat n <= Z.of_nat p \/ Z.of_nat p < i) ->
    for_acc n i a match_card s = Done a s) as Hskip.
  { intros i n a Hi Hn Hip. apply match_skip; [done|]. intros j Hj.
    destruct (lookup_lt_is_Some_2 (cardArray (ms_game s)) (Z.to_nat j)) as [e He]; [lia|].
    exists e. split; [done|]. eapply Hrest; [|done]. lia. }
  unfold tick_match. rewrite (bind_Done _ _ _ _ _ (gets_eq _ _)). destruct (isAnyCardFlipping (ms_loop s)); [done|].
  cbn [negb]. unfold for_range_acc. rewrite (bind_Done _ _ _ (1, Some (Z.of_nat p)) s); [done|].
  change (Z.to_nat (16 - 0)) with 16%nat. replace 16%nat with (p + (1 + (15 - p)))%nat by lia.
  rewrite for_acc_app, (bind_Done _ _ _ (0, None) s) by (apply Hskip; lia).
  rewrite for_acc_app, (bind_Done _ _ _ (1, Some (Z.of_nat p)) s); [apply Hskip; lia|].
  simpl. rewrite (bind_Done _ _ _ _ _ (match_first (0 + Z.of_nat p) c s ltac:(lia)
    ltac:(by replace (Z.to_nat (0 + Z.of_nat p)) with p by lia) Ho)). done.
Qed.
End Phases.

(** ** The turn, frame by frame *)

(** The width and the flag after [j] frames in which [k] cards turn, and the frames
    in which the cards can be drawn. *)
Definition wb_after (up : bool) (k : Z) (j : nat) : option (Z * bool) := anim_run up k (j * Z.to_nat k) (1, false).

Definition turn_fine (up : bool) (k : Z) (n : nat) : bool :=
  forallb (fun j => match wb_after up k j with Some wb => widths_ok up k (Z.to_nat k) wb | None => false end) (seq 0 n).

Lemma wb_after_ok up k n j : turn_fine up k n = true -> (j < n)%nat ->
  exists wb, wb_after up k j = Some wb /\ widths_ok up k (Z.to_nat k) wb = true.
Proof.
  unfold turn_fine. rewrite forallb_forall. intros Hall Hj. specialize (Hall j ltac:(apply in_seq; lia)).
  destruct (wb_after up k j) as [wb|]; [by exists wb|done].
Qed.

(** One card turns up in 21 frames, two turn down in 5. *)
Lemma turn_fine_up : turn_fine true 1 21 = true.
Proof. vm_compute. reflexivity. Qed.

Lemma turn_fine_down : turn_fine false 2 5 = true.
Proof. vm_compute. reflexivity. Qed.

(** The game after [j] frames. *)
Definition turning_at (up : bool) (k : Z) (j : nat) (g : game_st) : game_st := anim_state up (wb_after up k j) g.

Section Turn.
Context {W : Type} `{Display W}.

Lemma turning_frame up k n j g v (w : W) :
  frame_ok v -> sprites_ok (imgs g) -> turn_start up g -> flippers (cardArray g) = k -> 0 < k ->
  turn_fine up k n = true -> (j < n)%nat ->
  steps_to draw_game_cards (turning_at up k j g) v w tt (turning_at up k (S j) g).
Proof.
  intros Hf Hsp Hst Hk Hpos Hfine Hlt. destruct (turn_start_anim _ _ Hst) as [Ha _].
  destruct (wb_after_ok _ _ _ _ Hfine Hlt) as (wb & Ewb & Hw). unfold turning_at.
  assert (wb_after up k (S j) = anim_run up k (Z.to_nat k) wb) as ->.
  { unfold wb_after in *. replace (S j * Z.to_nat k)%nat with (j * Z.to_nat k + Z.to_nat k)%nat by lia.
    by rewrite anim_run_add, Ewb. }
  rewrite Ewb. cbn [anim_state].
  pose proof (draw_board_anim up wb.2 (with_wb wb g) v w Hf Hsp (anim_with_wb _ _ wb _ Ha)) as Hd.
  cbv zeta in Hd. change (flippers (cardArray (with_wb wb g))) with (flippers (cardArray g)) in Hd.
  change (increaseWidth (with_wb wb g)) with wb.1 in Hd. rewrite <- surjective_pairing, Hk in Hd.
  specialize (Hd Hpos Hw). by destruct (anim_run up k (Z.to_nat k) wb).
Qed.

Lemma draws_turn up k m j n g :
  sprites_ok (imgs g) -> turn_start up g -> flippers (cardArray g) = k -> 0 < k -> turn_fine up k m = true -> (j < m)%nat ->
  draws_to (W := W) n (turning_at up k j g) (turning_at up k (if Z.rem n 2 =? 0 then S j else j) g).
Proof.
  intros Hsp Hst Hk Hpos Hfine Hj. unfold draws_to. case_match; [|done]. intros v w Hf.
  by apply (turning_frame up k m).
Qed.
End Turn.

Lemma turning_at_0 up k g : turn_start up g -> turning_at up k 0 g = g.
Proof. intros Hst. by destruct (turn_start_anim _ _ Hst). Qed.

Lemma turning_at_21 g : turning_at true 1 21 g = turned true g.
Proof. reflexivity. Qed.

Lemma turning_at_5 g : turning_at false 2 5 g = turned false g.
Proof. reflexivity. Qed.

Lemma turning_at_fields up k n j g : turn_fine up k n = true -> (j < n)%nat ->
  cardArray (turning_at up k j g) = cardArray g /\ imgs (turning_at up k j g) = imgs g /\
  mouse (turning_at up k j g) = mouse g /\ p1 (turning_at up k j g) = p1 g.
Proof. intros Hf Hj. unfold turning_at. by destruct (wb_after_ok _ _ _ _ Hf Hj) as (wb & -> & _). Qed.

(** ** The card under the cursor *)
Section OneCard.
Variables (g : game_st) (p : nat) (c : card).
Hypotheses (Hrest : at_rest g) (Hcards : cards_drawable (cardArray g)).
Hypotheses (Hp : cardArray g !! p = Some c) (Hdown : isFlipped c = true).

Lemma p_still : isFlipping c = false.
Proof. exact (proj1 (Forall_lookup _ _) (ar_still _ Hrest) _ _ Hp). Qed.

Lemma turning_lookup : cardArray (turning p c g) !! p = Some (set_isFlipping true c).
Proof. simpl. apply list_lookup_insert_eq. by eapply lookup_lt_Some. Qed.

Lemma turning_other j : j <> p -> cardArray (turning p c g) !! j = cardArray g !! j.
Proof. intros Hj. simpl. by apply list_lookup_insert_ne. Qed.

Lemma turning_drawable : cards_drawable (cardArray (turning p c g)).
Proof.
  destruct Hcards as [Hl Hc]. split; simpl; [by rewrite length_insert|]. apply Forall_insert; [done|].
  exact (proj1 (Forall_lookup _ _) Hc _ _ Hp).
Qed.

Lemma turning_start : turn_start true (turning p c g).
Proof.
  split; [apply turning_drawable|]. split; [apply Hrest|]. split; [apply Hrest|].
  simpl. apply Forall_insert; [|done]. eapply Forall_impl; [apply Hrest|]. intros e. simpl. congruence.
Qed.

(** It is the only card that turns. *)
Lemma turning_one : flippers (cardArray (turning p c g)) = 1.
Proof.
  pose proof (ar_still _ Hrest) as Hs. pose proof (lookup_lt_Some _ _ _ Hp) as Hlt. simpl. unfold flippers.
  rewrite (insert_take_drop _ _ _ Hlt), List.filter_app. simpl.
  assert (forall l, Forall (fun c => isFlipping c = false) l -> List.filter isFlipping l = []) as Hnone.
  { intros l. induction 1 as [|e l He _ IH]; simpl; [done|]. by rewrite He. }
  rewrite !Hnone; [done|by apply Forall_drop|by apply Forall_take].
Qed.

Lemma turned_uncovered : turned true (turning p c g) = uncovered p c g.
Proof.
  destruct Hrest as [Hs Hw Ho]. pose proof p_still as Hst. unfold turned, uncovered, turning.
  destruct g as [l pl iw os mo im]. simpl in *. subst iw os. unfold set_increaseWidth, set_otherSide, set_cardArray. simpl.
  f_equal. apply list_eq. intros j. rewrite list_lookup_fmap. destruct (decide (j = p)) as [->|Hne].
  - rewrite !list_lookup_insert_eq by (by eapply lookup_lt_Some). simpl. f_equal. unfold finish_card. simpl.
    destruct c. simpl in *. by subst.
  - rewrite !list_lookup_insert_ne by done. destruct (l !! j) as [e|] eqn:He; [|done]. simpl. f_equal.
    unfold finish_card. by rewrite (proj1 (Forall_lookup _ _) Hs _ _ He).
Qed.
End OneCard.

(** ** From the click to the comparison *)
Section Try.
Context {W : Type} `{PortIO W, Irq W, Lcf W, Display W, Libc W, Messages W}.
Variables (i1 i2 i3 : Z).
Hypothesis only_timer : forall w : W, exists m w1, driver_receive w = (m, w1) /\ timer_only m i1 i2 i3.
Variables (g : game_st) (a b : Z) (c : card).
Hypotheses (Htable : table g) (Hrest : at_rest g).
Hypotheses (Ha : 0 <= a < 4) (Hb : 0 <= b < 4) (Hover : over_card (mouse g) a b).
Let p := Z.to_nat (a + b * 4).
Hypotheses (Hp : cardArray g !! p = Some c) (Hdown : isFlipped c = true) (Hnew : flipSuccess c = false).

Let g1 : game_st := turning p c g.
Let up : card := set_isFlipped false c.

Lemma drawable_length l : cards_drawable l -> length l = 16%nat.
Proof. by intros [? _]. Qed.

Lemma p_lt : (p < 16)%nat.
Proof. unfold p. lia. Qed.

Lemma turning_at_table k : (k < 21)%nat -> table (turning_at true 1 k g1).
Proof.
  intros Hk. destruct (turning_at_fields true 1 21 k g1 turn_fine_up Hk) as (Ec & Ei & Em & Ep). destruct Htable.
  split; rewrite ?Ec, ?Ei, ?Em, ?Ep; try done. by apply turning_drawable; destruct Htable.
Qed.

Lemma uncovered_table : table (uncovered p c g).
Proof.
  destruct Htable as [? ? ? ? ? [Hl Hc]]. split; try done. split; simpl; [by rewrite length_insert|].
  apply Forall_insert; [done|]. exact (proj1 (Forall_lookup _ _) Hc _ _ Hp).
Qed.

Lemma unfinished_turning k : (k < 21)%nat -> unfinished (cardArray (turning_at true 1 k g1)).
Proof.
  intros Hk. destruct (turning_at_fields true 1 21 k g1 turn_fine_up Hk) as (-> & _). exists p, (set_isFlipping true c).
  split; [by apply turning_lookup|done].
Qed.

(** The click: the card begins to turn, and at most one other card is open. *)
Lemma phase_click n q (s : main_st W) :
  at_click n g s -> (forall j e, j <> q -> cardArray g !! j = Some e -> open_card e = false) ->
  exists s2, clicked g1 s s2 /\ (True -> goes_on s2).
Proof.
  intros [[Hg Hf Hgs Hin _ Hlb _ Hlost] Hany] Hopen. pose proof (drawable_length _ (tb_cards _ Htable)) as Hl.
  assert (tick_click s = Done tt (with_cards (cardArray g1) s)) as Eclick.
  { rewrite (tick_click_eq s a b c); rewrite ?Hg; try done; [by rewrite Hdown|apply Hrest]. }
  exists (with_cards (cardArray g1) s). split; [|done].
  split; [|split_and!; try done; simpl; by rewrite Hg].
  rewrite (bind_Done _ _ _ _ _ Eclick). apply (match_few_eq q); cbn [with_cards ms_game set_cardArray cardArray].
  - apply drawable_length, turning_drawable; [apply Htable|done].
  - intros j e Hjq He. change (cardArray (turning p c g) !! j = Some e) in He. destruct (decide (j = p)) as [->|Hjp].
    + rewrite (turning_lookup g p c Hp) in He. injection He as <-. unfold open_card. simpl. by rewrite Hdown.
    + rewrite (turning_other g p c) in He by done. by apply (Hopen j).
Qed.

(** A frame of the turn. *)
Lemma phase_turning k n (s : main_st W) :
  (k < 21)%nat -> at_click n (turning_at true 1 k g1) s ->
  exists s2, clicked (turning_at true 1 k g1) s s2 /\ (True -> goes_on s2).
Proof.
  intros Hk [[Hg Hf Hgs Hin _ Hlb _ Hlost] _]. destruct (turning_at_fields true 1 21 k g1 turn_fine_up Hk) as (Ec & _).
  exists (with_loop (set_isAnyCardFlipping true (ms_loop s)) s). split; [|by intros _].
  rewrite <- Hg. apply (clicked_turning p (set_isFlipping true c)); rewrite ?Hg, ?Ec; try done.
  - apply drawable_length, turning_drawable; [apply Htable|done].
  - by apply turning_lookup.
Qed.

Lemma draws_turning k n :
  (k < 21)%nat -> draws_to (W := W) n (turning_at true 1 k g1) (turning_at true 1 (if Z.rem n 2 =? 0 then S k else k) g1).
Proof.
  intros Hk. apply (draws_turn true 1 21); try done; [apply Htable| |by apply turning_one].
  apply turning_start; [done|apply Htable|done|done].
Qed.

(** Messages while the card turns. *)
Lemma turning_messages fuel m k n s :
  playing n (turning_at true 1 k g1) s -> 0 <= n -> n + Z.of_nat m <= INT_MAX -> (k + drawn n m < 21)%nat ->
  wp (messages i1 i2 i3 fuel m) (fun _ s' => playing (n + Z.of_nat m) (turning_at true 1 (k + drawn n m) g1) s') s.
Proof.
  apply (frames_messages i1 i2 i3 fuel (fun n k s => playing n (turning_at true 1 k g1) s) 21).
  clear k n s. intros n k s Hpl Hn Hk k' Hk'. eapply wp_mono.
  { apply (wp_play_message i1 i2 i3 only_timer fuel n (turning_at true 1 k g1) (turning_at true 1 k' g1)
      (turning_at true 1 k' g1) True); try done.
    - by apply turning_at_table.
    - by apply turning_at_table.
    - by apply draws_turning.
    - intros s1 Hs1. by apply (phase_turning k' (n + 1)).
    - apply drawable_length, tb_cards. by apply turning_at_table. }
  intros [] s1 [_ Hs1]. specialize (Hs1 I). apply proj1 in Hs1. exact (Hs1 (unfinished_turning k' Hk')).
Qed.

Lemma set_isFlipping_id f e : isFlipping e = f -> set_isFlipping f e = e.
Proof. intros <-. by destruct e. Qed.

(** The card lies face up: the held button does nothing more. *)
Lemma click_uncovered n (s : main_st W) :
  at_click n (uncovered p c g) s -> tick_click s = Done tt s.
Proof.
  intros [[Hg Hf Hgs Hin _ Hlb _ Hlost] Hany]. pose proof (drawable_length _ (tb_cards _ uncovered_table)) as Hl.
  assert (cardArray (uncovered p c g) !! p = Some up) as Hup.
  { simpl. apply list_lookup_insert_eq. by eapply lookup_lt_Some. }
  assert (isFlipping up = false) as Hst by exact (p_still g p c Hrest Hp).
  rewrite (tick_click_eq s a b up); rewrite ?Hg; try done.
  - f_equal. fold p. rewrite list_insert_id; [by rewrite <- Hg; destruct s as [? ? ? ? []]|].
    rewrite Hup. f_equal. symmetry. by apply set_isFlipping_id.
  - simpl. apply Forall_insert; [apply Hrest|exact Hst].
Qed.

(** No other card is open. *)
Lemma phase_alone n (s : main_st W) :
  at_click n (uncovered p c g) s -> (forall j e, j <> p -> cardArray g !! j = Some e -> open_card e = false) ->
  exists s2, clicked (uncovered p c g) s s2 /\ (True -> goes_on s2).
Proof.
  intros Hs Hopen. pose proof (click_uncovered n s Hs) as Eclick. destruct Hs as [[Hg Hf Hgs Hin _ Hlb _ Hlost] Hany].
  exists s. split; [|done]. split; [|by split_and!]. rewrite (bind_Done _ _ _ _ _ Eclick).
  apply (match_few_eq p); rewrite Hg; [apply drawable_length, uncovered_table|].
  intros j e Hj He. simpl in He. rewrite list_lookup_insert_ne in He by done. by eapply Hopen.
Qed.

(** Another card is open: the two are compared. *)
Lemma matched_either (q1 q2 : nat) (d1 d2 : card) (s : main_st W) :
  isAnyCardFlipping (ms_loop s) = false -> length (cardArray (ms_game s)) = 16%nat -> q1 <> q2 ->
  cardArray (ms_game s) !! q1 = Some d1 -> cardArray (ms_game s) !! q2 = Some d2 ->
  open_card d1 = true -> open_card d2 = true -> isFlipping d1 = false -> isFlipping d2 = false ->
  (forall j e, j <> q1 -> j <> q2 -> cardArray (ms_game s) !! j = Some e -> open_card e = false) ->
  tick_match s = Done tt
    (if same_face d1 d2
     then with_cards (<[q1 := set_flipSuccess true d1]> (<[q2 := set_flipSuccess true d2]> (cardArray (ms_game s)))) s
     else with_cards (<[q1 := set_isFlipping true d1]> (<[q2 := set_isFlipping true d2]> (cardArray (ms_game s))))
            (life_lost s)).
Proof.
  intros Hany Hl Hne H1' H2' Ho1 Ho2 Hf1 Hf2 Hr.
  assert (same_face d2 d1 = same_face d1 d2) as Hsym.
  { apply eq_true_iff_eq. unfold same_face. rewrite !andb_true_iff, !bool_decide_eq_true. intuition congruence. }
  destruct (decide (q1 < q2)%nat) as [Hlt|Hge].
  - rewrite (match_pair_eq q1 q2 d1 d2) by done. unfold matched. by rewrite Hsym, Hf2.
  - rewrite (match_pair_eq q2 q1 d2 d1); try done; [|lia|by intros j e ??; apply Hr].
    unfold matched. rewrite Hf1. by rewrite !(list_insert_insert_ne _ q1 q2) by done.
Qed.

Definition decided (c d : card) (g : game_st) (l : loop_st) : Prop :=
  if same_face c d || negb (u32 (lives (p1 g) - 1) =? 0)
  then gs l = Game /\ game_over l = false else gs l = Exit /\ game_over l = true.

Lemma phase_compare n q d (s : main_st W) :
  at_click n (uncovered p c g) s -> q <> p -> cardArray g !! q = Some d -> open_card d = true ->
  (forall j e, j <> q -> cardArray g !! j = Some e -> open_card e = false) ->
  exists s2, clicked (compared p q c d g) s s2 /\ decided c d g (ms_loop s2).
Proof.
  intros Hs Hqp Hq Hod Hopen. pose proof (click_uncovered n s Hs) as Eclick.
  destruct Hs as [[Hg Hf Hgs Hin _ Hlb _ Hlost] Hany].
  assert (isFlipping d = false) as Hdf by exact (proj1 (Forall_lookup _ _) (ar_still _ Hrest) _ _ Hq).
  pose proof (matched_either p q up d s Hany) as Em. rewrite Hg in Em.
  specialize (Em (drawable_length _ (tb_cards _ uncovered_table)) ltac:(done)).
  specialize (Em ltac:(simpl; apply list_lookup_insert_eq; by eapply lookup_lt_Some)
    ltac:(simpl; by rewrite list_lookup_insert_ne by done) ltac:(unfold open_card; simpl; by rewrite Hnew) Hod
    (p_still g p c Hrest Hp) Hdf).
  assert (forall f : card -> card, <[p := f up]> (<[q := f d]> (cardArray (uncovered p c g))) =
    <[p := f up]> (<[q := f d]> (cardArray g))) as Eins.
  { intros f. simpl. rewrite (list_insert_insert_ne _ q p) by done. by rewrite list_insert_insert_eq. }
  rewrite !Eins in Em. unfold clicked. rewrite (bind_Done _ _ _ _ _ Eclick).
  change (same_face up d) with (same_face c d) in Em. eexists. split; [split; [apply Em|]|].
  - intros j e Hjp Hjq He. simpl in He. rewrite list_lookup_insert_ne in He by done. by apply (Hopen j).
  - unfold compared. destruct (same_face c d); split_and!; try done; simpl; rewrite Hg; try done.
    by destruct (_ =? 0).
  - change (same_face up d) with (same_face c d). unfold decided.
    destruct (same_face c d); [done|]. simpl. rewrite Hg. simpl. by destruct (_ =? 0).
Qed.

(** The messages a try takes, from the count [n] of ticks: the first brings the
    click, every second one a frame, the last the comparison. *)
Definition try_takes (n : Z) : Z := 42 + n mod 2.

Lemma messages_add fuel m k s :
  messages (W := W) i1 i2 i3 fuel (m + k) s =
    bind (messages i1 i2 i3 fuel m) (fun _ => messages i1 i2 i3 fuel k) s.
Proof.
  revert s. induction m as [|m IH]; intros s; simpl; [done|]. rewrite bind_assoc.
  unfold bind. destruct (handle_message fuel i1 i2 i3 s); [|done..]. by rewrite IH.
Qed.

Lemma try_run fuel n q g2 (P : loop_st -> Prop) s :
  playing n g s -> 0 <= n -> n + 43 < INT_MAX ->
  (forall j e, j <> q -> cardArray g !! j = Some e -> open_card e = false) ->
  (forall s1, at_click (n + try_takes n) (uncovered p c g) s1 ->
     exists s2, clicked g2 s1 s2 /\ P (ms_loop s2)) ->
  imgs g2 = imgs g -> mouse g2 = mouse g -> length (cardArray g2) = 16%nat ->
  wp (messages i1 i2 i3 fuel (Z.to_nat (try_takes n)))
    (fun _ s' => exists c2 g' s2 l, playing c2 g' s2 /\ P l /\ ticked s2 (n + try_takes n) g2 l s') s.
Proof.
  intros Hpl Hn Hmax Hopen Hlast Hi2 Hm2 Hl2. pose proof (Z.mod_pos_bound n 2) as Hmod. unfold try_takes in *.
  pose proof (turning_start g p c Hrest (tb_cards _ Htable) Hp Hdown : turn_start true g1) as Hst.
  pose proof (turning_at_0 true 1 g1 Hst) as E0.
  replace (Z.to_nat (42 + n mod 2)) with (1 + (Z.to_nat (40 + n mod 2) + 1))%nat by lia. cbn [messages Nat.add].
  apply wp_bind. eapply wp_mono.
  { apply (wp_play_message i1 i2 i3 only_timer fuel n g g g1 True); try done; [lia| | |].
    - unfold draws_to. case_match; [|done]. intros v w Hf.
      apply draw_board_still; [done|apply Htable|apply Htable|apply Hrest].
    - intros s1 Hs1. by apply (phase_click (n + 1) q).
    - apply drawable_length, turning_drawable; [apply Htable|done]. }
  intros [] s1 [_ Hs1]. specialize (Hs1 I). apply proj1 in Hs1. rewrite <- E0 in Hs1. specialize (Hs1 (unfinished_turning 0 ltac:(lia))).
  set (m := Z.to_nat (40 + n mod 2)). assert (drawn (n + 1) m = 20%nat) as Ed
    by (unfold drawn, m; Z.div_mod_to_equations; lia).
  unfold wp. rewrite messages_add. fold (@wp (main_st W) unit). apply wp_bind. eapply wp_mono.
  { apply (turning_messages fuel m 0 (n + 1) s1 Hs1); [lia|unfold m; lia|rewrite Ed; lia]. }
  rewrite Ed. cbn [Nat.add]. intros [] s2 Hs2. cbn [messages]. apply wp_bind.
  replace (n + 1 + Z.of_nat m) with (n + (42 + n mod 2) - 1) in Hs2 by (unfold m; lia).
  eapply wp_mono.
  { apply (wp_running_message i1 i2 i3 only_timer fuel (n + (42 + n mod 2) - 1) (turning_at true 1 20 g1) (uncovered p c g) g2 P).
    - by apply playing_running.
    - apply turning_at_table. lia.
    - apply uncovered_table.
    - lia.
    - replace (n + (42 + n mod 2) - 1 + 1) with (n + (42 + n mod 2)) by lia.
      pose proof (draws_turning 20 (n + (42 + n mod 2)) ltac:(lia)) as Hd.
      replace (Z.rem (n + (42 + n mod 2)) 2) with 0 in Hd by (rewrite Z.rem_mod_nonneg by lia; Z.div_mod_to_equations; lia).
      cbn [Z.eqb] in Hd. rewrite turning_at_21 in Hd. unfold g1 in Hd.
      by rewrite turned_uncovered in Hd by (done || apply Htable).
    - replace (n + (42 + n mod 2) - 1 + 1) with (n + (42 + n mod 2)) by lia.
      intros s1' Hr Hm1 Hany. apply Hlast. split; [|done].
      by split; [apply Hr..|rewrite Hm1; apply Hs2|apply Hr|apply Hr].
    - exact Hi2.
    - exact Hm2.
    - exact Hl2. }
  intros [] s3 (l & HP & Ht3). apply wp_skip. exists (n + (42 + n mod 2) - 1), (turning_at true 1 20 g1), s2, l.
  replace (n + (42 + n mod 2) - 1 + 1) with (n + (42 + n mod 2)) in Ht3 by lia. by split_and!.
Qed.

(** A try while no other card is open. *)
Lemma try_alone fuel n s :
  playing n g s -> 0 <= n -> n + 43 < INT_MAX ->
  (forall j e, cardArray g !! j = Some e -> open_card e = false) ->
  wp (messages i1 i2 i3 fuel (Z.to_nat (try_takes n)))
    (fun _ s' => playing (n + try_takes n) (uncovered p c g) s') s.
Proof.
  intros Hpl Hn Hmax Hopen. eapply wp_mono.
  { apply (try_run fuel n p (uncovered p c g) (fun l => gs l = Game /\ game_over l = false));
      try done; [by eauto| |apply drawable_length, uncovered_table].
    intros s1 Hs1. destruct (phase_alone (n + try_takes n) s1 Hs1) as (s2 & Hc & Hg); [by eauto|].
    exists s2. split; [done|by apply Hg]. }
  intros [] s' (c2 & g' & s2 & l & Hp2 & [Hgs Hov] & Ht). eapply (ticked_after _ _ _ _ _ _ _ Hp2 Ht Hgs Hov).
  exists p, up. split; [|exact Hnew]. simpl. apply list_lookup_insert_eq. by eapply lookup_lt_Some.
Qed.

(** A try while another card is open. *)
Lemma try_compare fuel n q d s :
  playing n g s -> 0 <= n -> n + 43 < INT_MAX ->
  cardArray g !! q = Some d -> open_card d = true ->
  (forall j e, j <> q -> cardArray g !! j = Some e -> open_card e = false) ->
  wp (messages i1 i2 i3 fuel (Z.to_nat (try_takes n)))
    (fun _ s' => ms_game s' = compared p q c d g /\
       if same_face c d || negb (u32 (lives (p1 g) - 1) =? 0)
       then after_tick (n + try_takes n) (compared p q c d g) s'
       else lost (n + try_takes n) (compared p q c d g) s') s.
Proof.
  intros Hpl Hn Hmax Hq Hod Hopen. assert (q <> p) as Hqp.
  { intros ->. assert (d = c) as -> by congruence. unfold open_card in Hod. by rewrite Hdown in Hod. }
  eapply wp_mono; [apply (try_run fuel n q (compared p q c d g) (decided c d g)); try done|].
  - intros s1 Hs1. by apply (phase_compare (n + try_takes n)).
  - unfold compared. by destruct (same_face c d).
  - unfold compared. by destruct (same_face c d).
  - unfold compared. pose proof (drawable_length _ (tb_cards _ Htable)).
    destruct (same_face c d); simpl; by rewrite !length_insert.
  - intros [] s' (c2 & g' & s2 & l & Hp2 & HP & Ht). split; [apply Ht|]. unfold decided in HP.
    destruct (same_face c d || _) eqn:E; [by eapply ticked_after; [..|apply HP|apply HP]|].
    apply orb_false_elim in E as [Es _]. apply (ticked_lost s2 _ _ l); [exact Ht|apply HP|apply HP|].
    exists p, (set_isFlipping true up). split; [|exact Hnew]. unfold compared. rewrite Es. simpl.
    apply list_lookup_insert_eq. rewrite length_insert. by eapply lookup_lt_Some.
Qed.

(** (C5) One try, from the click to the comparison, over all the parts of the game: when
    no card is turning and the player holds the button over a card that lies face
    down, then after exactly [try_takes] messages of the timer the card lies face
    up, with every other card, the lives and the animation's variables as before,
    if no other card was open; and if one was, the two have been compared: equal
    cards are found, for different ones both start to turn back and one life is
    lost ([compared]). No message before leaves the running game, and nothing
    outside the frame buffer is touched. *)
Theorem try_uncovers_and_compares (fuel : nat) (n : Z) (s : main_st W) :
  playing n g s -> 0 <= n -> n + 43 < INT_MAX ->
  ((forall j e, cardArray g !! j = Some e -> open_card e = false) ->
   exists s', messages i1 i2 i3 fuel (Z.to_nat (try_takes n)) s = Done tt s' /\
     playing (n + try_takes n) (uncovered p c g) s') /\
  (forall q d, cardArray g !! q = Some d -> open_card d = true ->
   (forall j e, j <> q -> cardArray g !! j = Some e -> open_card e = false) ->
   exists s', messages i1 i2 i3 fuel (Z.to_nat (try_takes n)) s = Done tt s' /\
     ms_game s' = compared p q c d g /\
     if same_face c d || negb (u32 (lives (p1 g) - 1) =? 0)
     then after_tick (n + try_takes n) (compared p q c d g) s'
     else lost (n + try_takes n) (compared p q c d g) s').
Proof.
  intros Hpl Hn Hmax. split.
  - intros Hopen. by apply wp_unit, try_alone.
  - intros q d Hq Hod Hopen. apply wp_unit. exact (try_compare fuel n q d s Hpl Hn Hmax Hq Hod Hopen).
Qed.
End Try.

(** ** A concrete try

    The second card of a pair: the first lies open at place 1, the button is held
    over place 0, and the timer interrupts. *)
Definition try_cards : list card :=
  down_card :: set_isFlipped false down_card :: replicate 14 (set_isFlipped true (new_card 5 1)).
Definition try_game : game_st := set_cardArray try_cards (test_game (MkMouse 210 80)).
Definition try_mouse : mouse_st := MouseSt (Packet 9 0 0 false false true 0 0 false false) 0 true 0 2 1 false.
Definition try_state : main_st quiet :=
  MainSt (TimerSt 7 0) kbd_init_st try_mouse Rtc.rtc_init_st try_game test_video
    (set_gs Game (set_initGame false loop_init_st)) Quiet.

Lemma try_uncovers_and_compares_witness :
  exists s', messages 2 1 4 1 43 try_state = Done tt s' /\
    cardArray (ms_game s') =
      <[0%nat := set_flipSuccess true (set_isFlipped false down_card)]>
        (<[1%nat := set_flipSuccess true (set_isFlipped false down_card)]> try_cards) /\
    lives (p1 (ms_game s')) = 5.
Proof.
  assert (cards_drawable try_cards) as Hc
    by (split; [reflexivity|]; by repeat (apply Forall_cons; split)).
  assert (at_rest try_game) as Hr by (split; [by repeat constructor|reflexivity|reflexivity]).
  assert (table try_game) as Ht
    by (split; [apply test_sprites_ok|simpl; lia|simpl; lia|reflexivity|simpl; lia|exact Hc]).
  destruct (proj2 (try_uncovers_and_compares (W := quiet) 2 1 4 ltac:(intros []; do 2 eexists; split; [reflexivity|by split_and!])
    try_game 0 0 down_card Ht Hr ltac:(lia) ltac:(lia) ltac:(unfold over_card; simpl; lia) eq_refl eq_refl eq_refl
    1 7 try_state ltac:(by split; [..|apply test_video_ok| | | | | |]) ltac:(lia) ltac:(unfold INT_MAX; lia))
    1%nat (set_isFlipped false down_card) eq_refl eq_refl) as (s' & E & Eg & _).
  - intros j e Hj. do 16 (destruct j as [|j]; [try done; intros [= <-]; reflexivity|]). done.
  - exists s'. split; [exact E|]. rewrite Eg. split; reflexivity.
Defined.
