(* ===== verification/Win.v ===== *)
(** A whole game: a player who knows where the pairs lie uncovers them one after
    the other. Tries ([Play]) and movements of the mouse ([Pointer]) follow each
    other until every card is found and the game is won. *)
From S2P Require Import Prelude Env Timer Keyboard Mouse Video Cards Game Flip MainLoop Pointer Play.

(** ** Specification *)

(** Where a player brings the cursor, and the state the mouse's driver and the
    world have then; [Pointer] says how packets lead there. *)
Record pointing (W : Type) : Type := Pointing {
  pt_mouse : mouse_st;
  pt_cursor : Mouse;
  pt_world : W
}.
Arguments pt_mouse {W} p.
Arguments pt_cursor {W} p.
Arguments pt_world {W} p.

(** The button is held over the card at place [p]. *)
Definition over_place {W} (p : nat) (t : pointing W) : Prop :=
  lb (packet1 (pt_mouse t)) = true /\ (p < 16)%nat /\
  over_card (pt_cursor t) (Z.of_nat p mod 4) (Z.of_nat p / 4).

(** The places of a list of pairs. *)
Definition places (ps : list (nat * nat)) : list nat := flat_map (fun '(p, q) => [p; q]) ps.

(** The pairs [ps] lie face down; all other cards were found and lie face up. *)
Record layout (ps : list (nat * nat)) (l : list card) : Prop := Layout {
  lo_places : NoDup (places ps);
  lo_down : forall j e, l !! j = Some e -> j ∈ places ps -> isFlipped e = true /\ flipSuccess e = false;
  lo_found : forall j e, l !! j = Some e -> j ∉ places ps -> isFlipped e = false /\ flipSuccess e = true;
  lo_pairs : Forall (fun '(p, q) => exists c d, l !! p = Some c /\ l !! q = Some d /\ same_face c d = true) ps
}.

Section Play.
Context {W : Type} `{PortIO W, Irq W, Lcf W, Display W, Libc W, Messages W}.
Variables (i1 i2 i3 : Z).

(** The player moves the mouse there and presses the button. *)
Definition hold (t : pointing W) : M (main_st W) unit :=
  modify (with_pointer (pt_mouse t) (pt_cursor t) (pt_world t)).

Definition ticks : M (main_st W) Z := gets (fun s => tmr_tck_counter (ms_timer s)).

(** A try at the cursor's place, as long as it takes. *)
Definition try_at (fuel : nat) (t : pointing W) : M (main_st W) unit :=
  hold t ;;
  let* n := ticks in messages i1 i2 i3 fuel (Z.to_nat (try_takes n)).

Fixpoint tries (fuel : nat) (ts : list (pointing W)) : M (main_st W) unit :=
  match ts with [] => skip | t :: ts => try_at fuel t ;; tries fuel ts end.

(** Then the player waits until the count is a multiple of 120. *)
Definition wait_end (fuel : nat) : M (main_st W) unit :=
  let* n := ticks in messages i1 i2 i3 fuel (Z.to_nat ((- n) mod 120)).
End Play.

(** * Lemmas *)

Lemma places_cons p q ps : places ((p, q) :: ps) = p :: q :: places ps.
Proof. done. Qed.

(** Finding a pair. *)
Lemma layout_found p q ps l c d :
  layout ((p, q) :: ps) l -> l !! p = Some c -> l !! q = Some d ->
  layout ps (<[q := set_flipSuccess true (set_isFlipped false d)]>
    (<[p := set_flipSuccess true (set_isFlipped false c)]> l)).
Proof.
  intros [Hn Hd Hf Hps] Hp Hq. rewrite places_cons in *.
  apply NoDup_cons in Hn as [Hpn [Hqn Hn]%NoDup_cons]. rewrite not_elem_of_cons in Hpn. destruct Hpn as [Hpq Hpn].
  pose proof (lookup_lt_Some _ _ _ Hp). pose proof (lookup_lt_Some _ _ _ Hq).
  assert (forall j, j <> p -> j <> q -> <[q := set_flipSuccess true (set_isFlipped false d)]>
    (<[p := set_flipSuccess true (set_isFlipped false c)]> l) !! j = l !! j) as Hsame
    by (intros; by rewrite !list_lookup_insert_ne by done).
  split; [done| | |].
  - intros j e He Hj. rewrite Hsame in He by (by intros ->). apply (Hd j e He). by do 2 right.
  - intros j e He Hj. destruct (decide (j = q)) as [->|Hjq].
    { rewrite list_lookup_insert_eq in He by (by rewrite length_insert). by injection He as <-. }
    destruct (decide (j = p)) as [->|Hjp].
    { rewrite list_lookup_insert_ne, list_lookup_insert_eq in He by done. by injection He as <-. }
    rewrite Hsame in He by done. apply (Hf j e He). by rewrite !not_elem_of_cons.
  - apply Forall_cons in Hps as [_ Hps]. rewrite Forall_forall in *. intros [p' q'] Hin.
    destruct (Hps _ Hin) as (c' & d' & Hc' & Hd' & Hs). exists c', d'.
    assert (p' ∈ places ps /\ q' ∈ places ps) as [Hip Hiq].
    { unfold places. split; apply list_elem_of_In, in_flat_map; exists (p', q'); (split; [by apply list_elem_of_In|]);
        simpl; auto. }
    rewrite !Hsame; [done|by intros ->..].
Qed.

Lemma layout_nil l : layout [] l -> all_found l.
Proof.
  intros Hl. apply Forall_lookup. intros j e He. by destruct (lo_found _ _ Hl j e He (not_elem_of_nil j)).
Qed.

Lemma layout_unfinished p q ps l : layout ((p, q) :: ps) l -> unfinished l.
Proof.
  intros Hl. destruct (proj1 (Forall_cons _ _ _) (lo_pairs _ _ Hl)) as [(c & d & Hc & _) _].
  exists p, c. split; [done|]. eapply lo_down; [done|done|]. by left.
Qed.

Lemma place_split p : (p < 16)%nat ->
  0 <= Z.of_nat p mod 4 < 4 /\ 0 <= Z.of_nat p / 4 < 4 /\ Z.to_nat (Z.of_nat p mod 4 + Z.of_nat p / 4 * 4) = p.
Proof. intros Hp. Z.div_mod_to_equations. lia. Qed.

Section Win.
Context {W : Type} `{PortIO W, Irq W, Lcf W, Display W, Libc W, Messages W}.
Variables (i1 i2 i3 : Z).
Hypothesis only_timer : forall w : W, exists m w1, driver_receive w = (m, w1) /\ timer_only m i1 i2 i3.
Implicit Types s : main_st W.

Lemma hold_table p (t : pointing W) g : over_place p t -> table g -> table (set_mouse (pt_cursor t) g).
Proof.
  intros (_ & Hp & [Hx Hy]) []. destruct (place_split p Hp) as (Ha & Hb & _).
  split; try done; cbn [set_mouse mouse]; [lia|lia|]. unfold cursor_fits. lia.
Qed.

Lemma hold_playing p (t : pointing W) n g s :
  over_place p t -> running n g s ->
  playing n (set_mouse (pt_cursor t) g) (with_pointer (pt_mouse t) (pt_cursor t) (pt_world t) s).
Proof. intros (Hlb & _) [<- ??????]. by split. Qed.

(** Between two tries no card is open. *)
Lemma layout_none_open ps l j e : layout ps l -> l !! j = Some e -> open_card e = false.
Proof.
  intros Hl He. unfold open_card. destruct (decide (j ∈ places ps)) as [Hj|Hj].
  - destruct (lo_down _ _ Hl j e He Hj) as [-> _]. done.
  - destruct (lo_found _ _ Hl j e He Hj) as [_ ->]. apply andb_false_r.
Qed.

(** A try begins: the cursor is brought over the card. *)
Lemma wp_try_at fuel p (t : pointing W) n g s Q :
  over_place p t -> running n g s ->
  (forall s', playing n (set_mouse (pt_cursor t) g) s' -> wp (messages i1 i2 i3 fuel (Z.to_nat (try_takes n))) Q s') ->
  wp (try_at i1 i2 i3 fuel t) Q s.
Proof.
  intros Ht Hpl HQ. unfold try_at, hold. apply wp_bind, wp_modify, wp_bind, wp_gets.
  pose proof (hold_playing p t n g s Ht Hpl) as Hpl'.
  replace (tmr_tck_counter _) with n by (symmetry; apply Hpl'). by apply HQ.
Qed.

(** The first card of a pair is uncovered. *)
Lemma wp_first_try fuel p ps l c (t : pointing W) n g s :
  running n g s -> table g -> at_rest g -> 0 <= n -> n + 43 < INT_MAX -> over_place p t ->
  cardArray g = l -> layout ps l -> p ∈ places ps -> l !! p = Some c ->
  wp (try_at i1 i2 i3 fuel t)
    (fun _ s' => playing (n + try_takes n) (uncovered p c (set_mouse (pt_cursor t) g)) s') s.
Proof.
  intros Hpl Ht Hr Hn Hmax Ho <- Hl Hin Hc. eapply wp_try_at; [done|done|]. intros s' Hpl'.
  destruct (lo_down _ _ Hl _ _ Hc Hin) as [Hdown Hnew]. pose proof Ho as (_ & Hp & Hov).
  destruct (place_split p Hp) as (Ha & Hb & Ep).
  pose proof (try_alone i1 i2 i3 only_timer (set_mouse (pt_cursor t) g) (Z.of_nat p mod 4) (Z.of_nat p / 4) c
    (hold_table _ _ _ Ho Ht) ltac:(by destruct Hr) Ha Hb Hov) as Htry.
  rewrite Ep in Htry. apply Htry; [done..|]. intros j e He. by eapply layout_none_open.
Qed.

(** The second one is uncovered and found. *)
Lemma wp_second_try fuel p q ps c d (t : pointing W) n g s :
  playing n (uncovered p c g) s -> table (uncovered p c g) -> at_rest g -> 0 <= n -> n + 43 < INT_MAX -> over_place q t ->
  layout ((p, q) :: ps) (cardArray g) -> cardArray g !! p = Some c -> cardArray g !! q = Some d ->
  same_face c d = true ->
  wp (try_at i1 i2 i3 fuel t)
    (fun _ s' => ms_game s' = compared q p d (set_isFlipped false c) (set_mouse (pt_cursor t) (uncovered p c g)) /\
       after_tick (n + try_takes n) (compared q p d (set_isFlipped false c) (set_mouse (pt_cursor t) (uncovered p c g))) s') s.
Proof.
  intros Hpl Ht Hr Hn Hmax Ho Hl Hc Hd Hsame. eapply wp_try_at; [done|by apply playing_running|]. intros s' Hpl'.
  pose proof (lo_places _ _ Hl) as Hnd. rewrite places_cons in Hnd. apply NoDup_cons in Hnd as [Hpq _].
  assert (p <> q) as Hne by (intros ->; apply Hpq; by left).
  destruct (lo_down _ _ Hl _ _ Hd ltac:(rewrite places_cons; by right; left)) as [Hdown Hnew].
  destruct (lo_down _ _ Hl _ _ Hc ltac:(by left)) as [_ Hnewc].
  pose proof Ho as (_ & Hq & Hov). destruct (place_split q Hq) as (Ha & Hb & Eq).
  pose proof (try_compare i1 i2 i3 only_timer (set_mouse (pt_cursor t) (uncovered p c g))
    (Z.of_nat q mod 4) (Z.of_nat q / 4) d (hold_table _ _ _ Ho Ht)) as Htry. rewrite Eq in Htry.
  pose proof (proj1 (Forall_lookup _ _) (ar_still _ Hr) _ _ Hc) as Hst.
  eapply wp_mono; [apply (Htry ltac:(destruct Hr; split; try done; simpl; by apply Forall_insert) Ha Hb Hov)
    with (q := p) (d := set_isFlipped false c)|]; try done.
  - simpl. by rewrite list_lookup_insert_ne.
  - simpl. apply list_lookup_insert_eq. by eapply lookup_lt_Some.
  - unfold open_card. simpl. by rewrite Hnewc.
  - intros j e Hj He. simpl in He. rewrite list_lookup_insert_ne in He by done. by eapply layout_none_open.
  - intros [] s'' [Hg Haft]. split; [done|].
    replace (same_face d (set_isFlipped false c)) with true in Haft; [exact Haft|].
    symmetry. unfold same_face in *. simpl. rewrite andb_true_iff, !bool_decide_eq_true in *. intuition congruence.
Qed.

(** Between two pairs: the pairs [ps] are left, the player has the lives [pl]. *)
Record round (n : Z) (ps : list (nat * nat)) (pl : Player) (g : game_st) s : Prop := Round {
  rd_unfinished : unfinished (cardArray g) -> running n g s;
  rd_finished : all_found (cardArray g) -> if Z.rem n 120 =? 0 then won n g s else playing n g s;
  rd_table : table g;
  rd_rest : at_rest g;
  rd_layout : layout ps (cardArray g);
  rd_player : p1 g = pl
}.

Lemma found_round n p q ps c d m g s :
  let g' := compared q p d (set_isFlipped false c) (set_mouse m (uncovered p c g)) in
  table g -> at_rest g -> layout ((p, q) :: ps) (cardArray g) ->
  cardArray g !! p = Some c -> cardArray g !! q = Some d -> same_face c d = true ->
  table (set_mouse m g) -> after_tick n g' s -> round n ps (p1 g) g' s.
Proof.
  intros g' Ht Hr Hl Hc Hd Hsame Htm Hs.
  assert (g' = set_cardArray (<[q := set_flipSuccess true (set_isFlipped false d)]>
    (<[p := set_flipSuccess true (set_isFlipped false c)]> (cardArray g))) (set_mouse m g)) as E.
  { unfold g', compared. replace (same_face d (set_isFlipped false c)) with true.
    - simpl. by rewrite list_insert_insert_eq.
    - symmetry. unfold same_face in *. simpl. rewrite andb_true_iff, !bool_decide_eq_true in *. intuition congruence. }
  rewrite E in *. clear E g'. destruct Htm as [Hsp Hx Hy Hcur Hlv [Hlen Hdr]]. simpl in *.
  pose proof (proj1 (Forall_lookup _ _) Hdr _ _ Hc). pose proof (proj1 (Forall_lookup _ _) Hdr _ _ Hd).
  destruct Hr as [Hst Hw Hos].
  pose proof (proj1 (Forall_lookup _ _) Hst _ _ Hc). pose proof (proj1 (Forall_lookup _ _) Hst _ _ Hd).
  split; [intros Hu; apply playing_running; by apply Hs|by apply Hs| | | |done].
  - split; try done. simpl. split; [by rewrite !length_insert|]. by repeat apply Forall_insert.
  - split; try done. by repeat apply Forall_insert.
  - by apply layout_found.
Qed.

(** One pair: two tries, at most 43 ticks each. *)
Lemma wp_pair fuel p q ps pl (t t' : pointing W) n g s :
  round n ((p, q) :: ps) pl g s -> 0 <= n -> n + 86 < INT_MAX -> over_place p t -> over_place q t' ->
  wp (try_at i1 i2 i3 fuel t)
    (fun _ s1 => wp (try_at i1 i2 i3 fuel t')
      (fun _ s' => exists n' g', round n' ps pl g' s' /\ n + 84 <= n' <= n + 86 /\ mouse g' = pt_cursor t' /\ ms_game s' = g') s1) s.
Proof.
  intros [Hs _ Ht Hr Hl <-] Hn Hmax Ho Ho'. specialize (Hs (layout_unfinished _ _ _ _ Hl)).
  destruct (proj1 (Forall_cons _ _ _) (lo_pairs _ _ Hl)) as [(c & d & Hc & Hd & Hsame) _].
  assert (forall n, 0 <= n -> 42 <= try_takes n <= 43) as Htt
    by (intros n' ?; unfold try_takes; pose proof (Z.mod_pos_bound n' 2); lia).
  pose proof (Htt n Hn) as Htn. pose proof (hold_table _ _ _ Ho Ht) as Ht0.
  eapply wp_mono; [eapply wp_first_try; [done|done|done|done|lia|done|reflexivity|done|by left|done]|].
  intros [] s1 Hs1. set (g0 := set_mouse (pt_cursor t) g) in *.
  assert (at_rest g0) as Hr0 by (by destruct Hr).
  assert (table (uncovered p c g0)) as Ht1.
  { destruct Ht0 as [? ? ? ? ? [Hlen Hdr]]. split; try done. split; simpl; [by rewrite length_insert|].
    apply Forall_insert; [done|]. exact (proj1 (Forall_lookup _ _) Hdr _ _ Hc). }
  eapply wp_mono; [eapply (wp_second_try fuel p q ps c d t' _ g0); try done|]; [lia|pose proof (Htt (n + try_takes n)); lia|].
  intros [] s2 [Hg Haft]. eexists _, _. split; [by apply (found_round _ p q ps c d (pt_cursor t') g0)
    ; [..|by apply (hold_table q)|exact Haft]|].
  split; [pose proof (Htt (n + try_takes n)); lia|]. split; [|exact Hg]. unfold compared. by case_match.
Qed.

(** All pairs, one after the other. *)
Lemma wp_tries fuel ps pl (ts : list (pointing W)) n g s :
  round n ps pl g s -> 0 <= n -> n + 86 * Z.of_nat (length ps) < INT_MAX ->
  Forall2 over_place (places ps) ts -> ms_game s = g ->
  wp (tries i1 i2 i3 fuel ts)
    (fun _ s' => exists n' g', round n' [] pl g' s' /\ n + 84 * Z.of_nat (length ps) <= n' <= n + 86 * Z.of_nat (length ps) /\
       mouse g' = default (mouse g) (pt_cursor <$> last ts) /\ ms_game s' = g') s.
Proof.
  revert ts n g s. induction ps as [|[p q] ps IH]; intros ts n g s Hrd Hn Hmax Hts Hg.
  - inversion Hts; subst. apply wp_skip. exists n, (ms_game s). split_and!; try done; simpl; lia.
  - rewrite places_cons in Hts. inversion Hts as [|? t ? ts1 Ho Hts1]; subst.
    inversion Hts1 as [|? t' ? ts2 Ho' Hts2]; subst. cbn [length] in *. cbn [tries].
    apply wp_bind. eapply wp_mono; [apply (wp_pair fuel p q ps pl t t' n (ms_game s) s); try done; lia|].
    intros [] s1 Hs1. apply wp_bind. eapply wp_mono; [exact Hs1|]. intros [] s2 (n' & g' & Hrd' & Hn' & Hm & Hg').
    eapply wp_mono; [apply (IH ts2 n' g' s2); try done; lia|].
    intros [] s3 (n2 & g2 & Hrd2 & Hn2 & Hm2 & Hg2). exists n2, g2. split_and!; [done|lia|lia| |done].
    rewrite Hm2, Hm. rewrite !last_cons. by destruct (last ts2).
Qed.

(** A finished board: a held button and the comparison change nothing. *)
Lemma clicked_finished q n g s :
  layout [] (cardArray g) -> at_rest g -> table g -> (q < 16)%nat ->
  over_card (mouse g) (Z.of_nat q mod 4) (Z.of_nat q / 4) -> at_click n g s ->
  exists s2, clicked g s s2 /\ (True -> goes_on s2).
Proof.
  intros Hl Hr Ht Hq Hov [[Hg Hf Hgs Hin _ Hlb _ Hlost] Hany]. destruct (place_split q Hq) as (Ha & Hb & Eq).
  pose proof (drawable_length _ (tb_cards _ Ht)) as Hlen.
  destruct (lookup_lt_is_Some_2 (cardArray g) q) as [e He]; [by rewrite Hlen|].
  destruct (lo_found _ _ Hl q e He (not_elem_of_nil q)) as [Hup _].
  pose proof (proj1 (Forall_lookup _ _) (ar_still _ Hr) _ _ He) as Hst.
  assert (tick_click s = Done tt s) as E.
  { rewrite (tick_click_eq s (Z.of_nat q mod 4) (Z.of_nat q / 4) e); rewrite ?Hg, ?Eq; try done; [|apply Hr].
    f_equal. rewrite Hup, (set_isFlipping_id _ _ Hst), list_insert_id, <- Hg by done. by destruct s as [? ? ? ? []]. }
  exists s. split; [|done]. split; [|by split_and!]. rewrite (bind_Done _ _ _ _ _ E).
  apply match_none_eq; rewrite Hg; [|done]. intros j x Hx. by eapply layout_none_open.
Qed.

(** Ticks of a finished game whose counts are not multiples of 120, and the one that is. *)
Lemma wp_finished fuel q m n pl g s :
  round n [] pl g s -> 0 <= n -> n + Z.of_nat m < INT_MAX -> (q < 16)%nat ->
  over_card (mouse g) (Z.of_nat q mod 4) (Z.of_nat q / 4) ->
  (forall k, 0 <= k < Z.of_nat m -> (n + k) mod 120 <> 0) ->
  wp (messages i1 i2 i3 fuel m) (fun _ s' => if Z.rem (n + Z.of_nat m) 120 =? 0 then won (n + Z.of_nat m) g s' else playing (n + Z.of_nat m) g s') s.
Proof.
  intros Hrd Hn Hmax Hq Hov. revert n s Hrd Hn Hmax.
  induction m as [|m IH]; intros n s Hrd Hn Hmax Hno; cbn [messages].
  - apply wp_skip. rewrite Z.add_0_r. apply Hrd, layout_nil, Hrd.
  - pose proof Hrd as [_ Ha Ht Hr Hl Hp]. pose proof (Ha (layout_nil _ Hl)) as Hpl.
    replace (Z.rem n 120 =? 0) with false in Hpl
      by (specialize (Hno 0 ltac:(lia)); rewrite Z.add_0_r in Hno; rewrite Z.rem_mod_nonneg by lia; lia).
    apply wp_bind. eapply wp_mono.
    { apply (wp_play_message i1 i2 i3 only_timer fuel n g g g True); try done; [lia| | |].
      - unfold draws_to. destruct (Z.rem (n + 1) 2 =? 0); [|done]. intros v w Hf. apply draw_board_still; [done|apply Ht|apply Ht|apply Hr].
      - intros s1 Hs1. by apply (clicked_finished q (n + 1)).
      - by apply drawable_length, tb_cards. }
    intros [] s1 [_ Hs1]. specialize (Hs1 I).
    replace (n + Z.of_nat (S m)) with (n + 1 + Z.of_nat m) by lia.
    assert (round (n + 1) [] pl g s1) as Hrd1
      by (split; [intros Hu; by apply playing_running, (proj1 Hs1)|exact (proj2 Hs1)|done..]).
    apply (IH _ _ Hrd1); [lia|lia|]. intros k Hk. replace (n + 1 + k) with (n + (k + 1)) by lia. apply Hno. lia.
Qed.

(** From the first try to the victory. *)
Lemma wp_perfect_game fuel ps (ts : list (pointing W)) n g s :
  running n g s -> table g -> at_rest g -> layout ps (cardArray g) -> ps <> [] ->
  Forall2 over_place (places ps) ts -> 0 <= n -> n + 86 * Z.of_nat (length ps) + 120 < INT_MAX ->
  wp (tries i1 i2 i3 fuel ts ;; wait_end i1 i2 i3 fuel) (fun _ s' => exists n' g',
    won n' g' s' /\ all_found (cardArray g') /\ p1 g' = p1 g /\ table g' /\ at_rest g' /\
    n + 84 * Z.of_nat (length ps) <= n' < n + 86 * Z.of_nat (length ps) + 120 /\ n' mod 120 = 0) s.
Proof.
  intros Hpl Ht Hr Hl Hps Hts Hn Hmax.
  assert (round n ps (p1 g) g s) as Hrd.
  { split; try done. intros Hall. destruct ps as [|[p q] ps]; [done|].
    destruct (layout_unfinished _ _ _ _ Hl) as (j & e & He & Hf).
    pose proof (proj1 (Forall_lookup _ _) Hall _ _ He). simpl in *. congruence. }
  assert (exists t q, last ts = Some t /\ over_place q t) as (t & q & Hlast & Ho).
  { destruct (last ts) as [t|] eqn:E.
    - rewrite last_lookup in E. destruct (Forall2_lookup_r _ _ _ _ _ Hts E) as (q & _ & Ho). eauto.
    - apply last_None in E as ->. inversion Hts as [Hnil|]. destruct ps as [|[] ?]; done. }
  apply wp_bind. eapply wp_mono; [apply (wp_tries fuel ps (p1 g) ts n g s); try done; [lia|apply Hpl]|].
  intros [] s1 (n1 & g1 & Hrd1 & Hn1 & Hm1 & Hg1). pose proof Hrd1 as [_ Ha1 Ht1 Hr1 Hl1 Hp1].
  rewrite Hlast in Hm1. simpl in Hm1. apply layout_nil in Hl1. specialize (Ha1 Hl1).
  assert (tmr_tck_counter (ms_timer s1) = n1) as Ecount by (destruct (_ =? 0); apply Ha1).
  unfold wait_end. apply wp_bind, wp_gets. rewrite Ecount.
  pose proof (Z.mod_pos_bound (- n1) 120 eq_refl) as Hb.
  assert ((n1 + (- n1) mod 120) mod 120 = 0) as Hmod by (Z.div_mod_to_equations; lia).
  eapply wp_mono; [apply (wp_finished fuel q _ n1 (p1 g) g1 s1); try done; [lia|lia|apply Ho|rewrite Hm1; apply Ho|]|].
  - intros k Hk. rewrite Z2Nat.id in Hk by lia. Z.div_mod_to_equations. lia.
  - intros [] s2 Hs2. rewrite Z2Nat.id in Hs2 by lia.
    rewrite Z.rem_mod_nonneg, Hmod in Hs2 by lia. exists (n1 + (- n1) mod 120), g1. split_and!; try done; lia.
Qed.
End Win.
