(* ===== verification/Opening.v ===== *)
(** From the menu to the victory: the choice in the menu, the ticks in which the
    player memorises the board, the start of the game, and then the tries of
    [Win]. *)
From S2P Require Import Prelude Env Timer I8042 Keyboard Mouse Video Cards Game Flip MainLoop Pointer Play Win.

(** ** Specification *)

(** A board as it is dealt, face up, with the animation at its start. *)
Record fresh (g : game_st) : Prop := Fresh {
  fr_cards : Forall (fun c => isFlipped c = false /\ isFlipping c = false /\ flipSuccess c = false) (cardArray g);
  fr_width : increaseWidth g = 1;
  fr_sides : otherSide g = replicate 16 0
}.

(** The eight pairs of a board. *)
Record pairing (ps : list (nat * nat)) (l : list card) : Prop := Pairing {
  pa_places : NoDup (places ps);
  pa_all : forall j, (j < 16)%nat -> j ∈ places ps;
  pa_faces : Forall (fun '(p, q) => exists c d, l !! p = Some c /\ l !! q = Some d /\ same_face c d = true) ps
}.

(** The menu, and the first phase of a game, at the count [c] of ticks. *)
Record in_menu {W} (g : game_st) (s : main_st W) : Prop := InMenu {
  me_game : ms_game s = g;
  me_frame : frame_ok (ms_video s);
  me_gs : gs (ms_loop s) = Menu;
  me_init : initGame (ms_loop s) = true;
  me_count : 0 <= tmr_tck_counter (ms_timer s) < INT_MAX;
  me_lost : game_over (ms_loop s) = false
}.

Record opening {W} (c : Z) (g : game_st) (s : main_st W) : Prop := Opening {
  op_game : ms_game s = g;
  op_frame : frame_ok (ms_video s);
  op_gs : gs (ms_loop s) = Game;
  op_init : initGame (ms_loop s) = true;
  op_count : tmr_tck_counter (ms_timer s) = c;
  op_key : scancode (ms_kbd s) = 0;
  op_lost : game_over (ms_loop s) = false
}.

(** The game with its board turned over. *)
Definition hidden (g : game_st) : game_st := set_cardArray (face_down (cardArray g)) g.

(** * Lemmas *)

Lemma hidden_ready g : table g -> fresh g -> table (hidden g) /\ at_rest (hidden g).
Proof.
  intros [? ? ? ? ? [Hl Hc]] [Hf Hw Ho]. split; [|split; [|done|done]].
  - split; try done. split; simpl; unfold face_down; [by rewrite length_map|]. by apply Forall_map.
  - simpl. unfold face_down. apply Forall_map. by eapply Forall_impl; [exact Hf|].
Qed.

(** A dealt board that is turned over is a board to find the pairs of. *)
Lemma hidden_layout ps g :
  length (cardArray g) = 16%nat -> fresh g -> pairing ps (cardArray g) -> layout ps (cardArray (hidden g)).
Proof.
  intros Hl [Hf _ _] [Hn Ha Hp]. unfold hidden, face_down. simpl.
  assert (forall j e, map (fun c => set_isFlipped true (set_isFlipping false c)) (cardArray g) !! j = Some e ->
    isFlipped e = true /\ flipSuccess e = false /\ j ∈ places ps) as Hcard.
  { intros j e He. pose proof (lookup_lt_Some _ _ _ He) as Hj. rewrite length_map, Hl in Hj.
    rewrite list_lookup_fmap in He. apply fmap_Some in He as (c & Hc & ->).
    destruct (proj1 (Forall_lookup _ _) Hf _ _ Hc) as (_ & _ & Hs). split_and!; [done|done|by apply Ha]. }
  split; [done| | |].
  - intros j e He _. by destruct (Hcard j e He) as (? & ? & _).
  - intros j e He Hj. by destruct (Hcard j e He) as (_ & _ & ?).
  - eapply Forall_impl; [exact Hp|]. intros [p q] (c & d & Hc & Hd & Hs). do 2 eexists.
    rewrite !list_lookup_fmap, Hc, Hd. split_and!; [done|done|exact Hs].
Qed.

Lemma pairing_length ps l : pairing ps l -> length l = 16%nat -> length ps = 8%nat.
Proof.
  intros [Hn Ha Hp] Hl.
  assert (places ps ≡ₚ seq 0 16) as Hperm.
  { apply NoDup_Permutation; [done|apply NoDup_seq|]. intros j. rewrite elem_of_seq. split; [|intros; apply Ha; lia].
    intros (pq & Hin & Hj)%list_elem_of_In%in_flat_map. destruct pq as [p q]. rewrite Forall_forall in Hp.
    destruct (Hp (p, q)) as (c & d & Hc & Hd & _); [by apply list_elem_of_In|].
    apply lookup_lt_Some in Hc, Hd. simpl in Hj. destruct Hj as [<-|[<-|[]]]; lia. }
  apply Permutation_length in Hperm. rewrite length_seq in Hperm.
  assert (length (places ps) = 2 * length ps)%nat; [|lia].
  clear. induction ps as [|[p q] ps IH]; [done|]. rewrite places_cons. simpl in *. lia.
Qed.

Section Opening.
Context {W : Type} `{PortIO W, Irq W, Lcf W, Display W, Libc W, Messages W} `{!XpmLaws W, !XpmLoads W}.
Variables (i1 i2 i3 : Z).
Hypothesis only_timer : forall w : W, exists m w1, driver_receive w = (m, w1) /\ timer_only m i1 i2 i3.
Implicit Types s : main_st W.

(** A message of the timer is the code of the current state, and then the cursor. *)
Lemma wp_tick_message fuel s (Q : unit -> main_st W -> Prop) :
  tick_ready s -> (forall w1, wp (timer_tick fuel) Q (at_tick w1 s)) -> wp (handle_message fuel i1 i2 i3) Q s.
Proof.
  intros Hr HQ. destruct (only_timer (ms_world s)) as (m & w1 & Er & Hm).
  unfold wp. rewrite (handle_timer_message fuel i1 i2 i3 m w1 s Er Hm Hr). apply HQ.
Qed.

(** The cursor at the end of a tick keeps the game and the display. *)
Lemma wp_tick_done s (Q : unit -> main_st W -> Prop) :
  table (ms_game s) -> frame_ok (ms_video s) -> (forall v w, frame_ok v -> Q tt (with_picture v w s)) ->
  wp (in_game draw_mouse ;; draw my_updateVideoMem) Q s.
Proof.
  intros [] Hf HQ. apply wp_tick_cursor; try done. intros v w (b & m & _ & Hv). apply HQ. by apply Hv.
Qed.

(** Play is chosen in the menu: the counter of ticks, the key and the button are
    reset, and the first phase of the game begins. *)
Lemma wp_menu_play fuel g s :
  in_menu g s -> table g -> chosen P_KEY_BREAKCODE 360 445 300 330 s = true ->
  wp (handle_message fuel i1 i2 i3) (fun _ s' => opening 0 g s') s.
Proof.
  intros [<- Hf Hgs Hin Hc Hlost] Ht Hplay. pose proof Ht as [Hsp Hx Hy Hcur _ _].
  apply wp_tick_message; [by unfold tick_ready; auto 10|]. intros w1. unfold timer_tick. apply wp_bind, wp_gets, wp_bind.
  cbn [at_tick ms_loop]. rewrite Hgs. unfold tick_menu.
  apply wp_bind, wp_draw_green; [exact Hf|]. intros v1 Hs1. pose proof (frame_same _ _ Hs1 Hf) as Hf1.
  apply wp_bind, wp_gets, wp_bind.
  assert (forall v w, frame_ok v -> only_draws draw_menu (ms_game s) v w /\
    only_draws drawSun (ms_game s) v w /\ only_draws drawMoon (ms_game s) v w) as Hfit.
  { intros v w Hv. destruct (screens_fit_all (ms_game s) v w Hv Hsp) as (Hmenu & _ & _ & _ & _ & Hsun & Hmoon & _).
    by split_and!. }
  eapply wp_mono with (Q := fun _ s' => exists v w, frame_ok v /\ s' = with_picture v w (at_tick w1 s)).
  { destruct (_ && _); (apply wp_in_game_draws; [first [exact (proj1 (proj2 (Hfit _ _ Hf1)))|
      exact (proj2 (proj2 (Hfit _ _ Hf1)))]|intros _ v w Hs; exists v, w; split; [by eapply frame_same|done]]). }
  intros [] s2 (v2 & w2 & Hf2 & ->). apply wp_bind, wp_in_game_draws; [exact (proj1 (Hfit _ _ Hf2))|].
  intros _ v3 w3 Hs3. pose proof (frame_same _ _ Hs3 Hf2) as Hf3.
  apply wp_bind, wp_draw_update; [exact Hf3|]. intros v4 (b & m & _ & Hv4). specialize (Hv4 Hf3).
  apply wp_bind, wp_gets. change (chosen _ _ _ _ _ (with_picture _ _ _)) with (chosen P_KEY_BREAKCODE 360 445 300 330 s).
  rewrite Hplay. apply wp_bind. do 3 apply wp_bind, wp_modify. apply wp_modify.
  apply wp_bind, wp_gets. cbn [chosen]. unfold chosen. cbn [ms_kbd ms_mouse scancode clear_lb set_packet1 packet1 lb].
  apply wp_bind, wp_skip, wp_bind, wp_gets. apply wp_skip.
  apply wp_tick_done; [exact Ht|exact Hv4|]. intros v5 w5 Hf5. by split.
Qed.

(** A tick of the first phase that shows the board, and the one that turns it over. *)
Lemma wp_opening_tick fuel c g s :
  opening c g s -> table g -> fresh g -> 0 <= c < INT_MAX ->
  wp (handle_message fuel i1 i2 i3)
    (fun _ s' => if (c + 1) mod 240 =? 0 then running (c + 1) (hidden g) s' else opening (c + 1) g s') s.
Proof.
  intros [<- Hf Hgs Hin Hc Hkey Hlost] Ht [Hfr Hw Ho] Hmax. pose proof Ht as [Hsp Hx Hy Hcur Hlv Hcards].
  apply wp_tick_message; [unfold tick_ready; rewrite Hc; auto 10|].
  intros w1. unfold timer_tick. apply wp_bind, wp_gets, wp_bind. cbn [at_tick ms_loop]. rewrite Hgs.
  unfold tick_game. apply wp_bind, wp_gets. cbn [at_tick ms_loop]. rewrite Hin.
  assert (every 240 (at_tick w1 s) = ((c + 1) mod 240 =? 0)) as Eevery.
  { unfold every. cbn [at_tick ms_timer tmr_tck_counter]. by rewrite Hc, Z.rem_mod_nonneg by lia. }
  destruct ((c + 1) mod 240 =? 0).
  - apply wp_tick_init_start; try done; [by eapply Forall_impl; [exact Hfr|intros ? [? _]]|].
    intros v w Hv. apply wp_tick_done; [|exact Hv|].
    + by apply hidden_ready.
    + intros v2 w2 Hf2. split; cbn; try done; [by rewrite Hc|by rewrite Hkey].
  - apply wp_tick_init_wait; try done; [by eapply Forall_impl; [exact Hfr|intros ? (_ & ? & _)]|].
    intros v w Hv. apply wp_tick_done; [exact Ht|exact Hv|].
    intros v2 w2 Hf2. split; cbn; try done. by rewrite Hc.
Qed.

Lemma wp_opening fuel m c g s :
  opening c g s -> table g -> fresh g -> 0 <= c -> c + Z.of_nat m = 240 -> (0 < m)%nat ->
  wp (messages i1 i2 i3 fuel m) (fun _ s' => running 240 (hidden g) s') s.
Proof.
  intros Hop Ht Hfr. revert c s Hop. induction m as [|m IH]; intros c s Hop Hc Hm Hpos; [lia|]. cbn [messages].
  apply wp_bind. eapply wp_mono; [apply (wp_opening_tick fuel c g s); try done; unfold INT_MAX; lia|].
  intros [] s1 Hs1. cbv beta in Hs1. destruct m as [|m].
  - replace (c + 1) with 240 in Hs1 by lia. by apply wp_skip.
  - replace ((c + 1) mod 240 =? 0) with false in Hs1 by (rewrite Z.mod_small by lia; lia).
    apply (IH (c + 1) s1 Hs1); lia.
Qed.

(** (C1) A whole game, from the menu to the victory, over all the parts of the
    program: Play is chosen in the menu (by its key or by a click), 240 ticks show
    the dealt board and then turn it over, and the player brings the cursor over
    the cards of one pair after the other, holding the button. Whatever the deal,
    the order of the pairs and the places of the cursor on the cards are, the
    game is won at the tick 960 after the choice, with every card found and the
    player's lives as they were at the start. *)
Theorem perfect_game_wins (fuel : nat) (ps : list (nat * nat)) (ts : list (pointing W)) (g : game_st) s :
  in_menu g s -> chosen P_KEY_BREAKCODE 360 445 300 330 s = true -> table g -> fresh g ->
  pairing ps (cardArray g) -> Forall2 over_place (places ps) ts ->
  exists s' g',
    (messages i1 i2 i3 fuel 241 ;; tries i1 i2 i3 fuel ts ;; wait_end i1 i2 i3 fuel) s = Done tt s' /\
    won 960 g' s' /\ all_found (cardArray g') /\ p1 g' = p1 g /\ table g' /\ at_rest g'.
Proof.
  intros Hme Hplay Ht Hfr Hps Hts. pose proof (drawable_length _ (tb_cards _ Ht)) as Hl.
  pose proof (pairing_length _ _ Hps Hl) as Hlen. destruct (hidden_ready g Ht Hfr) as [Ht1 Hr1].
  pose proof (hidden_layout ps g Hl Hfr Hps) as Hlay.
  enough (wp (messages i1 i2 i3 fuel (1 + 240) ;; tries i1 i2 i3 fuel ts ;; wait_end i1 i2 i3 fuel)
    (fun _ s' => exists g', won 960 g' s' /\ all_found (cardArray g') /\ p1 g' = p1 g /\ table g' /\ at_rest g') s) as Hw.
  { apply wp_unit in Hw as (s' & E & g' & Hw). by exists s', g'. }
  apply wp_bind. cbn [messages Nat.add]. apply wp_bind.
  eapply wp_mono; [by apply (wp_menu_play fuel g s)|]. intros [] s1 Hs1.
  eapply wp_mono; [apply (wp_opening fuel 240 0 g s1); done || lia|]. intros [] s2 Hs2.
  eapply wp_mono; [apply (wp_perfect_game i1 i2 i3 only_timer fuel ps ts 240 (hidden g) s2); try done|].
  - by intros ->.
  - rewrite Hlen. unfold INT_MAX. lia.
  - intros [] s3 (n & g' & Hwon & Hall & Hp & Htg & Hrg & Hn & Hmod). rewrite Hlen in Hn.
    assert (n = 960) as -> by (Z.div_mod_to_equations; lia). by exists g'.
Qed.
End Opening.

(** ** A concrete game

    Equal cards lie side by side; the player chooses Play with its key and clicks
    the cards row by row. *)
Definition side_by_side : list (nat * nat) := map (fun k => (2 * k, 2 * k + 1)%nat) (seq 0 8).
Definition easy_cards : list card :=
  flat_map (fun k => [new_card k (k mod 4); new_card k (k mod 4)]) (seqZ 0 8).
Definition easy_game : game_st := set_cardArray easy_cards (test_game create_mouse).
Definition easy_tries : list (pointing quiet) :=
  map (fun p => Pointing quiet try_mouse (MkMouse (210 + 99 * (p mod 4)) (80 + 113 * (p / 4))) Quiet) (seqZ 0 16).
Definition easy_state : main_st quiet :=
  MainSt (TimerSt 7 0) (set_scancode P_KEY_BREAKCODE kbd_init_st) mouse_init_st Rtc.rtc_init_st easy_game test_video loop_init_st Quiet.

Lemma easy_game_ready : table easy_game /\ fresh easy_game /\ pairing side_by_side (cardArray easy_game).
Proof.
  split_and!.
  - split; [apply test_sprites_ok|simpl; lia|simpl; lia|reflexivity|simpl; lia|].
    split; [reflexivity|]. apply (bool_decide_unpack _). vm_compute. exact I.
  - split; [|reflexivity|reflexivity]. apply (bool_decide_unpack _). vm_compute. exact I.
  - split.
    + apply (bool_decide_unpack _). vm_compute. exact I.
    + intros j Hj. do 16 (destruct j as [|j]; [apply (bool_decide_unpack _); vm_compute; exact I|]). lia.
    + by repeat (apply Forall_cons; split; [do 2 eexists; split_and!; reflexivity|]).
Qed.

Lemma perfect_game_wins_witness :
  exists s' g',
    (messages 2 1 4 1 241 ;; tries 2 1 4 1 easy_tries ;; wait_end 2 1 4 1) easy_state = Done tt s' /\
    won 960 g' s' /\ all_found (cardArray g') /\ lives (p1 g') = 5.
Proof.
  destruct easy_game_ready as (Ht & Hf & Hp).
  destruct (perfect_game_wins (W := quiet) 2 1 4
    ltac:(intros []; do 2 eexists; split; [reflexivity|by split_and!]) 1 side_by_side easy_tries easy_game easy_state)
    as (s' & g' & E & Hw & Ha & Hp1 & _).
  - split; [reflexivity|apply test_video_ok|reflexivity|reflexivity|simpl; unfold INT_MAX; lia|reflexivity].
  - reflexivity.
  - exact Ht.
  - exact Hf.
  - exact Hp.
  - unfold easy_tries, side_by_side, places. cbn -[over_place seqZ]. change (seqZ 0 16) with [0;1;2;3;4;5;6;7;8;9;10;11;12;13;14;15]. cbn [map].
    repeat (apply Forall2_cons; split; [split; [reflexivity|split; [lia|unfold over_card; simpl; lia]]|]).
    by apply Forall2_nil.
  - exists s', g'. split_and!; [exact E|exact Hw|exact Ha|]. by rewrite Hp1.
Defined.
