(* ===== verification/Rules.v ===== *)
(** The rules of the game, and that the program plays by them: the memory game as
    an abstract machine over the cards found and the lives left, and the program's
    state as a representation of the machine's. A move uncovers two cards; the
    program carries it out in two tries ([Play]) and, when the cards differ, in the
    ticks that turn them back. *)
From S2P Require Import Prelude Env Timer Keyboard Mouse Video Cards Game Flip MainLoop Pointer Play Win Opening.

(** ** Specification: the memory game *)

Record abstract : Type := Abstract { ab_found : list nat; ab_lives : Z }.

(** The cards dealt at two places are equal. *)
Definition agree (l : list card) (p q : nat) : bool :=
  match l !! p, l !! q with Some c, Some d => same_face c d | _, _ => false end.

(** Two cards are uncovered: a pair is found, or a life is lost. *)
Definition abs_move (l : list card) (p q : nat) (a : abstract) : abstract :=
  if agree l p q then Abstract (p :: q :: ab_found a) (ab_lives a) else Abstract (ab_found a) (ab_lives a - 1).

(** Moves of a player who has lives left, on cards that are not found yet. *)
Inductive plays (l : list card) : abstract -> list (nat * nat) -> abstract -> Prop :=
  | plays_nil a : plays l a [] a
  | plays_cons a p q ms a' :
      0 < ab_lives a -> p <> q -> p ∉ ab_found a -> q ∉ ab_found a ->
      plays l (abs_move l p q a) ms a' -> plays l a ((p, q) :: ms) a'.

(** ** Representation *)

(** A board as it is dealt. *)
Definition dealt (l : list card) : Prop :=
  length l = 16%nat /\
  Forall (fun c => isFlipped c = false /\ isFlipping c = false /\ flipSuccess c = false /\
                   0 <= card_x c < 13 /\ 0 <= card_y c < 4) l.

(** The board with some cards found: those lie face up, the others face down. *)
Definition board (l : list card) (found : list nat) : list card :=
  imap (fun j c => if decide (j ∈ found) then set_flipSuccess true c else set_isFlipped true c) l.

(** The program between two moves, at the count [n] of ticks. *)
Record shows {W} (l : list card) (n : Z) (a : abstract) (s : main_st W) : Prop := Shows {
  sh_table : table (ms_game s);
  sh_rest : at_rest (ms_game s);
  sh_board : cardArray (ms_game s) = board l (ab_found a);
  sh_lives : lives (p1 (ms_game s)) = ab_lives a;
  sh_on : unfinished (board l (ab_found a)) -> running n (ms_game s) s;
  sh_won : all_found (board l (ab_found a)) ->
    if Z.rem n 120 =? 0 then won n (ms_game s) s else running n (ms_game s) s
}.

(** The program when the last life is lost. *)
Record shows_loss {W} (l : list card) (n : Z) (a : abstract) (s : main_st W) : Prop := ShowsLoss {
  sl_lost : lost n (ms_game s) s;
  sl_table : table (ms_game s);
  sl_width : increaseWidth (ms_game s) = 1;
  sl_sides : otherSide (ms_game s) = replicate 16 0;
  sl_found : map flipSuccess (cardArray (ms_game s)) = map flipSuccess (board l (ab_found a));
  sl_lives : lives (p1 (ms_game s)) = 0;
  sl_dead : isAlive (p1 (ms_game s)) = false
}.

Section Moves.
Context {W : Type} `{PortIO W, Irq W, Lcf W, Display W, Libc W, Messages W}.
Variables (i1 i2 i3 : Z).

(** A move: two tries, and when the cards turn back in a game that goes on, the
    player releases the button and waits for the ten ticks this takes. *)
Definition move (fuel : nat) (t t' : pointing W) : M (main_st W) unit :=
  try_at i1 i2 i3 fuel t ;;
  try_at i1 i2 i3 fuel t' ;;
  let* s := get in
  if bool_decide (gs (ms_loop s) = Game) && existsb isFlipping (cardArray (ms_game s)) then
    upd_mouse clear_lb ;;
    messages i1 i2 i3 fuel 10
  else skip.

Fixpoint moves (fuel : nat) (ts : list (pointing W * pointing W)) : M (main_st W) unit :=
  match ts with [] => skip | (t, t') :: ts => move fuel t t' ;; moves fuel ts end.
End Moves.

(** * Lemmas *)

Lemma board_lookup l found j :
  board l found !! j =
    (fun c => if decide (j ∈ found) then set_flipSuccess true c else set_isFlipped true c) <$> l !! j.
Proof. unfold board. by rewrite list_lookup_imap. Qed.

Lemma board_length l found : length (board l found) = length l.
Proof. unfold board. by rewrite length_imap. Qed.

Lemma dealt_card l j c : dealt l -> l !! j = Some c ->
  isFlipped c = false /\ isFlipping c = false /\ flipSuccess c = false /\ 0 <= card_x c < 13 /\ 0 <= card_y c < 4.
Proof. intros [_ Hl] Hc. exact (proj1 (Forall_lookup _ _) Hl _ _ Hc). Qed.

Lemma board_drawable l found : dealt l -> cards_drawable (board l found).
Proof.
  intros Hl. split; [rewrite board_length; apply Hl|]. apply Forall_lookup. intros j e He.
  rewrite board_lookup in He. apply fmap_Some in He as (c & Hc & ->).
  destruct (dealt_card _ _ _ Hl Hc) as (_ & _ & _ & ?). by case_decide.
Qed.

Lemma board_still l found : dealt l -> Forall (fun c => isFlipping c = false) (board l found).
Proof.
  intros Hl. apply Forall_lookup. intros j e He. rewrite board_lookup in He. apply fmap_Some in He as (c & Hc & ->).
  destruct (dealt_card _ _ _ Hl Hc) as (_ & Hst & _). by case_decide.
Qed.

Lemma board_none_open l found j e : dealt l -> board l found !! j = Some e -> open_card e = false.
Proof.
  intros Hl He. rewrite board_lookup in He. apply fmap_Some in He as (c & Hc & ->). unfold open_card.
  case_decide; simpl; [apply andb_false_r|done].
Qed.

(** A card that is not found lies face down. *)
Lemma board_down l found p c : dealt l -> l !! p = Some c -> p ∉ found ->
  board l found !! p = Some (set_isFlipped true c).
Proof. intros Hl Hc Hp. rewrite board_lookup, Hc. simpl. by rewrite decide_False. Qed.

Lemma board_unfinished l found p c : dealt l -> l !! p = Some c -> p ∉ found -> unfinished (board l found).
Proof.
  intros Hl Hc Hp. exists p, (set_isFlipped true c). split; [by apply board_down|]. simpl.
  by destruct (dealt_card _ _ _ Hl Hc) as (_ & _ & ? & _).
Qed.

(** Uncovering gives the dealt card back. *)
Lemma uncover_dealt c : isFlipped c = false -> set_isFlipped false (set_isFlipped true c) = c.
Proof. intros Hc. destruct c. simpl in *. by subst. Qed.

(** A pair is found. *)
Lemma board_found l found p q c d :
  l !! p = Some c -> l !! q = Some d -> p <> q ->
  <[q := set_flipSuccess true d]> (<[p := set_flipSuccess true c]> (board l found)) = board l (p :: q :: found).
Proof.
  intros Hc Hd Hne. pose proof (lookup_lt_Some _ _ _ Hc) as Hp. pose proof (lookup_lt_Some _ _ _ Hd) as Hq.
  apply list_eq. intros j. rewrite board_lookup. destruct (decide (j = q)) as [->|Hjq].
  { rewrite list_lookup_insert_eq by (by rewrite length_insert, board_length). rewrite Hd. simpl.
    rewrite decide_True; [done|]. by right; left. }
  rewrite list_lookup_insert_ne by done. destruct (decide (j = p)) as [->|Hjp].
  { rewrite list_lookup_insert_eq by (by rewrite board_length). rewrite Hc. simpl. rewrite decide_True; [done|]. by left. }
  rewrite list_lookup_insert_ne, board_lookup by done. destruct (l !! j) as [e|]; [|done]. simpl. f_equal.
  repeat case_decide; try done; rewrite !elem_of_cons in *; tauto.
Qed.

(** ** Two different cards turn back *)

Lemma flippers_insert l i e c : l !! i = Some e ->
  flippers (<[i := c]> l) = flippers l - b2z (isFlipping e) + b2z (isFlipping c).
Proof.
  intros He. pose proof (lookup_lt_Some _ _ _ He) as Hi. rewrite (insert_take_drop _ _ _ Hi).
  rewrite <- (take_drop_middle l i e He) at 3. unfold flippers. rewrite !List.filter_app. simpl.
  unfold b2z. rewrite !length_app. destruct (isFlipping e), (isFlipping c); cbn [length]; lia.
Qed.

Lemma flippers_none l : Forall (fun c => isFlipping c = false) l -> flippers l = 0.
Proof. unfold flippers. induction 1 as [|c l Hc _ IH]; simpl; [done|]. by rewrite Hc. Qed.

(** The two cards of a mistake, turning. *)
Definition mistaken (l : list card) (found : list nat) (p q : nat) (c d : card) : list card :=
  <[q := set_isFlipping true d]> (<[p := set_isFlipping true c]> (board l found)).

Section Mistake.
Variables (l : list card) (found : list nat) (p q : nat) (c d : card).
Hypotheses (Hl : dealt l) (Hc : l !! p = Some c) (Hd : l !! q = Some d) (Hne : p <> q).
Hypotheses (Hp : p ∉ found) (Hq : q ∉ found).

Let L : list card := mistaken l found p q c d.

Lemma mistaken_length : length L = 16%nat.
Proof. unfold L, mistaken. rewrite !length_insert, board_length. apply Hl. Qed.

Lemma mistaken_p : L !! p = Some (set_isFlipping true c).
Proof.
  unfold L, mistaken. rewrite list_lookup_insert_ne, list_lookup_insert_eq; [done| |done].
  rewrite board_length. by eapply lookup_lt_Some.
Qed.

Lemma mistaken_q : L !! q = Some (set_isFlipping true d).
Proof.
  unfold L, mistaken. apply list_lookup_insert_eq. rewrite length_insert, board_length. by eapply lookup_lt_Some.
Qed.

Lemma mistaken_other j : j <> p -> j <> q -> L !! j = board l found !! j.
Proof. intros Hjp Hjq. unfold L, mistaken. by rewrite !list_lookup_insert_ne by done. Qed.

Lemma mistaken_flippers : flippers L = 2.
Proof.
  destruct (dealt_card _ _ _ Hl Hc) as (_ & Hsc & _). destruct (dealt_card _ _ _ Hl Hd) as (_ & Hsd & _).
  unfold L, mistaken. rewrite (flippers_insert _ q (set_isFlipped true d)).
  - rewrite (flippers_insert _ p (set_isFlipped true c)) by (by apply board_down).
    rewrite flippers_none by (by apply board_still). simpl. by rewrite Hsc, Hsd.
  - rewrite list_lookup_insert_ne by done. by apply board_down.
Qed.

Lemma mistaken_drawable : cards_drawable L.
Proof.
  split; [apply mistaken_length|]. unfold L, mistaken. apply Forall_insert; [apply Forall_insert|].
  - by apply board_drawable.
  - by destruct (dealt_card _ _ _ Hl Hc) as (_ & _ & _ & ?).
  - by destruct (dealt_card _ _ _ Hl Hd) as (_ & _ & _ & ?).
Qed.

Lemma mistaken_start g :
  increaseWidth g = 1 -> otherSide g = replicate 16 0 -> turn_start false (set_cardArray L g).
Proof.
  intros Hw Ho. split; [apply mistaken_drawable|]. split; [done|]. split; [done|]. simpl. unfold L, mistaken.
  apply Forall_insert; [apply Forall_insert|].
  - eapply Forall_impl; [by apply board_still|]. intros e He. simpl. congruence.
  - intros _. by destruct (dealt_card _ _ _ Hl Hc) as (? & _).
  - intros _. by destruct (dealt_card _ _ _ Hl Hd) as (? & _).
Qed.

Lemma mistaken_turned g :
  increaseWidth g = 1 -> otherSide g = replicate 16 0 ->
  turned false (set_cardArray L g) = set_cardArray (board l found) g.
Proof.
  intros Hw Ho. destruct g as [cs pl iw os mo im]. simpl in *. subst iw os. unfold turned, set_cardArray. simpl.
  unfold set_increaseWidth, set_otherSide. simpl. f_equal. apply list_eq. intros j.
  rewrite list_lookup_fmap. destruct (dealt_card _ _ _ Hl Hc) as (Hfc & Hsc & _).
  destruct (dealt_card _ _ _ Hl Hd) as (Hfd & Hsd & _).
  destruct (decide (j = p)) as [->|Hjp]; [|destruct (decide (j = q)) as [->|Hjq]].
  - rewrite mistaken_p, (board_down l found p c) by done. simpl. f_equal. unfold finish_card. simpl.
    destruct c. simpl in *. by subst.
  - rewrite mistaken_q, (board_down l found q d) by done. simpl. f_equal. unfold finish_card. simpl.
    destruct d. simpl in *. by subst.
  - rewrite mistaken_other by done. destruct (board l found !! j) as [e|] eqn:He; [|done]. simpl. f_equal.
    unfold finish_card. by rewrite (proj1 (Forall_lookup _ _) (board_still l found Hl) _ _ He).
Qed.
End Mistake.

(** ** Waiting for the cards to turn back *)
Section Back.
Context {W : Type} `{PortIO W, Irq W, Lcf W, Display W, Libc W, Messages W}.
Variables (i1 i2 i3 : Z).
Hypothesis only_timer : forall w : W, exists m w1, driver_receive w = (m, w1) /\ timer_only m i1 i2 i3.
Variables (l : list card) (found : list nat) (p q : nat) (c d : card).
Hypotheses (Hl : dealt l) (Hc : l !! p = Some c) (Hd : l !! q = Some d) (Hne : p <> q).
Hypotheses (Hp : p ∉ found) (Hq : q ∉ found) (Hdiff : same_face c d = false).
Variable (g : game_st).
Hypotheses (Hcards : cardArray g = mistaken l found p q c d) (Htable : table g).
Hypotheses (Hwidth : increaseWidth g = 1) (Hsides : otherSide g = replicate 16 0).
Implicit Types s : main_st W.

(** Two different cards that turn are compared without a consequence. *)
Lemma match_turning s :
  isAnyCardFlipping (ms_loop s) = false -> cardArray (ms_game s) = mistaken l found p q c d -> tick_match s = Done tt s.
Proof.
  intros Hany Hs. destruct (dealt_card _ _ _ Hl Hc) as (Hfc & _ & Huc & _).
  destruct (dealt_card _ _ _ Hl Hd) as (Hfd & _ & Hud & _).
  assert (same_face d c = false) as Hdiff'.
  { apply not_true_is_false. intros E. rewrite <- not_true_iff_false in Hdiff. apply Hdiff. unfold same_face in *.
    rewrite andb_true_iff, !bool_decide_eq_true in *. intuition congruence. }
  pose proof (mistaken_p l found p q c d Hc Hne) as HLp.
  pose proof (mistaken_q l found p q c d Hd) as HLq.
  assert (forall j e, j <> p -> j <> q -> cardArray (ms_game s) !! j = Some e -> open_card e = false) as Hrest.
  { intros j e Hjp Hjq He. rewrite Hs, mistaken_other in He by done. by eapply board_none_open. }
  assert (open_card (set_isFlipping true c) = true /\ open_card (set_isFlipping true d) = true) as [Ho1 Ho2].
  { unfold open_card. simpl. by rewrite Hfc, Hfd, Huc, Hud. }
  assert (length (cardArray (ms_game s)) = 16%nat) as Hlen by (rewrite Hs; by apply mistaken_length).
  destruct (decide (p < q)%nat).
  - rewrite (match_pair_eq p q (set_isFlipping true c) (set_isFlipping true d));
      [|done|done|lia|by rewrite Hs|by rewrite Hs|done..].
    unfold matched. change (same_face (set_isFlipping true d) (set_isFlipping true c)) with (same_face d c).
    rewrite Hdiff', Hs. cbn [isFlipping set_isFlipping]. f_equal.
    rewrite (list_insert_id _ q), (list_insert_id _ p), <- Hs by done. by destruct s as [? ? ? ? []].
  - rewrite (match_pair_eq q p (set_isFlipping true d) (set_isFlipping true c));
      [|done|done|lia|by rewrite Hs|by rewrite Hs|done|done|by intros j e ??; apply Hrest].
    unfold matched. change (same_face (set_isFlipping true c) (set_isFlipping true d)) with (same_face c d).
    rewrite Hdiff, Hs. cbn [isFlipping set_isFlipping]. f_equal.
    rewrite (list_insert_id _ p), (list_insert_id _ q), <- Hs by done. by destruct s as [? ? ? ? []].
Qed.

Lemma click_released s : lb (packet1 (ms_mouse s)) = false -> tick_click s = Done tt s.
Proof. intros Hlb. unfold tick_click. by rewrite (bind_Done _ _ _ _ _ (gets_eq _ _)), Hlb. Qed.

Lemma g_eq : set_cardArray (mistaken l found p q c d) g = g.
Proof. rewrite <- Hcards. by destruct g. Qed.

Lemma back_start : turn_start false g.
Proof. rewrite <- g_eq. by apply mistaken_start. Qed.

Lemma back_flippers : flippers (cardArray g) = 2.
Proof. rewrite Hcards. by apply mistaken_flippers. Qed.

Lemma back_table k : (k < 5)%nat -> table (turning_at false 2 k g).
Proof.
  intros Hk. destruct (turning_at_fields false 2 5 k g turn_fine_down Hk) as (Ec & Ei & Em & Ep).
  destruct Htable. by split; rewrite ?Ec, ?Ei, ?Em, ?Ep.
Qed.

(** The game with the cards turned back. *)
Definition restored : game_st := set_cardArray (board l found) g.

Lemma back_end : turning_at false 2 5 g = restored.
Proof. rewrite turning_at_5, <- g_eq at 1. by apply mistaken_turned. Qed.

(** The button is released, [k] frames of the turn are drawn. *)
Definition turning_back (n : Z) (k : nat) (s : main_st W) : Prop :=
  running n (turning_at false 2 k g) s /\ lb (packet1 (ms_mouse s)) = false.

(** A message while the cards turn back, to the next state of the board. *)
Lemma back_message fuel n k s :
  turning_back n k s -> 0 <= n < INT_MAX -> (k < 5)%nat ->
  wp (handle_message fuel i1 i2 i3)
    (fun _ s' => turning_back (n + 1) (if Z.rem (n + 1) 2 =? 0 then S k else k) s') s.
Proof.
  intros [Hrun Hlb] Hn Hk. set (k' := if Z.rem (n + 1) 2 =? 0 then S k else k).
  assert (k' <= 5)%nat as Hk' by (unfold k'; destruct (_ =? 0); lia).
  assert (table (turning_at false 2 k' g) /\ unfinished (cardArray (turning_at false 2 k' g)) /\
    forall s1, running (n + 1) (turning_at false 2 k' g) s1 -> isAnyCardFlipping (ms_loop s1) = false ->
      tick_match s1 = Done tt s1) as (Ht' & Hun & Hmatch).
  { destruct (decide (k' = 5%nat)) as [->|Hk5].
    - rewrite back_end. split_and!.
      + destruct Htable. split; try done. by apply board_drawable.
      + by eapply board_unfinished.
      + intros s1 Hr _. apply match_none_eq; rewrite (rn_game _ _ _ Hr); simpl.
        * intros j e. by apply board_none_open.
        * rewrite board_length. apply Hl.
    - destruct (turning_at_fields false 2 5 k' g turn_fine_down ltac:(lia)) as (Ec & _). split_and!.
      + apply back_table. lia.
      + rewrite Ec, Hcards. exists p, (set_isFlipping true c). split; [by apply mistaken_p|].
        by destruct (dealt_card _ _ _ Hl Hc) as (_ & _ & ? & _).
      + intros s1 Hr Hany. apply match_turning; [done|]. by rewrite (rn_game _ _ _ Hr), Ec. }
  eapply wp_mono; [apply (wp_running_message i1 i2 i3 only_timer fuel n (turning_at false 2 k g)
    (turning_at false 2 k' g) (turning_at false 2 k' g) (fun l => gs l = Game /\ game_over l = false)); try done|].
  - by apply back_table.
  - by apply (draws_turn false 2 5); [apply Htable|apply back_start|apply back_flippers|..].
  - intros s1 Hr Hm Hany. exists s1. split; [|by destruct Hr]. split; [|destruct Hr; by split_and!].
    rewrite (bind_Done _ _ _ tt s1) by (apply click_released; by rewrite Hm). by apply Hmatch.
  - apply drawable_length, Ht'.
  - intros [] s' (l' & [Hgs Hov] & [Hg Hf Hin Hcount Hm Hk1 Hov' Hon _]).
    split; [|by rewrite Hm]. destruct Hrun. split; try done; [by rewrite Hon|by rewrite Hk1|by rewrite Hov'].
Qed.

(** Ten messages from an even count. *)
Lemma wp_back fuel n s :
  running n g s -> lb (packet1 (ms_mouse s)) = false -> 0 <= n -> n + 10 < INT_MAX -> n mod 2 = 0 ->
  wp (messages i1 i2 i3 fuel 10) (fun _ s' => running (n + 10) restored s') s.
Proof.
  intros Hrun Hlb Hn Hmax Heven. change 10%nat with (9 + 1)%nat. unfold wp. rewrite messages_add.
  fold (@wp (main_st W) unit). assert (drawn n 9 = 4%nat) as Ed by (unfold drawn; Z.div_mod_to_equations; lia).
  apply wp_bind. eapply wp_mono.
  { apply (frames_messages i1 i2 i3 fuel turning_back 5 9 0 n s); [| |lia|lia|rewrite Ed; lia].
    - intros. by apply back_message.
    - split; [|done]. by rewrite turning_at_0 by apply back_start. }
  rewrite Ed. intros [] s1 Hs1. cbn [messages]. apply wp_bind.
  eapply wp_mono; [apply (back_message fuel _ _ _ Hs1); lia|]. intros [] s2 [Hr2 _]. apply wp_skip.
  replace (n + Z.of_nat 9 + 1) with (n + 10) in Hr2 by lia.
  replace (Z.rem (n + 10) 2 =? 0) with true in Hr2.
  - change (S (0 + 4)) with 5%nat in Hr2. by rewrite back_end in Hr2.
  - symmetry. rewrite Z.rem_mod_nonneg by lia. apply Z.eqb_eq. Z.div_mod_to_equations. lia.
Qed.
End Back.

(** ** A move *)
Section Move.
Context {W : Type} `{PortIO W, Irq W, Lcf W, Display W, Libc W, Messages W}.
Variables (i1 i2 i3 : Z).
Hypothesis only_timer : forall w : W, exists m w1, driver_receive w = (m, w1) /\ timer_only m i1 i2 i3.
Variables (l : list card).
Hypothesis (Hl : dealt l).
Implicit Types s : main_st W.

Lemma same_face_sym c d : same_face c d = same_face d c.
Proof. apply eq_true_iff_eq. unfold same_face. rewrite !andb_true_iff, !bool_decide_eq_true. intuition congruence. Qed.

(** The game behind the two tries of a move, but for the card array and the player. *)
Definition pointed (t t' : pointing W) (g : game_st) : game_st := set_mouse (pt_cursor t') (set_mouse (pt_cursor t) g).

Definition two_tried (found : list nat) (p q : nat) (c d : card) (t t' : pointing W) (g : game_st) : game_st :=
  if same_face c d then set_cardArray (board l (p :: q :: found)) (pointed t t' g)
  else
    let n := u32 (lives (p1 g) - 1) in
    set_p1 (MkPlayer (name (p1 g)) n (if n =? 0 then false else isAlive (p1 g)) (bestTime (p1 g)))
      (set_cardArray (mistaken l found p q c d) (pointed t t' g)).

Lemma compared_two_tried found p q c d t t' g :
  l !! p = Some c -> l !! q = Some d -> p <> q -> cardArray g = board l found ->
  compared q p (set_isFlipped true d) c
    (set_mouse (pt_cursor t') (uncovered p (set_isFlipped true c) (set_mouse (pt_cursor t) g))) =
  two_tried found p q c d t t' g.
Proof.
  intros Hc Hd Hne Hg. destruct (dealt_card _ _ _ Hl Hc) as (Hfc & _). destruct (dealt_card _ _ _ Hl Hd) as (Hfd & _).
  unfold compared, two_tried, uncovered, pointed, mistaken.
  change (same_face (set_isFlipped true d) c) with (same_face d c). rewrite (same_face_sym d c).
  rewrite !uncover_dealt by done. cbn [cardArray set_cardArray set_mouse p1]. rewrite Hg, !list_insert_insert_eq.
  destruct (same_face c d); [|done]. by rewrite (board_found l found p q c d).
Qed.

Lemma wp_two_tries fuel n a p q c d (t t' : pointing W) s :
  shows l n a s -> p <> q -> p ∉ ab_found a -> q ∉ ab_found a -> l !! p = Some c -> l !! q = Some d ->
  over_place p t -> over_place q t' -> 0 <= n -> n + 86 < INT_MAX ->
  wp (try_at i1 i2 i3 fuel t)
    (fun _ s1 => wp (try_at i1 i2 i3 fuel t') (fun _ s' => exists n',
       n + 84 <= n' <= n + 86 /\ n' mod 2 = 0 /\
       ms_game s' = two_tried (ab_found a) p q c d t t' (ms_game s) /\
       if same_face c d || negb (u32 (ab_lives a - 1) =? 0)
       then after_tick n' (two_tried (ab_found a) p q c d t t' (ms_game s)) s'
       else lost n' (two_tried (ab_found a) p q c d t t' (ms_game s)) s') s1) s.
Proof.
  intros [Ht Hr Hg Hlv Hon _] Hne Hp Hq Hc Hd Ho Ho' Hn Hmax. set (g := ms_game s) in *.
  destruct (dealt_card _ _ _ Hl Hc) as (Hfc & Hsc & Huc & _). destruct (dealt_card _ _ _ Hl Hd) as (Hfd & Hsd & Hud & _).
  specialize (Hon (board_unfinished _ _ _ _ Hl Hc Hp)).
  pose proof (board_down _ _ _ _ Hl Hc Hp) as HBp. pose proof (board_down _ _ _ _ Hl Hd Hq) as HBq. rewrite <- Hg in HBp, HBq.
  assert (forall j e, cardArray g !! j = Some e -> open_card e = false) as Hopen
    by (intros j e; rewrite Hg; by apply board_none_open).
  set (g0 := set_mouse (pt_cursor t) g). pose proof (hold_table p t g Ho Ht) as Ht0. fold g0 in Ht0.
  assert (at_rest g0) as Hr0 by (by destruct Hr).
  pose proof Ho as (_ & Hp16 & Hov). destruct (place_split p Hp16) as (Ha & Hb & Ep).
  pose proof Ho' as (_ & Hq16 & Hov'). destruct (place_split q Hq16) as (Ha' & Hb' & Eq).
  apply (wp_try_at i1 i2 i3 fuel p t n g s); [done|done|]. intros s0 Hpl0.
  pose proof (try_alone i1 i2 i3 only_timer g0 (Z.of_nat p mod 4) (Z.of_nat p / 4) (set_isFlipped true c) Ht0 Hr0 Ha Hb Hov) as Htry.
  rewrite Ep in Htry. eapply wp_mono; [apply Htry; try done; lia|].
  intros [] s1 Hpl1. set (g1 := uncovered p (set_isFlipped true c) g0) in *. set (n1 := n + try_takes n) in *.
  assert (n1 mod 2 = 0 /\ n + 42 <= n1 <= n + 43) as [Hev1 Hn1].
  { unfold n1, try_takes. pose proof (Z.mod_pos_bound n 2 eq_refl). split; [Z.div_mod_to_equations; lia|lia]. }
  assert (table g1) as Ht1.
  { destruct Ht0 as [? ? ? ? ? [Hlen Hdr]]. split; try done. split; simpl; [by rewrite length_insert|].
    apply Forall_insert; [done|]. exact (proj1 (Forall_lookup _ _) Hdr _ _ HBp). }
  apply (wp_try_at i1 i2 i3 fuel q t' n1 g1 s1); [done|by apply playing_running|]. intros s2 Hpl2.
  pose proof (try_compare i1 i2 i3 only_timer (set_mouse (pt_cursor t') g1) (Z.of_nat q mod 4) (Z.of_nat q / 4)
    (set_isFlipped true d) (hold_table q t' g1 Ho' Ht1)) as Htry2. rewrite Eq in Htry2.
  eapply wp_mono; [apply (Htry2 ltac:(destruct Hr; split; try done; simpl; by apply Forall_insert) Ha' Hb' Hov')
    with (q := p) (d := c)|]; try done.
  - simpl. by rewrite list_lookup_insert_ne.
  - lia.
  - lia.
  - simpl. rewrite list_lookup_insert_eq by (by eapply lookup_lt_Some). by rewrite uncover_dealt.
  - unfold open_card. by rewrite Hfc, Huc.
  - intros j e Hj He. simpl in He. rewrite list_lookup_insert_ne in He by done. by apply (Hopen j).
  - intros [] s3 [Hg3 Ho3]. exists (n1 + try_takes n1).
    unfold g1, g0 in Hg3, Ho3. rewrite (compared_two_tried (ab_found a) p q c d t t' g) in Hg3, Ho3 by done.
    change (same_face (set_isFlipped true d) c) with (same_face d c) in Ho3. rewrite (same_face_sym d c) in Ho3.
    change (p1 (set_mouse _ _)) with (p1 g) in Ho3. rewrite Hlv in Ho3.
    unfold try_takes. rewrite Hev1. split_and!; [lia|lia|Z.div_mod_to_equations; lia|exact Hg3|].
    unfold try_takes in Ho3. rewrite Hev1 in Ho3. exact Ho3.
Qed.

(** What the abstract move and the game after the tries have in common. *)
Lemma two_tried_fields found p q c d t t' g :
  let g' := two_tried found p q c d t t' g in
  imgs g' = imgs g /\ mouse g' = pt_cursor t' /\ increaseWidth g' = increaseWidth g /\ otherSide g' = otherSide g.
Proof. unfold two_tried. by destruct (same_face c d). Qed.

Lemma two_tried_table found p q c d (t t' : pointing W) g :
  l !! p = Some c -> l !! q = Some d -> table g -> 0 < lives (p1 g) -> over_place q t' ->
  table (two_tried found p q c d t t' g).
Proof.
  intros Hc Hd Ht Hlv Ho. pose proof (hold_table q t' g Ho Ht) as [Hs Hx Hy Hcur _ _].
  destruct Ht as [_ _ _ _ Hlv' _]. unfold two_tried. destruct (same_face c d).
  - split; try done. by apply board_drawable.
  - split; try done; [cbn; rewrite u32_small by lia; lia|]. by apply mistaken_drawable.
Qed.

(** A move in which a pair is found. *)
Lemma found_shows n a p q c d (t t' : pointing W) g s :
  l !! p = Some c -> l !! q = Some d -> same_face c d = true -> over_place q t' -> 0 < lives (p1 g) ->
  table g -> at_rest g -> lives (p1 g) = ab_lives a ->
  ms_game s = two_tried (ab_found a) p q c d t t' g ->
  after_tick n (two_tried (ab_found a) p q c d t t' g) s ->
  shows l n (Abstract (p :: q :: ab_found a) (ab_lives a)) s /\
  existsb isFlipping (cardArray (ms_game s)) = false.
Proof.
  intros Hc Hd Hsame Ho Hpos Ht [Hst Hw Hos] Hlv Hg Haft.
  pose proof (two_tried_table (ab_found a) p q c d t t' g Hc Hd Ht Hpos Ho) as Ht'. rewrite <- Hg in Haft, Ht'.
  destruct (two_tried_fields (ab_found a) p q c d t t' g) as (_ & _ & Hw' & Hos'). rewrite <- Hg in Hw', Hos'.
  assert (cardArray (ms_game s) = board l (p :: q :: ab_found a)) as Ecards
    by (rewrite Hg; unfold two_tried; by rewrite Hsame).
  unfold after_tick in Haft. rewrite Ecards in Haft. split.
  - split; try done.
    + split; [rewrite Ecards; by apply board_still|congruence..].
    + rewrite Hg. unfold two_tried. by rewrite Hsame.
    + intros Hu. by apply playing_running, Haft.
    + intros Ha. apply Haft in Ha. destruct (_ =? 0); [done|by apply playing_running].
  - rewrite Ecards. apply not_true_is_false. intros (e & Hin & He)%existsb_exists.
    pose proof (proj1 (List.Forall_forall _ _) (board_still l (p :: q :: ab_found a) Hl) e Hin). simpl in *. congruence.
Qed.

(** A mistake that costs the last life. *)
Lemma mistake_lost n a p q c d (t t' : pointing W) g s :
  l !! p = Some c -> l !! q = Some d -> p <> q -> p ∉ ab_found a -> q ∉ ab_found a -> same_face c d = false ->
  over_place q t' -> 0 < lives (p1 g) -> table g -> at_rest g ->
  u32 (lives (p1 g) - 1) = 0 -> ms_game s = two_tried (ab_found a) p q c d t t' g ->
  lost n (two_tried (ab_found a) p q c d t t' g) s ->
  shows_loss l n (Abstract (ab_found a) (ab_lives a - 1)) s.
Proof.
  intros Hc Hd Hne Hp Hq Hdiff Ho Hpos Ht Hr Hz Hg Hlost. rewrite <- Hg in Hlost.
  pose proof (two_tried_table (ab_found a) p q c d t t' g Hc Hd Ht Hpos Ho) as Ht'. rewrite <- Hg in Ht'.
  destruct (two_tried_fields (ab_found a) p q c d t t' g) as (_ & _ & Hw' & Hos'). rewrite <- Hg in Hw', Hos'.
  destruct Hr as [_ Hw Hos]. split; [done|done|congruence|congruence| | |]; clear Ht' Hw' Hos'; rewrite Hg; unfold two_tried; rewrite Hdiff; cbn [p1 set_p1 lives isAlive cardArray set_cardArray ab_found].
  - destruct (dealt_card _ _ _ Hl Hc) as (_ & _ & Huc & _). destruct (dealt_card _ _ _ Hl Hd) as (_ & _ & Hud & _).
    unfold mistaken. apply list_eq. intros j. rewrite !list_lookup_fmap.
    destruct (decide (j = q)) as [->|Hjq]; [|destruct (decide (j = p)) as [->|Hjp]].
    + rewrite list_lookup_insert_eq, (board_down l (ab_found a) q d) by
        (rewrite ?length_insert, ?board_length; done || by eapply lookup_lt_Some). done.
    + rewrite list_lookup_insert_ne, list_lookup_insert_eq, (board_down l (ab_found a) p c) by
        (rewrite ?board_length; done || by eapply lookup_lt_Some). done.
    + by rewrite !list_lookup_insert_ne by done.
  - done.
  - by rewrite Hz.
Qed.

(** A mistake in a game that goes on: the cards turn back. *)
Lemma wp_mistake fuel n a p q c d (t t' : pointing W) g s :
  l !! p = Some c -> l !! q = Some d -> p <> q -> p ∉ ab_found a -> q ∉ ab_found a -> same_face c d = false ->
  over_place q t' -> 1 < lives (p1 g) -> table g -> at_rest g -> lives (p1 g) = ab_lives a ->
  0 <= n -> n + 10 < INT_MAX -> n mod 2 = 0 ->
  playing n (two_tried (ab_found a) p q c d t t' g) s ->
  wp (upd_mouse clear_lb ;; messages i1 i2 i3 fuel 10)
    (fun _ s' => shows l (n + 10) (Abstract (ab_found a) (ab_lives a - 1)) s') s.
Proof.
  intros Hc Hd Hne Hp Hq Hdiff Ho Hpos Ht Hr Hlv Hn Hmax Hev Hpl.
  pose proof (two_tried_table (ab_found a) p q c d t t' g Hc Hd Ht ltac:(lia) Ho) as Ht'.
  destruct (two_tried_fields (ab_found a) p q c d t t' g) as (_ & _ & Hw' & Hos').
  assert (0 <= lives (p1 g) <= 22) as Hlv22 by apply Ht.
  assert (cardArray (two_tried (ab_found a) p q c d t t' g) = mistaken l (ab_found a) p q c d /\
    lives (p1 (two_tried (ab_found a) p q c d t t' g)) = ab_lives a - 1) as [Ecards Elives].
  { unfold two_tried. rewrite Hdiff. split; [done|]. cbn. rewrite u32_small; lia. }
  set (g' := two_tried (ab_found a) p q c d t t' g) in *.
  destruct Hr as [_ Hw Hos]. rewrite <- Hw' in Hw. rewrite <- Hos' in Hos.
  apply wp_bind, wp_modify. eapply wp_mono.
  { apply (wp_back i1 i2 i3 only_timer l (ab_found a) p q c d Hl Hc Hd Hne Hp Hq Hdiff g' Ecards Ht' Hw Hos fuel n);
      [by destruct Hpl|done|lia|lia|done]. }
  intros [] s' Hrun. pose proof (rn_game _ _ _ Hrun) as Hg. destruct Ht' as [? ? ? ? Hlv' _].
  split; rewrite ?Hg; try done.
  - split; try done. by apply board_drawable.
  - split; try done. by apply board_still.
  - intros Ha. exfalso. destruct (board_unfinished l (ab_found a) p c Hl Hc Hp) as (j & e & He & Hf).
    pose proof (proj1 (Forall_lookup _ _) Ha _ _ He). simpl in *. congruence.
Qed.

(** A move of the program carries out the move of the machine. *)
Lemma wp_move fuel n a p q (t t' : pointing W) s :
  shows l n a s -> 0 < ab_lives a -> p <> q -> p ∉ ab_found a -> q ∉ ab_found a ->
  over_place p t -> over_place q t' -> 0 <= n -> n + 96 < INT_MAX ->
  wp (move i1 i2 i3 fuel t t') (fun _ s' => exists n', n + 84 <= n' <= n + 96 /\
    if ab_lives (abs_move l p q a) =? 0 then shows_loss l n' (abs_move l p q a) s'
    else shows l n' (abs_move l p q a) s') s.
Proof.
  intros Hs Hpos Hne Hp Hq Ho Ho' Hn Hmax. pose proof Hs as [Ht Hr Hg Hlv _ _].
  destruct (lookup_lt_is_Some_2 l p) as [c Hc]; [destruct Hl as [-> _]; apply Ho|].
  destruct (lookup_lt_is_Some_2 l q) as [d Hd]; [destruct Hl as [-> _]; apply Ho'|].
  assert (abs_move l p q a = if same_face c d then Abstract (p :: q :: ab_found a) (ab_lives a)
    else Abstract (ab_found a) (ab_lives a - 1)) as ->.
  { unfold abs_move, agree. by rewrite Hc, Hd. }
  assert (0 <= lives (p1 (ms_game s)) <= 22) as Hlv22 by apply Ht. rewrite Hlv in Hlv22.
  unfold move. apply wp_bind. eapply wp_mono; [by apply (wp_two_tries fuel n a p q c d t t' s); try done; lia|].
  intros [] s1 Hs1. apply wp_bind. eapply wp_mono; [exact Hs1|]. clear s1 Hs1. intros [] s1 (n' & Hn' & Hev & Hg1 & Ho1).
  apply wp_bind, wp_get. destruct (same_face c d) eqn:Esame; cbn [orb] in Ho1.
  - destruct (found_shows n' a p q c d t t' (ms_game s) s1) as [Hsh Hst]; try done; [lia|].
    rewrite Hst, andb_false_r. apply wp_skip. exists n'. split; [lia|]. cbn [ab_lives].
    by replace (ab_lives a =? 0) with false by lia.
  - rewrite u32_small in Ho1 by lia. cbn [ab_lives]. destruct (Z.eqb_spec (ab_lives a - 1) 0) as [Ez|Ez]; cbn [negb] in Ho1.
    + rewrite bool_decide_false by (destruct Ho1; congruence). apply wp_skip. exists n'. split; [lia|].
      eapply (mistake_lost n' a p q c d t t' (ms_game s)); try done; [lia|]. rewrite Hlv. by rewrite Ez.
    + assert (playing n' (two_tried (ab_found a) p q c d t t' (ms_game s)) s1) as Hpl.
      { apply Ho1. unfold two_tried. rewrite Esame. exists p, (set_isFlipping true c).
        split; [by apply mistaken_p|]. by destruct (dealt_card _ _ _ Hl Hc) as (_ & _ & ? & _). }
      rewrite bool_decide_true by apply Hpl. replace (existsb isFlipping (cardArray (ms_game s1))) with true.
      2: { symmetry. apply flippers_exist. rewrite Hg1. unfold two_tried. rewrite Esame. simpl.
           by rewrite mistaken_flippers. }
      cbn [andb]. eapply wp_mono; [apply (wp_mistake fuel n' a p q c d t t' (ms_game s) s1); try done; lia|].
      intros [] s2 Hs2. exists (n' + 10). split; [lia|done].
Qed.

(** (C2) The program plays the memory game: it refines the machine [plays]. From a
    state that represents a state of the machine ([shows]), each move of the
    machine is carried out by the program in 84 to 96 ticks of the timer, for any
    places of the cursor on the two cards: afterwards the state represents the
    machine's next state (a pair is found and stays face up, or the two cards lie
    face down again and a life is gone, and nothing else has changed), or, when the
    machine has no life left, the game is lost. No other outcome is possible, and
    no move gets stuck. *)
Theorem program_refines_memory_game (fuel : nat) (a a' : abstract) (ms : list (nat * nat))
    (ts : list (pointing W * pointing W)) (n : Z) s :
  plays l a ms a' -> shows l n a s -> 0 < ab_lives a ->
  Forall2 (fun pq t => over_place pq.1 t.1 /\ over_place pq.2 t.2) ms ts ->
  0 <= n -> n + 96 * Z.of_nat (length ms) < INT_MAX ->
  exists s' n', moves i1 i2 i3 fuel ts s = Done tt s' /\
    n + 84 * Z.of_nat (length ms) <= n' <= n + 96 * Z.of_nat (length ms) /\
    if ab_lives a' =? 0 then shows_loss l n' a' s' else shows l n' a' s'.
Proof.
  intros Hms Hs Hpos Hts Hn Hmax.
  enough (wp (moves i1 i2 i3 fuel ts) (fun _ s' => exists n',
    n + 84 * Z.of_nat (length ms) <= n' <= n + 96 * Z.of_nat (length ms) /\
    if ab_lives a' =? 0 then shows_loss l n' a' s' else shows l n' a' s') s) as Hw.
  { apply wp_unit in Hw as (s' & E & n' & Hw). by exists s', n'. }
  revert ts n s Hs Hpos Hts Hn Hmax. induction Hms as [a|a p q ms a' Hlv Hne Hp Hq Hms IH];
    intros ts n s Hs Hpos Hts Hn Hmax.
  - inversion Hts; subst. apply wp_skip. exists n. split; [simpl; lia|]. by replace (ab_lives a =? 0) with false by lia.
  - inversion Hts as [|? [t t'] ? ts' [Ho Ho'] Hts']; subst. cbn [length] in *. cbn [moves].
    apply wp_bind. eapply wp_mono; [by apply (wp_move fuel n a p q t t' s); try done; lia|].
    intros [] s1 (n1 & Hn1 & Hs1). destruct (Z.eqb_spec (ab_lives (abs_move l p q a)) 0) as [Ez|Ez].
    + inversion Hms; subst; [|lia]. inversion Hts'; subst. apply wp_skip. exists n1. split; [simpl; lia|].
      by rewrite Ez.
    + assert (0 < ab_lives (abs_move l p q a)) by (unfold abs_move in *; destruct (agree l p q); simpl in *; lia).
      eapply wp_mono; [apply (IH ts' n1 s1); try done; lia|]. intros [] s2 (n2 & Hn2 & Hs2). exists n2. split; [lia|done].
Qed.
End Move.

(** ** A concrete game

    On the board of [easy_cards] a mistake and then a pair. *)
Definition easy_point (p : Z) : pointing quiet :=
  Pointing quiet try_mouse (MkMouse (210 + 99 * (p mod 4)) (80 + 113 * (p / 4))) Quiet.
Definition rules_state : main_st quiet :=
  MainSt (TimerSt 240 0) kbd_init_st mouse_init_st Rtc.rtc_init_st (hidden easy_game) test_video
    (set_gs Game (set_initGame false loop_init_st)) Quiet.

Lemma easy_dealt : dealt easy_cards.
Proof. split; [reflexivity|]. apply (bool_decide_unpack _). vm_compute. exact I. Qed.

Lemma easy_point_over p : (p < 16)%nat -> over_place p (easy_point (Z.of_nat p)).
Proof.
  intros Hp. split; [reflexivity|]. split; [done|]. unfold over_card. simpl.
  pose proof (Z.mod_pos_bound (Z.of_nat p) 4). split; lia.
Qed.

Lemma rules_state_shows : shows easy_cards 240 (Abstract [] 5) rules_state.
Proof.
  destruct easy_game_ready as (Ht & Hf & _). destruct (hidden_ready easy_game Ht Hf) as [Ht' Hr'].
  split; [exact Ht'|exact Hr'|reflexivity|reflexivity| |].
  - intros _. split; try reflexivity; [apply test_video_ok|done].
  - intros Ha. inversion Ha as [|? ? Hc]. discriminate Hc.
Qed.

Lemma program_refines_memory_game_witness :
  exists s' n', moves 2 1 4 1 [(easy_point 0, easy_point 2); (easy_point 0, easy_point 1)] rules_state = Done tt s' /\
    408 <= n' <= 432 /\ shows easy_cards n' (Abstract [0%nat; 1%nat] 4) s'.
Proof.
  destruct (program_refines_memory_game (W := quiet) 2 1 4
    ltac:(intros []; do 2 eexists; split; [reflexivity|by split_and!]) easy_cards easy_dealt 1
    (Abstract [] 5) (Abstract [0%nat; 1%nat] 4) [(0, 2)%nat; (0, 1)%nat]
    [(easy_point 0, easy_point 2); (easy_point 0, easy_point 1)] 240 rules_state) as (s' & n' & E & Hn & Hs).
  - apply plays_cons; [simpl; lia|lia|apply not_elem_of_nil..|].
    change (abs_move easy_cards 0 2 (Abstract [] 5)) with (Abstract [] 4).
    apply plays_cons; [simpl; lia|lia|apply not_elem_of_nil..|]. apply plays_nil.
  - exact rules_state_shows.
  - simpl. lia.
  - repeat constructor; apply (easy_point_over 0) || apply (easy_point_over 1) || apply (easy_point_over 2); lia.
  - lia.
  - simpl. unfold INT_MAX. lia.
  - exists s', n'. split_and!; [exact E|simpl in Hn; lia|simpl in Hn; lia|exact Hs].
Defined.
