(* ===== verification/Ending.v ===== *)
(** The end of a game: the screens of the victory and of the defeat, and the new
    game that is dealt behind them. With [Opening] and [Rules] this closes the
    circle from one menu to the next. *)
From S2P Require Import Prelude Env Timer Keyboard Mouse Video Cards Game Flip MainLoop Pointer Play Win Opening.

(** ** Specification *)

(** The screen at the end of a game, at the count [c] of ticks. *)
Record ended {W} (c : Z) (g : game_st) (s : main_st W) : Prop := Ended {
  en_game : ms_game s = g;
  en_frame : frame_ok (ms_video s);
  en_gs : gs (ms_loop s) = Exit;
  en_over : game_over (ms_loop s) || victory (ms_loop s) = true;
  en_count : tmr_tck_counter (ms_timer s) = c
}.

(** A game is dealt: the board has pairs, the player all lives. *)
Definition new_deal (g g' : game_st) : Prop :=
  board_ok (cardArray g') /\ p1 g' = initializePlayer /\ mouse g' = mouse g /\ table g' /\ fresh g'.

(** * Lemmas *)

(** The pairs of a dealt board. *)
Lemma board_ok_dealt l : board_ok l ->
  cards_drawable l /\ Forall (fun c => isFlipped c = false /\ isFlipping c = false /\ flipSuccess c = false) l.
Proof.
  intros (Hl & Hc & _). split; [split; [done|]|]; apply Forall_forall; intros c Hin;
    by destruct (Hc c Hin) as (? & ? & ? & ? & ?).
Qed.

Lemma new_deal_ready g l :
  table g -> increaseWidth g = 1 -> otherSide g = replicate 16 0 -> board_ok l ->
  new_deal g (set_p1 initializePlayer (set_cardArray l g)).
Proof.
  intros [] Hw Ho Hl. destruct (board_ok_dealt l Hl) as [Hd Hf]. split_and!; try done.
Qed.

Section Ending.
Context {W : Type} `{PortIO W, Irq W, Lcf W, Display W, Libc W, Messages W} `{!XpmLaws W, !XpmLoads W, !RandLaws W}.
Variables (i1 i2 i3 : Z).
Hypothesis only_timer : forall w : W, exists m w1, driver_receive w = (m, w1) /\ timer_only m i1 i2 i3.
Variable (draw_count : nat).
(** Among so many pairs of random numbers there are always eight different cards. *)
Hypothesis enough_draws : forall w : W, (8 <= length (distinct (draws (S draw_count) w)))%nat.
Implicit Types s : main_st W.

Lemma won_ended c g s : won c g s -> ended c g s.
Proof. intros []. split; try done. by rewrite wn_victory, orb_true_r. Qed.

Lemma lost_ended c g s : lost c g s -> ended c g s.
Proof. intros []. split; try done. by rewrite ls_over. Qed.

(** The cards of the new game and the player. *)
Lemma wp_new_game (Q : unit -> main_st W -> Prop) s :
  length (cardArray (ms_game s)) = 16%nat ->
  (forall l w, board_ok l -> Q tt (MainSt (ms_timer s) (ms_kbd s) (ms_mouse s) (ms_rtc s)
     (set_p1 initializePlayer (set_cardArray l (ms_game s))) (ms_video s)
     (set_initGame true (set_victory false (set_game_over false (set_gs Menu (ms_loop s))))) w)) ->
  wp (new_game (S draw_count)) Q s.
Proof.
  intros Hl HQ. unfold new_game. do 4 apply wp_bind, wp_modify. apply wp_bind, wp_gets, wp_bind, wp_zoom.
  cbn [lget lset l_world ms_world ms_game]. apply wp_deal_board; [done|apply enough_draws|].
  intros l w Hb _. apply wp_bind, wp_modify, wp_modify. by apply HQ.
Qed.

(** What a tick of the end leaves in front of the cursor: [s0] is the state at its
    start, at the count [c]. *)
Definition end_tick (c : Z) (g : game_st) (s0 s' : main_st W) : Prop :=
  frame_ok (ms_video s') /\
  if c mod 240 =? 0 then new_deal g (ms_game s') /\ gs (ms_loop s') = Menu /\
    initGame (ms_loop s') = true /\ game_over (ms_loop s') = false /\ tmr_tck_counter (ms_timer s') = c
  else exists v w, s' = with_picture v w s0.

Lemma wp_again c g s0 v w :
  ms_game s0 = g -> tmr_tck_counter (ms_timer s0) = c -> 0 <= c -> frame_ok v ->
  table g -> increaseWidth g = 1 -> otherSide g = replicate 16 0 ->
  wp (if every 240 s0 then new_game (S draw_count) else skip) (fun _ s' => end_tick c g s0 s') (with_picture v w s0).
Proof.
  intros <- Hc Hpos Hv Ht Hw Ho. unfold end_tick, every. rewrite Hc, Z.rem_mod_nonneg by lia.
  destruct (c mod 240 =? 0); [|apply wp_skip; eauto].
  apply wp_new_game; [by apply drawable_length, tb_cards|]. intros l w2 Hl. split; [done|]. split; [by apply new_deal_ready|done].
Qed.

(** A tick of the end: the screen is shown, and at a count that is a multiple of
    240 a new game is dealt. *)
Lemma wp_ended_tick c g s :
  ended c g s -> table g -> increaseWidth g = 1 -> otherSide g = replicate 16 0 -> 0 <= c < INT_MAX - 1 ->
  wp (handle_message (S draw_count) i1 i2 i3) (fun _ s' =>
    if (c + 1) mod 240 =? 0 then new_deal g (ms_game s') /\ in_menu (ms_game s') s' else ended (c + 1) g s') s.
Proof.
  intros [<- Hf Hgs Hov Hc] Ht Hw Ho Hmax. pose proof Ht as [Hsp Hx Hy Hcur _ _].
  assert (0 <= c < INT_MAX) as Hmax2 by lia.
  apply (wp_tick_message i1 i2 i3 only_timer); [unfold tick_ready; rewrite Hc; auto 10|].
  intros w1. unfold timer_tick. apply wp_bind, wp_gets, wp_bind. cbn [at_tick ms_loop]. rewrite Hgs.
  unfold tick_exit. apply wp_bind, wp_draw_green; [exact Hf|]. intros v1 Hs1. pose proof (frame_same _ _ Hs1 Hf) as Hf1.
  apply wp_bind, wp_gets, wp_bind, wp_gets. cbn [with_picture at_tick ms_loop].
  change (every 240 _) with (every 240 (at_tick w1 s)).
  assert (forall v (w : W), frame_ok v -> only_draws draw_victory (ms_game s) v w /\
    only_draws draw_game_over (ms_game s) v w) as Hfit.
  { intros v w Hv. destruct (screens_fit_all (ms_game s) v w Hv Hsp) as (_ & _ & _ & Hvict & Hover & _). by split. }
  apply wp_bind. eapply wp_mono with (Q := fun _ s' => end_tick (c + 1) (ms_game s) (at_tick w1 s) s').
  - destruct (game_over (ms_loop s)) eqn:Eg; [|destruct (victory (ms_loop s)); [|done]];
      (apply wp_bind, wp_in_game_draws; [apply (Hfit v1), Hf1|]); intros _ v2 w2 Hs2;
      (apply (wp_again _ _ (at_tick w1 s)); [done|cbn; by rewrite Hc|lia|by eapply frame_same|done..]).
  - intros [] s2 [Hf2 Hs2]. apply wp_draw_update; [exact Hf2|]. intros v3 (b & m & _ & Hv3). specialize (Hv3 Hf2).
    destruct ((c + 1) mod 240 =? 0).
    + destruct Hs2 as (Hd & Hg2 & Hi2 & Ho2 & Hc2). apply wp_tick_done; [apply Hd|exact Hv3|].
      intros v4 w4 Hf4. split; [exact Hd|]. split; try done. cbn. rewrite Hc2. lia.
    + destruct Hs2 as (v2 & w2 & ->). apply wp_tick_done; [exact Ht|exact Hv3|].
      intros v4 w4 Hf4. split; try done. cbn. by rewrite Hc.
Qed.

(** The screen stays until the next count that is a multiple of 240. *)
Lemma wp_ended m c g s :
  ended c g s -> table g -> increaseWidth g = 1 -> otherSide g = replicate 16 0 ->
  0 <= c -> c + 240 < INT_MAX -> Z.of_nat m = 240 - c mod 240 ->
  wp (messages i1 i2 i3 (S draw_count) m) (fun _ s' => new_deal g (ms_game s') /\ in_menu (ms_game s') s') s.
Proof.
  intros He Ht Hw Ho Hc Hmax Hm. pose proof (Z.mod_pos_bound c 240 eq_refl) as Hb.
  assert (c + Z.of_nat m < INT_MAX) as Hmax' by lia. clear Hmax.
  revert c s He Hc Hm Hb Hmax'. induction m as [|m IH]; intros c s He Hc Hm Hb Hmax'; [lia|]. cbn [messages].
  apply wp_bind. eapply wp_mono; [apply (wp_ended_tick c g s); try done; lia|]. intros [] s1 Hs1. cbv beta in Hs1.
  destruct (Z.eqb_spec ((c + 1) mod 240) 0) as [E|E].
  - assert (m = 0%nat) as -> by (Z.div_mod_to_equations; lia). by apply wp_skip.
  - assert (Z.of_nat m = 240 - (c + 1) mod 240) as Hm' by (Z.div_mod_to_equations; lia).
    apply (IH (c + 1) s1 Hs1); [lia|done|by apply Z.mod_pos_bound|lia].
Qed.

(** (C10) Behind the end of a game, won or lost, comes the next one: after as many ticks
    as the count lacks to a multiple of 240 (one to 240 of them; the report in proj/doc
    says two seconds) the
    program is in the menu with a newly dealt board of eight pairs, face up, with
    the five lives of [initializePlayer] (the report says three), the animation at
    its start and the cursor where it was; this is where a whole game can start again. *)
Theorem end_deals_again (c : Z) (g : game_st) s :
  won c g s \/ lost c g s -> table g -> increaseWidth g = 1 -> otherSide g = replicate 16 0 ->
  0 <= c -> c + 240 < INT_MAX ->
  exists s', messages i1 i2 i3 (S draw_count) (Z.to_nat (240 - c mod 240)) s = Done tt s' /\
    new_deal g (ms_game s') /\ in_menu (ms_game s') s'.
Proof.
  intros He Ht Hw Ho Hc Hmax. apply wp_unit. pose proof (Z.mod_pos_bound c 240 eq_refl).
  apply (wp_ended _ c g s); try done; [|lia]. destruct He; [by apply won_ended|by apply lost_ended].
Qed.
End Ending.

(** ** A world with random numbers

    The environment [quiet], with the numbers 0, 1, ..., 51 over and over. *)
Inductive counting : Type := Counting (n : nat).

#[export] Instance counting_io : PortIO counting := {|
  sys_inb _ w := ((0, 0), w);
  sys_outb _ _ w := (0, w);
  tickdelay_us _ w := w
|}.

#[export] Instance counting_irq : Irq counting := {|
  sys_irqsetpolicy _ _ hook w := ((0, hook), w);
  sys_irqrmpolicy hook w := ((0, hook), w)
|}.

#[export] Instance counting_lcf : Lcf counting := {|
  kbd_print_scancode _ _ _ w := (0, w);
  kbd_print_no_sysinb _ w := (0, w);
  timer_print_config _ _ _ w := (0, w);
  timer_print_elapsed_time w := (0, w);
  mouse_print_packet _ w := w;
  mouse_enable_data_reporting w := (0, w);
  minix_get_dflt_kbc_cmd_byte w := (0x47, w)
|}.

#[export] Instance counting_display : Display counting := {|
  vbe_get_mode_info _ w := ((0, mode_0x115), w);
  sys_privctl_add_mem _ _ w := (0, w);
  malloc _ w := (true, w);
  free w := w;
  vm_map_phys _ _ w := (true, w);
  sys_int86 _ _ _ w := (0, w);
  vg_exit w := (0, w);
  xpm_load m t w :=
    (Image (columns m) (rows m) (columns m * rows m * pixel_size t) (Some (fun _ => 0)), w)
|}.

#[export] Instance counting_libc : Libc counting := {|
  srand_time w := w;
  rand w := let 'Counting n := w in (Z.of_nat (n mod 52), Counting (S (n mod 52)));
  sleep _ w := w
|}.

#[export] Instance counting_messages : Messages counting := {|
  driver_receive w := (Receive 0 true true 1, w)
|}.

#[export] Instance counting_xpm_laws : XpmLaws counting.
Proof. by split. Qed.

#[export] Instance counting_xpm_loads : XpmLoads counting.
Proof. split. intros. by eexists. Qed.

#[export] Instance counting_rand_laws : RandLaws counting.
Proof. split. intros [n]. simpl. pose proof (Nat.mod_upper_bound n 52). unfold RAND_MAX. lia. Qed.

Lemma counting_draws (w : counting) : (8 <= length (distinct (draws 8 w)))%nat.
Proof.
  destruct w as [n].
  assert (draws 8 (Counting n) = draws 8 (Counting (n mod 52))) as ->.
  { cbn [draws rand counting_libc]. by rewrite (Nat.Div0.mod_mod n 52). }
  assert (forallb (fun k => (8 <=? length (distinct (draws 8 (Counting k))))%nat) (seq 0 52) = true) as Hall
    by (vm_compute; reflexivity).
  rewrite forallb_forall in Hall. apply Nat.leb_le, Hall, in_seq. pose proof (Nat.mod_upper_bound n 52). lia.
Qed.

(** A game that was lost at the tick 700. *)
Definition lost_state : main_st counting :=
  MainSt (TimerSt 700 0) kbd_init_st mouse_init_st Rtc.rtc_init_st (hidden easy_game) test_video
    (set_gs Exit (set_game_over true (set_initGame false loop_init_st))) (Counting 5).

Lemma end_deals_again_witness :
  exists s', messages 2 1 4 8 20 lost_state = Done tt s' /\
    board_ok (cardArray (ms_game s')) /\ lives (p1 (ms_game s')) = 5 /\ gs (ms_loop s') = Menu.
Proof.
  destruct easy_game_ready as (Ht & Hf & _). destruct (hidden_ready easy_game Ht Hf) as [Ht' Hr'].
  destruct (end_deals_again (W := counting) 2 1 4
    ltac:(intros []; do 2 eexists; split; [reflexivity|by split_and!]) 7 counting_draws 700 (hidden easy_game) lost_state)
    as (s' & E & (Hb & Hp & _) & Hme).
  - right. split; [reflexivity|apply test_video_ok|reflexivity|reflexivity|reflexivity].
  - exact Ht'.
  - reflexivity.
  - reflexivity.
  - lia.
  - unfold INT_MAX. lia.
  - exists s'. split_and!; [exact E|exact Hb|by rewrite Hp|apply Hme].
Defined.
