(* ===== verification/Lab2.v ===== *)
(** lab2: reading and programming the timer, and counting its interrupts. The
    driver (lab2/timer.c, lab2/utils.c) is the one the game still uses, with the
    global [hook_id2] called [hook_id]; its functions are those of [Timer] and
    [Utils], and only [timer_subscribe_int] differs. *)
From S2P Require Import Prelude Env Utils Timer Interrupts.

(** lab2/utils.c:5-14 [util_get_LSB] *)
Definition util_get_LSB (val : Z) (lsb : option Z) : Z * option Z := Utils.util_get_LSB val lsb.
(** lab2/utils.c:16-28 [util_get_MSB] *)
Definition util_get_MSB (val : Z) (msb : option Z) : Z * option Z := Utils.util_get_MSB val msb.

Section Lab2.
Context {W : Type} `{PortIO W, Irq W, Lcf W, Display W, Messages W}.

(** lab2/utils.c:30-44 [util_sys_inb] *)
Definition util_sys_inb (port : Z) : M W (option Z) := Utils.util_sys_inb port.

(** lab2/timer.c:87-118 [timer_get_conf] *)
Definition timer_get_conf (timer : Z) : M W (option Z) := Timer.timer_get_conf timer.

(** lab2/timer.c:13-61 [timer_set_frequency] *)
Definition timer_set_frequency (timer freq : Z) : M W Z := Timer.timer_set_frequency timer freq.

(** lab2/timer.c:63-72 [timer_subscribe_int]: the status and the value stored in [*bit_no],
    which is the hook id before it is set. *)
Definition timer_subscribe_int : M (timer_st * W) (Z * Z) :=
  let* hook := gets (fun s => hook_id2 s.1) in
  let bit_no := u8 hook in
  modify (fun s => (TimerSt (tmr_tck_counter s.1) TIMER0_IRQ, s.2)) ;;
  let* hook := gets (fun s => hook_id2 s.1) in
  let* ' (r, hook') := zoom snd_lens (call (sys_irqsetpolicy TIMER0_IRQ IRQ_REENABLE hook)) in
  modify (fun s => (TimerSt (tmr_tck_counter s.1) hook', s.2)) ;;
  if negb (r =? 0) then ret (1, bit_no) else ret (0, bit_no).

(** lab2/timer.c:74-80 [timer_unsubscribe_int] *)
Definition timer_unsubscribe_int : M (timer_st * W) Z := Timer.timer_unsubscribe_int.

(** lab2/timer.c:82-85 [timer_int_handler] *)
Definition timer_int_handler : M (timer_st * W) unit := Timer.timer_int_handler.

(** lab2/timer.c:120-166 [timer_display_conf] *)
Definition timer_display_conf (timer st : Z) (field : timer_status_field) : M W Z :=
  Timer.timer_display_conf timer st field.

(** lab2/lab2.c:35-46 [timer_test_read_config]: the byte for the status is allocated and its
    address not tested; it is freed only on the way that returns 0. *)
Definition timer_test_read_config (timer : Z) (field : timer_status_field) : M W Z :=
  let* allocated := call (malloc 1) in
  let* conf := timer_get_conf timer in
  match conf with
  | None => ret 1
  | Some st =>
      if negb allocated then undef else
      let* r := timer_display_conf timer st field in
      if negb (r =? 0) then ret 1 else
      modify free ;;
      ret 0
  end.

(** lab2/lab2.c:48-54 [timer_test_time_base] *)
Definition timer_test_time_base (timer freq : Z) : M W Z :=
  let* r := timer_set_frequency timer freq in
  if negb (r =? 0) then ret 1 else ret 0.

(** .minix-src/include/minix/com.h:304-304 [IRQ_SETPOLICY]: the name of a kernel request, which
    the program uses as the mask of its interrupt. *)
Definition IRQ_SETPOLICY : Z := 1.

(** lab2/lab2.c:84-91 [timer_test_int, the hardware's messages] *)
Definition timer_test_int_handle (interrupts : Z) : M (timer_st * W) unit :=
  if has interrupts IRQ_SETPOLICY then
    timer_int_handler ;;
    let* t := gets (fun s => tmr_tck_counter s.1) in
    if Z.rem t 60 =? 0 then
      let* _ := zoom snd_lens (call timer_print_elapsed_time) in ret tt
    else ret tt
  else ret tt.

(** lab2/lab2.c:56-106 [timer_test_int]: [fuel] bounds the messages. *)
Definition timer_test_int (fuel : nat) (time : Z) : M (timer_st * W) Z :=
  let* ' (r, _) := timer_subscribe_int in
  if negb (r =? 0) then ret 1 else
  let frequency := 60 in
  let* r := zoom snd_lens (timer_set_frequency 0 frequency) in
  if negb (r =? 0) then
    let* _ := timer_unsubscribe_int in ret 1
  else
    interrupt_loop fuel (fun s => tmr_tck_counter s <? time * frequency) timer_test_int_handle ;;
    let* r := timer_unsubscribe_int in
    if negb (r =? 0) then ret 2 else ret 0.
End Lab2.

(** ** The timer's interrupts as they arrive

    [ticks c k p m w w']: from [w], with [c] ticks counted, [k] timer interrupts arrive; [m]
    messages are received for it; at every multiple of 60 the elapsed time is
    printed, [p] times in all; the world is then [w']. *)
Definition timer_irq (i : Z) : bool := has i IRQ_SETPOLICY.

Inductive ticks {W} `{Lcf W, Messages W} : Z -> nat -> nat -> nat -> W -> W -> Prop :=
  | ticks_end c w : ticks c 0 0 0 w w
  | ticks_silent c k p n m w i w1 w' :
      hears timer_irq n w i w1 -> (c + 1) mod 60 <> 0 ->
      ticks (c + 1) k p m w1 w' ->
      ticks c (S k) p (S n + m) w w'
  | ticks_second c k p n m w i w1 w' :
      hears timer_irq n w i w1 -> (c + 1) mod 60 = 0 ->
      ticks (c + 1) k p m (timer_print_elapsed_time w1).2 w' ->
      ticks c (S k) (S p) (S n + m) w w'.

(** * Lemmas *)
Section Lab2Spec.
Context {W : Type} `{PortIO W, Irq W, Lcf W, Display W, Messages W}.

Lemma handle_other i (s : timer_st * W) : timer_irq i = false -> timer_test_int_handle i s = Done tt s.
Proof. unfold timer_test_int_handle, timer_irq. by intros ->. Qed.

Lemma handle_tick i c h (w : W) :
  timer_irq i = true -> 0 <= c < 1000000 ->
  timer_test_int_handle i (TimerSt c h, w) =
    Done tt (TimerSt (c + 1) h, if (c + 1) mod 60 =? 0 then (timer_print_elapsed_time w).2 else w).
Proof.
  unfold timer_test_int_handle, timer_irq, timer_int_handler, Timer.timer_int_handler.
  intros -> Hc. rewrite bind_assoc, (bind_Done _ _ _ _ _ (gets_eq _ _)). cbn [fst tmr_tck_counter].
  rewrite bind_assoc, (bind_Done _ _ _ _ _ (int_eq _ _ (proj2 (is_int_spec (c + 1)) ltac:(unfold INT_MIN, INT_MAX; lia)))).
  rewrite (bind_Done _ _ _ _ _ (modify_eq _ _)), (bind_Done _ _ _ _ _ (gets_eq _ _)).
  cbn [fst tmr_tck_counter]. rewrite Z.rem_mod_nonneg by lia.
  destruct (_ =? 0); [|done]. unfold bind, zoom, call. simpl.
  by destruct (timer_print_elapsed_time w).
Qed.

Lemma loop_ticks c k p m (w w' : W) h fuel time :
  ticks c k p m w w' -> 0 <= c -> c + Z.of_nat k = time * 60 -> time <= 255 -> (m < fuel)%nat ->
  interrupt_loop fuel (fun s => tmr_tck_counter s <? time * 60) timer_test_int_handle (TimerSt c h, w) =
    Done tt (TimerSt (time * 60) h, w').
Proof.
  intros Ht. revert fuel. induction Ht as [c w|c k p n m w i w1 w' Hh Hc _ IH|c k p n m w i w1 w' Hh Hc _ IH];
    intros fuel Hc0 Hk Htime Hf.
  - rewrite interrupt_loop_done; [|lia|simpl; lia]. do 3 f_equal. lia.
  - replace fuel with ((fuel - S n) + S n)%nat by lia.
    rewrite (interrupt_loop_hears timer_irq _ _ handle_other n _ _ w w1 i); [|simpl; lia|done].
    erewrite bind_Done; [|apply handle_tick; [by eapply hears_relevant|lia]].
    replace (_ =? 0) with false by lia. apply IH; lia.
  - replace fuel with ((fuel - S n) + S n)%nat by lia.
    rewrite (interrupt_loop_hears timer_irq _ _ handle_other n _ _ w w1 i); [|simpl; lia|done].
    erewrite bind_Done; [|apply handle_tick; [by eapply hears_relevant|lia]].
    replace (_ =? 0) with true by lia. apply IH; lia.
Qed.

Lemma ticks_prints c k p m (w w' : W) :
  ticks c k p m w w' -> Z.of_nat p = (c + Z.of_nat k) / 60 - c / 60.
Proof.
  induction 1 as [c w|c k p n m w i w1 w' Hh Hc _ IH|c k p n m w i w1 w' Hh Hc _ IH];
    [rewrite Z.add_0_r; lia|..];
    replace (c + Z.of_nat (S k)) with (c + 1 + Z.of_nat k) by lia; Z.div_mod_to_equations; lia.
Qed.

(** (C39) [timer_test_int] lasts [time] seconds: when the line can be subscribed and
    the timer programmed, and [60 * time] timer interrupts arrive among any other
    messages, it counts all of them and no more, prints the elapsed time exactly [time]
    times, and returns 0, or 2 when the line cannot be given back. One more
    round than there are messages is enough. *)
Theorem timer_test_int_counts (time : Z) (fuel m p : nat) (s : timer_st) (w w1 w2 w3 w' : W) (h r h' : Z) :
  0 <= time <= 255 -> tmr_tck_counter s = 0 ->
  sys_irqsetpolicy TIMER0_IRQ IRQ_REENABLE TIMER0_IRQ w = ((0, h), w1) ->
  timer_set_frequency 0 60 w1 = Done 0 w2 ->
  ticks 0 (Z.to_nat (time * 60)) p m w2 w3 -> (m < fuel)%nat ->
  sys_irqrmpolicy h w3 = ((r, h'), w') ->
  Z.of_nat p = time /\
  timer_test_int fuel time (s, w) =
    Done (if r =? 0 then 0 else 2) (TimerSt (time * 60) h', w').
Proof.
  intros Ht Hs E1 E2 Hticks Hf E3. destruct s as [c h0]. simpl in Hs. subst c. split.
  { apply ticks_prints in Hticks. rewrite Hticks, Z.add_0_l, Z2Nat.id, Z.div_mul by lia. change (0 / 60) with 0. lia. }
  assert (timer_subscribe_int (TimerSt 0 h0, w) = Done (0, u8 h0) (TimerSt 0 h, w1)) as Hsub.
  { unfold timer_subscribe_int, bind, gets, modify, zoom, call. simpl. rewrite E1. done. }
  unfold timer_test_int. rewrite (bind_Done _ _ _ _ _ Hsub). cbn [Z.eqb negb]. cbv zeta.
  erewrite bind_Done by by apply zoom_Done. cbn [Z.eqb negb lset snd_lens fst].
  erewrite bind_Done by (eapply loop_ticks; [done|lia..]).
  unfold timer_unsubscribe_int, Timer.timer_unsubscribe_int, bind, gets, modify, zoom, call. simpl.
  rewrite E3. simpl. by destruct (r =? 0).
Qed.
End Lab2Spec.

(** ** Examples *)

Lemma script_ticks k c (w : script) :
  s_msgs w = repeat (irq 1) k -> exists p w', ticks c k p k w w'.
Proof.
  revert c w. induction k as [|k IH]; intros c w E; [by exists O, w; constructor|].
  assert (hears timer_irq 0 w 1 (with_msgs (repeat (irq 1) k) w)) as Hh by by apply script_hears.
  destruct (decide ((c + 1) mod 60 = 0)) as [Hc|Hc].
  - destruct (IH (c + 1) (timer_print_elapsed_time (with_msgs (repeat (irq 1) k) w)).2) as (p & w' & Ht); [done|].
    exists (S p), w'. by apply (ticks_second _ _ _ 0 k) with (i := 1) (w1 := with_msgs (repeat (irq 1) k) w).
  - destruct (IH (c + 1) (with_msgs (repeat (irq 1) k) w)) as (p & w' & Ht); [done|].
    exists p, w'. by apply (ticks_silent _ _ _ 0 k) with (i := 1) (w1 := with_msgs (repeat (irq 1) k) w).
Qed.

(** The scripted world when the line is subscribed and the timer programmed. *)
Definition lab2_ready (w : script) : script :=
  match timer_set_frequency 0 60 (sys_irqsetpolicy TIMER0_IRQ IRQ_REENABLE TIMER0_IRQ w).2 with
  | Done _ w' => w'
  | _ => w
  end.

(** Two seconds of timer interrupts. *)
Definition lab2_script : script := with_in [(0, 0x36)] (with_msgs (repeat (irq 1) 120) script0).

Lemma timer_test_int_counts_witness :
  exists p w', Z.of_nat p = 2 /\
    timer_test_int 121 2 (timer_init_st, lab2_script) = Done 0 (TimerSt 120 0, w').
Proof.
  destruct (script_ticks 120 0 (lab2_ready lab2_script) eq_refl) as (p & w3 & Ht).
  exists p. eexists.
  exact (timer_test_int_counts 2 121 120 p timer_init_st lab2_script _ _ w3 _ 0 0 0 ltac:(lia) eq_refl
    eq_refl eq_refl Ht ltac:(lia) eq_refl).
Defined.
