(* ===== verification/Lab3.v ===== *)
(** lab3: displaying the scan codes of the keyboard. The driver (lab3/keyboard.c)
    is the game's, except for its subscription and for the count of the ports it
    reads, which lab3/utils.c keeps (the Makefile defines LAB3); lab3/timer.c is a
    timer of its own.

    lab3.c, line 10, declares [scancode] as an [int], although keyboard.h declares it, and
    keyboard.c defines it, as a [uint8_t]: the two declarations conflict. The loops below read the
    byte that keyboard.c defines, as if line 10 were not there; an [int] read at
    its address would also take the three bytes behind it. lab3.c uses [count] of utils.c without
    declaring it, and calls [kbc_read] and
    [kbc_print_scancode] and uses [cnt], none of which lab3 defines: the last three
    are parameters of the programs below. [kbd_test_timed_scan] also calls
    [kbc_subscribe] without its argument and is not modelled. *)
From S2P Require Import Prelude Env Utils Timer Interrupts I8042 Keyboard.

(** ** lab3/timer.c *)

(** lab3/timer.c:3-4 [hook_id_timer, counter] *)
Record lab3_timer_st : Type := Lab3TimerSt { hook_id_timer : Z; counter : Z }.

Section Lab3.
Context {W : Type} `{PortIO W, Irq W, Lcf W, Messages W}.

(** lab3/timer.c:6-11 [timer_unsubscribe_int] *)
Definition timer_unsubscribe_int : M (lab3_timer_st * W) Z :=
  let* hook := gets (fun s => hook_id_timer s.1) in
  let* ' (r, hook') := zoom snd_lens (call (sys_irqrmpolicy hook)) in
  modify (fun s => (Lab3TimerSt hook' (counter s.1), s.2)) ;;
  if negb (r =? 0) then ret 1 else ret 0.

(** lab3/timer.c:13-20 [timer_subscribe_int]: nothing is stored in [*bit_no]. *)
Definition timer_subscribe_int : M (lab3_timer_st * W) Z :=
  modify (fun s => (Lab3TimerSt IRQ0 (counter s.1), s.2)) ;;
  let* ' (r, hook') := zoom snd_lens (call (sys_irqsetpolicy IRQ0 IRQ_REENABLE IRQ0)) in
  modify (fun s => (Lab3TimerSt hook' (counter s.1), s.2)) ;;
  if negb (r =? 0) then ret 1 else ret 0.

(** lab3/timer.c:22-24 [timer_int_handler] *)
Definition timer_int_handler : M (lab3_timer_st * W) unit :=
  let* c := gets (fun s => counter s.1) in
  let* c' := int_ (c + 1) in
  modify (fun s => (Lab3TimerSt (hook_id_timer s.1) c', s.2)).

(** ** lab3/utils.c *)

(** lab3/utils.c:5-5 [count], with the globals of the keyboard driver *)
Record lab3_st : Type := Lab3St { l3_kbd : kbd_st; count : Z }.

(** The keyboard driver inside lab3. *)
Definition kbd_lens : lens (lab3_st * W) (kbd_st * W) :=
  Lens (fun s => (l3_kbd s.1, s.2)) (fun c s => (Lab3St c.1 (count s.1), c.2)).
Definition in_kbd {A} (m : M (kbd_st * W) A) : M (lab3_st * W) A := zoom kbd_lens m.

(** lab3/utils.c:7-16 [util_get_LSB] *)
Definition util_get_LSB (val : Z) (lsb : option Z) : Z * option Z := Utils.util_get_LSB val lsb.
(** lab3/utils.c:18-27 [util_get_MSB] *)
Definition util_get_MSB (val : Z) (msb : option Z) : Z * option Z := Utils.util_get_MSB val msb.

(** lab3/utils.c:29-44 [util_sys_inb]: a read is counted whether or not it succeeds. *)
Definition util_sys_inb (port : Z) : M (lab3_st * W) (option Z) :=
  let* ' (aux, byt32) := zoom snd_lens (call (sys_inb port)) in
  let* n := gets (fun s => count s.1) in
  let* n' := int_ (n + 1) in
  modify (fun s => (Lab3St (l3_kbd s.1) n', s.2)) ;;
  if negb (aux =? 0) then ret None else ret (Some (u8 byt32)).

(** ** lab3/keyboard.c *)

(** lab3/keyboard.c:10-17 [kbc_subscribe]: [bit_no] is the value in [*bit_no]. *)
Definition kbc_subscribe (bit_no : Z) : M (kbd_st * W) Z :=
  kbd_modify (set_hook_id_kbd bit_no) ;;
  let* hook := gets (fun s => hook_id_kbd s.1) in
  let* ' (r, hook') :=
    zoom snd_lens (call (sys_irqsetpolicy IRQ1 (Z.lor IRQ_REENABLE IRQ_EXCLUSIVE) hook)) in
  kbd_modify (set_hook_id_kbd hook') ;;
  if negb (r =? 0) then ret 1 else ret 0.

(** lab3/keyboard.c:20-24 [kbc_unsubscribe] *)
Definition kbc_unsubscribe : M (kbd_st * W) Z := Keyboard.kbc_unsubscribe.

(** lab3/keyboard.c:28-40 [kbc_ih]: [st] is not initialised; after a failed read of the status
    the C code tests an unspecified byte. Such a run is not followed further: it counts as
    undefined. The two branches on the error bits only differ by a message. *)
Definition kbc_ih : M (lab3_st * W) unit :=
  let* st := util_sys_inb 0x64 in
  let* st := of_option st in
  if has st (BIT 0) then
    let* c := util_sys_inb 0x60 in
    (match c with Some c => in_kbd (kbd_modify (set_scancode c)) | None => skip end) ;;
    if Z.land st (Z.lor (BIT 7) (BIT 6)) =? 0 then ret tt else ret tt
  else ret tt.

(** lab3/keyboard.c:46-71 [printSC]: the game's returns whether a key is complete. *)
Definition printSC : M (kbd_st * W) unit := let* _ := Keyboard.printSC in ret tt.

(** ** lab3.c *)
Variable cnt : Z.
Variables (kbc_read : M (lab3_st * W) Z) (kbc_print_scancode : M (lab3_st * W) unit).

(** lab3/lab3.c:53-61 [kbd_test_scan, the hardware's messages] *)
Definition kbd_test_scan_handle (interrupts : Z) : M (lab3_st * W) unit :=
  if has interrupts (BIT 0) then kbc_ih ;; in_kbd printSC else ret tt.

(** lab3/lab3.c:36-80 [kbd_test_scan]: the condition reads [scancode] as the byte it is in
    keyboard.c, not as the [int] of lab3.c:10. *)
Definition kbd_test_scan (fuel : nat) : M (lab3_st * W) Z :=
  let hookid := 0 in
  let* r := in_kbd (kbc_subscribe hookid) in
  if negb (r =? 0) then ret 1 else
  interrupt_loop fuel (fun s => negb (scancode (l3_kbd s) =? 0x81)) kbd_test_scan_handle ;;
  let* n := gets (fun s => count s.1) in
  let* _ := zoom snd_lens (call (kbd_print_no_sysinb n)) in
  let* r := in_kbd kbc_unsubscribe in
  if negb (r =? 0) then ret 1 else ret 0.

(** lab3/lab3.c:82-97 [kbd_test_poll] *)
Definition kbd_test_poll (fuel : nat) : M (lab3_st * W) Z :=
  loop fuel (
    let* s := gets fst in
    if scancode (l3_kbd s) =? ESCAPE then ret (Some tt) else
    let* _ := kbc_read in
    kbc_print_scancode ;;
    ret None) ;;
  let* r := zoom snd_lens (call (sys_outb INPUT_BUFFER_COMMANDS READ_COMMAND)) in
  if negb (r =? 0) then ret 1 else
  let* _ := kbc_read in
  let* r := zoom snd_lens (call (sys_outb INPUT_BUFFER_COMMANDS WRITE_COMMAND)) in
  if negb (r =? 0) then ret 1 else
  let* s := gets fst in
  let* r := zoom snd_lens (call (sys_outb INPUT_BUFFER_ARGUMENTS (Z.lor (scancode (l3_kbd s)) (BIT 0)))) in
  if negb (r =? 0) then ret 1 else
  let* _ := zoom snd_lens (call (kbd_print_no_sysinb cnt)) in
  ret 0.
End Lab3.

(** ** Keys as they arrive *)
Section Typing.
Context {W : Type} `{PortIO W, Irq W, Lcf W, Messages W}.

Definition kbd_irq (i : Z) : bool := has i (BIT 0).

(** After [n] other messages the keyboard's interrupt is announced, and the
    controller has the byte [c]. *)
Inductive key_byte (n : nat) (w : W) (c : Z) : W -> Prop :=
  | key_byte_intro i w1 st :
      hears kbd_irq n w i w1 ->
      inb_result 0x64 w1 = Some st -> Z.testbit st 0 = true ->
      inb_result 0x60 (sys_inb 0x64 w1).2 = Some c ->
      key_byte n w c (sys_inb 0x60 (sys_inb 0x64 w1).2).2.

(** The bytes of the key [k] arrive and it is displayed; [n] messages are received. *)
Inductive types_key : nat -> W -> key -> W -> Prop :=
  | types_plain k n w w1 :
      extended k = false -> key_byte n w (code k) w1 ->
      types_key (S n) w k (display_key w1 k)
  | types_extended k n1 n2 w w1 w2 :
      extended k = true -> key_byte n1 w 0xE0 w1 -> key_byte n2 w1 (code k) w2 ->
      types_key (S n2 + S n1) w k (display_key w2 k).

(** A sequence of keys is typed. *)
Inductive typed : list key -> nat -> W -> W -> Prop :=
  | typed_nil w : typed [] 0 w w
  | typed_cons k ks n m w w1 w' :
      types_key n w k w1 -> typed ks m w1 w' -> typed (k :: ks) (m + n) w w'.

(** The driver after a key. *)
Definition after_key (h : Z) (k : key) : kbd_st := KbdSt h (code k) 1 0 0 false.

(** * Lemmas *)

Lemma scan_other i (s : lab3_st * W) : kbd_irq i = false -> kbd_test_scan_handle i s = Done tt s.
Proof. unfold kbd_test_scan_handle, kbd_irq. by intros ->. Qed.

Definition scan_loop (fuel : nat) : M (lab3_st * W) unit :=
  interrupt_loop fuel (fun s => negb (scancode (l3_kbd s) =? 0x81)) kbd_test_scan_handle.

(** Every read of a port is counted. *)
Lemma util_sys_inb_counts port k n (w : W) :
  0 <= n < INT_MAX ->
  util_sys_inb port (Lab3St k n, w) = Done (inb_result port w) (Lab3St k (n + 1), (sys_inb port w).2).
Proof.
  intros Hn. unfold util_sys_inb, inb_result, bind, zoom, call, gets, modify. simpl.
  destruct (sys_inb port w) as [[aux v] w']. simpl. rewrite int_eq by (unfold is_int, INT_MIN, INT_MAX in *; lia).
  simpl. by destruct (aux =? 0).
Qed.

(** A byte that arrives takes two reads. *)
Lemma kbc_ih_counts st c k n (w : W) :
  0 <= n < INT_MAX - 1 -> inb_result 0x64 w = Some st -> Z.testbit st 0 = true ->
  inb_result 0x60 (sys_inb 0x64 w).2 = Some c ->
  kbc_ih (Lab3St k n, w) = Done tt (Lab3St (set_scancode c k) (n + 2), (sys_inb 0x60 (sys_inb 0x64 w).2).2).
Proof.
  intros Hn Hst Hb Hc. unfold kbc_ih.
  rewrite (bind_Done _ _ _ _ _ (util_sys_inb_counts 0x64 k n w ltac:(lia))), Hst. unfold of_option, bind at 1, ret at 1.
  rewrite has_BIT, Hb by lia.
  rewrite (bind_Done _ _ _ _ _ (util_sys_inb_counts 0x60 k (n + 1) _ ltac:(lia))), Hc.
  replace (n + 1 + 1) with (n + 2) by lia. unfold in_kbd, zoom, kbd_modify, modify, bind. simpl.
  by destruct (Z.land st _ =? 0).
Qed.

(** A byte that arrives is fed to the decoder. *)
Lemma scan_byte n w c w' k m fuel :
  key_byte n w c w' -> scancode k <> 0x81 -> 0 <= m < INT_MAX - 1 ->
  scan_loop (fuel + S n) (Lab3St k m, w) = bind (in_kbd (feed c)) (fun _ => scan_loop fuel) (Lab3St k (m + 2), w').
Proof.
  intros [i w1 st Hh Hst Hb Hc] Hs Hm. unfold scan_loop.
  rewrite (interrupt_loop_hears kbd_irq _ _ scan_other n _ _ w w1 i); [|simpl; lia|done].
  pose proof (hears_relevant _ _ _ _ _ Hh) as Hi. unfold kbd_irq in Hi.
  unfold kbd_test_scan_handle. rewrite Hi, bind_assoc.
  by rewrite (bind_Done _ _ _ _ _ (kbc_ih_counts _ _ _ _ _ Hm Hst Hb Hc)).
Qed.

(** What the decoder does inside lab3. *)
Lemma in_kbd_Done {A} (m : M (kbd_st * W) A) a k k' n (w w' : W) :
  m (k, w) = Done a (k', w') -> in_kbd m (Lab3St k n, w) = Done a (Lab3St k' n, w').
Proof. intros E. unfold in_kbd, zoom. simpl. by rewrite E. Qed.

Lemma feed_prefix s (w : W) :
  idle s -> feed 0xE0 (s, w) = Done tt (KbdSt (hook_id_kbd s) 0xE0 2 0xE0 0 false, w).
Proof. intros (Hb & Hs & Hm). destruct s; simpl in *; subst. done. Qed.

Lemma feed_last k h c0 (w : W) :
  key_wf k = true ->
  feed (code k) (if extended k then KbdSt h c0 2 0xE0 0 false else KbdSt h c0 1 0 0 false, w) =
    Done tt (after_key h k, display_key w k).
Proof.
  intros Hwf. assert ((code k =? 0xE0) = false) as Hne by (unfold key_wf in Hwf; lia).
  unfold display_key, is_make, encode_key. destruct (extended k); simpl;
    unfold feed, Keyboard.printSC, bind, kbd_modify, modify, gets, zoom, call; simpl;
    rewrite Hne, break_bit; destruct (Z.testbit (code k) 7); simpl;
    by destruct (kbd_print_scancode _ _ _ w).
Qed.

(** The reads for the bytes of some keys. *)
Definition reads (ks : list key) : Z := 2 * Z.of_nat (length (encode ks)).

Lemma reads_cons k ks : reads (k :: ks) = reads [k] + reads ks.
Proof. unfold reads, encode. cbn [flat_map]. rewrite app_nil_r, length_app. lia. Qed.

Lemma reads_one k : reads [k] = if extended k then 4 else 2.
Proof. unfold reads, encode, encode_key. cbn [flat_map]. by destruct (extended k). Qed.

(** One key, and a sequence of keys. *)
Lemma scan_key n (w w' : W) k h c0 m fuel :
  types_key n w k w' -> key_wf k = true -> c0 <> 0x81 -> 0 <= m -> m + reads [k] <= INT_MAX ->
  scan_loop (fuel + n) (Lab3St (KbdSt h c0 1 0 0 false) m, w) =
    scan_loop fuel (Lab3St (after_key h k) (m + reads [k]), w').
Proof.
  rewrite reads_one. intros Ht Hwf Hc Hm0 Hm. destruct Ht as [k n w w1 Hx Hk|k n1 n2 w w1 w2 Hx Hk1 Hk2]; rewrite Hx in *.
  - rewrite (scan_byte _ _ _ _ _ _ _ Hk) by (done || lia).
    pose proof (feed_last k h c0 w1 Hwf) as E. rewrite Hx in E.
    by rewrite (bind_Done _ _ _ _ _ (in_kbd_Done _ _ _ _ _ _ _ E)).
  - rewrite Nat.add_assoc, (scan_byte _ _ _ _ _ _ _ Hk1) by (done || lia).
    rewrite (bind_Done _ _ _ _ _ (in_kbd_Done _ _ _ _ _ _ _ (feed_prefix (KbdSt h c0 1 0 0 false) w1 ltac:(done)))).
    rewrite (scan_byte _ _ _ _ _ _ _ Hk2) by (done || lia). replace (m + 2 + 2) with (m + 4) by lia.
    pose proof (feed_last k h 0xE0 w2 Hwf) as E. rewrite Hx in E.
    by rewrite (bind_Done _ _ _ _ _ (in_kbd_Done _ _ _ _ _ _ _ E)).
Qed.

Lemma scan_typed ks m (w w' : W) h c0 x fuel :
  typed ks m w w' -> forallb key_wf ks = true -> c0 <> 0x81 -> Forall (fun k => code k <> 0x81) ks ->
  0 <= x -> x + reads ks <= INT_MAX ->
  exists c1, c1 <> 0x81 /\
    scan_loop (fuel + m) (Lab3St (KbdSt h c0 1 0 0 false) x, w) =
      scan_loop fuel (Lab3St (KbdSt h c1 1 0 0 false) (x + reads ks), w').
Proof.
  intros Ht. revert c0 x fuel. induction Ht as [w|k ks n m w w1 w' Hk _ IH]; intros c0 x fuel Hwf Hc Hne Hx Hm.
  - exists c0. change (reads []) with 0. by rewrite Nat.add_0_r, Z.add_0_r.
  - simpl in Hwf. apply andb_true_iff in Hwf as [Hwk Hwf]. apply Forall_cons in Hne as [Hnk Hne].
    rewrite reads_cons in Hm |- *. assert (0 <= reads [k] /\ 0 <= reads ks) by (unfold reads; lia).
    rewrite Nat.add_assoc, (scan_key _ _ _ _ _ _ _ _ Hk) by (done || lia). rewrite Z.add_assoc. apply IH; done || lia.
Qed.

End Typing.

(** ** Examples *)

(** The scripted world after a byte was announced and read. *)
Definition after_key_byte (l : list receive) (w : script) : script :=
  (sys_inb 0x60 (sys_inb 0x64 (with_msgs l w)).2).2.

Lemma script_key_byte w l c r :
  s_msgs w = irq 1 :: l -> s_in w = (0, 1) :: (0, c) :: r -> 0 <= c < 256 ->
  key_byte 0 w c (after_key_byte l w).
Proof.
  intros Hm Hi Hc. apply (key_byte_intro 0 w c 1 (with_msgs l w) 1); [by apply script_hears| |done|];
    destruct w as [i ra ms mo lo]; simpl in *; subst; unfold inb_result; simpl; f_equal.
  by apply u8_small.
Qed.

(** The bytes of a key, of an extended key and of the release of Escape. *)
Definition lab3_script : script :=
  with_in (flat_map (fun c => [(0, 1); (0, c)]) [0x1E; 0xE0; 0x48; 0x81])
    (with_msgs (repeat (irq 1) 4) script0).

