(* ===== verification/Lab4.v ===== *)
(** lab4: printing the mouse's packets, with interrupts, with a time-out and in
    remote mode, and recognising a gesture. The mouse driver (lab4/mouse.c) is an
    earlier version of the game's: it subscribes with another hook id and prints
    each complete packet. The timer and the utilities are those of [Lab2]. *)
From S2P Require Import Prelude Env Utils Timer Interrupts I8042 Mouse Lab2.

(** lab4/lab4.c:12-18 [x_displacement, y_displacement], with the globals of mouse.c and timer.c.
    [counter_exit] is the local variable of [mouse_test_gesture], which hides the
    global of that name. *)
Record lab4_st : Type := Lab4St {
  l4_mouse : mouse_st;
  l4_timer : timer_st;
  x_displacement : Z;
  counter_exit : Z
}.

(** lab4/lab4.c:18-18 [initial values] *)
Definition lab4_init_st : lab4_st := Lab4St mouse_init_st timer_init_st 0 0.

Definition set_l4_mouse (m : mouse_st) (s : lab4_st) : lab4_st :=
  Lab4St m (l4_timer s) (x_displacement s) (counter_exit s).
Definition set_l4_timer (t : timer_st) (s : lab4_st) : lab4_st :=
  Lab4St (l4_mouse s) t (x_displacement s) (counter_exit s).
Definition set_gesture (ce xd : Z) (s : lab4_st) : lab4_st :=
  Lab4St (l4_mouse s) (l4_timer s) xd ce.

Section Lab4.
Context {W : Type} `{PortIO W, Irq W, Lcf W, Messages W}.

Definition mouse_lens : lens (lab4_st * W) (mouse_st * W) :=
  Lens (fun s => (l4_mouse s.1, s.2)) (fun c s => (set_l4_mouse c.1 s.1, c.2)).
Definition timer_lens : lens (lab4_st * W) (timer_st * W) :=
  Lens (fun s => (l4_timer s.1, s.2)) (fun c s => (set_l4_timer c.1 s.1, c.2)).

(** ** lab4/timer.c *)

(** lab4/timer.c:63-72 [timer_subscribe_int] *)
Definition timer_subscribe_int : M (timer_st * W) (Z * Z) := Lab2.timer_subscribe_int.
(** lab4/timer.c:74-80 [timer_unsubscribe_int] *)
Definition timer_unsubscribe_int : M (timer_st * W) Z := Lab2.timer_unsubscribe_int.
(** lab4/timer.c:82-85 [timer_int_handler] *)
Definition timer_int_handler : M (timer_st * W) unit := Lab2.timer_int_handler.
(** lab4/timer.c:87-118 [timer_get_conf] *)
Definition timer_get_conf (timer : Z) : M W (option Z) := Lab2.timer_get_conf timer.
(** lab4/timer.c:13-61 [timer_set_frequency] *)
Definition timer_set_frequency (timer freq : Z) : M W Z := Lab2.timer_set_frequency timer freq.
(** lab4/timer.c:120-166 [timer_display_conf] *)
Definition timer_display_conf (timer st : Z) (field : timer_status_field) : M W Z :=
  Lab2.timer_display_conf timer st field.

(** lab4/utils.c:5-14 [util_get_LSB] *)
Definition util_get_LSB (val : Z) (lsb : option Z) : Z * option Z := Lab2.util_get_LSB val lsb.
(** lab4/utils.c:16-28 [util_get_MSB] *)
Definition util_get_MSB (val : Z) (msb : option Z) : Z * option Z := Lab2.util_get_MSB val msb.
(** lab4/utils.c:30-44 [util_sys_inb] *)
Definition util_sys_inb (port : Z) : M W (option Z) := Lab2.util_sys_inb port.

(** ** lab4/mouse.c *)

(** lab4/mouse.c:21-27 [kbc_subscribe] *)
Definition kbc_subscribe : M (mouse_st * W) Z :=
  mouse_modify (set_hook_id_mouse 1) ;;
  let* ' (r, hook') :=
    zoom snd_lens (call (sys_irqsetpolicy IRQ12 (Z.lor IRQ_REENABLE IRQ_EXCLUSIVE) 1)) in
  mouse_modify (set_hook_id_mouse hook') ;;
  if negb (r =? 0) then ret 1 else ret 0.

(** lab4/mouse.c:33-38 [kbc_unsubscribe] *)
Definition kbc_unsubscribe : M (mouse_st * W) Z := Mouse.mouse_unsubscribe.

(** lab4/mouse.c:40-62 [write_argument_to_mouse] *)
Definition write_argument_to_mouse (fuel : nat) (argument : Z) : M W Z :=
  Mouse.write_argument_to_mouse fuel argument.

(** lab4/mouse.c:64-70 [enable_mouse_data] *)
Definition enable_mouse_data (fuel : nat) : M W Z := Mouse.enable_mouse_data fuel.

(** lab4/mouse.c:72-77 [disable_mouse_data] *)
Definition disable_mouse_data (fuel : nat) : M W Z := Mouse.disable_mouse_data fuel.

(** lab4/mouse.c:79-100 [kbc_read] *)
Definition kbc_read (fuel : nat) : M (mouse_st * W) Z := Mouse.kbc_read fuel.

(** lab4/mouse.c:107-142 [mouse_ih] *)
Definition mouse_ih (fuel : nat) : M (mouse_st * W) unit := Mouse.mouse_ih fuel.

(** lab4/mouse.c:148-205 [print_mouse_packet]: the last line also prints when [counter] is none
    of 0, 1 and 2. *)
Definition print_mouse_packet : M (mouse_st * W) unit :=
  let* m := gets fst in
  let* out_of_sync :=
    if negb (is_sync m) then
      if Z.land (read_packet m) 0x08 =? 0 then ret true
      else mouse_modify (set_is_sync true) ;; ret false
    else ret false in
  if out_of_sync : bool then ret tt else
  let* m := gets fst in
  if counter m =? 0 then
    mouse_modify (set_packet1 (set_bytes0 (read_packet m) (packet1 m))) ;;
    counter_incr
  else if counter m =? 1 then
    mouse_modify (set_packet1 (set_bytes1 (read_packet m) (packet1 m))) ;;
    counter_incr
  else
    (if counter m =? 2 then
      mouse_modify (set_counter 0) ;;
      mouse_modify (set_packet1
        (parse_packet (bytes0 (packet1 m)) (bytes1 (packet1 m)) (read_packet m))) ;;
      mouse_modify (set_total_packets (u32 (total_packets m + 1)))
     else skip) ;;
    let* m := gets fst in
    zoom snd_lens (modify (mouse_print_packet (packet1 m))).

(** ** lab4.c *)

(** lab4/lab4.c:67-75 [mouse_test_packet, a mouse interrupt], which the other tests repeat:
    [Dropped] stands for the [continue]. *)
Definition mouse_interrupt (fuel : nat) : M (mouse_st * W) mouse_event_result :=
  mouse_ih fuel ;;
  let* m := gets fst in
  if Bool.eqb (reading_error m) true && negb (counter m =? 2) then ret Dropped
  else if Bool.eqb (reading_error m) true && (counter m =? 2) then
    mouse_modify (set_reading_error false) ;; ret Recovered
  else print_mouse_packet ;; ret Processed.

(** lab4/lab4.c:65-76 [mouse_test_packet, the hardware's messages] *)
Definition packet_handle (fuel : nat) (interrupts : Z) : M (mouse_st * W) unit :=
  if has interrupts (BIT 1) then let* _ := mouse_interrupt fuel in ret tt else ret tt.

(** lab4/lab4.c:44-89 [mouse_test_packet] *)
Definition mouse_test_packet (fuel : nat) (cnt : Z) : M (mouse_st * W) Z :=
  let* r := zoom snd_lens (enable_mouse_data fuel) in
  if negb (r =? 0) then ret 1 else
  let* _ := kbc_subscribe in
  interrupt_loop fuel (fun m => total_packets m <? cnt) (packet_handle fuel) ;;
  let* _ := kbc_unsubscribe in
  let* r := zoom snd_lens (disable_mouse_data fuel) in
  if negb (r =? 0) then ret 1 else ret 0.

(** lab4/lab4.c:114-130 [mouse_test_async, the hardware's messages] *)
Definition async_handle (fuel : nat) (interrupts : Z) : M (lab4_st * W) unit :=
  let* r :=
    if has interrupts (BIT 1) then
      modify (fun s => (set_l4_timer (TimerSt 0 (hook_id2 (l4_timer s.1))) s.1, s.2)) ;;
      zoom mouse_lens (mouse_interrupt fuel)
    else ret Processed in
  match r with
  | Dropped => ret tt
  | _ => if has interrupts (BIT IRQ0) then zoom timer_lens timer_int_handler else ret tt
  end.

(** lab4/lab4.c:91-139 [mouse_test_async] *)
Definition mouse_test_async (fuel : nat) (idle_time : Z) : M (lab4_st * W) Z :=
  let* r := zoom snd_lens (enable_mouse_data fuel) in
  if negb (r =? 0) then ret 1 else
  let* _ := zoom mouse_lens kbc_subscribe in
  let* _ := zoom timer_lens timer_subscribe_int in
  interrupt_loop fuel (fun s => tmr_tck_counter (l4_timer s) <? idle_time * 60) (async_handle fuel) ;;
  let* _ := zoom mouse_lens kbc_unsubscribe in
  let* _ := zoom snd_lens (disable_mouse_data fuel) in
  let* _ := zoom timer_lens timer_unsubscribe_int in
  ret 0.

(** lab4/lab4.c:177-215 [mouse_test_gesture, what a complete packet changes]: the new
    [counter_exit] and [x_displacement]. *)
Definition gesture_next (x_len tolerance : Z) (p : packet) (ce xd : Z) : Z * Z :=
  if lb p && (ce =? 0) then (1, xd)
  else if lb p && (delta_x p + tolerance >=? 0) && (delta_y p + tolerance >=? 0) && (ce =? 1) then
    let xd := xd + delta_x p in
    if xd >=? x_len then (2, xd) else (ce, xd)
  else if ce =? 1 then (0, 0)
  else if negb (lb p) && (ce =? 2) then (3, 0)
  else if rb p && (ce =? 3) then (4, xd)
  else if rb p && (delta_x p + tolerance >=? 0) && (delta_y p - tolerance <=? 0) && (ce =? 4) then
    let xd := xd + delta_x p in
    if xd >=? x_len then (5, xd) else (ce, xd)
  else if ce =? 4 then (0, 0)
  else if negb (rb p) && (ce =? 5) then
    let ce := if lb p then 0 else ce in
    let ce := 6 in
    (ce, xd)
  else if ce =? 5 then (0, xd)
  else (ce, xd).

(** lab4/lab4.c:164-218 [mouse_test_gesture, the hardware's messages] *)
Definition gesture_handle (fuel : nat) (x_len tolerance : Z) (interrupts : Z) : M (lab4_st * W) unit :=
  if has interrupts (BIT 1) then
    let* r := zoom mouse_lens (mouse_interrupt fuel) in
    match r with
    | Processed =>
        let* s := gets fst in
        if counter (l4_mouse s) =? 0 then
          let '(ce, xd) := gesture_next x_len tolerance (packet1 (l4_mouse s)) (counter_exit s) (x_displacement s) in
          let* xd := int_ xd in
          modify (fun s => (set_gesture ce xd s.1, s.2))
        else ret tt
    | _ => ret tt
    end
  else ret tt.

(** lab4/lab4.c:141-231 [mouse_test_gesture] *)
Definition mouse_test_gesture (fuel : nat) (x_len tolerance : Z) : M (lab4_st * W) Z :=
  let* r := zoom snd_lens (enable_mouse_data fuel) in
  if negb (r =? 0) then ret 1 else
  modify (fun s => (set_gesture 0 (x_displacement s.1) s.1, s.2)) ;;
  let* _ := zoom mouse_lens kbc_subscribe in
  interrupt_loop fuel (fun s => negb (counter_exit s =? 6)) (gesture_handle fuel x_len tolerance) ;;
  let* _ := zoom mouse_lens kbc_unsubscribe in
  let* r := zoom snd_lens (disable_mouse_data fuel) in
  if negb (r =? 0) then ret 1 else ret 0.

(** lab4/lab4.c:245-257 [mouse_test_remote, the loop over the bytes of a packet] *)
Fixpoint remote_bytes (fuel ih_fuel : nat) (count : Z) : M (mouse_st * W) unit :=
  match fuel with
  | O => nofuel
  | S fuel =>
      if count =? 3 then ret tt else
      let* r := mouse_interrupt ih_fuel in
      match r with
      | Dropped => remote_bytes fuel ih_fuel count
      | _ => remote_bytes fuel ih_fuel (count + 1)
      end
  end.

(** lab4/lab4.c:266-283 [mouse_test_remote, the two loops that write the command byte]: [Some 0]
    is a [break]. *)
Definition kbc_write_body (port : Z) (value : M W Z) : M W (option Z) :=
  let* status := util_sys_inb STATUS_REGISTER in
  match status with
  | None => ret (Some 1)
  | Some status =>
      if Z.land status (BIT 1) =? 0 then
        let* v := value in
        let* r := call (sys_outb port v) in
        if negb (r =? 0) then ret (Some 1) else ret (Some 0)
      else ret None
  end.

(** lab4/lab4.c:233-286 [mouse_test_remote] *)
Definition mouse_test_remote (fuel : nat) (period cnt : Z) : M (mouse_st * W) Z :=
  let* _ := zoom snd_lens (write_argument_to_mouse fuel DISABLE_MOUSE_DATA) in
  let* _ := zoom snd_lens (write_argument_to_mouse fuel SET_REMOTE_MODE) in
  loop fuel (
    let* m := gets fst in
    if negb (total_packets m <? cnt) then ret (Some tt) else
    let* _ := zoom snd_lens (write_argument_to_mouse fuel READ_DATA_MOUSE) in
    remote_bytes fuel fuel 0 ;;
    zoom snd_lens (modify (tickdelay_us (period * 1000))) ;;
    ret None) ;;
  let* r := zoom snd_lens (disable_mouse_data fuel) in
  if negb (r =? 0) then ret 1 else
  let* r := zoom snd_lens (loop fuel (kbc_write_body INPUT_BUFFER_COMMANDS (ret WRITE_COMMAND))) in
  if negb (r =? 0) then ret 1 else
  zoom snd_lens (loop fuel (kbc_write_body INPUT_BUFFER_ARGUMENTS (call minix_get_dflt_kbc_cmd_byte))).
End Lab4.

(** ** Motions as they arrive *)
Definition mouse_irq (i : Z) : bool := has i (BIT 1).

Section Motions.
Context {W : Type} `{PortIO W, Irq W, Lcf W, Messages W}.

(** After [n] other messages the mouse's interrupt is announced, and the controller
    has the byte [b] without error for a handler with [fuel] iterations. *)
Definition mouse_byte (fuel n : nat) (w : W) (b : Z) (w' : W) : Prop :=
  exists i w1 st, hears mouse_irq n w i w1 /\ arrives fuel w1 st (Some b) w' /\
    byte_good st (Some b) = true.

(** The three bytes of each motion arrive, and its packet is printed after the
    third; [m] messages are received. *)
Inductive moves (fuel : nat) : list motion -> nat -> W -> W -> Prop :=
  | moves_nil w : moves fuel [] 0 w w
  | moves_cons p ps n0 n1 n2 m w w1 w2 w3 w' :
      mouse_byte fuel n0 w (motion_byte0 p) w1 ->
      mouse_byte fuel n1 w1 (dx p mod 256) w2 ->
      mouse_byte fuel n2 w2 (dy p mod 256) w3 ->
      moves fuel ps m (mouse_print_packet (motion_packet p) w3) w' ->
      moves fuel (p :: ps) (m + S n2 + S n1 + S n0) w w'.

(** * Lemmas *)

Lemma packet_other fuel i (s : mouse_st * W) : mouse_irq i = false -> packet_handle fuel i s = Done tt s.
Proof. unfold packet_handle, mouse_irq. by intros ->. Qed.

(** A good byte with no error pending reaches [print_mouse_packet]. *)
Lemma mouse_interrupt_good fuel s (w w' : W) st b :
  arrives fuel w st (Some b) w' -> is_int (counter s + 1) = true ->
  byte_good st (Some b) = true -> reading_error s = false ->
  mouse_interrupt fuel (s, w) = bind print_mouse_packet (fun _ => ret Processed) (set_read_packet b s, w').
Proof.
  intros Ha Hi Hg Hre. unfold mouse_interrupt, mouse_ih.
  rewrite (bind_Done _ _ _ _ _ (mouse_ih_arrives _ _ _ _ _ _ Ha Hi)), Hg.
  unfold ih_state. rewrite Hre.
  rewrite (bind_Done _ _ _ _ _ (gets_eq _ _)). cbn [fst reading_error set_read_packet]. by rewrite Hre.
Qed.

(** The bytes of a packet, one by one. *)
Lemma print_first b s (w : W) :
  counter s = 0 -> is_sync s = true \/ (Z.land b 8 =? 0) = false ->
  print_mouse_packet (set_read_packet b s, w) =
    Done tt (set_counter 1 (set_packet1 (set_bytes0 b (packet1 s)) (set_is_sync true (set_read_packet b s))), w).
Proof.
  destruct s as [pk rp sy c h t re]. simpl. intros -> Hb.
  unfold print_mouse_packet, counter_incr, mouse_modify, int_, bind, modify, gets. simpl.
  destruct Hb as [->|Hb]; [done|]. destruct sy; simpl; [done|]. by rewrite Hb.
Qed.

Lemma print_second b s (w : W) :
  counter s = 1 -> is_sync s = true ->
  print_mouse_packet (set_read_packet b s, w) =
    Done tt (set_counter 2 (set_packet1 (set_bytes1 b (packet1 s)) (set_read_packet b s)), w).
Proof.
  destruct s as [pk rp sy c h t re]. simpl. intros -> ->.
  unfold print_mouse_packet, counter_incr, mouse_modify, int_, bind, modify, gets. done.
Qed.

Lemma print_third b s (w : W) :
  counter s = 2 -> is_sync s = true ->
  let p := parse_packet (bytes0 (packet1 s)) (bytes1 (packet1 s)) b in
  print_mouse_packet (set_read_packet b s, w) =
    Done tt (set_total_packets (u32 (total_packets s + 1)) (set_packet1 p (set_counter 0 (set_read_packet b s))),
             mouse_print_packet p w).
Proof.
  destruct s as [pk rp sy c h t re]. simpl. intros -> ->.
  unfold print_mouse_packet, mouse_modify, bind, modify, gets. done.
Qed.

(** The driver when the packet of [p] is complete. *)
Definition after_motion (p : motion) (s : mouse_st) : mouse_st :=
  MouseSt (motion_packet p) (dy p mod 256) true 0 (hook_id_mouse s) (u32 (total_packets s + 1)) false.

Definition packet_loop (fuel0 fuel : nat) (cnt : Z) : M (mouse_st * W) unit :=
  interrupt_loop fuel (fun m => total_packets m <? cnt) (packet_handle fuel0).

Lemma packet_loop_byte fuel0 n fuel cnt s (w w' : W) b s' w'' :
  mouse_byte fuel0 n w b w' -> total_packets s < cnt -> is_int (counter s + 1) = true ->
  reading_error s = false -> print_mouse_packet (set_read_packet b s, w') = Done tt (s', w'') ->
  packet_loop fuel0 (fuel + S n) cnt (s, w) = packet_loop fuel0 fuel cnt (s', w'').
Proof.
  intros (i & w1 & st & Hh & Ha & Hg) Hlt Hi Hre E. unfold packet_loop.
  rewrite (interrupt_loop_hears mouse_irq _ _ (packet_other fuel0) n _ _ w w1 i);
    [|by apply Z.ltb_lt|done].
  pose proof (hears_relevant _ _ _ _ _ Hh) as Hr. unfold mouse_irq in Hr.
  unfold packet_handle at 1. rewrite Hr, bind_assoc.
  erewrite bind_Done; [done|]. rewrite (mouse_interrupt_good _ _ _ _ _ _ Ha Hi Hg Hre).
  by rewrite (bind_Done _ _ _ _ _ E).
Qed.

Lemma packet_loop_motion fuel0 p n0 n1 n2 fuel cnt s (w w1 w2 w3 : W) :
  mouse_byte fuel0 n0 w (motion_byte0 p) w1 ->
  mouse_byte fuel0 n1 w1 (dx p mod 256) w2 ->
  mouse_byte fuel0 n2 w2 (dy p mod 256) w3 ->
  motion_wf p -> counter s = 0 -> reading_error s = false -> total_packets s < cnt ->
  packet_loop fuel0 (fuel + S n2 + S n1 + S n0) cnt (s, w) =
    packet_loop fuel0 fuel cnt (after_motion p s, mouse_print_packet (motion_packet p) w3).
Proof.
  intros Hb0 Hb1 Hb2 Hp Hc Hre Hlt. destruct s as [pk rp sy c h t re]. simpl in *. subst.
  erewrite packet_loop_byte; [|done|done|done|done|
    apply print_first; [done|right; by apply motion_bit3]].
  erewrite packet_loop_byte; [|done|done|done|done|by apply print_second].
  erewrite packet_loop_byte; [|done|done|done|done|by apply print_third].
  cbn [bytes0 bytes1 set_bytes0 set_bytes1 packet1 set_packet1 set_counter]. by rewrite parse_motion.
Qed.

Lemma packet_loop_moves fuel0 ps m fuel cnt s (w w' : W) :
  moves fuel0 ps m w w' -> Forall motion_wf ps -> counter s = 0 -> reading_error s = false ->
  0 <= total_packets s -> total_packets s + Z.of_nat (length ps) = cnt -> cnt < 4294967296 -> (m < fuel)%nat ->
  exists s', packet_loop fuel0 fuel cnt (s, w) = Done tt (s', w') /\ total_packets s' = cnt /\
    hook_id_mouse s' = hook_id_mouse s.
Proof.
  intros Hm. revert s fuel.
  induction Hm as [w|p ps n0 n1 n2 m w w1 w2 w3 w' Hb0 Hb1 Hb2 _ IH]; intros s fuel Hwf Hc Hre Ht Hcnt Hmax Hf.
  - exists s. simpl in Hcnt. rewrite Z.add_0_r in Hcnt. split_and!; [|done|done].
    apply interrupt_loop_done; [lia|]. lia.
  - apply Forall_cons in Hwf as [Hp Hwf]. cbn [length] in Hcnt.
    replace fuel with ((fuel - (S n2 + S n1 + S n0)) + S n2 + S n1 + S n0)%nat by lia.
    rewrite (packet_loop_motion _ _ _ _ _ _ _ _ _ _ _ _ Hb0 Hb1 Hb2) by (done || lia).
    apply (IH (after_motion p s)); unfold after_motion; cbn [counter reading_error total_packets hook_id_mouse];
      rewrite ?u32_small by lia; try done; lia.
Qed.

(** [mouse_test_packet] prints exactly the first [cnt] packets the mouse sends: when data
    reporting can be enabled and [cnt] motions arrive among any other messages,
    each packet is printed once, when its third byte has arrived, with the
    motion's displacements, buttons and overflow bits, and the driver stops
    there; the result is 0, or 1 when data reporting cannot be disabled. *)
Theorem mouse_test_packet_prints (cnt : Z) (fuel m : nat) (ps : list motion) (s : mouse_st)
    (w w1 w2 w3 w4 w5 : W) (r1 h r2 h' r : Z) :
  counter s = 0 -> reading_error s = false -> total_packets s = 0 ->
  cnt = Z.of_nat (length ps) -> cnt < 4294967296 -> Forall motion_wf ps ->
  enable_mouse_data fuel w = Done 0 w1 ->
  sys_irqsetpolicy IRQ12 (Z.lor IRQ_REENABLE IRQ_EXCLUSIVE) 1 w1 = ((r1, h), w2) ->
  moves fuel ps m w2 w3 -> (m < fuel)%nat ->
  sys_irqrmpolicy h w3 = ((r2, h'), w4) ->
  disable_mouse_data fuel w4 = Done r w5 ->
  exists s', mouse_test_packet fuel cnt (s, w) = Done (if r =? 0 then 0 else 1) (s', w5) /\
    total_packets s' = cnt.
Proof.
  intros Hc Hre Ht Hcnt Hmax Hwf E1 E2 Hm Hf E3 E4.
  assert (exists r0, kbc_subscribe (s, w1) = Done r0 (set_hook_id_mouse h s, w2)) as [r0 Hsub].
  { unfold kbc_subscribe, mouse_modify, bind, modify, zoom, call. simpl. rewrite E2. simpl.
    destruct (r1 =? 0); by eexists. }
  destruct (packet_loop_moves fuel ps m fuel cnt (set_hook_id_mouse h s) w2 w3) as (s' & Hloop & Htot & Hh);
    [done|done|done|done|simpl; lia|simpl; lia|done|done|].
  exists (set_hook_id_mouse h' s'). split; [|done].
  unfold mouse_test_packet. rewrite (bind_Done _ _ _ _ _ (zoom_Done snd_lens _ (s, w) _ _ E1)).
  cbn [Z.eqb negb lset snd_lens fst]. rewrite (bind_Done _ _ _ _ _ Hsub).
  rewrite (bind_Done _ _ _ _ _ Hloop). simpl in Hh.
  unfold kbc_unsubscribe, mouse_unsubscribe. rewrite !bind_assoc.
  rewrite (bind_Done _ _ _ _ _ (gets_eq _ _)). cbn [fst]. rewrite Hh, bind_assoc.
  rewrite (bind_Done _ _ _ _ _ (zoom_call_snd _ _ _ _ _ E3)). unfold mouse_modify. rewrite bind_assoc.
  rewrite (bind_Done _ _ _ _ _ (modify_eq _ _)).
  assert (forall c (k : Z -> M (mouse_st * W) Z) t, bind (if negb c then ret 1 else ret 0) (fun _ => k 0) t = k 0 t) as Hig
    by (by intros []).
  rewrite (Hig (r2 =? 0) (fun _ => let* r := zoom snd_lens (disable_mouse_data fuel) in
    if negb (r =? 0) then ret 1 else ret 0)).
  rewrite (bind_Done _ _ _ _ _ (zoom_Done snd_lens _ (_, w4) _ _ E4)). by destruct (r =? 0).
Qed.
End Motions.

(** ** The gesture

    The packets of a gesture: a stroke to the right and up with the left button
    ([p0], then [ups], all within the tolerance), any packets with the button still
    held, its release, any packets without the right button, and a stroke to the
    right and down with the right button ([p1], then [downs]) of at least [x_len]. *)
Section Gesture.
Variables (x_len tolerance : Z).
Implicit Types (l ps : list packet) (p : packet).

Definition gesture_step (s : Z * Z) (p : packet) : Z * Z := gesture_next x_len tolerance p s.1 s.2.
Definition gesture_run (s : Z * Z) (ps : list packet) : Z * Z := fold_left gesture_step ps s.

Definition sum_dx (ps : list packet) : Z := foldr (fun p a => delta_x p + a) 0 ps.

Definition up_ok (p : packet) : bool :=
  lb p && (delta_x p + tolerance >=? 0) && (delta_y p + tolerance >=? 0).
Definition down_ok (p : packet) : bool :=
  rb p && (delta_x p + tolerance >=? 0) && (delta_y p - tolerance <=? 0).

Definition up_stroke (l : list packet) : Prop :=
  exists pre p0 ups, l = pre ++ p0 :: ups /\ lb p0 = true /\ Forall (fun p => up_ok p = true) ups.
Definition up_held (l : list packet) : Prop :=
  exists l1 held, l = l1 ++ held /\ up_stroke l1 /\ Forall (fun p => lb p = true) held.
Definition up_released (l : list packet) : Prop :=
  exists l2 rel waits, l = l2 ++ rel :: waits /\ up_held l2 /\ lb rel = false /\
    Forall (fun p => rb p = false) waits.
Definition down_stroke (d : Z) (l : list packet) : Prop :=
  exists l3 p1 downs, l = l3 ++ p1 :: downs /\ up_released l3 /\ rb p1 = true /\
    Forall (fun p => down_ok p = true) downs /\ d = sum_dx downs.
Definition gesture_drawn (l : list packet) : Prop :=
  exists l5 last post d, l = l5 ++ last :: post /\ down_stroke d l5 /\ x_len <= d /\ rb last = false.

(** What is known of the packets in each state. *)
Definition stage (ce xd : Z) (l : list packet) : Prop :=
  match ce with
  | 0 => True
  | 1 => up_stroke l
  | 2 => up_held l
  | 3 => xd = 0 /\ up_released l
  | 4 => down_stroke xd l
  | 5 => x_len <= xd /\ down_stroke xd l
  | 6 => gesture_drawn l
  | _ => False
  end.

Lemma sum_dx_snoc ps p : sum_dx (ps ++ [p]) = sum_dx ps + delta_x p.
Proof. induction ps as [|q ps IH]; simpl; lia. Qed.

Lemma up_stroke_snoc l p : up_stroke l -> up_ok p = true -> up_stroke (l ++ [p]).
Proof.
  intros (pre & p0 & ups & -> & H1 & H2) Hp. exists pre, p0, (ups ++ [p]).
  rewrite <- app_assoc, app_comm_cons. split_and!; [done|done|]. by apply Forall_app_2; [|constructor].
Qed.

Lemma up_held_snoc l p : up_held l -> lb p = true -> up_held (l ++ [p]).
Proof.
  intros (l1 & held & -> & H1 & H2) Hp. exists l1, (held ++ [p]). rewrite <- app_assoc.
  split_and!; [done|done|]. by apply Forall_app_2; [|constructor].
Qed.

Lemma up_released_snoc l p : up_released l -> rb p = false -> up_released (l ++ [p]).
Proof.
  intros (l1 & r & ws & -> & H1 & H2 & H3) Hp. exists l1, r, (ws ++ [p]). rewrite <- app_assoc, app_comm_cons.
  split_and!; [done..|]. by apply Forall_app_2; [|constructor].
Qed.

Lemma down_stroke_snoc d l p : down_stroke d l -> down_ok p = true -> down_stroke (d + delta_x p) (l ++ [p]).
Proof.
  intros (l1 & r & ws & -> & H1 & H2 & H3 & ->) Hp. exists l1, r, (ws ++ [p]).
  rewrite <- app_assoc, app_comm_cons, sum_dx_snoc. split_and!; [done..| |done].
  by apply Forall_app_2; [|constructor].
Qed.

Lemma up_stroke_start l p : lb p = true -> up_stroke (l ++ [p]).
Proof. intros Hp. by exists l, p, []. Qed.

Lemma up_held_start l : up_stroke l -> up_held l.
Proof. intros Hl. exists l, []. by rewrite app_nil_r. Qed.

Lemma up_released_start l p : up_held l -> lb p = false -> up_released (l ++ [p]).
Proof. intros Hl Hp. by exists l, p, []. Qed.

Lemma down_stroke_start l p : up_released l -> rb p = true -> down_stroke 0 (l ++ [p]).
Proof. intros Hl Hp. by exists l, p, []. Qed.

Lemma gesture_drawn_start d l p : down_stroke d l -> x_len <= d -> rb p = false -> gesture_drawn (l ++ [p]).
Proof. intros Hl Hd Hp. by exists l, p, [], d. Qed.

Lemma gesture_drawn_snoc l p : gesture_drawn l -> gesture_drawn (l ++ [p]).
Proof.
  intros (l5 & q & post & d & -> & H1 & H2 & H3). exists l5, q, (post ++ [p]), d.
  by rewrite <- app_assoc, app_comm_cons.
Qed.

Create HintDb gesture.
#[local] Hint Resolve up_stroke_snoc up_held_snoc up_released_snoc down_stroke_snoc up_stroke_start
  up_held_start up_released_start down_stroke_start gesture_drawn_start gesture_drawn_snoc : gesture.

(** One packet, state by state. *)
Lemma next_0 p xd : gesture_next x_len tolerance p 0 xd = (if lb p then 1 else 0, xd).
Proof. unfold gesture_next. rewrite !andb_false_r. by destruct (lb p). Qed.

Lemma next_1 p xd :
  gesture_next x_len tolerance p 1 xd =
    if up_ok p then (if xd + delta_x p >=? x_len then 2 else 1, xd + delta_x p) else (0, 0).
Proof.
  unfold gesture_next, up_ok. rewrite andb_false_r, andb_true_r. simpl. by repeat case_match.
Qed.

Lemma next_2 p xd : gesture_next x_len tolerance p 2 xd = if lb p then (2, xd) else (3, 0).
Proof. unfold gesture_next. rewrite !andb_false_r, andb_true_r. simpl. by destruct (lb p). Qed.

Lemma next_3 p xd : gesture_next x_len tolerance p 3 xd = (if rb p then 4 else 3, xd).
Proof. unfold gesture_next. rewrite !andb_false_r, andb_true_r. simpl. by destruct (rb p). Qed.

Lemma next_4 p xd :
  gesture_next x_len tolerance p 4 xd =
    if down_ok p then (if xd + delta_x p >=? x_len then 5 else 4, xd + delta_x p) else (0, 0).
Proof.
  unfold gesture_next, down_ok. rewrite !andb_false_r, andb_true_r. simpl. by repeat case_match.
Qed.

Lemma next_5 p xd : gesture_next x_len tolerance p 5 xd = (if rb p then 0 else 6, xd).
Proof. unfold gesture_next. rewrite !andb_false_r, andb_true_r. simpl. by destruct (rb p). Qed.

Lemma next_6 p xd : gesture_next x_len tolerance p 6 xd = (6, xd).
Proof. unfold gesture_next. by rewrite !andb_false_r. Qed.

Lemma stage_states ce xd l : stage ce xd l -> ce = 0 \/ ce = 1 \/ ce = 2 \/ ce = 3 \/ ce = 4 \/ ce = 5 \/ ce = 6.
Proof. unfold stage. repeat case_match; intros; subst; try done; auto 10. Qed.

Lemma stage_step s p l : stage s.1 s.2 l -> stage (gesture_step s p).1 (gesture_step s p).2 (l ++ [p]).
Proof.
  destruct s as [ce xd]. unfold gesture_step. cbn [fst snd]. intros Hs.
  destruct (stage_states _ _ _ Hs) as [->|[->|[->|[->|[->|[->| ->]]]]]]; simpl in Hs;
    [rewrite next_0|rewrite next_1|rewrite next_2|rewrite next_3|rewrite next_4|rewrite next_5|rewrite next_6];
    repeat case_match; simpl; try done; auto with gesture.
  all: try (split; [lia|]); destruct_and?; subst; eauto with gesture.
Qed.

Lemma stage_run s ps l :
  stage s.1 s.2 l -> stage (gesture_run s ps).1 (gesture_run s ps).2 (l ++ ps).
Proof.
  revert s l. induction ps as [|p ps IH]; intros s l Hs; [by rewrite app_nil_r|].
  cbn [gesture_run fold_left]. rewrite cons_middle, app_assoc. apply IH. by apply stage_step.
Qed.

(** Only the gesture ends [mouse_test_gesture]: whatever the packets, when the state
    reaches 6 they contain a stroke to the right and up with the left button, its
    release, and a stroke to the right and down with the right button whose
    displacement is at least [x_len], followed by the release of the right button. *)
Theorem gesture_only_when_drawn (xd : Z) (ps : list packet) :
  (gesture_run (0, xd) ps).1 = 6 -> gesture_drawn ps.
Proof.
  intros E. pose proof (stage_run (0, xd) ps [] I) as H. by rewrite E in H.
Qed.

Lemma gesture_run_app s ps qs : gesture_run s (ps ++ qs) = gesture_run (gesture_run s ps) qs.
Proof. apply fold_left_app. Qed.

Lemma run_held xd held : Forall (fun p => lb p = true) held -> gesture_run (2, xd) held = (2, xd).
Proof.
  induction 1 as [|p held Hp _ IH]; [done|]. cbn [gesture_run fold_left]. unfold gesture_step at 2. simpl.
  by rewrite next_2, Hp.
Qed.

Lemma run_waits xd waits : Forall (fun p => rb p = false) waits -> gesture_run (3, xd) waits = (3, xd).
Proof.
  induction 1 as [|p ws Hp _ IH]; [done|]. cbn [gesture_run fold_left]. unfold gesture_step at 2. simpl.
  by rewrite next_3, Hp.
Qed.

Lemma up_ok_lb p : up_ok p = true -> lb p = true.
Proof. unfold up_ok. by destruct (lb p). Qed.

(** A stroke of at least [x_len] is accepted, also when it was long enough before its end. *)
Lemma run_ups xd ups :
  Forall (fun p => up_ok p = true) ups -> x_len <= xd + sum_dx ups -> xd < x_len ->
  exists xd', gesture_run (1, xd) ups = (2, xd').
Proof.
  intros Hu. revert xd. induction Hu as [|p ups Hp Hu IH]; intros xd Hx Hlt; simpl in Hx; [lia|].
  cbn [gesture_run fold_left]. unfold gesture_step at 2. simpl. rewrite next_1, Hp.
  destruct (Z.geb_spec (xd + delta_x p) x_len).
  - eexists. apply run_held. eapply Forall_impl; [done|]. apply up_ok_lb.
  - apply IH; lia.
Qed.

Lemma run_downs xd downs :
  Forall (fun p => down_ok p = true) downs ->
  (forall ds, ds `prefix_of` downs -> xd + sum_dx ds < x_len) ->
  gesture_run (4, xd) downs = (4, xd + sum_dx downs).
Proof.
  intros Hd. revert xd. induction Hd as [|p downs Hp Hd IH]; intros xd Hx; [simpl; by rewrite Z.add_0_r|].
  cbn [gesture_run fold_left sum_dx foldr]. unfold gesture_step at 2. simpl. rewrite next_4, Hp.
  pose proof (Hx [p] ltac:(by exists downs)) as H1. simpl in H1.
  replace (_ >=? _) with false by lia. etrans; [apply IH|unfold sum_dx; f_equal; lia].
  intros ds [k ->]. pose proof (Hx (p :: ds) ltac:(by exists k)) as H2. simpl in H2. lia.
Qed.

(** The gesture is recognised: drawn from the start with strokes of at least [x_len],
    the second of which reaches it with its last packet [d], it leads to state 6. *)
Theorem gesture_accepts (p0 rel p1 d last : packet) (ups held waits downs : list packet) :
  0 < x_len -> lb p0 = true -> Forall (fun p => up_ok p = true) ups -> x_len <= sum_dx ups ->
  Forall (fun p => lb p = true) held -> lb rel = false -> Forall (fun p => rb p = false) waits ->
  rb p1 = true -> Forall (fun p => down_ok p = true) (downs ++ [d]) ->
  (forall ds, ds `prefix_of` downs -> sum_dx ds < x_len) -> x_len <= sum_dx (downs ++ [d]) ->
  rb last = false ->
  (gesture_run (0, 0) (p0 :: ups ++ held ++ rel :: waits ++ p1 :: downs ++ [d; last])).1 = 6.
Proof.
  intros Hl H0 Hu Hsu Hh Hr Hw H1 Hd Hpre Hsd Hlast.
  apply Forall_app in Hd as [Hd [Hdd _]%Forall_cons].
  rewrite sum_dx_snoc in Hsd.
  change (p0 :: ?l) with ([p0] ++ l). change (rel :: ?l) with ([rel] ++ l). change (p1 :: ?l) with ([p1] ++ l).
  change [d; last] with ([d] ++ [last]). rewrite !gesture_run_app.
  assert (gesture_run (0, 0) [p0] = (1, 0)) as -> by (simpl; unfold gesture_step; simpl; by rewrite next_0, H0).
  destruct (run_ups 0 ups Hu) as [xd ->]; [lia..|]. rewrite run_held by done.
  assert (gesture_run (2, xd) [rel] = (3, 0)) as -> by (simpl; unfold gesture_step; simpl; by rewrite next_2, Hr).
  rewrite run_waits by done.
  assert (gesture_run (3, 0) [p1] = (4, 0)) as -> by (simpl; unfold gesture_step; simpl; by rewrite next_3, H1).
  rewrite (run_downs 0) by done.
  assert (gesture_run (4, 0 + sum_dx downs) [d] = (5, sum_dx downs + delta_x d)) as ->.
  { simpl. unfold gesture_step. simpl. rewrite next_4, Hdd. by replace (_ >=? _) with true by lia. }
  simpl. unfold gesture_step. simpl. by rewrite next_5, Hlast.
Qed.

(** *** The gesture as a machine over packets

    What the recogniser has seen, without its numbers of states: [d] is the
    displacement to the right of the current stroke. *)
Inductive drawing : Type :=
  | Idle (d : Z)
  | Rising (d : Z)
  | Risen
  | Lifted
  | Falling (d : Z)
  | Fallen (d : Z)
  | Drawn.

(** A movement to the right and up with the left button pressed, or to the right and
    down with the right button, up to the tolerance. *)
Definition right_up (p : packet) : Prop := lb p = true /\ - tolerance <= delta_x p /\ - tolerance <= delta_y p.
Definition right_down (p : packet) : Prop := rb p = true /\ - tolerance <= delta_x p /\ delta_y p <= tolerance.

Inductive draws : drawing -> packet -> drawing -> Prop :=
  | draws_press d p : lb p = true -> draws (Idle d) p (Rising d)
  | draws_rest d p : lb p = false -> draws (Idle d) p (Idle d)
  | draws_rise d p : right_up p -> d + delta_x p < x_len -> draws (Rising d) p (Rising (d + delta_x p))
  | draws_risen d p : right_up p -> x_len <= d + delta_x p -> draws (Rising d) p Risen
  | draws_no_rise d p : ~ right_up p -> draws (Rising d) p (Idle 0)
  | draws_hold p : lb p = true -> draws Risen p Risen
  | draws_lift p : lb p = false -> draws Risen p Lifted
  | draws_wait p : rb p = false -> draws Lifted p Lifted
  | draws_second p : rb p = true -> draws Lifted p (Falling 0)
  | draws_fall d p : right_down p -> d + delta_x p < x_len -> draws (Falling d) p (Falling (d + delta_x p))
  | draws_fallen d p : right_down p -> x_len <= d + delta_x p -> draws (Falling d) p (Fallen (d + delta_x p))
  | draws_no_fall d p : ~ right_down p -> draws (Falling d) p (Idle 0)
  | draws_end d p : rb p = false -> draws (Fallen d) p Drawn
  | draws_beyond d p : rb p = true -> draws (Fallen d) p (Idle d)
  | draws_drawn p : draws Drawn p Drawn.

Inductive draws_all : drawing -> list packet -> drawing -> Prop :=
  | draws_nothing g : draws_all g [] g
  | draws_then g g1 g2 p ps : draws g p g1 -> draws_all g1 ps g2 -> draws_all g (p :: ps) g2.

(** The variables [counter_exit] and [x_displacement] of the program. *)
Definition keeps_track (s : Z * Z) (g : drawing) : Prop :=
  match g with
  | Idle d => s = (0, d)
  | Rising d => s = (1, d)
  | Risen => s.1 = 2
  | Lifted => s = (3, 0)
  | Falling d => s = (4, d)
  | Fallen d => s = (5, d)
  | Drawn => s.1 = 6
  end.

Lemma up_ok_spec p : reflect (right_up p) (up_ok p).
Proof. unfold up_ok, right_up. destruct (lb p); simpl; [|by right; intros []]. apply iff_reflect. rewrite andb_true_iff. lia. Qed.

Lemma down_ok_spec p : reflect (right_down p) (down_ok p).
Proof. unfold down_ok, right_down. destruct (rb p); simpl; [|by right; intros []]. apply iff_reflect. rewrite andb_true_iff. lia. Qed.

(** The program's variables follow the machine. *)
Lemma track_step s g p g' : keeps_track s g -> draws g p g' -> keeps_track (gesture_step s p) g'.
Proof.
  destruct s as [ce xd]. unfold gesture_step. cbn [fst snd].
  intros Hs Hd. destruct Hd; cbn [keeps_track fst] in *; try injection Hs as -> ->; subst;
    rewrite ?next_0, ?next_1, ?next_2, ?next_3, ?next_4, ?next_5, ?next_6;
    try (destruct (up_ok_spec p); [|done]); try (destruct (down_ok_spec p); [|done]);
    try match goal with Hb : ?b = _ |- context [?b] => rewrite Hb end; simpl; try done.
  all: first [replace (_ >=? _) with true by lia; done|replace (_ >=? _) with false by lia; done].
Qed.

Lemma track_run s g ps g' : draws_all g ps g' -> keeps_track s g -> keeps_track (gesture_run s ps) g'.
Proof.
  intros Hd. revert s. induction Hd as [g|g g1 g2 p ps Hp _ IH]; intros s Hs; [done|].
  cbn [gesture_run fold_left]. apply IH. by eapply track_step.
Qed.

(** The machine goes on with every packet. *)
Lemma draws_total g p : exists g', draws g p g'.
Proof.
  destruct g as [d|d| | |d|d|].
  - destruct (lb p) eqn:E; eexists; by constructor.
  - destruct (up_ok_spec p); [destruct (Z.lt_ge_cases (d + delta_x p) x_len)|]; eexists; by constructor.
  - destruct (lb p) eqn:E; eexists; by constructor.
  - destruct (rb p) eqn:E; eexists; by constructor.
  - destruct (down_ok_spec p); [destruct (Z.lt_ge_cases (d + delta_x p) x_len)|]; eexists; by constructor.
  - destruct (rb p) eqn:E; eexists; by constructor.
  - eexists. constructor.
Qed.

Lemma draws_all_total g ps : exists g', draws_all g ps g'.
Proof.
  revert g. induction ps as [|p ps IH]; intros g; [eexists; constructor|].
  destruct (draws_total g p) as [g1 Hp]. destruct (IH g1) as [g2 Hps]. exists g2. by econstructor.
Qed.

Lemma run_drawn xd ps : (gesture_run (0, xd) ps).1 = 6 <-> draws_all (Idle xd) ps Drawn.
Proof.
  split; [|intros Hd; exact (track_run (0, xd) _ _ _ Hd eq_refl)].
  intros E. destruct (draws_all_total (Idle xd) ps) as [g Hg].
  pose proof (track_run (0, xd) _ _ _ Hg eq_refl) as Ht. destruct g; cbn in Ht; try done; by rewrite Ht in E.
Qed.

(** A packet more in the second stroke than needed breaks the gesture, and leaves the
    displacement behind: after it the first stroke of the next attempt is
    accepted at once, without any movement of the mouse. *)
Theorem gesture_overshoot (xd : Z) (p p0 still : packet) :
  x_len <= xd -> rb p = true -> lb p0 = true -> up_ok still = true -> delta_x still = 0 ->
  gesture_run (5, xd) [p] = (0, xd) /\ gesture_run (5, xd) [p; p0; still] = (2, xd).
Proof.
  intros Hx Hp H0 Hs Hd. simpl. unfold gesture_step. simpl. rewrite next_5, Hp. simpl.
  rewrite next_0, H0. simpl. rewrite next_1, Hs, Hd, Z.add_0_r. split; [done|].
  by replace (xd >=? x_len) with true by lia.
Qed.
End Gesture.

(** ** The gesture with the mouse *)
Section GestureLoop.
Context {W : Type} `{PortIO W, Irq W, Lcf W, Messages W}.
Variables (x_len tolerance : Z).

Definition gesture_loop (fuel0 fuel : nat) : M (lab4_st * W) unit :=
  interrupt_loop fuel (fun s => negb (counter_exit s =? 6)) (gesture_handle fuel0 x_len tolerance).

Lemma gesture_other fuel i (s : lab4_st * W) :
  mouse_irq i = false -> gesture_handle fuel x_len tolerance i s = Done tt s.
Proof. unfold gesture_handle, mouse_irq. by intros ->. Qed.

(** What a byte does, once it has gone through [print_mouse_packet]. *)
Definition after_byte_of_gesture (s : lab4_st) (m : mouse_st) : lab4_st :=
  if counter m =? 0 then
    let r := gesture_next x_len tolerance (packet1 m) (counter_exit s) (x_displacement s) in
    set_gesture r.1 r.2 (set_l4_mouse m s)
  else set_l4_mouse m s.

Lemma gesture_loop_byte fuel0 n fuel s (w w' : W) b m' w'' :
  mouse_byte fuel0 n w b w' -> counter_exit s <> 6 -> is_int (counter (l4_mouse s) + 1) = true ->
  reading_error (l4_mouse s) = false ->
  print_mouse_packet (set_read_packet b (l4_mouse s), w') = Done tt (m', w'') ->
  (counter m' = 0 ->
   is_int (gesture_next x_len tolerance (packet1 m') (counter_exit s) (x_displacement s)).2 = true) ->
  gesture_loop fuel0 (fuel + S n) (s, w) = gesture_loop fuel0 fuel (after_byte_of_gesture s m', w'').
Proof.
  intros (i & w1 & st & Hh & Ha & Hg) Hlt Hi Hre E Hint. unfold gesture_loop.
  rewrite (interrupt_loop_hears mouse_irq _ _ (gesture_other fuel0) n _ _ w w1 i);
    [|apply negb_true_iff; lia|done].
  pose proof (hears_relevant _ _ _ _ _ Hh) as Hr. unfold mouse_irq in Hr.
  erewrite bind_Done; [done|]. unfold gesture_handle. rewrite Hr.
  assert (zoom mouse_lens (mouse_interrupt fuel0) (s, w1) = Done Processed (set_l4_mouse m' s, w'')) as Hz.
  { unfold zoom. cbn [lget mouse_lens fst snd].
    rewrite (mouse_interrupt_good _ _ _ _ _ _ Ha Hi Hg Hre). by rewrite (bind_Done _ _ _ _ _ E). }
  rewrite (bind_Done _ _ _ _ _ Hz), (bind_Done _ _ _ _ _ (gets_eq _ _)).
  unfold after_byte_of_gesture. cbn [fst l4_mouse counter_exit x_displacement set_l4_mouse].
  destruct (Z.eqb_spec (counter m') 0) as [Hc|]; [|done]. specialize (Hint Hc).
  destruct (gesture_next _ _ _ _ _) as [ce xd]. cbn [snd] in Hint.
  by rewrite (bind_Done _ _ _ _ _ (int_eq _ _ Hint)).
Qed.

(** The state when the packet of [p] is complete. *)
Definition after_gesture_motion (p : motion) (s : lab4_st) : lab4_st :=
  let r := gesture_next x_len tolerance (motion_packet p) (counter_exit s) (x_displacement s) in
  set_gesture r.1 r.2 (set_l4_mouse (after_motion p (l4_mouse s)) s).

Lemma gesture_loop_motion fuel0 p n0 n1 n2 fuel s (w w1 w2 w3 : W) :
  mouse_byte fuel0 n0 w (motion_byte0 p) w1 ->
  mouse_byte fuel0 n1 w1 (dx p mod 256) w2 ->
  mouse_byte fuel0 n2 w2 (dy p mod 256) w3 ->
  motion_wf p -> counter (l4_mouse s) = 0 -> reading_error (l4_mouse s) = false -> counter_exit s <> 6 ->
  is_int (gesture_next x_len tolerance (motion_packet p) (counter_exit s) (x_displacement s)).2 = true ->
  gesture_loop fuel0 (fuel + S n2 + S n1 + S n0) (s, w) =
    gesture_loop fuel0 fuel (after_gesture_motion p s, mouse_print_packet (motion_packet p) w3).
Proof.
  intros Hb0 Hb1 Hb2 Hp Hc Hre Hlt Hint. destruct s as [[pk rp sy c h t re] tm xd ce]. simpl in *. subst.
  erewrite gesture_loop_byte; [|done|done|done|done|
    apply print_first; [done|right; by apply motion_bit3]|done].
  erewrite gesture_loop_byte; [|done|done|done|done|by apply print_second|done].
  erewrite gesture_loop_byte; [|done|done|done|done|by apply print_third|];
    cbn [bytes0 bytes1 set_bytes0 set_bytes1 packet1 set_packet1 set_counter l4_mouse after_byte_of_gesture
         counter Z.eqb set_l4_mouse set_total_packets counter_exit x_displacement]; rewrite parse_motion by done; done.
Qed.

Lemma gesture_next_range p ce xd :
  Z.abs (gesture_next x_len tolerance p ce xd).2 <= Z.abs xd + Z.abs (delta_x p).
Proof. unfold gesture_next. repeat case_match; simpl; lia. Qed.

(** Motions go through the states of the gesture one by one. *)
Lemma gesture_loop_moves fuel0 ps m fuel s (w w' : W) :
  moves fuel0 ps m w w' -> Forall motion_wf ps -> counter (l4_mouse s) = 0 ->
  reading_error (l4_mouse s) = false ->
  Z.abs (x_displacement s) + 256 * Z.of_nat (length ps) <= INT_MAX ->
  (forall qs, qs `prefix_of` ps -> qs <> ps ->
    (gesture_run x_len tolerance (counter_exit s, x_displacement s) (map motion_packet qs)).1 <> 6) ->
  (gesture_run x_len tolerance (counter_exit s, x_displacement s) (map motion_packet ps)).1 = 6 ->
  (m < fuel)%nat ->
  exists s', gesture_loop fuel0 fuel (s, w) = Done tt (s', w') /\
    hook_id_mouse (l4_mouse s') = hook_id_mouse (l4_mouse s).
Proof.
  intros Hm. revert s fuel.
  induction Hm as [w|p ps n0 n1 n2 m w w1 w2 w3 w' Hb0 Hb1 Hb2 _ IH]; intros s fuel Hwf Hc Hre Hx Hpre H6 Hf.
  - exists s. split; [|done]. apply interrupt_loop_done; [lia|]. simpl in H6. by rewrite H6.
  - apply Forall_cons in Hwf as [Hp Hwf]. cbn [length] in Hx.
    pose proof (gesture_next_range (motion_packet p) (counter_exit s) (x_displacement s)) as Hr.
    assert (Z.abs (delta_x (motion_packet p)) <= 256) as Hdx by (destruct Hp; simpl; lia).
    assert (counter_exit s <> 6) as Hne by (apply (Hpre []); [apply prefix_nil|done]).
    replace fuel with ((fuel - (S n2 + S n1 + S n0)) + S n2 + S n1 + S n0)%nat by lia.
    rewrite (gesture_loop_motion _ _ _ _ _ _ _ _ _ _ _ Hb0 Hb1 Hb2) by
      (done || (apply is_int_spec; unfold INT_MIN, INT_MAX in *; lia)).
    unfold after_gesture_motion.
    apply (IH (set_gesture _ _ (set_l4_mouse (after_motion p (l4_mouse s)) s)));
      cbn [l4_mouse set_gesture set_l4_mouse counter reading_error after_motion x_displacement counter_exit];
      rewrite <- ?surjective_pairing; [done|done|done|lia| |done|lia].
    intros qs [k Hk] Hq. apply (Hpre (p :: qs)); [exists k; by rewrite Hk|congruence].
Qed.

End GestureLoop.

(** ** Examples *)

Lemma script_mouse_byte fuel w l b r :
  s_msgs w = irq 2 :: l -> s_in w = (0, st_full) :: (0, b) :: r -> 0 <= b < 256 -> (0 < fuel)%nat ->
  mouse_byte fuel 0 w b (after_byte (with_msgs l w)) /\
  s_msgs (after_byte (with_msgs l w)) = l /\ s_in (after_byte (with_msgs l w)) = r.
Proof.
  intros Hm Hi Hb Hf. destruct w as [i ra ms mo lo]. simpl in *. subst. split_and!; [|done|done].
  eexists 2, _, st_full. split_and!.
  - by apply (script_hears mouse_irq _ 2 l).
  - apply script_arrives; [done|done|done|]. unfold inb_result. simpl. f_equal. by apply u8_small.
  - done.
Qed.

Definition motion_reads (ps : list motion) : list (Z * Z) :=
  flat_map (fun p => flat_map (fun b => [(0, st_full); (0, b)]) (motion_bytes p)) ps.

Lemma script_moves fuel ps w r :
  s_msgs w = concat (map (fun _ => [irq 2; irq 2; irq 2]) ps) -> s_in w = motion_reads ps ++ r -> (0 < fuel)%nat ->
  exists w', moves fuel ps (3 * length ps) w w' /\ s_in w' = r.
Proof.
  intros Hm Hi Hf. revert w Hm Hi. induction ps as [|p ps IH]; intros w Hm Hi; cbn in Hm, Hi.
  - exists w. split; [constructor|done].
  - set (l := concat (map (fun _ => [irq 2; irq 2; irq 2]) ps)) in *.
    destruct (script_mouse_byte fuel w _ _ _ Hm Hi (motion_byte0_range p) Hf) as (H0 & Hm0 & Hi0).
    destruct (script_mouse_byte fuel _ _ _ _ Hm0 Hi0 (Z.mod_pos_bound (dx p) 256 eq_refl) Hf) as (H1 & Hm1 & Hi1).
    destruct (script_mouse_byte fuel _ _ _ _ Hm1 Hi1 (Z.mod_pos_bound (dy p) 256 eq_refl) Hf) as (H2 & Hm2 & Hi2).
    destruct (IH (mouse_print_packet (motion_packet p) (after_byte (with_msgs l
      (after_byte (with_msgs (irq 2 :: l) (after_byte (with_msgs (irq 2 :: irq 2 :: l) w))))))))
      as (w' & Hmv & Hr); [done|done|].
    exists w'. split; [|done]. cbn [length].
    replace (3 * S (length ps))%nat with (3 * length ps + 1 + 1 + 1)%nat by lia.
    by apply (moves_cons fuel p ps 0 0 0 _ _ _ _ _ _ H0 H1 H2).
Qed.

(** The answers to two commands, each accepted at once. *)
Definition two_acks : list (Z * Z) := [(0, 0); (0, 0); (0, IS_OK); (0, 0); (0, 0); (0, IS_OK)].

Lemma script_disable w : s_in w = two_acks -> exists w', disable_mouse_data 10 w = Done 0 w'.
Proof. destruct w as [i ra ms mo lo]. simpl. intros ->. eexists. vm_compute. reflexivity. Qed.

Definition lab4_script (ps : list motion) : script :=
  with_in (two_acks ++ motion_reads ps ++ two_acks)
    (with_msgs (concat (map (fun _ => [irq 2; irq 2; irq 2]) ps)) script0).

(** The scripted world when the mouse is enabled and its line subscribed. *)
Definition lab4_ready (ps : list motion) : script :=
  match enable_mouse_data 10 (lab4_script ps) with
  | Done _ w => (sys_irqsetpolicy IRQ12 (Z.lor IRQ_REENABLE IRQ_EXCLUSIVE) 1 w).2
  | _ => script0
  end.

Lemma mouse_test_packet_prints_witness :
  let ps := [Motion (-3) 17 true false false false false; Motion 200 (-256) false true false true false] in
  exists s' w', mouse_test_packet 10 2 (mouse_init_st, lab4_script ps) = Done 0 (s', w') /\ total_packets s' = 2.
Proof.
  intros ps. destruct (script_moves 10 ps (lab4_ready ps) two_acks) as (w3 & Hm & Hr); [reflexivity..|lia|].
  destruct (script_disable (log (EIrqRm 1) w3) Hr) as [w5 Hd].
  epose proof (mouse_test_packet_prints 2 10 6 ps mouse_init_st (lab4_script ps) _ (lab4_ready ps) w3 _ w5 0 1 0 1 0
    eq_refl eq_refl eq_refl eq_refl eq_refl) as H.
  destruct H as (s' & E & Ht); [repeat constructor; simpl; lia|vm_compute; reflexivity|reflexivity|done|lia|
    reflexivity|exact Hd|].
  exists s', w5. split; [exact E|exact Ht].
Defined.

Lemma proper_prefix_take {A} (qs ps : list A) :
  qs `prefix_of` ps -> qs <> ps -> exists n : nat, (n < length ps)%nat /\ qs = firstn n ps.
Proof.
  intros [k ->] Hne. exists (length qs). rewrite take_app_length, length_app. split; [|done].
  destruct k; [by rewrite app_nil_r in Hne|simpl; lia].
Qed.

(** A gesture with strokes of 100 in packets of 60: left button, two up, release, right
    button, two down, release. *)
Definition gesture_motions : list motion :=
  [Motion 0 0 true false false false false; Motion 60 50 true false false false false;
   Motion 60 50 true false false false false; Motion 0 0 false false false false false;
   Motion 0 0 false true false false false; Motion 60 (-50) false true false false false;
   Motion 60 (-50) false true false false false; Motion 0 0 false false false false false].

Lemma gesture_only_when_drawn_witness :
  (gesture_run 100 10 (0, 0) (map motion_packet gesture_motions)).1 = 6 /\
  gesture_drawn 100 10 (map motion_packet gesture_motions).
Proof. split; [reflexivity|]. apply (gesture_only_when_drawn 100 10 0). reflexivity. Defined.

Lemma gesture_overshoot_witness :
  gesture_run 100 10 (5, 120) [motion_packet (Motion 5 0 false true false false false)] = (0, 120) /\
  gesture_run 100 10 (5, 120) (map motion_packet [Motion 5 0 false true false false false;
    Motion 0 0 true false false false false; Motion 0 0 true false false false false]) = (2, 120).
Proof.
  apply (gesture_overshoot 100 10 120 _ _ (motion_packet (Motion 0 0 true false false false false)));
    first [lia|reflexivity].
Defined.


Lemma gesture_accepts_witness :
  (gesture_run 100 10 (0, 0) (map motion_packet gesture_motions)).1 = 6.
Proof.
  apply (gesture_accepts 100 10 (motion_packet (Motion 0 0 true false false false false))
    (motion_packet (Motion 0 0 false false false false false))
    (motion_packet (Motion 0 0 false true false false false))
    (motion_packet (Motion 60 (-50) false true false false false))
    (motion_packet (Motion 0 0 false false false false false))
    (map motion_packet [Motion 60 50 true false false false false; Motion 60 50 true false false false false])
    [] [] [motion_packet (Motion 60 (-50) false true false false false)]);
    try (repeat constructor; fail); try discriminate; try reflexivity.
  intros ds [k Hk]. destruct ds as [|d [|? ?]]; [reflexivity|injection Hk as <- _; reflexivity|discriminate Hk].
Defined.
