(* ===== verification/Lab4Idle.v ===== *)
(** lab4: [mouse_test_async], which prints packets until the mouse has been idle for
    some seconds. The ticks and bytes that arrive are events; the test's count of
    ticks follows them. *)
From S2P Require Import Prelude Env Utils Timer Interrupts I8042 Mouse Lab2 Lab4.

Inductive async_event : Type :=
  | Tick
  | Byte (b : Z).

(** The ticks since the last byte, [t] at the start. *)
Fixpoint idle_ticks (t : Z) (evs : list async_event) : Z :=
  match evs with
  | [] => t
  | Tick :: evs => idle_ticks (t + 1) evs
  | Byte _ :: evs => idle_ticks 0 evs
  end.

Definition async_irq (i : Z) : bool := has i (BIT 1) || has i (BIT IRQ0).

(** A driver without a pending error. *)
Definition steady (s : mouse_st) : Prop := 0 <= counter s <= 2 /\ reading_error s = false.

Section Idle.
Context {W : Type} `{PortIO W, Irq W, Lcf W, Messages W}.

(** A byte arrives without error and goes through [print_mouse_packet]. *)
Definition takes_byte (fuel : nat) (b : Z) (c c' : mouse_st * W) : Prop :=
  exists st w, arrives fuel c.2 st (Some b) w /\ byte_good st (Some b) = true /\
    print_mouse_packet (set_read_packet b c.1, w) = Done tt c'.

(** The events happen, in [m] messages: ticks and bytes alone or, in one message, a
    byte and a tick, which the test handles in this order. *)
Inductive happens (fuel : nat) : list async_event -> nat -> mouse_st * W -> mouse_st * W -> Prop :=
  | happens_nil c : happens fuel [] 0 c c
  | happens_tick evs n m i s w w1 c :
      hears async_irq n w i w1 -> has i (BIT 1) = false ->
      happens fuel evs m (s, w1) c -> happens fuel (Tick :: evs) (m + S n) (s, w) c
  | happens_byte evs n m i b s w w1 c1 c :
      hears async_irq n w i w1 -> has i (BIT 1) = true -> has i (BIT IRQ0) = false ->
      takes_byte fuel b (s, w1) c1 ->
      happens fuel evs m c1 c -> happens fuel (Byte b :: evs) (m + S n) (s, w) c
  | happens_both evs n m i b s w w1 c1 c :
      hears async_irq n w i w1 -> has i (BIT 1) = true -> has i (BIT IRQ0) = true ->
      takes_byte fuel b (s, w1) c1 ->
      happens fuel evs m c1 c -> happens fuel (Byte b :: Tick :: evs) (m + S n) (s, w) c.

(** * Lemmas *)

(** Printing keeps the driver steady. *)
Lemma print_steady b s (w w' : W) s' :
  steady s -> print_mouse_packet (set_read_packet b s, w) = Done tt (s', w') ->
  steady s' /\ hook_id_mouse s' = hook_id_mouse s.
Proof.
  destruct s as [pk rp sy c h t re]. intros [Hc Hre]. simpl in *. subst.
  assert (c = 0 \/ c = 1 \/ c = 2) as Hcs by lia. unfold steady, print_mouse_packet, counter_incr, mouse_modify, int_,
    bind, modify, gets, zoom. simpl.
  destruct Hcs as [-> | [-> | ->] ]; destruct sy; simpl; try (destruct (Z.land b 8 =? 0); simpl);
    intros [= <- _]; simpl; (split; [split; [lia|done]|done]).
Qed.

Lemma takes_byte_steady fuel b s (w : W) s' w' :
  steady s -> takes_byte fuel b (s, w) (s', w') -> steady s' /\ hook_id_mouse s' = hook_id_mouse s.
Proof. intros Hs (st & w1 & _ & _ & E). by eapply print_steady. Qed.

Lemma mouse_interrupt_takes fuel b s (w : W) c' :
  steady s -> takes_byte fuel b (s, w) c' -> mouse_interrupt fuel (s, w) = Done Processed c'.
Proof.
  intros [Hc Hre] (st & w1 & Ha & Hg & E).
  rewrite (mouse_interrupt_good _ _ _ _ _ _ Ha) by (done || (apply is_int_spec; unfold INT_MIN, INT_MAX; lia)).
  by rewrite (bind_Done _ _ _ _ _ E).
Qed.

Lemma async_other fuel i (s : lab4_st * W) : async_irq i = false -> async_handle fuel i s = Done tt s.
Proof. unfold async_irq, async_handle. intros [-> ->]%orb_false_iff. done. Qed.

(** The state of the test: the mouse's globals, the ticks and the timer's hook. *)
Definition async_st (m : mouse_st) (t h : Z) (s : lab4_st) : lab4_st := set_l4_timer (TimerSt t h) (set_l4_mouse m s).

Lemma async_tick fuel i m t h s (w : W) :
  has i (BIT 1) = false -> has i (BIT IRQ0) = true -> 0 <= t < INT_MAX ->
  async_handle fuel i (async_st m t h s, w) = Done tt (async_st m (t + 1) h s, w).
Proof.
  intros Hb Htk Ht. unfold async_handle. rewrite Hb, Htk. unfold zoom, timer_int_handler, Lab2.timer_int_handler,
    Timer.timer_int_handler, bind, gets, modify. simpl.
  by rewrite int_eq by (apply is_int_spec; unfold INT_MIN, INT_MAX in *; lia).
Qed.

Lemma async_byte fuel i b m t h s (w w' : W) m' :
  has i (BIT 1) = true -> steady m -> takes_byte fuel b (m, w) (m', w') ->
  async_handle fuel i (async_st m t h s, w) =
    Done tt (async_st m' (if has i (BIT IRQ0) then 1 else 0) h s, w').
Proof.
  intros Hi Hm Hb. unfold async_handle. rewrite Hi. pose proof (mouse_interrupt_takes _ _ _ _ _ Hm Hb) as E.
  unfold bind at 1 2, modify, zoom at 1. simpl. rewrite E. simpl.
  by destruct (has i (BIT IRQ0)).
Qed.

Definition async_loop (fuel0 fuel : nat) (limit : Z) : M (lab4_st * W) unit :=
  interrupt_loop fuel (fun s => tmr_tck_counter (l4_timer s) <? limit) (async_handle fuel0).

(** A message, when its handler is known. *)
Lemma async_round fuel0 fuel n limit m t h s (w w1 : W) i c :
  hears async_irq n w i w1 -> t < limit -> async_handle fuel0 i (async_st m t h s, w1) = Done tt c ->
  async_loop fuel0 (fuel + S n) limit (async_st m t h s, w) = async_loop fuel0 fuel limit c.
Proof.
  intros Hh Ht E. unfold async_loop.
  rewrite (interrupt_loop_hears async_irq _ _ (async_other fuel0) n _ _ w w1 i); [|by apply Z.ltb_lt|exact Hh].
  by rewrite (bind_Done _ _ _ _ _ E).
Qed.

(** The test goes on before every event of [evs], and stops behind them. *)
Definition first_idle (limit t : Z) (evs : list async_event) : Prop :=
  (forall qs, qs `prefix_of` evs -> qs <> evs -> idle_ticks t qs < limit) /\ idle_ticks t evs = limit.

Lemma first_idle_now limit t e evs : first_idle limit t (e :: evs) -> t < limit.
Proof. intros [Hp _]. apply (Hp []); [apply prefix_nil|done]. Qed.

Lemma first_idle_next limit t e evs :
  first_idle limit t (e :: evs) -> first_idle limit (match e with Tick => t + 1 | Byte _ => 0 end) evs.
Proof.
  intros [Hp He]. split; [|by destruct e]. intros qs [k Hk] Hne.
  specialize (Hp (e :: qs) ltac:(exists k; by rewrite Hk) ltac:(congruence)). by destruct e.
Qed.

Lemma async_loop_idles fuel0 fuel limit evs k m t h s (w : W) m' w' :
  happens fuel0 evs k (m, w) (m', w') -> steady m -> 0 <= t -> limit <= INT_MAX -> first_idle limit t evs ->
  (k < fuel)%nat ->
  async_loop fuel0 fuel limit (async_st m t h s, w) = Done tt (async_st m' limit h s, w') /\
    hook_id_mouse m' = hook_id_mouse m.
Proof.
  intros Hev. remember (m, w) as c eqn:Ec. remember (m', w') as c' eqn:Ec'. revert fuel m w t Ec.
  induction Hev as [c|evs n k i m0 w0 w1 c Hh Hb _ IH|evs n k i b m0 w0 w1 [m1 w2] c Hh Hb Htk Ht _ IH|
      evs n k i b m0 w0 w1 [m1 w2] c Hh Hb Htk Ht _ IH];
    intros fuel m w t Ec Hm Ht0 Hmax Hf Hk; [|injection Ec as -> ->..].
  - subst c. injection Ec as -> ->. destruct Hf as [_ He]. simpl in He. subst t. split; [|done].
    apply interrupt_loop_done; [lia|]. simpl. lia.
  - pose proof (first_idle_now _ _ _ _ Hf) as Hlt. pose proof (hears_relevant _ _ _ _ _ Hh) as Hr.
    unfold async_irq in Hr. rewrite Hb in Hr. replace fuel with ((fuel - S n) + S n)%nat by lia.
    rewrite (async_round _ _ _ _ _ _ _ _ _ _ _ _ Hh Hlt (async_tick _ _ _ _ _ _ _ Hb Hr (conj Ht0 (Z.lt_le_trans _ _ _ Hlt Hmax)))).
    apply IH; [done|done|done|lia|done|exact (first_idle_next _ _ _ _ Hf)|lia].
  - pose proof (first_idle_now _ _ _ _ Hf) as Hlt. destruct (takes_byte_steady _ _ _ _ _ _ Hm Ht) as [Hm1 Hh1].
    replace fuel with ((fuel - S n) + S n)%nat by lia.
    rewrite (async_round _ _ _ _ _ _ _ _ _ _ _ _ Hh Hlt (async_byte _ _ _ _ _ _ _ _ _ _ Hb Hm Ht)), Htk, <- Hh1.
    apply IH; [done|done|done|lia|done|exact (first_idle_next _ _ _ _ Hf)|lia].
  - pose proof (first_idle_now _ _ _ _ Hf) as Hlt. destruct (takes_byte_steady _ _ _ _ _ _ Hm Ht) as [Hm1 Hh1].
    replace fuel with ((fuel - S n) + S n)%nat by lia.
    rewrite (async_round _ _ _ _ _ _ _ _ _ _ _ _ Hh Hlt (async_byte _ _ _ _ _ _ _ _ _ _ Hb Hm Ht)), Htk, <- Hh1.
    apply IH; [done|done|done|lia|done|exact (first_idle_next _ _ _ _ (first_idle_next _ _ _ _ Hf))|lia].
Qed.
End Idle.

(** A count of ticks that starts at 0 has the last events as its ticks. *)
Lemma idle_ticks_last evs t :
  0 <= t -> exists before k : nat, (before <= length evs)%nat /\ drop before evs = replicate k Tick /\
    idle_ticks t evs = Z.of_nat k + if (before =? 0)%nat then t else 0.
Proof.
  revert t. induction evs as [|[|b] evs IH]; intros t Ht; simpl.
  - by exists 0%nat, 0%nat.
  - destruct (IH (t + 1) ltac:(lia)) as ([|before] & k & Hl & Hd & ->).
    + exists 0%nat, (S k). rewrite drop_0 in *. split_and!; [lia|by rewrite Hd|]. simpl. lia.
    + exists (S (S before)), k. simpl in *. split_and!; [lia|done|lia].
  - destruct (IH 0 ltac:(lia)) as (before & k & Hl & Hd & ->). exists (S before), k. simpl.
    split_and!; [lia|done|]. destruct (before =? 0)%nat; lia.
Qed.

Section IdleTheorem.
Context {W : Type} `{PortIO W, Irq W, Lcf W, Messages W}.

(** [mouse_test_async] ends when the mouse has been idle for [idle_time] seconds of
    60 ticks: whatever bytes arrive in between, in packets or not, if the ticks
    since the last byte reach [60 * idle_time] for the first time behind the
    events [evs], the test reads exactly these events (the last of which are that
    many ticks), gives both lines back, ignoring the results, and returns 0. One
    more round than there are messages is enough. *)
Theorem mouse_test_async_idles (idle_time : Z) (fuel k : nat) (evs : list async_event) (s : lab4_st) (m' : mouse_st)
    (w w1 w2 w3 w4 w5 w6 w7 : W) (r1 h r2 ht r3 h' r r4 ht' : Z) :
  0 <= idle_time < 256 -> steady (l4_mouse s) -> tmr_tck_counter (l4_timer s) = 0 ->
  first_idle (idle_time * 60) 0 evs ->
  enable_mouse_data fuel w = Done 0 w1 ->
  sys_irqsetpolicy IRQ12 (Z.lor IRQ_REENABLE IRQ_EXCLUSIVE) 1 w1 = ((r1, h), w2) ->
  sys_irqsetpolicy TIMER0_IRQ IRQ_REENABLE TIMER0_IRQ w2 = ((r2, ht), w3) ->
  happens fuel evs k (set_hook_id_mouse h (l4_mouse s), w3) (m', w4) -> (k < fuel)%nat ->
  sys_irqrmpolicy h w4 = ((r3, h'), w5) ->
  disable_mouse_data fuel w5 = Done r w6 ->
  sys_irqrmpolicy ht w6 = ((r4, ht'), w7) ->
  (exists s', mouse_test_async fuel idle_time (s, w) = Done 0 (s', w7) /\
     l4_mouse s' = set_hook_id_mouse h' m' /\ tmr_tck_counter (l4_timer s') = idle_time * 60) /\
  exists before, evs = before ++ replicate (Z.to_nat (idle_time * 60)) Tick.
Proof.
  intros Hid Hm Ht Hf E1 E2 E3 Hev Hk E4 E5 E6. split.
  - assert (exists r0, zoom mouse_lens kbc_subscribe (s, w1) =
      Done r0 (set_l4_mouse (set_hook_id_mouse h (l4_mouse s)) s, w2)) as [r0 Hsub].
    { unfold kbc_subscribe, mouse_modify, bind, modify, zoom, call. simpl. rewrite E2. simpl.
      destruct (r1 =? 0); by eexists. }
    set (s1 := set_l4_mouse _ s) in Hsub.
    assert (exists r0, zoom timer_lens timer_subscribe_int (s1, w2) =
      Done r0 (async_st (set_hook_id_mouse h (l4_mouse s)) 0 ht s, w3)) as [r0' Htm].
    { unfold timer_subscribe_int, Lab2.timer_subscribe_int, bind, gets, modify, zoom, call. simpl. rewrite E3. simpl.
      rewrite Ht. destruct (r2 =? 0); by eexists. }
    destruct (async_loop_idles fuel fuel (idle_time * 60) evs k _ 0 ht s _ _ _ Hev) as [Hloop Hh];
      [exact Hm|lia|unfold INT_MAX; lia|exact Hf|exact Hk|]. cbn [hook_id_mouse set_hook_id_mouse] in Hh.
    eexists. split; [|split]; [unfold mouse_test_async|..].
    + rewrite (bind_Done _ _ _ _ _ (zoom_Done snd_lens _ (s, w) _ _ E1)). cbn [Z.eqb negb lset snd_lens fst].
      rewrite (bind_Done _ _ _ _ _ Hsub), (bind_Done _ _ _ _ _ Htm), (bind_Done _ _ _ _ _ Hloop).
      unfold kbc_unsubscribe, mouse_unsubscribe, timer_unsubscribe_int, Lab2.timer_unsubscribe_int,
        Timer.timer_unsubscribe_int, mouse_modify, bind, gets, modify, zoom, call. simpl.
      rewrite Hh, E4. simpl. destruct (r3 =? 0); simpl; rewrite E5; simpl; rewrite E6; simpl;
        destruct (r4 =? 0); simpl; reflexivity.
    + done.
    + done.
  - destruct Hf as [_ He]. destruct (idle_ticks_last evs 0 ltac:(lia)) as (before & n & _ & Hd & E).
    exists (firstn before evs). rewrite He in E. replace (Z.to_nat (idle_time * 60)) with n by (destruct (before =? 0)%nat; lia).
    by rewrite <- Hd, firstn_skipn.
Qed.
End IdleTheorem.

(** ** An example *)

Lemma first_idle_ticks n t : first_idle (t + Z.of_nat n) t (replicate n Tick).
Proof.
  assert (forall n t, idle_ticks t (replicate n Tick) = t + Z.of_nat n) as Hr.
  { clear. intros n. induction n as [|n IH]; intros t; simpl; [lia|]. rewrite IH. lia. }
  split; [|apply Hr]. intros qs Hq Hne. destruct (proper_prefix_take _ _ Hq Hne) as (k & Hk & ->).
  rewrite length_replicate in Hk. rewrite take_replicate, Nat.min_l, Hr by lia. lia.
Qed.

Lemma first_idle_byte limit t b evs : t < limit -> first_idle limit 0 evs -> first_idle limit t (Byte b :: evs).
Proof.
  intros Ht [Hp He]. split; [|exact He]. intros [|e qs] Hq Hne; [exact Ht|].
  pose proof (prefix_cons_inv_1 _ _ _ _ Hq) as ->. apply (Hp qs); [by eapply prefix_cons_inv_2|congruence].
Qed.

(** Sixty ticks, and a byte before them. *)
Lemma script_idle_ticks fuel n s (w : script) :
  s_msgs w = repeat (irq 1) n -> happens fuel (replicate n Tick) n (s, w) (s, with_msgs [] w).
Proof.
  revert w. induction n as [|n IH]; intros w Hw; simpl in *.
  - replace (with_msgs [] w) with w by (destruct w; simpl in *; by subst). constructor.
  - replace (S n) with (n + 1)%nat by lia.
    apply (happens_tick fuel _ 0 n 1 s w (with_msgs (repeat (irq 1) n) w)); [by apply script_hears|done|].
    replace (with_msgs [] w) with (with_msgs [] (with_msgs (repeat (irq 1) n) w)) by (by destruct w).
    apply IH. by destruct w.
Qed.

Definition idle_script : script :=
  with_in (two_acks ++ [(0, st_full); (0, 8)] ++ two_acks) (with_msgs (irq 2 :: repeat (irq 1) 60) script0).

Definition idle_byte : mouse_st :=
  MouseSt (set_bytes0 8 (packet1 mouse_init_st)) 8 true 1 1 0 false.

Lemma mouse_test_async_idles_witness :
  exists s' w', mouse_test_async 100 1 (lab4_init_st, idle_script) = Done 0 (s', w') /\
    tmr_tck_counter (l4_timer s') = 60.
Proof.
  destruct (enable_mouse_data 100 idle_script) as [r w1| | |] eqn:E1; [|exfalso; vm_compute in E1; congruence..].
  assert (r = 0) as -> by (vm_compute in E1; congruence).
  set (w3 := (sys_irqsetpolicy TIMER0_IRQ IRQ_REENABLE TIMER0_IRQ
    (sys_irqsetpolicy IRQ12 (Z.lor IRQ_REENABLE IRQ_EXCLUSIVE) 1 w1).2).2).
  set (wb := after_byte (with_msgs (repeat (irq 1) 60) w3)).
  set (w4 := with_msgs [] wb).
  assert (happens 100 (Byte 8 :: replicate 60 Tick) 61 (set_hook_id_mouse 1 mouse_init_st, w3) (idle_byte, w4)) as Hev.
  { apply (happens_byte 100 _ 0 60 2 8 _ w3 (with_msgs (repeat (irq 1) 60) w3) (idle_byte, wb)).
    - apply script_hears; [|done]. subst w3. vm_compute in E1. injection E1 as <-. reflexivity.
    - reflexivity.
    - reflexivity.
    - exists st_full, wb. split; [|split; [reflexivity|reflexivity]]. subst wb w3. vm_compute in E1. injection E1 as <-.
      apply script_arrives; [lia|reflexivity|reflexivity|reflexivity].
    - apply script_idle_ticks. subst wb w3. vm_compute in E1. injection E1 as <-. reflexivity. }
  destruct (disable_mouse_data 100 (sys_irqrmpolicy 1 w4).2) as [r' w6| | |] eqn:E5;
    [|exfalso; subst w4 wb w3; vm_compute in E1; injection E1 as <-; vm_compute in E5; congruence..].
  destruct (mouse_test_async_idles 1 100 61 (Byte 8 :: replicate 60 Tick) lab4_init_st idle_byte idle_script w1
    (sys_irqsetpolicy IRQ12 (Z.lor IRQ_REENABLE IRQ_EXCLUSIVE) 1 w1).2 w3 w4 (sys_irqrmpolicy 1 w4).2 w6
    (sys_irqrmpolicy 0 w6).2 0 1 0 0 0 1 r' 0 0) as [(s' & E & _ & Ht) _].
  - lia.
  - split; [vm_compute; split; discriminate|reflexivity].
  - reflexivity.
  - apply first_idle_byte; [lia|]. exact (first_idle_ticks 60 0).
  - exact E1.
  - reflexivity.
  - reflexivity.
  - exact Hev.
  - lia.
  - reflexivity.
  - exact E5.
  - reflexivity.
  - exists s'. eexists. split; [exact E|exact Ht].
Defined.
