(* ===== verification/Lab5.v ===== *)
(** lab5: the graphics mode, rectangles, a pattern, a sprite and a moving sprite,
    until Escape is released. The drawing code (lab5/video_gr.c) is an earlier
    version of the game's: [vmi_p] is [modeinfo] of [video_st], whose images are
    not used here. The keyboard and the timer are drivers of their own. *)
From S2P Require Import Prelude Env Utils Timer Interrupts I8042 Video.

(** lab5/timer.c:5-6 [hook_id_timer, counter], with the globals of keyboard.c and video_gr.c *)
Record lab5_st : Type := Lab5St {
  hook_id_kbd : Z;
  scancode : Z;
  scancodes0 : Z;
  scancodes1 : Z;
  hook_id_timer : Z;
  counter : Z;
  video : video_st
}.

(** lab5/keyboard.c:7-9 [initial values] *)
Definition lab5_init_st : lab5_st := Lab5St 0 0 0 0 0 0 video_init_st.

Definition set_hook_id_kbd (h : Z) (s : lab5_st) : lab5_st :=
  Lab5St h (scancode s) (scancodes0 s) (scancodes1 s) (hook_id_timer s) (counter s) (video s).
Definition set_scancode (c : Z) (s : lab5_st) : lab5_st :=
  Lab5St (hook_id_kbd s) c (scancodes0 s) (scancodes1 s) (hook_id_timer s) (counter s) (video s).
Definition set_scancodes (c0 c1 : Z) (s : lab5_st) : lab5_st :=
  Lab5St (hook_id_kbd s) (scancode s) c0 c1 (hook_id_timer s) (counter s) (video s).
Definition set_hook_id_timer (h : Z) (s : lab5_st) : lab5_st :=
  Lab5St (hook_id_kbd s) (scancode s) (scancodes0 s) (scancodes1 s) h (counter s) (video s).
Definition set_counter (c : Z) (s : lab5_st) : lab5_st :=
  Lab5St (hook_id_kbd s) (scancode s) (scancodes0 s) (scancodes1 s) (hook_id_timer s) c (video s).
Definition set_video (v : video_st) (s : lab5_st) : lab5_st :=
  Lab5St (hook_id_kbd s) (scancode s) (scancodes0 s) (scancodes1 s) (hook_id_timer s) (counter s) v.

(** ** lab5/video_gr.c *)

(** lab5/video_gr.c:96-106 [vg_draw_pixel] *)
Definition vg_draw_pixel (x y color : Z) : M video_st Z := my_draw_pixel x y (color_of color).

(** lab5/video_gr.c:85-91 [vg_draw_hline] *)
Definition vg_draw_hline (x y len color : Z) : M video_st Z :=
  for_range_brk 0 len 0 (fun i _ =>
    let* r := vg_draw_pixel (u16 (x + i)) y color in
    if negb (r =? 0) then ret (Break 1) else ret (Next 0)).

(** lab5/video_gr.c:73-80 [vg_draw_rectangle] *)
Definition vg_draw_rectangle (x y width height color : Z) : M video_st Z :=
  for_range_brk 0 height 0 (fun i _ =>
    let* r := vg_draw_hline x (u16 (y + i)) width color in
    if negb (r =? 0) then ret (Break 1) else ret (Next 0)).

(** lab5/video_gr.c:111-117 [double_buffer] *)
Definition double_buffer : M video_st unit :=
  let* v := get in
  let m := modeinfo v in
  let n := if BitsPerPixel m =? 15 then XResolution m * YResolution m * 2
           else XResolution m * YResolution m * (BitsPerPixel m / 8) in
  let* src := of_option (buffer v) in
  let* dst := of_option (video_mem v) in
  let* dst' := of_option (copy_block n src dst) in
  modify (set_video_mem (Some dst')).

(** [*sprite], with [sprite] at offset [off] of the image's bytes. *)
Definition load_byte {S} (img : xpm_image_t) (off : Z) : M S Z :=
  match bytes_of img with
  | None => undef
  | Some f => if (0 <=? off) && (off <? size img) then ret (u8 (f off)) else undef
  end.

(** lab5/video_gr.c:124-131 [draw_sprite]: [sprite] is the address in [img]. *)
Definition draw_sprite (img : xpm_image_t) (x y : Z) : M video_st unit :=
  let* _ := for_range_acc 0 (height img) 0 (fun i off =>
    let* off := for_range_acc 0 (width img) off (fun j off =>
      let* c := load_byte img off in
      let* _ := vg_draw_pixel (x + j) (i + y) c in
      ret (off + 1)) in
    ret off) in
  ret tt.

Section VgInit.
Context {W : Type} `{Display W}.

(** lab5/video_gr.c:23-68 [vg_init]: [false] when it returns NULL. *)
Definition vg_init (mode : Z) : M (video_st * W) bool :=
  let* ' (r, info) := zoom snd_lens (call (vbe_get_mode_info mode)) in
  if negb (r =? 0) then ret false else
  video_modify (set_modeinfo info) ;;
  let* m := gets (fun s => modeinfo s.1) in
  let vram_base := PhysBasePtr m in
  let* xy := int_ (XResolution m * YResolution m) in
  let* vram_size :=
    if BitsPerPixel m =? 15 then int_ (xy * 2) else int_ (xy * (BitsPerPixel m / 8)) in
  let* ok := zoom snd_lens (call (malloc vram_size)) in
  video_modify (set_buffer (fresh ok vram_size)) ;;
  let mr_base := vram_base in
  let mr_limit := u32 (mr_base + vram_size) in
  let* r := zoom snd_lens (call (sys_privctl_add_mem mr_base mr_limit)) in
  if negb (r =? 0) then panic else
  let* mapped := zoom snd_lens (call (vm_map_phys mr_base vram_size)) in
  video_modify (set_video_mem (fresh mapped vram_size)) ;;
  let* r := zoom snd_lens (call (sys_int86 0x10 0x4F02 (Z.lor (BIT 14) mode))) in
  if negb (r =? 0) then ret false else
  let* vm := gets (fun s => video_mem s.1) in
  match vm with
  | None => panic
  | Some _ => ret true
  end.
End VgInit.

(** ** lab5/utils.c *)

(** lab5/utils.c:7-13 [util_get_LSB] *)
Definition util_get_LSB (val : Z) (lsb : option Z) : Z * option Z := Utils.util_get_LSB val lsb.
(** lab5/utils.c:15-24 [util_get_MSB] *)
Definition util_get_MSB (val : Z) (msb : option Z) : Z * option Z := Utils.util_get_MSB val msb.

Section Lab5.
Context {W : Type} `{PortIO W, Irq W, Lcf W, Display W, Libc W, Messages W}.

(** lab5/utils.c:26-39 [util_sys_inb]: the count of LAB3 is not compiled in. *)
Definition util_sys_inb (port : Z) : M W (option Z) := Utils.util_sys_inb port.

Definition lab5_modify (f : lab5_st -> lab5_st) : M (lab5_st * W) unit := modify (fun s => (f s.1, s.2)).
Definition in_world {A} (m : M W A) : M (lab5_st * W) A := zoom snd_lens m.
Definition video_lens : lens (lab5_st * W) (video_st * W) :=
  Lens (fun s => (video s.1, s.2)) (fun c s => (set_video c.1 s.1, c.2)).
Definition in_video {A} (m : M video_st A) : M (lab5_st * W) A := zoom video_lens (zoom fst_lens m).

(** ** lab5/keyboard.c *)

(** lab5/keyboard.c:12-19 [kbc_subscribe] *)
Definition kbc_subscribe : M (lab5_st * W) Z :=
  lab5_modify (set_hook_id_kbd IRQ1) ;;
  let* ' (r, hook') := in_world (call (sys_irqsetpolicy IRQ1 (Z.lor IRQ_REENABLE IRQ_EXCLUSIVE) IRQ1)) in
  lab5_modify (set_hook_id_kbd hook') ;;
  if negb (r =? 0) then ret 1 else ret 0.

(** lab5/keyboard.c:22-27 [kbc_unsubscribe] *)
Definition kbc_unsubscribe : M (lab5_st * W) Z :=
  let* hook := gets (fun s => hook_id_kbd s.1) in
  let* ' (r, hook') := in_world (call (sys_irqrmpolicy hook)) in
  lab5_modify (set_hook_id_kbd hook') ;;
  if negb (r =? 0) then ret 1 else ret 0.

(** [util_sys_inb(port, &scancode)]: [true] when it returned 0. *)
Definition read_scancode (port : Z) : M (lab5_st * W) bool :=
  let* v := in_world (util_sys_inb port) in
  match v with
  | Some c => lab5_modify (set_scancode c) ;; ret true
  | None => ret false
  end.

(** lab5/keyboard.c:33-51 [kbc_ih, the loop body] *)
Definition kbc_ih_body : M (lab5_st * W) (option unit) :=
  let* stat := in_world (util_sys_inb STATUS_REGISTER) in
  match stat with
  | None => ret (Some tt)
  | Some stat =>
      if has stat OUT_BUFF then
        let* ok := read_scancode OUTPUT_BUFFER in
        if negb ok then ret (Some tt) else
        if Z.land stat (Z.lor KBC_PAR_ERR KBC_TO_ERR) =? 0 then ret (Some tt) else ret (Some tt)
      else
        in_world (modify (tickdelay_us WAIT_KBC)) ;;
        ret None
  end.

(** lab5/keyboard.c:30-53 [kbc_ih] *)
Definition kbc_ih (fuel : nat) : M (lab5_st * W) unit := loop fuel kbc_ih_body.

(** lab5/keyboard.c:56-79 [kbc_print_scancode] *)
Definition kbc_print_scancode : M (lab5_st * W) unit :=
  let* s := gets fst in
  if scancode s =? 0xE0 then lab5_modify (set_scancodes (scancode s) (scancodes1 s)) else
  let makecode := Z.land (scancode s) 0x80 =? 0 in
  let* n_bytes :=
    if scancodes0 s =? 0xE0 then
      lab5_modify (set_scancodes (scancodes0 s) (scancode s)) ;; ret 2
    else
      lab5_modify (set_scancodes (scancode s) (scancodes1 s)) ;; ret 1 in
  let* s := gets fst in
  let* _ := in_world (call (kbd_print_scancode makecode n_bytes [scancodes0 s; scancodes1 s])) in
  lab5_modify (set_scancodes 0 (scancodes1 s)).

(** lab5/keyboard.c:85-102 [kbc_read, the loop body] *)
Definition kbc_read_body : M (lab5_st * W) (option Z) :=
  let* stat := in_world (util_sys_inb STATUS_REGISTER) in
  match stat with
  | None => ret (Some 1)
  | Some stat =>
      if has stat OUT_BUFF then
        let* ok := read_scancode OUTPUT_BUFFER in
        if negb ok then ret (Some 1) else
        if Z.land stat (Z.lor KBC_PAR_ERR KBC_TO_ERR) =? 0 then ret (Some 0) else ret (Some 1)
      else ret None
  end.

(** lab5/keyboard.c:82-105 [kbc_read] *)
Definition kbc_read (fuel : nat) : M (lab5_st * W) Z := loop fuel kbc_read_body.

(** ** lab5/timer.c *)

(** lab5/timer.c:8-20 [timer_subscribe_int] *)
Definition timer_subscribe_int : M (lab5_st * W) Z :=
  lab5_modify (set_hook_id_timer 0) ;;
  let* ' (r, hook') := in_world (call (sys_irqsetpolicy 0 IRQ_REENABLE 0)) in
  lab5_modify (set_hook_id_timer hook') ;;
  if negb (r =? 0) then ret 1 else ret 0.

(** lab5/timer.c:22-46 [timer_get_conf]: [None] when it returns 1. *)
Definition timer_get_conf (timer : Z) : M W (option Z) :=
  if negb (timer =? 0) && negb (timer =? 1) && negb (timer =? 2) then ret None else
  let rbcmd := u8 (Z.lor (Z.lor TIMER_RB_CMD TIMER_RB_COUNT_) (TIMER_RB_SEL timer)) in
  let* r := call (sys_outb TIMER_CTRL rbcmd) in
  if negb (r =? 0) then ret None else
  util_sys_inb (0x40 + timer).

(** lab5/timer.c:49-55 [timer_unsubscribe_int] *)
Definition timer_unsubscribe_int : M (lab5_st * W) Z :=
  let* hook := gets (fun s => hook_id_timer s.1) in
  let* ' (r, hook') := in_world (call (sys_irqrmpolicy hook)) in
  lab5_modify (set_hook_id_timer hook') ;;
  if negb (r =? 0) then ret 1 else ret 0.

(** lab5/timer.c:57-59 [timer_int_handler] *)
Definition timer_int_handler : M (lab5_st * W) unit :=
  let* c := gets (fun s => counter s.1) in
  let* c' := int_ (c + 1) in
  lab5_modify (set_counter c').

(** lab5/timer.c:61-103 [timer_set_frequency]: the results of the three writes are ignored;
    the rounded frequency is only printed. *)
Definition timer_set_frequency (timer freq : Z) : M W Z :=
  if (freq <? 19) || (freq >? TIMER_FREQ) then ret 1 else
  let* conf := timer_get_conf timer in
  match conf with
  | None => ret 1
  | Some st =>
      let last_bits := Z.land st 0x0F in
      let control_word := u8 (Z.lor (Z.lor (TIMER_RB_SEL timer) TIMER_LSB_MSB) last_bits) in
      let div := u16 (TIMER_FREQ / freq) in
      let* lsb := of_option (util_get_LSB div (Some 0)).2 in
      let* msb := of_option (util_get_MSB div (Some 0)).2 in
      let* _ := call (sys_outb TIMER_CTRL control_word) in
      let* _ := call (sys_outb (TIMER_0 + timer) lsb) in
      let* _ := call (sys_outb (TIMER_0 + timer) msb) in
      ret 0
  end.

(** ** lab5.c *)

(** lab5/lab5.c:46-55 [video_test_init] *)
Definition video_test_init (mode delay : Z) : M (lab5_st * W) Z :=
  let* ok := zoom video_lens (vg_init mode) in
  if negb ok then ret 1 else
  in_world (modify (sleep delay)) ;;
  let* _ := in_world (call vg_exit) in
  ret 0.

(** lab5/lab5.c:96-98 [video_test_rectangle, the hardware's messages] *)
Definition esc_handle (fuel : nat) (interrupts : Z) : M (lab5_st * W) unit :=
  if has interrupts (BIT IRQ1) then kbc_ih fuel else ret tt.

(** lab5/lab5.c:88-109 [video_test_rectangle, the wait for Escape and the end], which the tests
    repeat *)
Definition wait_escape (fuel : nat) : M (lab5_st * W) Z :=
  interrupt_loop fuel (fun s => negb (scancode s =? ESCAPE)) (esc_handle fuel) ;;
  let* _ := kbc_unsubscribe in
  let* _ := in_world (call vg_exit) in
  ret 0.

(** lab5/lab5.c:66-109 [video_test_rectangle] *)
Definition video_test_rectangle (fuel : nat) (mode x y width height color : Z) : M (lab5_st * W) Z :=
  let* r := kbc_subscribe in
  if negb (r =? 0) then ret 1 else
  let* ok := zoom video_lens (vg_init mode) in
  if negb ok then ret 1 else
  let* r := in_video (vg_draw_rectangle x y width height color) in
  if negb (r =? 0) then ret 1 else
  in_video double_buffer ;;
  wait_escape fuel.

(** [a >> n] and [a << n] for a value that is not negative: undefined for a shift by the width,
    and for a result that is not an [int]. *)
Definition shr {S} (a n : Z) : M S Z := if n >=? 32 then undef else ret (Z.shiftr a n).
Definition shl {S} (a n : Z) : M S Z := if n >=? 32 then undef else int_ (Z.shiftl a n).

(** lab5/lab5.c:137-165 [video_test_pattern, the components of the first colour]: [None] when they
    are not initialised. *)
Definition first_components (mode first : Z) (m : vbe_mode_info_t) : M video_st (option (Z * Z * Z)) :=
  let fields := fun red green blue =>
    let* R := shr (Z.land first red) (RedFieldPosition m) in
    let* G := shr (Z.land first green) (GreenFieldPosition m) in
    let* B := shr (Z.land first blue) (BlueFieldPosition m) in
    ret (Some (u16 R, u16 G, u16 B)) in
  if mode =? 0x105 then ret None else
  if mode =? 0x110 then fields 0x7C00 0x3E0 0x1F else
  if mode =? 0x115 then fields 0xFF0000 0xFF00 0xFF else
  if mode =? 0x11A then fields 0xF800 0x7E0 0x1F else
  if mode =? 0x14C then fields 0xFF0000 0xFF00 0xFF else
  ret None.

(** lab5/lab5.c:174-185 [video_test_pattern, the colour of a rectangle] *)
Definition pattern_color (mode no_rectangles first step : Z) (rgb : option (Z * Z * Z))
    (m : vbe_mode_info_t) (i j : Z) : M video_st Z :=
  if mode =? 0x105 then
    let* n := shl 1 (BitsPerPixel m) in
    let* k := int_ ((i * no_rectangles + j) * step) in
    ret (u32 (first + k) mod n)
  else
    let* ' (R_first, G_first, B_first) := of_option rgb in
    let* nr := shl 1 (RedMaskSize m) in
    let* ng := shl 1 (GreenMaskSize m) in
    let* nb := shl 1 (BlueMaskSize m) in
    let* R := shl (Z.rem (R_first + j * step) nr) (RedFieldPosition m) in
    let* G := shl (Z.rem (G_first + i * step) ng) (GreenFieldPosition m) in
    let* B := shl (Z.rem (B_first + (j + i) * step) nb) (BlueFieldPosition m) in
    ret (Z.lor (Z.lor (Z.lor 0 R) G) B).

(** lab5/lab5.c:167-192 [video_test_pattern, the rectangles] *)
Definition draw_pattern (mode no_rectangles first step : Z) : M video_st unit :=
  let* m := gets modeinfo in
  let* rgb := first_components mode first m in
  if no_rectangles =? 0 then undef else
  let x_rectangle := XResolution m / no_rectangles in
  let y_rectangle := YResolution m / no_rectangles in
  for_range_brk 0 no_rectangles tt (fun i _ =>
    for_range 0 no_rectangles (fun j =>
      let* color := pattern_color mode no_rectangles first step rgb m i j in
      let* _ := vg_draw_rectangle (u16 (j * x_rectangle)) (u16 (i * y_rectangle))
                  (u16 x_rectangle) (u16 y_rectangle) (u32 color) in
      ret tt) ;;
    if i * y_rectangle >? YResolution m then ret (Break tt) else ret (Next tt)).

(** lab5/lab5.c:125-217 [video_test_pattern] *)
Definition video_test_pattern (fuel : nat) (mode no_rectangles first step : Z) : M (lab5_st * W) Z :=
  let* _ := zoom video_lens (vg_init mode) in
  let* r := kbc_subscribe in
  if negb (r =? 0) then ret 1 else
  in_video (draw_pattern mode no_rectangles first step) ;;
  in_video double_buffer ;;
  wait_escape fuel.

(** lab5/lab5.c:230-272 [video_test_xpm] *)
Definition video_test_xpm (fuel : nat) (xpm : xpm_map_t) (x y : Z) : M (lab5_st * W) Z :=
  let mode := 0x105 in
  let* _ := zoom video_lens (vg_init mode) in
  let* r := kbc_subscribe in
  if negb (r =? 0) then ret 1 else
  let* img := in_world (call (xpm_load xpm XPM_INDEXED)) in
  in_video (draw_sprite img x y) ;;
  in_video double_buffer ;;
  wait_escape fuel.
End Lab5.

(** * Lemmas: drawing *)

(** A run of pixels of a line. *)
Lemma wp_vg_draw_hline x0 y len color R R' col v v' (Q : Z -> video_st -> Prop) :
  vid_wf v -> 0 <= x0 -> 0 <= len -> x0 + len <= XResolution (modeinfo v) -> 0 <= y < YResolution (modeinfo v) ->
  (forall x, x0 <= x < x0 + len -> col x y = color_of color) ->
  (forall x' y', R' x' y' = R x' y' || in_rect x0 y len 1 x' y') ->
  painted R col v v' ->
  (forall v'', painted R' col v v'' -> Q 0 v'') ->
  wp (vg_draw_hline x0 y len color) Q v'.
Proof.
  intros Hv Hx Hl Hxr Hy Hcol HR Hp HQ. pose proof Hv as [(HX & HY & _) _].
  apply (wp_for_range_brk (fun i r w => r = 0 /\
    painted (fun x' y' => R x' y' || in_rect x0 y i 1 x' y') col v w)).
  - split; [done|]. revert Hp. apply painted_weaken. intros x' y' _. unfold in_rect. destruct (R x' y'); lia.
  - intros i r w Hi [_ Hw]. apply wp_bind. rewrite u16_small by lia.
    unfold vg_draw_pixel. rewrite <- (Hcol (x0 + i)) by lia.
    apply (wp_paint_next (fun x' y' => R x' y' || in_rect x0 y i 1 x' y')
      (fun x' y' => R x' y' || in_rect x0 y (i + 1) 1 x' y') col v); [done|split; lia|by rewrite Hcol by lia| |done|].
    + intros x' y'. unfold in_rect. destruct (R x' y'); lia.
    + intros w' Hw'. by apply wp_ret.
  - intros r w [-> Hw]. apply HQ. revert Hw. apply painted_weaken. intros x' y' _.
    by rewrite HR, Z.max_r by lia.
Qed.

(** A rectangle that fits the screen. *)
Lemma wp_vg_draw_rectangle x0 y0 w h color v (Q : Z -> video_st -> Prop) :
  vid_wf v -> 0 <= x0 -> 0 <= y0 -> 0 <= w -> 0 <= h ->
  x0 + w <= XResolution (modeinfo v) -> y0 + h <= YResolution (modeinfo v) ->
  (forall v', painted (in_rect x0 y0 w h) (fun _ _ => color_of color) v v' -> Q 0 v') ->
  wp (vg_draw_rectangle x0 y0 w h color) Q v.
Proof.
  intros Hv Hx Hy Hw Hh Hxr Hyr HQ. pose proof Hv as [(HX & HY & _) _].
  apply (wp_for_range_brk (fun i r v' => r = 0 /\ painted (in_rect x0 y0 w i) (fun _ _ => color_of color) v v')).
  - split; [done|]. apply painted_nothing; [done|]. unfold in_rect. lia.
  - intros i r v' Hi [_ Hp]. apply wp_bind. rewrite u16_small by lia.
    apply (wp_vg_draw_hline x0 (y0 + i) w color (in_rect x0 y0 w i) (in_rect x0 y0 w (i + 1))
      (fun _ _ => color_of color) v); [done|lia|lia|lia|lia|done| |done|].
    + unfold in_rect. lia.
    + intros v'' Hp'. by apply wp_ret.
  - intros r v' [-> Hp]. apply HQ. by rewrite Z.max_r in Hp by lia.
Qed.

(** An image with one byte per pixel. *)
Definition img8_ok (img : xpm_image_t) (w h : Z) : Prop :=
  is_Some (bytes_of img) /\ width img = w /\ height img = h /\ size img = w * h /\ 0 <= w /\ 0 <= h.

(** The colour of pixel [(i, j)] of such an image: its byte, as a [uint32_t]. *)
Definition img8_px (img : xpm_image_t) (i j : Z) : color_t :=
  match bytes_of img with Some f => color_of (u8 (f (i + width img * j))) | None => [] end.

Lemma load_byte_eq {S} img f off (s : S) :
  bytes_of img = Some f -> 0 <= off < size img -> load_byte img off s = Done (u8 (f off)) s.
Proof. intros E Ho. unfold load_byte. rewrite E. by replace (_ && _) with true by lia. Qed.

Lemma wp_draw_sprite img w h x0 y0 v (Q : unit -> video_st -> Prop) :
  vid_wf v -> img8_ok img w h -> 0 <= x0 -> x0 + w <= XResolution (modeinfo v) ->
  0 <= y0 -> y0 + h <= YResolution (modeinfo v) ->
  (forall v', painted (in_rect x0 y0 w h) (fun x y => img8_px img (x - x0) (y - y0)) v v' -> Q tt v') ->
  wp (draw_sprite img x0 y0) Q v.
Proof.
  intros Hv ([f Ef] & <- & <- & Hs & Hw & Hh) Hx Hxr Hy Hyr HQ. pose proof Hv as [(HX & HY & _) _].
  set (w := width img) in *. set (h := height img) in *.
  set (col := fun x y => img8_px img (x - x0) (y - y0)).
  set (R := fun i j x y => in_rect x0 y0 w h x y && ((y - y0 <? i) || (y - y0 =? i) && (x - x0 <? j))).
  unfold draw_sprite. apply wp_bind. fold w h.
  apply (wp_grid (fun i j off v' => off = w * i + j /\ painted (R i j) col v v') 0 w 0 h 0
    (fun i j off => let* c := load_byte img off in
      let* _ := vg_draw_pixel (x0 + j) (i + y0) c in ret (off + 1)) (fun off => off)).
  - split; [lia|]. apply painted_nothing; [done|]. unfold R, in_rect. lia.
  - intros i j off v' Hi Hj [-> Hp]. apply wp_bind.
    apply (wp_Done _ _ _ (u8 (f (w * i + j))) v'); [apply load_byte_eq; [done|nia]|]. apply wp_bind.
    assert (color_of (u8 (f (w * i + j))) = col (x0 + j) (i + y0)) as Hc.
    { unfold col, img8_px. rewrite Ef. fold w. do 3 f_equal. lia. }
    unfold vg_draw_pixel. rewrite Hc.
    apply (wp_paint_next (R i j) (R i (j + 1)) col v); [done|split; lia|by rewrite <- Hc| |done|].
    + unfold R, in_rect. lia.
    + intros v'' Hp'. apply wp_ret. split; [lia|done].
  - intros i off v' Hi [-> Hp]. split; [lia|]. revert Hp. apply painted_weaken. unfold R, in_rect. lia.
  - intros off v' [_ Hp]. apply wp_ret, HQ. revert Hp. apply painted_weaken. unfold R, in_rect. lia.
Qed.

(** [double_buffer] is the game's [my_updateVideoMem] without its result. *)
Lemma double_buffer_eq v : double_buffer v = bind my_updateVideoMem (fun _ => ret tt) v.
Proof.
  unfold double_buffer, my_updateVideoMem, bind, get, modify, ret, of_option.
  assert ((if BitsPerPixel (modeinfo v) =? 15 then XResolution (modeinfo v) * YResolution (modeinfo v) * 2
           else XResolution (modeinfo v) * YResolution (modeinfo v) * (BitsPerPixel (modeinfo v) / 8)) =
          (if BitsPerPixel (modeinfo v) =? 15 then 2 * XResolution (modeinfo v) * YResolution (modeinfo v)
           else BitsPerPixel (modeinfo v) / 8 * XResolution (modeinfo v) * YResolution (modeinfo v))) as ->
    by (case_match; ring).
  destruct (buffer v), (video_mem v); simpl; try done. by destruct (copy_block _ _ _).
Qed.

(** ** Rectangles that do not fit *)

(** What [vg_draw_rectangle] paints of a rectangle that crosses the right edge. *)
Definition cut_region (m : vbe_mode_info_t) (x0 y0 : Z) (x y : Z) : bool :=
  in_rect x0 y0 (XResolution m - x0) 1 x y || (x =? 0) && (y =? y0 + 1).

Lemma wp_hline_cut x0 y0 len color v (Q : Z -> video_st -> Prop) :
  vid_wf v -> 0 <= x0 < XResolution (modeinfo v) -> XResolution (modeinfo v) + 1 < x0 + len ->
  x0 + len <= 65536 -> 0 <= y0 < YResolution (modeinfo v) - 1 ->
  (forall v', painted (cut_region (modeinfo v) x0 y0) (fun _ _ => color_of color) v v' -> Q 1 v') ->
  wp (vg_draw_hline x0 y0 len color) Q v.
Proof.
  intros Hv Hx Hl Hmax Hy HQ. pose proof Hv as [(HX & HY & _) _]. set (X := XResolution (modeinfo v)) in *.
  set (R := fun i x y => in_rect x0 y0 (Z.min i (X - x0)) 1 x y || (X - x0 <? i) && (x =? 0) && (y =? y0 + 1)).
  set (P := fun i v' => painted (R i) (fun _ _ => color_of color) v v').
  apply (wp_for_range_brk (fun i r v' => i <= X - x0 + 1 /\ P i v')).
  - split; [lia|]. apply painted_nothing; [done|]. unfold R, in_rect. lia.
  - intros i r v' Hi [Hle Hp]. apply wp_bind. rewrite u16_small by lia. unfold vg_draw_pixel.
    destruct (Z.lt_trichotomy i (X - x0)) as [Hlt|[->|Hgt]].
    + apply (wp_paint_next (R i) (R (i + 1)) (fun _ _ => color_of color) v);
        [done|split; lia|done| |done|].
      * unfold R, in_rect. lia.
      * intros v'' Hp'. apply wp_ret. split; [lia|done].
    + replace (x0 + (X - x0)) with X by lia.
      assert (X = XResolution (modeinfo v')) as EX by by rewrite (painted_mode _ _ _ _ Hp).
      unfold wp. rewrite EX, my_draw_pixel_wraps;
        [|by eapply painted_wf|done|by rewrite (painted_mode _ _ _ _ Hp)].
      apply (wp_paint_next (R (X - x0)) (R (X - x0 + 1)) (fun _ _ => color_of color) v);
        [done|split; lia|done| |done|].
      * unfold R, in_rect. lia.
      * intros v'' Hp'. apply wp_ret. rewrite <- EX. split; [lia|done].
    + assert (i = X - x0 + 1) as -> by lia.
      unfold wp. rewrite my_draw_pixel_eq, (painted_mode _ _ _ _ Hp), rejected_beyond;
        [|lia|lia|left; fold X; lia|by eapply painted_wf|done].
      apply HQ. revert Hp. apply painted_weaken. unfold R, cut_region, in_rect. fold X. lia.
  - intros r v' [Hle _]. lia.
Qed.

(** ** Properties of rectangles and sprites *)

(** [vg_draw_rectangle] shows a rectangle that fits the screen, and nothing else
    changes; of a rectangle that reaches more than one column beyond the right
    edge it only draws the first line, and the pixel at the start of the line below,
    before it returns 1. *)
Theorem vg_draw_rectangle_shows (v : video_st) (x y w h color : Z) :
  vid_wf v -> 0 <= x < XResolution (modeinfo v) -> 0 <= y < YResolution (modeinfo v) - 1 ->
  0 <= w -> 1 <= h -> x + w <= 65536 -> y + h <= YResolution (modeinfo v) ->
  (x + w <= XResolution (modeinfo v) ->
   exists v', vg_draw_rectangle x y w h color v = Done 0 v' /\
     painted (in_rect x y w h) (fun _ _ => color_of color) v v') /\
  (XResolution (modeinfo v) + 1 < x + w ->
   exists v', vg_draw_rectangle x y w h color v = Done 1 v' /\
     painted (cut_region (modeinfo v) x y) (fun _ _ => color_of color) v v').
Proof.
  intros Hv Hx Hy Hw Hh Hmax Hyr. pose proof Hv as [(HX & HY & _) _]. split; intros Hr.
  - assert (wp (vg_draw_rectangle x y w h color) (fun r v' => r = 0 /\
      painted (in_rect x y w h) (fun _ _ => color_of color) v v') v) as Hwp
      by (apply wp_vg_draw_rectangle; [done|lia..|done]).
    apply wp_inv in Hwp as (r & v' & E & -> & Hp). eauto.
  - assert (wp (vg_draw_rectangle x y w h color) (fun r v' => r = 1 /\
      painted (cut_region (modeinfo v) x y) (fun _ _ => color_of color) v v') v) as Hwp.
    { unfold vg_draw_rectangle, for_range_brk. replace (Z.to_nat (h - 0)) with (S (Z.to_nat (h - 1))) by lia.
      cbn [for_brk]. apply wp_bind, wp_bind. rewrite Z.add_0_r, u16_small by lia.
      apply wp_hline_cut; [done|lia..|]. intros v' Hp. apply wp_ret. by apply wp_ret. }
    apply wp_inv in Hwp as (r & v' & E & -> & Hp). eauto.
Qed.

Lemma vg_draw_rectangle_shows_witness :
  (exists v', vg_draw_rectangle 700 10 100 50 255 (screen_of mode_0x115 no_image) = Done 0 v' /\
     painted (in_rect 700 10 100 50) (fun _ _ => color_of 255) (screen_of mode_0x115 no_image) v') /\
  (exists v', vg_draw_rectangle 700 10 102 50 255 (screen_of mode_0x115 no_image) = Done 1 v' /\
     painted (cut_region mode_0x115 700 10) (fun _ _ => color_of 255) (screen_of mode_0x115 no_image) v').
Proof.
  destruct (screen_0x115_wf no_image) as [Hv _]. split.
  - apply (vg_draw_rectangle_shows (screen_of mode_0x115 no_image)); simpl; first [done|lia].
  - apply (vg_draw_rectangle_shows (screen_of mode_0x115 no_image) 700 10 102 50 255); simpl; first [done|lia].
Defined.

(** (C23) [draw_sprite] shows an image that fits the screen: each pixel of its rectangle gets
    the byte of its own place in the image as its colour, and nothing else changes. *)
Theorem draw_sprite_shows (v : video_st) (img : xpm_image_t) (w h x y : Z) :
  vid_wf v -> img8_ok img w h -> 0 <= x -> x + w <= XResolution (modeinfo v) ->
  0 <= y -> y + h <= YResolution (modeinfo v) ->
  exists v', draw_sprite img x y v = Done tt v' /\
    painted (in_rect x y w h) (fun x' y' => img8_px img (x' - x) (y' - y)) v v'.
Proof.
  intros Hv Hi Hx Hxr Hy Hyr.
  assert (wp (draw_sprite img x y) (fun _ =>
    painted (in_rect x y w h) (fun x' y' => img8_px img (x' - x) (y' - y)) v) v) as Hwp
    by (by apply (wp_draw_sprite img w h)).
  apply wp_inv in Hwp as ([] & v' & E & Hp). eauto.
Qed.

(** The mode of the tests with sprites, 1024x768 with one byte per pixel, and an image of 4x2 pixels. *)
Definition mode_0x105 : vbe_mode_info_t := ModeInfo 1024 768 8 3758096384 0 0 0 0 0 0.
Definition img_4x2 : xpm_image_t := Image 4 2 8 (Some (fun o => o + 1)).

Lemma screen_0x105_wf : vid_wf (screen_of mode_0x105 no_image).
Proof. split; [|by eexists]; vm_compute; repeat split; discriminate. Qed.

Lemma draw_sprite_shows_witness :
  exists v', draw_sprite img_4x2 1020 766 (screen_of mode_0x105 no_image) = Done tt v' /\
    painted (in_rect 1020 766 4 2) (fun x' y' => img8_px img_4x2 (x' - 1020) (y' - 766))
      (screen_of mode_0x105 no_image) v'.
Proof.
  apply (draw_sprite_shows (screen_of mode_0x105 no_image) img_4x2 4 2);
    [apply screen_0x105_wf|by split_and!; [eexists|..]|simpl; lia..].
Defined.

(** ** The timer's control word *)

(** The control word [timer_set_frequency] writes for [timer] when the status is [st]. *)
Definition control_word5 (timer st : Z) : Z :=
  u8 (Z.lor (Z.lor (TIMER_RB_SEL timer) TIMER_LSB_MSB) (Z.land st 0x0F)).

Lemma decode_control_word5 timer st :
  0 <= timer <= 2 -> 0 <= st < 256 ->
  decode_control (control_word5 timer st) =
    Control 0 3 (Z.lor (Z.land (Z.shiftr st 1) 7) (BIT timer)) (has st 1).
Proof. intros Ht Hst. destruct (timer_cases _ Ht) as [->|[->| ->]]; decide_byte st Hst. Qed.

Section TimerWord.
Context {W : Type} `{PortIO W}.

Lemma timer_get_conf5_eq `{!OutbOk W} timer (w : W) :
  0 <= timer <= 2 ->
  timer_get_conf timer w =
    Done (inb_result (TIMER_0 + timer) (outs [(TIMER_CTRL, conf_cmd timer)] w))
         (sys_inb (TIMER_0 + timer) (outs [(TIMER_CTRL, conf_cmd timer)] w)).2.
Proof.
  intros Ht. unfold timer_get_conf.
  destruct (timer_cases _ Ht) as [->|[->| ->]]; cbn [Z.eqb Pos.eqb negb andb]; cbv zeta;
    (erewrite bind_Done; [|apply call_outb_ok]); cbn [Z.eqb negb]; apply util_sys_inb_eq.
Qed.

(** The timer of lab5 builds its control word with the read-back selector: whatever the
    timer asked for, the word written selects timer 0 with the counting mode read from the
    timer asked for changed by one bit, while the divisor goes to the port of the timer asked
    for. So the mode is kept, and the right timer programmed, only for timer 0 in a mode
    whose lowest bit is set (as mode 3, square wave). *)
Theorem lab5_control_word_selects_timer_0 `{!OutbOk W} (timer freq st : Z) (w : W) :
  0 <= timer <= 2 -> 19 <= freq <= TIMER_FREQ ->
  inb_result (TIMER_0 + timer) (outs [(TIMER_CTRL, conf_cmd timer)] w) = Some st ->
  exists cw lsb msb,
    timer_set_frequency timer freq w =
      Done 0 (outs [(TIMER_CTRL, cw); (TIMER_0 + timer, lsb); (TIMER_0 + timer, msb)]
                   (sys_inb (TIMER_0 + timer) (outs [(TIMER_CTRL, conf_cmd timer)] w)).2) /\
    decode_control cw = Control 0 3 (Z.lor (Z.land (Z.shiftr st 1) 7) (BIT timer)) (has st 1) /\
    msb * 256 + lsb = TIMER_FREQ / freq /\
    (decode_control cw = Control timer 3 (Z.land (Z.shiftr st 1) 7) (has st 1) <->
       timer = 0 /\ Z.testbit st 1 = true).
Proof.
  intros Ht Hf Hst. pose proof (freq_div_range freq Hf) as Hd.
  destruct (lsb_msb_split (TIMER_FREQ / freq) 0 0 ltac:(lia)) as (l & m & El & Em & Hl & Hm & Hsum).
  pose proof (inb_result_range _ _ _ Hst) as Hsr.
  exists (control_word5 timer st), l, m. split_and!; [|by apply decode_control_word5|lia|].
  - unfold timer_set_frequency. replace ((freq <? 19) || (freq >? TIMER_FREQ)) with false by lia.
    rewrite (bind_Done _ _ _ _ _ (timer_get_conf5_eq timer w Ht)), Hst.
    rewrite (u16_small (TIMER_FREQ / freq)) by lia. cbv zeta.
    unfold util_get_LSB, util_get_MSB. rewrite El, Em. cbn [of_option snd]. rewrite !bind_ret.
    by do 3 (erewrite bind_Done; [|apply call_outb_ok]).
  - clear Hst. rewrite decode_control_word5 by done.
    destruct (timer_cases _ Ht) as [->|[->| ->]]; decide_byte st Hsr.
Qed.
End TimerWord.

Lemma lab5_control_word_selects_timer_0_witness :
  let w := with_in [(0, 0x36)] script0 in
  exists cw lsb msb,
    timer_set_frequency 1 60 w =
      Done 0 (outs [(TIMER_CTRL, cw); (TIMER_0 + 1, lsb); (TIMER_0 + 1, msb)]
                   (sys_inb (TIMER_0 + 1) (outs [(TIMER_CTRL, conf_cmd 1)] w)).2) /\
    decode_control cw = Control 0 3 (Z.lor (Z.land (Z.shiftr 0x36 1) 7) (BIT 1)) (has 0x36 1) /\
    msb * 256 + lsb = TIMER_FREQ / 60 /\
    (decode_control cw = Control 1 3 (Z.land (Z.shiftr 0x36 1) 7) (has 0x36 1) <->
       1 = 0 /\ Z.testbit 0x36 1 = true).
Proof.
  apply (lab5_control_word_selects_timer_0 1 60 0x36 (with_in [(0, 0x36)] script0));
    [lia|unfold TIMER_FREQ; lia|reflexivity].
Defined.

(** ** Showing what was drawn *)

(** A screen that can be drawn on and shown. *)
Definition screen_ok (v : video_st) : Prop :=
  vid_wf v /\ exists b, video_mem v = Some b /\ blk_size b = screen_size (modeinfo v).

Lemma painted_video_mem R col v v' : painted R col v v' -> video_mem v' = video_mem v.
Proof. by intros [(b & b' & _ & -> & _) _]. Qed.

Lemma painted_screen_ok R col v v' : painted R col v v' -> screen_ok v -> screen_ok v'.
Proof.
  intros Hp [Hv (b & Hb & Hs)]. split; [by eapply painted_wf|].
  exists b. by rewrite (painted_video_mem _ _ _ _ Hp), (painted_mode _ _ _ _ Hp).
Qed.

(** Copying a new picture to the monitor. *)
Lemma wp_double_buffer v (Q : unit -> video_st -> Prop) :
  screen_ok v ->
  (forall v', modeinfo v' = modeinfo v -> screen_ok v' ->
     (forall x y, on_screen (modeinfo v) x y -> shown v' x y = px v x y /\ px v' x y = px v x y) -> Q tt v') ->
  wp double_buffer Q v.
Proof.
  intros [Hv (b & Hb & Hs)] HQ. unfold wp. rewrite double_buffer_eq. fold (@wp video_st unit).
  apply wp_bind, (wp_my_updateVideoMem _ b); [done..|]. intros v' b' -> Hs' Hsh. apply wp_ret, HQ.
  - done.
  - split; [done|]. exists b'. split; [done|]. by rewrite Hs'.
  - intros x y Hxy. split; [by apply Hsh|done].
Qed.

(** ** The keyboard and the wait for Escape *)
Section Escape.
Context {W : Type} `{PortIO W, Irq W, Lcf W, Display W, Libc W, Messages W}.

(** The subscriptions, given the kernel's answers. *)
Lemma timer_subscribe_eq s (w w' : W) h :
  sys_irqsetpolicy 0 IRQ_REENABLE 0 w = ((0, h), w') ->
  timer_subscribe_int (s, w) = Done 0 (set_hook_id_timer h s, w').
Proof.
  intros E. unfold timer_subscribe_int, lab5_modify, in_world, bind, modify, zoom, call. simpl. by rewrite E.
Qed.

Lemma kbc_subscribe_eq s (w w' : W) h :
  sys_irqsetpolicy IRQ1 (Z.lor IRQ_REENABLE IRQ_EXCLUSIVE) IRQ1 w = ((0, h), w') ->
  kbc_subscribe (s, w) = Done 0 (set_hook_id_kbd h s, w').
Proof.
  intros E. unfold kbc_subscribe, lab5_modify, in_world, bind, modify, zoom, call. simpl. by rewrite E.
Qed.

Lemma timer_unsubscribe_eq s (w w' : W) r h :
  sys_irqrmpolicy (hook_id_timer s) w = ((r, h), w') ->
  timer_unsubscribe_int (s, w) = Done (if r =? 0 then 0 else 1) (set_hook_id_timer h s, w').
Proof.
  intros E. unfold timer_unsubscribe_int, lab5_modify, in_world, bind, gets, modify, zoom, call. simpl.
  rewrite E. simpl. by destruct (r =? 0).
Qed.

Lemma kbc_unsubscribe_eq s (w w' : W) r h :
  sys_irqrmpolicy (hook_id_kbd s) w = ((r, h), w') ->
  kbc_unsubscribe (s, w) = Done (if r =? 0 then 0 else 1) (set_hook_id_kbd h s, w').
Proof.
  intros E. unfold kbc_unsubscribe, lab5_modify, in_world, bind, gets, modify, zoom, call. simpl.
  rewrite E. simpl. by destruct (r =? 0).
Qed.

(** [kbc_ih] ends as soon as the controller has data, whatever its error bits say. *)
Lemma kbc_ih_polls n fuel (g : lab5_st) (w w' : W) st :
  polls (fun st => has st OUT_BUFF) (tickdelay_us WAIT_KBC) n w st w' -> (n < fuel)%nat ->
  kbc_ih fuel (g, w) =
    Done tt (match inb_result OUTPUT_BUFFER w' with Some c => set_scancode c g | None => g end,
             (sys_inb OUTPUT_BUFFER w').2).
Proof.
  intros Hp Hf. replace fuel with (fuel - S n + S n)%nat by lia. unfold kbc_ih.
  erewrite (loop_polls _ _ _ (fun stat =>
    let* ok := read_scancode OUTPUT_BUFFER in
    if negb ok then ret (Some tt) else
    if Z.land stat KBC_ERRS =? 0 then ret (Some tt) else ret (Some tt)) n _ _ _ _ _ _ Hp).
  - unfold read_scancode, lab5_modify, in_world, bind, modify, zoom, util_sys_inb. simpl.
    rewrite util_sys_inb_eq. destruct (inb_result OUTPUT_BUFFER w'); simpl; [|done]. by destruct (Z.land st KBC_ERRS =? 0).
  Unshelve.
  intros w0 st0 Hst. unfold kbc_ih_body, in_world, util_sys_inb, bind, zoom at 1. simpl.
  rewrite util_sys_inb_eq, Hst. simpl. by destruct (has st0 OUT_BUFF).
Qed.

(** The answer the keyboard part of a message [i] takes: none when the keyboard is not
    announced, else the byte the controller has after [np] polls, whichever it is. *)
Inductive key_taken (fuel : nat) (i : Z) (w : W) : option Z -> W -> Prop :=
  | no_key : has i (BIT IRQ1) = false -> key_taken fuel i w None w
  | a_key np st w' :
      has i (BIT IRQ1) = true ->
      polls (fun st => has st OUT_BUFF) (tickdelay_us WAIT_KBC) np w st w' -> (np < fuel)%nat ->
      key_taken fuel i w (inb_result OUTPUT_BUFFER w') (sys_inb OUTPUT_BUFFER w').2.

(** [m] messages are received, among them any number of interrupts of the keyboard whose
    bytes are not the break code of Escape. *)
Definition key_irq (i : Z) : bool := has i (BIT IRQ1).

Inductive keys (fuel : nat) : nat -> W -> W -> Prop :=
  | keys_end w : keys fuel 0 w w
  | keys_next m n w i w1 c w2 w' :
      hears key_irq n w i w1 -> key_taken fuel i w1 c w2 -> c <> Some ESCAPE ->
      keys fuel m w2 w' -> keys fuel (m + S n) w w'.

(** What the keyboard's interrupt keeps. *)
Definition key_stored (c : option Z) (g : lab5_st) : lab5_st :=
  match c with Some b => set_scancode b g | None => g end.

Lemma key_taken_stored fuel i (g : lab5_st) (w w' : W) c :
  key_taken fuel i w c w' -> esc_handle fuel i (g, w) = Done tt (key_stored c g, w').
Proof. unfold esc_handle. intros [->|np st w1 -> Hp Hn]; [done|]. by apply (kbc_ih_polls np _ _ _ _ st). Qed.

Lemma wait_loop_round fuel0 fuel n i c (g : lab5_st) (w w1 w2 : W) :
  hears key_irq n w i w1 -> key_taken fuel0 i w1 c w2 -> scancode g <> ESCAPE ->
  interrupt_loop (fuel + S n) (fun s => negb (scancode s =? ESCAPE)) (esc_handle fuel0) (g, w) =
    interrupt_loop fuel (fun s => negb (scancode s =? ESCAPE)) (esc_handle fuel0) (key_stored c g, w2).
Proof.
  intros Hh Hk Hsc.
  assert (forall j s, key_irq j = false -> esc_handle fuel0 j s = Done tt s) as Hidle
    by (unfold esc_handle, key_irq; by intros j s ->).
  rewrite (interrupt_loop_hears key_irq _ _ Hidle n _ _ w w1 i);
    [|by apply negb_true_iff, Z.eqb_neq|done].
  by rewrite (bind_Done _ _ _ _ _ (key_taken_stored _ _ _ _ _ _ Hk)).
Qed.

Lemma wait_loop_keys fuel0 fuel m (g : lab5_st) (w w' : W) :
  keys fuel0 m w w' -> scancode g <> ESCAPE ->
  exists b, b <> ESCAPE /\
    interrupt_loop (fuel + m) (fun s => negb (scancode s =? ESCAPE)) (esc_handle fuel0) (g, w) =
    interrupt_loop fuel (fun s => negb (scancode s =? ESCAPE)) (esc_handle fuel0) (set_scancode b g, w').
Proof.
  intros Hk. revert g. induction Hk as [w|m n w i w1 c w2 w' Hh Hk Hc _ IH]; intros g Hsc.
  { exists (scancode g). split; [done|]. rewrite Nat.add_0_r. by destruct g. }
  destruct (IH (key_stored c g)) as (b & Hb & E); [destruct c; [simpl; congruence|done]|].
  exists b. split; [done|]. rewrite Nat.add_assoc, (wait_loop_round _ _ _ _ _ _ _ _ _ Hh Hk Hsc), E. by destruct c.
Qed.

(** The wait ends with the break code of Escape, whatever came before it. *)
Lemma wait_escape_ends fuel m n i (g : lab5_st) (w w1 w2 w3 w4 : W) r h :
  keys fuel m w w1 -> hears key_irq n w1 i w2 -> key_taken fuel i w2 (Some ESCAPE) w3 ->
  scancode g <> ESCAPE -> (m + S n < fuel)%nat -> sys_irqrmpolicy (hook_id_kbd g) w3 = ((r, h), w4) ->
  wait_escape fuel (g, w) = Done 0 (set_hook_id_kbd h (set_scancode ESCAPE g), (vg_exit w4).2).
Proof.
  intros Hk Hh Ht Hsc Hf Er. unfold wait_escape.
  destruct (wait_loop_keys fuel (fuel - m - S n + S n) m g w w1 Hk Hsc) as (b & Hb & E).
  replace (fuel - m - S n + S n + m)%nat with fuel in E by lia. unfold bind at 1. rewrite E.
  rewrite (wait_loop_round _ _ _ _ _ (set_scancode b g) _ _ _ Hh Ht) by done. cbn [key_stored].
  rewrite interrupt_loop_done by (done || lia).
  rewrite (bind_Done _ _ _ _ _ (kbc_unsubscribe_eq (set_scancode ESCAPE (set_scancode b g)) w3 w4 r h Er)).
  unfold in_world, bind, zoom. cbn [lget snd_lens snd]. by rewrite call_eq.
Qed.
End Escape.

(** A byte of the keyboard in the scripted world. *)
Definition key_read (w : script) : script := (sys_inb OUTPUT_BUFFER (sys_inb STATUS_REGISTER w).2).2.

Lemma script_key fuel i (w : script) st c :
  has i (BIT IRQ1) = true -> (0 < fuel)%nat -> inb_result STATUS_REGISTER w = Some st -> has st OUT_BUFF = true ->
  inb_result OUTPUT_BUFFER (sys_inb STATUS_REGISTER w).2 = c -> key_taken fuel i w c (key_read w).
Proof. intros Hi Hf Hst Ho <-. eapply a_key; [done|by apply polls_now|done]. Qed.
