(* ===== verification/Lab5Move.v ===== *)
(** lab5: the moving sprite, [video_test_move] of lab5.c. [move_st] has the variables
    that the loop changes; the theorems say where the sprite is after any number of
    timer interrupts, and what the screen shows. *)
From S2P Require Import Prelude Env Utils Timer Interrupts I8042 Video Lab5.

(** lab5/lab5.c:291-292 [video_test_move, xi, yi and done_moving], which the loop changes *)
Record move_st : Type := MoveSt { m_x : Z; m_y : Z; done_moving : bool }.

Section Move.
Context {W : Type} `{PortIO W, Irq W, Lcf W, Display W, Libc W, Messages W}.

(** The program with the variables of the loop. *)
Definition globals_lens : lens ((lab5_st * move_st) * W) (lab5_st * W) :=
  Lens (fun s => (s.1.1, s.2)) (fun c s => ((c.1, s.1.2), c.2)).
Definition move_modify (f : move_st -> move_st) : M ((lab5_st * move_st) * W) unit :=
  modify (fun s => ((s.1.1, f s.1.2), s.2)).
Definition on_screen_ {A} (m : M video_st A) : M ((lab5_st * move_st) * W) A := zoom globals_lens (in_video m).

(** lab5/lab5.c:337-344 [video_test_move, a step down by step]: [yi] is a [uint16_t]. *)
Definition step_y (img : xpm_image_t) (yf step : Z) : M ((lab5_st * move_st) * W) unit :=
  let* s := gets (fun s => s.1.2) in
  let* _ := on_screen_ (vg_draw_rectangle (m_x s) (m_y s) (width img) (height img) 0) in
  let y := u16 (m_y s + step) in
  let y := if y >? yf then yf else y in
  move_modify (fun t => MoveSt (m_x t) y (done_moving t)) ;;
  on_screen_ (draw_sprite img (m_x s) y) ;;
  if y =? yf then move_modify (fun t => MoveSt (m_x t) (m_y t) true) else ret tt.

(** lab5/lab5.c:347-354 [video_test_move, a step to the right by step] *)
Definition step_x (img : xpm_image_t) (xf step : Z) : M ((lab5_st * move_st) * W) unit :=
  let* s := gets (fun s => s.1.2) in
  let* _ := on_screen_ (vg_draw_rectangle (m_x s) (m_y s) (width img) (height img) 0) in
  let x := u16 (m_x s + step) in
  let x := if x >? xf then xf else x in
  move_modify (fun t => MoveSt x (m_y t) (done_moving t)) ;;
  on_screen_ (draw_sprite img x (m_y s)) ;;
  if x =? xf then move_modify (fun t => MoveSt (m_x t) (m_y t) true) else ret tt.

(** lab5/lab5.c:336-377 [video_test_move, a movement by step]: the two branches differ by the step *)
Definition move_by (img : xpm_image_t) (xf yf step : Z) : M ((lab5_st * move_st) * W) unit :=
  let* s := gets (fun s => s.1.2) in
  if m_x s =? xf then step_y img yf step
  else if m_y s =? yf then step_x img xf step
  else ret tt.

(** lab5/lab5.c:332-380 [video_test_move, a timer interrupt] *)
Definition move_tick (img : xpm_image_t) (xf yf speed : Z) : M ((lab5_st * move_st) * W) unit :=
  zoom globals_lens timer_int_handler ;;
  let* s := gets fst in
  if negb (done_moving s.2) then
    (if (speed <? 0) && (Z.rem (counter s.1) (- speed) =? 0) then move_by img xf yf 1
     else if speed >? 0 then move_by img xf yf speed
     else ret tt) ;;
    on_screen_ double_buffer
  else ret tt.

(** lab5/lab5.c:328-381 [video_test_move, the hardware's messages] *)
Definition move_handle (fuel : nat) (img : xpm_image_t) (xf yf speed : Z) (interrupts : Z)
    : M ((lab5_st * move_st) * W) unit :=
  (if has interrupts (BIT IRQ1) then zoom globals_lens (kbc_ih fuel) else ret tt) ;;
  if has interrupts (BIT IRQ0) then move_tick img xf yf speed else ret tt.

(** lab5/lab5.c:291-393 [video_test_move]: the variables of the loop are those of the function. *)
Definition video_test_move (fuel : nat) (xpm : xpm_map_t) (xi yi xf yf speed fr_rate : Z) : M (lab5_st * W) Z :=
  let* _ := in_world (timer_set_frequency 0 fr_rate) in
  let mode := 0x105 in
  let* _ := zoom video_lens (vg_init mode) in
  let* r := timer_subscribe_int in
  if negb (r =? 0) then ret 1 else
  let* r := kbc_subscribe in
  if negb (r =? 0) then ret 1 else
  let* img := in_world (call (xpm_load xpm XPM_INDEXED)) in
  in_video (draw_sprite img xi yi) ;;
  in_video double_buffer ;;
  let* s := get in
  match interrupt_loop fuel (fun s => negb (scancode s.1 =? ESCAPE)) (move_handle fuel img xf yf speed)
          ((s.1, MoveSt xi yi false), s.2) with
  | Done _ (g, _, w) =>
      put (g, w) ;;
      let* _ := timer_unsubscribe_int in
      let* _ := kbc_unsubscribe in
      let* _ := in_world (call vg_exit) in
      ret 0
  | Undef => undef
  | Panic => panic
  | NoFuel => nofuel
  end.
End Move.

(** ** Where the sprite is *)

(** One movement of [step] pixels: to the right when the row is the final one, down when the
    column is, and never beyond the final position. *)
Definition advance (xf yf step : Z) (p : move_st) : move_st :=
  if m_x p =? xf then
    let y := Z.min (m_y p + step) yf in MoveSt (m_x p) y (done_moving p || (y =? yf))
  else
    let x := Z.min (m_x p + step) xf in MoveSt x (m_y p) (done_moving p || (x =? xf)).

(** The pixels moved by a tick that makes the counter [c]: every tick [speed] of them when the
    speed is positive, and one every [- speed] ticks when it is negative. *)
Definition tick_step (speed c : Z) : Z :=
  if speed <? 0 then (if c mod (- speed) =? 0 then 1 else 0) else speed.

Definition tick_pos (xf yf speed c : Z) (p : move_st) : move_st :=
  if done_moving p || (tick_step speed c =? 0) then p else advance xf yf (tick_step speed c) p.

(** The position after [k] ticks, and the positions before it. *)
Fixpoint run_pos (xf yf speed : Z) (k : nat) (c : Z) (p : move_st) : move_st :=
  match k with
  | O => p
  | S k => run_pos xf yf speed k (c + 1) (tick_pos xf yf speed (c + 1) p)
  end.
Fixpoint visited (xf yf speed : Z) (k : nat) (c : Z) (p : move_st) : list move_st :=
  match k with
  | O => []
  | S k => p :: visited xf yf speed k (c + 1) (tick_pos xf yf speed (c + 1) p)
  end.

(** How far the sprite goes in the [k] ticks after the counter was [c]. *)
Definition displacement (speed c k : Z) : Z :=
  if speed <? 0 then (c + k) / (- speed) - c / (- speed) else speed * k.

(** * Lemmas *)

Lemma displacement_succ speed c k :
  displacement speed c (1 + k) = tick_step speed (c + 1) + displacement speed (c + 1) k.
Proof.
  unfold displacement, tick_step. destruct (Z.ltb_spec speed 0) as [Hs|Hs]; [|lia].
  replace (c + (1 + k)) with (c + 1 + k) by lia. set (m := - speed) in *.
  enough ((c + 1) / m - c / m = if (c + 1) mod m =? 0 then 1 else 0) by lia.
  assert (0 < m) as Hm by lia. clearbody m.
  destruct (Z.eqb_spec ((c + 1) mod m) 0) as [E|E].
  - rewrite <- (Z.div_unique c m ((c + 1) / m - 1) (m - 1)); [lia|lia|].
    pose proof (Z.div_mod (c + 1) m). nia.
  - rewrite <- (Z.div_unique c m ((c + 1) / m) ((c + 1) mod m - 1)); [lia| |].
    + pose proof (Z.mod_pos_bound (c + 1) m). lia.
    + pose proof (Z.div_mod (c + 1) m). lia.
Qed.

Lemma tick_step_nonneg speed c : 0 <= tick_step speed c <= Z.max 1 speed.
Proof. unfold tick_step. repeat case_match; lia. Qed.

Lemma displacement_nonneg speed (k : nat) c : 0 <= displacement speed c (Z.of_nat k).
Proof.
  revert c. induction k as [|k IH]; intros c.
  - unfold displacement. rewrite Z.add_0_r. case_match; lia.
  - replace (Z.of_nat (S k)) with (1 + Z.of_nat k) by lia. rewrite displacement_succ.
    pose proof (tick_step_nonneg speed (c + 1)). specialize (IH (c + 1)). lia.
Qed.

Lemma run_pos_done xf yf speed k c p : done_moving p = true -> run_pos xf yf speed k c p = p.
Proof.
  intros Hd. revert c. induction k as [|k IH]; intros c; [done|]. simpl. unfold tick_pos at 1. by rewrite Hd.
Qed.

(** A horizontal movement in closed form. *)
Lemma run_pos_horizontal xf yf speed k c x :
  x < xf ->
  let d := x + displacement speed c (Z.of_nat k) in
  run_pos xf yf speed k c (MoveSt x yf false) = MoveSt (Z.min d xf) yf (xf <=? d).
Proof.
  revert c x. induction k as [|k IH]; intros c x Hx; cbv zeta.
  - assert (displacement speed c 0 = 0) as E by (unfold displacement; rewrite Z.add_0_r; case_match; lia).
    change (Z.of_nat 0) with 0. rewrite E. cbn [run_pos]. replace (xf <=? x + 0) with false by lia. f_equal. lia.
  - replace (Z.of_nat (S k)) with (1 + Z.of_nat k) by lia. rewrite displacement_succ.
    pose proof (tick_step_nonneg speed (c + 1)). pose proof (displacement_nonneg speed k (c + 1)) as Hd.
    cbn [run_pos]. unfold tick_pos at 1. cbn [done_moving orb].
    destruct (Z.eqb_spec (tick_step speed (c + 1)) 0) as [->|Hne].
    { rewrite IH by done. f_equal; lia. }
    unfold advance. cbn [m_x m_y done_moving orb]. replace (x =? xf) with false by lia.
    destruct (Z.eqb_spec (Z.min (x + tick_step speed (c + 1)) xf) xf) as [E|E].
    + rewrite run_pos_done by done. rewrite E.
      replace (xf <=? _) with true by lia. f_equal. lia.
    + rewrite IH by lia. f_equal; lia.
Qed.

Section MoveSpec.
Context {W : Type} `{PortIO W, Irq W, Lcf W, Display W, Libc W, Messages W}.
Variables (img : xpm_image_t) (w h xf yf : Z).
Hypothesis Himg : img8_ok img w h.

Definition at_sprite (p : move_st) : Z -> Z -> bool := in_rect (m_x p) (m_y p) w h.
Definition sprite_at (p : move_st) (x y : Z) : color_t := img8_px img (x - m_x p) (y - m_y p).

(** The sprite lies on the screen. *)
Definition fits (m : vbe_mode_info_t) (p : move_st) : Prop :=
  0 <= m_x p /\ m_x p + w <= XResolution m /\ 0 <= m_y p /\ m_y p + h <= YResolution m.

(** [v'] is [v] with the sprite erased at [p] and drawn at [p']. *)
Definition moved (p p' : move_st) (v v' : video_st) : Prop :=
  modeinfo v' = modeinfo v /\ screen_ok v' /\
  forall x y, on_screen (modeinfo v) x y ->
    px v' x y = if at_sprite p' x y then take (Z.to_nat (bytes_pp (modeinfo v))) (sprite_at p' x y)
                else if at_sprite p x y then take (Z.to_nat (bytes_pp (modeinfo v))) (color_of 0)
                else px v x y.

Lemma wp_on_screen {A} (m : M video_st A) Q (g : lab5_st) (p : move_st) (u : W) :
  wp (on_screen_ m) Q ((g, p), u) <-> wp m (fun a v => Q a ((set_video v g, p), u)) (video g).
Proof. unfold on_screen_, in_video. by rewrite !wp_zoom. Qed.

(** Erasing and drawing again. *)
Lemma painted_moved p p' v v1 v2 :
  screen_ok v -> painted (at_sprite p) (fun _ _ => color_of 0) v v1 ->
  painted (at_sprite p') (sprite_at p') v1 v2 -> moved p p' v v2.
Proof.
  intros Hv Pa Pb. pose proof (painted_mode _ _ _ _ Pa) as Em1. pose proof (painted_mode _ _ _ _ Pb) as Em2.
  split_and!; [congruence|by eapply painted_screen_ok, painted_screen_ok|].
  destruct Pa as [_ Pa], Pb as [_ Pb]. intros x y Hxy. rewrite Pb, Pa, Em1 by (done || by rewrite Em1). done.
Qed.

(** Erasing the sprite, changing its variables to [q], and drawing it at [p']. *)
Lemma wp_redraw g p p' q (f : move_st -> move_st) (u : W) (k : M ((lab5_st * move_st) * W) unit)
    (Q : unit -> (lab5_st * move_st) * W -> Prop) :
  screen_ok (video g) -> fits (modeinfo (video g)) p -> fits (modeinfo (video g)) p' -> f p = q ->
  (forall v', moved p p' (video g) v' -> wp k Q ((set_video v' g, q), u)) ->
  wp (let* _ := on_screen_ (vg_draw_rectangle (m_x p) (m_y p) (width img) (height img) 0) in
      move_modify f ;; on_screen_ (draw_sprite img (m_x p') (m_y p')) ;; k) Q ((g, p), u).
Proof.
  intros Hs Hp Hp' <- HQ. pose proof Himg as (_ & Ew & Eh & _ & Hw & Hh). rewrite Ew, Eh.
  destruct Hp as (P1 & P2 & P3 & P4), Hp' as (P1' & P2' & P3' & P4').
  apply wp_bind, wp_on_screen, wp_vg_draw_rectangle; [apply Hs|done..|]. intros v1 Pa.
  apply wp_bind, wp_modify, wp_bind, wp_on_screen. cbn [fst snd video set_video].
  pose proof (painted_mode _ _ _ _ Pa) as Em.
  apply (wp_draw_sprite img w h); [by eapply painted_wf, Hs|done|rewrite ?Em; done..|].
  intros v2 Pb. apply (HQ v2). by apply (painted_moved p p' _ v1).
Qed.

(** A movement, in each direction. *)
Lemma wp_move_by step g p (u : W) (Q : unit -> (lab5_st * move_st) * W -> Prop) :
  screen_ok (video g) -> fits (modeinfo (video g)) p -> fits (modeinfo (video g)) (MoveSt xf yf true) ->
  done_moving p = false -> m_x p <= xf -> m_y p <= yf -> m_x p = xf \/ m_y p = yf ->
  0 < step -> xf + step < 65536 -> yf + step < 65536 ->
  (forall v', moved p (advance xf yf step p) (video g) v' ->
     Q tt ((set_video v' g, advance xf yf step p), u)) ->
  wp (move_by img xf yf step) Q ((g, p), u).
Proof.
  intros Hs Hf Hff Hd Hx Hy Hor Hst Hxs Hys HQ. pose proof Hf as (P1 & P2 & P3 & P4).
  destruct Hff as (F1 & F2 & F3 & F4). simpl in F1, F2, F3, F4.
  unfold move_by. apply wp_bind, wp_gets. cbn [fst snd]. revert HQ. unfold advance. rewrite Hd.
  destruct (Z.eqb_spec (m_x p) xf) as [Ex|Ex]; cbn [orb]; intros HQ.
  - unfold step_y. apply wp_bind, wp_gets. cbn [fst snd]. cbv zeta. rewrite u16_small by lia.
    replace (if _ >? yf then yf else _) with (Z.min (m_y p + step) yf) by (case_match; lia).
    apply (wp_redraw g p (MoveSt (m_x p) (Z.min (m_y p + step) yf) false) (MoveSt (m_x p) (Z.min (m_y p + step) yf) false));
      [done|done|split_and!; simpl; lia|by rewrite Hd|].
    intros v' Hm. destruct (_ =? yf); [apply wp_modify|apply wp_ret]; by apply HQ.
  - destruct Hor as [|Ey]; [done|]. rewrite (proj2 (Z.eqb_eq _ _) Ey).
    unfold step_x. apply wp_bind, wp_gets. cbn [fst snd]. cbv zeta. rewrite u16_small by lia.
    replace (if _ >? xf then xf else _) with (Z.min (m_x p + step) xf) by (case_match; lia).
    apply (wp_redraw g p (MoveSt (Z.min (m_x p + step) xf) (m_y p) false) (MoveSt (Z.min (m_x p + step) xf) (m_y p) false));
      [done|done|split_and!; simpl; lia|by rewrite Hd|].
    intros v' Hm. destruct (_ =? xf); [apply wp_modify|apply wp_ret]; by apply HQ.
Qed.

(** The picture: the sprite at [p], black where [trail] says it was, and the first
    picture elsewhere; all of it shown on the monitor. *)
Definition picture (p : move_st) (trail : list move_st) (v0 v : video_st) : Prop :=
  modeinfo v = modeinfo v0 /\ screen_ok v /\
  forall x y, on_screen (modeinfo v0) x y ->
    shown v x y = px v x y /\
    px v x y = if at_sprite p x y then take (Z.to_nat (bytes_pp (modeinfo v0))) (sprite_at p x y)
               else if existsb (fun q => at_sprite q x y) trail
                    then take (Z.to_nat (bytes_pp (modeinfo v0))) (color_of 0)
               else px v0 x y.

Lemma moved_picture p p' trail v0 v v' :
  picture p trail v0 v -> moved p p' v v' ->
  forall x y, on_screen (modeinfo v0) x y ->
    px v' x y = if at_sprite p' x y then take (Z.to_nat (bytes_pp (modeinfo v0))) (sprite_at p' x y)
               else if existsb (fun q => at_sprite q x y) (trail ++ [p])
                    then take (Z.to_nat (bytes_pp (modeinfo v0))) (color_of 0)
               else px v0 x y.
Proof.
  intros (Em & Hv & Hpx) (Em' & Hv' & Hpx') x y Hxy. rewrite Hpx' by by rewrite Em.
  rewrite existsb_app, Em. cbn [existsb]. rewrite orb_false_r.
  destruct (at_sprite p' x y); [done|]. destruct (Hpx x y Hxy) as [_ ->].
  destruct (at_sprite p x y); [by rewrite orb_true_r|by rewrite orb_false_r].
Qed.

Lemma same_picture p trail v0 v : picture p trail v0 v -> picture p (trail ++ [p]) v0 v.
Proof.
  intros (Em & Hv & Hpx). split_and!; [done..|]. intros x y Hxy. destruct (Hpx x y Hxy) as [E1 E2].
  split; [done|]. rewrite E2, existsb_app. cbn [existsb]. rewrite orb_false_r.
  destruct (at_sprite p x y); [done|]. by rewrite orb_false_r.
Qed.

(** The sprite is on its way: on the screen, and in the row or the column of the end. *)
Definition on_track (m : vbe_mode_info_t) (p : move_st) : Prop :=
  fits m p /\ m_x p <= xf /\ m_y p <= yf /\ (m_x p = xf \/ m_y p = yf).

Lemma on_track_advance m p step :
  0 < step -> on_track m p -> fits m (MoveSt xf yf true) -> on_track m (advance xf yf step p).
Proof.
  intros Hst (Hf & Hx & Hy & Hor) Hff. unfold on_track, fits, advance in *. simpl in *.
  destruct (Z.eqb_spec (m_x p) xf); simpl; lia.
Qed.

Lemma on_track_tick m p speed c :
  on_track m p -> fits m (MoveSt xf yf true) -> on_track m (tick_pos xf yf speed c p).
Proof.
  intros Ht Hf. unfold tick_pos. pose proof (tick_step_nonneg speed c).
  destruct (done_moving p); [done|]. destruct (Z.eqb_spec (tick_step speed c) 0); [done|].
  apply on_track_advance; [lia|done..].
Qed.

(** Nothing but the counter and the picture changes; and the hooks of the interrupts. *)
Definition same_drivers (g g' : lab5_st) : Prop :=
  hook_id_kbd g' = hook_id_kbd g /\ hook_id_timer g' = hook_id_timer g /\ scancode g' = scancode g.

Definition same_hooks (g g' : lab5_st) : Prop :=
  hook_id_kbd g' = hook_id_kbd g /\ hook_id_timer g' = hook_id_timer g.
#[local] Instance same_hooks_trans : Transitive same_hooks.
Proof. intros g1 g2 g3 [A1 A2] [B1 B2]. split; congruence. Qed.

(** A tick with a picture to show at the end. *)
Lemma wp_show g p p' trail v0 (u : W) (Q : unit -> (lab5_st * move_st) * W -> Prop) :
  modeinfo (video g) = modeinfo v0 -> screen_ok (video g) ->
  (forall x y, on_screen (modeinfo v0) x y ->
    px (video g) x y = if at_sprite p' x y then take (Z.to_nat (bytes_pp (modeinfo v0))) (sprite_at p' x y)
               else if existsb (fun q => at_sprite q x y) trail
                    then take (Z.to_nat (bytes_pp (modeinfo v0))) (color_of 0)
               else px v0 x y) ->
  (forall v', picture p' trail v0 v' -> Q tt ((set_video v' g, p), u)) ->
  wp (on_screen_ double_buffer) Q ((g, p), u).
Proof.
  intros Em Hs Hpx HQ. apply wp_on_screen, wp_double_buffer; [done|]. intros v' Em' Hs' Hpx'. apply HQ.
  split_and!; [congruence|done|]. intros x y Hxy. rewrite Em in Hpx'. destruct (Hpx' x y Hxy) as [E1 E2].
  by rewrite E1, E2, Hpx.
Qed.

Lemma wp_move_tick speed g p trail v0 (u : W) (Q : unit -> (lab5_st * move_st) * W -> Prop) :
  picture p trail v0 (video g) -> on_track (modeinfo v0) p -> fits (modeinfo v0) (MoveSt xf yf true) ->
  0 <= counter g < INT_MAX -> xf + Z.max 1 speed < 65536 -> yf + Z.max 1 speed < 65536 ->
  (forall g', same_drivers g g' -> counter g' = counter g + 1 ->
     picture (tick_pos xf yf speed (counter g + 1) p) (trail ++ [p]) v0 (video g') ->
     Q tt ((g', tick_pos xf yf speed (counter g + 1) p), u)) ->
  wp (move_tick img xf yf speed) Q ((g, p), u).
Proof.
  intros Hpic Ht Hff Hc Hxs Hys HQ. pose proof Hpic as (Em & Hs & _). pose proof Ht as (Hf & Hx & Hy & Hor).
  unfold move_tick. apply wp_bind, wp_zoom. unfold timer_int_handler. apply wp_bind, wp_gets, wp_bind.
  cbn [lget globals_lens fst snd]. apply wp_int; [apply is_int_spec; unfold INT_MIN; lia|].
  apply wp_modify. cbn [lset globals_lens fst snd]. apply wp_bind, wp_gets. cbn [fst snd].
  set (g1 := set_counter (counter g + 1) g). set (c := counter g + 1).
  assert (modeinfo (video g1) = modeinfo v0) as Em1 by exact Em.
  revert HQ. unfold tick_pos. fold c. destruct (done_moving p) eqn:Hd; cbn [orb negb]; intros HQ.
  { apply wp_ret, HQ; [done|done|by apply same_picture]. }
  assert (forall s, (Z.eqb s 0) = false -> s = tick_step speed c ->
    wp (move_by img xf yf s ;; on_screen_ double_buffer) Q ((g1, p), u)) as Hmove.
  { intros s Hs0 ->. pose proof (tick_step_nonneg speed c). rewrite Hs0 in HQ. apply wp_bind, wp_move_by;
      [done|by rewrite Em1|by rewrite Em1|done|done|done|done|lia|lia|lia|].
    intros v' Hm. pose proof Hm as (Em' & Hs' & _).
    apply (wp_show _ _ (advance xf yf (tick_step speed c) p) (trail ++ [p]) v0);
      [cbn [video set_video]; rewrite Em'; exact Em1|done|by apply (moved_picture _ _ _ _ (video g))|].
    intros v'' Hp. by apply (HQ (set_video v'' (set_video v' g1))). }
  assert (tick_step speed c = 0 -> wp (ret tt ;; on_screen_ double_buffer) Q ((g1, p), u)) as Hstay.
  { intros E. rewrite E in HQ. apply wp_bind, wp_ret.
    pose proof (same_picture _ _ _ _ Hpic) as (_ & _ & Hpx).
    apply (wp_show _ _ p (trail ++ [p]) v0); [done|done|intros x y Hxy; by apply Hpx|].
    intros v'' Hp. by apply (HQ (set_video v'' g1)). }
  cbn [counter set_counter g1]. fold c. unfold tick_step in Hmove, Hstay.
  destruct (Z.ltb_spec speed 0); cbn [andb].
  - rewrite Z.rem_mod_nonneg by lia. destruct (c mod - speed =? 0); [by apply (Hmove 1)|].
    replace (speed >? 0) with false by lia. by apply Hstay.
  - destruct (Z.eqb_spec speed 0) as [->|Hne]; [by apply Hstay|].
    replace (speed >? 0) with true by lia. apply Hmove; [lia|done].
Qed.

(** ** The frames of the movement *)
Definition move_irq (i : Z) : bool := has i (BIT IRQ1) || has i (BIT IRQ0).

(** [m] messages are received, among them [k] ticks of the timer and any number of
    interrupts of the keyboard, alone or together with a tick, whose bytes are not the
    break code of Escape. *)
Definition ticks (i : Z) : nat := if has i (BIT IRQ0) then 1 else 0.

Inductive frames (fuel : nat) : nat -> nat -> W -> W -> Prop :=
  | frames_end w : frames fuel 0 0 w w
  | frames_next k n m w i w1 c w2 w' :
      hears move_irq n w i w1 -> key_taken fuel i w1 c w2 -> c <> Some ESCAPE ->
      frames fuel k m w2 w' -> frames fuel (ticks i + k) (m + S n) w w'.

Lemma move_other fuel speed i (s : (lab5_st * move_st) * W) :
  move_irq i = false -> move_handle fuel img xf yf speed i s = Done tt s.
Proof. unfold move_handle, move_irq. intros [-> ->]%orb_false_iff. done. Qed.

Definition move_loop (fuel0 fuel : nat) (speed : Z) : M ((lab5_st * move_st) * W) unit :=
  interrupt_loop fuel (fun s => negb (scancode s.1 =? ESCAPE)) (move_handle fuel0 img xf yf speed).

(** One message: the byte it brings is kept, and the sprite is moved if it brings a tick. *)
Lemma wp_move_message fuel0 speed i c (u u1 : W) g p trail v0 :
  key_taken fuel0 i u c u1 -> picture p trail v0 (video g) -> on_track (modeinfo v0) p ->
  fits (modeinfo v0) (MoveSt xf yf true) ->
  0 <= counter g -> counter g + Z.of_nat (ticks i) <= INT_MAX ->
  xf + Z.max 1 speed < 65536 -> yf + Z.max 1 speed < 65536 ->
  wp (move_handle fuel0 img xf yf speed i) (fun _ s' => exists g',
    s' = ((g', run_pos xf yf speed (ticks i) (counter g) p), u1) /\
    same_hooks g g' /\ scancode g' = default (scancode g) c /\
    counter g' = counter g + Z.of_nat (ticks i) /\
    on_track (modeinfo v0) (run_pos xf yf speed (ticks i) (counter g) p) /\
    picture (run_pos xf yf speed (ticks i) (counter g) p)
      (trail ++ visited xf yf speed (ticks i) (counter g) p) v0 (video g')) ((g, p), u).
Proof.
  intros Hk Hp Ht Hff Hc Hmax Hxs Hys. unfold move_handle. apply wp_bind.
  set (g1 := match c with Some b => set_scancode b g | None => g end).
  apply (wp_Done _ _ _ tt ((g1, p), u1)).
  { subst g1. destruct Hk as [->|np st w' -> Hpolls Hnp]; [done|].
    erewrite zoom_Done by (cbn [lget globals_lens fst snd]; by eapply kbc_ih_polls). done. }
  assert (video g1 = video g /\ counter g1 = counter g /\ scancode g1 = default (scancode g) c /\ same_hooks g g1)
    as (Ev & Ec & Es & Hh) by by destruct c.
  unfold ticks in *. destruct (has i (BIT IRQ0)).
  - eapply wp_move_tick; [by rewrite Ev|done|done|lia|done|done|].
    intros g' (Hk' & Htm & Hs') Hc' Hp'. exists g'. cbn [run_pos visited] in *. rewrite Ec in *.
    split_and!; [done|by destruct Hh; split; congruence|congruence|lia|by apply on_track_tick|done].
  - apply wp_ret. exists g1. cbn [run_pos visited]. rewrite app_nil_r, Ev.
    split_and!; [done|done|done|lia|done|done].
Qed.

Lemma run_pos_add xf' yf' speed a k c p :
  run_pos xf' yf' speed (a + k) c p = run_pos xf' yf' speed k (c + Z.of_nat a) (run_pos xf' yf' speed a c p).
Proof.
  revert c p. induction a as [|a IH]; intros c p; [by rewrite Z.add_0_r|]. simpl. rewrite IH. f_equal. lia.
Qed.
Lemma visited_add xf' yf' speed a k c p :
  visited xf' yf' speed (a + k) c p =
    visited xf' yf' speed a c p ++ visited xf' yf' speed k (c + Z.of_nat a) (run_pos xf' yf' speed a c p).
Proof.
  revert c p. induction a as [|a IH]; intros c p; [by rewrite Z.add_0_r|]. simpl. rewrite IH. do 3 f_equal. lia.
Qed.

(** The round of the loop that handles a message. *)
Lemma move_loop_round fuel0 fuel n (u u1 : W) i speed g p :
  hears move_irq n u i u1 -> scancode g <> ESCAPE ->
  move_loop fuel0 (fuel + S n) speed ((g, p), u) =
    bind (move_handle fuel0 img xf yf speed i) (fun _ => move_loop fuel0 fuel speed) ((g, p), u1).
Proof.
  intros Hh Hsc. apply (interrupt_loop_hears move_irq _ _ (move_other fuel0 speed) n _ _ u u1 i); [|done].
  simpl. by apply negb_true_iff, Z.eqb_neq.
Qed.

Lemma move_loop_frames fuel0 k m (w0 w' : W) fuel speed g p trail v0 :
  frames fuel0 k m w0 w' -> picture p trail v0 (video g) -> on_track (modeinfo v0) p ->
  fits (modeinfo v0) (MoveSt xf yf true) -> scancode g <> ESCAPE ->
  0 <= counter g -> counter g + Z.of_nat k <= INT_MAX ->
  xf + Z.max 1 speed < 65536 -> yf + Z.max 1 speed < 65536 ->
  exists g', move_loop fuel0 (fuel + m) speed ((g, p), w0) =
      move_loop fuel0 fuel speed ((g', run_pos xf yf speed k (counter g) p), w') /\
    same_hooks g g' /\ scancode g' <> ESCAPE /\ counter g' = counter g + Z.of_nat k /\
    on_track (modeinfo v0) (run_pos xf yf speed k (counter g) p) /\
    picture (run_pos xf yf speed k (counter g) p) (trail ++ visited xf yf speed k (counter g) p) v0 (video g').
Proof.
  intros Hfr. revert g p trail. induction Hfr as [w0|k n m w0 i w1 c w2 w' Hh Hk Hce _ IH];
    intros g p trail Hpic Ht Hff Hsc Hc Hmax Hxs Hys.
  { exists g. rewrite Nat.add_0_r. simpl. rewrite app_nil_r. split_and!; [done..|lia|done|done]. }
  destruct (proj1 (wp_inv _ _ _) (wp_move_message fuel0 speed i c w1 w2 g p trail v0 Hk Hpic Ht Hff Hc
    ltac:(lia) Hxs Hys)) as ([] & s1 & E & g1 & -> & Hd & Hs1 & Hc1 & Ht1 & Hp1).
  destruct (IH g1 _ _ Hp1 Ht1 Hff) as (g' & El & Hd' & Hs' & Hc' & Ht' & Hp');
    [rewrite Hs1; destruct c; [simpl; congruence|done]|lia|lia|done|done|].
  exists g'. rewrite run_pos_add, visited_add, app_assoc, <- Hc1. split_and!; [|by etrans|done|lia|done|done].
  rewrite Nat.add_assoc, (move_loop_round _ _ _ _ _ _ _ _ _ Hh Hsc).
  by rewrite (bind_Done _ _ _ _ _ E).
Qed.
(** The whole loop: frames, and then the break code of Escape. *)
Lemma move_loop_messages fuel0 k m n i (w0 w1 w2 w3 : W) fuel speed g p v0 :
  frames fuel0 k m w0 w1 -> hears move_irq n w1 i w2 -> key_taken fuel0 i w2 (Some ESCAPE) w3 ->
  picture p [] v0 (video g) -> on_track (modeinfo v0) p ->
  fits (modeinfo v0) (MoveSt xf yf true) -> scancode g <> ESCAPE ->
  0 <= counter g -> counter g + Z.of_nat (k + ticks i) <= INT_MAX ->
  xf + Z.max 1 speed < 65536 -> yf + Z.max 1 speed < 65536 -> (0 < fuel)%nat ->
  exists g', move_loop fuel0 (fuel + S n + m) speed ((g, p), w0) =
      Done tt ((g', run_pos xf yf speed (k + ticks i) (counter g) p), w3) /\
    same_hooks g g' /\
    picture (run_pos xf yf speed (k + ticks i) (counter g) p)
      (visited xf yf speed (k + ticks i) (counter g) p) v0 (video g').
Proof.
  intros Hfr Hh Hk Hpic Ht Hff Hsc Hc Hmax Hxs Hys Hf.
  destruct (move_loop_frames fuel0 k m w0 w1 (fuel + S n) speed g p [] v0 Hfr Hpic Ht Hff Hsc Hc
    ltac:(lia) Hxs Hys) as (g1 & -> & Hd1 & Hs1 & Hc1 & Ht1 & Hp1).
  rewrite (move_loop_round _ _ _ _ _ _ _ _ _ Hh Hs1).
  destruct (proj1 (wp_inv _ _ _) (wp_move_message fuel0 speed i _ w2 w3 g1 _ _ v0 Hk Hp1 Ht1 Hff
    ltac:(lia) ltac:(lia) Hxs Hys)) as ([] & s2 & E & g2 & -> & Hd2 & Hs2 & _ & _ & Hp2).
  exists g2. rewrite run_pos_add, visited_add, <- Hc1. split_and!; [|by etrans|done].
  rewrite (bind_Done _ _ _ _ _ E). apply interrupt_loop_done; [done|]. simpl in *. by rewrite Hs2.
Qed.
End MoveSpec.

Section MoveTheorems.
Context {W : Type} `{PortIO W, Irq W, Lcf W, Display W, Libc W, Messages W}.

(** The sprite drawn for the first time. *)
Lemma wp_first_picture img w h xi yi b g (u : W) (Q : unit -> lab5_st * W -> Prop) :
  img8_ok img w h -> screen_ok (video g) -> fits w h (modeinfo (video g)) (MoveSt xi yi b) ->
  (forall v', picture img w h (MoveSt xi yi b) [] (video g) v' -> Q tt (set_video v' g, u)) ->
  wp (in_video (draw_sprite img xi yi) ;; in_video double_buffer) Q (g, u).
Proof.
  intros Hi Hs (F1 & F2 & F3 & F4) HQ. unfold in_video. apply wp_bind. rewrite !wp_zoom.
  apply (wp_draw_sprite img w h); [apply Hs|done..|]. intros v1 Hp.
  rewrite !wp_zoom. cbn [lget lset video_lens fst_lens fst snd video set_video].
  apply wp_double_buffer; [by eapply painted_screen_ok|]. intros v2 Em Hs2 Hpx. apply (HQ v2).
  pose proof (painted_mode _ _ _ _ Hp) as Em1. simpl in Em1. destruct Hp as [_ Hp].
  split_and!; [by etrans|done|]. intros x y Hxy. rewrite Em1 in Hpx. destruct (Hpx x y Hxy) as [E1 E2].
  rewrite E1, E2, Hp by done. done.
Qed.

(** (C21) [video_test_move] with a sprite that fits the screen and moves to the right (and the
    subscriptions accepted) returns 0 when the break code of Escape
    has come: whatever other messages came before it, among them interrupts of the keyboard with any
    other bytes, when [k] ticks of the timer were among them (a tick in the last message
    included), the sprite stands [displacement] pixels from where it started (the speed times [k], or one pixel
    for every [- speed] ticks of the counter when the speed is negative), but never beyond [xf];
    the monitor shows it there, black where it was before, and the rest of the screen as it was. *)
Theorem video_test_move_arrives (fuel k0 m n : nat) (xpm : xpm_map_t) (img : xpm_image_t)
    (xi xf yf speed fr wd ht i : Z) (s : lab5_st) (v1 : video_st)
    (w w0 w1 w2 w3 w4 w5 w5' w6 w7 w8 : W) (rf h1 h2 r1 r2 h1' h2' : Z) (ok : bool) :
  let k := (k0 + ticks i)%nat in
  timer_set_frequency 0 fr w = Done rf w0 ->
  vg_init 0x105 (video s, w0) = Done ok (v1, w1) -> screen_ok v1 ->
  sys_irqsetpolicy 0 IRQ_REENABLE 0 w1 = ((0, h1), w2) ->
  sys_irqsetpolicy IRQ1 (Z.lor IRQ_REENABLE IRQ_EXCLUSIVE) IRQ1 w2 = ((0, h2), w3) ->
  xpm_load xpm XPM_INDEXED w3 = (img, w4) -> img8_ok img wd ht ->
  0 <= xi < xf -> xf + wd <= XResolution (modeinfo v1) -> 0 <= yf -> yf + ht <= YResolution (modeinfo v1) ->
  xf + Z.max 1 speed < 65536 -> yf + Z.max 1 speed < 65536 ->
  scancode s <> ESCAPE -> 0 <= counter s -> counter s + Z.of_nat k <= INT_MAX ->
  frames fuel k0 m w4 w5 -> hears move_irq n w5 i w5' -> key_taken fuel i w5' (Some ESCAPE) w6 ->
  (m + S n < fuel)%nat ->
  sys_irqrmpolicy h1 w6 = ((r1, h1'), w7) -> sys_irqrmpolicy h2 w7 = ((r2, h2'), w8) ->
  let d := xi + displacement speed (counter s) (Z.of_nat k) in
  exists s', video_test_move fuel xpm xi yf xf yf speed fr (s, w) = Done 0 (s', (vg_exit w8).2) /\
    picture img wd ht (MoveSt (Z.min d xf) yf (xf <=? d))
      (visited xf yf speed k (counter s) (MoveSt xi yf false)) v1 (video s').
Proof.
  intros k E0 Ev Hs1 E1 E2 E3 Himg Hx Hxw Hy Hyh Hxs Hys Hsc Hc Hmax Hfr Hh Hk Hf E4 E5 d.
  assert (0 <= wd /\ 0 <= ht) as [Hwd Hht] by by destruct Himg as (_ & _ & _ & _ & ? & ?).
  set (g0 := set_hook_id_kbd h2 (set_hook_id_timer h1 (set_video v1 s))).
  set (p0 := MoveSt xi yf false).
  assert (fits wd ht (modeinfo v1) p0) as Hfi by (unfold fits; simpl; lia).
  destruct (proj1 (wp_inv _ _ _) (wp_first_picture img wd ht xi yf false g0 w4
    (fun _ s' => exists v', s' = (set_video v' g0, w4) /\ picture img wd ht p0 [] v1 v')
    Himg Hs1 Hfi (fun v' Hp => ex_intro _ v' (conj eq_refl Hp)))) as ([] & s2 & Edraw & v2 & -> & Hpic).
  destruct (move_loop_messages img wd ht xf yf Himg fuel k0 m n i w4 w5 w5' w6 (fuel - m - S n) speed
    (set_video v2 g0) p0 v1 Hfr Hh Hk Hpic) as (g3 & Eloop & [Hkbd Htm] & Hpic3);
    [unfold on_track; simpl; split_and!; [done|lia|lia|by right]|unfold fits; simpl; lia|done|done|
     exact Hmax|done|done|lia|].
  exists (set_hook_id_kbd h2' (set_hook_id_timer h1' g3)). split; [|].
  2: { change (counter (set_video v2 g0)) with (counter s) in Hpic3. subst p0.
       rewrite run_pos_horizontal in Hpic3 by lia. exact Hpic3. }
  unfold video_test_move, in_world.
  rewrite (bind_Done _ _ _ _ _ (zoom_Done snd_lens _ (s, w) _ _ E0)). cbn [lset snd_lens fst].
  rewrite (bind_Done _ _ _ _ _ (zoom_Done video_lens _ (s, w0) _ _ Ev)). cbn [lset video_lens fst snd].
  rewrite (bind_Done _ _ _ _ _ (timer_subscribe_eq _ _ _ _ E1)). cbn [Z.eqb negb].
  rewrite (bind_Done _ _ _ _ _ (kbc_subscribe_eq _ _ _ _ E2)). cbn [Z.eqb negb].
  rewrite (bind_Done _ _ _ _ _ (zoom_call_snd _ _ _ _ _ E3)).
  rewrite <- bind_assoc, (bind_Done _ _ _ _ _ Edraw). cbn [fst snd].
  unfold bind at 1, get. cbn [fst snd].
  replace (fuel - m - S n + S n + m)%nat with fuel in Eloop by lia. unfold move_loop in Eloop. subst p0. rewrite Eloop.
  unfold bind at 1, put.
  rewrite (bind_Done _ _ _ _ _ (timer_unsubscribe_eq g3 _ _ _ _
    (eq_trans (f_equal (fun h => sys_irqrmpolicy h _) Htm) E4))).
  rewrite (bind_Done _ _ _ _ _ (kbc_unsubscribe_eq (set_hook_id_timer h1' g3) _ _ _ _
    (eq_trans (f_equal (fun h => sys_irqrmpolicy h _) Hkbd) E5))).
  unfold bind, zoom. cbn [lget snd_lens snd]. by rewrite call_eq.
Qed.
End MoveTheorems.

(** ** Examples *)

Definition move_xpm : xpm_map_t := XpmMap "sprite" 4 2 2 1.

(** Mode 0x105, a status of the timer, and messages: a tick, Escape pressed together with a
    tick, a tick, and Escape released. *)
Definition move_script : script :=
  with_mode mode_0x105 (with_in [(0, 0x36); (0, 1); (0, 0x01); (0, 1); (0, ESCAPE)]
    (with_msgs [irq 1; irq 3; irq 1; irq 2] script0)).

(** The scripted world when the loop of [video_test_move] begins. *)
Definition move_ready : script :=
  let w0 := match timer_set_frequency 0 60 move_script with Done _ w => w | _ => script0 end in
  let w1 := match vg_init 0x105 (video_init_st, w0) with Done _ (_, w) => w | _ => script0 end in
  log (EIrqSet IRQ1 3 IRQ1) (log (EIrqSet 0 1 0) w1).

Lemma script_frame fuel k m w i l c w2 w' :
  s_msgs w = irq i :: l -> move_irq i = true -> key_taken fuel i (with_msgs l w) c w2 -> c <> Some ESCAPE ->
  frames fuel k m w2 w' -> frames fuel (ticks i + k) (m + 1) w w'.
Proof. intros E Hi Hk Hc Hf. eapply frames_next; [by eapply script_hears|done..]. Qed.

(** The messages of the script. *)
Lemma move_script_frames :
  exists w5, frames 6 3 3 move_ready w5 /\ s_msgs w5 = [irq 2] /\
    w5 = with_msgs [irq 2] (key_read (with_msgs [irq 1; irq 2] move_ready)).
Proof.
  exists (with_msgs [irq 2] (key_read (with_msgs [irq 1; irq 2] move_ready))).
  split_and!; [|reflexivity|reflexivity].
  eapply (script_frame 6 2 2 _ 1); [reflexivity..|by apply no_key|done|].
  eapply (script_frame 6 1 1 _ 3); [reflexivity..|eapply script_key; [reflexivity|lia|reflexivity..]|discriminate|].
  eapply (script_frame 6 0 0 _ 1); [reflexivity..|by apply no_key|done|].
  constructor.
Qed.

Lemma video_test_move_arrives_witness :
  exists s' w', video_test_move 6 move_xpm 10 20 14 20 2 60 (lab5_init_st, move_script) = Done 0 (s', w') /\
    picture (Image 4 2 8 (Some (fun _ => 0))) 4 2 (MoveSt 14 20 true)
      [MoveSt 10 20 false; MoveSt 12 20 false; MoveSt 14 20 true]
      (VideoSt (Some (Block 786432 ∅)) (Some (Block 786432 ∅)) no_image no_image mode_0x105) (video s').
Proof.
  assert (screen_ok (VideoSt (Some (Block 786432 ∅)) (Some (Block 786432 ∅)) no_image no_image mode_0x105)) as Hok
    by (split; [exact screen_0x105_wf|by eexists]).
  destruct move_script_frames as (w5 & Hfr & Em & Ew).
  edestruct (video_test_move_arrives 6 3 3 0 move_xpm (Image 4 2 8 (Some (fun _ => 0))) 10 14 20 2 60 4 2 2
    lab5_init_st (VideoSt (Some (Block 786432 ∅)) (Some (Block 786432 ∅)) no_image no_image mode_0x105)
    move_script) as (s' & E & Hp);
    [vm_compute; reflexivity|vm_compute; reflexivity|exact Hok|reflexivity|reflexivity|reflexivity|
     by split_and!; [eexists|..]|lia|simpl; lia|lia|simpl; lia|lia|lia|discriminate|simpl; lia|
     vm_compute; discriminate|exact Hfr|by eapply script_hears|
     rewrite Ew; eapply (script_key 6 2); [reflexivity|lia|reflexivity..]|lia|
     reflexivity|reflexivity|].
  eexists s', _. split; [exact E|exact Hp].
Defined.
