(* ===== verification/Lab5Pattern.v ===== *)
(** lab5: the pattern of rectangles, [video_test_pattern] of lab5.c: which colour each
    pixel of the screen gets, with colours of three components and with indexed
    colours. *)
From S2P Require Import Prelude Env Utils Timer Interrupts I8042 Video Lab5.

(** * The rectangles *)
Section Rectangles.
Variables (v : video_st) (n : Z) (mode first step : Z) (rgb : option (Z * Z * Z)) (col : Z -> Z -> Z).
Hypothesis Hv : vid_wf v.
Hypothesis Hn : 1 <= n < 256.
Hypothesis Hrgb : first_components mode first (modeinfo v) v = Done rgb v.
Hypothesis Hcol : forall i j v', 0 <= i < n -> 0 <= j < n ->
  pattern_color mode n first step rgb (modeinfo v) i j v' = Done (col i j) v'.
Hypothesis Hcol_range : forall i j, 0 <= i < n -> 0 <= j < n -> 0 <= col i j < 4294967296.

Definition x_rect : Z := XResolution (modeinfo v) / n.
Definition y_rect : Z := YResolution (modeinfo v) / n.

(** The rectangle of pixel [(x, y)], and whether it is one of the [n] times [n]. *)
Definition cell_color (x y : Z) : color_t := color_of (col (y / y_rect) (x / x_rect)).
Definition in_pattern (x y : Z) : bool := in_rect 0 0 (n * x_rect) (n * y_rect) x y.

(** The part drawn before rectangle [(i, j)]. *)
Definition drawn (i j x y : Z) : bool :=
  in_rect 0 0 (n * x_rect) (i * y_rect) x y || in_rect 0 (i * y_rect) (j * x_rect) y_rect x y.

Lemma x_rect_bound : 0 <= x_rect /\ n * x_rect <= XResolution (modeinfo v).
Proof using Hv Hn.
  destruct Hv as [(HX & _) _]. unfold x_rect. split; [apply Z.div_pos; lia|].
  apply Z.mul_div_le. lia.
Qed.

Lemma y_rect_bound : 0 <= y_rect /\ n * y_rect <= YResolution (modeinfo v).
Proof using Hv Hn.
  destruct Hv as [(_ & HY & _) _]. unfold y_rect. split; [apply Z.div_pos; lia|].
  apply Z.mul_div_le. lia.
Qed.

Lemma cell_div r k x : k * r <= x < (k + 1) * r -> x / r = k.
Proof. intros Hx. symmetry. apply (Z.div_unique_pos _ _ _ (x - k * r)); lia. Qed.

(** One more rectangle. *)
Lemma painted_cell i j v1 v2 :
  0 <= i < n -> 0 <= j < n ->
  painted (drawn i j) cell_color v v1 ->
  painted (in_rect (j * x_rect) (i * y_rect) x_rect y_rect) (fun _ _ => color_of (col i j)) v1 v2 ->
  painted (drawn i (j + 1)) cell_color v v2.
Proof using Hv Hn.
  intros Hi Hj [Hs1 Hp1] [Hs2 Hp2]. destruct x_rect_bound, y_rect_bound.
  pose proof (same_but_pixels_mode _ _ Hs1) as Em.
  split; [by eapply same_but_pixels_trans|]. intros x y Hxy.
  rewrite Hp2 by by rewrite Em. rewrite Em.
  destruct (in_rect (j * x_rect) _ _ _ x y) eqn:Ein.
  - assert (drawn i (j + 1) x y = true) as -> by (unfold drawn, in_rect in *; nia).
    unfold cell_color. rewrite (cell_div y_rect i), (cell_div x_rect j); [done|unfold in_rect in Ein; lia..].
  - rewrite Hp1 by done. replace (drawn i (j + 1) x y) with (drawn i j x y); [done|].
    unfold drawn, in_rect in *. nia.
Qed.

Lemma wp_draw_pattern (Q : unit -> video_st -> Prop) :
  (forall v', painted in_pattern cell_color v v' -> Q tt v') ->
  wp (draw_pattern mode n first step) Q v.
Proof using Hv Hn Hrgb Hcol Hcol_range.
  intros HQ. destruct x_rect_bound, y_rect_bound. pose proof Hv as [(HX & HY & _) _].
  unfold draw_pattern. apply wp_bind, wp_gets, wp_bind. cbv beta.
  eapply wp_Done; [exact Hrgb|]. replace (n =? 0) with false by lia. cbv zeta. fold x_rect y_rect.
  apply (wp_for_range_brk (fun i _ v' => painted (drawn i 0) cell_color v v')).
  - apply painted_nothing; [done|]. unfold drawn, in_rect. lia.
  - intros i [] v1 Hi Hp1. apply wp_bind.
    apply (wp_for_range (fun j v' => painted (drawn i j) cell_color v v')); [done| |].
    + intros j v2 Hj Hp2. pose proof (painted_mode _ _ _ _ Hp2) as Em. apply wp_bind.
      eapply wp_Done; [apply Hcol; lia|]. apply wp_bind.
      rewrite !u16_small, u32_small by first [apply Hcol_range; lia|nia].
      apply wp_vg_draw_rectangle; [by eapply painted_wf|nia|nia|lia|lia|rewrite Em; nia|rewrite Em; nia|].
      intros v3 Hp3. apply wp_ret. apply (painted_cell i j v2); [lia|lia|done|done].
    + intros v2 Hp2. replace (i * y_rect >? _) with false by nia. apply wp_ret.
      revert Hp2. apply painted_weaken. intros x y Hxy. unfold drawn, in_rect. rewrite Z.max_r by lia. lia.
  - intros [] v1 Hp. apply HQ. revert Hp. apply painted_weaken. intros x y Hxy.
    unfold drawn, in_pattern, in_rect. rewrite Z.max_r by lia. lia.
Qed.
End Rectangles.

(** * The colours *)

Lemma lor_shiftl_add a b k : 0 <= k -> 0 <= b < 2 ^ k -> Z.lor (Z.shiftl a k) b = a * 2 ^ k + b.
Proof.
  intros Hk Hb. rewrite <- Z.shiftl_mul_pow2, <- Z.add_lor_land by done.
  enough (Z.land (Z.shiftl a k) b = 0) by lia. apply Z.bits_inj'. intros i Hi.
  rewrite Z.bits_0, Z.land_spec. destruct (Z.lt_ge_cases i k).
  - by rewrite Z.shiftl_spec_low by done.
  - rewrite <- (Z.mod_small b (2 ^ k)) by done. rewrite Z.mod_pow2_bits_high by lia. apply andb_false_r.
Qed.

Definition byte (z : Z) : Prop := 0 <= z < 256.

(** A colour of three bytes: its value, and its bytes in memory. *)
Definition rgb888 (R G B : Z) : Z := Z.lor (Z.lor (Z.lor 0 (Z.shiftl R 16)) (Z.shiftl G 8)) (Z.shiftl B 0).

Lemma rgb888_value R G B : byte R -> byte G -> byte B -> rgb888 R G B = R * 65536 + G * 256 + B.
Proof.
  unfold byte, rgb888. intros HR HG HB. rewrite Z.lor_0_l, Z.shiftl_0_r, <- Z.lor_assoc.
  rewrite (lor_shiftl_add G B 8), (lor_shiftl_add R _ 16) by lia. lia.
Qed.

Lemma rgb888_bytes R G B :
  byte R -> byte G -> byte B -> color_of (rgb888 R G B) = [Some B; Some G; Some R; Some 0].
Proof.
  intros HR HG HB. unfold color_of. rewrite rgb888_value by done. unfold byte, u8 in *.
  rewrite !Z.shiftr_div_pow2 by lia. change (2 ^ 8) with 256. change (2 ^ 16) with 65536. change (2 ^ 24) with 16777216.
  repeat f_equal; Z.div_mod_to_equations; lia.
Qed.

(** A mode with three bytes per pixel, blue lowest. *)
Definition mode_rgb888 (m : vbe_mode_info_t) : Prop :=
  RedMaskSize m = 8 /\ GreenMaskSize m = 8 /\ BlueMaskSize m = 8 /\
  RedFieldPosition m = 16 /\ GreenFieldPosition m = 8 /\ BlueFieldPosition m = 0.

(** The components of the first colour. *)
Definition red_of (c : Z) : Z := Z.shiftr (Z.land c 0xFF0000) 16.
Definition green_of (c : Z) : Z := Z.shiftr (Z.land c 0xFF00) 8.
Definition blue_of (c : Z) : Z := Z.land c 0xFF.

Lemma field_byte c k : 0 <= k -> 0 <= c -> 0 <= Z.shiftr (Z.land c (Z.shiftl 255 k)) k < 256.
Proof.
  intros Hk Hc. rewrite Z.shiftr_land, Z.shiftr_shiftl_l, Z.sub_diag, Z.shiftl_0_r by lia.
  change 255 with (Z.ones 8). rewrite Z.land_ones by lia. apply Z.mod_pos_bound. lia.
Qed.

Lemma components_range c : 0 <= c -> byte (red_of c) /\ byte (green_of c) /\ byte (blue_of c).
Proof.
  intros Hc. split; [|split].
  - apply (field_byte c 16); lia.
  - apply (field_byte c 8); lia.
  - pose proof (field_byte c 0 ltac:(lia) Hc) as Hb. by rewrite Z.shiftl_0_r, Z.shiftr_0_r in Hb.
Qed.

(** The colour of rectangle [(i, j)] in mode 0x115. *)
Definition pattern_R (first step j : Z) : Z := (red_of first + j * step) mod 256.
Definition pattern_G (first step i : Z) : Z := (green_of first + i * step) mod 256.
Definition pattern_B (first step i j : Z) : Z := (blue_of first + (j + i) * step) mod 256.
Definition pattern_rgb (first step i j : Z) : Z :=
  rgb888 (pattern_R first step j) (pattern_G first step i) (pattern_B first step i j).

Lemma pattern_bytes first step i j :
  byte (pattern_R first step j) /\ byte (pattern_G first step i) /\ byte (pattern_B first step i j).
Proof. unfold byte, pattern_R, pattern_G, pattern_B. split_and!; apply Z.mod_pos_bound; lia. Qed.

Lemma shl_small {S} a n (s : S) : 0 <= n < 23 -> 0 <= a < 256 -> shl a n s = Done (Z.shiftl a n) s.
Proof.
  intros Hn Ha. unfold shl. replace (n >=? 32) with false by lia. apply int_eq, is_int_spec.
  rewrite Z.shiftl_mul_pow2 by lia. unfold INT_MIN, INT_MAX.
  assert (2 ^ n <= 2 ^ 22) by (apply Z.pow_le_mono_r; lia). assert (0 < 2 ^ n) by (apply Z.pow_pos_nonneg; lia).
  change (2 ^ 22) with 4194304 in *. nia.
Qed.

Lemma first_components_rgb first m (v : video_st) :
  mode_rgb888 m -> 0 <= first ->
  first_components 0x115 first m v = Done (Some (red_of first, green_of first, blue_of first)) v.
Proof.
  intros (_ & _ & _ & ER & EG & EB) Hf. destruct (components_range first Hf) as (HR & HG & HB).
  unfold first_components, shr. rewrite ER, EG, EB. cbn [Z.eqb Pos.eqb]. 
  unfold bind, ret. cbn [Z.geb Z.compare Pos.compare Pos.compare_cont]. rewrite Z.shiftr_0_r.
  unfold byte, red_of, green_of, blue_of in *. by rewrite !u16_small by lia.
Qed.

Lemma pattern_color_rgb n first step m i j (v : video_st) :
  mode_rgb888 m -> 0 <= first -> 0 <= step -> 0 <= i -> 0 <= j ->
  pattern_color 0x115 n first step (Some (red_of first, green_of first, blue_of first)) m i j v =
    Done (pattern_rgb first step i j) v.
Proof.
  intros (R8 & G8 & B8 & ER & EG & EB) Hf Hs Hi Hj. destruct (components_range first Hf) as (HR & HG & HB).
  destruct (pattern_bytes first step i j) as (PR & PG & PB).
  unfold pattern_color. cbn [Z.eqb Pos.eqb of_option]. rewrite R8, G8, B8, ER, EG, EB.
  rewrite bind_ret. unfold byte in *.
  do 3 (rewrite (bind_Done _ _ _ _ _ (shl_small 1 8 v ltac:(lia) ltac:(lia)))). change (Z.shiftl 1 8) with 256.
  rewrite !Z.rem_mod_nonneg by (first [lia | unfold red_of, green_of, blue_of in *; nia]).
  fold (pattern_R first step j) (pattern_G first step i) (pattern_B first step i j).
  by do 3 (erewrite bind_Done; [|apply shl_small; lia]).
Qed.

(** What [draw_pattern] draws. *)
Lemma draw_pattern_paints (v : video_st) (n first step : Z) :
  vid_wf v -> mode_rgb888 (modeinfo v) -> bytes_pp (modeinfo v) = 3 ->
  1 <= n < 256 -> 0 <= first < 4294967296 -> 0 <= step < 256 ->
  exists v', draw_pattern 0x115 n first step v = Done tt v' /\ (screen_ok v -> screen_ok v') /\ modeinfo v' = modeinfo v /\
    forall x y, on_screen (modeinfo v) x y ->
      let j := x / (XResolution (modeinfo v) / n) in
      let i := y / (YResolution (modeinfo v) / n) in
      px v' x y =
        if (x <? n * (XResolution (modeinfo v) / n)) && (y <? n * (YResolution (modeinfo v) / n))
        then [Some (pattern_B first step i j); Some (pattern_G first step i); Some (pattern_R first step j)]
        else px v x y.
Proof.
  intros Hv Hm H3 Hn Hf Hs.
  assert (wp (draw_pattern 0x115 n first step)
    (fun _ v' => painted (in_pattern v n) (cell_color v n (pattern_rgb first step)) v v') v) as Hwp.
  { apply (wp_draw_pattern v n 0x115 first step (Some (red_of first, green_of first, blue_of first))
      (pattern_rgb first step)); [done|done|apply first_components_rgb; [done|lia]|intros; apply pattern_color_rgb; first [done|lia]| |done].
    intros i j _ _. destruct (pattern_bytes first step i j) as (PR & PG & PB).
    unfold pattern_rgb. rewrite rgb888_value by done. unfold byte in *. lia. }
  apply wp_inv in Hwp as ([] & v' & E & Hp). exists v'. split_and!; [done|by eapply painted_screen_ok|by eapply painted_mode|].
  intros x y Hxy. cbv zeta. destruct Hp as [_ Hp]. rewrite Hp, H3 by done.
  unfold in_pattern, in_rect, x_rect, y_rect. destruct Hxy as [[Hx0 _] [Hy0 _]].
  rewrite (proj2 (Z.leb_le 0 x) Hx0), (proj2 (Z.leb_le 0 y) Hy0), !Z.add_0_l, andb_true_r. cbn [andb].
  destruct (_ && _); [|done]. unfold cell_color, x_rect, y_rect, pattern_rgb.
  destruct (pattern_bytes first step (y / (YResolution (modeinfo v) / n)) (x / (XResolution (modeinfo v) / n))) as (PR & PG & PB).
  by rewrite rgb888_bytes.
Qed.

Section PatternTheorem.
Context {W : Type} `{PortIO W, Irq W, Lcf W, Display W, Libc W, Messages W}.

(** (C22) [video_test_pattern] shows the pattern it is asked for. On a screen with three bytes per
    pixel in mode 0x115, it returns 0 when the break code of Escape has come, whatever other
    messages and bytes of the keyboard came before; the monitor then shows [n] times [n] rectangles
    of [XResolution / n] by [YResolution / n] pixels from
    the upper left corner, with the components of [first] raised by [step] for each
    column (red), each row (green) and both (blue), modulo 256; the pixels
    that are left over on the right and below show what the frame buffer held when the
    program began (a comment of the code expects them to be black). *)
Theorem pattern_shows_colors (fuel m nm : nat) (n first step i r h h' : Z) (s : lab5_st) (v1 : video_st) (ok : bool)
    (w w1 w2 w3 w4 w5 w6 : W) :
  vg_init 0x115 (video s, w) = Done ok (v1, w1) -> screen_ok v1 ->
  mode_rgb888 (modeinfo v1) -> bytes_pp (modeinfo v1) = 3 ->
  sys_irqsetpolicy IRQ1 (Z.lor IRQ_REENABLE IRQ_EXCLUSIVE) IRQ1 w1 = ((0, h), w2) ->
  1 <= n < 256 -> 0 <= first < 4294967296 -> 0 <= step < 256 -> scancode s <> ESCAPE ->
  keys fuel m w2 w3 -> hears key_irq nm w3 i w4 -> key_taken fuel i w4 (Some ESCAPE) w5 ->
  (m + S nm < fuel)%nat -> sys_irqrmpolicy h w5 = ((r, h'), w6) ->
  exists s', video_test_pattern fuel 0x115 n first step (s, w) = Done 0 (s', (vg_exit w6).2) /\
    forall x y, on_screen (modeinfo v1) x y ->
      let j := x / (XResolution (modeinfo v1) / n) in
      let i := y / (YResolution (modeinfo v1) / n) in
      shown (video s') x y =
        if (x <? n * (XResolution (modeinfo v1) / n)) && (y <? n * (YResolution (modeinfo v1) / n))
        then [Some (pattern_B first step i j); Some (pattern_G first step i); Some (pattern_R first step j)]
        else px v1 x y.
Proof.
  intros E0 Hs Hm Hb3 E1 Hn Hf Hst Hsc Hk Hh Ht Hfuel E2.
  destruct (draw_pattern_paints v1 n first step (proj1 Hs) Hm Hb3 Hn Hf Hst) as (v2 & Ed & Hs2 & Em & Hpx).
  assert (wp double_buffer (fun _ v3 => forall x y, on_screen (modeinfo v2) x y -> shown v3 x y = px v2 x y) v2) as Hwp.
  { apply wp_double_buffer; [by apply Hs2|]. intros v3 _ _ Hsh x y Hxy. by apply Hsh. }
  apply wp_inv in Hwp as ([] & v3 & Eb & Hsh). set (g := set_hook_id_kbd h (set_video v1 s)).
  exists (set_hook_id_kbd h' (set_scancode ESCAPE (set_video v3 g))). split.
  - unfold video_test_pattern.
    rewrite (bind_Done _ _ _ _ _ (zoom_Done video_lens _ (s, w) _ _ E0)). cbn [lset video_lens fst snd].
    rewrite (bind_Done _ _ _ _ _ (kbc_subscribe_eq _ _ _ _ E1)). cbn [Z.eqb negb]. fold g.
    unfold in_video.
    rewrite (bind_Done _ _ _ _ _ (zoom_Done video_lens _ (g, w2) _ _ (zoom_Done fst_lens _ (v1, w2) _ _ Ed))).
    erewrite bind_Done; [|apply (zoom_Done video_lens), (zoom_Done fst_lens), Eb].
    by eapply (wait_escape_ends fuel m nm i (set_video v3 g)).
  - intros x y Hxy. cbv zeta. cbn [video set_video set_hook_id_kbd set_scancode].
    rewrite Hsh by (by rewrite Em). by apply Hpx.
Qed.
End PatternTheorem.

(** Mode 0x115; Escape is pressed and released. *)
Definition pattern_script : script :=
  with_mode mode_0x115 (with_in [(0, 1); (0, 0x01); (0, 1); (0, ESCAPE)] (with_msgs [irq 2; irq 2] script0)).

(** The world when the wait for Escape begins. *)
Definition pattern_ready : script :=
  let w1 := match vg_init 0x115 (video_init_st, pattern_script) with Done _ (_, w) => w | _ => script0 end in
  log (EIrqSet IRQ1 3 IRQ1) w1.

Definition pattern_screen : video_st :=
  VideoSt (Some (Block 1440000 ∅)) (Some (Block 1440000 ∅)) no_image no_image mode_0x115.

Lemma pattern_script_keys :
  keys 4 1 pattern_ready (with_msgs [irq 2] (key_read (with_msgs [irq 2] pattern_ready))).
Proof.
  eapply (keys_next 4 0 0 _ 2 (with_msgs [irq 2] pattern_ready) (Some 0x01));
    [by apply script_hears|eapply script_key; [reflexivity|lia|reflexivity..]|discriminate|constructor].
Qed.

Lemma pattern_shows_colors_witness :
  exists s' w', video_test_pattern 4 0x115 7 0x102030 10 (lab5_init_st, pattern_script) = Done 0 (s', w') /\
    forall x y, on_screen mode_0x115 x y ->
      shown (video s') x y = if (x <? 7 * (800 / 7)) && (y <? 7 * (600 / 7))
        then [Some (pattern_B 0x102030 10 (y / (600 / 7)) (x / (800 / 7)));
              Some (pattern_G 0x102030 10 (y / (600 / 7))); Some (pattern_R 0x102030 10 (x / (800 / 7)))]
        else px pattern_screen x y.
Proof.
  assert (screen_ok pattern_screen) as Hok by (split; [apply screen_0x115_wf|by eexists]).
  edestruct (pattern_shows_colors (W := script) 4 1 0 7 0x102030 10 2 0 1 1 lab5_init_st pattern_screen true pattern_script) as (s' & E & Hp);
    [vm_compute; reflexivity|exact Hok|by split_and!|done|reflexivity|lia|lia|lia|discriminate|
     exact pattern_script_keys|by eapply script_hears|eapply (script_key 4 2); [reflexivity|lia|reflexivity..]|lia|
     reflexivity|].
  eexists s', _. split; [exact E|exact Hp].
Defined.
