(* ===== verification/Pixmaps.v ===== *)
(** The pixmaps of proj/src/pixmap.h: letters, title, cursor, heart, card back, sun
    and moon, as the strings of the source, and a reader of the format that says
    what makes them well-formed images of the sizes [Game] uses. The large
    pictures (deck, victory, game_over, instructions, background) are left out. *)
From Stdlib Require Import Ascii.
From S2P Require Import Prelude Env Video Game.

(** ** The format

    The first row has the numbers of columns, rows, colors and characters per
    pixel; a row per color follows, with its characters and its color in
    hexadecimal; then a row of characters per line of the image. *)

Definition char_code (ch : ascii) : Z := Z.of_N (N_of_ascii ch).

Definition decimal (ch : ascii) : option Z :=
  let n := char_code ch - 48 in if (0 <=? n) && (n <=? 9) then Some n else None.

Definition hexadecimal (ch : ascii) : option Z :=
  match decimal ch with
  | Some n => Some n
  | None =>
      let n := char_code ch in
      if (65 <=? n) && (n <=? 70) then Some (n - 55)
      else if (97 <=? n) && (n <=? 102) then Some (n - 87) else None
  end.

(** A number in some base, and the rest of the row behind it. *)
Fixpoint number (base : Z) (digit : ascii -> option Z) (acc : Z) (row : string) : Z * string :=
  match row with
  | String ch row' =>
      match digit ch with Some n => number base digit (base * acc + n) row' | None => (acc, row) end
  | EmptyString => (acc, EmptyString)
  end.

(** Numbers that are each followed by one space. *)
Fixpoint numbers (n : nat) (row : string) : option (list Z) :=
  match n with
  | O => if bool_decide (row = EmptyString) then Some [] else None
  | S n =>
      match number 10 decimal 0 row with
      | (k, String " " row') => (k ::.) <$> numbers n row'
      | _ => None
      end
  end.

(** The first [n] characters of a row. *)
Fixpoint split_at (n : nat) (row : string) : option (string * string) :=
  match n, row with
  | O, _ => Some (EmptyString, row)
  | S n, String ch row' => '(key, rest) ← split_at n row'; Some (String ch key, rest)
  | S _, EmptyString => None
  end.

(** The row of a color: its key, [ c #], six hexadecimal digits. *)
Definition color_row (chars : nat) (row : string) : option (string * Z) :=
  '(key, rest) ← split_at chars row;
  '(mark, digits) ← split_at 4 rest;
  let '(color, rest) := number 16 hexadecimal 0 digits in
  if bool_decide (mark = " c #"%string) && bool_decide (rest = EmptyString) && (String.length digits =? 6)%nat
  then Some (key, color) else None.

(** The colors of a line of the image. *)
Fixpoint pixel_row (chars : nat) (colors : gmap string Z) (columns : nat) (row : string) : option (list Z) :=
  match columns with
  | O => if bool_decide (row = EmptyString) then Some [] else None
  | S columns =>
      '(key, rest) ← split_at chars row;
      color ← colors !! key;
      (color ::.) <$> pixel_row chars colors columns rest
  end.

(** An image: its header and the colors of its pixels, line by line. *)
Record picture : Type := Picture {
  pi_columns : Z;
  pi_rows : Z;
  pi_colors : Z;
  pi_chars : Z;
  pi_lines : list (list Z)
}.

Definition decode (rows : list string) : option picture :=
  match rows with
  | [] => None
  | row :: rest =>
      header ← numbers 4 row;
      match header with
      | [columns; rows; colors; chars] =>
          palette ← mapM (color_row (Z.to_nat chars)) (take (Z.to_nat colors) rest);
          let lines := drop (Z.to_nat colors) rest in
          pixels ← mapM (pixel_row (Z.to_nat chars) (list_to_map palette) (Z.to_nat columns)) lines;
          if (Z.of_nat (length palette) =? colors) && bool_decide (NoDup palette.*1) && (Z.of_nat (length lines) =? rows)
          then Some (Picture columns rows colors chars pixels) else None
      | _ => None
      end
  end.

(** ** The pixmaps *)

(** proj/src/pixmap.h:8-376 [cardback] *)
Definition cardback : list string := [
"75 109 255 2 ";
"   c #010101";
".  c #0A0504";
"X  c #050906";
"o  c #0B0A06";
"O  c #02030A";
"+  c #0B050B";
"@  c #050A0A";
"#  c #0C0B0B";
"$  c #120504";
"%  c #1C0607";
"&  c #120A06";
"*  c #130509";
"=  c #130D0C";
"-  c #1B0D0C";
";  c #0E110D";
":  c #14110E";
">  c #1B160A";
",  c #1A120E";
"<  c #070311";
"1  c #0D0B11";
"2  c #160616";
"3  c #140D11";
"4  c #1B0E12";
"5  c #0F1011";
"6  c #151311";
"7  c #1C1312";
"8  c #1D1A14";
"9  c #1C1719";
"0  c #280709";
"q  c #230D0D";
"w  c #350A0C";
"e  c #291707";
"r  c #23140C";
"t  c #2B130D";
"y  c #241A0C";
"u  c #36190D";
"i  c #260B13";
"p  c #360C16";
"a  c #231513";
"s  c #2B1514";
"d  c #241A15";
"f  c #2B1B14";
"g  c #231619";
"h  c #2C161A";
"j  c #241B1A";
"k  c #2C1B1A";
"l  c #321514";
"z  c #3C1417";
"x  c #331B14";
"c  c #3B1C15";
"v  c #331D1B";
"b  c #3C1D1B";
"n  c #38260B";
"m  c #2B2315";
"M  c #2D2C12";
"N  c #2C221B";
"B  c #292719";
"V  c #342415";
"C  c #3C2314";
"Z  c #3A2A15";
"A  c #34221B";
"S  c #3B231C";
"D  c #332B1B";
"F  c #3C2A1C";
"G  c #3A331A";
"H  c #2F1A20";
"J  c #361D22";
"K  c #1F2123";
"L  c #2A2925";
"P  c #3B2321";
"I  c #372822";
"U  c #3C3422";
"Y  c #2E2F30";
"T  c #353636";
"R  c #4C1010";
"E  c #461A16";
"W  c #431D1B";
"Q  c #571A19";
"!  c #6C1C15";
"~  c #452709";
"^  c #56300B";
"/  c #442215";
"(  c #442C15";
")  c #4B2915";
"_  c #44231C";
"`  c #4C241C";
"'  c #432C1C";
"]  c #4A2B1C";
"[  c #572715";
"{  c #53251C";
"}  c #532A1B";
"|  c #5B2B1C";
" . c #453215";
".. c #4C3314";
"X. c #4A3916";
"o. c #43331B";
"O. c #4C341B";
"+. c #4D3C1C";
"@. c #533515";
"#. c #593514";
"$. c #543A16";
"%. c #5B3B15";
"&. c #53351B";
"*. c #5C341C";
"=. c #543B1B";
"-. c #5B3C1B";
";. c #67310C";
":. c #662919";
">. c #772A17";
",. c #623D15";
"<. c #65371B";
"1. c #7A371B";
"2. c #431D23";
"3. c #432422";
"4. c #4B2522";
"5. c #482B23";
"6. c #552B22";
"7. c #582922";
"8. c #4B3423";
"9. c #483824";
"0. c #543523";
"q. c #583924";
"w. c #443531";
"e. c #672B23";
"r. c #762B25";
"t. c #633324";
"y. c #6B3322";
"u. c #683B25";
"i. c #793825";
"p. c #723E31";
"a. c #4A441B";
"s. c #58441A";
"d. c #585114";
"f. c #6B4D10";
"g. c #64441C";
"h. c #684719";
"j. c #754617";
"k. c #7A561A";
"l. c #7C6918";
"z. c #4B4626";
"x. c #5D4324";
"c. c #584727";
"v. c #5B442A";
"b. c #574E2C";
"n. c #684825";
"m. c #774927";
"M. c #675329";
"N. c #775628";
"B. c #725032";
"V. c #73672C";
"C. c #7B6629";
"Z. c #45474A";
"A. c #4D4F50";
"S. c #595A5A";
"D. c #5C6065";
"F. c #66686A";
"G. c #6C6F71";
"H. c #77797C";
"J. c #8D3013";
"K. c #863A19";
"L. c #A63F1E";
"P. c #8A2E2A";
"I. c #843A27";
"U. c #973926";
"Y. c #A93F26";
"T. c #844719";
"R. c #944B15";
"E. c #885817";
"W. c #945C16";
"Q. c #AA481C";
"!. c #A8581A";
"~. c #B6581B";
"^. c #93610F";
"/. c #8C6314";
"(. c #936214";
"). c #9B6614";
"_. c #9C6914";
"`. c #9C6519";
"'. c #976819";
"]. c #A36A15";
"[. c #AB6F16";
"{. c #A66B18";
"}. c #BA671B";
"|. c #AC7116";
" X c #AD7119";
".X c #A87418";
"XX c #BC7716";
"oX c #BD7A16";
"OX c #B47718";
"+X c #BC7B19";
"@X c #864829";
"#X c #984627";
"$X c #895627";
"%X c #965527";
"&X c #8C5735";
"*X c #AC4F2B";
"=X c #A85827";
"-X c #886627";
";X c #986829";
":X c #9C7527";
">X c #886837";
",X c #996637";
"<X c #897231";
"1X c #987339";
"2X c #A56828";
"3X c #B56829";
"4X c #A77429";
"5X c #B57826";
"6X c #A86A35";
"7X c #AC7535";
"8X c #BA7834";
"9X c #D46D18";
"0X c #C07B16";
"qX c #C17C18";
"wX c #CB7D1F";
"eX c #EB741B";
"rX c #C9572C";
"tX c #C56A2B";
"yX c #C47825";
"uX c #CF712B";
"iX c #E7762D";
"pX c #8D6445";
"aX c #B98619";
"sX c #9B8427";
"dX c #B88727";
"fX c #B79729";
"gX c #AF8D34";
"hX c #B88934";
"jX c #B6A333";
"kX c #D5931D";
"lX c #DBB119";
"zX c #F4B619";
"xX c #C6882A";
"cX c #DB8828";
"vX c #D49829";
"bX c #CA8533";
"nX c #C99731";
"mX c #E78826";
"MX c #F28F2D";
"NX c #F89A2B";
"BX c #D0AA2C";
"VX c #D8AA34";
"CX c #F3AF2B";
"ZX c #E7B535";
"AX c #BDD62C";
"SX c #F5C315";
"DX c #F6CB30";
"FX c #FFF033";
"GX c #B7BD41";
"HX c #D5AD44";
"JX c #F5E848";
"KX c #787C81";
"LX c #7F8284";
"PX c #909395";
"IX c #A7ABAB";
"+XXXXXXXoX+XoXXXXXXXoXoXoXoXXXoXXXXX+XXXoXoXXXXXXXoXoXqX+XXXXXoX+XXXXXXX+XXXoXoXXXoXoXaXXXoXoXXXoXXXqXXXOX+XoXoXoXoXXXXX0XqXoXqXXX0XXXqX+X+XXX+X+XoX+X";
"XXXXXX+X+XXXoXaX+X+X+X+X+XoXoX+X+X+XXXoX+X+X+X+X+XOXOXoXoXXX+XoX+XoX+XXX+XoX+X+X+X+X+XOX+X+XoXOX+X+XOX+X+X+X+X+XOXoX+X+X+XOX+XoXOX+XoXOXoXoX+X+XXX+XXX";
"XXaX+XoX XW.^.^./.W.).(.(.W./.(.(./.(.(.(./.(.(.).(.(././.(.(.W./.(././.(././.(.^.).W.W.E./.(.'.(.(.(.(./.W.^.E./.(.(.(.(.(././.W.).).W./.(.^.{.|.oXxX";
"aXXXXX`. .9 6 ,.) F f m D U N 6 3 F ' f m F ' V y m D 5.5.' F ' ' ' 5.' ' 5.F Z N d m @./.( A V m m m m m m f.'.,.8 F F V D ' ' m 7 v ^ 1.&.o.&.^.OXXX";
"XXXXXXj.E R K.BXO   X : X   r 3XvX*.    P f     a I k +     . .                   # h L.CX+       @ X 3 , z BX  } E f x k a @   ;.sXmXwX|     O ^ |.XX";
"oX0X.XT.lXFXDX          O :X;X    E o 5.:     S k       BXiX~.4XgXvX*Xa j A A b S P 8 1 [ :     6 S 4.` P r t.  #.nX4       $ DX(.%X0     = d F <._.+X";
"XXqXOX@.<   %     , v J K.f.      k.m.O   X 5.4   v J 3X^             c ;.              O I.  : 4.x : @ X   =   W %X    P g *X     .rXy.l f _ a  ._.oX";
"XXoX|.X.X   m.v P r j k `     : J 3X      p O k A X   Q   7 v 4.S v k 8 } VX*X9 v v d t s U.VXp x 5         W v 7 * O 4.@ =   j a mX[   f I     O.'.oX";
"qX0X X%.v @X&.    S ,   s , 3.3.@ Q Q 9XFXDXNXQ % ~ fXzXJ.:.x O             - I.  + 6.S d 4 wXg.O       X O 2X3.    yX    e.l X   J.P.3.=   X S &._.XX";
"+X0X X$.O -   v A     @.=Xk &   + % 5 7.p O . /.DXVX9XlXZXkXQ 0 E @X5X4X=XI.>.eXFXQ.7 ;       -X{ 6   @ f 3.3Xq   O 8X    DXK.{ P.DX+X    h S +  .'.+X";
"+X0X X%.d ;Xg     a P <.<.    % NX~.P.A s i.I.e 0 VXfX.   :.DXFX9X4         $ i ^ e.7 X         f 8 4.8 7.3 ' `   h r e.e yX  v 6 p q O ` 7   # &.'.+X";
"+XXX X..v   o v A 3     ! aXaXJXlXJ.a a 4   0 ! ~.yXhXdX2X[ p R e.k.N.N.W k H v v a         : 9 = a   A A @   6X  V   Y.L.t + v   0 MXv X   6 9 X._.+X";
"+XqX|.,.n.k :     o d b b T.!.0 < 9 *   2 :.OXkXvX5.  O + 6 ; # O O O o f r - =   # k J f = : ` ` v m.O # @   :X  v   U.{ $ f     dX4X    X     O._.XX";
"+X+X[.s.    8 J v j +     h.%Xo O 3 < %.}. X1X2X0 + # 7 a #   O O .       #   # j s       v 5.6.3 @ - >X      j.> f   =XC e f   t :X  :   O 7 I #.).+X";
"+X0X[.,.v a       o a g e.:X  7 O  .VXNX`.c.}.i , # 3 #   A M.N.i.e.t.n.v.+.n.5.  & 6.A @ X   6 7     & m.@   r :.-   -X  M.9   p.. X T.v I s # ( '.+X";
"+X0X XX.  : v P v 4   ~ P.3 X ( gX&.R   E cXE - O f q.<.n.' . O # 3 1 3 = 3   a 7.{ a 7 c   7           & 3.- 7 ` X = X.y v.- = 3.  # 3X      X X.).+X";
"+XqX[.%.v =       s.ZXj.    9X$XX   @ s hX%X0 N.n.&.+ X O   V I A l a .   + = 7 :   f W f :.O 1 a     + # + j / h : k   n.=.= a :   P u   # A P &._.+X";
"+XqX|.$.  = A j #Xh.    g bXg.  # : w cX!.B.b.. O   U 0.o.F & . + = i / z.q.D O : 7 = # h E 3X .  I   X P x # : v = f   :.` # v o 4 d   a P #    ._.+X";
"+XqX|.,.S y O =   + _ c z x   a # q hX=Xo.    a 9.U +     > 9.9.a.-.@.3.i   m [ b X & 7 : + l 2X-X  A ; r r.c - #   6.  P % v v   3.  l S     6 $.`.XX";
"+X0X X+.    x :.4.P O y I.  8 + / %X0 @ + 7 w.f O X v { t.5., q - - - g v 5.s : 7.u.q @ : , 5 i =X#X  k b S 6 u.X   7.O s 7 r A   6.  u.X   S 3.@.).+X";
"+X0X[.$.6 q hX+     [ k.O - = s s 1 : O 9.A X + q e.z F s f , & # = # # : # a k 4 ` bXi.@ 1 : & + *XE O s J X   ,XX C u 7 - a A   q.  n.  v l : F _.+X";
"+X0X[.g.H @X    X I.) = # 7 = ; r + a z.# O - Q.uXn.m - d q 7 7 4 a a 4 q s - @ 3 k O s.*Xv + : = . 3X1 . , :     N.  E.O a s k   q.  n.  v j e E.).oX";
"+X0X X%.  =   q *X- 9 # 7 : 4 7   D I     4XcX>.a s v O O s.n.n.n.n.m.$X#X:.| l v X , g   } q.  - = . 5X< o X     s.>.NX  - y.a + ..  { 4 : k ` ( '.oX";
"XX0X|.... :.4X%X  9 & 4 : : 7   9.f   a HXE d I 9   E #XI.t = 3 + * * O   - E $Xn.0.k   k   - B.O , # f ;X1     +   jXFX+ 3 g.= 6 _   k f & ` @ ( '.XX";
"+X0X XX.i nX&   a 6 = 6 - 6   v.3 O M.<X0 w.N   q $Xi.u r 6 @ + r z *.h.>X8.B # + x.N.q.X s # + B.  = O h...8   X 9   CXE.1 c.= a a , 7 k 0 _   ..(.+X";
"+XqX|.-.P   = , 7 & 6 - 3 + n.<   C. .v.q.    N.1X&X[ @   a ' 6.6.q.s.+.o.V.] U f = . B.&X6 v   # v.O = O =X  9   S , * I.+ r ' / 3 = a 7 | o + q.).+X";
"+XqX Xs.  7 * 8 = : : - . q..   -Xr pXs O m 7X7./   7 u.} t # o # @ X X     Z :.q.f 1 O F ,X8 P   d 8.# #   y.. . @ 3.  6 , a ( ] ; $ J - j.  j ..'.+X";
"+X0X X^ 9   a # , : - @ 0.= + C.y ,X=   g.1.L 3 6 M. .  # X           ; : + X X * _ x.  @ & 6Xa F   U d + 3 : 3 8   + N   - f 2. .+ - v f m.  N ( _.+X";
"+XoX|.-.  k = - : 6 ; _ a < g.m I.+   @Xx I   M.9.  @ X   + / S d ; #       ; + X X   M.# , . 1XD 8   b.. # # 8 X 6   o # X a b G   l = %.n.  j .._.+X";
"qXoX|.$.j + 7 , 7 = l S + o.&.7.& O I.- k # V.  o +   ) #X]           ; 6 #     ;   1   z.: a . >X0.O   v.  = = a :     #   f f r m , c n.g.  7 $._.+X";
"+XoX|.-.o d 7 = = = ] + 6 $Xs r @ y.- 7 m n.  &   a.jXs.# ; X     # o X X X X     6   #   a.: j - >XS   F f # # 6 o 8       s f   ' @ q.v.M.  = &._.XX";
"+XqX X%.h 4 & 7 O t.+   ,X. E @ ` t 5 k ]   . O gXa.  @ + : 8 # ,   . q o           5   #   z.# 6 G 2XO   v.O # & 7         h v   S O -.s.n.# = &.'.XX";
"+XoX|.%.: = 7 # { = # m.  y.@ q ' 5 a _ O   k %X    # # B ,     G a.a.r f G G N   X X ;   o   8.8   <XG   d A @ o : o       & ' . x + h.g.n.# = O.).+X";
"+X0X|.=.= , = h ` # C C i.+ . v.+ & `   # j W     a & X     G G                 6 o X 6   X   X d f & 1X    t.O : & :   ; .   n.  z O n.k.k.# - ..'.+X";
"+XqX[.@.7 =   r.X O $Xs 6.O 9.# # 4.X # 6 & X   U ; X   B D   : B f m m B >       X X   X   #   , ; + N.y X v s X # 7   # 6   x.  5.# ..dXN.. = O._.XX";
"+XqX|.-.j + c c + m.  ,XO f f , v X & : # 6 . D   X   z.  8 M 7 8 8                   7       X   : 8 ; B.    t.X # . 6 . 4.  n.  5.: i }.;XO 3 X.`.XX";
"+XXX[.%.O   &X  7 $.B.8 + 0.7 - a + ; # N g j   X   z.  G m B 8                       . B     X   o o O N.    5.+ X 7 = X P + 9.  &.: 3 >.hX  3 @._.XX";
"+XxX[...= q.E O C.O B.O / # 7 S   : + 8   9.  X   c.  9.G :                             6 8   X X X # # V D X & ] X h - , a r o 4 0.- = R jX  3 @.].XX";
"aX0X[.s.  hXp G k n.- # c k f & : . 8   I # O   s.  z.'                                   8 +   X X X #   q.X   6.  b r J , 8   = +.s & i BX  6 $.`.+X";
"XX0X.X^ ] ~.#.<Xj / @ S + 7 / @ @ 8     k X   q.  c.Z                                       : X o     ; X O.    3.  _ / 7 = # # + =.f & 2 kXO 3 -.).+X";
"oX0X|.@.i jXm.& 8.6 - g a _ . # 7     j   . d t z.D     5 @                                     #     7 X f = X d y * =X  #   7   0.f & . kXO # g._.+X";
"+XoX X$.: xXgXi a & k # , ` + 6       6 X   *.B 9.    : X                                           X   : = a     I - 4X+ @   a O 5.m - O yX+ = g.^.OX";
"+XqX X~ sXxX@ A a = d d ] . o &       ; X F e M.    ; X                                             X   : o f X   Z W './     7 = / 7 m O 5X1 # f.^.+X";
"+XqX.Xs.1.dX3 v 7 a $ 4 6.@ 7   ; : & X   q.M.; X   X 6                                             X   : : a X   V } %X*.    = a x & I O 2Xi . k.).+X";
"+X0X[.j.Q.- c A + k 7 x a # # # 5 y X @ V @.z.    : 8 X                                                 6 , =   X m ..@X<.  # . S m $ F O 4Xr ; k.).XX";
"+XXX|.,.I.  x D a a , q.  6   S I - +   g.+.:   ; X 8                                                 X = 8 o X   m o.n.m.  6   F Z . /   1X, d g.^.XX";
"+XoX[.j.+ 5.m = 4 - = q.@ X k = c.    y o.c.    # 8                                                   X   N   O   8 o.+.@X  S   F D o l O 1X+ O..._.oX";
"+X0X[.h.@ F S O v : O.a # & 8   C.  O M.& B   :                                                           d # X X 6 &.G m.  i.  ( S o k * <X  s.( '.oX";
"+XoX XX.j f s a 7 - +.a X j X , X.O s G D     :                                                     X     : >     ; &.Z u.o #XO t C = a f m.  x.' _.XX";
"oXqX X%.D & 7 l 7 + &X* # :   - V   ] m D   # X X   #                                               #     # > X X # 8.n } v =X  = ` = 7 G z O g.) _.+X";
"+XoX|...A 8 . ` - d ,XX ,     d =   N.  D   :     6                                                 X     # >     o G C ] - #X. @ y.+ 6 z.p O N. .`.oX";
"+X0X X%.7 a l c = 9.:.O 6   @ x X 8 6.; :   ;   X :                                                       ; ; X   : B V ` & _ =   U.# = 0.O.$ <.%._.oX";
"+X0X|.,.1 f :.f = q.n.+ #   = d   9.- d   X o X   ;                                                     X 8   X   j > l W 7 , :   y.a 3 ' 9.' t h.`.+X";
"+XoX X%.= 5.:.b + B.m 7     f e   s.. a   :     #                                                         B   X   D   u v S o =   / v + V =.:.% j.).oX";
"+X0X X@.L 0 =Xq + &XB #   f : t   B.  a   :     X 7                                                       D     X B   l h &.. :   a / O l :.i.V ..`.XX";
"aX0X X@.k %XK.8 C B.; + @ =XO x   N.  d   :   X X m                                                       D   X X 8   v 4 s.- ; X 7 b = a u.y.) ( ].XX";
"+XoX[.&.c yXU.. v.q.+ X $ GX1 b = g.  d   =       G                                                     7 y   X   , + b - s.l # = # 8.7 O @XW &.@._.oX";
"qX+X|...n.5X4XO n.7.#   u.-XO o.m }   N   : X     a.                                                X   m 6   X   # 7 E - ] ' # 7 = ' a   8X$ X.<.'.oX";
"+X+X|. .k.xX-X2 n._ # 3 n./ @ 0. .(   m   ;   X   b.                                                X   9.  X   ; X s <., &.8 , - U # 7 s =XB a  ._.+X";
"+XqX[.( /.yXj.z N.t = 4 @.v X *.g.c   N   : X   O d.                                                  X A   X   # @ a m.  M.  d , D = 1 0.K.G - O._.XX";
"+XqX|.~ 2XR.n.R >X= # 3 ) j # C N.c   m X :     O d.                                                  B & X X   #   y k.  m.7 , a 5.# + m.b ..3 $.).XX";
"+X0X[.s.<.>.V.>.>X% = 7 C 7 # & 4Xc   N   : X   < o.O                                                 U       #   : ..a.  u.k r & S 8   bX. S 4 O.).XX";
"XXaX[.h.l ;.<XJ.C.i : 7 f + :   6XW   d   6 X   # Z o                                               m +   X   ; X S V.% & v f v x # 7 . 8Xq $ d O._.oX";
"XXoX[.h.& <.,XR.B.i : - ,   6   ;X(   d   8 X   : r ,                                             X D   X #   #   V %Xr a 6   b x # = <...v , 7 O.'.oX";
"XX0X|.,.. n.E.2Xn.s 7 : =   = O $X..  8   , X X a   k   X                                         D O       ,   O u.%X  : # _   a 8 O 6X+ s a = O.).XX";
"+X0X].,.+ n.J.gXg.h 7 & $ = = O 1.M.O = o 8     j   d   X                                       B =   X X o # O a.0 V.X     | 6 = j   ;X* v 7 4 .._.+X";
"+XqX|.h.# ,.! nX^ x 7 =   7 :   ;.>X  # 7 8   X o , 8                                         D N     X   : X   -XA C h O C = k + a O.S 4.6 & : O.'.XX";
"+X0X|.g.a { ! vX) S 9 = o f = X O.gX  O ' 8   X   M X X   +                                 8 D     X   ; X X G n <.s l   m.# r a X m.  :.: : = O._.oX";
"+X+X[.%.<.0 1.vX[ C 4 4 @ ]   : D ;Xo X 8.  8 @ X D   #   X X                             # N     X @   6 X   <XX . 3X  N.  ]   g - | q.s & = 9 ] _.XX";
"+XoX|.#.:X0 h.MXQ D , , $ B.  7 + m.f   o.  m     m   3     #                             X     X     8   O o.e # n !.7.,.= b 7 = t.  %X3 6 o 1 h.).oX";
"+XqX|.;.E.J.g.iX:.Z 3 7 q 8., = O b.% ; X ] N   +   G 3 X     #                             X X X   j X X   N.6   BXU.xX  q.  s X { S 1.# # 9 r ,._.XX";
"aXXX{.%.E mXa.tX>.G = a s & 8.+   <.@ o   q.f o X X b   0.      #                         X   X   k   X   t.W   / kXQ.  D d 7 6 _   8X# : # @ >. .).+X";
"0X0X[.<.  bXs.3X1.w.. a x & I   3 0.  # @ = G F X X   g e f       8               X X X   X   X a   X @ 3 g.^   *X:.t   v.O b + _ $ >XO # : f { -.).XX";
"+X0X|.-.+ T.f.%XR.q.= 7 m e - 7 = l s ; # = ' q.  + X X h n.        6 :   X       X         a : X @   a %.-XO = 7.a O q.  c = b O &X# & , @ E 7.( _.+X";
"+X0X|.$.+  .h.$X`.q.f = + +.  j X * b + # + 7 u.y 1 X @ r j.-.  X       7 7 :         8 8 d   @ @   d.BXh.< @ : = O S 4 - 5.: s % m.# & # 6 Y.O s._.XX";
"+X0X XX.= ( ^ <.4X] 9.* o q.  7 X X | X : & = d -X  @     ( j.v   X 6 #     X 8 8 8 :   X   o X   C <X  g #   +   N s   u.  f @ i.X o 9 3 >.| a &._.XX";
"+X0X|.o.a  .[ ..hX} =.= # q.  . d o q.+ X = & O >Xy @ X @   7.<.@ # # 6 X # @         X X :           a 6     # A 4   p.@ 7 6 a / 6 6 & + MXO f O.).+X";
"+X+X X..9 C >.u bXR y.: * z.  = a X   z.= # = 7 : 1X  #   :   s }   @ 8 :         X # m #           3 7     a j : O e., - 7 & 6.+ = # O NX. S X .._.+X";
"+XoX|.$.3 A r.0 hXf [ 9 7 r t d   8 # v.O : & # # q.] O # X 6 . X k 7   o ; X         # 6 j 6 X   : 8   . P # 7 O *.f 6 7 # 5.s # 6 = f.f.2.  g .._.XX";
"+XqX|.-.. k #X0 7X! i : j   6.a f 9 O f B : # : a   >X- # #   a # X   6 ; X           X a 8     : a # d 6   j   u.f = , = f 9.@ : 7 . VXi & 6 = &.'.+X";
"+XoX[.$.d + 2X$ sXP.X - a O y.a m.  s X u.@ = : + 8 + B.+ # ;   v , #     # : ; 7 j j a O     8 P g #   & 2.  @Xs 5 7 = 4 b.  , - O HXw s # = 6 .._.oX";
"+XXX|.%.S   dX  gX#XO = 9 @ e.- s D 7 # V s = : & : 3 d 7.# # :   f ] @     : P 7 +         X         t.s a @X# : = = r u.O 7 = O jX| W   6 # d $.'.oX";
"+XqX[.,.# O hX  dXk.r - 7 o , { # n.  k @ :.@ = : & 8 # f b & # : X + n.+.  O   3 8 8 : = # @   7 x.8.  i.t.# - = : a 2.= = = + N.$XS   7 & a b  .'.oX";
"XXxX|.&.  s nX  kXq.%.6 = 8 + :.7 = C + , W s # = = # s + d f 9 # 1 . X 7 -XC.f O . . & y 8.G o.m $ y.@X- # : : = g d , 3 3 ; $.4XE + 6 ; a k u j._.OX";
"oX0X|.@.O ;XwX  kXc l.= , : + { 6.  5.  a X @XO 6 : & 5 f o 7 d 7 - # # + O w HX5XT.:.E r - ( t.<.u.q = , : # a , v , : : 3 n xXE O : = 7 8 E #XZ ).XX";
"XXoX[.@.R.fXU.  mXu :X  6 a # S @X  . S   j a -.# = 6 & o v = & 8 7 a : ; * 1   V 6.7.q.y.t.l - a $ 6 : X - b + 9.a : & 1 n vXQ O 3 : : 7 E I.   ._.+X";
"+X+X.X%.j.  W   rXW 4XO = k + 7 u c.  o k   6 g.a = : 7 : # k a # 8 a - 8 3 = : 3 + # X   # 6 , = 4 # = 4.h . b.= 3 : 1 =.;X2X+ , & = 4 ) [   j &._.+X";
"+XXX|.$.O   f i U.>. X  - 7 7 E w B.  ; 4 : 4 O ;X. : : : = 6 r A + & v l a o # & = : : 6 = # + X m ] S O x q.O 3 6   -Xx.bX#X@ + l :.I.E   A +  .).+X";
"XX0X[.@.    r.A e rX!.+ - - O #X$Xe ' j b , * 3 O 8X  = 6 6 = : & P N # = k 5.Z V D N m D D D 8.8., @ O $X{ + = = l &X% l =Xf   k.9XDX~ 7.v   [ k.^.XX";
"XXoX Xs.i ZXL.9 e kXU.u 6 , O | dX$ i.= v S yXf.H   8XO 7 & 7 = 7 # - A _ = + = = = a a - 3 = + + a z =X: # 7 , _ z X ; d $X  fXh.5X>.NX+ 3 e.>./.W.XX";
"aXqX|. .1.5XO   ;.sXU.:.6 - # s.0 I.s a 6 S W NX! #X. uX  7 6 : : & 9 . # v S S / A l f f b S z W v.]   7 7 a l = : 6   #Xu xXs.5X;.VX  A X % mXf.W.0X";
"XXqX[.j.x       tXJ.R.k.3 3 = * a.v X S #   Q l k f hX% uXO = a = , : : , 6 X 6 & + O . . & d l f . = j - a : : : =   7XW.Q.gX~.dXQ.p d   t I.E <.).XX";
"+XoX|.j.b A l P p vXK.l.4 = # = x.= = k 8     4.  k   hX/ uXs @ 7 7 = a & 7 : = 7 v tX8X&X*.v l l a d = 7 6 = : = 1 Q BX9XfXR.DX>.U.  O U.r.4 yXk.^.0X";
"+XoX|.%.a   #   O CXkXe a - . 7 N.X a d r $     s   k O <X$X6XE O : = 7 6 & 7 = = = O # f a - o & 7 = a = & = -   } vX9X^ aX'.K.lX  xXNX>.Q MXAX^ ).XX";
"aX+X|.X.: J f k { 0 CXO = f   a d.Z 4 x a 3.  6 3     # 6 m fX:XT.O & & = 7 j a = = = 3 = . = 7 8 = : = # 3 X # #X9XK.~ CXw R.ZXJ.DX%.  O W rXJ...).OX";
"XX0X X%.=         @X% P   P   x   fXO ` J . # + 5.y.  O   j O l.CX#X7.o 5 #   = 6 = 6 # 6 - = = = # + + O . U.mX!.;.HXiXR ~.{.+ I..   s ` k # E j.'.oX";
"XXXX X=.g v v l a   k # = f   P   MXO t e.  a   2., 7X  6   X 4   sXk.z { ( t     O @ @ @       < < . s.lXDXqXJ.NXdX% 2 CXK.  U O & 6.J 6   X > o._.+X";
"+XqX X$.      X f N .   P     3.  L.E 1 i.6   7.3 X y @X  6 j   = 3 7 i.3 & t { [ | :.e.:.e.7.r.OXzXFXlX;.J.MXW.      :.ZX  S   s 4.; X       @ O.).XX";
"XX0X X$.3 v v =   = k v     3.8   #Xh h [ 6   <.% L   - a g   v L   + = 4.C + 7 4 : 4 7 a k 4.[ t .   O CXvX    6   r c R P = J k X         X g $.).XX";
"XX0X[.s.7     k k =     : P f X   =X  iXz g     2X3     e.  j 3   a P a   M $Xs = =         O + 7 j 8 :.~   j 6   k h   xX0 3.6       X O a 5.I O._.+X";
"+X+X|.X.+ A d   O a J P v X     O dX  l.yX1     E t a   t ZX    f 4     k c 7 s } X + , 7 7 , #   . 1.P 7 7   & I =   % vX2       @ < | iXr.; @ o._.XX";
"+XoX X,.j $ s S N &           o 2 vX    NXO   X j , b   v - iXg =   d f , X   = r 5X6Xa , r 5 0 %XM.    = f k ,   + 5.l /     - J b 9XSXmXl     X._.+X";
"XXqX.X<.A d .       = f v S _ 5.h !.    7.O     _ # i.x 1 f   W X k a   + a N k a + + @X[ O ! -X  3 , - X   X a I k   &   v 3.A 3 [ E     =X[ k ..).+X";
"oX0X[...    X , S _ 3.c S f X X   W   X v X     v     dX  H   $ #X$   7 q .             /.{.xX  & , . - , 4 7 .     o ,Xk - X   O =   , j tXmX* $._.+X";
"+X0X[...8 P 3.s X         : 5.f O E   k f   D.S.S.T S.A.S.X A.Y F.o H.Y T F.S.  PXT L G.  F.K T S.X H.T T Y   7 S b S X     X   3Xh 6.a     O I.,._.+X";
"oXXX Xg.4       X , g 7 X     7 ,.$Xs _ X   LXF.Z.Z.G.IXG.Z.H.D.LXPXZ.H.S.PXH.  A.D.S.PXH.KXD.G.F.G.IXF.LXZ., o     a + k b k %Xx -     r v - O $.{.XX";
"XXoX+XE.Z m A Z ] ] F Z F F A m O.( ] F m V r r V y e e e e ~ ( e > y e e r u ..n n u n ~ d.C s e e q r e y V Z F ..h.] F V Z f.N V  .0.F m n $.E.OXXX";
"XXoX0X+X X[.].]._._.{.{.].`.].]._.]._._.{.].].].].].{._..X]._.].].].].].].].{._._.{.]._.].).]._._.]._.{._.].].]._._.)._._._.]._.{.{.]._._._.].[.OXXXXX";
"oX+XXX+XaX+XqXqX+XqXoXaXqX0X0X0X0XqXqXoX0XqXqXqXqX+XqXqXqX0XqXqXXX0X0X0X0X0X0X0X0XaXoX0X0X0XxXXX0XqX0X0X0XaX+X0X0XqX0XqX0X0X0X0XoXaX0X0X0XqXoXxX+XoXXX"
]%string.

(** proj/src/pixmap.h:841-877 [a] *)
Definition a : list string := [
"20 30 2 1 ";
"  c #ffffff";
". c #22B14C";
"....................";
"........   .........";
"........    ........";
".......     ........";
".......      .......";
".......      .......";
"......       .......";
"......       .......";
"......        ......";
".....         ......";
".....         ......";
".....    .     .....";
".....    ..    .....";
"....     ..    .....";
"....    ...    .....";
"....    ....    ....";
"...     ....    ....";
"...    .....    ....";
"...    .....     ...";
"..               ...";
"..               ...";
"..                ..";
"..                ..";
".                 ..";
".    .........    ..";
".    ..........    .";
"     ..........    .";
"    ...........    .";
"    ............   .";
".. .............. .."
]%string.

(** proj/src/pixmap.h:880-916 [b] *)
Definition b : list string := [
"20 30 2 1 ";
"  c #ffffff";
". c #22B14C";
".            .......";
".               ....";
".                 ..";
".                 ..";
".                  .";
".    ..........     ";
".    ..........     ";
".    ...........    ";
".    ...........    ";
".    ...........    ";
".    ..........     ";
".    ..........     ";
".    .........     .";
".                  .";
".                 ..";
".                 ..";
".                  .";
".    .........     .";
".    ..........     ";
".    ...........    ";
".    ...........    ";
".    ...........    ";
".    ...........    ";
".    ..........     ";
".    ..........     ";
".    ........      .";
".                  .";
".                 ..";
".                ...";
".             ......"
]%string.

(** proj/src/pixmap.h:919-955 [c] *)
Definition c : list string := [
"20 30 2 1 ";
"  c #ffffff";
". c #22B14C";
"...........       ..";
"........            ";
".......             ";
"......              ";
".....             ..";
".....     ..........";
"....     ...........";
"....    ............";
"...     ............";
"..     .............";
"..     .............";
".     ..............";
".     ..............";
".    ...............";
"     ...............";
"     ...............";
".    ...............";
".    ...............";
".     ..............";
"..     .............";
"..     .............";
"...     ............";
"...     ............";
"....     ...........";
"....     ...........";
".....      .........";
".....              .";
"......              ";
".......             ";
"..........        .."
]%string.

(** proj/src/pixmap.h:958-994 [d] *)
Definition d : list string := [
"20 30 2 1 ";
"  c #ffffff";
". c #22B14C";
"..       ...........";
"             .......";
"             .......";
"              ......";
"..             .....";
"....    ...     ....";
"....    ...     ....";
"....    ....     ...";
"....    ....     ...";
"....    .....     ..";
"....    .....     ..";
"....    ......     .";
"....    ......     .";
"....    .......    .";
"....    .......    .";
"....    .......    .";
"....    .......    .";
"....    ......     .";
"....    ......     .";
"....    .....     ..";
"....    .....     ..";
"....    ....     ...";
"....    ....     ...";
"....    ...     ....";
"....    ...     ....";
"....    .      .....";
".              .....";
"              ......";
"             .......";
"..         ........."
]%string.

(** proj/src/pixmap.h:997-1033 [e] *)
Definition e : list string := [
"19 30 2 1 ";
"  c #ffffff";
". c #22B14C";
"                 ..";
"                   ";
"                   ";
"                   ";
"                 ..";
"    ...............";
"    ...............";
"    ...............";
"    ...............";
"    ...............";
"    ...............";
"    ...............";
"    ...............";
"           ........";
"           ........";
"           ........";
"           ........";
"    ...............";
"    ...............";
"    ...............";
"    ...............";
"    ...............";
"    ...............";
"    ...............";
"    ...............";
"    ...............";
"                   ";
"                   ";
"                   ";
"                  ."
]%string.

(** proj/src/pixmap.h:1036-1072 [f] *)
Definition f : list string := [
"20 30 2 1 ";
"  c #ffffff";
". c #22B14C";
".                 ..";
"                   .";
"                    ";
"                   .";
"                  ..";
"     ...............";
"     ...............";
"     ...............";
"     ...............";
"     ...............";
"               .....";
"                ....";
"                ....";
"               .....";
"     ...............";
"     ...............";
"     ...............";
"     ...............";
"     ...............";
"     ...............";
"     ...............";
"     ...............";
"     ...............";
"     ...............";
"     ...............";
"     ...............";
"     ...............";
"     ...............";
".   ................";
".. ................."
]%string.

(** proj/src/pixmap.h:1075-1111 [g] *)
Definition g : list string := [
"20 30 2 1 ";
"  c #ffffff";
". c #22B14C";
"...........      ...";
"........           .";
".......             ";
"......             .";
"......            ..";
".....     ..........";
"....     ...........";
"...     ............";
"..      ............";
".      .............";
".     ..............";
".    ...............";
"     ...............";
"    ................";
"    ................";
"    ................";
"    .......        .";
"    ......          ";
"    ......          ";
"    ......          ";
"    ...........     ";
"    ...........     ";
"    ...........     ";
"    ...........     ";
"     ..........    .";
"      ........     .";
".                  .";
".                 ..";
"..               ...";
"....           ....."
]%string.

(** proj/src/pixmap.h:1114-1150 [h] *)
Definition h : list string := [
"20 30 2 1 ";
"  c #ffffff";
". c #22B14C";
"....................";
".    ...........    ";
".    ...........    ";
".    ...........    ";
".    ...........    ";
".    ...........    ";
".    ...........    ";
".    ...........    ";
".    ...........    ";
".    ...........    ";
".    ...........    ";
".    ...........    ";
".    ...........    ";
".                   ";
".                   ";
".                   ";
".                   ";
".    ...........    ";
".    ...........    ";
".    ...........    ";
".    ...........    ";
".    ...........    ";
".    ...........    ";
".    ...........    ";
".    ...........    ";
".    ...........    ";
".    ...........    ";
".    ...........    ";
".    ...........    ";
".. ............... ."
]%string.

(** proj/src/pixmap.h:1153-1189 [i] *)
Definition i : list string := [
"20 30 2 1 ";
"  c #ffffff";
". c #22B14C";
"...               ..";
".                  .";
".                   ";
".                   ";
"...               ..";
"........    ........";
"........    ........";
"........    ........";
"........    ........";
"........    ........";
"........    ........";
"........    ........";
"........    ........";
"........    ........";
"........    ........";
"........    ........";
"........    ........";
"........    ........";
"........    ........";
"........    ........";
"........    ........";
"........    ........";
"........    ........";
"........    ........";
"........    ........";
"........    ........";
".                  .";
".                   ";
".                   ";
"..                .."
]%string.

(** proj/src/pixmap.h:1192-1228 [j] *)
Definition j : list string := [
"16 30 2 1 ";
"  c #ffffff";
". c #22B14C";
"................";
"............   .";
"............    ";
"...........     ";
"...........     ";
"...........     ";
"...........     ";
"...........     ";
"...........     ";
"...........     ";
"...........     ";
"...........     ";
"...........     ";
"...........     ";
"...........     ";
"...........     ";
".. ........     ";
"    .......     ";
"    .......     ";
"    .......     ";
"    .......     ";
"    .......     ";
"    .......     ";
"    .......     ";
"    .......     ";
"      ....     .";
".              .";
".             ..";
"..           ...";
"....       ....."
]%string.

(** proj/src/pixmap.h:1232-1268 [k] *)
Definition k : list string := [
"20 30 2 1 ";
"  c #ffffff";
". c #22B14C";
"....................";
"    ...........    .";
"    ..........     .";
"    .........      .";
"    ........      ..";
"    ......       ...";
"    .....       ....";
"    ....      ......";
"    ...      .......";
"    ..      ........";
"           .........";
"          ..........";
"        ............";
"       .............";
"      ..............";
"      ..............";
"       .............";
"        ............";
"         ...........";
"           .........";
"    .       ........";
"    ...      .......";
"    ....      ......";
"    .....      .....";
"    ......       ...";
"    .......       ..";
"    .........      .";
"    ..........     .";
"    ...........    .";
".  .............. .."
]%string.

(** proj/src/pixmap.h:1272-1308 [l] *)
Definition l : list string := [
"20 30 2 1 ";
"  c #ffffff";
". c #22B14C";
"....................";
".   ................";
".    ...............";
".    ...............";
".    ...............";
".    ...............";
".    ...............";
".    ...............";
".    ...............";
".    ...............";
".    ...............";
".    ...............";
".    ...............";
".    ...............";
".    ...............";
".    ...............";
".    ...............";
".    ...............";
".    ...............";
".    ...............";
".    ...............";
".    ...............";
".    ...............";
".    ...............";
".    ...............";
".    ...............";
".                  .";
".                   ";
".                   ";
".                  ."
]%string.

(** proj/src/pixmap.h:1311-1347 [m] *)
Definition m : list string := [
"20 30 2 1 ";
"  c #ffffff";
". c #22B14C";
".    ..........    .";
"      ........      ";
"       ......       ";
"        ....        ";
"        ....        ";
"         ..         ";
"                    ";
"    .               ";
"    ..        .     ";
"    ...      ..     ";
"    ...      ..     ";
"    ....    ...     ";
"    ....    ...     ";
"    .....  ....     ";
"    ...........     ";
"    ...........     ";
"    ...........     ";
"    ...........     ";
"    ...........     ";
"    ...........     ";
"    ...........     ";
"    ...........     ";
"    ...........     ";
"    ...........     ";
"    ...........     ";
"    ...........     ";
"    ...........     ";
"    ...........     ";
".   ............   .";
".. .............. .."
]%string.

(** proj/src/pixmap.h:1350-1386 [n] *)
Definition n : list string := [
"20 30 2 1 ";
"  c #ffffff";
". c #22B14C";
".    ...............";
"      ..........   .";
"      .........    .";
"       ........    .";
"       ........    .";
"        .......    .";
"        .......    .";
"         ......    .";
"         ......    .";
"    .    ......    .";
"    .     .....    .";
"    ..    .....    .";
"    ..     ....    .";
"    ...    ....    .";
"    ...     ...    .";
"    ....    ...    .";
"    ....     ..    .";
"    ....     ..    .";
"    .....     .    .";
"    .....     .    .";
"    ......    .    .";
"    ......         .";
"    .......        .";
"    .......        .";
"    ........       .";
"    ........       .";
"    .........      .";
"    .........      .";
"    .........      .";
".. ...........     ."
]%string.

(** proj/src/pixmap.h:1390-1426 [o] *)
Definition o : list string := [
"20 30 2 1 ";
"  c #FFFFFF";
". c #22B14C";
".......... .........";
".......       ......";
"......         .....";
"......         .....";
".....           ....";
".....    ..     ....";
"....     ...     ...";
"....    .....    ...";
"...     .....     ..";
"...    .......    ..";
"..     .......     .";
"..    .........    .";
".     .........     ";
".    ..........     ";
".    ...........    ";
".    ...........    ";
".    ...........    ";
".     .........     ";
".     .........    .";
"..     .......     .";
"..     .......    ..";
"...     .....     ..";
"...     .....    ...";
"....     ...     ...";
"....     ...    ....";
".....     .     ....";
".....          .....";
"......         .....";
".......       ......";
"..........  ........"
]%string.

(** proj/src/pixmap.h:1429-1465 [p] *)
Definition p : list string := [
"20 30 2 1 ";
"  c #ffffff";
". c #22B14C";
".              .....";
"                 ...";
"                  ..";
"                   .";
"                    ";
"     ..........     ";
"     ...........    ";
"     ...........    ";
"     ...........    ";
"     ...........    ";
"     ...........    ";
"     ...........    ";
"     ...........    ";
"     ..........     ";
"     .........      ";
"                   .";
"                   .";
"                  ..";
"                ....";
"     ...............";
"     ...............";
"     ...............";
"     ...............";
"     ...............";
"     ...............";
"     ...............";
"     ...............";
"     ...............";
".   ................";
".. ................."
]%string.

(** proj/src/pixmap.h:1468-1504 [q] *)
Definition q : list string := [
"20 30 2 1 ";
"  c #ffffff";
". c #22B14C";
".............. .....";
"............      ..";
"..........         .";
".........          .";
"........           .";
".......      ..     ";
"......      ...     ";
"....       ....     ";
"...      ......     ";
"..      .......     ";
".      ........     ";
".     .........     ";
"     ..........     ";
"     ..........     ";
"    ...........     ";
"    ...........     ";
"    ..... .....    .";
"    ....    ...    .";
"    ....    ..     .";
"    ....           .";
"    ....          ..";
"    .....        ...";
"    .....       ....";
"    ....      ......";
"    ...        .....";
"               .....";
"                   .";
".        ..        .";
"..      ....       .";
"...   ......      .."
]%string.

(** proj/src/pixmap.h:1507-1543 [r] *)
Definition r : list string := [
"20 30 2 1 ";
"  c #ffffff";
". c #22B14C";
"              ......";
"                 ...";
"                  ..";
"                   .";
"                   .";
"    ...........    .";
"    ...........    .";
"    ...........    .";
"    ...........    .";
"    ..........     .";
"                   .";
"                  ..";
"                 ...";
"                ....";
"    ...     ........";
"    ...     ........";
"    ....     .......";
"    .....    .......";
"    .....     ......";
"    ......     .....";
"    ......     .....";
"    .......     ....";
"    ........    ....";
"    ........     ...";
"    .........     ..";
"    .........     ..";
"    ..........     .";
"    ...........    .";
"    ...........    .";
".  .............. .."
]%string.

(** proj/src/pixmap.h:1546-1582 [s] *)
Definition s : list string := [
"20 30 2 1 ";
"  c #ffffff";
". c #22B14C";
".....          .....";
"..                ..";
".                  .";
".                  .";
"                    ";
".    ..........     ";
".     ..........    ";
".      ..........  .";
"..     .............";
"...     ............";
"....     ...........";
".....     ..........";
".....      .........";
"......      ........";
".......     ........";
"........     .......";
".........     ......";
".........      .....";
"..........      ....";
"...........     ....";
"............     ...";
".............     ..";
".............      .";
".   ..........     .";
"     ..........     ";
".    ..........     ";
".                   ";
".                  .";
"..                 .";
"....             ..."
]%string.

(** proj/src/pixmap.h:1585-1621 [t] *)
Definition t : list string := [
"20 30 2 1 ";
"  c #ffffff";
". c #22B14C";
".                  .";
"                    ";
"                    ";
"                    ";
"                    ";
"    ....    ...     ";
".   ....    ....   .";
".. .....    ..... ..";
"........    ........";
"........    ........";
"........    ........";
"........    ........";
"........    ........";
"........    ........";
"........    ........";
"........    ........";
"........    ........";
"........    ........";
"........    ........";
"........    ........";
"........    ........";
"........    ........";
"........    ........";
"........    ........";
"........    ........";
"........    ........";
"........    ........";
"........    ........";
"........    ........";
"......... .........."
]%string.

(** proj/src/pixmap.h:1624-1660 [u] *)
Definition u : list string := [
"20 30 2 1 ";
"  c #ffffff";
". c #22B14C";
"....................";
"    ............   .";
"    ...........    .";
"    ...........    .";
"    ...........    .";
"    ...........    .";
"    ...........    .";
"    ...........    .";
"    ...........    .";
"    ...........    .";
"    ...........    .";
"    ...........    .";
"    ...........    .";
"    ...........    .";
"    ...........    .";
"    ...........    .";
"    ...........    .";
"    ...........    .";
"    ...........    .";
"    ...........    .";
"    ...........    .";
"    ...........    .";
"    ...........    .";
"    ...........    .";
"    ...........    .";
"     .........     .";
"                   .";
".                 ..";
"..               ...";
"....           ....."
]%string.

(** proj/src/pixmap.h:1663-1699 [v] *)
Definition v : list string := [
"20 30 2 1 ";
"  c #ffffff";
". c #22B14C";
"....................";
".   ............    ";
".    ...........    ";
".    ...........    ";
".    ...........    ";
".    ...........    ";
".    ...........    ";
".    ...........    ";
".    ...........    ";
".    ..........     ";
".     .........     ";
"..    .........    .";
"..    ........     .";
"..     .......    ..";
"...    ......     ..";
"...     .....     ..";
"....    .....    ...";
"....    ....     ...";
"....     ...    ....";
".....    ..     ....";
".....     .    .....";
"......    .    .....";
"......         .....";
"......        ......";
".......       ......";
".......      .......";
"........     .......";
"........     .......";
".........   ........";
".......... ........."
]%string.

(** proj/src/pixmap.h:1702-1738 [w] *)
Definition w : list string := [
"20 30 2 1 ";
"  c #FFFFFF";
". c #22B14C";
"....................";
".   ............   .";
"    ............    ";
"    ...........     ";
"    ...........     ";
"    ...........     ";
"    ...........     ";
"    ...........     ";
"    ...........     ";
"    ...........     ";
"    .....  ....     ";
"    ....    ...     ";
"    ....    ...     ";
"    ....    ...     ";
"    ....    ...     ";
"    ....    ...     ";
"    ....    ...     ";
"    ....    ...     ";
"    ....    ...     ";
"    ....    ...     ";
"    ....    ...     ";
"    ....    ...     ";
"    ....    ...     ";
"    ....    ...     ";
"     ...    ...     ";
".    ..      .     .";
".                  .";
"..                ..";
"..                ..";
"....     ..     ...."
]%string.

(** proj/src/pixmap.h:1741-1777 [x] *)
Definition x : list string := [
"20 30 2 1 ";
"  c #ffffff";
". c #22B14C";
"....................";
".   ............   .";
"     ..........     ";
".    ..........    .";
".     ........     .";
"..     ......     ..";
"..     ......     ..";
"...     ....     ...";
"....     ...    ....";
"....     ..     ....";
".....          .....";
".....          .....";
"......        ......";
".......      .......";
".......      .......";
".......      .......";
".......      .......";
"......        ......";
"......        ......";
".....          .....";
"....     ..     ....";
"....     ..     ....";
"...     ....     ...";
"..     ......    ...";
"..     ......     ..";
".     ........     .";
".     ........     .";
"     ..........     ";
".   ............   .";
".. .............. .."
]%string.

(** proj/src/pixmap.h:1780-1816 [y] *)
Definition y : list string := [
"20 30 2 1 ";
"  c #ffffff";
". c #22B14C";
"....................";
".   ............    ";
".    ...........    ";
".    ...........    ";
".    ...........    ";
".    ...........    ";
".     .........     ";
"..     .......     .";
"..      .....     ..";
"...      ...      ..";
"....     ..      ...";
".....           ....";
"......         .....";
"......        ......";
".......       ......";
"........     .......";
"........     .......";
"........     .......";
"........     .......";
"........     .......";
"........     .......";
"........     .......";
"........     .......";
"........     .......";
"........     .......";
"........     .......";
"........     .......";
"........     .......";
".........   ........";
".......... ........."
]%string.

(** proj/src/pixmap.h:1819-1855 [z] *)
Definition z : list string := [
"20 30 2 1 ";
"  c #ffffff";
". c #22B14C";
"...                .";
".                   ";
"                    ";
".                   ";
"..                 .";
".............     ..";
".............     ..";
"............     ...";
"............    ....";
"...........     ....";
"..........     .....";
"..........     .....";
".........     ......";
".........    .......";
"........     .......";
".......     ........";
".......     ........";
"......     .........";
"......    ..........";
".....     ..........";
"....     ...........";
"....     ...........";
"...     ............";
"..     .............";
"..     .............";
".     ..............";
".                  .";
"                    ";
"                   .";
".                 .."
]%string.

(** proj/src/pixmap.h:1858-2065 [gameName] *)
Definition gameName : list string := [
"264 200 3 1 ";
"  c #ffffff";
". c #22B14C";
"X c #22B14C";
"             XXXXXXXXXXXXXXXXXXXXXXXXXXXXXXXXXXXXXXXXXXXXXXXXXXXXXXXXXXXX XXXX        X  X  X XXXXXXXXXXXXXXXXXXXXXXXXXXXXXXXXXXXX     X  XX   X      X  X X XXXXXXXXXXXXXXXXXXXXXXXXXXXXXXXXXXXXXXXXXXXXXXXXXXXXXXXXXXXXXXXXXXXXXXXXXXXXXXXXXXXXXXXXXXXXXXXXXXXXXXXXXXX";
"            X XXXXXXXXXXXXXXXXXXXXXXXXXXXXXXXXXXXXXXXXXXXXXXXXXXXXXXXXXXXX                XX   XXXXXXXXXXXXXXXXXXXXXXXXXXXXXXX XXX                        X X XXXXXXXXXXXXXXXXXXXXXXXXXXXXXXXXXXXXXXXXXXXXXXXXXXXXXXXXXXXXXXXXXXXXXXXXXXXXXXXXXXXXXXXXXXXXXXXXXXXXXXXXXX";
"              XXXXXXXXXXXXXXXXXXXXXXXXXXXXXXXXXXXXXXXXXXXXXXXXXXXXXXXXXXXXX                X    XXXXXXXXXXXXXXXXXXXXXXXXXXXXX                          X        XXXXXXXXXXXXXXXXXXXXXXXXXXXXXXXXXXXXXXXXXXXXXXXXXXXXXXXXXXXXXXXXXXXXXXXXXXXXXXXXXXXXXXXXXXXXXXXXXXXXXXXX";
"              XXXXXXXXXXXXXXXXXXXXXXXXXXXXXXXXXXXXXXXXXXXXXXXXXXXXXXXXX                    X     XXXXXXXXXXXXXXXXXXXXXXXXXXX                  X            X X   XXXXXXXXXXXXXXXXXXXXXXXXXXXXXXXXXXXXXXXXXXXXXXXXXXXXXXXXXXXXXXXXXXXXXXXXXXXXXXXXXXXXXXXXXXXXXXXXXXXXXXX";
"               XXXXXXXXXXXXXXXXXXXXXXXXXXXXXXXXXXXXXXXXXXXXXXXXXXXXXX                           XXXXXXXXXXXXXXXXXXXXXXXXXXX X                                   X XXX XXXXXXXXXXXXXXXXXXXXXXXXXXXXXXXXXXXXXXXXXXXXXXXXXXXXXXXXXXXXXXXXXXXXXXXXXXXXXXXXXXXXXXXXXXXXXXXXXX";
"             XXXXXXXXXXXXXXXXXXXXXXXXXXXXXXXXXXXXXXXXXXXXXXXXXXXXXXX                           X XXXXXXXXXXXXXXXXXXXXXXXXX                                 X         XXXXXXXXXXXXXXXXXXXXXXXXXXXXXXXXXXXXXXXXXXXXX XXXXXXXXXXXXXXXXXXXXXXXXXXXXXXXXXXXXXXXXXXXXXXXXXXXXX";
"              XXXXXXXXXXXXXXXXXXXXXXXXXXXXXXXXXXXXXXXXXXXXXXXXXXXXX                                XXXXXXXXXXXXXXXXXXXXX           X                                 X XXXXXXXXXXXXXXXXXXXXXXXXXXXXXXXXXXXXX    X XX  XXXXXXXXXXXXXXXXXXXXXXXXXXXXXXXXXXXXXXXXXXXXXXXXXX";
"              XXXXXXXXXXXXXXXXXXXXXXXXXXXXXXXXXXXXXXXXXXXXXXXXXXX                               X  XXXXXXXXXXXXXXXXXXXXX   X        X           XX                     XXXXXXXXXXXXXXXXXXXXXXXXXXXXXXXXXXXXXX    X X     XXXXXXXXXXXXXXXXXXXXXXXXXXXXXXXXXXXXXXXXXXXXXXX";
"               XXXXXXXXXXXXXXXXXXXXXXXXXXXXXXXXXXXXXXXXXXXXXXXXXX                                XXXXXXXXXXXXXXXXXXXXX  X   X                                       X     XXXXXXXXXXXXXXXXXXXXXXXXXXXXXXXXX      XXX     XXXXXXXXXXXXXXXXXXXXXXXXXXXXXXXXXXXXXXXXXXXXXXX";
"                 XXXXXXXXXXXXXXXXXXXXXXXXXXXXXXXXXXXXXXXXXXXXXX X                                 XX XXXXXXXXXXXXXXXXX                                              X X  X XXXXXXXXXXXXXXXXXXXXXXXXXXXX           X      XXXXXXXXXXXXXXXXXXXXXXXXXXXXXXXXXXXXXXXXXXXXXXX";
"                  XXXXXXXXXXXXXXXXXXXXXXXXXXXXXXXXXXXXXXXXXXXXXX                             X     XXXXXXXXXXXXXXXXXXX                                                XX X  XXXXXXXXXXXXXXXXXXXXXXXXXXX   X X            X XXXXXXXXXXXXXXXXXXXXXXXXXXXXXXXXXXXXXXXXXXXXX";
"                  XXXXXXXXXXXXXXXXXXXXXXXXXXXXXXXXXXXXXXXXXXXX                                  X XX XXXXXXXXXXXXXXXXX                                                XXXXXXXXXXXXXXXXXXXXXXXXXXXXXXXX                     X XXXXXXXXXXXXXXXXXXXXXXXXXXXXXXXXXXXXXXXXXXX";
"                   XXXXXXXXXXXXXXXXXXXXXXXXXXXXXXXXXXXXXXXXXX                                    X  XXXXXXXXXXXXXXXX                                                    XXXXXXXXXXXXXXXXXXXXXXXXXXXXX                    X   XXXXXXXXXXXXXXXXXXXXXXXXXXXXXXXXXXXXXXXXXXX";
"                     XXXXXXXXXXXXXXXXXXXXXXXXXXXXXXXXXXXXXXXX                                     XXXXXXXXXXXXXXXXXX                                                   X   XXXXXXXXXXXXXXXXXXXXXXXXX   X                  X  XXXXXXXXXXXXXXXXXXXXXXXXXXXXXXXXXXXXXXXXXXX";
"                   XXXXXXXXXXXXXXXXXXXXXXXXXXXXXXXXXXXXXXXXXX                                       XXXXXXXXXXXXXXXXX                         X                         XX  XXXXXXXXXXXXXXXXXXXXXXX                      X    XXXXXXXXXXXXXXXXXXXXXXXXXXXXXXXXXXXXXXXXXX";
"                     XXXXXXXXXXXXXXXXXXXXXXXXXXXXXXXXXXXXXX  X                             X   XXXX XXXXXXXXXXXXXXX  X                                                      XXXXXXXXXXXXXXXXXXXXXX                            XXXXXXXXXXXXXXXXXXXXXXXXXXXXXXXXXXXXXXXXXX";
"                      XXXXXXXXXXXXXXXXXXXXXXXXXXXXXXXXXXXX X                                    X X XXXXXXXXXXXXXXX                                                        XXXXXXXXXXXXXXXXXXXXXXX  X X       X               XXXXXXXXXXXXXXXXXXXXXXXXXXXXXXXXXXXXXXXXXX";
"                       XXXXXXXXXXXXXXXXXXXXXXXXXXXXXXXXXXX                                 XX X  XXXXXXXXXXXXXXXXX X                                                      XXXXXXXXXXXXXXXXXXXXXX     X                         XXXXXXXXXXXXXXXXXXXXXXXXXXXXXXXXXXXXXXXXX";
"                     X  XXXXXXXXXXXXXXXXXXXXXXXXXXXXXXXXXX  X                               X X   XXXXXXXXXXXXXXXX                                                         XXXXXXXXXXXXXXXXXXXX                                XXXXXXXXXXXXXXXXXXXXXXXXXXXXXXXXXXXXXXXXX";
"                       XXXXXXXXXXXXXXXXXXXXXXXXXXXXXXXXXX X                            X   X  XX XXXXXXXXXXXXXXXXX  X        X                                             XXXXXXXXXXXXXXXXXXXXX                                XXXXXXXXXXXXXXXXXXXXXXXXXXXXXXXXXXXXXXXX";
"                      XXXXXXXXXXXXXXXXXXXXXXXXXXXXXXXXXXX                                    XX XXXXXXXXXXXXXXXXXX                           X                           X  XXXXXXXXXXXXXXXXX                                   XXXXXXXXXXXXXXXXXXXXXXXXXXXXXXXXXXXXXXXX";
"                         XXXXXXXXXXXXXXXXXXXXXXXXXXXXXXXXX                                  X   XXXXXXXXXXXXXXXXXX  X             X         XXXXX                       X  XXXXXXXXXXXXXXXXX XX                                 XXXXXXXXXXXXXXXXXXXXXXXXXXXXXXXXXXXXXXXX";
"                      X XXXXXXXXXXXXXXXXXXXXXXXXXXXXXXXX  X                           XX    X  XXXXXXXXXXXXXXXXXX                         XXXXXXXX                          XXXXXXXXXXXXXXXXX                                  XXXXXXXXXXXXXXXXXXXXXXXXXXXXXXXXXXXXXXXXX";
"                         XXXXXXXXXXXXXXXXXXXXXXXXXXXXXXX                   X        X   X   XXXXXXXXXXXXXXXXXXXXX                         XXXXXXXX                        XX XXXXXXXXXXXXXX    X                                 XXXXXXXXXXXXXXXXXXXXXXXXXXXXXXXXXXXXXXX";
"                        XXXXXXXXXXXXXXXXXXXXXXXXXXXXXXX                            X X  XXXXXXXXXXXXXXXXXXXXXXXXXX    XX                XXXXXXXXX  XX                       XXXXXXXXXXXXXXX                                      XXXX XXX XXXXXXXXXXXXXXXXXXXXXXXXXXXXXX";
"                         XXXXXXXXXXXXXXXXXXXXXXXXXXXXXXX                           XXXXXXXXXXXXXXXXXXXXXXXXXXXXX X                      XXXXXXXXXX                          XXXXXXXXXXXXXX                                            X X  XX XX XXXXXXXXXXXXXXXXXXXXXXX";
"                         XXXXXXXXXXXXXXXXXXXXXXXXXXXXXXX                          XXXXXXXXXXXXXXXXXXXXXXXXXXXXXXX                      XXXXXXXXXX                           XXXXXXXXXXXXX                                          X         X     XXXXXXXXXXXXXXXXXXXXX";
"                          XXXXXXXXXXXXXXXXXXXXXXXXXXXXXXX                         XXXXXXXXXXXXXXXXXXXXXXXXXXXXXXX                      XXXXXXXXXXXXX                       XXXXXXXXXXXXXX                X                                X       X X  XXXXXXXXXXXXXXXXX";
"                          XXXXXXXXXXXXXXXXXXXXXXXXXXXXXXX                         XXXXXXXXXXXXXXXXXXXXXXXXXXXXXX      X               X XXXXXXXXXXX                         XXXXXXXXXXXX                                            X                  X XXXXXXXXXXXXXXX";
"                           XXXXXXXXXXXXXXXXXXXXXXXXXXXXX     X                    XXXXXXXXXXXXXXXXXXXXXXXXXXXXXX                        XXXXXXXXXXX                       X  XXXXXXXXX                                                                 X  XXXXXXXXXXXXXX";
"  X                        XXXXXXXXXXXXXXXXXXXXXXXXXXXXX                         XXXXXXXXXXXXXXXXXXXXXXXXXXXXXXXXX  X                    XXXXXXXXXXX                      XXXXXXXXXXXX                                                  X                 XXXXXXXXXXXXXX";
"X                           XXXXXXXXXXXXXXXXXXXXXXXXXXXXX                         XXXXXXXXXXXXXXXXXXXXXXXXXXXXXXX  X      X              XXXXXXXXX                      X  XXXXXXXXXX                                                                     X XXXXXXXXXXXX";
"                            XXXXXXXXXXXXXXXXXXXXXXXXXXXX                         XXXXXXXXXXXXXXXXXXXXXXXXXXXXXXXX   X                  X XXXXXXXX                           XXXXXXXXX                                                                       XXXXXXXXXXXX";
"X                           X XXXXXXXXXXXXXXXXXXXXXXXXXX                          XXXXXXXXXXXXXXXXXXXXXXXXXXXXXXXX X                       XXXXXX   X                      XXXXXXXXXX                                                                      XXXXXXXXXXXXX";
"XX                           XXXXXXXXXXXXXXXXXXXXXXXXXXXX                        XXXXXXXXXXXXXXXXXXXXXXXXXXXXXXXXXX                         XXXX X                         XXXXXXXXX   X                                                                    XXXXXXXXXXXX";
"XX                              XXXXXXXXXXXXXXXXXXXXXXXXX                          XXXXXXXXXXXXXXXXXXXXXXXXXXXXXXX                                                     XX XXXXXXXXX                                                                      X   XXXXXXXXXXX";
"XXX                              XXXXXXXXXXXXXXXXXXXXXXXX                          XXXXXXXXXXXXXXXXXXXXXXXXXXXXXXX                                                        XXXXXXXXX                                X                               X      X  XXXXXXXXXXX";
"XXX                            XXXXXXXXXXXXXXXXXXXXXXXXXXXX                        X XXXXXXXXXXXXXXXXXXXXXXXXXXXXX                                                        XXXXXXXX X                                                                          XXXXXXXXXX";
"XXXXX                            X XXXXXXXXXXXXXXXXXXXXXXXX                          X  XXXXXXXXXXXXXXXXXXXXXXXXXX                            X                          XXXXXXXX X                                                                     X    XXXXXXXXXXX";
"XXXX                            XX XXXXXXXXXXXXXXXXXX XXXX X                           X    XXXXXXXXXXXXXXXXXXXXXXX X                                                    XXXXXXXX                                                                            XXXXXXXXXXX";
"XXXXX                            X XXXXXXXXXXXXXXX    XXXX                                X     XXXXXXXXXXXXXXXXXXXX                                                   XXXXXXXXX X                    X       X                                            X XXXXXXXXXXX";
"XXXXX                               XXXXXXXXXXX           X                                     XXXXXXXXXXXXXXXXXXXX                                                    XXXXXXX   X  X                     X                                                 XXXXXXXXXXX";
"XXXXXX                               XXXXX X        X   X  X                                      X  XXXXXXXXXXXXXX                                                    XXXXXXXXX                      X   X             X                                 X XXXXXXXXXXXX";
"XXXXXX   X                         X X X   X             X                                        X XXXXXXXXXXXXXXXXXX                                                XXXXXXXX                            XX X       X        X                           XXXXXXXXXXXXXX";
"XXXXXX                                  X             X X   X                                        X XXXXXXXXXXXXXX                                                 XXXXXX X                             XXXX              X     X                      XXXXXXXXXXXXXX";
"XXXXXXX                                X                    X                                        XX XXXXXXXXXXXXXX                                  X            XXXXXXX                            XXXXXX X                                         X XXXXXXXXXXXXX";
"XXXXXXX  X                                                                                            XXXXXXXXXXXXXXXXX                                             XXXXXXXX                             X XXXX    X                                      XXXXXXXXXXXXXX";
"XXXXXXXX                                                                                            X    XXXXXXXXXXXXXX                                             XXXXXXX X                              XXXXX       XX        X                         XXXXXXXXXXXXX";
"XXXXXXXXXX                                           X        X   X                                      XXXXXXXXXXXXXXX  XX                                       XXXXXXXX                           X XXXXXXXXXX X     X X X XX   X                  X  XXXXXXXXXXXXXX";
"XXXXXXXXXX                                                    X                                    X X XXXXXXXXXXXXXXXXXX X                                        XXXXXX                               XXXXXXXXXXXXX  X  X  XXXXX                       XXXXXXXXXXXXXXX";
"XXXXXXXXXX                                                     X                                         XXXXXXXXXXXXXXXX X                                       XXXXXXXXX                      X   XXX XXXXXXXXXXXXXX XXXXXXXXX X          X            XXXXXXXXXXXXXX";
"XXXXXXXXXXX                                                                                               XXXXXXXXXXXXXXXXXX                                      XXXXXXX                              XXXXXXXXXXXXXXXXXXXXXXXXX                        X XXXXXXXXXXXXXX";
"XXXXXXXXXXXX                                                                                           XXXXXXXXXXXXXXXXXXXX   XX                               X XXXXXXXX                           X XXXXXXXXXXXXXXXXXXXXXXXXXXX                       XXXXXXXXXXXXXXXX";
"XXXXXXXXXXXX                                                   XXX        X                          XX XXXXXXXXXXXXXXXXXXXXX                                X XXXXXXXXXX                          XXXXXXXXXXXXXXXXXXXXXXXXXXXX                          XXXXXXXXXXXXXXX";
"XXXXXXXXXXXXXX                                                X XXXX                                  XXXXXXXXXXXXXXXXXXXXXXXXXXX  X                       X  XXXXXXXXXX  X                        XXXXXXXXXXXXXXXXXXXXXXXXXXXX                         XXXXXXXXXXXXXXXX";
"XXXXXXXXXXXXXX                                                   XXX                              X    XXXXXXXXXXXXXXXXXXXXXXXXXX      X    X                XXXXXXXXXXXX                          XXXXXXXXXXXXXXXXXXXXXXXXXXXX                         XXXXXXXXXXXXXXXX";
"XXXXXXXXXXXXXX                                                  XXXXXX                               XX XXXXXXXXXXXXXXXXXXXXXXXXXX  XX X  X                XXXXXXXXXXXXXX                         XXXXXXXXXXXXXXXXXXXXXXXXXXXXX X                       XXXXXXXXXXXXXXXX";
"XXXXXXXXXXXXXXX                                              XXX XXXXX  X                           X XXXXXXXXXXXXXXXXXXXXXXXXXXXXXXXXXX      X  X      XXXXXXXXXXXXXXX X                         XXXXXXXXXXXXXXXXXXXXXXXXXXX   X                      XXXXXXXXXXXXXXXXX";
"XXXXXXXXXXXXXXX                                               XXXXXXXXX                         X     XXXXXXXXXXXXXXXXXXXXXXXXXXXXXXXXXXXXXXXX  XX  X  XXXXXXXXXXXXXXXXX                         X XXXXXXXXXXXXXXXXXXXXXXXXXXX      X                   XXXXXXXXXXXXXXXX";
"XXXXXXXXXXXXXXXX                                             XXXXXXXXXXXX                     X  X   XXXXXXXXXXXXXXXXXXXXXXXXXXXXXXXXXXXXXXXXXXXXXXXXXXXXXXXXXXXXXXXXXXX                         XXXXXXXXXXXXXXXXXXXXXXXXXXXX                         XXXXXXXXXXXXXXXXXX";
"XXXXXXXXXXXXXXXXXX                                           XXXXXXXXXXXX                          XXXX..............................................XXXXXXXXXXXXXXXXXXXXX  X    X                XXXXXXXXXXXXXXXXXXXXXXXXX  X                        XXXXXXXXXXXXXXXXXX";
"XXXXXXXXXXXXXXXXX                                           XXXXXXXXXXXXXXX X   X                 .....XXXXXXXXXXXXXXXXXXXXXXXXXXXXXXXXXXXXXXXXXXXXXX...............XXX                           XXXXXXXXXXXXXXXXXXXXXXXX                            XXXXXXXXXXXXXXXXXX";
"XXXXXXXXXXXXXXXXX  XX                                    XX XXXXXXXXXXXXXXXX ... .          XXX X XXXXXXXXXXXXXXXXXXXXXXXXXXXXXXXXXXXXXXXXXXXXXXXXXXXXXXXXXXXXXXXXXX.....  .                    X XXXXXXXXXXXXXXXXXXXXXXXX                           XXXXXXXXXXXXXXXXXXX";
"XXXXXXXXXXXXXXXXXXX                                      XXXXXXXXXXX........XXXXX XX      X  XXXXXXXXXXXXXXXXXXXXXXXXXXXXXXXXXXXXXXXXXXXXXXXXXXXXXXXXXXXXXXXXXXXXXXXXXXXX X              X     X XXXXXXXXXXXXXXXXXXXXXXXXX                          XXXXXXXXXXXXXXXXXXXX";
"XXXXXXXXXXXXXXXXXXX                                     XXXXX.......XXXXXXXXXXXXXXXXXXX XXXXXXXXXXXXXXXXXXXXXXXXXXXXXXXXXXXXXXXXXXXXXXXXXXXXXXXXXXXXXXXXXXXXXXXXXXXXXXXXX                     X  XXXXXXXXXXXXXXXXXXXXXXXX                           XXXXXXXXXXXXXXXXXXXX";
"XXXXXXXXXXXXXXXXXXXXX   X                           XXX......XXXXXXXXXXXXXXXXXXXXXXXXXXXXXXXXXXXXXXXXXXXXXXXXXXXXXXXXXXXXXXXXXXXXXXXXXXXXXXXXXXXXXXXXXXXXXXXXXXXXXXXXXXXXXXXX X             X  .....XXXXXXXXXXXXXXXXXXXX                           XXXXXXXXXXXXXXXXXXXXX";
"XXXXXXXXXXXXXXXXXXXX  X                        X   . ..XXXXXXXXXXXXXXXXXXXXXXXXXXXXXXXXXXXXXXXXXXXXXXXXXXXXXXXXXXXXXXXXXXXXXXXXXXXXXXXXXXXXXXXXXXXXXXXXXXXXXXXXXXXXXXXXXXX  X  X           X X XXXXX.....XXXXXXXXXXXXXX                           XXXXXXXXXXXXXXXXXXXXXX";
"XXXXXXXXXXXXXXXXXXXX                          .  .XXXXXXXXXXXXXXXXXXXXXXXXXXXXXXXXXXXXXXXXXXXXXXXXXXXXXXXXXXXXXXXXXXXXXXXXXXXXXXXXXXXXXXXXXXXXXXXXXXXXXXXXXXXXXXXXXXXXXXXXXX XXXXX         X XXXXXXXXXXXX.....XXXXXXXXXX                 X        XXXXXXXXXXXXXXXXXXXXXX";
"XXXXXXXXXXXXXXXXXXXXXX                   . ..X XXXXXXXXXXXXXXXXXXXXXXXXXXXXXXXXXXXXXXXXXXXXXXXXXXXXXXXXXXXXXXXXXXXXXXXXXXXXXXXXXXXXXXXXXXXXXXXXXXXXXXXXXXXXXXXXXXXXXXXXXXXXX  XXXXXXXXX X   XXXXXXXXXXXXXXXXXX....XXXXX                         X XXXXXXXXXXXXXXXXXXXXXX";
"XXXXXXXXXXXXXXXXXXXXXXX  X            ...XXXXXXXXXXXXXXXXXXXXXXXXXXXXXXXXXXXXXXXXXXXXXXXXXXXXXXXXXXXXXXXXXXXXXXXXXXXXXXXXXXXXXXXXXXXXXXXXXXXXXXXXXXXXXXXXXXXXXXXXXXXXXXXXXXXXXXXXX   X X X XXXXXXXXXXXXXXXXXXXXXXX....                           XXXXXXXXXXXXXXXXXXXXXXX";
"XXXXXXXXXXXXXXXXXXXXXXXXX            XXXXXXXXXXXXXXXXXXXXXXXXXXXXXXXXXXXXXXXXXXXXXXXXXXXXXXXXXXXXXXXXXXXXXXXXXXXXXXXXXXXXXXXXXXXXXXXXXXXXXXXXXXXXXXXXXXXXXXXXXXXXXXXXXXXXXXXXXXXXXXXXXXXXXXXXXXXXXXXXXXXXXXXXXXXXXXXXX                           XXXXXXXXXXXXXXXXXXXXXXX";
"XXXXXXXXXXXXXXXXXXXXXXXXXXXX   ..  XXXXXXXXXXXXXXXXXXXXXXXXXXXXXXXXXXXXXXXXXXXXXXXXXXXXXXXXXXXXXXXXXXXXXXXXXXXXXXXXXXXXXXXXXXXXXXXXXXXXXXXXXXXXXXXXXXXXXXXXXXXXXXXXXXXXXXXXXXXXXXXXXXXXXXXXXXXXXXXXXXXXXXXXXXXXXXXXXX                           XXXXXXXXXXXXXXXXXXXXXXXX";
"XXXXXXXXXXXXXXXXXXXXXXXXXXXX...XXXXXXXXXXXXXXXXXXXXXXXXXXXXXXXXXXXXXXXXXXXXXXXXXXXXXXXXXXXXXXXXXXXXXXXXXXXXXXXXXXXXXXXXXXXXXXXXXXXXXXXXXXXXXXXXXXXXXXXXXXXXXXXXXXXXXXXXXXXXXXXXXXXXXXXXXXXXXXXXXXXXXXXXXXXXXXXXXXXXXX                        X  XXXXXXXXXXXXXXXXXXXXXXXX";
"XXXXXXXXXXXXXXXXXXXXXXXXXX..XXXXXXXXXXXXXXXXXXXXXXXXXXXXXXXXXXXXXXXXXXXXXXXXXXXXXXXXXXXXXXXXXXXXXXXXXXXXXXXXXXXXXXXXXXXXXXXXXXXXXXXXXXXXXXXXXXXXXXXXXXXXXXXXXXXXXXXXXXXXXXXXXXXXXXXXXXXXXXXXXXXXXXXXXXXXXXXXXXXXXXXX                          XXXXXXXXXXXXXXXXXXXXXXXXXX";
"XXXXXXXXXXXXXXXXXXXXXXXX..XXXXXXXXXXXXXXXXXXXXXXXXXXXXXXXXXXXXXXXXXXXXXXXXXXXXXXXXXXXXXXXXXXXXXXXXXXXXXXXXXXXXXXXXXXXXXXXXXXXXXXXXXXXXXXXXXXXXXXXXXXXXXXXXXXXXXXXXXXXXXXXXXXXXXXXXXXXXXXXXXXXXXXXXXXXXXXXXXXXXXXXXXX                          XXXXXXXXXXXXXXXXXXXXXXXXXX";
"XXXXXXXXXXXXXXXXXXXXXX..XXXXXXXXXXXXXXXXXXXXXXXXXXXXXXXXXXXXXXXXXXXXXXXXXXXXXXXXXXXXXXXXXXXXXXXXXXXXXXXXXXXXXXXXXXXXXXXXXXXXXXXXXXXXXXXXXXXXXXXXXXXXXXXXXXXXXXXXXXXXXXXXXXXXXXXXXXXXXXXXXXXXXXXXXXXXXXXXXXXXXXXXXXXX                          XXXXXXXXXXXXXXXXXXXXXXXXXX";
"XXXXXXXXXXXXXXXXXXXX..XXXXXXXXXXXXXXXXXXXXXXXXXXXXXXXXXXXXXXXXXXXXXXXXXXXXXXXXXXXXXXXXXXXXXXXXXXXXXXXXXXXXXXXXXXXXXXXXXXXXXXXXXXXXXXXXXXXXXXXXXXXXXXXXXXXXXXXXXXXXXXXXXXXXXXXXXXXXXXXXXXXXXXXXXXXXXXXXXXXXXXXXXXXXXXXX                       XXXXXXXXXXXXXXXXXXXXXXXXXXX";
"XXXXXXXXXXXXXXXXXXX.XXXXXXXXXXXXXXXXXXXXXXXXXXXXXXXXXXXXXXXXXXXXXXXXXXXXXXXXXXXXXXXXXXXXXXXXXXXXXXXXXXXXXXXXXXXXXXXXXXXXXXXXXXXXXXXXXXXXXXXXXXXXXXXXXXXXXXXXXXXXXXXXXXXXXXXXXXXXXXXXXXXXXXXXXXXXXXXXXXXXXXXXXXXXXXXXX        X               XXXXXXXXXXXXXXXXXXXXXXXXXXX";
"XXXXXXXXXXXXXXXXXX.XXXXXXXXXXXXXXXXXXXXXXXXXXXXXXXXXXXXXXXXXXXXXXXXXXXXXXXXXXXXXXXXXXXXXXXXXXXXXXXXXXXXXXXXXXXXXXXXXXXXXXXXXXXXXXXXXXXXXXXXXXXXXXXXXXXXXXXXXXXXXXXXXXXXXXXXXXXXXXXXXXXXXXXXXXXXXXXXXXXXXXXXXXXXXXXXXXX                    X XXXXXXXXXXXXXXXXXXXXXXXXXXXX";
"XXXXXXXXXXXXXXXX..XXXXXXXXXXXXXXXXXXXXXXXXXXXXXXXXXXXXXXXXXXXXXXXXXXXXXXXXXXXXXXXXXXXXXXXXXXXXXXXXXXXXXXXXXXXXXXXXXXXXXXXXXXXXXXXXXXXXXXXXXXXXXXXXXXXXXXXXXXXXXXXXXXXXXXXXXXXXXXXXXXXXXXXXXXXXXXXXXXXXXXXXXXXXXXXXXXX     X                 XXXXXXXXXXXXXXXXXXXXXXXXXXXX";
"XXXXXXXXXXXXXXXX.XXXXXXXXXXXXXXXXXXXXXXXXXXXXXXXXXXXXXXXXXXXXXXXXXXXXXXXXXXXXXXXXXXXXXXXXXXXXXXXXXXXXXXXXXXXXXXXXXXXXXXXXXXXXXXXXXXXXXXXXXXXXXXXXXXXXXXXXXXXXXXXXXXXXXXXXXXXXXXXXXXXXXXXXXXXXXXXXXXXXXXXXXXXXXXXXXXXXX   XX                XXXXXXXXXXXXXXXXXXXXXXXXXXXXX";
"XXXXXXXXXXXXXXX.XXXXXXXXXXXXXXXXXXXXXXXXXXXXXXXXXXXXXXXXXXXXXXXXXXXXXXXXXXXXXXXXXXXXXXXXXXXXXXXXXXXXXXXXXXXXXXXXXXXXXXXXXXXXXXXXXXXXXXXXXXXXXXXXXXXXXXXXXXXXXXXXXXXXXXXXXXXXXXXXXXXXXXXXXXXXXXXXXXXXXXXXXXXXXXXXXXXXXX           X         .XXXXXXXXXXXXXXXXXXXXXXXXXXXX";
"XXXXXXXXXXXXXX.XXXXXXXXXXXXXXXXXXXXXXXXXXXXXXXXXXXXXXXXXXXXXXXXXXXXXXXXXXXXXXXXXXXXXXXXXXXXXXXXXXXXXXXXXXXXXXXXXXXXXXXXXXXXXXXXXXXXXXXXXXXXXXXXXXXXXXXXXXXXXXXXXXXXXXXXXXXXXXXXXXXXXXXXXXXXXXXXXXXXXXXXXXXXXXXXXXXXXXX                X   X.XXXXXXXXXXXXXXXXXXXXXXXXXXXX";
"XXXXXXXXXXXXXX.XXXXXXXXXXXXXXXXXXXXXXXXXXXXXXXXXXXXXXXXXXXXXXXXXXXXXXXXXXXXXXXXXXXXXXXXXXXXXXXXXXXXXXXXXXXXXXXXXXXXXXXXXXXXXXXXXXXXXXXXXXXXXXXXXXXXXXXXXXXXXXXXXXXXXXXXXXXXXXXXXXXXXXXXXXXXXXXXXXXXXXXXXXXXXXXXXXXXXXXXX                 XXX.XXXX    XX XXXXXXXXXXXXXXXX";
"XXXXXXXXXXXXXX.XXXXXXXXXXXXXXXXXXXXXXXXXXXXXXXXXXXXXXXXXXXXXXXXXXXXXXXXXXXXXXXXXXXXXXXXXXXXXXXXXXXXXXXXXXXXXXXXXXXXXXXXXXXXXXXXXXXXXXXXXXXXXXXXXXXXXXXXXXXXXXXXXXXXXXXXXXXXXXXXXXXXXXXXXXXXXXXXXXXXXXXXXXXXXXXXXXXXXXXXXXX              XXXX.XXXX X        XXXXXXXXXXXXX";
"XXXXXXXXXXXXXX.XXXXXXXXXXXXXXXXXXXXXXXXXXXXXXXXXXXXXXXXXXXXXXXXXXXXXXXXXXXXXXXXXXXXXXXXXXXXXXXXXXXXXXXXXXXXXXXXXXXXXXXXXXXXXXXXXXXXXXXXXXXXXXXXXXXXXXXXXXXXXXXXXXXXXXXXXXXXXXXXXXXXXXXXXXXXXXXXXXXXXXXXXXXXXXXXXXXXXXXXXXX   X         XXXXX.X              XXXXXXXXXXXX";
"XXXXXXXXXXXXXX.XXXXXXXXXXXXXXXXXXXXXXXXXXXXXXXXXXXXXXXXXXXXXXXXXXXXXXXXXXXXXXXXXXXXXXXXXXXXXXXXXXXXXXXXXXXXXXXXXXXXXXXXXXXXXXXXXXXXXXXXXXXXXXXXXXXXXXXXXXXXXXXXXXXXXXXXXXXXXXXXXXXXXXXXXXXXXXXXXXXXXXXXXXXXXXXXXXXXXXXXXXXXX        XXXXXXXX.X               XXXXXXXXXXX";
"XXXXXXXXXXXXXXX.XXX XX    XXXXXXXXXXXXXXXXXXXXXXXXXXXXXXXXXXXXXXXXXXXXXXXXXXXXXXXXXXXXXXXXXXXXXXXXXXXXXXXXXXXXXXXXXXXXXXXXXXXXXXXXXXXXXXXXXXXXXXXXXXXXXXXXXXXXXXXXXXXXXXXXXXXXXXXXXXXXXXXXXXXXXXXXXXXXXXXXXXXXXXXXXXXXXXXXXXXXXX XXXXXXXXXX.X X              XXXXXXXXXXX";
"XXXXXXXXXXXXXXXX. X          XXXXXXXXXXXXXXXXXXXXXXXXXXXXXXXXXXXXXXXXXXXXXXXXXXXXXXXXXXXXXXXXXXXXXXXXXXXXXXXXXXXXXXXXXXXXXXXXXXXXXXXXXXXXXXXXXXXXXXXXXXXXXXXXXXXXXXXXXXXXXXXXXXXXXXXXXXXXXXXXXXXXXXXXXXXXXXXXXXXXXXXXXXXXXXXXXXXXXXXXXXXXX.XXX                XXXXXXXXXX";
"XXXXXXXXXXXXXXXX              XXXXXXXXXXXXXXXXXXXXXXXXXXXXXXXXXXXXXXXXXXXXXXXXXXXXXXXXXXXXXXXXXXXXXXXXXXXXXXXXXXXXXXXXXXXXXXXXXXXXXXXXXXXXXXXXXXXXXXXXXXXXXXXXXXXXXXXXXXXXXXXXXXXXXXXXXXXXXXXXXXXXXXXXXXXXXXXXXXXXXXXXXXXXXXXXXXXXXXXXXXXX.XX                 XXXXXXXXXX";
"XXXXXXXXXXXXXXXX             XXXXXXXXXXXXXXXXXXXXXXXXXXXXXXXXXXXXXXXXXXXXXXXXXXXXXXXXXXXXXXXXXXXXXXXXXXXXXXXXXXXXXXXXXXXXXXXXXXXXXXXXXXXXXXXXXXXXXXXXXXXXXXXXXXXXXXXXXXXXXXXXXXXXXXXXXXXXXXXXXXXXXXXXXXXXXXXXXXXXXXXXXXXXXXXXXXXXXXXXXXX..XX                  XXXXXXXXXX";
"XXXXXXXXXXXXXXX               XXXXXXXXXXXXXXXXXXXXXXXXXXXXXXXXXXXXXXXXXXXXXXXXXXXXXXXXXXXXXXXXXXXXXXXXXXXXXXXXXXXXXXXXXXXXXXXXXXXXXXXXXXXXXXXXXXXXXXXXXXXXXXXXXXXXXXXXXXXXXXXXXXXXXXXXXXXXXXXXXXXXXXXXXXXXXXXXXXXXXXXXXXXXXXXXXXXXXXXXX.XXXXX                 XXXXXXXXXX";
"XXXXXXXXXXXXXX                 XXXXXXXXXXXXXXXXXXXXXXXXXXXXXXXXXXXXXXXXXXXXXXXXXXXXXXXXXXXXXXXXXXXXXXXXXXXXXXXXXXXXXXXXXXXXXXXXXXXXXXXXXXXXXXXXXXXXXXXXXXXXXXXXXXXXXXXXXXXXXXXXXXXXXXXXXXXXXXXXXXXXXXXXXXXXXXXXXXXXXXXXXXXXXXXXXXXXXX..XXXXXX                 XXXXXXXXXX";
"XXXXXXXXXXXXXXX                XXXXXXXXXXXXXXXXXXXXXXXXXXXXXXXXXXXXXXXXXXXXXXXXXXXXXXXXXXXXXXXXXXXXXXXXXXXXXXXXXXXXXXXXXXXXXXXXXXXXXXXXXXXXXXXXXXXXXXXXXXXXXXXXXXXXXXXXXXXXXXXXXXXXXXXXXXXXXXXXXXXXXXXXXXXXXXXXXXXXXXXXXXXXXXX XXXX..XXXXXXXX                 XXXXXXXXXX";
"XXXXXXXXXXXXXX                 XXXXXXXXXXXXXXXXXXXXXXXXXXXXXXXXXXXXXXXXXXXXXXXXXXXXXXXXXXXXXXXXXXXXXXXXXXXXXXXXXXXXXXXXXXXXXXXXXXXXXXXXXXXXXXXXXXXXXXXXXXXXXXXXXXXXXXXXXXXXXXXXXXXXXXXXXXXXXXXXXXXXXXXXXXXXXXXXXXXXXXXXXXXX       .XXXXXXXXXX                 XXXXXXXXXX";
"XXXXXXXXXXXXX                   XXXXXXXXXXXXXXX XXXXXXXXXXXXXXXXXXXXXXXXXXXXXXXXXXXXXXXXXXXXXXXXXXXXXXXXXXXXXXXXXXXXXXXXXXXXXXXXXXXXXXXXXXXXXXXXXXXXXXXXXXXXXXXXXXXXXXXXXXXXXXXXXXXXXXXXXXXXXXXXXXXXXXXXXXXXXXXXXXXXXXXXX           XXXXXXXXX                XXXXXXXXXXX";
"XXXXXXXXXXXXX                   XXXXXXXXXXX  X     XXXXXXXXXXXXXXXXXXXXXXXXXXXXXXXXXXXXXXXXXXXXXXXXXXXXXXXXXXXXXXXXXXXXXXXXXXXXXXXXXXXXXXXXXXXXXXXXXXXXXXXXXXXXXXXXXXXXXXXXXXXXXXXXXXXXXXXXXXXXXXXXXXXXXXXXXXXXXXXXXXXXX             XXXXXXXXX                XXXXXXXXXX";
"XXXXXXXXXXXX                     .XXXXXXX  X X    X  XXXXXXXXXXXXXXXXXXXXXXXXXXXXXXXXXXXXXXXXXXXXXXXXXXXXXXXXXXXXXXXXXXXXXXXXXXXXXXXXXXXXXXXXXXXXXXXXXXXXXXXXXXXXXXXXXXXXXXXXXXXXXXXXXXXXXXXX X XX XX X XXXXXXXXXXXXXXXX             XXXXXXXX                XXXXXXXXXXX";
"XXXXXXXXXXXX                     X...XXX            X XXXXXXXXXXXXXXXXXXXXXXXXXXXXXXXXXXXXXXXXXXXXXXXXXXXXXXXXXXXXXXXXXXXXXXXXXXXXXXXXXXXXXXXXXXXXXXXXXXXXXXXXXXXXXXXXXXXXXXXXXXXXXXXXXXXXXX   X        XXXXXXXXXXXXXX.         X     XXXXXXX                XXXXXXXXXXX";
"XXXXXXXXXXX                      XXXX..      X        XXXXXXXXXXXXXXXXXXXXXXXXXXXXXXXXXXXXXXXXXXXXXXXXXXXXXXXXXXXXXXXXXXXXXXXXXXXXXXXXXXXXXXXXXXXXXXXXXXXXXXXXXXXXXXXXXXXXXXXXXXXXXXXXXXX          X  X      XXXXX....X                XXXXXX                 XXXXXXXXXX";
"XXXXXXXXXX                        XXX                X XXXXXXXXXXXXXXXXXXXXXXXXXXXXXXXXXXXXXXXXXXXXXXXXXXXXXXXXXXXXXXXXXXXXXXXXXXXXXXXXXXXXXXXXXXXXXXXXXXXXXXXXXXXXXXXXXXXXXXXXXXXXXXXXX                     X ...XXXXX                XXXXXX                 XXXXXXXXXX";
"XXXXXXXXX                         XX                 X XXXXX XXXXXXXXXXXXXXXXXXXXXXXXXXXXXXXXXXXXXXXXXXXXXXXXXXXXXXXXXXXXXXXXXXXXXXXXXXXXXXXXXXXXXXXXXXXXXXXXXXXXXXXXXXXXXXXXXXXXXXXX                           XXXXXX                  XXXXX                 XXXXXXXXXX";
"XXXXXXXXX                         XX                  .XX  XX     X XXXXXXXXXXXXXXXXXXXXXXXXXXXXXXXXXXXXXXXXXXXXXXXXXXXXXXXXXXXXXXXXXXXXXXXXXXXXXXXXXXXXXXXXXXXXXXXXXXXXXXXXXXXXXX                    .       X XXXXXXX                 XXXXX                 XXXXXXXXXX";
"XXXXXXXXX    X                  X                      .   ..X    X  X XXXXXXXXXXXXXXXXXXXXXXXXXXXXXXXXXXXXXXXXXXXXXXXXXXXXXXXXXXXXXXXXXXXXXXXXXXXXXXXXXXXXXXXXXXXXXXXXXXXXXXXX                                X   XXXX                 XXXX                   XXXXXXXXX";
"XXXXXXXXX                                                            X    XXXXXXXXXXXXXXXXXXXXXXXXXXXXXXXXXXXXXXXXXXXXXXXXXXXXXXXXXXXXXXXXXXXXXXXXXXXXXXXXXXXXXXXXXXXXXXXXXXX                                    X XXXX                  XXX                  X XXXXXXXX";
"XXXXXXX                                                     XX              .XXXXXXXXXXXXXXXXXXXXXXXXXXXXXXXXXXXXXXXXXXXXXXXXXXXXXXXXXXXXXXXXXXXXXXXXXXXXXXXXXX XXXXXXXXXXXX                                        XXX                  XXXX                  XXXXXXXXX";
"XXXXXXX                                                   X            X     ..........XXXXXXXXXXXXXXXXXXXXXXXXXXXXXXXXXXXXXXXXXXXXXXXXXXXXXXXXXXXXXXXXXXXXXXXX   XX......... .                                      XXX                  XXX                  XXXXXXXXX";
"XXXXXX                                                                     X  XXXXXXXXX..... ...........XXXXXXXXXXXXXXXXXXXXXXXXXXXXXXXXXXXXXXXXXXX........   ......XXXXXXX                                          XXXX                 XXX                  XXXXXXXXX";
"XXXX X                                                                         XXXXXXXXXX      XXXXXXXXX...........................................X XXXX X XXXX XXXXXXXXXX  X                                      X XXX X                X                   XXXXXXXXX";
"XXX                                                        X                    XXXXXXX         X XXXXXXXXXXXXXXXXXXXXXXXXXXXXXXXXXXXXXXXXXXXXXX   X          XX XX XXXXXXX                                           XXXX                  X                 XXXXXXXXXX";
"XXX                                                                                XXX   X X     X XXXXXXXXXXXXXX  X  XXXXXXXXXXXXXXXXXXXX X                     XXXXXXXXX                                            XXXX                   X                   XXXXXXX";
"XX  X X            X                                                               XXX             XXXXXXXXXXXXX X     X  XXXXXXXXXXXXXXXX                     X  X XXXXXXX X                                         XXXX                                      XXXXXXXX";
"XX X                                                                                                XXXXXXXXXX            XXXXXXXXXXXXXX                             X XXXX                       X                    XXXX                                     XXXXXXXX";
"XX                                                                                 X                 XXXXXXXXX             XXXXXXXXXXXXX                             XXXXXXXX                   X XXX X                XXXX                                      XXXXXXX";
"XX                   X                                                              X            X  XXXXXXXXX              XXXXXXXXXX                                  XXXXX                  XXXXXXXX                  XXXX                                   X XXXXXXX";
"XX                 XXX                                                             X                 XXXXXXXX               XXXXXXXX            X                    X XX XXX                 XXXXXXXXX                XXXXXX                                    XXXXXXX";
"X                    X                                                                               XXXXXXX                  XXXXX X                                   XXXXX                 XXXXXXXXXX               XXXXXX                                     XXXXXX";
"X                  XXXX                                                                              XXXXXXX                  XXXXX                                X  XXXX XXX               XXXXXXXXXX                XXXXXXXX                                  XXXXXXX";
"XX                  XXX                         X                                X                    XXXXX                  XXXXX                                       X XXX   X            XXXXXXX                   XXXXXX                                    XXXXXX";
"                   XXXXXX                                                      X                      XXXXX                  XXXX X                                         XX                 XXXX                    XXXXXXXXX                                 XXXXXXX";
"                  XXXXXX                                        X XX          X                        XXX                   XXXXX                                   X  X  X X   X           X XXX  X                   XXXXXXXX                                 XXXXXXX";
"                 XXXXXXXXXXXX                                    X XX X          X                      XX                  X X                                          X XXXX               XXXX                     XXXXXXXXXX                                XXXXXXX";
"                  XXXXXXXXXX                                      XXXXX X                                                  X   X                                         X  XXXX                XX                     XXXXXXXXXX                                XXXXXXX";
"                 XXXXXXXXXXXXXX X                                 XXXXXXX   X X  X                        X                  XXX                                          XXXXX X          X   XX                      XXXXXXXXXXX                               XXXXXXX";
"                XXXXXXXXXXXXXXXX                     X           XXXXXXXXXX     X X                                           X X                                         XXXXXXX  X         X                        XXXXXXXXXXXXX                              XXXXXXX";
"              XXXXXXXXXXXXXXXXXX                                 XXXXXXXXXXXXXXXXXXX                                       X  XX                                          XXXXXXX                                    XXXXXXXXXXXXXXX                             XXXXXXX";
"               XXXXXXXXXXXXXXXX X                               X XXXXXXXXXXXXXXXXXX                                          X                 XXX                         XXXXX                                     XXXXXXXXXXXXXXX                             XXXXXX";
"             XXXXXXXXXXXXXXXXX                                     XXXXXXXXXXXXXXXXX                                         X                 XXXX                       XXXXXXX                                    XXXXXXXXXXXXXXXXXX                           XXXXXX";
"              XXXXXXXXXXXXXXXX                 X                   XXXXXXXXXXXXXXXX   X                                      XX                XXXX    X                   XXXXXX                                    XXXXXXXXXXXXXXXXXXX   X  X                  XXXXXXX";
"            XXXXXXXXXXXXXXXXX  X              X X                    XXXXXXXXXXXXXX                                          XX                XXXXXX                        XXXX                                     XXXXXXXXXXXXXXXXXXX     X  X                XXXXXX";
"           X XXXXXXXXXXXXXXXX                                          X  XXXXXXXXX                                          XX               XXXXXXXX                       XXXXX                                     XXXXXXXXXXXXXXXXXXXXXX XXXXX               XXXXXX";
"            XXXXXXXXXXXXXXXXX               X   X                          XXXXXXX                                            X                XXXXXXXX                      XXXXX                                       XXXXXXXXXXXXXXXXXXXXXXXX X                XXXXX";
"          X XXXXXXXXXXXXXXXXX             X  X                            X XXXXXXX                                          XX               XXXXXXXXX                      XXXXXXX           X                          XXXXXXXXXXXXXXXXXXXXXXXX                XXXXXX";
"         X XXXXXXXXXXXXXXXXX                 X  X                            XXXXX                                          XXX                XXXXXXXXX                      XXXXXX  X                                  X XXXXXXXXXXXXXXXXXXXXXX                 XXXXXX";
"          XXXXXXXXXXXXXXXXXX                XX                                XXXX              X                            X                 XXXXXXXXX                      XXXXX                                          XXXXXXXXXXXXXXXXXXXX                  XXXXX";
"         XXXXXXXXXXXXXXXXXX            X    X                                 XXXXX         XX                              XXX                XXXXXXXXXXXX                  X XXXX X                                         XXXXXXXXXXXXXXXXXXXX                XXXXXX";
"        X XXXXXXXXXXXXXXXX                XXX       X                         XXX X                                          XXX               XXXXXXXXXXX                   X XXXXX     X       X   X                       X XXXXXXXXXXXXXXXXXXXX               XXXXXX";
"         XXXXXXXXXXXXXXXXX                 X                                   X                           XX          X   X XX                XXXXXXXXXXXXXX                 XXXXXX                XX                           XXXXXXXXXXXXXXXXX                XXXXXX";
"       X XXXXXXXXXXXXXXXXX      X          X         X                         XXXX  X          XX       X                  XXX                 XXXXXXXXXXXXXX                XXXXXXX                 XX                          XXXXXXXXXXXXXXXX                XXXXXX";
"        XXXXXXXXXXXXXXXXXXX   X            X                                  X                 XXX    X                     XXX                XXXXXXXXXXXXXX                XXXXXXXX                XXX                             XXXXXXXXXXXXX               XXXXXX";
"       XXXXXXXXXXXXXXXXXX                 X                                    X                XXXXXX      XX               XXX                XXXXXXXXXXXXXX                XXXXXXX                 XXXX                              XXXXXXXXXXX               XXXXXX";
"   X   XXXXXXXXXXXXXXXXX                  X                                                     XXXXXXXX  XXX                XXXX               XXXXXXXXXXXXXX                XXXXXXXXX                XXXX                                XXXXXXXX                XXXXX";
" X  XXXXXXXXXXXXXXXXXXXX X               XX                X                 X               X XXXXXXXXXXXXXXX               XXXX                XXXXXXXXXXXXX                XXXXXXXXX            X  XXXXXX  X                              XXXXXX                XXXXX";
" XXXXXXXXXXXXXXXXXXXXXXXX                XX                XX                XXX               XXXXXXXXXXXXXXXX    X         XXX                 XXXXXXXXXXXXXX                XXXXXXXX                XXXXXXX                               X XXX                 XXXXX";
"    XXXXXXXXXXXXXXXXXXXX   X            XX                 XXXXX             XX                XXXXXXXXXXXXXXX                XX                 XXXXXXXXXXXXX                 XXXXXXXXX                XXXXXXX                      X         XXX               XXXXXXX";
"   XXXXXXXXXXXXXXXXXXXXXXXXX      X   X XX                 XXXXXXX        X XXX                XXXXXXXXXXXXXX                 XXX                XXXXXXXXXXXXX                 XXXXXXXX                 XXXXXXXX                                XX                XXXXXX";
"   XXXXXXXXXXXXXXXXXXXXX X         X    X                XXXXXXXXXXXXX  X XXXXX               XXXXXXXXXXXXXXXXX              X XX                 XXXXXXXXXXX                 XXXXXXXXXX                XXXXXXXXXXX                             XX               XXXXXXX";
"XXXXXXXXXXXXXXXXXXXXXXXXXX   X         XX                 XXXXXXXXXXXXX XXXXXXX  X             XXXXXXXXXXXXXXX                XXX                    XXXXXX                  XXXXXXXXXXX                XXXXXXXXXXX      X                      XX                 XXXXX";
"XXXXXXXXXXXXXXXXXXXXXXXXXX  X   X  XX XXX                XXXXXXXXXXXXXXXXXXXXXX               XXXXXXXXXXXXXXXXXX             X XXX                X  X X   X                 XXXXXXXXXXX                XXXXXXXXXXXX                           X X               XXXXXXX";
"XXXXXXXXXXXXXXXXXXXXXXXXXX XX XXX X  XXXX                XXXXXXXXXXXXXXXXXXXXX               XXXXXXXXXXXXXXXXXX                XXX                                           XXXXXXXXXXX                   XXXXXXXXXXXXX                        XX                XXXXXX";
"XXXXXXXXXXXXXXXXXXXXXXXXXXXXX  XX  XXXXX                XXXXXXXXXXXXXXXXXXXXX                XXXXXXXXXXXXXXXXX                 XXXX                                         XXXXXXXXXXXXXX                X XXXXXXXXXXX                         XX                XXXXXX";
"XXXXXXXXXXXXXXXXXXXXXXXXXXXXXXXX XXXXXXX                 XXXXXXXXXXXXXXXXXXXXX           X   XXXXXXXXXXXXXXXXXX                XXXX                                          XXXXXXXXXXXX                  XXXXXXXXXXXXXXX X                    XX                XXXXXX";
"XXXXXXXXXXXXXXXXXXXXXXXXXXXXXXXXXXXXXXX                     XXXXXXXXXXXXXXXXXXX               XXXXXXXXXXXXXXXXX                XXXXX                                        XXXXXXXXXXXXXX                  XXXXXXXXXXXXXXX                 X  XXX                XXXXXX";
"XXXXXXXXXXXXXXXXXXXXXXXXXXXXXXXXXXXXXXX                  X    XXXXXXXXXXXXXXX                 XXXXXXXXXXXXXXXXXX                XXXX                                       XXXXXXXXXXXXXX                  X XXXXXXXXXXXXXXX XX       X        XX X               XXXXXX";
"XXXXXXXXXXXXXXXXXXXXXXXXXXXXXXXXXXXXXXXX                           XXXXXXXXXX                XXXXXXXXXXXXXXXXXXX                XXXX                                       XXXXXXXXXXXXXXX                   XXXXXXXXXXXXXXXXXX               XXXX                XXXXXX";
"XXXXXXXXXXXXXXXXXXXXXXXXXXXXXXXXXXXXXXXX                          X X XXXXXXX   X            XXXXXXXXXXXXXXXXXXX               XXXXXX X                                   XXXXXXXXXXXXXXXXX                   XXXXXXXXXXXXXXXXXXXXXX   X   XXXXXXX               XXXXXXX";
"XXXXXXXXXXXXXXXXXXXXXXXXXXXXXXXXXXXXXXXX                            XX XXXXXX                XXXXXXXXXXXXXXXXXXXX               XXXXXX                                   XXXXXXXXXXXXXXXXXXX                 XXXXXXXXXXXXXXXXXXXXXXXX   XXXXXXXXXX                 XXXXX";
"XXXXXXXXXXXXXXXXXXXXXXXXXXXXXXXXXXXXXXXXX                       X      XXXXXX                 XXXXXXXXXXXXXXXXXX                 XXXXX                                  XXXXXXXXXXXXXXXXXXX            X     XXXXXXXXXXXXXXXXXXXXXXXXXXXXXXXXXXXX                 XXXXXX";
"XXXXXXXXXXXXXXXXXXXXXXXXXXXXXXXXXXXXXXXXX  X                           XXXXXXX X              XXXXXXXXXXXXXXXXXX                 XXXXXX                                XXXXXXXXXXXXXXXXXXXXX                 XXXXXXXXXXXXXXXXXXXXXXXXXXXXXXXXXXXX                 XXXXXX";
"XXXXXXXXXXXXXXXXXXXXXXXXXXXXXXXXXXXXXXXXX X                          X  XXXXX X  X    X      XXXXXXXXXXXXXXXXXXXX               XXXXXXXXXX                             XXXXXXXXXXXXXXXXXXXXX                  XXXXXXXXXXXXXXXXXXXXXXXXXXXXXXXXXX                  XXXXXX";
"XXXXXXXXXXXXXXXXXXXXXXXXXXXXXXXXXXXXXXXXXXXX           X              X X XXX X              XXXXXXXXXXXXXXXXXXX                XXXXXXXXXX                           XXXXXXXXXXXXXXXXXXXXXXX                 XXXXXXXXXXXXXXXXXXXXXXXXXXXXXXXXXX                  XXXXXXX";
"XXXXXXXXXXXXXXXXXXXXXXXXXXXXXXXXXXXXXXXXXXXXX                            XXXXX      XX      XXXXXXXXXXXXXXXXXXXXXX              XXXXXXXXXXXXX                       XXXXXXXXXXXXXXXXXXXXXXXXXX               XXXXXXXXXXXXXXXXXXXXXXXXXXXXXXXX  X                 XXXXXXX";
"XXXXXXXXXXXXXXXXXXXXXXXXXXXXXXXXXXXXXXXXXXXXX                      X     XXXXX     X      X XXXXXXXXXXXXXXXXXXXXX               XXXXXXXXXXXXXXXX   X   XX       XXXXXXXXXXXXXXXXXXXXXXXXXXXXXX  X            XXXXXXXXXXXXXXXXXXXXXXXXXXXXXXXXX                   XXXXXXX";
"XXXXXXXXXXXXXXXXXXXXXXXXXXXXXXXXXXXXXXXXXXXXXXX X                   X    XXXXXX       XX   XXXXXXXXXXXXXXXXXXXXXXX              XXXXXXXXXXXXXXXXX      X   X XXXXXXXXXXXXXXXXXXXXXXXXXXXXXXXXXX         X   XXXXXXXXXXXXXXXXXXXXXXXXXXXXXXX                      XXXXXXX";
"XXXXXXXXXXXXXXXXXXXXXXXXXXXXXXXXXXXXXXXXXXXXXXXX X      X             X   XXXXX   X  X     XXXXXXXXXXXXXXXXXXXXXX              XXXXXXXXXXXXXXXXXXXXXXXXX XXXXXXXXXXXXXXXXXXXXXXXXXXXXXXXXXXXXXX     X  XX X XXXXXXXXXXXXXXXXXXXXXXXXXXXXX                        XXXXXXX";
"XXXXXXXXXXXXXXXXXXXXXXXXXXXXXXXXXXXXXXXXXXXXXXXXX   X                    XXXXXXXXXXXX  XX   XXXXXXXXXXXXXXXXXXXXXX             XXXXXXXXXXXXXXXXXXXXXXXXXXXXXXXXXXXXXXXXXXXXXXXXXXXXXXXXXXXXXXXXX    X     XXXXXXXXXXXXXXXXXXXXXXXXX XX                           XXXXXXX";
"XXXXXXXXXXXXXXXXXXXXXXXXXXXXXXXXXXXXXXXXXXXXXXXXXXX X             X      XXXXXXXXX X   X   XXXXXXXXXXXXXXXXXXXXXXX       X  X XXXXXXXXXXXXXXXXXXXXXXXXXXXXXXXXXXXXXXXXXXXXXXXXXXXXXXXXXXXXXXXXXXXXXX X   XXXXXXXXXXXXXXXXXXXXXXX XX                             XXXXXXXX";
"XXXXXXXXXXXXXXXXXXXXXXXXXXXXXXXXXXXXXXXXXXXXXXXXXXXXXXXX X           X XXXXXXXXXXX XX XXXXXXXXXXXXXXXXXXXXXXXXXXXXXX       X  XXXXXXXXXXXXXXXXXXXXXXXXXXXXXXXXXXXXXXXXXXXXXXXXXXXXXXXXXXXXXXXXXXXXXXX XXXXXXXXXXXXXXXXXXXXXXX   X                               XXXXXXXX";
"XXXXXXXXXXXXXXXXXXXXXXXXXXXXXXXXXXXXXXXXXXXXXXXXXXXXXXXXX    X   X     X XXXXXXXXXXXX XXXXXXXXXXXXXXXXXXXXXXXXXXXXXXXXX   XXXXXXXXXXXXXXXXXXXXXXXXXXXXXXXXXXXXXXXXXXXXXXXXXXXXXXXXXXXXXXXXXXXXXXXXXXXXXXXXXXXXXXXXXXXXXXXX X                                    XXXXXXXX";
"XXXXXXXXXXXXXXXXXXXXXXXXXXXXXXXXXXXXXXXXXXXXXXXXXXXXXXXXXXXX         X XXXXXXXXXXXXXXXXXXXXXXXXXXXXXXXXXXXXXXXXXXXXXXXXXXXXXXXXXXXXXXXXXXXXXXXXXXXXXXXXXXXXXXXXXXXXXXXXXXXXXXXXXXXXXXXXXXXXXXXXXXXXXXXXXXXXXXXXXXXXXXXXXX   X                                  XXXXXXXXX";
"XXXXXXXXXXXXXXXXXXXXXXXXXXXXXXXXXXXXXXXXXXXXXXXXXXXXXXXXXXXXXX   X XXXXXXXXXXXXXXXXXXXXXXXXXXXXXXXXXXXXXXXXXXXXXXXXXXXXXXXXXXXXXXXXXXXXXXXXXXXXXXXXXXXXXXXXXXXXXXXXXXXXXXXXXXXXXXXXXXXXXXXXXXXXXXXXXXXXXXXXXXXXXXXXX XXX                                      XXXXXXXXXX";
"XXXXXXXXXXXXXXXXXXXXXXXXXXXXXXXXXXXXXXXXXXXXXXXXXXXXXXXXXXXXXXXXX XXXXXXXXXXXXXXXXXXXXXXXXXXXXXXXXXXXXXXXXXXXXXXXXXXXXXXXXXXXXXXXXXXXXXXXXXXXXXXXXXXXXXXXXXXXXXXXXXXXXXXXXXXXXXXXXXXXXXXXXXXXXXXXXXXXXXXXXXXXX      X                                        XXXXXXXXXXX";
"XXXXXXXXXXXXXXXXXXXXXXXXXXXXXXXXXXXXXXXXXXXXXXXXXXXXXXXXXXXXXXXXXXXXXXXXXXXXXXXXXXXXXXXXXXXXXXXXXXXXXXXXXXXXXXXXXXXXXXXXXXXXXXXXXXXXXXXXXXXXXXXXXXXXXXXXXXXXXXXXXXXXXXXXXXXXXXXXXXXXXXXXXXXXXXXXXXXXXXXX                                                    XXXXXXXXXXXX";
"XXXXXXXXXXXXXXXXXXXXXXXXXXXXXXXXXXXXXXXXXXXXXXXXXXXXXXXXXXXXXXXXXXXXXXXXXXXXXXXXXXXXXXXXXXXXXXXXXXXXXXXXXXXXXXXXXXXXXXXXXXXXXXXXXXXXXXXXXXXXXXXXXXXXXXXXXXXXXXXXXXXXXXXXXXXXXXXXXXXXXXXXXXXXXXXXXXXXXX X                                                X XXXXXXXXXXXXXX";
"XXXXXXXXXXXXXXXXXXXXXXXXXXXXXXXXXXXXXXXXXXXXXXXXXXXXXXXXXXXXXXXXXXXXXXXXXXXXXXXXXXXXXXXXXXXXXXXXXXXXXXXXXXXXXXXXXXXXXXXXXXXXXXXXXXXXXXXXXXXXXXXXXXXXXXXXXXXXXXXXXXXXXXXXXXXXXXXXXXXXXXXXXXXXXXXXXXXXX X                                                  XXXXXXXXXXXXXXX";
"XXXXXXXXXXXXXXXXXXXXXXXXXXXXXXXXXXXXXXXXXXXXXXXXXXXXXXXXXXXXXXXXXXXXXXXXXXXXXXXXXXXXXXXXXXXXXXXXXXXXXXXXXXXXXXXXXXXXXXXXXXXXXXXXXXXXXXXXXXXXXXXXXXXXXXXXXXXXXXXXXXXXXXXXXXXXXXXXXXXXXXXXXXXXXXXXXXXXXX  X                                          X   XXXXXXXXXXXXXXXXX";
"XXXXXXXXXXXXXXXXXXXXXXXXXXXXXXXXXXXXXXXXXXXXXXXXXXXXXXXXXXXXXXXXXXXXXXXXXXXXXXXXXXXXXXXXXXXXXXXXXXXXXXXXXXXXXXXXXXXXXXXXXXXXXXXXXXXXXXXXXXXXXXXXXXXXXXXXXXXXXXXXXXXXXXXXXXXXXXXXXXXXXXXXXXXXXXXXXXXX                                                XXXXXXXXXXXXXXXXXXXX";
"XXXXXXXXXXXXXXXXXXXXXXXXXXXXXXXXXXXXXXXXXXXXXXXXXXXXXXXXXXXXXXXXXXXXXXXXXXXXXXXXXXXXXXXXXXXXXXXXXXXXXXXXXXXXXXXXXXXXXXXXXXXXXXXXXXXXXXXXXXXXXXXXXXXXXXXXXXXXXXXXXXXXXXXXXXXXXXXXXXXXXXXXXXXXXXXXXXXX                                              X XXXXXXXXXXXXXXXXXXXX";
"XXXXXXXXXXXXXXXXXXXXXXXXXXXXXXXXXXXXXXXXXXXXXXXXXXXXXXXXXXXXXXXXXXXXXXXXXXXXXXXXXXXXXXXXXXXXXXXXXXXXXXXXXXXXXXXXXXXXXXXXXXXXXXXXXXXXXXXXXXXXXXXXXXXXXXXXXXXXXXXXXXXXXXXXXXXXXXXXXXXXXXXXXXXXXXXXXXXXX                                            XXXXXXXXXXXXXXXXXXXXXXX";
"XXXXXXXXXXXXXXXXXXXXXXXXXXXXXXXXXXXXXXXXXXXXXXXXXXXXXXXXXXXXXXXXXXXXXXXXXXXXXXXXXXXXXXXXXXXXXXXXXXXXXXXXXXXXXXXXXXXXXXXXXXXXXXXXXXXXXXXXXXXXXXXXXXXXXXXXXXXXXXXXXXXXXXXXXXXXXXXXXXXXXXXXXXXXXXXXXXX                                            XXXXXXXXXXXXXXXXXXXXXXXXX";
"XXXXXXXXXXXXXXXXXXXXXXXXXXXXXXXXXXXXXXXXXXXXXXXXXXXXXXXXXXXXXXXXXXXXXXXXXXXXXXXXXXXXXXXXXXXXXXXXXXXXXXXXXXXXXXXXXXXXXXXXXXXXXXXXXXXXXXXXXXXXXXXXXXXXXXXXXXXXXXXXXXXXXXXXXXXXXXXXXXXXXXXXXXXXXXXXXXX                                         XXXXXXXXXXXXXXXXXXXXXXXXXXXX";
"XXXXXXXXXXXXXXXXXXXXXXXXXXXXXXXXXXXXXXXXXXXXXXXXXXXXXXXXXXXXXXXXXXXXXXXXXXXXXXXXXXXXXXXXXXXXXXXXXXXXXXXXXXXXXXXXXXXXXXXXXXXXXXXXXXXXXXXXXXXXXXXXXXXXXXXXXXXXXXXXXXXXXXXXXXXXXXXXXXXXXXXXXXXXXXXXXXXX                                     XXXXXXXXXXXXXXXXXXXXXXXXXXXXXXX";
"XXXXXXXXXXXXXXXXXXXXXXXXXXXXXXXXXXXXXXXXXXXXXXXXXXXXXXXXXXXXXXXXXXXXXXXXXXXXXXXXXXXXXXXXXXXXXXXXXXXXXXXXXXXXXXXXXXXXXXXXXXXXXXXXXXXXXXXXXXXXXXXXXXXXXXXXXXXXXXXXXXXXXXXXXXXXXXXXXXXXXXXXXXXXXXXXXXXX                              XX  X XXXXXXXXXXXXXXXXXXXXXXXXXXXXXXXX";
"XXXXXXXXXXXXXXXXXXXXXXXXXXXXXXXXXXXXXXXXXXXXXXXXXXXXXXXXXXXXXXXXXXXXXXXXXXXXXXXXXXXXXXXXXXXXXXXXXXXXXXXXXXXXXXXXXXXXXXXXXXXXXXXXXXXXXXXXXXXXXXXXXXXXXXXXXXXXXXXXXXXXXXXXXXXXXXXXXXXXXXXXXXXXXXXXXXXXX                                XXXXXXXXXXXXXXXXXXXXXXXXXXXXXXXXXXX";
"XXXXXXXXXXXXXXXXXXXXXXXXXXXXXXXXXXXXXXXXXXXXXXXXXXXXXXXXXXXXXXXXXXXXXXXXXXXXXXXXXXXXXXXXXXXXXXXXXXXXXXXXXXXXXXXXXXXXXXXXXXXXXXXXXXXXXXXXXXXXXXXXXXXXXXXXXXXXXXXXXXXXXXXXXXXXXXXXXXXXXXXXXXXXXXXXXXXXX                          XX XXXXXXXXXXXXXXXXXXXXXXXXXXXXXXXXXXXXXX";
"XXXXXXXXXXXXXXXXXXXXXXXXXXXXXXXXXXXXXXXXXXXXXXXXXXXXXXXXXXXXXXXXXXXXXXXXXXXXXXXXXXXXXXXXXXXXXXXXXXXXXXXXXXXXXXXXXXXXXXXXXXXXXXXXXXXXXXXXXXXXXXXXXXXXXXXXXXXXXXXXXXXXXXXXXXXXXXXXXXXXXXXXXXXXXXXXXXXXXX                        X XXXXXXXXXXXXXXXXXXXXXXXXXXXXXXXXXXXXXXXX";
"XXXXXXXXXXXXXXXXXXXXXXXXXXXXXXXXXXXXXXXXXXXXXXXXXXXXXXXXXXXXXXXXXXXXXXXXXXXXXXXXXXXXXXXXXXXXXXXXXXXXXXXXXXXXXXXXXXXXXXXXXXXXXXXXXXXXXXXXXXXXXXXXXXXXXXXXXXXXXXXXXXXXXXXXXXXXXXXXXXXXXXXXXXXXXXXXXXXXXXXX          X      X  XXXXXXXXXXXXXXXXXXXXXXXXXXXXXXXXXXXXXXXXXXXX";
"XXXXXXXXXXXXXXXXXXXXXXXXXXXXXXXXXXXXXXXXXXXXXXXXXXXXXXXXXXXXXXXXXXXXXXXXXXXXXXXXXXXXXXXXXXXXXXXXXXXXXXXXXXXXXXXXXXXXXXXXXXXXXXXXXXXXXXXXXXXXXXXXXXXXXXXXXXXXXXXXXXXXXXXXXXXXXXXXXXXXXXXXXXXXXXXXXXXXXXXXX X           XXXXXXXXXXXXXXXXXXXXXXXXXXXXXXXXXXXXXXXXXXXXXXXXXX";
"XXXXXXXXXXXXXXXXXXXXXXXXXXXXXXXXXXXXXXXXXXXXXXXXXXXXXXXXXXXXXXXXXXXXXXXXXXXXXXXXXXXXXXXXXXXXXXXXXXXXXXXXXXXXXXXXXXXXXXXXXXXXXXXXXXXXXXXXXXXXXXXXXXXXXXXXXXXXXXXXXXXXXXXXXXXXXXXXXXXXXXXXXXXXXXXXXXXXXXXXXXXX  XXXXX XXXXXXXXXXXXXXXXXXXXXXXXXXXXXXXXXXXXXXXXXXXXXXXXXXXX";
"XXXXXXXXXXXXXXXXXXXXXXXXXXXXXXXXXXXXXXXXXXXXXXXXXXXXXXXXXXXXXXXXXXXXXXXXXXXXXXXXXXXXXXXXXXXXXXXXXXXXXXXXXXXXXXXXXXXXXXXXXXXXXXXXXXXXXXXXXXXXXXXXXXXXXXXXXXXXXXXXXXXXXXXXXXXXXXXXXXXXXXXXXXXXXXXXXXXXXXXXXXXXXXXXXXXXXXXXXXXXXXXXXXXXXXXXXXXXXXXXXXXXXXXXXXXXXXXXXXXXXXXX";
"XXXXXXXXXXXXXXXXXXXXXXXXXXXXXXXXXXXXXXXXXXXXXXXXXXXXXXXXXXXXXXXXXXXXXXXXXXXXXXXXXXXXXXXXXXXXXXXXXXXXXXXXXXXXXXXXXXXXXXXXXXXXXXXXXXXXXXXXXXXXXXXXXXXXXXXXXXXXXXXXXXXXXXXXXXXXXXXXXXXXXXXXXXXXXXXXXXXXXXXXXXXXXXXXXXXXXXXXXXXXXXXXXXXXXXXXXXXXXXXXXXXXXXXXXXXXXXXXXXXXXXXX";
"XXXXXXXXXXXXXXXXXXXXXXXXXXXXXXXXXXXXXXXXXXXXXXXXXXXXXXXXXXXXXXXXXXXXXXXXXXXXXXXXXXXXXXXXXXXXXXXXXXXXXXXXXXXXXXXXXXXXXXXXXXXXXXXXXXXXXXXXXXXXXXXXXXXXXXXXXXXXXXXXXXXXXXXXXXXXXXXXXXXXXXXXXXXXXXXXXXXXXXXXXXXXXXXXXXXXXXXXXXXXXXXXXXXXXXXXXXXXXXXXXXXXXXXXXXXXXXXXXXXXXXXX";
"XXXXXXXXXXXXXXXXXXXXXXXXXXXXXXXXXXXXXXXXXXXXXXXXXXXXXXXXXXXXXXXXXXXXXXXXXXXXXXXXXXXXXXXXXXXXXXXXXXXXXXXXXXXXXXXXXXXXXXXXXXXXXXXXXXXXXXXXXXXXXXXXXXXXXXXXXXXXXXXXXXXXXXXXXXXXXXXXXXXXXXXXXXXXXXXXXXXXXXXXXXXXXXXXXXXXXXXXXXXXXXXXXXXXXXXXXXXXXXXXXXXXXXXXXXXXXXXXXXXXXXXX";
"XXXXXXXXXXXXXXXXXXXXXXXXXXXXXXXXXXXXXXXXXXXXXXXXXXXXXXXXXXXXXXXXXXXXXXXXXXXXXXXXXXXXXXXXXXXXXXXXXXXXXXXXXXXXXXXXXXXXXXXXXXXXXXXXXXXXXXXXXXXXXXXXXXXXXXXXXXXXXXXXXXXXXXXXXXXXXXXXXXXXXXXXXXXXXXXXXXXXXXXXXXXXXXXXXXXXXXXXXXXXXXXXXXXXXXXXXXXXXXXXXXXXXXXXXXXXXXXXXXXXXXXX";
"XXXXXXXXXXXXXXXXXXXXXXXXXXXXXXXXXXXXXXXXXXXXXXXXXXXXXXXXXXXXXXXXXXXXXXXXXXXXXXXXXXXXXXXXXXXXXXXXXXXXXXXXXXXXXXXXXXXXXXXXXXXXXXXXXXXXXXXXXXXXXXXXXXXXXXXXXXXXXXXXXXXXXXXXXXXXXXXXXXXXXXXXXXXXXXXXXXXXXXXXXXXXXXXXXXXXXXXXXXXXXXXXXXXXXXXXXXXXXXXXXXXXXXXXXXXXXXXXXXXXXXXX";
"XXXXXXXXXXXXXXXXXXXXXXXXXXXXXXXXXXXXXXXXXXXXXXXXXXXXXXXXXXXXXXXXXXXXXXXXXXXXXXXXXXXXXXXXXXXXXXXXXXXXXXXXXXXXXXXXXXXXXXXXXXXXXXXXXXXXXXXXXXXXXXXXXXXXXXXXXXXXXXXXXXXXXXXXXXXXXXXXXXXXXXXXXXXXXXXXXXXXXXXXXXXXXXXXXXXXXXXXXXXXXXXXXXXXXXXXXXXXXXXXXXXXXXXXXXXXXXXXXXXXXXXX";
"XXXXXXXXXXXXXXXXXXXXXXXXXXXXXXXXXXXXXXXXXXXXXXXXXXXXXXXXXXXXXXXXXXXXXXXXXXXXXXXXXXXXXXXXXXXXXXXXXXXXXXXXXXXXXXXXXXXXXXXXXXXXXXXXXXXXXXXXXXXXXXXXXXXXXXXXXXXXXXXXXXXXXXXXXXXXXXXXXXXXXXXXXXXXXXXXXXXXXXXXXXXXXXXXXXXXXXXXXXXXXXXXXXXXXXXXXXXXXXXXXXXXXXXXXXXXXXXXXXXXXXXX";
"XXXXXXXXXXXXXXXXXXXXXXXXXXXXXXXXXXXXXXXXXXXXXXXXXXXXXXXXXXXXXXXXXXXXXXXXXXXXXXXXXXXXXXXXXXXXXXXXXXXXXXXXXXXXXXXXXXXXXXXXXXXXXXXXXXXXXXXXXXXXXXXXXXXXXXXXXXXXXXXXXXXXXXXXXXXXXXXXXXXXXXXXXXXXXXXXXXXXXXXXXXXXXXXXXXXXXXXXXXXXXXXXXXXXXXXXXXXXXXXXXXXXXXXXXXXXXXXXXXXXXXXX";
"XXXXXXXXXXXXXXXXXXXXXXXXXXXXXXXXXXXXXXXXXXXXXXXXXXXXXXXXXXXXXXXXXXXXXXXXXXXXXXXXXXXXXXXXXXXXXXXXXXXXXXXXXXXXXXXXXXXXXXXXXXXXXXXXXXXXXXXXXXXXXXXXXXXXXXXXXXXXXXXXXXXXXXXXXXXXXXXXXXXXXXXXXXXXXXXXXXXXXXXXXXXXXXXXXXXXXXXXXXXXXXXXXXXXXXXXXXXXXXXXXXXXXXXXXXXXXXXXXXXXXXXX";
"XXXXXXXXXXXXXXXXXXXXXXXXXXXXXXXXXXXXXXXXXXXXXXXXXXXXXXXXXXXXXXXXXXXXXXXXXXXXXXXXXXXXXXXXXXXXXXXXXXXXXXXXXXXXXXXXXXXXXXXXXXXXXXXXXXXXXXXXXXXXXXXXXXXXXXXXXXXXXXXXXXXXXXXXXXXXXXXXXXXXXXXXXXXXXXXXXXXXXXXXXXXXXXXXXXXXXXXXXXXXXXXXXXXXXXXXXXXXXXXXXXXXXXXXXXXXXXXXXXXXXXXX"
]%string.

(** proj/src/pixmap.h:2068-2159 [mouse_cursor] *)
Definition mouse_cursor : list string := [
"50 42 45 1 ";
"  c #22B14C";
". c #B97A57";
"X c #00A2E8";
"o c #0BA6E9";
"O c #0EA7E9";
"+ c #1DADEB";
"@ c #25AFEB";
"# c #27B0EC";
"$ c #36B6ED";
"% c #38B6ED";
"& c #3AB7ED";
"* c #41BAEE";
"= c #43BAEE";
"- c #45BBEE";
"; c #4ABDEF";
": c #4EBEEF";
"> c #4FBFEF";
", c #50BFEF";
"< c #51C0EF";
"1 c #52C0EF";
"2 c #53C0EF";
"3 c #54C1F0";
"4 c #58C2F0";
"5 c #59C2F0";
"6 c #5AC3F0";
"7 c #5BC3F0";
"8 c #5EC4F0";
"9 c #61C5F1";
"0 c #64C6F1";
"q c #66C7F1";
"w c #67C8F1";
"e c #69C8F1";
"r c #6AC9F2";
"t c #6CC9F2";
"y c #73CCF2";
"u c #75CDF3";
"i c #76CDF3";
"p c #79CEF3";
"a c #7ED0F3";
"s c #86D3F4";
"d c #8ED6F5";
"f c #94D8F5";
"g c #9DDBF6";
"h c #A4DEF7";
"j c #B1E3F8";
"XXXXXXXXXXXXX+OoX-aXXXXXXXXXXXXXXXXXX             ";
"XXXXXXXXXXXX;7=%X>9XXXX-aXXXXXXXXXXXX             ";
"XsyXXeuXXXXXe02:X20XXXX>9X#$XXXXXXXXXX            ";
"Xt6w,28XXXXXiX><X=7XXXX20X5qXXXXXXXXX             ";
"X*<3%,q5XXXXXXXXXXXXXXX=7Xe82XXXXXXXX             ";
"XXXX@X$#..XXXXXXXXXXXXXXXXXueXXXXXXX              ";
"XO=2>XX.....XXXXX XXXXXXXXXXXXXXXX                ";
"X+709........X                                    ";
"XXXXX.........                                    ";
"XXXXX..........                                   ";
"XXXX.............                                 ";
"XXXXX.............                                ";
"XXXXX..............                               ";
"XprXXX..............                              ";
"X14t&XX..............                             ";
"XX,>#XX ..............                            ";
"XXXXXXX  ...............                          ";
"XXX5#XX   ...............                         ";
"Xu8q$XX    ...............                        ";
"Xe2,XXX     ...............                       ";
"XX#$XXX      ...............                      ";
"XX5qXXXX      ................                    ";
"XXe82XXX       ................                   ";
"XXXueXXX         ..............                   ";
"XXX2eXXX          ..............                  ";
"X$q8f#XX           ..............                 ";
"X#5et>XX             ............                 ";
"XXXjg,XX              ............                ";
"XXXhdt&X               ............               ";
"XXXX,>#                 ............              ";
"XXXXXXX                  ............             ";
"XXXXXX                    ............            ";
"XXXXXX                     ............           ";
"XXXXX                       ............          ";
"  X                          ............         ";
"                              ............        ";
"                               ............       ";
"                                ...........       ";
"                                 ...........      ";
"                                  .........       ";
"                                   ........       ";
"                                     .....        "
]%string.

(** proj/src/pixmap.h:2162-2190 [heart] *)
Definition heart : list string := [
"30 22 2 1 ";
"  c #22B14C";
". c #ED1C24";
"      ....         ....       ";
"    ........     ........     ";
"   ..........   ..........    ";
"  ............ ............   ";
"  .........................   ";
" ...........................  ";
" ...........................  ";
" ...........................  ";
" ...........................  ";
" ...........................  ";
"  .........................   ";
"  .........................   ";
"   .......................    ";
"   .......................    ";
"    .....................     ";
"     ...................      ";
"      .................       ";
"       ...............        ";
"        .............         ";
"         ...........          ";
"           .......            ";
"             ...              "
]%string.

(** proj/src/pixmap.h:3580-3786 [moon] *)
Definition moon : list string := [
"200 200 2 1 ";
"  c #22B14C";
". c #fff000";
"                                                                                                                                                                                                        ";
"                                                                                                                                                                                                        ";
"                                                                                                                                                                                                        ";
"                                                                                                                                                                                                        ";
"                                                                                                                                                                                                        ";
"                                                                                                                                                                                                        ";
"                                                                                                                                                                                                        ";
"                                                                                                                                                                                                        ";
"                                                                                                                                                                                                        ";
"                                                                                                                                                                                                        ";
"                                                                                                                                                                                                        ";
"                                                                                                                                                                                                        ";
"                                                                                                                                                                                                        ";
"                                                                                                                                                                                                        ";
"                                                                                                                                                                                                        ";
"                                                                                                                                                                                                        ";
"                                                                                                                                                                                                        ";
"                                                                                                                                                                                                        ";
"                                                                                                                                                                                                        ";
"                                                                                                                                                                                                        ";
"                                                                                                                                                                                                        ";
"                                                                                                                                                                                                        ";
"                                                                                                                                                                                                        ";
"                                                                                                                                                                                                        ";
"                                                                                                                                                                                                        ";
"                                                                                                                                                                                                        ";
"                                                                                                                                                                                                        ";
"                                                                                                                                                                                                        ";
"                                                                                                                                                                                                        ";
"                                                                                                                                                                                                        ";
"                                                                                                                                                                                                        ";
"                                                                                                                                                                                                        ";
"                                                                                                                                                                                                        ";
"                                                                                                                                                                                                        ";
"                                                                                                                                                                                                        ";
"                                                                                                                                                                                                        ";
"                                                                                                                                                                                                        ";
"                                                                                                                                                                                                        ";
"                                                                                                                                                                                                        ";
"                                                                                                                                                                                                        ";
"                                                                                                                                                                                                        ";
"                                                                                                                                                                                                        ";
"                                                                                                                                                                                                        ";
"                                                                                                                                                                                                        ";
"                                                       ........................................................                                                                                         ";
"                                                       ........................................................                                                                                         ";
"                                                       ........................................................                                                                                         ";
"                                                       ........................................................                                                                                         ";
"                                                       ........................................................                                                                                         ";
"                                                       ........................................................                                                                                         ";
"                                                       ........................................................                                                                                         ";
"                                                       ........................................................                                                                                         ";
"                                                       ........................................................                                                                                         ";
"                                                       ........................................................                                                                                         ";
"                                                       ........................................................                                                                                         ";
"                                                                  ...................................................................                                                                   ";
"                                                                  ...................................................................                                                                   ";
"                                                                  ...................................................................                                                                   ";
"                                                                  ...................................................................                                                                   ";
"                                                                  ...................................................................                                                                   ";
"                                                                  ...................................................................                                                                   ";
"                                                                  ...................................................................                                                                   ";
"                                                                  ...................................................................                                                                   ";
"                                                                  ...................................................................                                                                   ";
"                                                                  ...................................................................                                                                   ";
"                                                                  ...................................................................                                                                   ";
"                                                                              ..................................................................                                                        ";
"                                                                              ..................................................................                                                        ";
"                                                                              ..................................................................                                                        ";
"                                                                              ..................................................................                                                        ";
"                                                                              ..................................................................                                                        ";
"                                                                              ..................................................................                                                        ";
"                                                                              ..................................................................                                                        ";
"                                                                              ..................................................................                                                        ";
"                                                                              ..................................................................                                                        ";
"                                                                              ..................................................................                                                        ";
"                                                                              ..................................................................                                                        ";
"                                                                              ..................................................................                                                        ";
"                                                                              .............................................................................                                             ";
"                                                                              .............................................................................                                             ";
"                                                                              .............................................................................                                             ";
"                                                                              .............................................................................                                             ";
"                                                                              .............................................................................                                             ";
"                                                                              .............................................................................                                             ";
"                                                                              .............................................................................                                             ";
"                                                                              .............................................................................                                             ";
"                                                                              .............................................................................                                             ";
"                                                                              .............................................................................                                             ";
"                                                                              .............................................................................                                             ";
"                                                                                         ...........           ...........           ......................                                             ";
"                                                                                         ...........           ...........           ......................                                             ";
"                                                                                         ...........           ...........           ......................                                             ";
"                                                                                         ...........           ...........           ......................                                             ";
"                                                                                         ...........           ...........           ......................                                             ";
"                                                                                         ...........           ...........           ......................                                             ";
"                                                                                         ...........           ...........           ......................                                             ";
"                                                                                         ...........           ...........           ......................                                             ";
"                                                                                         ...........           ...........           ......................                                             ";
"                                                                                         ...........           ...........           ......................                                             ";
"                                                                                         ...........           ...........           ......................                                             ";
"                                                                                         ...........           ...........           .................................                                  ";
"                                                                                         ...........           ...........           .................................                                  ";
"                                                                                         ...........           ...........           .................................                                  ";
"                                                                                         ...........           ...........           .................................                                  ";
"                                                                                         ...........           ...........           .................................                                  ";
"                                                                                         ...........           ...........           .................................                                  ";
"                                                                                         ...........           ...........           .................................                                  ";
"                                                                                         ...........           ...........           .................................                                  ";
"                                                                                         ...........           ...........           .................................                                  ";
"                                                                                         ...........           ...........           .................................                                  ";
"                                                                                         ...........           ...........           .................................                                  ";
"                                                                              ........................................................................................                                  ";
"                                                                              ........................................................................................                                  ";
"                                                                              ........................................................................................                                  ";
"                                                                              ........................................................................................                                  ";
"                                                                              ........................................................................................                                  ";
"                                                                              ........................................................................................                                  ";
"                                                                              ........................................................................................                                  ";
"                                                                              ........................................................................................                                  ";
"                                                                              ........................................................................................                                  ";
"                                                                              ........................................................................................                                  ";
"                                                                              ........................................................................................                                  ";
"                                                                  ............           ............................................           ......................                                  ";
"                                                                  ............           ............................................           ......................                                  ";
"                                                                  ............           ............................................           ......................                                  ";
"                                                                  ............           ............................................           ......................                                  ";
"                                                                  ............           ............................................           ......................                                  ";
"                                                                  ............           ............................................           ......................                                  ";
"                                                                  ............           ............................................           ......................                                  ";
"                                                                  ............           ............................................           ......................                                  ";
"                                                                  ............           ............................................           ......................                                  ";
"                                                                  ............           ............................................           ......................                                  ";
"                                                                  ............           ............................................           ......................                                  ";
"                                            ..................................           .................................           ......................                                             ";
"                                            ..................................           .................................           ......................                                             ";
"                                            ..................................           .................................           ......................                                             ";
"                                            ..................................           .................................           ......................                                             ";
"                                            ..................................           .................................           ......................                                             ";
"                                            ..................................           .................................           ......................                                             ";
"                                            ..................................           .................................           ......................                                             ";
"                                            ..................................           .................................           ......................                                             ";
"                                            ..................................           .................................           ......................                                             ";
"                                            ..................................           .................................           ......................                                             ";
"                                            ..................................           .................................           ......................                                             ";
"           ..............................................................................                                 .................................                                             ";
"           ..............................................................................                                 .................................                                             ";
"           ..............................................................................                                 .................................                                             ";
"           ..............................................................................                                 .................................                                             ";
"           ..............................................................................                                 .................................                                             ";
"           ..............................................................................                                 .................................                                             ";
"           ..............................................................................                                 .................................                                             ";
"           ..............................................................................                                 .................................                                             ";
"           ..............................................................................                                 .................................                                             ";
"           ..............................................................................                                 .................................                                             ";
"           ..............................................................................                                 .................................                                             ";
"                      ..........................................................................................................................                                                        ";
"                      ..........................................................................................................................                                                        ";
"                      ..........................................................................................................................                                                        ";
"                      ..........................................................................................................................                                                        ";
"                      ..........................................................................................................................                                                        ";
"                      ..........................................................................................................................                                                        ";
"                      ..........................................................................................................................                                                        ";
"                      ..........................................................................................................................                                                        ";
"                      ..........................................................................................................................                                                        ";
"                      ..........................................................................................................................                                                        ";
"                      ..........................................................................................................................                                                        ";
"                                 ....................................................................................................                                                                   ";
"                                 ....................................................................................................                                                                   ";
"                                 ....................................................................................................                                                                   ";
"                                 ....................................................................................................                                                                   ";
"                                 ....................................................................................................                                                                   ";
"                                 ....................................................................................................                                                                   ";
"                                 ....................................................................................................                                                                   ";
"                                 ....................................................................................................                                                                   ";
"                                 ....................................................................................................                                                                   ";
"                                 ....................................................................................................                                                                   ";
"                                 ....................................................................................................                                                                   ";
"                                                       ........................................................                                                                                         ";
"                                                       ........................................................                                                                                         ";
"                                                       ........................................................                                                                                         ";
"                                                       ........................................................                                                                                         ";
"                                                       ........................................................                                                                                         ";
"                                                       ........................................................                                                                                         ";
"                                                       ........................................................                                                                                         ";
"                                                       ........................................................                                                                                         ";
"                                                       ........................................................                                                                                         ";
"                                                       ........................................................                                                                                         ";
"                                                       ........................................................                                                                                         ";
"                                                                                                                                                                                                        ";
"                                                                                                                                                                                                        ";
"                                                                                                                                                                                                        ";
"                                                                                                                                                                                                        ";
"                                                                                                                                                                                                        ";
"                                                                                                                                                                                                        ";
"                                                                                                                                                                                                        ";
"                                                                                                                                                                                                        ";
"                                                                                                                                                                                                        ";
"                                                                                                                                                                                                        ";
"                                                                                                                                                                                                        ";
"                                                                                                                                                                                                        "
]%string.

(** proj/src/pixmap.h:3790-4040 [sun] *)
Definition sun : list string := [
"200 200 46 1 ";
"  c #22B14C";
". c #020203";
"X c #030407";
"o c #0F0E03";
"O c #05060A";
"+ c #06080D";
"@ c #1E1C07";
"# c #080A11";
"$ c #090C14";
"% c #0B0E17";
"& c #0D101B";
"* c #0E121E";
"= c #2D2A0A";
"- c #3C380E";
"; c #101421";
": c #111625";
"> c #131828";
", c #141A2B";
"< c #161C2F";
"1 c #181E32";
"2 c #192035";
"3 c #252738";
"4 c #30303A";
"5 c #3C383C";
"6 c #4B4711";
"7 c #5A5514";
"8 c #696318";
"9 c #78711B";
"0 c #49423F";
"q c #554B42";
"w c #615643";
"e c #6E6245";
"r c #7A6E46";
"t c #887F1E";
"y c #887B47";
"u c #978D22";
"i c #A69B25";
"p c #B5A929";
"a c #D3C62F";
"s c #E2D433";
"d c #E2D23B";
"f c #F0E136";
"g c #968848";
"h c #A59648";
"j c #B3A447";
"k c #C2B345";
"                                                                                                                                                                                                        ";
"                                                                                                                                                                                                        ";
"                                                                                                                                                                                                        ";
"                                                                                                                                                                                                        ";
"                                                                                                                                                                                                        ";
"                                                                                                                                                                                                        ";
"                                                                                                                                                                                                        ";
"                                                                                                                                                                                                        ";
"                                                                                                                                                                                                        ";
"                                                                                                                                                                                                        ";
"                                                                                                                                                                                                        ";
"                                                                                                                                                                                                        ";
"                                                                                                                                                                                                        ";
"                                                                                                                                                                                                        ";
"                                                                                                                                                                                                        ";
"                                                                                                                                                                                                        ";
"                                                                                                                                                                                                        ";
"                                                                                                                                                                                                        ";
"                                                                                                                                                                                                        ";
"                                                                                                                                                                                                        ";
"                                                                                                                                                                                                        ";
"                                                                                                                                                                                                        ";
"                                                                                                                                                                                                        ";
"                                                                                                                                                                                                        ";
"                                                                                                                                                                                                        ";
"                                                                                                                                                                                                        ";
"                                                                                                                                                                                                        ";
"                                                                                                                                                                                                        ";
"                                                                                                                                                                                                        ";
"                                                                                                                                                                                                        ";
"                                                                                                                                                                                                        ";
"                                                                                                                                                                                                        ";
"                                                                                221                                                                                                                     ";
"                                                                               22222                                                                                                                    ";
"                                                                               22222                                                                                                                    ";
"                                                                               22222                                                                                                                    ";
"                                                                              +22222                                                                                                                    ";
"                                                                              +22222                                                                                                                    ";
"                                                                              +22222                                                                                                                    ";
"                                                                              +22222                                                                                                                    ";
"                                                                              +22222                                                ,.                                                                  ";
"                                                                              +22222                                               2221                                                                 ";
"                                                                               22222                                              22222                                                                 ";
"                                                                               22222                                             222222                                                                 ";
"                                                                               22222                                            222222O                                                                 ";
"                                                                               22222                                           ,22222<                                                                  ";
"                                                                               22222                                          #222222                                                                   ";
"                                                                               22222                                          222222                                                                    ";
"                                                                               22222                                         2222222                                                                    ";
"                                                                               22222                                        2222222                                                                     ";
"                                                                                222O                                       O222222                                                                      ";
"                                                                                                                           222222&                                                                      ";
"                                                                                                                          222222%                                                                       ";
"                                                                                                                          222221                                                                        ";
"                                                                                                                          22222                                                                         ";
"                                                                                                                          ,222                                                                          ";
"                                                                                                                           X;                                                                           ";
"                                                                                                                                                                                                        ";
"                                      222%                                                                                                                                                              ";
"                                     22222;                                                                                                                                                             ";
"                                     2222222                                                                                                                                                            ";
"                                     2222222<                                                                                                                                                           ";
"                                      22222221                                                                                                                                                          ";
"                                       22222222                                                                                                                                                         ";
"                                        22222222                                                                                                                                                        ";
"                                         22222222                                                                                                                                                       ";
"                                          22222222                                                                                                                                                      ";
"                                           22222222                                                                                                                                                     ";
"                                            12222222O                                                                                                                                                   ";
"                                             ,2222222                                                                                                                                                   ";
"                                              %222222>                                                                                                                                                  ";
"                                                22222O                              -                                                                                                                   ";
"                                                 2222                           ifffffffffffffff8                                                                                                       ";
"                                                  :,                         uffffffffffffffffffffff                                                                                                    ";
"                                                                           iffffffffffffffffffffffffffu                                                  222                                            ";
"                                                                         pfffffffffffffffffffffffffffffff                                              222222                                           ";
"                                                                       ffffffffffffffffffffffffffffffffffffa                                        <22222222                                           ";
"                                                                     6fffffffffffffffffffffffffffffffffffffffo                                    &2222222222                                           ";
"                                                                    sffffffffffffffffffffffffffffffffffffffffff                                 &22222222222                                            ";
"                                                                   affffffffffffffffffffffffffffffffffffffffffff=                             ;222222222221                                             ";
"                                                                  fffffffffffffffffffffffffffffffffffffffffffffffa                          ;222222222222                                               ";
"                                                                 ffffffffffffffffffffffffffffffffffffffffffffffffff                        222222222222                                                 ";
"                                                                ffffffffffffffffffffffffffffffffffffffffffffffffffff                       2222222222                                                   ";
"                                                               ffffffffffffffffffffffffffffffffffffffffffffffffffffff                      22222222X                                                    ";
"                                                              ffffffffffffffffffffffffffffffffffffffffffffffffffffffffo                    22212&                                                       ";
"                                                             ffffffffffffffffffffffffffffffffffffffffffffffffffffffffff                     22%                                                         ";
"                                                            7fffffffffffffffffffffffffffffffffffffffffffffffffffffffffff                                                                                ";
"                                                            fffffffffffffffffffffffffffffffffffffffffffffffffffffffffffff                                                                               ";
"                                                           6ffffffffffffffffffffffffffffffffffffffffffffffffffffffffffffff                                                                              ";
"                                                           fffffffffffffffffffffffffffffffffffffffffffffffffffffffffffffffu                                                                             ";
"                                                          affffffffffffffffffffffffffffffffffffffffffffffffffffffffffffffff                                                                             ";
"                                                          ffffffffffffffffffffffffffffffffffffffffffffffffffffffffffffffffff                                                                            ";
"                                                         fffffffffffffffffffffffffffffffffffffffffffffffffffffffffffffffffff-                                                                           ";
"                                                         ffffffffffffffffffffffffffffffffffffffffffffffffffffffffffffffffffff                                                                           ";
"                                                        sfffffffffffff22222dfffffffffffffffffffffffffffffffffffffffffffffffffu                                                                          ";
"                                                        fffffffffffff2222222ffffffffffffffffffffffffffffffffffq2222hffffffffff                                                                          ";
"                 22222,&                               @ffffffffffffy2222222fffffffffffffffffffffffffffffffff0222222ffffffffffu                                                                         ";
"                122222222222222:#                      fffffffffffff22222222fffffffffffffffffffffffffffffffff22222222ffffffffff                                                                         ";
"                2222222222222222222                    fffffffffffff22222222ffffffffffffffffffffffffffffffffd22222222ffffffffff=                                                                        ";
"                2222222222222222222*                   fffffffffffff22222222fffffffffffffffffffffffffffffffff22222222fffffffffff                                                                        ";
"                 ;222222222222222222                  pffffffffffffff222222gfffffffffffffffffffffffffffffffff22222224fffffffffff                                                                        ";
"                     %<222222222222&                  ffffffffffffffff2222dfffffffffffffffffffffffffffffffffff222222ffffffffffffi                                                                       ";
"                            &<22221                   fffffffffffffffffffffffffffffffffffffffffffffffffffffffffe225ffffffffffffff                                                                       ";
"                                                      fffffffffffffffffffffffffffffffffffffffffffffffffffffffffffffffffffffffffff                                                                       ";
"                                                      fffffffffffffffffffffffffffffffffffffffffffffffffffffffffffffffffffffffffff@                                                                      ";
"                                                      fffffffffffffffffffffffffffffffffffffffffffffffffffffffffffffffffffffffffffp                                                                      ";
"                                                     -ffffffffffffffffffffffffffffffffffffffffffffffffffffffffffffffffffffffffffff                                                                      ";
"                                                     9ffffffffffffffffffffffffffffffffffffffffffffffffffffffffffffffffffffffffffff                                                                      ";
"                                                     9ffffffffffffffffffffffffffffffffffffffffffffffffffffffffffffffffffffffffffff                                                                      ";
"                                                     9ffffffffffffffffffffffffffffffffffffffffffffffffffffffffffffffffffffffffffff                                                                      ";
"                                                     9ffffffffffffffffffffffffffffffffffffffffffffffffffffffjfffffffffffffffffffff                                                                      ";
"                                                     -ffffffffffffffffffffffff222fffffffffffffffffffffffffh222dfffffffffffffffffff                                                                      ";
"                                                      fffffffffffffffffffffffj222kffffffffffffffffffffffff22222fffffffffffffffffff                                                                      ";
"                                                      fffffffffffffffffffffffr222effffffffffffffffffffffff22222fffffffffffffffffff                                                                      ";
"                                                      fffffffffffffffffffffffj2222fffffffffffffffffffffff222222fffffffffffffffffff                                                                      ";
"                                                      ffffffffffffffffffffffff2222ffffffffffffffffffffffd22222dfffffffffffffffffff                                                                      ";
"                                                      ffffffffffffffffffffffff22222fffffffffffffffffffff222222ffffffffffffffffffff                                                                      ";
"                                                      7fffffffffffffffffffffff222223fffffffffffffffffff222222dffffffffffffffffffff                                                                      ";
"                                                       ffffffffffffffffffffffff22222kffffffffffffffffd2222222fffffffffffffffffffff                                                                      ";
"                                                       ffffffffffffffffffffffff2222225ffffffffffffff32222222ffffffffffffffffffffff                                                                      ";
"                                                       affffffffffffffffffffffff2222222rffffffffffq222222225ffffffffffffffffffffft                                                                      ";
"                                                        ffffffffffffffffffffffffd2222222225rrq2222222222225ffffffffffffffffffffff                *122222222222222                                       ";
"                                                        fffffffffffffffffffffffffg22222222222222222222222efffffffffffffffffffffff               222222222222222222                                      ";
"                                                        tfffffffffffffffffffffffffk222222222222222222222fffffffffffffffffffffffff              :222222222222222222                                      ";
"                                                         fffffffffffffffffffffffffff32222222222222222wffffffffffffffffffffffffffo              ,222222222222222222                                      ";
"                                                         7ffffffffffffffffffffffffffff3222222222222kffffffffffffffffffffffffffff                22222222222222222.                                      ";
"                                                          fffffffffffffffffffffffffffffffjrrrjfffffffffffffffffffffffffffffffffa                 2,*#+                                                  ";
"                                                          -ffffffffffffffffffffffffffffffffffffffffffffffffffffffffffffffffffff                                                                         ";
"                                                           ffffffffffffffffffffffffffffffffffffffffffffffffffffffffffffffffffff                                                                         ";
"                                                            ffffffffffffffffffffffffffffffffffffffffffffffffffffffffffffffffff                                                                          ";
"                                                            ffffffffffffffffffffffffffffffffffffffffffffffffffffffffffffffffff                                                                          ";
"                                                             ffffffffffffffffffffffffffffffffffffffffffffffffffffffffffffffff                                                                           ";
"                                                              ffffffffffffffffffffffffffffffffffffffffffffffffffffffffffffff-                                                                           ";
"                                             %&                fffffffffffffffffffffffffffffffffffffffffffffffffffffffffffff                                                                            ";
"                                            2222                fffffffffffffffffffffffffffffffffffffffffffffffffffffffffff7                                                                            ";
"                                          O222222               offffffffffffffffffffffffffffffffffffffffffffffffffffffffff                                                                             ";
"                                         12222222                 ffffffffffffffffffffffffffffffffffffffffffffffffffffffff                                                                              ";
"                                        22222222                   ffffffffffffffffffffffffffffffffffffffffffffffffffffff                                                                               ";
"                                      O22222222                     ffffffffffffffffffffffffffffffffffffffffffffffffffffo                                                                               ";
"                                     ,2222222,                       ffffffffffffffffffffffffffffffffffffffffffffffffff=                                                                                ";
"                                    22222222                           fffffffffffffffffffffffffffffffffffffffffffffff                                                                                  ";
"                                   22222222                             6ffffffffffffffffffffffffffffffffffffffffffff                                                                                   ";
"                                 X2222222;                                afffffffffffffffffffffffffffffffffffffffff                                                                                    ";
"                                %1222222                                    ffffffffffffffffffffffffffffffffffffff6                                                                                     ";
"                               >2222222                                       ffffffffffffffffffffffffffffffffffa                                                                                       ";
"                              ,2222222                                          ufffffffffffffffffffffffffffffa                                                                                         ";
"                              222222,                                              iffffffffffffffffffffffff7                                                                                           ";
"                              222221                                                  8ffffffffffffffffff9                                                                                              ";
"                               222                                                                                                                                                                      ";
"                                                                                                                                                                                                        ";
"                                                                                                                                                                                                        ";
"                                                                                                                                                                                                        ";
"                                                                                                                                                                                                        ";
"                                                                                                                                                                                                        ";
"                                                                                                                              222X                                                                      ";
"                                                                                                                             22222                                                                      ";
"                                                                              2222                                          &222222                                                                     ";
"                                                                             22221%                                         +222222                                                                     ";
"                                                                             22222,                                          2222222                                                                    ";
"                                                                            222222                                           ;222222                                                                    ";
"                                                                            222222                                            222222%                                                                   ";
"                                                                           O22222+                                            ;222221                                                                   ";
"                                                                           222222                                              222222&                                                                  ";
"                                                                           22222%                                              ,222222                                                                  ";
"                                                                          222222                                                2222221                                                                 ";
"                                                                         #22221%                                                +222222                                                                 ";
"                                                                         222222                                                  1222222                                                                ";
"                                                                         22222,                                                  %222222                                                                ";
"                                                                        222222                                                    122222                                                                ";
"                                                                        222222                                                    %22222                                                                ";
"                                                                       ,22222                                                      2222                                                                 ";
"                                                                       222222                                                       +                                                                   ";
"                                                                       22222+                                                                                                                           ";
"                                                                       12222                                                                                                                            ";
"                                                                        .,;                                                                                                                             ";
"                                                                                                                                                                                                        ";
"                                                                                                                                                                                                        ";
"                                                                                                                                                                                                        ";
"                                                                                                                                                                                                        ";
"                                                                                                                                                                                                        ";
"                                                                                                                                                                                                        ";
"                                                                                                                                                                                                        ";
"                                                                                                                                                                                                        ";
"                                                                                                                                                                                                        ";
"                                                                                                                                                                                                        ";
"                                                                                                                                                                                                        ";
"                                                                                                                                                                                                        ";
"                                                                                                                                                                                                        ";
"                                                                                                                                                                                                        ";
"                                                                                                                                                                                                        ";
"                                                                                                                                                                                                        ";
"                                                                                                                                                                                                        ";
"                                                                                                                                                                                                        ";
"                                                                                                                                                                                                        ";
"                                                                                                                                                                                                        ";
"                                                                                                                                                                                                        ";
"                                                                                                                                                                                                        ";
"                                                                                                                                                                                                        ";
"                                                                                                                                                                                                        ";
"                                                                                                                                                                                                        "
]%string.

(** The pixmaps with the sizes the game's model gives them. *)
Definition letters : list (xpm_map_t * list string) :=
  [(letter "a", a); (letter "b", b); (letter "c", c); (letter "d", d); (letter_e, e); (letter "f", f);
   (letter "g", g); (letter "h", h); (letter "i", i); (XpmMap "j" 16 30 2 1, j); (letter "k", k); (letter "l", l);
   (letter "m", m); (letter "n", n); (letter "o", o); (letter "p", p); (letter "q", q); (letter "r", r);
   (letter "s", s); (letter "t", t); (letter "u", u); (letter "v", v); (letter "w", w); (letter "x", x);
   (letter "y", y); (letter "z", z)].
Definition pictures : list (xpm_map_t * list string) :=
  [(Game.gameName, gameName); (Game.mouse_cursor, mouse_cursor); (Game.heart, heart);
   (Game.cardback, cardback); (Game.moon, moon); (Game.sun, sun)].

(** A picture has the size of a pixmap of the model. *)
Definition fits (m : xpm_map_t) (im : picture) : bool :=
  (pi_columns im =? columns m) && (pi_rows im =? rows m) && (pi_colors im =? colors m) && (pi_chars im =? chars_per_pixel m).

(** An image of that size, all of whose lines are complete. *)
Definition complete (im : picture) : bool :=
  forallb (fun line => Z.of_nat (length line) =? pi_columns im) (pi_lines im) &&
  (Z.of_nat (length (pi_lines im)) =? pi_rows im).

Definition art : list (xpm_map_t * list string) := letters ++ pictures.

Definition well_formed (entry : xpm_map_t * list string) : bool :=
  match decode entry.2 with Some im => fits entry.1 im && complete im | None => false end.

#[export] Instance xpm_map_eq_dec : EqDecision xpm_map_t.
Proof. solve_decision. Defined.
#[export] Instance picture_eq_dec : EqDecision picture.
Proof. solve_decision. Defined.

(** The color of pixel [(i, j)] of a pixmap. *)
Definition pixel_of (m : xpm_map_t) (i j : Z) : option Z :=
  '(_, entry) ← list_find (fun entry => entry.1 = m) art;
  im ← decode entry.2;
  line ← pi_lines im !! Z.to_nat j;
  line !! Z.to_nat i.

(** The color of the letters. *)
Definition white : Z := 0xFFFFFF.
(** * Lemmas *)

Lemma forallb_true {A} (f : A -> bool) (l : list A) : forallb f l = true <-> Forall (fun x => f x = true) l.
Proof. rewrite forallb_forall, Forall_forall. by setoid_rewrite list_elem_of_In. Qed.

Lemma well_formed_decodes entry :
  well_formed entry = true ->
  exists im, decode entry.2 = Some im /\
    pi_columns im = columns entry.1 /\ pi_rows im = rows entry.1 /\
    pi_colors im = colors entry.1 /\ pi_chars im = chars_per_pixel entry.1 /\
    Z.of_nat (length (pi_lines im)) = rows entry.1 /\
    Forall (fun line => Z.of_nat (length line) = columns entry.1) (pi_lines im).
Proof.
  unfold well_formed, fits, complete. destruct (decode entry.2) as [im|]; [|done].
  rewrite !andb_true_iff, !Z.eqb_eq, forallb_true. intros [(((Ec & Er) & Eo) & Ep) [Hl Hn]].
  exists im. split_and!; [done..|congruence|]. rewrite <- Ec. eapply Forall_impl; [exact Hl|].
  intros line. simpl. by rewrite Z.eqb_eq.
Qed.

Lemma art_well_formed : forallb well_formed art = true.
Proof. vm_compute. reflexivity. Qed.

Lemma art_names : NoDup art.*1.
Proof. apply (bool_decide_unpack _). vm_compute. exact I. Qed.

(** An entry of the pixmaps is found under its name. *)
Lemma art_found entry : entry ∈ art -> exists k, list_find (fun e => e.1 = entry.1) art = Some (k, entry).
Proof.
  intros Hin. apply list_elem_of_lookup in Hin as [k Hk]. exists k.
  apply list_find_Some. split_and!; [done..|]. intros k' e' Hk' Hlt E.
  pose proof art_names as Hnd. apply (NoDup_lookup _ k k' entry.1) in Hnd; [lia|by rewrite list_lookup_fmap, Hk|].
  by rewrite list_lookup_fmap, Hk', <- E.
Qed.

(** The pixels of an entry are those of the image it decodes to. *)
Lemma pixel_of_entry entry i j :
  entry ∈ art -> 0 <= i < columns entry.1 -> 0 <= j < rows entry.1 ->
  exists im line color, decode entry.2 = Some im /\ line ∈ pi_lines im /\ color ∈ line /\ pixel_of entry.1 i j = Some color.
Proof.
  intros Hin Hi Hj. destruct (art_found _ Hin) as [k Ek].
  pose proof (proj1 (forallb_true _ _) art_well_formed) as Hwf.
  rewrite Forall_forall in Hwf. specialize (Hwf _ Hin).
  destruct (well_formed_decodes entry) as (im & Ed & _ & _ & _ & _ & Hl & Hw); [done|].
  destruct (lookup_lt_is_Some_2 (pi_lines im) (Z.to_nat j)) as [line El]; [lia|].
  pose proof (list_elem_of_lookup_2 _ _ _ El) as Hline. rewrite Forall_forall in Hw. specialize (Hw _ Hline).
  destruct (lookup_lt_is_Some_2 line (Z.to_nat i)) as [color Ec]; [simpl in Hw; lia|].
  exists im, line, color. split_and!; [done|done|by eapply list_elem_of_lookup_2|].
  unfold pixel_of. rewrite Ek. simpl. rewrite Ed. simpl. by rewrite El.
Qed.

(** The pixmaps are looked into by evaluation only. *)
#[global] Opaque art pixel_of.
