(* ===== verification/Screens.v ===== *)
(** What the player sees: the drawing functions of proj/src/game.c as stacks of
    layers, from the images of the program down to the pixmaps of its sources.
    [Game] and [Flip] show that drawing stays inside the screen and what it does to
    the game; here are the colors of the pixels afterwards. *)
From S2P Require Import Prelude Env Video Cards Game Flip Pixmaps.

(** ** Layers *)

(** The bytes of the pixels a layer covers. *)
Definition layer : Type := Z -> Z -> option color_t.

#[export] Instance layer_equiv : Equiv layer := fun l1 l2 => forall x y, l1 x y = l2 x y.
#[export] Instance layer_equivalence : Equivalence (≡@{layer}).
Proof.
  split; [by intros l x y|by intros l1 l2 E x y|by intros l1 l2 l3 E1 E2 x y; rewrite E1].
Qed.

Definition over (top below : layer) : layer := fun x y => match top x y with Some c => Some c | None => below x y end.

(** Layers drawn one after the other. *)
Fixpoint stack (ls : list layer) : layer :=
  match ls with [] => fun _ _ => None | l :: ls => over (stack ls) l end.

#[export] Instance over_proper : Proper ((≡) ==> (≡) ==> (≡)) over.
Proof. intros t1 t2 Et b1 b2 Eb x y. unfold over. by rewrite Et, Eb. Qed.

(** [v'] is [v] with a layer in front, and nothing else changed. *)
Definition layered (l : layer) (v v' : video_st) : Prop :=
  same_but_pixels v v' /\
  forall x y, on_screen (modeinfo v) x y -> px v' x y = default (px v x y) (l x y).

#[export] Instance layered_proper : Proper ((≡) ==> eq ==> eq ==> iff) layered.
Proof.
  intros l1 l2 E v ? <- v' ? <-. unfold layered.
  split; intros [Hs Hp]; (split; [done|]); intros x y Hxy; rewrite Hp by done; by rewrite (E x y).
Qed.

(** [m] returns, having put the layers on the screen one after the other. *)
Definition shows {W A} (ls : list layer) (m : M (game_st * (video_st * W)) A) g (v : video_st) (w : W) : Prop :=
  wp m (fun _ s => s.1 = g /\ layered (stack ls) v s.2.1) (g, (v, w)).

(** A part of an image, [pw] times [ph] pixels from [(i0, j0)]. *)
Definition part_at (img : xpm_image_t) (w i0 j0 sx sy pw ph : Z) : layer := fun x y =>
  if in_rect sx sy pw ph x y then Some (img_px img w (i0 + (x - sx)) (j0 + (y - sy))) else None.
Definition image_at (img : xpm_image_t) (w h sx sy : Z) : layer := part_at img w 0 0 sx sy w h.

(** A pixmap of the sources. *)
Definition bytes_of_color (color : Z) : color_t := take 3 (color_of color).
Definition pixmap_at (m : xpm_map_t) (sx sy : Z) : layer := fun x y =>
  if in_rect sx sy (columns m) (rows m) x y then bytes_of_color <$> pixel_of m (x - sx) (y - sy) else None.

(** An image has the pixels of a pixmap. *)
Definition depicts (img : xpm_image_t) (m : xpm_map_t) : Prop :=
  img_ok img (columns m) (rows m) /\
  forall i j color, 0 <= i < columns m -> 0 <= j < rows m -> pixel_of m i j = Some color ->
    img_px img (columns m) i j = bytes_of_color color.

(** The images of the program that come from pixmaps in [Pixmaps]. *)
Definition sprites_depict (i : sprites) : Prop :=
  depicts (imgGameName i) Game.gameName /\ depicts (imgMouse i) Game.mouse_cursor /\
  depicts (imgHeart i) Game.heart /\ depicts (imgMoon i) Game.moon /\ depicts (imgSun i) Game.sun.

(** The letters of a word, the hearts of the lives, the cards of a board. *)
Fixpoint word_layers (sx sy : Z) (word : list xpm_map_t) : list layer :=
  match word with [] => [] | m :: word => pixmap_at m sx sy :: word_layers (sx + 25) sy word end.
Definition menu_layers (first : list layer) : list layer :=
  pixmap_at Game.gameName 268 50 :: first ++ word_layers 250 400 wordInstructions ++ word_layers 350 500 wordExit.
Definition heart_layers (n : Z) : list layer := map (fun k => pixmap_at Game.heart (10 + 35 * k) 15) (seqZ 0 n).

(** Card [k]: the back of a covered card, the picture of an open one, where
    [getCardsScreenXY] says. *)
Definition card_layer (v : video_st) (k : nat) (c : card) : layer :=
  let '(sx, sy) := getCardsScreenXY (modeinfo v) (Z.of_nat k mod 4) (Z.of_nat k / 4) in
  if isFlipped c then image_at (imgCardBack v) 75 109 sx sy
  else part_at (imgDeck v) 950 (card_x c * 73) (card_y c * 99) sx sy CARD_WIDTH CARD_HEIGHT.
Definition board_layers (v : video_st) (g : game_st) : list layer :=
  image_at (imgBackground (imgs g)) 799 599 0 0 :: imap (card_layer v) (cardArray g).

(** [xpm_load] reads the image of the pixmap, three bytes a pixel. *)
Class XpmReads (W : Type) `{Display W} : Prop := {
  xpm_reads : forall m (w : W), m ∈ art.*1 -> depicts (xpm_load m XPM_8_8_8 w).1 m
}.

(** * Lemmas *)

Lemma stack_app ls1 ls2 : stack (ls1 ++ ls2) ≡ over (stack ls2) (stack ls1).
Proof.
  induction ls1 as [|l ls1 IH]; intros x y; simpl.
  - unfold over. by destruct (stack ls2 x y).
  - unfold over at 1. rewrite (IH x y). unfold over. by destruct (stack ls2 x y).
Qed.

#[export] Instance stack_proper : Proper (Forall2 (≡) ==> (≡)) stack.
Proof. induction 1 as [|l1 l2 ls1 ls2 E _ IH]; [done|]. simpl. by rewrite E, IH. Qed.

Lemma layered_trans l1 l2 v1 v2 v3 : layered l1 v1 v2 -> layered l2 v2 v3 -> layered (over l2 l1) v1 v3.
Proof.
  intros [Hs1 H1] [Hs2 H2]. split; [by eapply same_but_pixels_trans|]. intros x y Hxy.
  rewrite H2, H1; [|done|by rewrite (same_but_pixels_mode _ _ Hs1)]. unfold over. by destruct (l2 x y).
Qed.

Lemma layered_app ls1 ls2 v1 v2 v3 :
  layered (stack ls1) v1 v2 -> layered (stack ls2) v2 v3 -> layered (stack (ls1 ++ ls2)) v1 v3.
Proof.
  intros H1 H2. apply (layered_proper _ _ (stack_app ls1 ls2) v1 v1 eq_refl _ _ eq_refl). by eapply layered_trans.
Qed.

Lemma layered_nothing v : vid_wf v -> layered (stack []) v v.
Proof. intros Hv. split; [by apply same_but_pixels_refl|done]. Qed.

Lemma painted_layered sx sy pw ph col v v' :
  bytes_pp (modeinfo v) = 3 -> painted (in_rect sx sy pw ph) col v v' ->
  layered (fun x y => if in_rect sx sy pw ph x y then Some (take 3 (col x y)) else None) v v'.
Proof.
  intros En [Hs Hp]. split; [done|]. intros x y Hxy. rewrite Hp, En by done. by destruct (in_rect _ _ _ _ x y).
Qed.

Lemma painted_part img w i0 j0 sx sy pw ph v v' :
  bytes_pp (modeinfo v) = 3 ->
  painted (in_rect sx sy pw ph) (fun x y => img_px img w (i0 + (x - sx)) (j0 + (y - sy))) v v' ->
  layered (part_at img w i0 j0 sx sy pw ph) v v'.
Proof.
  intros En Hp. apply painted_layered in Hp; [|done]. revert Hp. apply layered_proper; [|done..].
  intros x y. unfold part_at, img_px. by rewrite take_take.
Qed.

(** An image of a pixmap is the pixmap. *)
Lemma depicts_at img m sx sy :
  m ∈ art.*1 -> depicts img m -> image_at img (columns m) (rows m) sx sy ≡ pixmap_at m sx sy.
Proof.
  intros Hin [_ Hd] x y. unfold image_at, part_at, pixmap_at. destruct (in_rect _ _ _ _ x y) eqn:E; [|done].
  unfold in_rect in E. apply list_elem_of_fmap in Hin as ([m' art_rows] & -> & Hin). cbn [fst] in *.
  destruct (pixel_of_entry _ (x - sx) (y - sy) Hin) as (_ & _ & color & _ & _ & _ & Ep); cbn [fst]; [lia..|].
  cbn [fst] in Ep. rewrite Ep, !Z.add_0_l. simpl. f_equal. apply Hd; [lia..|done].
Qed.

(** ** Drawing in layers *)
Section Shows.
Context {W : Type} `{Display W}.
Implicit Types (g : game_st) (v : video_st) (w : W).

Lemma shows_bind {A B} ls1 ls2 (m : M (game_st * (video_st * W)) A) (k : A -> M (game_st * (video_st * W)) B) g v w :
  shows ls1 m g v w -> (forall a v' w', same_but_pixels v v' -> shows ls2 (k a) g v' w') ->
  shows (ls1 ++ ls2) (bind m k) g v w.
Proof.
  intros Hm Hk. apply wp_bind. eapply wp_mono; [exact Hm|]. intros a [g' [v' w']] [Hg Hs].
  cbn [fst snd] in Hg, Hs. subst g'. eapply wp_mono; [apply Hk, Hs|]. intros b s [Hg Hs']. split; [done|].
  by eapply layered_app.
Qed.

Lemma shows_read {A B} (f : game_st * (video_st * W) -> A) (k : A -> M (game_st * (video_st * W)) B) ls g v w :
  shows ls (k (f (g, (v, w)))) g v w -> shows ls (bind (gets f) k) g v w.
Proof. done. Qed.

Lemma shows_ret {A} (a : A) g v w : vid_wf v -> shows [] (ret a) g v w.
Proof. intros Hv. split; [done|]. by apply layered_nothing. Qed.

Lemma shows_proper {A} ls ls' (m : M (game_st * (video_st * W)) A) g v w :
  Forall2 (≡) ls ls' -> shows ls m g v w -> shows ls' m g v w.
Proof.
  intros E Hm. eapply wp_mono; [exact Hm|]. intros a s [Hg Hs]. split; [done|].
  by apply (layered_proper _ _ (stack_proper _ _ E) v v eq_refl _ _ eq_refl).
Qed.

Lemma shows_only {A} ls (m : M (game_st * (video_st * W)) A) g v w : shows ls m g v w -> only_draws m g v w.
Proof. intros Hm. eapply wp_mono; [exact Hm|]. by intros a s [Hg [Hs _]]. Qed.

Lemma draw_image_shows img sw sh sx sy g v w :
  frame_ok v -> img_ok img sw sh -> 0 <= sw -> 0 <= sh -> 0 <= sx -> sx + sw <= 800 -> 0 <= sy -> sy + sh <= 600 ->
  shows [image_at img sw sh sx sy] (draw_image img sx sy) g v w.
Proof.
  intros Hf Hi ??????. destruct (frame_mode_24 _ Hf) as [H24 _]. destruct (mode_24_bytes _ H24) as [En _].
  apply shows_read, wp_on_video. cbn [fst snd].
  apply (wp_blit_image img sw sh); try done; [apply Hf|rewrite frame_x by done; lia|rewrite frame_y by done; lia|].
  intros v' Hp. split; [done|]. apply painted_layered in Hp; [|done]. revert Hp. apply layered_proper; [|done..].
  intros x y. unfold image_at, part_at, img_px. simpl. by rewrite take_take.
Qed.

(** The image of a pixmap. *)
Lemma draw_pixmap_shows img m sx sy g v w :
  frame_ok v -> m ∈ art.*1 -> depicts img m -> 0 <= columns m -> 0 <= rows m ->
  0 <= sx -> sx + columns m <= 800 -> 0 <= sy -> sy + rows m <= 600 ->
  shows [pixmap_at m sx sy] (draw_image img sx sy) g v w.
Proof.
  intros Hf Hin Hd ??????. eapply shows_proper; [|apply (draw_image_shows img (columns m) (rows m)); done || apply Hd].
  by repeat constructor; apply depicts_at.
Qed.
End Shows.

(** ** The screens *)

Lemma words_in_art :
  Forall (Forall (fun m => m ∈ art.*1 /\ 0 <= columns m <= 20 /\ rows m = 30))
    [wordPlay; wordInstructions; wordExit; wordResume].
Proof. apply (bool_decide_unpack _). vm_compute. exact I. Qed.

Lemma pictures_in_art : Forall (fun m => m ∈ art.*1) [Game.gameName; Game.mouse_cursor; Game.heart; Game.moon; Game.sun].
Proof. apply (bool_decide_unpack _). vm_compute. exact I. Qed.

Section ScreenLayers.
Context {W : Type} `{Display W}.
Implicit Types (g : game_st) (v : video_st) (w : W).

Lemma draw_word_shows `{!XpmReads W} sx sy word g v w :
  frame_ok v -> Forall (fun m => m ∈ art.*1 /\ 0 <= columns m <= 20 /\ rows m = 30) word ->
  0 <= sx -> sx + 25 * Z.of_nat (length word) <= 800 -> 0 <= sy -> sy + 30 <= 600 ->
  shows (word_layers sx sy word) (draw_word sx sy word) g v w.
Proof.
  revert sx v w. induction word as [|m word IH]; intros sx v w Hf Hw ????; cbn [draw_word length word_layers] in *.
  - apply shows_ret. by destruct Hf.
  - apply Forall_cons in Hw as [(Hin & ? & ?) Hw]. change (?l :: ?ls) with ([l] ++ ls). apply shows_bind.
    + apply wp_bind, wp_on_world, wp_call. apply draw_pixmap_shows; try done; [by apply xpm_reads|lia..].
    + intros _ v' w' Hs. unfold LETTER_WIDTH. apply IH; try lia || done. by eapply frame_same.
Qed.

Lemma menu_shows `{!XpmReads W} sx first g v w :
  frame_ok v -> depicts (imgGameName (imgs g)) Game.gameName ->
  Forall (fun m => m ∈ art.*1 /\ 0 <= columns m <= 20 /\ rows m = 30) first ->
  0 <= sx -> sx + 25 * Z.of_nat (length first) <= 800 ->
  shows (menu_layers (word_layers sx 300 first))
    (draw_image (imgGameName (imgs g)) 268 50 ;; draw_word sx 300 first ;;
     draw_word 250 400 wordInstructions ;; draw_word 350 500 wordExit) g v w.
Proof.
  intros Hf Hd Hfirst ??. pose proof words_in_art as Hw. rewrite !Forall_cons in Hw.
  destruct Hw as (_ & Hn & Hx & _ & _). pose proof pictures_in_art as Hp. apply Forall_cons in Hp as [Hname _].
  unfold menu_layers. change (?l :: ?ls) with ([l] ++ ls). apply shows_bind.
  { by apply draw_pixmap_shows. }
  intros _ v1 w1 Hs1. pose proof (frame_same _ _ Hs1 Hf) as Hf1. apply shows_bind; [by apply draw_word_shows|].
  intros _ v2 w2 Hs2. pose proof (frame_same _ _ Hs2 Hf1) as Hf2. apply shows_bind; [by apply draw_word_shows|].
  intros _ v3 w3 Hs3. pose proof (frame_same _ _ Hs3 Hf2) as Hf3. by apply draw_word_shows.
Qed.

Lemma menus_show `{!XpmReads W} g v w :
  frame_ok v -> sprites_depict (imgs g) ->
  shows (menu_layers (word_layers 350 300 wordPlay)) draw_menu g v w /\
  shows (menu_layers (word_layers 325 300 wordResume)) draw_pause g v w.
Proof.
  intros Hf (Hd & _). pose proof words_in_art as Hw. rewrite !Forall_cons in Hw. destruct Hw as (Hp & _ & _ & Hr & _).
  split; apply shows_read, shows_read; cbn [fst snd id]; rewrite (frame_x _ Hf); by apply menu_shows.
Qed.

Lemma hearts_show g v w :
  frame_ok v -> depicts (imgHeart (imgs g)) Game.heart -> 0 <= lives (p1 g) <= 22 ->
  shows (heart_layers (lives (p1 g))) drawHearts g v w.
Proof.
  intros Hf Hd Hl. pose proof pictures_in_art as Hp. rewrite !Forall_cons in Hp. destruct Hp as (_ & _ & Hin & _).
  apply shows_read. cbn [fst id]. apply wp_bind.
  apply (wp_for_range_acc (fun i sx s => sx = 10 + 35 * i /\ s.1 = g /\ layered (stack (heart_layers i)) v s.2.1)).
  - split_and!; [done|done|]. apply layered_nothing, Hf.
  - intros i sx [g' [v' w']] Hir (-> & Hg & Hs). cbn [fst snd] in Hg, Hs. subst g'. apply wp_bind.
    eapply wp_mono.
    { apply (draw_pixmap_shows _ Game.heart (10 + 35 * i) 15); [by eapply frame_same; [apply Hs|]|done..| | | |];
        cbn [columns rows Game.heart]; lia. }
    intros [] [g' [v'' w'']] [Hg Hs']. cbn [fst snd] in Hg, Hs'. subst g'.
    destruct Hd as [(_ & -> & _) _]. apply wp_int; [apply is_int_small; cbn; lia|].
    split_and!; [cbn; lia|done|]. unfold heart_layers. rewrite seqZ_app, map_app by lia.
    change (seqZ (0 + i) 1) with [i].
    by eapply layered_app.
  - intros sx s (_ & Hg & Hs). apply wp_ret. split; [done|]. by rewrite Z.max_r in Hs by lia.
Qed.

Lemma sky_shows g v w :
  frame_ok v -> sprites_depict (imgs g) ->
  shows [pixmap_at Game.sun 0 10] drawSun g v w /\ shows [pixmap_at Game.moon 600 10] drawMoon g v w.
Proof.
  intros Hf (_ & _ & _ & Hm & Hs). pose proof pictures_in_art as Hp. rewrite !Forall_cons in Hp.
  destruct Hp as (_ & _ & _ & Hmoon & Hsun & _).
  split; apply shows_read; cbn [fst id].
  - apply draw_pixmap_shows; [exact Hf|exact Hsun|exact Hs|done..].
  - apply draw_pixmap_shows; [exact Hf|exact Hmoon|exact Hm|done..].
Qed.

Lemma cursor_shows g v w :
  frame_ok v -> sprites_depict (imgs g) -> 0 <= mouse_x (mouse g) <= 750 -> 0 <= mouse_y (mouse g) <= 558 ->
  shows [pixmap_at Game.mouse_cursor (mouse_x (mouse g)) (mouse_y (mouse g))] draw_mouse g v w.
Proof.
  intros Hf (_ & Hc & _) Hx Hy. pose proof pictures_in_art as Hp. rewrite !Forall_cons in Hp.
  destruct Hp as (_ & Hin & _). apply shows_read. cbn [fst id].
  apply draw_pixmap_shows; try done; cbn [columns rows Game.mouse_cursor]; lia.
Qed.
End ScreenLayers.

(** ** The board *)
Section BoardLayers.
Context {W : Type} `{Display W}.
Implicit Types (g : game_st) (v : video_st) (w : W).

Lemma same_but_pixels_images v v' : same_but_pixels v v' -> imgDeck v' = imgDeck v /\ imgCardBack v' = imgCardBack v.
Proof. by intros (b & b' & _ & -> & _). Qed.

Lemma card_layer_same v v' k c : same_but_pixels v v' -> card_layer v' k c = card_layer v k c.
Proof.
  intros Hs. unfold card_layer. rewrite (same_but_pixels_mode _ _ Hs).
  by destruct (same_but_pixels_images _ _ Hs) as [-> ->].
Qed.

Lemma layer_place v k :
  frame_ok v -> getCardsScreenXY (modeinfo v) (Z.of_nat k mod 4) (Z.of_nat k / 4) =
    (202 + 99 * (Z.of_nat k mod 4), 74 + 113 * (Z.of_nat k / 4)).
Proof. intros Hf. unfold getCardsScreenXY. by rewrite (frame_x _ Hf), (frame_y _ Hf). Qed.

(** A card that is not being turned over. *)
Lemma still_card_shows k c g v w :
  frame_ok v -> (k < 16)%nat -> cardArray g !! k = Some c -> isFlipping c = false ->
  0 <= card_x c < 13 -> 0 <= card_y c < 4 ->
  shows [card_layer v k c] (draw_card_at (Z.of_nat k) (202 + 99 * (Z.of_nat k mod 4)) (74 + 113 * (Z.of_nat k / 4))) g v w.
Proof.
  intros Hf Hk Hc Hfl Hx Hy. pose proof Hf as [Hwf _ _ _ _ Hd Hb].
  destruct (frame_mode_24 _ Hf) as [H24 _]. destruct (mode_24_bytes _ H24) as [En _].
  assert (0 <= Z.of_nat k mod 4 < 4 /\ 0 <= Z.of_nat k / 4 < 4) as [Hm Hq] by (split; Z.div_mod_to_equations; lia).
  unfold card_layer. rewrite layer_place by done. unfold draw_card_at, get_card, game_gets.
  apply wp_bind, wp_bind, wp_gets. cbn [fst id]. eapply wp_Done.
  { unfold arr_get. replace (Z.of_nat k <? 0) with false by lia. rewrite Nat2Z.id, Hc. done. }
  rewrite Hfl. cbn [andb]. destruct (isFlipped c); cbn [negb]; apply wp_on_video.
  - unfold vg_draw_card. apply wp_bind, wp_get. cbn [Z.eqb andb].
    apply (wp_blit_image (imgCardBack v) 75 109); try done; try lia;
      [rewrite frame_x by done; lia|rewrite frame_y by done; lia|].
    intros v' Hp. split; [done|]. apply painted_layered in Hp; [|done]. revert Hp. apply layered_proper; [|done..].
    intros x y. unfold image_at, part_at, img_px. simpl. by rewrite take_take.
  - apply vg_draw_card_at; try done; unfold CARD_WIDTH, CARD_HEIGHT;
      [lia|rewrite frame_x by done; lia|lia|rewrite frame_y by done; lia|].
    intros v' Hp. split; [done|]. by apply painted_part in Hp.
Qed.

(** A board at rest is drawn on the background, each card in its place. *)
Lemma board_shows g v w :
  frame_ok v -> sprites_ok (imgs g) -> cards_drawable (cardArray g) ->
  Forall (fun c => isFlipping c = false) (cardArray g) ->
  shows (board_layers v g) draw_game_cards g v w.
Proof.
  intros Hf Hi [Hl Hc] Hrest.
  set (P := fun i : Z => image_at (imgBackground (imgs g)) 799 599 0 0 ::
    imap (card_layer v) (take (Z.to_nat i) (cardArray g))).
  apply (wp_draw_game_cards (fun i s => s.1 = g /\ layered (stack (P i)) v s.2.1)).
  - unfold drawBackground. apply wp_bind, wp_gets. cbn [fst id].
    eapply wp_mono; [apply (draw_image_shows _ 799 599); [done|apply Hi|lia..]|]. intros [] s [Hg Hs]. split; [by eapply frame_same; [apply Hs|]|done].
  - intros i [g' [v' w']] Hir [Hg Hs]. cbn [fst snd] in *. subst g'.
    destruct (lookup_lt_is_Some_2 (cardArray g) (Z.to_nat i)) as [c Ec]; [lia|].
    rewrite Forall_lookup in Hc, Hrest. replace i with (Z.of_nat (Z.to_nat i)) at 1 2 3 by lia.
    eapply wp_mono; [apply (still_card_shows _ c); try done|].
    + by eapply frame_same; [apply Hs|].
    + lia.
    + by eapply Hrest.
    + by eapply Hc.
    + by eapply Hc.
    + intros [] s [Hg' Hs']. split; [done|]. rewrite (card_layer_same v v') in Hs' by apply Hs.
      unfold P. replace (Z.to_nat (i + 1)) with (S (Z.to_nat i)) by lia.
      rewrite (take_S_r _ _ _ Ec), imap_app. cbn [imap].
      rewrite length_take_le, Nat.add_0_r by (apply lookup_lt_Some in Ec; lia).
      by apply (layered_app (P i) [card_layer v (Z.to_nat i) c] v v').
  - intros s [Hg Hs]. split; [done|]. unfold P in Hs. by rewrite firstn_all2 in Hs by (simpl; lia).
Qed.
End BoardLayers.
