(* ===== verification/Frames.v ===== *)
(** What the monitor shows after a tick: the layers of [Screens] that belong to the
    state of the game, with the cursor in front, copied to the video memory. *)
From S2P Require Import Prelude Env Timer Keyboard Mouse Rtc Video Cards Game Flip MainLoop Play Pixmaps Screens.

(** ** Specification *)

Definition green_layer : layer := fun _ _ => Some (bytes_of_color GREEN).

(** The sun from six to twenty o'clock, the moon otherwise. *)
Definition sky_layers (hour : Z) : list layer :=
  if (hour <? 20) && (hour >=? 6) then [pixmap_at Game.sun 0 10] else [pixmap_at Game.moon 600 10].

Definition cursor_layer (m : Mouse) : layer := pixmap_at Game.mouse_cursor (mouse_x m) (mouse_y m).

(** The picture of each state of the game. *)
Definition scene {W} (s : main_st W) : list layer :=
  let g := ms_game s in
  match gs (ms_loop s) with
  | Menu => green_layer :: sky_layers (hour (date (ms_rtc s))) ++ menu_layers (word_layers 350 300 wordPlay)
  | Game => board_layers (ms_video s) g ++ heart_layers (lives (p1 g))
  | Pause => green_layer :: menu_layers (word_layers 325 300 wordResume)
  | Instructions => [green_layer; image_at (imgInstructions (imgs g)) 799 599 0 0]
  | Exit =>
      green_layer ::
      if game_over (ms_loop s) then [image_at (imgGameOver (imgs g)) 422 182 189 209]
      else if victory (ms_loop s) then [image_at (imgVictory (imgs g)) 700 500 50 50] else []
  | HighScores | Wait => []
  end.

(** The ticks whose picture is not about to change: in a game the cards are at rest,
    at most one is open and the button is not pressed, and the board is drawn (on
    even counts) but does not start to turn; after a victory or a defeat no new game is
    dealt. *)
Definition still_scene {W} (s : main_st W) : Prop :=
  let g := ms_game s in
  match gs (ms_loop s) with
  | Game =>
      cards_drawable (cardArray g) /\ Forall (fun c => isFlipping c = false) (cardArray g) /\
      0 <= lives (p1 g) <= 22 /\
      if initGame (ms_loop s) then every 240 s = false
      else every 2 s = true /\ lb (packet1 (ms_mouse s)) = false /\
        exists p, forall j c, j <> p -> cardArray g !! j = Some c -> open_card c = false
  | Exit => game_over (ms_loop s) || victory (ms_loop s) = true -> every 240 s = false
  | _ => True
  end.

(** [v'] has the layers in front of the picture of [v] in its frame buffer; the
    video memory may be another. *)
Record repainted (ls : list layer) (v v' : video_st) : Prop := Repainted {
  re_frame : frame_ok v';
  re_mode : modeinfo v' = modeinfo v;
  re_deck : imgDeck v' = imgDeck v;
  re_back : imgCardBack v' = imgCardBack v;
  re_px : forall x y, on_screen (modeinfo v) x y -> px v' x y = default (px v x y) (stack ls x y)
}.

(** [m] returns, keeps the game and paints the layers; [draws], it changes nothing else. *)
Definition paints {W A} (ls : list layer) (m : M (main_st W) A) (s : main_st W) : Prop :=
  wp m (fun _ s' => ms_game s' = ms_game s /\ repainted ls (ms_video s) (ms_video s')) s.
Definition draws {W A} (ls : list layer) (m : M (main_st W) A) (s : main_st W) : Prop :=
  wp m (fun _ s' => exists v w, s' = with_picture v w s /\ repainted ls (ms_video s) v) s.

(** The monitor shows the layers in front of a picture. *)
Definition monitor (ls : list layer) (v v' : video_st) : Prop :=
  forall x y, on_screen (modeinfo v) x y -> Video.shown v' x y = default (px v x y) (stack ls x y).

(** * Lemmas *)

Lemma repainted_app ls1 ls2 v1 v2 v3 : repainted ls1 v1 v2 -> repainted ls2 v2 v3 -> repainted (ls1 ++ ls2) v1 v3.
Proof.
  intros [F1 M1 D1 B1 P1] [F2 M2 D2 B2 P2]. split; [done|congruence..|].
  intros x y Hxy. rewrite P2, P1 by (rewrite ?M1; done). rewrite (stack_app ls1 ls2 x y). unfold over.
  by destruct (stack ls2 x y).
Qed.

Lemma repainted_nothing v : frame_ok v -> repainted [] v v.
Proof. by intros Hf. Qed.

Lemma layered_repainted ls v v' : frame_ok v -> layered (stack ls) v v' -> repainted ls v v'.
Proof.
  intros Hf [Hs Hp]. destruct (same_but_pixels_images _ _ Hs) as [Ed Eb].
  split; [by eapply frame_same|by apply same_but_pixels_mode|done..].
Qed.

Section Paints.
Context {W : Type} `{PortIO W, Irq W, Lcf W, Display W, Libc W, Messages W}.
Implicit Types s : main_st W.

Lemma draws_paints {A} ls (m : M (main_st W) A) s : draws ls m s -> paints ls m s.
Proof. intros Hm. eapply wp_mono; [exact Hm|]. by intros a s' (v & w & -> & Hp). Qed.

Lemma paints_bind {A B} ls1 ls2 (m : M (main_st W) A) (k : A -> M (main_st W) B) s :
  paints ls1 m s ->
  (forall a s', ms_game s' = ms_game s -> frame_ok (ms_video s') -> paints ls2 (k a) s') ->
  paints (ls1 ++ ls2) (bind m k) s.
Proof.
  intros Hm Hk. apply wp_bind. eapply wp_mono; [exact Hm|]. intros a s1 (Hg & Hp).
  eapply wp_mono; [apply Hk; [done|apply Hp]|]. intros b s2 (Hg' & Hp'). split; [congruence|].
  by eapply repainted_app.
Qed.

Lemma paints_gets {A B} ls (f : main_st W -> A) (k : A -> M (main_st W) B) s :
  paints ls (k (f s)) s -> paints ls (bind (gets f) k) s.
Proof. done. Qed.

Lemma paints_after {A B} ls1 ls2 (m : M (main_st W) A) (k : A -> M (main_st W) B) s :
  draws ls1 m s ->
  (forall a v w, repainted ls1 (ms_video s) v -> paints ls2 (k a) (with_picture v w s)) ->
  paints (ls1 ++ ls2) (bind m k) s.
Proof.
  intros Hm Hk. apply wp_bind. eapply wp_mono; [exact Hm|]. intros a s1 (v & w & -> & Hp).
  eapply wp_mono; [by apply Hk|]. intros b s2 (Hg' & Hp'). split; [done|]. by eapply repainted_app.
Qed.

(** The last part of a picture. *)
Lemma paints_then {A B} ls (m : M (main_st W) A) (k : A -> M (main_st W) B) s :
  paints ls m s ->
  (forall a s', ms_game s' = ms_game s -> frame_ok (ms_video s') -> paints [] (k a) s') ->
  paints ls (bind m k) s.
Proof. intros Hm Hk. rewrite <- (app_nil_r ls). by apply paints_bind. Qed.

Lemma draws_in_game {A} ls (m : M (game_st * (video_st * W)) A) s :
  frame_ok (ms_video s) -> shows ls m (ms_game s) (ms_video s) (ms_world s) -> draws ls (in_game m) s.
Proof.
  intros Hf Hm. apply wp_zoom. eapply wp_mono; [exact Hm|]. intros a [g [v w]] [Hg Hs].
  cbn [fst snd] in *. subst g. exists v, w. split; [done|]. by apply layered_repainted.
Qed.

Lemma draws_green s : frame_ok (ms_video s) -> draws [green_layer] (draw greenScreen) s.
Proof.
  intros Hf. apply wp_bind, wp_zoom, wp_zoom. apply wp_greenScreen; [apply Hf|]. intros v [Hs Hp].
  apply wp_skip. exists v, (ms_world s). split; [done|]. apply layered_repainted; [done|]. split; [done|].
  intros x y Hxy. rewrite Hp by done. destruct (frame_mode_24 _ Hf) as [H24 _].
  destruct (mode_24_bytes _ H24) as [En _]. simpl. by rewrite En.
Qed.

Lemma wp_update_monitor (Q : unit -> main_st W -> Prop) s :
  frame_ok (ms_video s) ->
  (forall v, repainted [] (ms_video s) v ->
     (forall x y, on_screen (modeinfo (ms_video s)) x y -> Video.shown v x y = px (ms_video s) x y) ->
     Q tt (with_picture v (ms_world s) s)) ->
  wp (draw my_updateVideoMem) Q s.
Proof.
  intros Hf HQ. destruct (frame_mem _ Hf) as (b & Hb & Hsz).
  apply wp_bind, wp_zoom, wp_zoom. apply (wp_my_updateVideoMem _ b); [apply Hf|done|done|].
  intros v b' -> Hs Hsh. apply wp_skip, HQ; [|done]. split; try done.
  destruct Hf as [Hv ?? ? ? ? ?]. split; try done. exists b'. split; [done|]. simpl. congruence.
Qed.

Lemma draws_update s : frame_ok (ms_video s) -> draws [] (draw my_updateVideoMem) s.
Proof. intros Hf. apply wp_update_monitor; [done|]. intros v Hp _. by exists v, (ms_world s). Qed.

(** Code that leaves the game and the display: tests, and the variables of the
    drivers and of the loop. *)
Definition idle {A} (m : M (main_st W) A) : Prop :=
  forall s, wp m (fun _ s' => ms_game s' = ms_game s /\ ms_video s' = ms_video s) s.

Lemma idle_bind {A B} (m : M (main_st W) A) (k : A -> M (main_st W) B) :
  idle m -> (forall a, idle (k a)) -> idle (bind m k).
Proof.
  intros Hm Hk s. apply wp_bind. eapply wp_mono; [apply Hm|]. intros a s1 [Hg Hv].
  eapply wp_mono; [apply Hk|]. intros b s2 [Hg' Hv']. split; congruence.
Qed.

Lemma idle_modify (f : main_st W -> main_st W) :
  (forall s, ms_game (f s) = ms_game s /\ ms_video (f s) = ms_video s) -> idle (modify f).
Proof. intros Hf s. apply wp_modify, Hf. Qed.

Lemma idle_gets {A} (f : main_st W -> A) : idle (gets f).
Proof. by intros s. Qed.
Lemma idle_get : idle get.
Proof. by intros s. Qed.
Lemma idle_skip : idle skip.
Proof. by intros s. Qed.
Lemma idle_upd_kbd f : idle (upd_kbd f).
Proof. by apply idle_modify. Qed.
Lemma idle_upd_timer f : idle (upd_timer f).
Proof. by apply idle_modify. Qed.
Lemma idle_upd_mouse f : idle (upd_mouse f).
Proof. by apply idle_modify. Qed.
Lemma idle_upd_loop f : idle (upd_loop f).
Proof. by apply idle_modify. Qed.

Lemma idle_paints {A} (m : M (main_st W) A) s : frame_ok (ms_video s) -> idle m -> paints [] m s.
Proof. intros Hf Hm. eapply wp_mono; [apply Hm|]. intros a s' [-> ->]. by split. Qed.
End Paints.

Create HintDb c_idle.
#[export] Hint Resolve idle_gets idle_get idle_skip idle_upd_kbd idle_upd_timer idle_upd_mouse idle_upd_loop : c_idle.

Ltac leaves_game := repeat lazymatch goal with
  | |- idle (bind _ _) => apply idle_bind; [|intros ?]
  | |- idle (if ?b then _ else _) => destruct b
  | |- idle _ => solve [auto with c_idle]
  end.

Section Ticks.
Context {W : Type} `{PortIO W, Irq W, Lcf W, Display W, Libc W, Messages W} `{!XpmReads W}.
Implicit Types s : main_st W.

Lemma menu_paints s :
  frame_ok (ms_video s) -> sprites_depict (imgs (ms_game s)) -> gs (ms_loop s) = Menu -> paints (scene s) tick_menu s.
Proof.
  intros Hf Hd Hgs. unfold scene. rewrite Hgs. change (?l :: ?ls) with ([l] ++ ls).
  apply paints_after; [by apply draws_green|]. intros [] v1 w1 [Hf1 _ _ _ _].
  unfold paints. apply wp_bind, wp_gets. cbn [with_picture ms_rtc]. apply paints_after.
  { destruct (sky_shows (ms_game s) v1 w1 Hf1 Hd) as [Hsun Hmoon].
    unfold sky_layers. destruct (_ && _); apply draws_in_game; [exact Hf1|exact Hsun|exact Hf1|exact Hmoon]. }
  intros [] v2 w2 [Hf2 _ _ _ _]. rewrite <- (app_nil_r (menu_layers _)). apply paints_after.
  { apply draws_in_game; [exact Hf2|]. exact (proj1 (menus_show (ms_game s) v2 w2 Hf2 Hd)). }
  intros [] v3 w3 [Hf3 _ _ _ _]. change (@nil layer) with ([] ++ @nil layer). apply paints_after; [by apply draws_update|].
  intros [] v4 w4 [Hf4 _ _ _ _]. apply idle_paints; [exact Hf4|]. leaves_game.
Qed.
Lemma pause_paints s :
  frame_ok (ms_video s) -> sprites_depict (imgs (ms_game s)) -> gs (ms_loop s) = Pause -> paints (scene s) tick_pause s.
Proof.
  intros Hf Hd Hgs. unfold scene. rewrite Hgs. change (?l :: ?ls) with ([l] ++ ls).
  apply paints_after; [by apply draws_green|]. intros [] v1 w1 [Hf1 _ _ _ _].
  rewrite <- (app_nil_r (menu_layers _)). apply paints_after.
  { apply draws_in_game; [exact Hf1|]. exact (proj2 (menus_show (ms_game s) v1 w1 Hf1 Hd)). }
  intros [] v2 w2 [Hf2 _ _ _ _]. apply idle_paints; [exact Hf2|]. leaves_game.
Qed.

Lemma instructions_paint s :
  frame_ok (ms_video s) -> sprites_ok (imgs (ms_game s)) -> gs (ms_loop s) = Instructions ->
  paints (scene s) tick_instructions s.
Proof.
  intros Hf Hi Hgs. unfold scene. rewrite Hgs. change [?l; ?l'] with ([l] ++ [l'] ++ []).
  apply paints_after; [by apply draws_green|]. intros [] v1 w1 [Hf1 _ _ _ _].
  apply paints_after.
  { apply draws_in_game; [exact Hf1|]. apply shows_read. cbn [fst id].
    apply (draw_image_shows _ 799 599); [exact Hf1|apply Hi|lia..]. }
  intros [] v2 w2 [Hf2 _ _ _ _]. apply idle_paints; [exact Hf2|]. leaves_game.
Qed.

Lemma centred_shows img sw sh g v (w : W) :
  frame_ok v -> img_ok img sw sh -> 0 <= sw <= 800 -> 0 <= sh <= 600 ->
  shows [image_at img sw sh (400 - sw / 2) (300 - sh / 2)] (draw_centred img) g v w.
Proof.
  intros Hf Hi Hw Hh. apply shows_read. cbn [fst snd]. rewrite (frame_x _ Hf), (frame_y _ Hf).
  pose proof Hi as (_ & -> & -> & _). change (800 / 2) with 400. change (600 / 2) with 300.
  apply draw_image_shows; try done; Z.div_mod_to_equations; lia.
Qed.

Lemma exit_paints fuel s :
  frame_ok (ms_video s) -> sprites_ok (imgs (ms_game s)) -> gs (ms_loop s) = Exit ->
  (game_over (ms_loop s) || victory (ms_loop s) = true -> every 240 s = false) ->
  paints (scene s) (tick_exit fuel) s.
Proof.
  intros Hf Hi Hgs Hev. unfold scene. rewrite Hgs. change (?l :: ?ls) with ([l] ++ ls).
  apply paints_after; [by apply draws_green|]. intros [] v1 w1 [Hf1 _ _ _ _].
  apply paints_gets, paints_gets. change (every 240 (with_picture v1 w1 s)) with (every 240 s).
  cbn [with_picture ms_loop]. apply paints_then.
  2: { intros [] s2 _ Hf2. by apply draws_paints, draws_update. }
  destruct (game_over (ms_loop s)); [|destruct (victory (ms_loop s))]; cbn [orb] in Hev.
  - rewrite Hev by done. apply paints_then; [|by intros [] s2 _ Hf2].
    apply draws_paints, draws_in_game; [exact Hf1|]. apply shows_read. cbn [fst id].
    apply (centred_shows _ 422 182); [exact Hf1|apply Hi|lia..].
  - rewrite Hev by done. apply paints_then; [|by intros [] s2 _ Hf2].
    apply draws_paints, draws_in_game; [exact Hf1|]. apply shows_read. cbn [fst id].
    apply (centred_shows _ 700 500); [exact Hf1|apply Hi|lia..].
  - apply idle_paints; [exact Hf1|]. leaves_game.
Qed.

Lemma board_layers_same v v' g : modeinfo v' = modeinfo v -> imgDeck v' = imgDeck v -> imgCardBack v' = imgCardBack v ->
  board_layers v' g = board_layers v g.
Proof.
  intros Hm Hd Hb. unfold board_layers. f_equal. apply imap_ext. intros i c _. unfold card_layer. by rewrite Hm, Hd, Hb.
Qed.

(** The tick of a quiet game, behind the drawing. *)
Lemma quiet_tail s :
  frame_ok (ms_video s) -> cards_drawable (cardArray (ms_game s)) -> lb (packet1 (ms_mouse s)) = false ->
  (exists p, forall j c, j <> p -> cardArray (ms_game s) !! j = Some c -> open_card c = false) ->
  paints [] (let* s := get in
    (if scancode (ms_kbd s) =? 0x81 then upd_loop (set_gs Pause) else skip) ;;
    upd_loop (set_isAnyCardFlipping false) ;; tick_click ;; tick_match ;; tick_end) s.
Proof.
  intros Hf [Hl _] Hlb [p Hp]. apply wp_bind, wp_get.
  enough (forall l, wp (upd_loop (set_isAnyCardFlipping false) ;; tick_click ;; tick_match ;; tick_end)
    (fun _ s' => ms_game s' = ms_game s /\ repainted [] (ms_video s) (ms_video s')) (with_loop l s)) as Hrest.
  { apply wp_bind. destruct (_ =? _); [apply wp_modify|apply wp_skip]; [apply Hrest|].
    replace s with (with_loop (ms_loop s) s) at 2 by (by destruct s). apply Hrest. }
  intros l. apply wp_bind, wp_modify. set (s1 := MainSt _ _ _ _ _ _ _ _).
  apply wp_bind. eapply wp_Done.
  { unfold tick_click. rewrite (bind_Done _ _ _ _ _ (gets_eq _ _)). change (packet1 (ms_mouse s1)) with (packet1 (ms_mouse s)).
    rewrite Hlb. done. }
  apply wp_bind. eapply wp_Done; [by apply (match_few_eq p)|].
  apply wp_tick_end; [done|]. intros l' _ _ _ _. by split.
Qed.

Lemma game_paints s :
  frame_ok (ms_video s) -> sprites_ok (imgs (ms_game s)) -> sprites_depict (imgs (ms_game s)) ->
  gs (ms_loop s) = Game -> still_scene s -> paints (scene s) tick_game s.
Proof.
  intros Hf Hi (_ & _ & Hd & _) Hgs. unfold still_scene, scene. rewrite Hgs. intros (Hc & Hr & Hl & Hrest).
  assert (forall v (w : W), frame_ok v -> modeinfo v = modeinfo (ms_video s) -> imgDeck v = imgDeck (ms_video s) ->
    imgCardBack v = imgCardBack (ms_video s) ->
    shows (board_layers (ms_video s) (ms_game s)) draw_game_cards (ms_game s) v w) as Hboard.
  { intros v w Hv Hm Hdk Hb. rewrite <- (board_layers_same (ms_video s) v) by done. by apply board_shows. }
  unfold tick_game. apply paints_gets. destruct (initGame (ms_loop s)).
  - unfold tick_init_game. apply paints_gets. rewrite Hrest. apply wp_bind, wp_skip. apply paints_after.
    { apply draws_in_game; [exact Hf|]. by apply Hboard. }
    intros [] v1 w1 [Hf1 _ _ _ _]. rewrite <- (app_nil_r (heart_layers _)). apply paints_after.
    { apply draws_in_game; [exact Hf1|]. by apply hearts_show. }
    intros [] v2 w2 [Hf2 _ _ _ _]. by apply draws_paints, draws_update.
  - destruct Hrest as (Hev & Hlb & Hfew). unfold tick_play. apply paints_gets. rewrite Hev. apply paints_after.
    { apply draws_in_game; [exact Hf|]. by apply Hboard. }
    intros [] v1 w1 [Hf1 _ _ _ _]. rewrite <- (app_nil_r (heart_layers _)). apply paints_after.
    { apply draws_in_game; [exact Hf1|]. by apply hearts_show. }
    intros [] v2 w2 [Hf2 _ _ _ _]. change (@nil layer) with ([] ++ @nil layer).
    apply paints_after; [by apply draws_update|]. intros [] v3 w3 [Hf3 _ _ _ _]. by apply quiet_tail.
Qed.
Lemma scene_paints fuel s :
  frame_ok (ms_video s) -> sprites_ok (imgs (ms_game s)) -> sprites_depict (imgs (ms_game s)) -> still_scene s ->
  paints (scene s) (match gs (ms_loop s) with
    | Menu => tick_menu | Game => tick_game | Pause => tick_pause
    | Instructions => tick_instructions | Exit => tick_exit fuel
    | HighScores | Wait => skip end) s.
Proof.
  intros Hf Hi Hd Hs. pose proof Hs as Hs'. unfold still_scene in Hs'. destruct (gs (ms_loop s)) eqn:Hgs.
  all: try by (unfold scene; rewrite Hgs; apply idle_paints; [exact Hf|apply idle_skip]).
  - by apply menu_paints.
  - by apply game_paints.
  - by apply pause_paints.
  - by apply instructions_paint.
  - by apply exit_paints.
Qed.

(** The cursor in front, and the picture on the monitor. *)
Lemma wp_monitor ls (body : M (main_st W) unit) s :
  sprites_depict (imgs (ms_game s)) ->
  0 <= mouse_x (mouse (ms_game s)) <= 750 -> 0 <= mouse_y (mouse (ms_game s)) <= 558 ->
  paints ls body s ->
  wp (body ;; in_game draw_mouse ;; draw my_updateVideoMem)
    (fun _ s' => monitor (ls ++ [cursor_layer (mouse (ms_game s))]) (ms_video s) (ms_video s')) s.
Proof.
  intros Hd Hx Hy Hb. apply wp_bind. eapply wp_mono; [exact Hb|]. intros [] s1 [Hg Hp1].
  assert (frame_ok (ms_video s1)) as Hf1 by apply Hp1. apply wp_bind. eapply wp_mono.
  { apply (draws_in_game [cursor_layer (mouse (ms_game s))]); [exact Hf1|].
    rewrite Hg. exact (cursor_shows (ms_game s) _ _ Hf1 Hd Hx Hy). }
  intros [] s2 (v & w & -> & Hp2). pose proof (repainted_app _ _ _ _ _ Hp1 Hp2) as Hp.
  apply wp_update_monitor; [apply Hp|]. intros v' _ Hv' x y Hxy. cbn [with_picture ms_video] in *.
  rewrite Hv' by (by rewrite (re_mode _ _ _ Hp)). by apply Hp.
Qed.
End Ticks.

(** ** Properties *)
Section FrameTheorems.
Context {W : Type} `{PortIO W, Irq W, Lcf W, Display W, Libc W, Messages W} `{!XpmReads W}.

(** The images the program loads are the pixmaps. *)
Lemma load_images_depict (s : main_st W) :
  wp load_images (fun _ s' => sprites_depict (imgs (ms_game s'))) s.
Proof.
  pose proof pictures_in_art as Hp. rewrite !Forall_cons in Hp. destruct Hp as (Hn & Hc & Hh & Hm & Hs & _).
  eapply wp_mono; [apply (wp_load_images (fun m i => m ∈ art.*1 -> depicts i m)), xpm_reads|].
  intros [] s' [(Dn & Dc & Dh & _ & _ & _ & Dm & Ds & _) _].
  exact (conj (Dn Hn) (conj (Dc Hc) (conj (Dh Hh) (conj (Dm Hm) (Ds Hs))))).
Qed.

(** A tick in a state whose picture is not about to change. *)
Lemma tick_shows (fuel : nat) (i1 i2 i3 : Z) (m : receive) (w1 : W) (s : main_st W) :
  driver_receive (ms_world s) = (m, w1) -> timer_only m i1 i2 i3 -> tick_ready s ->
  sprites_depict (imgs (ms_game s)) ->
  mouse_x (mouse (ms_game s)) <= 750 -> mouse_y (mouse (ms_game s)) <= 558 -> still_scene (at_tick w1 s) ->
  wp (handle_message fuel i1 i2 i3)
    (fun _ s' => monitor (scene s ++ [cursor_layer (mouse (ms_game s))]) (ms_video s) (ms_video s')) s.
Proof.
  intros Er Hm Hr Hd Hx Hy Hs. pose proof Hr as (Hf & Hi & [Hx0 _] & [Hy0 _] & _).
  unfold wp. rewrite (handle_timer_message fuel i1 i2 i3 m w1 s Er Hm Hr). fold (@wp (main_st W) unit).
  pose proof (scene_paints fuel (at_tick w1 s) Hf Hi Hd Hs) as Hp.
  unfold timer_tick. apply wp_bind, wp_gets.
  exact (wp_monitor (scene s) _ (at_tick w1 s) Hd (conj Hx0 Hx) (conj Hy0 Hy) Hp).
Qed.

(** (C4) What the player sees after a message that announces a timer interrupt and nothing else,
    in a state that can take it ([tick_ready]) and whose picture is not about to change
    ([still_scene]): in the menu, the pause menu and the instructions always; in a game
    with no card turning and at most 22 lives, before the first turn unless the count of ticks is
    a multiple of 240, and later when the count is even, the button is up and at
    most one card is open; at the end unless a new game is dealt. When the
    images are the pixmaps and the cursor lies within (750, 558), the monitor
    then shows, pixel for pixel, the picture of the state (the sun or the
    moon by the hour, the title and the words of the menus in the letters of
    pixmap.h, the board with every card open or covered in its place, a heart for
    each life, the instructions, the pictures of victory and defeat) with the cursor
    in front, over what was drawn before. *)
Theorem ticks_show_scenes (fuel : nat) (i1 i2 i3 : Z) (m : receive) (w1 : W) (s : main_st W) :
  driver_receive (ms_world s) = (m, w1) -> timer_only m i1 i2 i3 -> tick_ready s ->
  sprites_depict (imgs (ms_game s)) ->
  mouse_x (mouse (ms_game s)) <= 750 -> mouse_y (mouse (ms_game s)) <= 558 -> still_scene (at_tick w1 s) ->
  exists s', handle_message fuel i1 i2 i3 s = Done tt s' /\
    monitor (scene s ++ [cursor_layer (mouse (ms_game s))]) (ms_video s) (ms_video s').
Proof. intros. apply wp_unit. by eapply tick_shows. Qed.

(** (C33) The program ends: in the state [Exit] of a game that is neither lost nor
    won, a message that announces only a timer interrupt ends the loop, with the game as it was; the monitor then
    shows the background colour everywhere but where the cursor is, which is drawn in front
    (when the images are the pixmaps and the cursor lies within (750, 558)). *)
Theorem exit_leaves_the_loop (n : nat) (i1 i2 i3 : Z) (m : receive) (w1 : W) (s : main_st W) :
  driver_receive (ms_world s) = (m, w1) -> timer_only m i1 i2 i3 -> tick_ready s ->
  sprites_depict (imgs (ms_game s)) ->
  mouse_x (mouse (ms_game s)) <= 750 -> mouse_y (mouse (ms_game s)) <= 558 ->
  gs (ms_loop s) = Exit -> game_over (ms_loop s) = false -> victory (ms_loop s) = false ->
  condition (ms_loop s) = true ->
  exists s', main_loop (S (S n)) i1 i2 i3 s = Done tt s' /\ condition (ms_loop s') = false /\
    ms_game s' = ms_game s /\ frame_ok (ms_video s') /\
    forall x y, on_screen (modeinfo (ms_video s)) x y ->
      Video.shown (ms_video s') x y =
        default (bytes_of_color GREEN) (cursor_layer (mouse (ms_game s)) x y).
Proof.
  intros Er Hm Hr Hd Hx Hy Hgs Hover Hvict Hcond.
  destruct (exit_tick_leaves n i1 i2 i3 m w1 s Er Hm Hr Hgs Hover Hvict Hcond) as (s' & E & Eh & Hc & Hg & Hf).
  exists s'. split_and!; [done..|]. intros x y Hxy.
  assert (still_scene (at_tick w1 s)) as Hs
    by (unfold still_scene; cbn [at_tick ms_loop]; by rewrite Hgs, Hover, Hvict).
  pose proof (tick_shows (S (S n)) i1 i2 i3 m w1 s Er Hm Hr Hd Hx Hy Hs) as Hp.
  unfold wp in Hp. rewrite Eh in Hp. rewrite Hp by done. unfold scene. rewrite Hgs, Hover, Hvict.
  cbn [app stack foldl]. unfold over. by destruct (cursor_layer _ x y).
Qed.
End FrameTheorems.

(** ** A concrete run *)

(** An environment like [quiet] that reads the pixmaps. *)
Inductive gallery : Type := Gallery.

(** Byte [o] of a pixmap at three bytes a pixel. *)
Definition pixmap_byte (m : xpm_map_t) (o : Z) : Z :=
  match pixel_of m (o / 3 mod columns m) (o / 3 / columns m) with
  | Some color => Z.shiftr color (8 * (o mod 3))
  | None => 0
  end.

Definition read_pixmap (m : xpm_map_t) (t : xpm_image_type) : xpm_image_t :=
  Image (columns m) (rows m) (columns m * rows m * pixel_size t) (Some (pixmap_byte m)).

#[export] Instance gallery_io : PortIO gallery := {|
  sys_inb _ w := ((0, 0), w);
  sys_outb _ _ w := (0, w);
  tickdelay_us _ w := w
|}.

#[export] Instance gallery_irq : Irq gallery := {|
  sys_irqsetpolicy _ _ hook w := ((0, hook), w);
  sys_irqrmpolicy hook w := ((0, hook), w)
|}.

#[export] Instance gallery_lcf : Lcf gallery := {|
  kbd_print_scancode _ _ _ w := (0, w);
  kbd_print_no_sysinb _ w := (0, w);
  timer_print_config _ _ _ w := (0, w);
  timer_print_elapsed_time w := (0, w);
  mouse_print_packet _ w := w;
  mouse_enable_data_reporting w := (0, w);
  minix_get_dflt_kbc_cmd_byte w := (0x47, w)
|}.

#[export] Instance gallery_display : Display gallery := {|
  vbe_get_mode_info _ w := ((0, mode_0x115), w);
  sys_privctl_add_mem _ _ w := (0, w);
  malloc _ w := (true, w);
  free w := w;
  vm_map_phys _ _ w := (true, w);
  sys_int86 _ _ _ w := (0, w);
  vg_exit w := (0, w);
  xpm_load m t w := (read_pixmap m t, w)
|}.

#[export] Instance gallery_libc : Libc gallery := {|
  srand_time w := w;
  rand w := (0, w);
  sleep _ w := w
|}.

#[export] Instance gallery_messages : Messages gallery := {|
  driver_receive w := (Receive 0 true true 1, w)
|}.

Lemma pixmap_byte_at m i j k color :
  0 <= i < columns m -> 0 <= k < 3 -> pixel_of m i j = Some color ->
  pixmap_byte m ((i + columns m * j) * 3 + k) = Z.shiftr color (8 * k).
Proof.
  intros Hi Hk Hp. unfold pixmap_byte.
  replace (((i + columns m * j) * 3 + k) / 3) with (i + columns m * j) by (Z.div_mod_to_equations; lia).
  replace (((i + columns m * j) * 3 + k) mod 3) with k by (Z.div_mod_to_equations; lia).
  rewrite (Z.mul_comm (columns m)), Z.mod_add, Z.mod_small, Z.div_add, Z.div_small, Z.add_0_l by lia.
  by rewrite Hp.
Qed.

#[export] Instance gallery_reads : XpmReads gallery.
Proof.
  split. intros m w Hin. split; [split_and!; [by eexists|done..]|]. intros i j color Hi Hj Hp.
  unfold img_px, sprite_color, bytes_of_color, color_of. cbn [xpm_load gallery_display read_pixmap fst bytes_of take].
  rewrite <- (Z.add_0_r ((i + columns m * j) * 3)) at 1.
  rewrite !(pixmap_byte_at m i j _ color) by (lia || done). by rewrite Z.mul_0_r, Z.shiftr_0_r.
Qed.

Definition gallery_image (m : xpm_map_t) : xpm_image_t := read_pixmap m XPM_8_8_8.
Definition gallery_sprites : sprites :=
  Sprites (gallery_image Game.gameName) (gallery_image Game.mouse_cursor) (gallery_image Game.heart)
    (gallery_image Game.victory) (gallery_image Game.game_over) (gallery_image Game.instructions)
    (gallery_image Game.moon) (gallery_image Game.sun) (gallery_image Game.background).

(** Covered cards but for the one at place 3, two lives, the cursor in the corner. *)
Definition gallery_game : game_st :=
  GameSt (<[3%nat := new_card 4 2]> (replicate 16 (set_isFlipped true (new_card 7 1))))
    (set_lives 2 initializePlayer) 1 (replicate 16 0) create_mouse gallery_sprites.

Definition gallery_state (l : loop_st) : main_st gallery :=
  MainSt (TimerSt 1 0) kbd_init_st mouse_init_st rtc_init_st gallery_game test_video l Gallery.

Definition menu_gallery : main_st gallery := gallery_state loop_init_st.
Definition game_gallery : main_st gallery := gallery_state (set_gs Game (set_initGame false loop_init_st)).

Lemma gallery_sprites_ok : sprites_ok gallery_sprites.
Proof.
  assert (forall m, img_ok (gallery_image m) (columns m) (rows m)) as Hi by (intros m; split_and!; [by eexists|done..]).
  exact (conj (Hi _) (conj (Hi _) (conj (Hi _) (conj (Hi _) (conj (Hi _) (conj (Hi _) (conj (Hi _) (conj (Hi _) (Hi _))))))))).
Qed.

Lemma gallery_depicts : sprites_depict gallery_sprites.
Proof.
  pose proof pictures_in_art as Hp. rewrite !Forall_cons in Hp. destruct Hp as (Hn & Hc & Hh & Hm & Hs & _).
  exact (conj (xpm_reads _ Gallery Hn) (conj (xpm_reads _ Gallery Hc) (conj (xpm_reads _ Gallery Hh)
    (conj (xpm_reads _ Gallery Hm) (xpm_reads _ Gallery Hs))))).
Qed.

Lemma gallery_ready l : tick_ready (gallery_state l).
Proof.
  refine (conj test_video_ok (conj gallery_sprites_ok _)). cbn. unfold INT_MAX. repeat split; done || lia.
Qed.

Lemma game_gallery_still : still_scene (at_tick Gallery game_gallery).
Proof.
  split; [|split; [|split; [|split; [|split]]]].
  - apply (bool_decide_unpack _). vm_compute. exact I.
  - apply (bool_decide_unpack _). vm_compute. exact I.
  - cbn. lia.
  - reflexivity.
  - reflexivity.
  - exists 3%nat. intros j c Hj Hc. cbn in Hc. repeat (destruct j as [|j]; [by injection Hc as <-|]). done.
Qed.

Lemma ticks_show_scenes_witness :
  (exists s', handle_message 0 2 1 4 menu_gallery = Done tt s' /\
    monitor (scene menu_gallery ++ [cursor_layer create_mouse]) test_video (ms_video s')) /\
  (exists s', handle_message 0 2 1 4 game_gallery = Done tt s' /\
    monitor (scene game_gallery ++ [cursor_layer create_mouse]) test_video (ms_video s')).
Proof.
  split.
  - exact (ticks_show_scenes 0 2 1 4 (Receive 0 true true 1) Gallery menu_gallery eq_refl
      ltac:(by split_and!) (gallery_ready _) gallery_depicts ltac:(by vm_compute) ltac:(by vm_compute) I).
  - exact (ticks_show_scenes 0 2 1 4 (Receive 0 true true 1) Gallery game_gallery eq_refl
      ltac:(by split_and!) (gallery_ready _) gallery_depicts ltac:(by vm_compute) ltac:(by vm_compute)
      game_gallery_still).
Defined.

Lemma exit_leaves_the_loop_witness :
  exists s', main_loop 2 2 1 4 (gallery_state (set_gs Exit loop_init_st)) = Done tt s' /\
    condition (ms_loop s') = false /\ ms_game s' = gallery_game /\ frame_ok (ms_video s') /\
    forall x y, on_screen mode_0x115 x y ->
      Video.shown (ms_video s') x y = default (bytes_of_color GREEN) (cursor_layer create_mouse x y).
Proof.
  exact (exit_leaves_the_loop 0 2 1 4 (Receive 0 true true 1) Gallery (gallery_state (set_gs Exit loop_init_st))
    eq_refl ltac:(by split_and!) (gallery_ready _) gallery_depicts ltac:(by vm_compute) ltac:(by vm_compute)
    eq_refl eq_refl eq_refl eq_refl).
Defined.

(** Colors on the monitor: the stem of the letter P of the menu is white, and the two
    hearts of the game are red, with nothing but the background behind them. *)
Example menu_letter : stack (scene menu_gallery) 350 310 = Some (bytes_of_color white).
Proof. vm_compute. reflexivity. Qed.

Example two_hearts :
  map (fun x => bool_decide (stack (scene game_gallery) x 20 = Some (bytes_of_color 0xED1C24))) [25; 60; 95] =
    [true; true; false].
Proof. vm_compute. reflexivity. Qed.
