(* ===== verification/Lifecycle.v ===== *)
(** What the program takes from the kernel and gives back: the subscriptions of
    interrupt lines and the graphics mode, over a whole run of [proj_main_loop],
    its set-up, its messages and its tear-down. *)
From S2P Require Import Prelude Env Utils Timer Rtc I8042 Keyboard Mouse Video Cards Game Flip MainLoop.

(** ** The account

    What the kernel has on record for the process: the hooks of its subscriptions,
    and whether it has switched the screen to a graphics mode. *)
Record account : Type := Account { held : gset Z; in_graphics : bool }.

Definition clean : account := Account ∅ false.
Definition hold (h : Z) (a : account) : account := Account (union {[h]} (held a)) (in_graphics a).
Definition release (h : Z) (a : account) : account := Account (difference (held a) {[h]}) (in_graphics a).
Definition switch (b : bool) (a : account) : account := Account (held a) b.

Class Kernel (W : Type) : Type := { account_of : W -> account }.

(** The calls that change the account do so when they succeed: a subscription gets
    a hook that is not in use, and the BIOS call 0x4F02 sets a graphics mode. *)
Class KernelLaws (W : Type) `{PortIO W, Irq W, Lcf W, Display W, Libc W, Messages W} `{!Kernel W} : Prop := {
  policy_set : forall line policy h (w : W),
    let '((r, h'), w') := sys_irqsetpolicy line policy h w in
    if r =? 0 then (h' ∉ held (account_of w)) /\ account_of w' = hold h' (account_of w)
    else account_of w' = account_of w;
  policy_removed : forall h (w : W),
    let '((r, _), w') := sys_irqrmpolicy h w in
    account_of w' = if r =? 0 then release h (account_of w) else account_of w;
  mode_set : forall bx (w : W),
    let '(r, w') := sys_int86 0x10 0x4F02 bx w in
    account_of w' = if r =? 0 then switch true (account_of w) else account_of w;
  mode_left : forall w : W,
    let '(r, w') := vg_exit w in account_of w' = if r =? 0 then switch false (account_of w) else account_of w;
  keep_inb : forall p (w : W), account_of (sys_inb p w).2 = account_of w;
  keep_outb : forall p v (w : W), account_of (sys_outb p v w).2 = account_of w;
  keep_delay : forall t (w : W), account_of (tickdelay_us t w) = account_of w;
  keep_reporting : forall w : W, account_of (mouse_enable_data_reporting w).2 = account_of w;
  keep_mode_info : forall m (w : W), account_of (vbe_get_mode_info m w).2 = account_of w;
  keep_privctl : forall b l (w : W), account_of (sys_privctl_add_mem b l w).2 = account_of w;
  keep_malloc : forall n (w : W), account_of (malloc n w).2 = account_of w;
  keep_free : forall w : W, account_of (free w) = account_of w;
  keep_map : forall b n (w : W), account_of (vm_map_phys b n w).2 = account_of w;
  keep_xpm : forall m t (w : W), account_of (xpm_load m t w).2 = account_of w;
  keep_srand : forall w : W, account_of (srand_time w) = account_of w;
  keep_rand : forall w : W, account_of (rand w).2 = account_of w;
  keep_sleep : forall n (w : W), account_of (sleep n w) = account_of w;
  keep_receive : forall w : W, account_of (driver_receive w).2 = account_of w
}.

(** ** Code that leaves the account alone *)
Section Same.
Context {W : Type} `{!Kernel W}.

Definition same_account (w w' : W) : Prop := account_of w' = account_of w.

(** A driver, which also keeps its hook. *)
Definition same_hook {C} (hook : C -> Z) (s s' : C * W) : Prop :=
  hook s'.1 = hook s.1 /\ same_account s.2 s'.2.

Definition game_account (s s' : game_st * (video_st * W)) : Prop := same_account s.2.2 s'.2.2.

Definition main_account (s s' : main_st W) : Prop :=
  hook_id_kbd (ms_kbd s') = hook_id_kbd (ms_kbd s) /\ hook_id_mouse (ms_mouse s') = hook_id_mouse (ms_mouse s) /\
  hook_id2 (ms_timer s') = hook_id2 (ms_timer s) /\ same_account (ms_world s) (ms_world s').

#[export] Instance same_account_preorder : PreOrder same_account.
Proof. split; unfold same_account; [by intros w|intros w1 w2 w3; congruence]. Qed.
#[export] Instance same_hook_preorder {C} (hook : C -> Z) : PreOrder (same_hook hook).
Proof. split; unfold same_hook; [by intros s|intros s1 s2 s3 [? ?] [? ?]; split; [congruence|by etransitivity]]. Qed.
#[export] Instance game_account_preorder : PreOrder game_account.
Proof. split; unfold game_account; [by intros s|intros s1 s2 s3 ??; by etransitivity]. Qed.
#[export] Instance main_account_preorder : PreOrder main_account.
Proof.
  split; unfold main_account; [by intros s|intros s1 s2 s3 (? & ? & ? & ?) (? & ? & ? & ?)].
  split_and!; [congruence..|by etransitivity].
Qed.

Lemma same_call {A} (f : W -> A * W) : (forall w, account_of (f w).2 = account_of w) -> keeps_rel same_account (call f).
Proof. intros Hf w. unfold wlp, call. specialize (Hf w). by destruct (f w). Qed.

Lemma same_modify (f : W -> W) : (forall w, account_of (f w) = account_of w) -> keeps_rel same_account (modify f).
Proof. intros Hf. apply keeps_rel_modify, Hf. Qed.

(** The world inside a driver, and a driver's own variables. *)
Lemma hook_world {C A} (hook : C -> Z) (m : M W A) :
  keeps_rel same_account m -> keeps_rel (same_hook hook) (zoom snd_lens m).
Proof. intros Hm. apply (keeps_rel_zoom _ _ same_account); [done|]. by intros [c w] w' Hw. Qed.

Lemma hook_modify {C} (hook : C -> Z) (f : C * W -> C * W) :
  (forall s, same_hook hook s (f s)) -> keeps_rel (same_hook hook) (modify f).
Proof. apply keeps_rel_modify. Qed.
End Same.

#[export] Hint Resolve hook_world : c_rel.
#[export] Hint Extern 2 (keeps_rel same_account (call _)) => apply same_call; intros; first
  [ apply keep_inb | apply keep_outb | apply keep_reporting | apply keep_mode_info | apply keep_privctl
  | apply keep_malloc | apply keep_map | apply keep_xpm | apply keep_rand | apply keep_receive ] : c_rel.
#[export] Hint Extern 2 (keeps_rel same_account (modify _)) => apply same_modify; intros; first
  [ apply keep_delay | apply keep_free | apply keep_srand | apply keep_sleep ] : c_rel.
#[export] Hint Extern 2 (keeps_rel (same_hook _) (modify _)) => apply hook_modify; intros; by split : c_rel.
#[export] Hint Extern 2 (keeps_rel (same_hook _) (kbd_modify _)) => apply hook_modify; intros; by split : c_rel.
#[export] Hint Extern 2 (keeps_rel (same_hook _) (mouse_modify _)) => apply hook_modify; intros; by split : c_rel.
#[export] Hint Extern 2 (keeps_rel (same_hook _) (video_modify _)) => apply hook_modify; intros; by split : c_rel.
#[export] Hint Extern 2 (keeps_rel game_account (game_modify _)) => apply keeps_rel_modify; intros; reflexivity : c_rel.

Section Code.
Context {W : Type} `{PortIO W, Irq W, Lcf W, Display W, Libc W, Messages W} `{!Kernel W, !KernelLaws W}.

(** *** The drivers *)
Lemma same_util_sys_inb p : keeps_rel (same_account (W := W)) (util_sys_inb p).
Proof. intros w. unfold wlp. rewrite util_sys_inb_eq. apply keep_inb. Qed.
#[local] Hint Resolve same_util_sys_inb : c_rel.

Lemma same_kbc_ih : keeps_rel (same_hook (W := W) hook_id_kbd) kbc_ih.
Proof. unfold kbc_ih, read_scancode. rel_all. Qed.

Lemma same_timer_int_handler : keeps_rel (same_hook (W := W) hook_id2) timer_int_handler.
Proof. unfold timer_int_handler. rel_all. Qed.

Lemma same_mouse_event fuel : keeps_rel (same_hook (W := W) hook_id_mouse) (mouse_event fuel).
Proof.
  unfold mouse_event, mouse_ih, mouse_ih_body, print_mouse_packet, read_read_packet, counter_incr. rel_all.
Qed.

Lemma same_disable fuel : keeps_rel (same_account (W := W)) (disable_mouse_data fuel).
Proof.
  unfold disable_mouse_data, write_argument_to_mouse, write_command_body, write_argument_body. rel_all.
Qed.

Lemma same_read_reg r : keeps_rel (same_account (W := W)) (read_reg r).
Proof. unfold read_reg. rel_all. Qed.
#[local] Hint Resolve same_read_reg : c_rel.

Lemma same_get_date : keeps_rel (same_hook (W := W) rtc_hook_id) get_date.
Proof. unfold get_date. rel_all. Qed.

(** *** The deal *)
Lemma same_deal_pairs fuel first second i : keeps_rel (same_account (W := W)) (deal_pairs fuel first second i).
Proof.
  revert first second i. induction fuel as [|fuel IH]; intros first second i; cbn [deal_pairs]; [by intros w|].
  unfold draw_pair, deal_inner, int_get. rel_all.
Qed.

Lemma same_deal fuel cards : keeps_rel (same_account (W := W)) (initialize_game_cards fuel cards).
Proof.
  unfold initialize_game_cards, fill_board, shuffle, int_get. rel_all; apply same_deal_pairs.
Qed.

(** *** The game *)
Lemma game_on_video {A} (m : M video_st A) : keeps_rel (game_account (W := W)) (on_video m).
Proof. apply (keeps_rel_zoom _ _ (fun _ _ => True)); [intros v; apply wlp_inv; done|]. by intros [g [v w]] v' _. Qed.

Lemma game_on_world {A} (m : M W A) : keeps_rel same_account m -> keeps_rel (game_account (W := W)) (on_world m).
Proof. intros Hm. apply (keeps_rel_zoom _ _ same_account); [done|]. by intros [g [v w]] w' Hw. Qed.
#[local] Hint Resolve game_on_video game_on_world : c_rel.

Lemma game_draw_image img x y : keeps_rel (game_account (W := W)) (draw_image img x y).
Proof. unfold draw_image, get_mode. rel_all. Qed.
#[local] Hint Resolve game_draw_image : c_rel.

Lemma game_draw_word x y l : keeps_rel (game_account (W := W)) (draw_word x y l).
Proof. revert x. induction l as [|c l IH]; intros x; cbn [draw_word]; unfold draw_letter; rel_all. Qed.
#[local] Hint Resolve game_draw_word : c_rel.

Lemma game_card i c : keeps_rel (game_account (W := W)) (get_card i) /\ keeps_rel (game_account (W := W)) (put_card i c).
Proof. split; unfold get_card, put_card, game_gets; rel_all. Qed.
Lemma game_side i c : keeps_rel (game_account (W := W)) (get_side i) /\ keeps_rel (game_account (W := W)) (put_side i c).
Proof. split; unfold get_side, put_side, game_gets; rel_all. Qed.
#[local] Hint Extern 2 (keeps_rel game_account (get_card _)) => apply (game_card _ (new_card 0 0)) : c_rel.
#[local] Hint Extern 2 (keeps_rel game_account (put_card _ _)) => apply game_card : c_rel.
#[local] Hint Extern 2 (keeps_rel game_account (get_side _)) => apply (game_side _ 0) : c_rel.
#[local] Hint Extern 2 (keeps_rel game_account (put_side _ _)) => apply game_side : c_rel.

Lemma game_flip : keeps_rel (game_account (W := W)) flipACardUp /\ keeps_rel (game_account (W := W)) flipACardDown.
Proof.
  split; unfold flipACardUp, flipACardDown, flip_cards, flip_front, flip_back, flip_width, flip_finish, add_width,
    quot_, get_mode, game_gets; rel_all.
Qed.

Lemma game_board : keeps_rel (game_account (W := W)) draw_game_cards.
Proof.
  destruct game_flip. unfold draw_game_cards, drawBackground, draw_card_at, get_mode, game_gets. rel_all.
Qed.

Lemma game_click : keeps_rel (game_account (W := W)) flipCardOnClick.
Proof.
  unfold flipCardOnClick. rel_all. generalize (None : option Z). induction click_order as [|[x y] l IH]; intros pos;
    cbn [click_cards]; unfold get_mode, game_gets; rel_all.
Qed.

Lemma game_pictures :
  keeps_rel (game_account (W := W)) draw_mouse /\ keeps_rel (game_account (W := W)) draw_menu /\ keeps_rel (game_account (W := W)) draw_pause /\
  keeps_rel (game_account (W := W)) draw_victory /\ keeps_rel (game_account (W := W)) draw_game_over /\ keeps_rel (game_account (W := W)) drawMoon /\
  keeps_rel (game_account (W := W)) drawSun /\ keeps_rel (game_account (W := W)) drawInstructions /\ keeps_rel (game_account (W := W)) drawHearts.
Proof.
  split_and!; unfold draw_mouse, draw_menu, draw_pause, draw_victory, draw_game_over, draw_centred, drawMoon,
    drawSun, drawInstructions, drawHearts, get_mode, game_gets; rel_all.
Qed.

(** *** The main loop *)
Lemma main_in_game {A} (m : M (game_st * (video_st * W)) A) : keeps_rel game_account m -> keeps_rel main_account (in_game m).
Proof. intros Hm. apply (keeps_rel_zoom _ _ game_account); [done|]. intros s [g [v w]] Hw. by split_and!. Qed.

Lemma main_in_world {A} (m : M W A) : keeps_rel same_account m -> keeps_rel main_account (in_world m).
Proof. intros Hm. apply (keeps_rel_zoom _ _ same_account); [done|]. intros s w Hw. by split_and!. Qed.

Lemma main_in_kbd {A} (m : M (kbd_st * W) A) : keeps_rel (same_hook hook_id_kbd) m -> keeps_rel main_account (in_kbd m).
Proof. intros Hm. apply (keeps_rel_zoom _ _ (same_hook hook_id_kbd)); [done|]. intros s [c w] [Hc Hw]. by split_and!. Qed.

Lemma main_in_mouse {A} (m : M (mouse_st * W) A) :
  keeps_rel (same_hook hook_id_mouse) m -> keeps_rel main_account (in_mouse m).
Proof. intros Hm. apply (keeps_rel_zoom _ _ (same_hook hook_id_mouse)); [done|]. intros s [c w] [Hc Hw]. by split_and!. Qed.

Lemma main_in_timer {A} (m : M (timer_st * W) A) : keeps_rel (same_hook hook_id2) m -> keeps_rel main_account (in_timer m).
Proof. intros Hm. apply (keeps_rel_zoom _ _ (same_hook hook_id2)); [done|]. intros s [c w] [Hc Hw]. by split_and!. Qed.

Lemma main_in_rtc {A} (m : M (rtc_st * W) A) : keeps_rel (same_hook rtc_hook_id) m -> keeps_rel main_account (in_rtc m).
Proof. intros Hm. apply (keeps_rel_zoom _ _ (same_hook rtc_hook_id)); [done|]. intros s [c w] [_ Hw]. by split_and!. Qed.

Lemma main_in_video {A} (m : M (video_st * W) A) :
  keeps_rel (same_hook (fun _ => 0)) m -> keeps_rel main_account (in_video m).
Proof. intros Hm. apply (keeps_rel_zoom _ _ (same_hook (fun _ => 0))); [done|]. intros s [c w] [_ Hw]. by split_and!. Qed.

Lemma main_draw {A} (m : M video_st A) : keeps_rel (main_account (W := W)) (draw m).
Proof.
  unfold draw. apply keeps_rel_bind; [typeclasses eauto| |intros; rel_all]. intros s. apply wlp_zoom, wlp_zoom, wlp_inv.
  intros a v _. by split_and!.
Qed.

Lemma main_upd (f : main_st W -> main_st W) :
  (forall s, main_account s (f s)) -> keeps_rel main_account (modify f).
Proof. apply keeps_rel_modify. Qed.
End Code.

#[export] Hint Resolve main_in_game main_in_world main_in_kbd main_in_mouse main_in_timer main_in_rtc main_draw
  : c_rel.
#[export] Hint Extern 2 (keeps_rel same_account (initialize_game_cards _ _)) => apply same_deal : c_rel.
#[export] Hint Extern 2 (keeps_rel same_account (disable_mouse_data _)) => apply same_disable : c_rel.
#[export] Hint Extern 2 (keeps_rel (same_hook _) kbc_ih) => apply same_kbc_ih : c_rel.
#[export] Hint Extern 2 (keeps_rel (same_hook _) timer_int_handler) => apply same_timer_int_handler : c_rel.
#[export] Hint Extern 2 (keeps_rel (same_hook _) (mouse_event _)) => apply same_mouse_event : c_rel.
#[export] Hint Extern 2 (keeps_rel (same_hook _) get_date) => apply same_get_date : c_rel.
#[export] Hint Extern 2 (keeps_rel game_account draw_game_cards) => apply game_board : c_rel.
#[export] Hint Extern 2 (keeps_rel game_account flipCardOnClick) => apply game_click : c_rel.
#[export] Hint Extern 2 (keeps_rel main_account (upd_loop _)) => apply main_upd; intros; by split_and! : c_rel.
#[export] Hint Extern 2 (keeps_rel main_account (upd_kbd _)) => apply main_upd; intros; by split_and! : c_rel.
#[export] Hint Extern 2 (keeps_rel main_account (upd_timer _)) => apply main_upd; intros; by split_and! : c_rel.
#[export] Hint Extern 2 (keeps_rel main_account (upd_mouse _)) => apply main_upd; intros; by split_and! : c_rel.
#[export] Hint Extern 2 (keeps_rel main_account (upd_game _)) => apply main_upd; intros; by split_and! : c_rel.
#[export] Hint Extern 2 (keeps_rel main_account (upd_video _)) => apply main_upd; intros; by split_and! : c_rel.

Section Messages.
Context {W : Type} `{PortIO W, Irq W, Lcf W, Display W, Libc W, Messages W} `{!Kernel W, !KernelLaws W}.

Lemma main_pictures :
  keeps_rel (main_account (W := W)) (in_game draw_mouse) /\ keeps_rel (main_account (W := W)) (in_game draw_menu) /\
  keeps_rel (main_account (W := W)) (in_game draw_pause) /\ keeps_rel (main_account (W := W)) (in_game draw_victory) /\
  keeps_rel (main_account (W := W)) (in_game draw_game_over) /\ keeps_rel (main_account (W := W)) (in_game drawMoon) /\
  keeps_rel (main_account (W := W)) (in_game drawSun) /\ keeps_rel (main_account (W := W)) (in_game drawInstructions) /\
  keeps_rel (main_account (W := W)) (in_game drawHearts).
Proof. pose proof (game_pictures (W := W)) as P. split_and!; apply main_in_game, P. Qed.

Lemma main_card i c :
  keeps_rel (main_account (W := W)) (in_game (get_card i)) /\ keeps_rel (main_account (W := W)) (in_game (put_card i c)).
Proof. split; apply main_in_game, game_card. exact (new_card 0 0). Qed.

Lemma main_change i f : keeps_rel (main_account (W := W)) (change_card i f).
Proof.
  unfold change_card. apply keeps_rel_bind; [typeclasses eauto| |intros c]; apply main_card. exact (new_card 0 0).
Qed.

Lemma main_new_game fuel : keeps_rel (main_account (W := W)) (new_game fuel).
Proof. unfold new_game. rel_all. Qed.

Lemma main_set_flipping :
  keeps_rel (main_account (W := W)) (in_game (for_range 0 16 (fun i => let* c := get_card i in put_card i (set_isFlipping true c)))).
Proof. apply main_in_game. rel_step. rel_step; [apply (game_card _ (new_card 0 0))|apply game_card]. Qed.

Lemma main_ticks fuel :
  keeps_rel (main_account (W := W)) tick_menu /\ keeps_rel (main_account (W := W)) tick_game /\
  keeps_rel (main_account (W := W)) tick_pause /\ keeps_rel (main_account (W := W)) tick_instructions /\
  keeps_rel (main_account (W := W)) (tick_exit fuel).
Proof.
  destruct main_pictures as (P1 & P2 & P3 & P4 & P5 & P6 & P7 & P8 & P9).
  pose proof main_set_flipping as Hset. pose proof main_change as Hch. pose proof (main_new_game fuel) as Hnew.
  pose proof (fun i => proj1 (main_card i (new_card 0 0))) as Hget.
  split_and!; unfold tick_menu, tick_game, tick_init_game, tick_play, tick_click, tick_match, match_card, lose_life,
    tick_end, tick_pause, tick_instructions, tick_exit; rel_all.
Qed.

Lemma main_message fuel i1 i2 i3 : keeps_rel (main_account (W := W)) (handle_message fuel i1 i2 i3).
Proof.
  destruct main_pictures as (P1 & _). destruct (main_ticks fuel) as (T1 & T2 & T3 & T4 & T5).
  unfold handle_message, mouse_interrupt, timer_tick. rel_all.
  apply main_in_game. unfold update_mouse_position, get_mode, game_gets, move_x, move_y. rel_all.
Qed.

Lemma main_messages fuel i1 i2 i3 : keeps_rel (main_account (W := W)) (main_loop fuel i1 i2 i3).
Proof.
  unfold main_loop. rel_step. rel_step; [apply keeps_rel_gets; typeclasses eauto|]. rel_step; [|apply keeps_rel_ret; typeclasses eauto].
  rel_step; [apply main_message|apply keeps_rel_ret; typeclasses eauto].
Qed.

Lemma main_load : keeps_rel (main_account (W := W)) load_images.
Proof. unfold load_images. rel_all. Qed.
End Messages.

(** ** Taking and giving back *)

(** The hooks of the process, and whether the screen is in a graphics mode. *)
Definition owns {W} `{!Kernel W} (ks : list Z) (g : bool) (w : W) : Prop :=
  account_of w = Account (list_to_set ks) g /\ NoDup ks.

Section Owns.
Context {W : Type} `{!Kernel W}.

Lemma owns_clean (w : W) : account_of w = clean <-> owns [] false w.
Proof. unfold owns. simpl. split; [intros ->; split; [done|constructor]|by intros [-> _]]. Qed.

Lemma owns_dirty ks g (w : W) : owns ks g w -> ks <> [] \/ g = true -> account_of w <> clean.
Proof.
  intros [-> _] Hd [= E Eg]. destruct Hd as [Hk|Hg]; [|congruence]. destruct ks as [|k ks]; [done|]. set_solver.
Qed.

Lemma owns_same ks g (w w' : W) : owns ks g w -> same_account w w' -> owns ks g w'.
Proof. intros [E Hn] Hs. split; [by rewrite Hs|done]. Qed.

Lemma owns_hold k ks g (w w' : W) :
  owns ks g w -> k ∉ held (account_of w) -> account_of w' = hold k (account_of w) -> owns (k :: ks) g w'.
Proof.
  intros [E Hn] Hk Ew. rewrite E in *. split; [done|]. constructor; [|done]. intros Hin. apply Hk. simpl.
  by apply elem_of_list_to_set.
Qed.

Lemma owns_release k ks1 ks2 g (w w' : W) :
  owns (ks1 ++ k :: ks2) g w -> account_of w' = release k (account_of w) -> owns (ks1 ++ ks2) g w'.
Proof.
  intros [E Hn] Ew. apply NoDup_app in Hn as (H1 & H12 & [Hk H2]%NoDup_cons).
  split; [|apply NoDup_app; split_and!; [done| |done]; intros x Hx Hx2; by apply (H12 x Hx); right].
  rewrite Ew, E. unfold release. simpl. f_equal. apply leibniz_equiv. intros x. rewrite elem_of_difference, !elem_of_list_to_set,
    !elem_of_app, elem_of_cons, elem_of_singleton. split; [intuition|].
  intros [Hx|Hx]; (split; [tauto|]); intros ->; [by apply (H12 k Hx); left|done].
Qed.

Lemma owns_switch b ks g (w w' : W) : owns ks g w -> account_of w' = switch b (account_of w) -> owns ks b w'.
Proof. intros [E Hn] Ew. split; [by rewrite Ew, E|done]. Qed.
End Owns.

Section Drivers.
Context {W : Type} `{PortIO W, Irq W, Lcf W, Display W, Libc W, Messages W} `{!Kernel W, !KernelLaws W}.

(** A driver subscribes a line: it is accepted or refused by the kernel, and its new
    hook is then in the driver's variable. *)
Definition subscribes {C} (hook : C -> Z) (line : Z) (m : M (C * W) (Z * Z)) : Prop := forall s ks g,
  owns ks g s.2 ->
  wp m (fun a s' => (exists policy h, (a.1 =? 0) = ((sys_irqsetpolicy line policy h s.2).1.1 =? 0)) /\
    owns (if a.1 =? 0 then hook s'.1 :: ks else ks) g s'.2) s.

Definition unsubscribes {C} (hook : C -> Z) (m : M (C * W) Z) : Prop := forall s,
  wp m (fun r s' => account_of s'.2 = if r =? 0 then release (hook s.1) (account_of s.2) else account_of s.2) s.

Lemma policy_owns line policy h r h' (w w' : W) ks g :
  sys_irqsetpolicy line policy h w = ((r, h'), w') -> owns ks g w -> owns (if r =? 0 then h' :: ks else ks) g w'.
Proof.
  intros E Ho. pose proof (policy_set line policy h w) as Hp. rewrite E in Hp. destruct (r =? 0).
  - destruct Hp. by eapply owns_hold.
  - by eapply owns_same.
Qed.

(** The three drivers make the same calls. *)
Ltac driver_subscribes :=
  intros [c w] ks g Ho; apply wp_bind, wp_modify, wp_bind, wp_gets, wp_bind, wp_zoom, wp_call;
  cbn [lget lset snd_lens fst snd]; destruct (sys_irqsetpolicy _ _ _ w) as [[r h'] w'] eqn:E;
  apply wp_bind, wp_modify; pose proof (policy_owns _ _ _ _ _ _ _ _ _ E Ho) as Ho'; cbn [fst snd];
  destruct (r =? 0) eqn:Er; apply wp_ret; (split; [do 2 eexists; by rewrite E|done]).

Lemma kbd_subscribes : subscribes hook_id_kbd IRQ1 kbc_subscribe.
Proof. driver_subscribes. Qed.

Lemma timer_subscribes : subscribes hook_id2 TIMER0_IRQ timer_subscribe_int.
Proof. driver_subscribes. Qed.

Lemma mouse_subscribes : subscribes hook_id_mouse IRQ12 mouse_subscribe.
Proof. driver_subscribes. Qed.

Ltac driver_unsubscribes :=
  intros [c w]; apply wp_bind, wp_gets, wp_bind, wp_zoom, wp_call; cbn [lget lset snd_lens fst snd];
  match goal with |- context [sys_irqrmpolicy ?h w] => pose proof (policy_removed h w) as Hp;
    destruct (sys_irqrmpolicy h w) as [[r h'] w'] end;
  apply wp_bind, wp_modify; cbn [fst snd];
  match goal with |- context [negb (?b)] => destruct b end; apply wp_ret; cbn [snd Z.eqb]; assumption.

Lemma kbd_unsubscribes : unsubscribes hook_id_kbd kbc_unsubscribe.
Proof. driver_unsubscribes. Qed.

Lemma timer_unsubscribes : unsubscribes hook_id2 timer_unsubscribe_int.
Proof. driver_unsubscribes. Qed.

Lemma mouse_unsubscribes : unsubscribes hook_id_mouse mouse_unsubscribe.
Proof. driver_unsubscribes. Qed.

(** A step that leaves the account. *)
Lemma wlp_owns_bind {C A B} (m : M (C * W) A) (k : A -> M (C * W) B) ks g Q s :
  keeps_rel (same_hook (fun _ => 0)) m -> owns ks g s.2 -> (forall a s', owns ks g s'.2 -> wlp (k a) Q s') ->
  wlp (bind m k) Q s.
Proof.
  intros Hm Ho Hk. apply wlp_bind. eapply wlp_mono; [apply Hm|]. intros a s' [_ Hs]. by eapply Hk, owns_same.
Qed.

(** [vg_start] sets the mode when it returns 0; when it returns another value the
    screen is as it was. *)
Lemma wlp_vg_start_owns mode (s : video_st * W) ks g :
  owns ks g s.2 -> wlp (vg_start mode) (fun r s' => owns ks (if r =? 0 then true else g) s'.2) s.
Proof.
  intros Ho. unfold vg_start.
  eapply wlp_owns_bind; [rel_all|done|]. intros [r0 info] s1 H1'.
  eapply wlp_owns_bind; [rel_all|done|]. intros _ s2 H2'.
  eapply wlp_owns_bind; [rel_all|done|]. intros m s3 H3'. cbv zeta.
  eapply wlp_owns_bind; [rel_all|done|]. intros xy s4 H4'.
  eapply wlp_owns_bind; [rel_all|done|]. intros n s5 H5'.
  eapply wlp_owns_bind; [rel_all|done|]. intros r s6 H6'. case_match; [done|].
  eapply wlp_owns_bind; [rel_all|done|]. intros ok s7 H7'.
  eapply wlp_owns_bind; [rel_all|done|]. intros _ s8 H8'.
  eapply wlp_owns_bind; [rel_all|done|]. intros mapped s9 H9'.
  eapply wlp_owns_bind; [rel_all|done|]. intros _ [v w] H10'. cbn [snd] in H10'.
  pose proof (mode_set (Z.lor (BIT 14) mode) w) as Hset. apply wlp_bind, wlp_zoom.
  unfold wlp at 1, call. cbn [lget lset snd_lens snd].
  destruct (sys_int86 _ _ _ w) as [r' w']. destruct (r' =? 0) eqn:Er; cbn [negb].
  - apply wlp_bind, wlp_gets. case_match; [|done]. apply wlp_ret. cbn. by eapply owns_switch.
  - apply wlp_ret. cbn. by eapply owns_same.
Qed.
End Drivers.

(** ** The program *)
Section Program.
Context {W : Type} `{PortIO W, Irq W, Lcf W, Display W, Libc W, Messages W} `{!Kernel W, !KernelLaws W}.
Implicit Types s : main_st W.

(** A step that leaves the account and the hooks. *)
Lemma wlp_main_bind {A B} (m : M (main_st W) A) (k : A -> M (main_st W) B) Q s ks g :
  keeps_rel main_account m -> owns ks g (ms_world s) ->
  (forall a s', main_account s s' -> owns ks g (ms_world s') -> wlp (k a) Q s') -> wlp (bind m k) Q s.
Proof.
  intros Hm Ho Hk. apply wlp_bind. eapply wlp_mono; [apply Hm|]. intros a s' Hs. apply Hk; [done|].
  eapply owns_same; [done|]. apply Hs.
Qed.

Ltac main_step :=
  match goal with Ho : owns _ _ (ms_world ?s) |- wlp (bind _ _) _ ?s =>
    eapply wlp_main_bind; [first [apply main_load|rel_all]|exact Ho|]; clear Ho; intros ? ? _ ?
  end.

(** The hooks of the three drivers. *)
Definition hooks s : Z * Z * Z := (hook_id_kbd (ms_kbd s), hook_id2 (ms_timer s), hook_id_mouse (ms_mouse s)).

Lemma main_account_hooks s s' : main_account s s' -> hooks s' = hooks s.
Proof. intros (Hk & Hm & Ht & _). unfold hooks. congruence. Qed.

Lemma wp_kbd_subscribes (Q : Z * Z -> main_st W -> Prop) s ks g :
  owns ks g (ms_world s) ->
  (forall a s', (exists policy h, (a.1 =? 0) = ((sys_irqsetpolicy IRQ1 policy h (ms_world s)).1.1 =? 0)) ->
     hooks s' = (hook_id_kbd (ms_kbd s'), (hooks s).1.2, (hooks s).2) ->
     owns (if a.1 =? 0 then hook_id_kbd (ms_kbd s') :: ks else ks) g (ms_world s') -> Q a s') ->
  wp (in_kbd kbc_subscribe) Q s.
Proof. intros Ho HQ. apply wp_zoom. eapply wp_mono; [by apply kbd_subscribes|]. intros a [c w] [He Ho']. by apply HQ. Qed.

Lemma wp_timer_subscribes (Q : Z * Z -> main_st W -> Prop) s ks g :
  owns ks g (ms_world s) ->
  (forall a s', (exists policy h, (a.1 =? 0) = ((sys_irqsetpolicy TIMER0_IRQ policy h (ms_world s)).1.1 =? 0)) ->
     hooks s' = ((hooks s).1.1, hook_id2 (ms_timer s'), (hooks s).2) ->
     owns (if a.1 =? 0 then hook_id2 (ms_timer s') :: ks else ks) g (ms_world s') -> Q a s') ->
  wp (in_timer timer_subscribe_int) Q s.
Proof. intros Ho HQ. apply wp_zoom. eapply wp_mono; [by apply timer_subscribes|]. intros a [c w] [He Ho']. by apply HQ. Qed.

Lemma wp_mouse_subscribes (Q : Z * Z -> main_st W -> Prop) s ks g :
  owns ks g (ms_world s) ->
  (forall a s', (exists policy h, (a.1 =? 0) = ((sys_irqsetpolicy IRQ12 policy h (ms_world s)).1.1 =? 0)) ->
     hooks s' = ((hooks s).1.1, (hooks s).1.2, hook_id_mouse (ms_mouse s')) ->
     owns (if a.1 =? 0 then hook_id_mouse (ms_mouse s') :: ks else ks) g (ms_world s') -> Q a s') ->
  wp (in_mouse mouse_subscribe) Q s.
Proof. intros Ho HQ. apply wp_zoom. eapply wp_mono; [by apply mouse_subscribes|]. intros a [c w] [He Ho']. by apply HQ. Qed.

(** One driver after the other gives its hook back. *)
Lemma wp_gives_back {C} (l : lens (main_st W) (C * W)) (hook : C -> Z) (m : M (C * W) Z) (Q : Z -> main_st W -> Prop) s ks1 ks2 g :
  unsubscribes hook m -> (forall c w s, ms_world (lset l (c, w) s) = w) -> (lget l s).2 = ms_world s ->
  owns (ks1 ++ hook (lget l s).1 :: ks2) g (ms_world s) ->
  (forall r c w, owns (if r =? 0 then ks1 ++ ks2 else ks1 ++ hook (lget l s).1 :: ks2) g w -> Q r (lset l (c, w) s)) ->
  wp (zoom l m) Q s.
Proof.
  intros Hm Hl Hw Ho HQ. apply wp_zoom. eapply wp_mono; [apply Hm|]. intros r [c w] Ha. apply HQ.
  rewrite Hw in Ha. cbn [snd] in Ha. destruct (r =? 0); [by eapply owns_release|by eapply owns_same].
Qed.

(** The run returns 0 exactly when everything is given back. *)
Definition balanced (r : Z) s : Prop := r = 0 <-> account_of (ms_world s) = clean.

Lemma wlp_fails ks g s : ks <> [] \/ g = true -> owns ks g (ms_world s) -> wlp (ret 1) balanced s.
Proof. intros Hd Ho. apply wlp_ret. split; [done|]. intros Hc. by destruct (owns_dirty _ _ _ Ho Hd). Qed.

Ltac fails Ho := eapply wlp_fails; [|exact Ho]; first [by right|by left].

Lemma wlp_tear_down fuel s :
  owns [(hooks s).2; (hooks s).1.2; (hooks s).1.1] true (ms_world s) -> wlp (tear_down fuel) balanced s.
Proof.
  intros Ho. unfold tear_down.
  eapply wlp_main_bind; [rel_all|done|]. intros r s1 Hs1 Ho1. rewrite <- (main_account_hooks _ _ Hs1) in Ho1.
  destruct (r =? 0); cbn [negb]; [|by fails Ho1]. clear Hs1.
  apply wlp_bind, wp_wlp. apply (wp_gives_back l_timer hook_id2 _ _ _ [(hooks s1).2] [(hooks s1).1.1] true);
    [apply timer_unsubscribes|done|done|exact Ho1|]. intros r2 c2 w2 Ho2.
  destruct (r2 =? 0); cbn [negb app] in *; [|by fails Ho2].
  apply wlp_bind, wp_wlp. apply (wp_gives_back l_kbd hook_id_kbd _ _ _ [(hooks s1).2] [] true);
    [apply kbd_unsubscribes|done|done|exact Ho2|]. intros r3 c3 w3 Ho3.
  destruct (r3 =? 0); cbn [negb app] in *; [|by fails Ho3].
  apply wlp_bind, wp_wlp. apply (wp_gives_back l_mouse hook_id_mouse _ _ _ [] [] true);
    [apply mouse_unsubscribes|done|done|exact Ho3|]. intros r4 c4 w4 Ho4.
  destruct (r4 =? 0); cbn [negb app] in *; [|by fails Ho4].
  apply wlp_bind, wp_wlp, wp_zoom, wp_call.
  cbn [lget lset l_world l_mouse l_kbd l_timer ms_world fst snd]. pose proof (mode_left w4) as Hleft.
  destruct (vg_exit w4) as [r5 w5]. cbn [fst snd].
  destruct (r5 =? 0); cbn [negb]; [|apply (wlp_fails [] true); [by right|by eapply owns_same]].
  eapply (wlp_main_bind _ _ _ _ [] false); [|cbn; by eapply owns_switch|].
  - apply main_in_video. unfold clear_buffer. rel_all.
  - intros _ s6 _ Ho6. apply wlp_ret. split; [|done]. intros _. by apply owns_clean.
Qed.

(** (C24) The resources of a run that starts with nothing taken from the kernel: when the kernel
    accepts the first subscription and [proj_main_loop] returns, it
    returns 0 exactly when it has given everything back, the three interrupt lines
    and the graphics mode. So a run that ends as meant leaves nothing behind, and
    every other return, from the set-up or from the tear-down, leaves a
    subscription or the graphics mode. *)
Theorem returns_0_iff_clean (fuel : nat) (r : Z) s s' :
  account_of (ms_world s) = clean ->
  (forall policy h (w : W), (sys_irqsetpolicy IRQ1 policy h w).1.1 = 0) ->
  proj_main_loop fuel s = Done r s' ->
  r = 0 <-> account_of (ms_world s') = clean.
Proof.
  intros Hc Hkbd E. enough (wlp (proj_main_loop fuel) balanced s) as Hw by (unfold wlp in Hw; by rewrite E in Hw).
  clear E. apply owns_clean in Hc as Ho. unfold proj_main_loop.
  do 9 main_step. unfold serve.
  apply wlp_bind, wp_wlp. eapply wp_kbd_subscribes; [eassumption|]. intros [r1 b1] s10 (policy & h & Er) Hh1 Ho1.
  rewrite Hkbd in Er. cbn [fst] in *. rewrite Er in *. cbn [negb Z.eqb] in *.
  apply wlp_bind, wp_wlp. eapply wp_timer_subscribes; [exact Ho1|]. intros [r2 b2] s11 _ Hh2 Ho2. cbn [fst] in *.
  destruct (r2 =? 0); cbn [negb]; [|by fails Ho2].
  apply wlp_bind, wp_wlp. eapply wp_mouse_subscribes; [exact Ho2|]. intros [r3 b3] s12 _ Hh3 Ho3. cbn [fst] in *.
  destruct (r3 =? 0); cbn [negb]; [|by fails Ho3].
  assert (owns [(hooks s12).2; (hooks s12).1.2; (hooks s12).1.1] false (ms_world s12)) as Ho4.
  { rewrite Hh3, Hh2, Hh1. exact Ho3. }
  eapply wlp_main_bind; [rel_all|exact Ho4|]. intros r4 s13 Hs13 Ho5. rewrite <- (main_account_hooks _ _ Hs13) in Ho5.
  destruct (r4 =? 0); cbn [negb]; [|by fails Ho5].
  apply wlp_bind, wlp_zoom. eapply wlp_mono; [by eapply wlp_vg_start_owns; exact Ho5|]. intros r5 [v w] Ho6.
  cbn [snd] in Ho6. destruct (r5 =? 0); cbn [negb]; [|by fails Ho6].
  eapply wlp_main_bind; [rel_all|exact Ho6|]. intros _ s14 Hs14 Ho7.
  eapply wlp_main_bind; [apply main_messages|exact Ho7|]. intros _ s15 Hs15 Ho8.
  apply wlp_tear_down. rewrite (main_account_hooks _ _ Hs15), (main_account_hooks _ _ Hs14). exact Ho8.
Qed.

(** A step that also returns. *)
Lemma wp_main_bind {A B} (m : M (main_st W) A) (k : A -> M (main_st W) B) P Q s ks g :
  wp m P s -> keeps_rel main_account m -> owns ks g (ms_world s) ->
  (forall a s', P a s' -> owns ks g (ms_world s') -> wp (k a) Q s') -> wp (bind m k) Q s.
Proof.
  intros Hw Hm Ho Hk. apply wp_bind. pose proof (Hm s) as Hs. unfold wp, wlp in *. destruct (m s) as [a s'| | |]; [|done..].
  apply Hk; [done|]. eapply owns_same; [done|]. apply Hs.
Qed.

Lemma wp_get_date (s : rtc_st * W) : wp get_date (fun _ _ => True) s.
Proof.
  unfold get_date, read_reg. repeat first
    [ apply wp_bind, wp_zoom, wp_bind, wp_call, wp_bind, wp_util_sys_inb, wp_ret | apply wp_bind, wp_modify, wp_ret ]. done.
Qed.

Section SetUp.
Context `{!RandLaws W}.
Variables (accepts : Z -> bool) (reporting bios : Z) (info : vbe_mode_info_t).
(** What the kernel, the mouse and the BIOS answer during the set-up. *)
Hypothesis kernel_answers : forall line policy h (w : W), ((sys_irqsetpolicy line policy h w).1.1 =? 0) = accepts line.
Hypothesis mouse_answers : forall w : W, (mouse_enable_data_reporting w).1 = reporting.
Hypothesis bios_answers : forall i ax bx (w : W), (sys_int86 i ax bx w).1 = bios.
Hypothesis mode_known : forall mode (w : W), (vbe_get_mode_info mode w).1 = (0, info).
Hypothesis memory_granted : forall b l (w : W), (sys_privctl_add_mem b l w).1 = 0.
Hypothesis mode_fits : mode_wf info.

(** The lines accepted before the first refusal. *)
Fixpoint granted (lines : list Z) : nat :=
  match lines with [] => O | l :: lines => if accepts l then S (granted lines) else O end.
Definition lines : list Z := [IRQ1; TIMER0_IRQ; IRQ12].

Lemma wp_vg_start_fails mode (s : video_st * W) :
  bios <> 0 -> wp (vg_start mode) (fun r _ => r = 1) s.
Proof.
  intros Hb. destruct s as [v w].
  destruct (vbe_get_mode_info mode w) as [ri w1] eqn:E1. pose proof (mode_known mode w) as Hi. rewrite E1 in Hi. simpl in Hi. subst ri.
  destruct (sys_privctl_add_mem (PhysBasePtr info) (u32 (PhysBasePtr info + screen_size info)) w1) as [rp w2] eqn:E2.
  destruct (malloc (screen_size info) w2) as [al w3] eqn:E3.
  destruct (vm_map_phys (PhysBasePtr info) (screen_size info) w3) as [mp w4] eqn:E4.
  destruct (sys_int86 0x10 0x4F02 (Z.lor (BIT 14) mode) w4) as [rb w5] eqn:E5.
  destruct (vg_start_eq mode v w w1 w2 w3 w4 w5 info rp rb al mp E1 mode_fits E2 E3 E4 E5) as (v' & E & _).
  unfold wp. rewrite E. pose proof (memory_granted (PhysBasePtr info) (u32 (PhysBasePtr info + screen_size info)) w1) as Hp.
  rewrite E2 in Hp. simpl in Hp. subst rp. pose proof (bios_answers 0x10 0x4F02 (Z.lor (BIT 14) mode) w4) as Hr.
  rewrite E5 in Hr. simpl in Hr. subst rb. by replace (bios =? 0) with false by lia.
Qed.

(** The set-up up to the first subscription: it returns, having taken nothing. *)
Lemma wp_until_subscribing n (Q : Z -> main_st W -> Prop) s :
  owns [] false (ms_world s) -> length (cardArray (ms_game s)) = 16%nat ->
  (8 <= length (distinct (draws (S n) (srand_time (ms_world s)))))%nat ->
  (forall s', owns [] false (ms_world s') -> wp (serve (S n)) Q s') ->
  wp (proj_main_loop (S n)) Q s.
Proof.
  intros Ho Hl Hd HQ. unfold proj_main_loop.
  apply (wp_main_bind _ _ (fun _ s1 => ms_world s1 = srand_time (ms_world s) /\ ms_game s1 = ms_game s) _ _ [] false);
    [by apply wp_zoom, wp_modify|rel_all|done|]. intros _ s1 [Ew Eg] H1'. apply wp_bind, wp_gets.
  eapply (wp_main_bind _ _ (fun _ _ => True)); [|rel_all|exact H1'|].
  { apply wp_zoom. cbn [lget l_world]. rewrite Ew, Eg. apply (wp_deal_board n); [done|done|by intros; exact I]. }
  intros cards s2 _ H2'. apply wp_bind, wp_modify, wp_bind, wp_modify, wp_bind, wp_modify.
  eapply wp_main_bind; [by apply (wp_load_images (fun _ _ => True))|apply main_load|exact H2'|]. intros _ s3 _ H3'. apply wp_bind, wp_modify.
  eapply (wp_main_bind _ _ (fun _ _ => True)); [apply wp_zoom, wp_get_date|rel_all|exact H3'|].
  intros _ s4 _ H4'. by apply HQ.
Qed.

Definition left_behind (s : main_st W) : Prop :=
  in_graphics (account_of (ms_world s)) = false /\ base.size (held (account_of (ms_world s))) = granted lines.

Lemma owns_left ks s : owns ks false (ms_world s) -> length ks = granted lines -> left_behind s.
Proof. intros [E Hn] Hl. unfold left_behind. rewrite E. split; [done|]. simpl. by rewrite size_list_to_set. Qed.

(** The set-up that fails: when the kernel refuses a line, or the mouse or the BIOS
    fails, [proj_main_loop] returns 1 and leaves the subscriptions it had been
    granted: as many hooks as lines were accepted before the first refusal, three
    when the mouse or the graphics mode failed. Nothing is undone. *)
Theorem setup_failure_leaves (n : nat) s :
  account_of (ms_world s) = clean -> length (cardArray (ms_game s)) = 16%nat ->
  (8 <= length (distinct (draws (S n) (srand_time (ms_world s)))))%nat ->
  (granted lines < 3)%nat \/ reporting <> 0 \/ bios <> 0 ->
  exists s', proj_main_loop (S n) s = Done 1 s' /\ left_behind s'.
Proof.
  intros Hc Hl Hd Hfail.
  enough (wp (proj_main_loop (S n)) (fun r s' => r = 1 /\ left_behind s') s) as Hw.
  { apply wp_inv in Hw as (r & s' & E & -> & Hs'). eauto. }
  apply owns_clean in Hc. apply wp_until_subscribing; [done..|]. clear s Hc Hl Hd. intros s4 H4'. unfold serve.
  apply wp_bind. eapply wp_kbd_subscribes; [exact H4'|]. intros [r1 b1] s5 (p1 & h1 & E1) _ Ho1.
  rewrite kernel_answers in E1. cbn [fst] in *. rewrite E1 in Ho1 |- *. unfold granted, lines in Hfail.
  destruct (accepts IRQ1) eqn:A1; cbn [negb]; [|apply wp_ret; split; [done|];
    apply (owns_left _ _ Ho1); unfold granted, lines; by rewrite A1].
  apply wp_bind. eapply wp_timer_subscribes; [exact Ho1|]. intros [r2 b2] s6 (p2 & h2 & E2) _ Ho2.
  rewrite kernel_answers in E2. cbn [fst] in *. rewrite E2 in Ho2 |- *.
  destruct (accepts TIMER0_IRQ) eqn:A2; cbn [negb]; [|apply wp_ret; split; [done|];
    apply (owns_left _ _ Ho2); unfold granted, lines; by rewrite A1, A2].
  apply wp_bind. eapply wp_mouse_subscribes; [exact Ho2|]. intros [r3 b3] s7 (p3 & h3 & E3) _ Ho3.
  rewrite kernel_answers in E3. cbn [fst] in *. rewrite E3 in Ho3 |- *.
  destruct (accepts IRQ12) eqn:A3; cbn [negb]; [|apply wp_ret; split; [done|];
    apply (owns_left _ _ Ho3); unfold granted, lines; by rewrite A1, A2, A3].
  assert (granted lines = 3%nat) as Hg by (unfold granted, lines; by rewrite A1, A2, A3).
  eapply (wp_main_bind _ _ (fun r _ => r = reporting)); [by apply wp_zoom, wp_call; apply mouse_answers|rel_all|exact Ho3|].
  intros r4 s8 -> Ho4. destruct (Z.eqb_spec reporting 0) as [Er|Er]; cbn [negb].
  2: { apply wp_ret. split; [done|]. by apply (owns_left _ _ Ho4). }
  apply wp_bind, wp_zoom. assert (bios <> 0) as Hb by (destruct Hfail as [?|[?|?]]; [lia|done|done]).
  eapply wp_mono; [apply wp_wlp_conj; [by apply wp_vg_start_fails|by eapply wlp_vg_start_owns; exact Ho4]|].
  intros r5 [v w] [-> Ho5]. cbn [Z.eqb negb snd] in *. apply wp_ret. split; [done|]. eapply owns_left; [exact Ho5|done].
Qed.
End SetUp.
End Program.

(** ** A concrete environment

    A kernel that keeps account and always refuses the given line, a keyboard and
    mouse that send the given bytes (and then acknowledge), and a screen of one
    pixel with empty pixmaps. *)
Record desk (refused : option Z) : Type := Desk {
  d_account : account;
  d_bytes : list Z;
  d_messages : list Z;
  d_random : Z
}.
Arguments Desk {_}.
Arguments d_account {_}.
Arguments d_bytes {_}.
Arguments d_messages {_}.
Arguments d_random {_}.

Section Desk.
Context {refused : option Z}.

Definition set_account (a : account) (w : desk refused) : desk refused := Desk a (d_bytes w) (d_messages w) (d_random w).
Definition desk_accepts (line : Z) : bool := negb (bool_decide (refused = Some line)).
Definition new_hook (hs : gset Z) : Z := foldr Z.max 0 (elements hs) + 1.
Definition one_pixel : vbe_mode_info_t := ModeInfo 1 1 24 0 8 16 8 8 8 0.

Lemma new_hook_fresh hs : new_hook hs ∉ hs.
Proof.
  unfold new_hook. intros Hin. apply elem_of_elements in Hin.
  enough (forall l x, x ∈ l -> x <= foldr Z.max 0 l) as Hle by (apply Hle in Hin; lia).
  intros l x. induction 1; simpl; lia.
Qed.

#[export] Instance desk_io : PortIO (desk refused) := {|
  sys_inb p w :=
    if p =? 0x60 then
      match d_bytes w with
      | b :: l => ((0, b), Desk (d_account w) l (d_messages w) (d_random w))
      | [] => ((0, IS_OK), w)
      end
    else if p =? 0x64 then ((0, OUT_BUFF), w) else ((0, 0), w);
  sys_outb _ _ w := (0, w);
  tickdelay_us _ w := w
|}.

#[export] Instance desk_irq : Irq (desk refused) := {|
  sys_irqsetpolicy line _ hook w :=
    if desk_accepts line
    then let k := new_hook (held (d_account w)) in ((0, k), set_account (hold k (d_account w)) w)
    else ((1, hook), w);
  sys_irqrmpolicy hook w := ((0, hook), set_account (release hook (d_account w)) w)
|}.

#[export] Instance desk_lcf : Lcf (desk refused) := {|
  kbd_print_scancode _ _ _ w := (0, w);
  kbd_print_no_sysinb _ w := (0, w);
  timer_print_config _ _ _ w := (0, w);
  timer_print_elapsed_time w := (0, w);
  mouse_print_packet _ w := w;
  mouse_enable_data_reporting w := (0, w);
  minix_get_dflt_kbc_cmd_byte w := (0x47, w)
|}.

#[export] Instance desk_display : Display (desk refused) := {|
  vbe_get_mode_info _ w := ((0, one_pixel), w);
  sys_privctl_add_mem _ _ w := (0, w);
  malloc _ w := (true, w);
  free w := w;
  vm_map_phys _ _ w := (true, w);
  sys_int86 i ax _ w :=
    (0, if (i =? 0x10) && (ax =? 0x4F02) then set_account (switch true (d_account w)) w else w);
  vg_exit w := (0, set_account (switch false (d_account w)) w);
  xpm_load _ _ w := (Image 0 0 0 None, w)
|}.

#[export] Instance desk_libc : Libc (desk refused) := {|
  srand_time w := w;
  rand w := (d_random w mod 52, Desk (d_account w) (d_bytes w) (d_messages w) (d_random w + 1));
  sleep _ w := w
|}.

#[export] Instance desk_messages : Messages (desk refused) := {|
  driver_receive w :=
    match d_messages w with
    | i :: l => (Receive 0 true true i, Desk (d_account w) (d_bytes w) l (d_random w))
    | [] => (Receive 0 false false 0, w)
    end
|}.

#[export] Instance desk_kernel : Kernel (desk refused) := {| account_of := d_account |}.

#[export] Instance desk_rand_laws : RandLaws (desk refused).
Proof. split. intros w. simpl. pose proof (Z.mod_pos_bound (d_random w) 52). unfold RAND_MAX. lia. Qed.

#[export] Instance desk_laws : KernelLaws (desk refused).
Proof.
  split; try done.
  - intros line policy h w. simpl. destruct (desk_accepts line); simpl; [|done]. split; [apply new_hook_fresh|done].
  - intros p w. simpl. repeat case_match; done.
  - intros w. simpl. by destruct (d_messages w).
Qed.

(** A run: the player presses E in the menu, and the next tick ends the program. *)
Definition desk_start : main_st (desk refused) :=
  MainSt (TimerSt 0 0) kbd_init_st mouse_init_st rtc_init_st (test_game create_mouse) test_video loop_init_st
    (Desk clean [E_KEY_BREAKCODE] [3; 1] 0).
End Desk.

Lemma returns_0_iff_clean_witness :
  exists s', proj_main_loop 10 (desk_start (refused := None)) = Done 0 s' /\ account_of (ms_world s') = clean.
Proof.
  destruct (proj_main_loop 10 (desk_start (refused := None))) as [r s'| | |] eqn:E; [|exfalso; vm_compute in E; congruence..].
  assert (r = 0) as Hr by (vm_compute in E; congruence).
  exists s'. split; [by rewrite Hr|]. by apply (returns_0_iff_clean 10 r desk_start s').
Defined.

Lemma setup_failure_leaves_witness :
  exists s', proj_main_loop 10 (desk_start (refused := Some IRQ12)) = Done 1 s' /\
    base.size (held (account_of (ms_world s'))) = 2%nat.
Proof.
  destruct (setup_failure_leaves (W := desk (Some IRQ12)) (fun line => negb (bool_decide (line = IRQ12))) 0 0 one_pixel)
    with (n := 9%nat) (s := desk_start (refused := Some IRQ12)) as (s' & E & _ & Hs).
  - intros line policy h w. simpl. unfold desk_accepts. do 2 case_bool_decide; try done; congruence.
  - done.
  - done.
  - done.
  - done.
  - by vm_compute.
  - done.
  - done.
  - vm_compute. lia.
  - left. vm_compute. lia.
  - exists s'. split; [exact E|]. rewrite Hs. by vm_compute.
Defined.
