(* ===== verification/Mains.v ===== *)
(** The functions [main]: they set up the LCF, hand over to it and clean up. The LCF
    calls the tests of the laboratories and [proj_main_loop] of the game; it is a
    parameter. *)
From S2P Require Import Prelude Env.

(** The LCF of a program: its settings, the run of the function its arguments name
    (the LCF's own result), the clean-up. *)
Class Session (W : Type) : Type := {
  lcf_set_language : string -> W -> W;
  lcf_trace_calls : string -> W -> W;
  lcf_log_output : string -> W -> W;
  lcf_start : list string -> W -> Z * W;
  lcf_cleanup : W -> W
}.

Section Mains.
Context {W : Type} `{Session W}.

(** proj/src/proj.c:70-92 [main], with the names of its two files as arguments. *)
Definition main_with (trace output : string) (argv : list string) : M W Z :=
  modify (lcf_set_language "EN-US") ;;
  modify (lcf_trace_calls trace) ;;
  modify (lcf_log_output output) ;;
  let* r := call (lcf_start argv) in
  if negb (r =? 0) then ret 1 else
  modify lcf_cleanup ;;
  ret 0.

(** proj/src/proj.c:70-92 [main] *)
Definition proj_main : list string -> M W Z :=
  main_with "/home/lcom/labs/g02/proj/src/trace.txt" "/home/lcom/labs/g02/proj/src/output.txt".
(** lab2/lab2.c:9-31 [main] *)
Definition lab2_main : list string -> M W Z := main_with "./trace.txt" "./output.txt".
(** lab3/lab3.c:12-34 [main] *)
Definition lab3_main : list string -> M W Z := main_with "./trace.txt" "./output.txt".
(** lab4/lab4.c:20-42 [main] *)
Definition lab4_main : list string -> M W Z := main_with "./trace.txt" "./output.txt".
(** lab5/lab5.c:17-39 [main] *)
Definition lab5_main : list string -> M W Z := main_with "./trace.txt" "./output.txt".

(** * Lemmas *)

(** The world when the LCF takes over. *)
Definition prepared (trace output : string) (w : W) : W :=
  lcf_log_output output (lcf_trace_calls trace (lcf_set_language "EN-US" w)).

(** A program returns 0 and cleans up when the LCF's run succeeds; it returns 1, and
    does not clean up, when it fails. *)
Lemma main_with_result trace output argv (w : W) :
  main_with trace output argv w =
    let '(r, w') := lcf_start argv (prepared trace output w) in
    if r =? 0 then Done 0 (lcf_cleanup w') else Done 1 w'.
Proof.
  unfold main_with, prepared, bind, modify, call. destruct (lcf_start _ _) as [r w']. by destruct (r =? 0).
Qed.
End Mains.
